(* ===== verification/_CoqProject ===== *)
-Q . S2P
Prelude.v
Types.v
Evidence.v
Feasibility.v
FeasibilitySpec.v
StdSort.v
Economics.v
Digest.v
DigestSpec.v
Codec.v
Plan.v
Explain.v
Planner.v
PlannerSpec.v
SortSpec.v
Lifecycle.v
LifecycleSpec.v
Executor.v
Program.v
Cli.v
DecisionProps.v
LifecycleProps.v
Snapshot.v
SnapshotSpec.v
CrcSpec.v
Persistence.v
PersistenceSpec.v
PersistenceProps.v
Tool.v
Examples.v
Durable.v
Text.v
Typing.v
Concurrency.v
TestSuite.v
Schedules.v
Benchmark.v
Protocol.v
Transport.v
Sockets.v
Network.v
NetworkSpec.v
NetworkProps.v
Coordinator.v
CoordinatorSpec.v
CoordinatorProps.v
Launch.v
SystemProps.v
Cuda.v
CudaProps.v
