(* ===== verification/Prelude.v ===== *)
(** * Recovery Planner: a verification development

    The program decides how to recover a failed workload and sees the decision
    through.  [include/recovery_planner/] and [src/] hold the library: a planner
    that judges candidate strategies against evidence, ranks the feasible ones,
    issues a fenced plan, authorises it, hands it to an executor, accepts reports
    about it, and keeps its state in a store across restarts.  [distributed/] holds
    a coordinator process and worker processes that carry a plan out over framed
    TCP; [tools/rplanner.cpp] is a command line front end, and [cuda/] a demonstration
    that recovers a computation on a GPU.

    ** The files

    Each component has a file of definitions that follow the source, for most a
    [...Spec] file with its lemmas, and its main theorems in one of the [...Props]
    files.

    - This file: machine integers with their wrap-around, text and bytes, boolean
      case analysis, the hint database [rp] and the notation [>>>] for statements
      in sequence (scope [rp_scope]).
    - [Types], [Evidence]: [types.hpp], [strategy.hpp], [error.hpp], [clock.hpp];
      [evidence.hpp], [candidate.hpp], [request.hpp], [planner_context.hpp].
    - [Feasibility], [FeasibilitySpec]: [feasibility.hpp], [feasibility.cpp].  One
      definition per numbered check of [evaluate_feasibility].
    - [StdSort]: the contract of [std::sort], a class; [Economics]: [economics.hpp],
      [economics.cpp] (deadline evaluation, cost factors, ranking comparator).
    - [Digest], [DigestSpec], [CrcSpec], [Codec]: [digest.hpp], [digest.cpp], and the
      interface every byte format of the program is proved against.
    - [Plan], [Explain]: [plan.hpp], [plan.cpp], the messages of [executor.hpp], the
      payload, digest and explanation [planner.cpp] writes.
    - [Planner], [PlannerSpec]: the planner's state ([RecoveryPlanner::Impl]) and
      [plan]; the declarative specification it refines.  [SortSpec]: the whole
      decision does not depend on the sort.
    - [Lifecycle], [LifecycleSpec]: every other method of the planner that does not
      touch the store; histories of events and their invariant.
    - [Executor]: the interface [IRecoveryExecutor], its law, and the reference
      executor of [executor.cpp].
    - [Program]: the monad of a C++ [main] that can throw, return an exit code and
      write to its two streams, shared by every program below.
    - [Cli]: the scenarios of [rplanner.cpp], whose candidates serve as inputs of
      witnesses.  [DecisionProps], [LifecycleProps]: the theorems up to here.
    - [Snapshot], [SnapshotSpec]: [encode_snapshot] and [apply_snapshot].
    - [Persistence], [PersistenceSpec], [PersistenceProps]: [persistence.hpp],
      [persistence.cpp], and [save_state], [load_state], [restart_coordinator].
    - [Durable]: the life of a coordinator across restarts.
    - [Text], [Typing]: the widths of the C++ types as an invariant of the planner,
      kept by every operation; on it rests that a planner can always be stored.
    - [Concurrency]: threads that call one planner; a schedule of their critical
      sections.
    - [TestSuite], [Schedules]: the repository's tests of [tests/] that run in one
      process, as executable cases, and those of [test_concurrency.cpp], over every
      schedule.  [Benchmark]: [benchmark_planning.cpp].
    - [Protocol], [Transport], [Sockets]: [protocol.cpp]; the frames and the
      descriptors of [transport.cpp].
    - [Network], [NetworkSpec], [NetworkProps]: the worker process
      ([worker_main.cpp]) and [NetworkExecutor] of [coordinator_main.cpp].
    - [Coordinator], [CoordinatorSpec], [CoordinatorProps]: both programs of
      [coordinator_main.cpp].  [Launch]: its [main], with the workers it starts and
      kills and its exit codes.  [SystemProps]: these programs run together with the
      worker processes they start.
    - [Tool]: [main] and the output of [rplanner.cpp].  [Examples]:
      [recovery_examples.cpp].
    - [Cuda], [CudaProps]: [cuda_recovery_proof.cu].

    ** How state and operations correspond

    [Planner.Planner] has a member per member of [Impl] that the mutex protects.  A
    method is a function from the state to its result and the new state, run as
    one step; [dispatch_plan] and [on_adapter_completion] release the mutex in
    between, and are composed of their halves.  A concurrent run is a choice of the
    thread that enters the mutex next ([Concurrency.sys_step]); in order of entry it
    is a list of [LifecycleSpec.Event]s.  An exception is the [Throw] of [Result]; the state
    that comes with it is what the method left.  The clock is an argument: one
    reading per call of [now()], which goes to an instance of [Types.Clock] (the
    system clock or the tests' clock).  Executors and stores are classes
    ([RecoveryExecutor], [PersistenceStore]) with a law each ([LawfulExecutor],
    [LawfulStore]); the planner's theorems use the laws only, and the instances
    (reference and network executor, store in memory and in files) discharge them.
    [std::map] and [std::unordered_map] are [gmap]s, iterated in key order where
    the source writes them out.  What the system does to a call is data: the
    segments a socket delivers, the results of its sends, the faults of a save,
    which calls of the CUDA library fail, what they measure, and the order in
    which a GPU runs the threads of a launch.

    ** What the theorems show

    - Decision: [plan] refines a specification without indices or sorting;
      feasibility is equivalent to a conjunction over the evidence; verdicts have a
      fixed priority and a ground for each rejection; the decision does not depend
      on the order of candidates or on the sort; constraints are kept.
    - Lifecycle: the invariant of every reachable state, finality of terminal
      outcomes, exact behaviour of each operation on each branch, and the whole way
      from a decision to a published success.
    - Types: every value a life of the planner produces has the width of its C++
      type, so every state it reaches can be written and read back.
    - Threads: the methods of one critical section are linearisable; a plan reaches an
      executor at most once; the first of several concurrent reports decides the
      outcome; planning finds a candidate that was eligible before the threads
      started, unless one of their calls disturbs it; a dispatch nobody interrupts
      is the call the rest of the development uses.
    - Tests: the cases of the repository's test programs hold, for every conforming
      [std::sort] and, for the concurrent ones, for every schedule.
    - Durability: snapshots and frames round trip; corruption of a byte and bursts
      of up to four bytes are detected; every fault and every crash point of a
      save; what a restart does; the invariant, the finality and the origin of
      every success over any sequence of events, saves and restarts.
    - Distribution: messages are delivered whole and in order over any
      fragmentation; only whole frames are accepted; a worker ends on every finite
      stream; the two programs succeed with workers that follow the protocol and
      refuse the stale reports they try; run together, the processes agree on every
      byte they exchange; the coordinator's exit code 0 means a recovery whatever
      the network does; every descriptor has one owner and is closed once.
    - Benchmark: it runs to its end, each call finds a plan or is recorded, and its
      saves and loads succeed.
    - Front ends: what the command line tool prints and returns for each scenario
      and each file; the GPU demonstration passes its own checks in every order of
      the threads and for every measured duration, and stops early, with code 3,
      exactly when a call of the CUDA library fails that it makes on the way there.

    Some theorems and lemmas record behaviour that differs from what a comment
    says or the code intends: [unknown_becomes_feasible], [authority_flags_ignored],
    [preserved_progress_ranks_first],
    [reload_reuses_plan_identity], [restart_epoch_reissued], [dispatch_ids_collide],
    [fresh_plan_authority], [cancel_exact], [file_save_crash_points],
    [completion_identity_ignored], [cut_registration_accepted], [validate_exact],
    [descriptor_zero_kept], [rebinding_leaks], [benchmark_completes].

    ** Bounds and fuel

    Identities are 64 bits wide and wrap; the invariants are stated for fewer than
    2^64 - 1 steps, before the plan counter does; the theorem on types, and that no
    plan is dispatched twice, for fewer than 2^32 steps, so that the collections of a snapshot have
    a length that fits its 32-bit count.  [Digest.r_cstring] looks for the
    NUL within the 4096 characters the reader allows and one more.
    [Digest.pad_loop] has fuel 64: a SHA-256 padding adds fewer than 64 zero bytes.
    [Network.worker_loop] has the length of its stream as fuel, and each frame
    consumes thirteen bytes at least ([worker_terminates]).  Loops over untrusted
    counts recurse on the count.

    ** Not modelled

    What the system's calls do (sockets, processes, files, the CUDA library, the
    system clock): their results are arguments.  The printing of the coordinator,
    the workers and the GPU demonstration.  The times the benchmark
    measures.
    The methods that inspect a planner without its mutex, while another thread
    changes it: that is a data race, without a meaning in C++.  [load_state]
    is in no schedule of [Concurrency]: it is for a planner no other thread has yet.
    [keys()], [flush()] and [name()] of the stores have no effect on them.  A call
    that runs out of memory is not modelled. *)

From Stdlib Require Import ZArith Lia Ascii String DecimalString DecimalZ.
From stdpp Require Import base gmap strings list sorting numbers.

#[local] Open Scope Z_scope.

(** ** Machine integers

    Every integer of the program is a [Z]; these functions write out the
    wrap-around of its C++ type. *)

(** [static_cast] to an unsigned type of [w] bits. *)
Definition wrap_u (w z : Z) : Z := z mod 2 ^ w.

Definition u8 : Z -> Z := wrap_u 8.
Definition u16 : Z -> Z := wrap_u 16.
Definition u32 : Z -> Z := wrap_u 32.
Definition u64 : Z -> Z := wrap_u 64.

(** Conversion to [std::int64_t]: two's complement. *)
Definition i64 (z : Z) : Z := (z + 2 ^ 63) mod 2 ^ 64 - 2 ^ 63.

(** Conversion to [int]. *)
Definition i32 (z : Z) : Z := (z + 2 ^ 31) mod 2 ^ 32 - 2 ^ 31.

Definition INT64_MAX : Z := 2 ^ 63 - 1.
Definition INT64_MIN : Z := - 2 ^ 63.

(** Representability in [w] unsigned bits and in 64 signed bits. *)
Definition is_u (w z : Z) : Prop := 0 <= z < 2 ^ w.
Definition is_i64 (z : Z) : Prop := INT64_MIN <= z <= INT64_MAX.

Lemma wrap_u_range w z : 0 <= w -> is_u w (wrap_u w z).
Proof. intros Hw. apply Z.mod_pos_bound, Z.pow_pos_nonneg; lia. Qed.

Lemma wrap_u_id w z : is_u w z -> wrap_u w z = z.
Proof. intros Hz. by apply Z.mod_small. Qed.

Lemma u64_range z : 0 <= u64 z < 2 ^ 64.
Proof. by apply (wrap_u_range 64). Qed.

Lemma u64_id z : 0 <= z < 2 ^ 64 -> u64 z = z.
Proof. apply wrap_u_id. Qed.

Lemma i64_range z : is_i64 (i64 z).
Proof.
  unfold is_i64, i64, INT64_MIN, INT64_MAX.
  pose proof (Z.mod_pos_bound (z + 2 ^ 63) (2 ^ 64) eq_refl). lia.
Qed.

Lemma i64_id z : is_i64 z -> i64 z = z.
Proof.
  unfold is_i64, i64, INT64_MIN, INT64_MAX. intros Hz.
  rewrite Z.mod_small; lia.
Qed.

(** [static_cast<std::int64_t>] undoes [static_cast<std::uint64_t>]. *)
Lemma i64_u64 z : is_i64 z -> i64 (u64 z) = z.
Proof.
  unfold is_i64, i64, u64, wrap_u, INT64_MIN, INT64_MAX. intros Hz.
  Z.div_mod_to_equations. lia.
Qed.

(** ** Strings and bytes *)

(** [std::to_string] of an integer. *)
Definition to_dec (z : Z) : string := NilZero.string_of_int (Z.to_int z).

(** A [std::string] and the bytes it holds. *)
Definition string_bytes (s : string) : list Z :=
  (fun c => Z.of_N (N_of_ascii c)) <$> list_ascii_of_string s.
Definition bytes_string (l : list Z) : string :=
  string_of_list_ascii ((fun b => ascii_of_N (Z.to_N b)) <$> l).

Definition is_byte (b : Z) : Prop := is_u 8 b.

Lemma bytes_string_bytes s : bytes_string (string_bytes s) = s.
Proof.
  unfold bytes_string, string_bytes.
  induction s as [|c s IH]; [done|]. cbn.
  rewrite N2Z.id, ascii_N_embedding. f_equal. exact IH.
Qed.

Lemma string_bytes_is_byte s : Forall is_byte (string_bytes s).
Proof.
  unfold string_bytes. induction s as [|c s IH]; cbn; constructor; [|done].
  pose proof (N_ascii_bounded c). unfold is_byte, is_u. lia.
Qed.

Lemma string_bytes_app s t : string_bytes (s +:+ t) = string_bytes s ++ string_bytes t.
Proof. unfold string_bytes. induction s as [|c s IH]; [done|]. cbn. by rewrite <- IH. Qed.

Lemma length_string_app s t : String.length (s +:+ t) = (String.length s + String.length t)%nat.
Proof.
  induction s as [|c s IH]; [done|]. change (String c s +:+ t) with (String c (s +:+ t)).
  cbn [String.length]. by rewrite IH.
Qed.

Lemma length_string_bytes s : length (string_bytes s) = String.length s.
Proof. unfold string_bytes. induction s as [|c s IH]; [done|]. cbn. by rewrite <- IH. Qed.

(** ** Boolean automation *)

Create HintDb rp discriminated.
Create Rewrite HintDb rp_rw.

(** Turns boolean equations into propositions and splits conjunctions. *)
Ltac bool_simp :=
  repeat match goal with
  | H : andb _ _ = true |- _ => apply andb_prop in H; destruct H
  | H : orb _ _ = false |- _ => apply orb_false_elim in H; destruct H
  | H : negb _ = true |- _ => apply negb_true_iff in H
  | H : negb _ = false |- _ => apply negb_false_iff in H
  | H : (_ =? _) = true |- _ => apply Z.eqb_eq in H
  | H : (_ =? _) = false |- _ => apply Z.eqb_neq in H
  | H : (_ <? _) = true |- _ => apply Z.ltb_lt in H
  | H : (_ <? _) = false |- _ => apply Z.ltb_ge in H
  | H : (_ <=? _) = true |- _ => apply Z.leb_le in H
  | H : (_ <=? _) = false |- _ => apply Z.leb_gt in H
  | H : bool_decide _ = true |- _ => apply bool_decide_eq_true in H
  | H : bool_decide _ = false |- _ => apply bool_decide_eq_false in H
  end.

(** Case analysis on the condition of every [if] of the goal. *)
Ltac destruct_ifs :=
  repeat match goal with
  | |- context [if ?b then _ else _] =>
      lazymatch type of b with bool => destruct b eqn:? | _ => destruct b end
  end.

(** Evaluates the decision of an equation between constructors. *)
Ltac decide_eqs :=
  repeat match goal with
  | |- context [bool_decide (?a = ?b)] =>
      first [ rewrite (bool_decide_eq_true_2 (a = b)) by reflexivity
            | rewrite (bool_decide_eq_false_2 (a = b)) by discriminate ]
  end.

(** ** [std::optional] *)

(** [o.has_value()] *)
Definition has_value {A} (o : option A) : bool :=
  match o with Some _ => true | None => false end.

Lemma has_value_is_Some {A} (o : option A) : has_value o = true <-> is_Some o.
Proof. destruct o; cbn; split; intros H; try done; eauto. Qed.

(** Statements in sequence. *)
Declare Scope rp_scope.
Definition andthen {A} (f g : A -> A) (x : A) : A := g (f x).
Notation "f >>> g" := (andthen f g) (at level 60, right associativity) : rp_scope.

(** [cond ? f(x) : x], for a guarded update written as an [if] statement. *)
Definition when {A} (b : bool) (f : A -> A) (x : A) : A := if b then f x else x.

(** A statement run on the value of an optional, if it has one. *)
Definition with_some {A B} (o : option A) (f : A -> B -> B) (x : B) : B :=
  match o with Some a => f a x | None => x end.

(** [static_cast<Enum>(z)]: the enumerators in order, then the values past the
    last one, which the underlying type holds too. *)
Definition enum_of_code {A} (enumerators : list A) (other : N -> A) (z : Z) : A :=
  match enumerators !! Z.to_nat z with
  | Some a => a
  | None => other (Z.to_N (z - Z.of_nat (length enumerators)))
  end.

Lemma enum_of_code_other {A} (l : list A) other n :
  enum_of_code l other (Z.of_nat (length l) + Z.of_N n) = other n.
Proof.
  unfold enum_of_code. rewrite lookup_ge_None_2 by lia. f_equal. lia.
Qed.
