(* ===== verification/Types.v ===== *)
(** * Identities, units and the enumerations every component shares

    Models [include/recovery_planner/types.hpp], [error.hpp], [strategy.hpp]
    and [clock.hpp].  An identity or a unit is a [Z] under a phantom tag, so that
    Rocq's type checker refuses the mixing the C++ templates refuse.  An
    enumeration whose values are decoded from bytes has a constructor [OTHER n]
    for the [n]th value of the underlying type past the last enumerator, since
    [static_cast] of an untrusted byte produces those values too. *)

From stdpp Require Import base gmap strings list countable.
From S2P Require Import Prelude.
#[local] Open Scope Z_scope.

(** ** Identities *)

Inductive IdTag :=
| CoordinatorEpochTag | PlannerBootIdTag | WorkloadIdTag | WorkloadGenerationTag
| ExecutionIdTag | ExecutionGenerationTag | FailureIdTag | RecoveryRequestIdTag
| RecoveryPlanIdTag | RecoveryPlanGenerationTag | CandidateIdTag
| CandidateGenerationTag | WorkerIdTag | WorkerBootIdTag | EngineIdTag
| EngineIncarnationIdTag | StateIdTag | StateGenerationTag | CheckpointIdTag
| CheckpointGenerationTag | ResourceSnapshotIdTag | ResourceGenerationTag
| TopologyGenerationTag | CompatibilityGenerationTag | PolicyGenerationTag
| AttemptIdTag | DispatchIdTag.

(** [class Id<Tag, std::uint64_t>]; the value is an unsigned 64-bit integer. *)
Record Id (tag : IdTag) := MkId { value : Z }.
Arguments MkId {tag} value.
Arguments value {tag} i.

Abbreviation CoordinatorEpoch := (Id CoordinatorEpochTag).
Abbreviation PlannerBootId := (Id PlannerBootIdTag).
Abbreviation WorkloadId := (Id WorkloadIdTag).
Abbreviation WorkloadGeneration := (Id WorkloadGenerationTag).
Abbreviation ExecutionId := (Id ExecutionIdTag).
Abbreviation ExecutionGeneration := (Id ExecutionGenerationTag).
Abbreviation FailureId := (Id FailureIdTag).
Abbreviation RecoveryRequestId := (Id RecoveryRequestIdTag).
Abbreviation RecoveryPlanId := (Id RecoveryPlanIdTag).
Abbreviation RecoveryPlanGeneration := (Id RecoveryPlanGenerationTag).
Abbreviation CandidateId := (Id CandidateIdTag).
Abbreviation CandidateGeneration := (Id CandidateGenerationTag).
Abbreviation WorkerId := (Id WorkerIdTag).
Abbreviation WorkerBootId := (Id WorkerBootIdTag).
Abbreviation EngineId := (Id EngineIdTag).
Abbreviation EngineIncarnationId := (Id EngineIncarnationIdTag).
Abbreviation StateId := (Id StateIdTag).
Abbreviation StateGeneration := (Id StateGenerationTag).
Abbreviation CheckpointId := (Id CheckpointIdTag).
Abbreviation CheckpointGeneration := (Id CheckpointGenerationTag).
Abbreviation ResourceSnapshotId := (Id ResourceSnapshotIdTag).
Abbreviation ResourceGeneration := (Id ResourceGenerationTag).
Abbreviation TopologyGeneration := (Id TopologyGenerationTag).
Abbreviation CompatibilityGeneration := (Id CompatibilityGenerationTag).
Abbreviation PolicyGeneration := (Id PolicyGenerationTag).
Abbreviation AttemptId := (Id AttemptIdTag).
Abbreviation DispatchId := (Id DispatchIdTag).

Section Identities.
Context {tag : IdTag}.

(** [Id::null()], [is_valid()], [is_null()], [next()]. *)
Definition id_null : Id tag := MkId 0.
Definition is_valid (i : Id tag) : bool := negb (value i =? 0).
Definition is_null (i : Id tag) : bool := value i =? 0.
Definition next (i : Id tag) : Id tag := MkId (u64 (value i + 1)).

(** [operator==] and [operator<]; the others are defined from them. *)
Definition id_eqb (a b : Id tag) : bool := value a =? value b.
Definition id_ltb (a b : Id tag) : bool := value a <? value b.

(** The identities a [std::uint64_t] can represent. *)
Definition id_wf (i : Id tag) : Prop := is_u 64 (value i).

#[global] Instance Id_eq_dec : EqDecision (Id tag).
Proof. solve_decision. Defined.

#[global] Program Instance Id_countable : Countable (Id tag) :=
  inj_countable' value MkId _.
Next Obligation. by intros []. Qed.

Lemma id_eqb_eq a b : id_eqb a b = true <-> a = b.
Proof.
  unfold id_eqb. rewrite Z.eqb_eq. destruct a, b; cbn. split; congruence.
Qed.

Lemma id_eqb_neq a b : id_eqb a b = false <-> a <> b.
Proof. rewrite <- id_eqb_eq. destruct (id_eqb a b); split; congruence. Qed.

Lemma id_eqb_refl a : id_eqb a a = true.
Proof. by apply id_eqb_eq. Qed.

Lemma negb_is_valid i : negb (is_valid i) = is_null i.
Proof. apply negb_involutive. Qed.

Lemma next_wf i : id_wf (next i).
Proof. apply u64_range. Qed.

(** Advancing an identity that is not the last one gives a larger, valid one. *)
Lemma next_succ i : id_wf i -> value i < 2 ^ 64 - 1 -> value (next i) = value i + 1.
Proof. unfold id_wf, is_u, next; cbn. intros. apply u64_id. lia. Qed.
End Identities.

#[export] Hint Rewrite @id_eqb_refl : rp_rw.

Ltac id_simp :=
  repeat match goal with
  | H : id_eqb _ _ = true |- _ => apply id_eqb_eq in H
  | H : id_eqb _ _ = false |- _ => apply id_eqb_neq in H
  end.

(** ** Units *)

Inductive UnitTag :=
| TimestampTag | DurationTag | ByteCountTag | ProgressUnitsTag | CostUnitsTag
| BandwidthTag.

(** [class Unit<Tag, Rep>]: [Rep] is signed for times, unsigned otherwise. *)
Record Unit (tag : UnitTag) := MkUnit { count : Z }.
Arguments MkUnit {tag} count.
Arguments count {tag} u.

Abbreviation Timestamp := (Unit TimestampTag).
Abbreviation Duration := (Unit DurationTag).
Abbreviation ByteCount := (Unit ByteCountTag).
Abbreviation ProgressUnits := (Unit ProgressUnitsTag).
Abbreviation CostUnits := (Unit CostUnitsTag).
Abbreviation Bandwidth := (Unit BandwidthTag).

(** [static_cast<Rep>]. *)
Definition rep_cast (tag : UnitTag) (z : Z) : Z :=
  match tag with
  | TimestampTag | DurationTag => i64 z
  | _ => u64 z
  end.

Section Units.
Context {tag : UnitTag}.

Definition unit_zero : Unit tag := MkUnit 0.
Definition unit_is_zero (u : Unit tag) : bool := count u =? 0.
Definition unit_add (a b : Unit tag) : Unit tag := MkUnit (rep_cast tag (count a + count b)).
Definition unit_sub (a b : Unit tag) : Unit tag := MkUnit (rep_cast tag (count a - count b)).
Definition unit_neg (a : Unit tag) : Unit tag := MkUnit (rep_cast tag (- count a)).
Definition unit_eqb (a b : Unit tag) : bool := count a =? count b.
Definition unit_ltb (a b : Unit tag) : bool := count a <? count b.

Definition unit_wf (u : Unit tag) : Prop :=
  match tag with
  | TimestampTag | DurationTag => is_i64 (count u)
  | _ => is_u 64 (count u)
  end.

#[global] Instance Unit_eq_dec : EqDecision (Unit tag).
Proof. solve_decision. Defined.

Lemma unit_eqb_eq a b : unit_eqb a b = true <-> a = b.
Proof.
  unfold unit_eqb. rewrite Z.eqb_eq. destruct a, b; cbn. split; congruence.
Qed.
End Units.

(** ** Confidence: basis points in 16 bits *)

Record Confidence := MkConfidence { basis_points : Z }.

Definition from_percent (percent : Z) : Confidence := MkConfidence (u16 (percent * 100)).
Definition confidence_full : Confidence := MkConfidence 10000.
Definition confidence_none : Confidence := MkConfidence 0.
Definition confidence_is_full (c : Confidence) : bool := basis_points c =? 10000.
Definition confidence_is_zero (c : Confidence) : bool := basis_points c =? 0.

(** ** Enumerations of [types.hpp] *)

Module EvidenceProvenance.
Inductive t := MEASURED | DERIVED | ESTIMATED | REPORTED | SYNTHETIC | UNKNOWN.
#[global] Instance eq_dec : EqDecision t.
Proof. solve_decision. Defined.
End EvidenceProvenance.

Module Freshness.
Inductive t := CURRENT | STALE | REVALIDATION_REQUIRED | EXPIRED | UNKNOWN.
#[global] Instance eq_dec : EqDecision t.
Proof. solve_decision. Defined.
End Freshness.

Module EvidenceClassification.
Inductive t := OBSERVED | DERIVED | ESTIMATED | UNKNOWN.
#[global] Instance eq_dec : EqDecision t.
Proof. solve_decision. Defined.
End EvidenceClassification.

(** ** [strategy.hpp] *)

Module RecoveryStrategy.
Inductive t :=
| RESTORE | RESTART | MIGRATE | REHYDRATE | SHADOW_PROMOTE | FAILOVER | RECOMPUTE
| OTHER (n : N).
#[global] Instance eq_dec : EqDecision t.
Proof. solve_decision. Defined.

(** The underlying [std::uint8_t] value, and the cast back. *)
Definition code (s : t) : Z :=
  match s with
  | RESTORE => 0 | RESTART => 1 | MIGRATE => 2 | REHYDRATE => 3
  | SHADOW_PROMOTE => 4 | FAILOVER => 5 | RECOMPUTE => 6
  | OTHER n => 7 + Z.of_N n
  end.

Definition of_code (z : Z) : t :=
  enum_of_code [RESTORE; RESTART; MIGRATE; REHYDRATE; SHADOW_PROMOTE; FAILOVER; RECOMPUTE]
    OTHER z.

Definition to_string (s : t) : string :=
  match s with
  | RESTORE => "RESTORE" | RESTART => "RESTART" | MIGRATE => "MIGRATE"
  | REHYDRATE => "REHYDRATE" | SHADOW_PROMOTE => "SHADOW_PROMOTE"
  | FAILOVER => "FAILOVER" | RECOMPUTE => "RECOMPUTE"
  | OTHER _ => "UNKNOWN"
  end.

Lemma strategy_of_code_code s : of_code (code s) = s.
Proof.
  destruct s as [ | | | | | | | n]; try done. apply (enum_of_code_other [_; _; _; _; _; _; _]).
Qed.

Lemma code_inj a b : code a = code b -> a = b.
Proof. intros H. by rewrite <- (strategy_of_code_code a), H, strategy_of_code_code. Qed.

Lemma code_nonneg s : 0 <= code s.
Proof. destruct s; cbn; lia. Qed.
End RecoveryStrategy.

(** ** [error.hpp] *)

Module ErrorCode.
Inductive t :=
| NONE | INVALID_INPUT | STALE_AUTHORITY | STALE_EVIDENCE | INSUFFICIENT_EVIDENCE
| INFEASIBLE_CANDIDATE | COMPATIBILITY_REJECTION | PERSISTENCE_CORRUPTION
| PROTOCOL_ERROR | RESOURCE_EXHAUSTION | EXECUTION_FAILURE | AMBIGUOUS_OUTCOME
| CANCELLATION | SHUTDOWN | UNSUPPORTED | NOT_FOUND | ALREADY_EXISTS
| CONCURRENT_MODIFICATION | INTERNAL.
#[global] Instance eq_dec : EqDecision t.
Proof. solve_decision. Defined.

Definition to_string (e : t) : string :=
  match e with
  | NONE => "none" | INVALID_INPUT => "invalid_input"
  | STALE_AUTHORITY => "stale_authority" | STALE_EVIDENCE => "stale_evidence"
  | INSUFFICIENT_EVIDENCE => "insufficient_evidence"
  | INFEASIBLE_CANDIDATE => "infeasible_candidate"
  | COMPATIBILITY_REJECTION => "compatibility_rejection"
  | PERSISTENCE_CORRUPTION => "persistence_corruption"
  | PROTOCOL_ERROR => "protocol_error" | RESOURCE_EXHAUSTION => "resource_exhaustion"
  | EXECUTION_FAILURE => "execution_failure" | AMBIGUOUS_OUTCOME => "ambiguous_outcome"
  | CANCELLATION => "cancellation" | SHUTDOWN => "shutdown"
  | UNSUPPORTED => "unsupported" | NOT_FOUND => "not_found"
  | ALREADY_EXISTS => "already_exists"
  | CONCURRENT_MODIFICATION => "concurrent_modification" | INTERNAL => "internal"
  end.
End ErrorCode.

(** A call that returns or throws: [RecoveryError] carries a code and a
    message; the transport throws [std::runtime_error] with a message alone. *)
Record RecoveryError := MkRecoveryError { err_code : ErrorCode.t; err_what : string }.

Inductive Result (E A : Type) :=
| Ok (a : A)
| Throw (e : E).
Arguments Ok {E A} a.
Arguments Throw {E A} e.

Definition throw {A} (c : ErrorCode.t) (msg : string) : Result RecoveryError A :=
  Throw (MkRecoveryError c msg).

(** [e.code()] of a result that threw. *)
Definition error_code {A} (r : Result RecoveryError A) : option ErrorCode.t :=
  match r with Ok _ => None | Throw e => Some (err_code e) end.

(** ** [clock.hpp] and [clock.cpp] *)

Class Clock (C : Type) := {
  clock_now : C -> Timestamp;
  clock_name : C -> string }.

(** The manually advanced clock. *)
Record TestClock := MkTestClock { current : Timestamp }.

Definition advance (d : Duration) (c : TestClock) : TestClock :=
  MkTestClock (MkUnit (i64 (count (current c) + count d))).
Definition set_time (t : Timestamp) (c : TestClock) : TestClock := MkTestClock t.

#[export] Instance test_clock : Clock TestClock :=
  {| clock_now := current; clock_name _ := "test" |}.

(** [std::chrono::system_clock] stands at [ticks] periods of [tick_ns] nanoseconds
    since its epoch (1 where the library counts nanoseconds, 100 on Windows);
    [duration_cast] multiplies. *)
Record SystemClock := MkSystemClock { ticks : Z; tick_ns : Z }.

#[export] Instance system_clock : Clock SystemClock :=
  {| clock_now c := MkUnit (i64 (ticks c * tick_ns c)); clock_name _ := "system" |}.

(** [Impl::now]: the planner's clock may be null. *)
Definition impl_now {C} `{Clock C} (clock_ : option C) : Timestamp :=
  match clock_ with Some c => clock_now c | None => MkUnit 0 end.
