(* ===== verification/Evidence.v ===== *)
(** * Evidence, candidates, requests and the planner context

    Models [evidence.hpp], [candidate.hpp], [request.hpp] and
    [planner_context.hpp].  Absent evidence is [None], as the empty
    [std::optional] of the code; the [default_*] values are the members'
    default initialisers. *)

From stdpp Require Import base gmap strings list.
From S2P Require Import Prelude Types.
#[local] Open Scope Z_scope.

(** ** Status enumerations of [evidence.hpp] *)

Module StateIntegrity.
Inductive t := VALID | CORRUPT | UNCERTAIN | NOT_VERIFIED | UNKNOWN.
#[global] Instance eq_dec : EqDecision t.
Proof. solve_decision. Defined.
End StateIntegrity.

Module CompatibilityResult.
Inductive t :=
| EXACT | COMPATIBLE | COMPATIBLE_WITH_ADAPTATION | CONDITIONAL | INCOMPATIBLE
| UNKNOWN | INSUFFICIENT_EVIDENCE.
#[global] Instance eq_dec : EqDecision t.
Proof. solve_decision. Defined.

Definition to_string (r : t) : string :=
  match r with
  | EXACT => "EXACT" | COMPATIBLE => "COMPATIBLE"
  | COMPATIBLE_WITH_ADAPTATION => "COMPATIBLE_WITH_ADAPTATION"
  | CONDITIONAL => "CONDITIONAL" | INCOMPATIBLE => "INCOMPATIBLE"
  | UNKNOWN => "UNKNOWN" | INSUFFICIENT_EVIDENCE => "INSUFFICIENT_EVIDENCE"
  end.
End CompatibilityResult.

Module CandidateReadiness.
Inductive t := READY | NOT_READY | WARMING | UNKNOWN.
#[global] Instance eq_dec : EqDecision t.
Proof. solve_decision. Defined.
End CandidateReadiness.

Module ResourceStatus.
Inductive t := AVAILABLE | UNAVAILABLE | CONTENDED | UNKNOWN.
#[global] Instance eq_dec : EqDecision t.
Proof. solve_decision. Defined.
End ResourceStatus.

Module StorageLocation.
Inductive t :=
| LOCAL | REMOTE | REPLICATED | WARM_MEMORY | SHADOW | RECOMPUTABLE | UNKNOWN.
#[global] Instance eq_dec : EqDecision t.
Proof. solve_decision. Defined.
End StorageLocation.

(** ** Evidence metadata *)

Record EvidenceMeta := MkMeta {
  m_coordinator_epoch : CoordinatorEpoch;
  m_observer : WorkerBootId;
  m_observed_at : Timestamp;
  m_provenance : EvidenceProvenance.t;
  m_freshness : Freshness.t;
  m_confidence : Confidence;
  m_persisted : bool }.

Definition default_meta : EvidenceMeta :=
  MkMeta id_null id_null unit_zero EvidenceProvenance.UNKNOWN Freshness.UNKNOWN
    confidence_none false.

Definition set_freshness (f : Freshness.t) (m : EvidenceMeta) : EvidenceMeta :=
  MkMeta (m_coordinator_epoch m) (m_observer m) (m_observed_at m) (m_provenance m) f
    (m_confidence m) (m_persisted m).

(** [mark_revalidation_required] *)
Definition mark_revalidation_required (m : EvidenceMeta) : EvidenceMeta :=
  when (negb (bool_decide (m_freshness m = Freshness.CURRENT)))
    (set_freshness Freshness.REVALIDATION_REQUIRED) m.

(** ** Evidence records *)

Record StateEvidence := MkStateEvidence {
  st_meta : EvidenceMeta;
  st_state_id : StateId;
  st_state_generation : StateGeneration;
  st_workload_generation : WorkloadGeneration;
  st_checkpoint_generation : CheckpointGeneration;
  st_integrity : StateIntegrity.t;
  st_size_bytes : ByteCount;
  st_restore_bytes : ByteCount;
  st_preserved_progress : ProgressUnits;
  st_durable_progress : ProgressUnits;
  st_location : StorageLocation.t;
  st_is_durable : bool;
  st_identity : string }.

Record CompatibilityEvidence := MkCompatibilityEvidence {
  co_meta : EvidenceMeta;
  co_compatibility_generation : CompatibilityGeneration;
  co_result : CompatibilityResult.t;
  co_subject_identity : string;
  co_state_format : string;
  co_reason : string }.

Record AvailabilityEvidence := MkAvailabilityEvidence {
  av_meta : EvidenceMeta;
  av_worker : WorkerId;
  av_boot : WorkerBootId;
  av_engine_incarnation : EngineIncarnationId;
  av_is_alive : bool;
  av_readiness : CandidateReadiness.t }.

Record ResourceEvidence := MkResourceEvidence {
  rs_meta : EvidenceMeta;
  rs_snapshot : ResourceSnapshotId;
  rs_generation : ResourceGeneration;
  rs_resource_kind : string;
  rs_required : option Z;
  rs_available : option Z;
  rs_status : ResourceStatus.t }.

Record TopologyEvidence := MkTopologyEvidence {
  tp_meta : EvidenceMeta;
  tp_generation : TopologyGeneration;
  tp_path_possible : bool;
  tp_source : string;
  tp_destination : string;
  tp_path_latency : option Duration }.

Record TransferEvidence := MkTransferEvidence {
  tr_meta : EvidenceMeta;
  tr_transfer_bytes : ByteCount;
  tr_bandwidth : option Bandwidth;
  tr_transfer_duration : option Duration;
  tr_from : string;
  tr_to : string }.

Record CheckpointEvidence := MkCheckpointEvidence {
  cp_meta : EvidenceMeta;
  cp_checkpoint_id : CheckpointId;
  cp_checkpoint_generation : CheckpointGeneration;
  cp_state_generation : StateGeneration;
  cp_age : Duration;
  cp_integrity : StateIntegrity.t;
  cp_is_durable : bool }.

Record ShadowEvidence := MkShadowEvidence {
  sh_meta : EvidenceMeta;
  sh_shadow_worker : WorkerId;
  sh_shadow_boot : WorkerBootId;
  sh_shadow_state_generation : StateGeneration;
  sh_lag : Duration;
  sh_last_sync_point : Timestamp;
  sh_readiness : CandidateReadiness.t;
  sh_compatibility : CompatibilityResult.t }.

Record ProgressEvidence := MkProgressEvidence {
  pr_meta : EvidenceMeta;
  pr_committed : ProgressUnits;
  pr_durable : ProgressUnits;
  pr_recoverable : ProgressUnits;
  pr_recomputable : ProgressUnits;
  pr_lost : ProgressUnits;
  pr_total : option ProgressUnits }.

Definition default_progress : ProgressEvidence :=
  MkProgressEvidence default_meta unit_zero unit_zero unit_zero unit_zero unit_zero None.

Record DeadlineEvidence := MkDeadlineEvidence {
  dl_meta : EvidenceMeta;
  dl_recovery_deadline : option Timestamp;
  dl_max_recovery_duration : option Duration;
  dl_max_tolerated_progress_loss : option ProgressUnits }.

Record CostEvidence := MkCostEvidence {
  cost_meta : EvidenceMeta;
  cost_expected_time : option Duration;
  cost_restore_time : option Duration;
  cost_restart_time : option Duration;
  cost_transfer_time : option Duration;
  cost_recompute_time : option Duration;
  cost_bytes_transferred : option ByteCount;
  cost_bytes_read : option ByteCount;
  cost_bytes_materialized : option ByteCount;
  cost_cost_units : option CostUnits;
  cost_energy_cost : option CostUnits;
  cost_expected_lost_progress : option ProgressUnits;
  cost_expected_preserved_progress : option ProgressUnits;
  cost_checkpoint_age : option Duration;
  cost_deadline_slack : option Duration;
  cost_failover_domain_risk : Z }.

Record AuthorityEvidence := MkAuthorityEvidence {
  auth_meta : EvidenceMeta;
  auth_coordinator_epoch : CoordinatorEpoch;
  auth_policy_generation : PolicyGeneration;
  auth_coordinator_authority_valid : bool;
  auth_policy_authority_valid : bool;
  auth_candidate_authority_valid : bool;
  auth_execution_authority_valid : bool }.

(** ** [candidate.hpp] *)

Record RecoveryCandidate := MkCandidate {
  c_candidate_id : CandidateId;
  c_generation : CandidateGeneration;
  c_strategy : RecoveryStrategy.t;
  c_target_worker : WorkerId;
  c_target_boot : WorkerBootId;
  c_target_engine : EngineId;
  c_target_engine_incarnation : EngineIncarnationId;
  c_source_worker : WorkerId;
  c_source_boot : WorkerBootId;
  c_state_source : StateId;
  c_state_generation : StateGeneration;
  c_checkpoint_source : CheckpointId;
  c_checkpoint_generation : CheckpointGeneration;
  c_state : option StateEvidence;
  c_compatibility : option CompatibilityEvidence;
  c_availability : option AvailabilityEvidence;
  c_resource : option ResourceEvidence;
  c_topology : option TopologyEvidence;
  c_transfer : option TransferEvidence;
  c_checkpoint : option CheckpointEvidence;
  c_shadow : option ShadowEvidence;
  c_progress : option ProgressEvidence;
  c_cost : option CostEvidence;
  c_authority : option AuthorityEvidence;
  c_reason_for_existence : string;
  c_capabilities : list string;
  c_required_capabilities : list string }.

Definition default_candidate : RecoveryCandidate :=
  MkCandidate id_null id_null RecoveryStrategy.RESTART id_null id_null id_null id_null id_null
    id_null id_null id_null id_null id_null None None None None None None None None None None None
    "" [] [].

Definition has_strategy (c : RecoveryCandidate) (s : RecoveryStrategy.t) : bool :=
  bool_decide (c_strategy c = s).

(** ** [request.hpp] *)

Record RecoveryRequest := MkRequest {
  q_request_id : RecoveryRequestId;
  q_workload : WorkloadId;
  q_workload_generation : WorkloadGeneration;
  q_execution : ExecutionId;
  q_execution_generation : ExecutionGeneration;
  q_failure : FailureId;
  q_reason : string;
  q_prior_progress : ProgressEvidence;
  q_recovery_deadline : option Timestamp;
  q_max_recovery_duration : option Duration;
  q_max_tolerated_progress_loss : option ProgressUnits;
  q_preferred_strategies : list RecoveryStrategy.t;
  q_forbidden_strategies : list RecoveryStrategy.t;
  q_state_requirements : list string;
  q_placement_constraints : list string;
  q_compatibility_requirements : list string;
  q_coordinator_epoch : CoordinatorEpoch;
  q_policy_generation : PolicyGeneration;
  q_topology_generation : TopologyGeneration;
  q_requested_at : Timestamp;
  q_value_priorities : list (string * Z) }.

(** ** [planner_context.hpp] *)

Record PlannerContext := MkContext {
  ctx_epoch : CoordinatorEpoch;
  ctx_planner_boot : PlannerBootId;
  ctx_workload_generation : WorkloadGeneration;
  ctx_policy_generation : PolicyGeneration;
  ctx_compatibility_generation : CompatibilityGeneration;
  ctx_resource_generation : ResourceGeneration;
  ctx_topology_generation : TopologyGeneration;
  ctx_worker_boots : gmap WorkerId WorkerBootId;
  ctx_alive_workers : gset WorkerId;
  ctx_resource_available : gmap string Z;
  ctx_compatibility_table : gmap string (gset string);
  ctx_recompute_lineage_available : gset WorkloadGeneration;
  ctx_original_inputs_available : gset WorkloadGeneration }.

Definition worker_is_current (ctx : PlannerContext) (w : WorkerId) : bool :=
  bool_decide (w ∈ ctx_alive_workers ctx).

Definition worker_boot_matches (ctx : PlannerContext) (w : WorkerId) (boot : WorkerBootId) : bool :=
  match ctx_worker_boots ctx !! w with
  | Some b => id_eqb b boot
  | None => false
  end.

Definition resource_sufficient (ctx : PlannerContext) (kind : string) (required : Z) : bool :=
  match ctx_resource_available ctx !! kind with
  | Some amount => required <=? amount
  | None => false
  end.

Definition is_compatible (ctx : PlannerContext) (subject target : string) : bool :=
  match ctx_compatibility_table ctx !! subject with
  | Some targets => bool_decide (target ∈ targets)
  | None => false
  end.

Definition recompute_available (ctx : PlannerContext) (gen : WorkloadGeneration) : bool :=
  bool_decide (gen ∈ ctx_recompute_lineage_available ctx) &&
  bool_decide (gen ∈ ctx_original_inputs_available ctx).

(** Assignments to the members of a context. *)
Definition ctx_set_world (boots : gmap WorkerId WorkerBootId) (alive : gset WorkerId)
    (ctx : PlannerContext) : PlannerContext :=
  MkContext (ctx_epoch ctx) (ctx_planner_boot ctx) (ctx_workload_generation ctx)
    (ctx_policy_generation ctx) (ctx_compatibility_generation ctx)
    (ctx_resource_generation ctx) (ctx_topology_generation ctx) boots alive
    (ctx_resource_available ctx) (ctx_compatibility_table ctx)
    (ctx_recompute_lineage_available ctx) (ctx_original_inputs_available ctx).

Definition ctx_set_dynamic (resources : gmap string Z)
    (lineage inputs : gset WorkloadGeneration) (ctx : PlannerContext) : PlannerContext :=
  MkContext (ctx_epoch ctx) (ctx_planner_boot ctx) (ctx_workload_generation ctx)
    (ctx_policy_generation ctx) (ctx_compatibility_generation ctx)
    (ctx_resource_generation ctx) (ctx_topology_generation ctx) (ctx_worker_boots ctx)
    (ctx_alive_workers ctx) resources (ctx_compatibility_table ctx) lineage inputs.

(** [register_worker] and [unregister_worker]: the boot id survives the latter. *)
Definition ctx_register_worker (w : WorkerId) (boot : WorkerBootId) (ctx : PlannerContext)
    : PlannerContext :=
  ctx_set_world (<[w := boot]> (ctx_worker_boots ctx)) ({[w]} ∪ ctx_alive_workers ctx) ctx.

Definition ctx_unregister_worker (w : WorkerId) (ctx : PlannerContext) : PlannerContext :=
  ctx_set_world (ctx_worker_boots ctx) (ctx_alive_workers ctx ∖ {[w]}) ctx.

(** ** Lemmas on the context *)

Lemma worker_boot_matches_spec ctx w b :
  worker_boot_matches ctx w b = true <-> ctx_worker_boots ctx !! w = Some b.
Proof.
  unfold worker_boot_matches. destruct (ctx_worker_boots ctx !! w) as [b'|].
  - rewrite id_eqb_eq. split; congruence.
  - split; congruence.
Qed.

Lemma register_worker_current ctx w b :
  worker_is_current (ctx_register_worker w b ctx) w = true /\
  worker_boot_matches (ctx_register_worker w b ctx) w b = true.
Proof.
  split.
  - apply bool_decide_eq_true. cbn. set_solver.
  - apply worker_boot_matches_spec. cbn. apply lookup_insert_eq.
Qed.

Lemma unregister_worker_gone ctx w :
  worker_is_current (ctx_unregister_worker w ctx) w = false.
Proof. apply bool_decide_eq_false. cbn. set_solver. Qed.

Lemma recompute_available_spec ctx gen :
  recompute_available ctx gen = true <->
  gen ∈ ctx_recompute_lineage_available ctx /\ gen ∈ ctx_original_inputs_available ctx.
Proof.
  unfold recompute_available. rewrite andb_true_iff, !bool_decide_eq_true. done.
Qed.
