(* ===== verification/Feasibility.v ===== *)
(** * Feasibility of a candidate

    Models [feasibility.hpp] and [src/feasibility.cpp].  [evaluate_feasibility]
    is the composition of the code's numbered checks, each of which updates the
    four flags and appends to the violations in the code's order.  The theorems
    about it are in [FeasibilitySpec]. *)

From stdpp Require Import base gmap strings list.
From S2P Require Import Prelude Types Evidence.
#[local] Open Scope Z_scope.
#[local] Open Scope rp_scope.

(** ** Results and reasons *)

Module FeasibilityResult.
Inductive t := FEASIBLE | INFEASIBLE | DEFER | REVALIDATION_REQUIRED | INSUFFICIENT_EVIDENCE.
#[global] Instance eq_dec : EqDecision t.
Proof. solve_decision. Defined.

Definition to_string (r : t) : string :=
  match r with
  | FEASIBLE => "FEASIBLE" | INFEASIBLE => "INFEASIBLE" | DEFER => "DEFER"
  | REVALIDATION_REQUIRED => "REVALIDATION_REQUIRED"
  | INSUFFICIENT_EVIDENCE => "INSUFFICIENT_EVIDENCE"
  end.
End FeasibilityResult.

Module RejectionReason.
Inductive t :=
| NONE | STALE_AUTHORITY | INVALID_STATE_INTEGRITY | INCOMPATIBLE | TARGET_UNAVAILABLE
| INVALID_CANDIDATE_GENERATION | INSUFFICIENT_RESOURCES | EXPIRED_STATE | STATE_TOO_OLD
| DEADLINE_IMPOSSIBLE | FORBIDDEN_STRATEGY | MISSING_EVIDENCE
| TARGET_INCARNATION_MISMATCH | READINESS_FAILED | TOPOLOGY_IMPOSSIBLE
| INCOMPATIBLE_CHECKPOINT | INVALID_MIGRATION_RELATION | SHADOW_NOT_CURRENT
| NO_RECOMPUTE_LINEAGE | AMBIGUOUS_UNSAFE | RESOURCE_GENERATION_STALE
| COMPATIBILITY_GENERATION_STALE | POLICY_GENERATION_STALE | WORKLOAD_GENERATION_STALE
| INVALID_STRATEGY | STATE_GENERATION_STALE.
#[global] Instance eq_dec : EqDecision t.
Proof. solve_decision. Defined.

Definition to_string (r : t) : string :=
  match r with
  | NONE => "none" | STALE_AUTHORITY => "stale_authority"
  | INVALID_STATE_INTEGRITY => "invalid_state_integrity" | INCOMPATIBLE => "incompatible"
  | TARGET_UNAVAILABLE => "target_unavailable"
  | INVALID_CANDIDATE_GENERATION => "invalid_candidate_generation"
  | INSUFFICIENT_RESOURCES => "insufficient_resources" | EXPIRED_STATE => "expired_state"
  | STATE_TOO_OLD => "state_too_old" | DEADLINE_IMPOSSIBLE => "deadline_impossible"
  | FORBIDDEN_STRATEGY => "forbidden_strategy" | MISSING_EVIDENCE => "missing_evidence"
  | TARGET_INCARNATION_MISMATCH => "target_incarnation_mismatch"
  | READINESS_FAILED => "readiness_failed" | TOPOLOGY_IMPOSSIBLE => "topology_impossible"
  | INCOMPATIBLE_CHECKPOINT => "incompatible_checkpoint"
  | INVALID_MIGRATION_RELATION => "invalid_migration_relation"
  | SHADOW_NOT_CURRENT => "shadow_not_current"
  | NO_RECOMPUTE_LINEAGE => "no_recompute_lineage" | AMBIGUOUS_UNSAFE => "ambiguous_unsafe"
  | RESOURCE_GENERATION_STALE => "resource_generation_stale"
  | COMPATIBILITY_GENERATION_STALE => "compatibility_generation_stale"
  | POLICY_GENERATION_STALE => "policy_generation_stale"
  | WORKLOAD_GENERATION_STALE => "workload_generation_stale"
  | INVALID_STRATEGY => "invalid_strategy"
  | STATE_GENERATION_STALE => "state_generation_stale"
  end.
End RejectionReason.

Record ConstraintViolation := MkViolation {
  v_reason : RejectionReason.t;
  v_detail : string }.

Record FeasibilityEvaluation := MkEvaluation {
  ev_result : FeasibilityResult.t;
  ev_violations : list ConstraintViolation }.

Definition feasible (ev : FeasibilityEvaluation) : bool :=
  bool_decide (ev_result ev = FeasibilityResult.FEASIBLE).
Definition blocked (ev : FeasibilityEvaluation) : bool :=
  bool_decide (ev_result ev = FeasibilityResult.INFEASIBLE).
Definition can_plan (ev : FeasibilityEvaluation) : bool :=
  feasible ev || bool_decide (ev_result ev = FeasibilityResult.REVALIDATION_REQUIRED).

(** ** The accumulator of the evaluation: [FeasFlags] and the violations *)

Record Acc := MkAcc {
  infeasible : bool;
  insufficient : bool;
  revalidation : bool;
  defer : bool;
  violations : list ConstraintViolation }.

Definition acc0 : Acc := MkAcc false false false false [].

Definition push (r : RejectionReason.t) (detail : string) (a : Acc) : Acc :=
  MkAcc (infeasible a) (insufficient a) (revalidation a) (defer a)
    (violations a ++ [MkViolation r detail]).
Definition set_infeasible (a : Acc) : Acc :=
  MkAcc true (insufficient a) (revalidation a) (defer a) (violations a).
Definition set_insufficient (a : Acc) : Acc :=
  MkAcc (infeasible a) true (revalidation a) (defer a) (violations a).
Definition set_revalidation (a : Acc) : Acc :=
  MkAcc (infeasible a) (insufficient a) true (defer a) (violations a).
Definition set_defer (a : Acc) : Acc :=
  MkAcc (infeasible a) (insufficient a) (revalidation a) true (violations a).

(** [hard(f, ev, reason, detail)] *)
Definition hard (r : RejectionReason.t) (detail : string) (a : Acc) : Acc :=
  push r detail (set_infeasible a).

Definition hard_if (b : bool) (r : RejectionReason.t) (detail : string) : Acc -> Acc :=
  when b (hard r detail).
Definition note_if (b : bool) (r : RejectionReason.t) (detail : string) : Acc -> Acc :=
  when b (push r detail).
Definition insufficient_if (b : bool) : Acc -> Acc := when b set_insufficient.
Definition revalidation_if (b : bool) : Acc -> Acc := when b set_revalidation.
Definition defer_if (b : bool) : Acc -> Acc := when b set_defer.

Definition fresh (m : EvidenceMeta) : bool :=
  match m_freshness m with Freshness.CURRENT => true | _ => false end.
Definition revalidation_needed (m : EvidenceMeta) : bool :=
  bool_decide (m_freshness m = Freshness.REVALIDATION_REQUIRED).
Definition stale_or_expired (m : EvidenceMeta) : bool :=
  bool_decide (m_freshness m = Freshness.STALE) ||
  bool_decide (m_freshness m = Freshness.EXPIRED).


(** ** The checks *)

Section Checks.
Context (candidate : RecoveryCandidate) (request : RecoveryRequest) (ctx : PlannerContext).

Definition is_strategy (s : RecoveryStrategy.t) : bool :=
  bool_decide (c_strategy candidate = s).

(** 1. *)
Definition forbidden : bool :=
  bool_decide (c_strategy candidate ∈ q_forbidden_strategies request).

(** 2. Identity, generation and strategy sanity. *)
Definition check_identity : Acc -> Acc :=
  hard_if (negb (is_valid (c_candidate_id candidate)) || negb (is_valid (c_generation candidate)))
    RejectionReason.INVALID_CANDIDATE_GENERATION "candidate identity or generation is null" >>>
  hard_if ((RecoveryStrategy.code (c_strategy candidate) <?
              RecoveryStrategy.code RecoveryStrategy.RESTORE) ||
           (RecoveryStrategy.code RecoveryStrategy.RECOMPUTE <?
              RecoveryStrategy.code (c_strategy candidate)))
    RejectionReason.INVALID_STRATEGY "candidate strategy value is out of range".

(** 3. Authority and generation fencing. *)
Definition check_authority : Acc -> Acc :=
  match c_authority candidate with
  | Some auth =>
      hard_if (negb (id_eqb (auth_coordinator_epoch auth) (ctx_epoch ctx)))
        RejectionReason.STALE_AUTHORITY
        ("candidate observed under epoch " +:+ to_dec (value (auth_coordinator_epoch auth)) +:+
         " but current epoch is " +:+ to_dec (value (ctx_epoch ctx))) >>>
      hard_if (negb (id_eqb (auth_policy_generation auth) (ctx_policy_generation ctx)))
        RejectionReason.POLICY_GENERATION_STALE
        "candidate policy generation does not match current policy generation"
  | None => set_insufficient
  end.

Definition check_workload : Acc -> Acc :=
  match c_state candidate with
  | Some st =>
      hard_if (negb (id_eqb (st_workload_generation st) (q_workload_generation request)) &&
               is_valid (st_workload_generation st))
        RejectionReason.WORKLOAD_GENERATION_STALE
        "candidate state belongs to a different workload generation"
  | None => id
  end.

(** 4. State integrity and freshness. *)
Definition check_state : Acc -> Acc :=
  match c_state candidate with
  | Some st =>
      hard_if (bool_decide (st_integrity st = StateIntegrity.CORRUPT))
        RejectionReason.INVALID_STATE_INTEGRITY "state integrity is CORRUPT" >>>
      hard_if (bool_decide (m_freshness (st_meta st) = Freshness.EXPIRED))
        RejectionReason.EXPIRED_STATE "state evidence is EXPIRED" >>>
      insufficient_if (stale_or_expired (st_meta st)) >>>
      revalidation_if (revalidation_needed (st_meta st)) >>>
      insufficient_if (bool_decide (st_integrity st = StateIntegrity.UNCERTAIN) ||
                       bool_decide (st_integrity st = StateIntegrity.NOT_VERIFIED) ||
                       bool_decide (st_integrity st = StateIntegrity.UNKNOWN))
  | None => set_insufficient
  end.

(** 4b. State and checkpoint lineage. *)
Definition check_lineage : Acc -> Acc :=
  match c_state candidate with
  | Some st =>
      hard_if (negb (id_eqb (st_state_generation st) (c_state_generation candidate)))
        RejectionReason.STATE_GENERATION_STALE
        "candidate state generation does not match its state evidence"
  | None => id
  end >>>
  match c_checkpoint candidate with
  | Some cp =>
      hard_if (negb (id_eqb (cp_state_generation cp) (c_state_generation candidate)))
        RejectionReason.STATE_GENERATION_STALE
        "checkpoint state generation does not match the candidate state generation"
  | None => id
  end.

(** 5. Compatibility. *)
Definition check_compatibility : Acc -> Acc :=
  match c_compatibility candidate with
  | Some co =>
      hard_if (bool_decide (co_result co = CompatibilityResult.INCOMPATIBLE))
        RejectionReason.INCOMPATIBLE
        (if bool_decide (co_reason co = "") then "candidate is incompatible" else co_reason co) >>>
      hard_if (negb (id_eqb (co_compatibility_generation co) (ctx_compatibility_generation ctx)))
        RejectionReason.COMPATIBILITY_GENERATION_STALE
        "compatibility generation does not match current" >>>
      insufficient_if (bool_decide (co_result co = CompatibilityResult.UNKNOWN) ||
                       bool_decide (co_result co = CompatibilityResult.INSUFFICIENT_EVIDENCE)) >>>
      revalidation_if (revalidation_needed (co_meta co))
  | None => insufficient_if (negb (bool_decide (q_compatibility_requirements request = [])))
  end.

(** The reference table: consulted when it has an entry for the subject. *)
Definition compatibility_target (co : CompatibilityEvidence) : string :=
  if bool_decide (co_state_format co = "") then "unqualified" else co_state_format co.

Definition check_reference_compatibility : Acc -> Acc :=
  match c_compatibility candidate with
  | Some co =>
      let subj := co_subject_identity co in
      let target := compatibility_target co in
      when (negb (bool_decide (subj = "")) && has_value (ctx_compatibility_table ctx !! subj))
        (hard_if (negb (is_compatible ctx subj target)) RejectionReason.INCOMPATIBLE
          ("reference compatibility: subject '" +:+ subj +:+ "' incompatible with '" +:+
           target +:+ "'"))
  | None => id
  end.

(** 6. Target availability, readiness and incarnation. *)
Definition needs_live_target : bool := negb (is_strategy RecoveryStrategy.RECOMPUTE).

Definition check_availability : Acc -> Acc :=
  when needs_live_target
    match c_availability candidate with
    | Some av =>
        hard_if (negb (av_is_alive av) || negb (worker_is_current ctx (av_worker av)))
          RejectionReason.TARGET_UNAVAILABLE "target worker is not alive/current" >>>
        hard_if (negb (worker_boot_matches ctx (av_worker av) (av_boot av)))
          RejectionReason.TARGET_INCARNATION_MISMATCH
          "target boot id does not match current worker boot" >>>
        hard_if (bool_decide (av_readiness av = CandidateReadiness.NOT_READY))
          RejectionReason.READINESS_FAILED "target readiness is NOT_READY" >>>
        defer_if (bool_decide (av_readiness av = CandidateReadiness.WARMING)) >>>
        insufficient_if (bool_decide (av_readiness av = CandidateReadiness.UNKNOWN)) >>>
        insufficient_if (stale_or_expired (av_meta av)) >>>
        revalidation_if (revalidation_needed (av_meta av))
    | None => set_insufficient
    end.

(** 7. Resources. *)
Definition resource_short (rs : ResourceEvidence) : bool :=
  match rs_required rs, rs_available rs with
  | Some required, Some available => available <? required
  | _, _ => false
  end.

Definition resource_short_detail (rs : ResourceEvidence) : string :=
  match rs_required rs, rs_available rs with
  | Some required, Some available =>
      "required " +:+ to_dec required +:+ " but only " +:+ to_dec available +:+
      " available for '" +:+ rs_resource_kind rs +:+ "'"
  | _, _ => ""
  end.

(** The planner's own view does not guarantee the required amount. *)
Definition resource_view_short (rs : ResourceEvidence) : bool :=
  match rs_required rs, rs_available rs with
  | Some required, Some _ =>
      negb (bool_decide (rs_resource_kind rs = "")) &&
      negb (resource_sufficient ctx (rs_resource_kind rs) required)
  | _, _ => false
  end.

Definition check_resource : Acc -> Acc :=
  match c_resource candidate with
  | Some rs =>
      hard_if (bool_decide (rs_status rs = ResourceStatus.UNAVAILABLE))
        RejectionReason.INSUFFICIENT_RESOURCES
        ("required resource '" +:+ rs_resource_kind rs +:+ "' is UNAVAILABLE") >>>
      hard_if (resource_short rs) RejectionReason.INSUFFICIENT_RESOURCES
        (resource_short_detail rs) >>>
      hard_if (negb (id_eqb (rs_generation rs) (ctx_resource_generation ctx)))
        RejectionReason.RESOURCE_GENERATION_STALE
        "resource generation does not match current" >>>
      insufficient_if (has_value (rs_required rs) && negb (has_value (rs_available rs))) >>>
      when (resource_view_short rs) (fun a =>
        if infeasible a then a else
        set_insufficient
          (push RejectionReason.INSUFFICIENT_RESOURCES
            ("planner current resource view does not guarantee '" +:+ rs_resource_kind rs +:+ "'")
            a)) >>>
      insufficient_if (bool_decide (rs_status rs = ResourceStatus.UNKNOWN)) >>>
      revalidation_if (revalidation_needed (rs_meta rs)) >>>
      insufficient_if (stale_or_expired (rs_meta rs))
  | None => set_insufficient
  end.

(** 8. Topology, for a migration. *)
Definition check_topology : Acc -> Acc :=
  when (is_strategy RecoveryStrategy.MIGRATE)
    match c_topology candidate with
    | Some tp =>
        hard_if (negb (tp_path_possible tp)) RejectionReason.TOPOLOGY_IMPOSSIBLE
          ("migration path from '" +:+ tp_source tp +:+ "' to '" +:+ tp_destination tp +:+
           "' is impossible") >>>
        hard_if (negb (id_eqb (tp_generation tp) (ctx_topology_generation ctx)))
          RejectionReason.TOPOLOGY_IMPOSSIBLE "topology generation is stale"
    | None => set_insufficient
    end.

(** 9. Migration source, state and transfer. *)
Definition check_migration : Acc -> Acc :=
  when (is_strategy RecoveryStrategy.MIGRATE)
    (hard_if (negb (is_valid (c_source_worker candidate)) ||
              id_eqb (c_source_worker candidate) (c_target_worker candidate))
       RejectionReason.INVALID_MIGRATION_RELATION
       "migration requires a valid source worker distinct from the target" >>>
     when (match c_state candidate with Some st => negb (st_is_durable st) | None => true end)
       (set_insufficient >>>
        note_if (negb (has_value (c_state candidate))) RejectionReason.MISSING_EVIDENCE
          "migration requires portable durable state") >>>
     note_if (negb (has_value (c_transfer candidate))) RejectionReason.MISSING_EVIDENCE
       "migration requires transfer evidence" >>>
     insufficient_if (negb (has_value (c_transfer candidate)))).

(** 10. Shadow promotion. *)
Definition check_shadow : Acc -> Acc :=
  when (is_strategy RecoveryStrategy.SHADOW_PROMOTE)
    match c_shadow candidate with
    | Some sh =>
        hard_if (negb (bool_decide (sh_readiness sh = CandidateReadiness.READY)))
          RejectionReason.READINESS_FAILED "shadow is not READY" >>>
        hard_if ((0 <? count (sh_lag sh)) && (2 ^ 40 <? count (sh_lag sh)))
          RejectionReason.SHADOW_NOT_CURRENT "shadow lag too large" >>>
        hard_if (bool_decide (sh_compatibility sh = CompatibilityResult.INCOMPATIBLE))
          RejectionReason.INCOMPATIBLE "shadow state is incompatible"
    | None => set_insufficient
    end.

(** 11. Recomputation. *)
Definition check_recompute : Acc -> Acc :=
  when (is_strategy RecoveryStrategy.RECOMPUTE)
    (hard_if (negb (recompute_available ctx (q_workload_generation request)))
       RejectionReason.NO_RECOMPUTE_LINEAGE
       "no authoritative lineage/inputs available for recomputation for this workload generation" >>>
     insufficient_if
       (match c_cost candidate with
        | Some cost => negb (has_value (cost_recompute_time cost))
        | None => true
        end)).

(** 12. Rehydration. *)
Definition check_rehydrate : Acc -> Acc :=
  when (is_strategy RecoveryStrategy.REHYDRATE)
    (insufficient_if (negb (has_value (c_state candidate)))).

(** 13. Aggregation. *)
Definition aggregate (a : Acc) : FeasibilityResult.t :=
  if infeasible a then FeasibilityResult.INFEASIBLE
  else if insufficient a then FeasibilityResult.INSUFFICIENT_EVIDENCE
  else if revalidation a then FeasibilityResult.REVALIDATION_REQUIRED
  else if defer a then FeasibilityResult.DEFER
  else FeasibilityResult.FEASIBLE.

Definition run_checks : Acc -> Acc :=
  check_identity >>> check_authority >>> check_workload >>> check_state >>>
  check_lineage >>> check_compatibility >>> check_reference_compatibility >>>
  check_availability >>> check_resource >>> check_topology >>> check_migration >>>
  check_shadow >>> check_recompute >>> check_rehydrate.

Definition evaluate_feasibility : FeasibilityEvaluation :=
  if forbidden then
    MkEvaluation FeasibilityResult.INFEASIBLE
      (violations
        (hard RejectionReason.FORBIDDEN_STRATEGY
          ("strategy " +:+ RecoveryStrategy.to_string (c_strategy candidate) +:+
           " is forbidden by the request") acc0))
  else
    let a := run_checks acc0 in MkEvaluation (aggregate a) (violations a).
End Checks.
