(* ===== verification/FeasibilitySpec.v ===== *)
(** * What the feasibility evaluation promises

    The evaluation of [Feasibility] is related to a declarative classification in
    which the order of the checks plays no role, every recorded violation is
    shown to have a ground, and [FEASIBLE] is characterised piece of evidence by
    piece of evidence ([Admissible]). *)

From stdpp Require Import base gmap strings list.
From S2P Require Import Prelude Types Evidence Feasibility.
#[local] Open Scope Z_scope.
#[local] Open Scope rp_scope.

(** ** Effects: what a sequence of checks does to the flags

    [Effect f h i r d]: [f] raises "infeasible" exactly when [h], "revalidation"
    when [r], "defer" when [d], and, on a candidate that is not infeasible,
    "insufficient" exactly when [i]. *)

Record Effect (f : Acc -> Acc) (h i r d : bool) : Prop := {
  eff_infeasible a : infeasible (f a) = infeasible a || h;
  eff_insufficient a :
    infeasible (f a) = false -> insufficient (f a) = insufficient a || i;
  eff_revalidation a : revalidation (f a) = revalidation a || r;
  eff_defer a : defer (f a) = defer a || d }.

Lemma effect_id : Effect id false false false false.
Proof. by split; intros; rewrite ?orb_false_r. Qed.

Lemma effect_seq f g h i r d h' i' r' d' :
  Effect f h i r d -> Effect g h' i' r' d' ->
  Effect (f >>> g) (h || h') (i || i') (r || r') (d || d').
Proof.
  intros Hf Hg. unfold andthen. split; intros a.
  - by rewrite (eff_infeasible _ _ _ _ _ Hg), (eff_infeasible _ _ _ _ _ Hf), orb_assoc.
  - intros H. rewrite (eff_insufficient _ _ _ _ _ Hg) by done.
    rewrite (eff_infeasible _ _ _ _ _ Hg), orb_false_iff in H.
    by rewrite (eff_insufficient _ _ _ _ _ Hf), orb_assoc by tauto.
  - by rewrite (eff_revalidation _ _ _ _ _ Hg), (eff_revalidation _ _ _ _ _ Hf), orb_assoc.
  - by rewrite (eff_defer _ _ _ _ _ Hg), (eff_defer _ _ _ _ _ Hf), orb_assoc.
Qed.

Lemma effect_when b f h i r d :
  Effect f h i r d -> Effect (when b f) (b && h) (b && i) (b && r) (b && d).
Proof. intros Hf. destruct b; [done|apply effect_id]. Qed.

Lemma effect_hard r detail : Effect (hard r detail) true false false false.
Proof. by split; intros; cbn; rewrite ?orb_true_r, ?orb_false_r. Qed.
Lemma effect_push r detail : Effect (push r detail) false false false false.
Proof. by split; intros; cbn; rewrite ?orb_false_r. Qed.
Lemma effect_insufficient : Effect set_insufficient false true false false.
Proof. by split; intros; cbn; rewrite ?orb_true_r, ?orb_false_r. Qed.
Lemma effect_revalidation : Effect set_revalidation false false true false.
Proof. by split; intros; cbn; rewrite ?orb_true_r, ?orb_false_r. Qed.
Lemma effect_defer : Effect set_defer false false false true.
Proof. by split; intros; cbn; rewrite ?orb_true_r, ?orb_false_r. Qed.

(** The resource-view note, which an infeasible candidate does not get. *)
Lemma effect_view r detail :
  Effect (fun a => if infeasible a then a else set_insufficient (push r detail a))
    false true false false.
Proof.
  split; intros a.
  - destruct (infeasible a) eqn:E; cbn; by rewrite ?E.
  - destruct (infeasible a) eqn:E; cbn; intros; [congruence|by rewrite orb_true_r].
  - destruct (infeasible a); cbn; by rewrite orb_false_r.
  - destruct (infeasible a); cbn; by rewrite orb_false_r.
Qed.

Lemma effect_match {A} (o : option A) f g hf if_ rf df hg ig rg dg :
  (forall x, Effect (f x) (hf x) (if_ x) (rf x) (df x)) -> Effect g hg ig rg dg ->
  Effect (match o with Some x => f x | None => g end)
    (match o with Some x => hf x | None => hg end)
    (match o with Some x => if_ x | None => ig end)
    (match o with Some x => rf x | None => rg end)
    (match o with Some x => df x | None => dg end).
Proof. intros Hf Hg. destruct o; auto. Qed.

(** Computes the effect of a block of checks from those of its statements. *)
Ltac effect :=
  unfold hard_if, note_if, insufficient_if, revalidation_if, defer_if;
  repeat lazymatch goal with
  | |- Effect (andthen _ _) _ _ _ _ => eapply effect_seq
  | |- Effect (when _ _) _ _ _ _ => eapply effect_when
  | |- Effect (match _ with Some _ => _ | None => _ end) _ _ _ _ =>
      eapply effect_match; [intros ?|]
  | |- Effect (hard _ _) _ _ _ _ => apply effect_hard
  | |- Effect (push _ _) _ _ _ _ => apply effect_push
  | |- Effect set_insufficient _ _ _ _ => apply effect_insufficient
  | |- Effect set_revalidation _ _ _ _ => apply effect_revalidation
  | |- Effect set_defer _ _ _ _ => apply effect_defer
  | |- Effect id _ _ _ _ => apply effect_id
  | |- Effect (fun a => if infeasible a then _ else _) _ _ _ _ => apply effect_view
  end.

Lemma effect_eq f h i r d h' i' r' d' :
  Effect f h i r d -> h = h' -> i = i' -> r = r' -> d = d' -> Effect f h' i' r' d'.
Proof. by intros ? -> -> -> ->. Qed.

(** ** The declarative classification *)

(** [p] of the value of an optional, false if it has none. *)
Definition if_some {A} (o : option A) (p : A -> bool) : bool :=
  match o with Some x => p x | None => false end.

Section Spec.
Context (c : RecoveryCandidate) (q : RecoveryRequest) (ctx : PlannerContext).
Abbreviation strategy_is := (is_strategy c).

(** Grounds that share a reason. *)
Definition incompatible_evidence : bool := if_some (c_compatibility c) (fun co =>
  bool_decide (co_result co = CompatibilityResult.INCOMPATIBLE)).
Definition incompatible_reference : bool := if_some (c_compatibility c) (fun co =>
  negb (bool_decide (co_subject_identity co = "")) &&
  has_value (ctx_compatibility_table ctx !! co_subject_identity co) &&
  negb (is_compatible ctx (co_subject_identity co) (compatibility_target co))).
Definition target_not_ready : bool := needs_live_target c && if_some (c_availability c)
  (fun av => bool_decide (av_readiness av = CandidateReadiness.NOT_READY)).
Definition shadow_such (p : ShadowEvidence -> bool) : bool :=
  strategy_is RecoveryStrategy.SHADOW_PROMOTE && if_some (c_shadow c) p.
Definition shadow_not_ready : bool := shadow_such (fun sh =>
  negb (bool_decide (sh_readiness sh = CandidateReadiness.READY))).
Definition shadow_lagging : bool := shadow_such (fun sh => 2 ^ 40 <? count (sh_lag sh)).
Definition shadow_incompatible : bool := shadow_such (fun sh =>
  bool_decide (sh_compatibility sh = CompatibilityResult.INCOMPATIBLE)).

(** The ground of each reason for which a candidate is infeasible. *)
Definition violated (reason : RejectionReason.t) : bool :=
  match reason with
  | RejectionReason.FORBIDDEN_STRATEGY => forbidden c q
  | RejectionReason.INVALID_CANDIDATE_GENERATION =>
      is_null (c_candidate_id c) || is_null (c_generation c)
  | RejectionReason.INVALID_STRATEGY =>
      match c_strategy c with RecoveryStrategy.OTHER _ => true | _ => false end
  | RejectionReason.STALE_AUTHORITY => if_some (c_authority c) (fun auth =>
      negb (id_eqb (auth_coordinator_epoch auth) (ctx_epoch ctx)))
  | RejectionReason.POLICY_GENERATION_STALE => if_some (c_authority c) (fun auth =>
      negb (id_eqb (auth_policy_generation auth) (ctx_policy_generation ctx)))
  | RejectionReason.WORKLOAD_GENERATION_STALE => if_some (c_state c) (fun st =>
      negb (id_eqb (st_workload_generation st) (q_workload_generation q)) &&
      is_valid (st_workload_generation st))
  | RejectionReason.INVALID_STATE_INTEGRITY => if_some (c_state c) (fun st =>
      bool_decide (st_integrity st = StateIntegrity.CORRUPT))
  | RejectionReason.EXPIRED_STATE => if_some (c_state c) (fun st =>
      bool_decide (m_freshness (st_meta st) = Freshness.EXPIRED))
  | RejectionReason.STATE_GENERATION_STALE =>
      if_some (c_state c) (fun st =>
        negb (id_eqb (st_state_generation st) (c_state_generation c))) ||
      if_some (c_checkpoint c) (fun cp =>
        negb (id_eqb (cp_state_generation cp) (c_state_generation c)))
  | RejectionReason.INCOMPATIBLE =>
      incompatible_evidence || incompatible_reference || shadow_incompatible
  | RejectionReason.COMPATIBILITY_GENERATION_STALE => if_some (c_compatibility c) (fun co =>
      negb (id_eqb (co_compatibility_generation co) (ctx_compatibility_generation ctx)))
  | RejectionReason.TARGET_UNAVAILABLE => needs_live_target c && if_some (c_availability c)
      (fun av => negb (av_is_alive av) || negb (worker_is_current ctx (av_worker av)))
  | RejectionReason.TARGET_INCARNATION_MISMATCH => needs_live_target c &&
      if_some (c_availability c) (fun av =>
        negb (worker_boot_matches ctx (av_worker av) (av_boot av)))
  | RejectionReason.READINESS_FAILED => target_not_ready || shadow_not_ready
  | RejectionReason.INSUFFICIENT_RESOURCES => if_some (c_resource c) (fun rs =>
      bool_decide (rs_status rs = ResourceStatus.UNAVAILABLE) || resource_short rs)
  | RejectionReason.RESOURCE_GENERATION_STALE => if_some (c_resource c) (fun rs =>
      negb (id_eqb (rs_generation rs) (ctx_resource_generation ctx)))
  | RejectionReason.TOPOLOGY_IMPOSSIBLE => strategy_is RecoveryStrategy.MIGRATE &&
      if_some (c_topology c) (fun tp =>
        negb (tp_path_possible tp) ||
        negb (id_eqb (tp_generation tp) (ctx_topology_generation ctx)))
  | RejectionReason.INVALID_MIGRATION_RELATION => strategy_is RecoveryStrategy.MIGRATE &&
      (is_null (c_source_worker c) || id_eqb (c_source_worker c) (c_target_worker c))
  | RejectionReason.SHADOW_NOT_CURRENT => shadow_lagging
  | RejectionReason.NO_RECOMPUTE_LINEAGE => strategy_is RecoveryStrategy.RECOMPUTE &&
      negb (recompute_available ctx (q_workload_generation q))
  | _ => false
  end.

(** Mandatory evidence that is absent, stale or indecisive. *)
Definition lacks_state : bool :=
  match c_state c with
  | Some st => stale_or_expired (st_meta st) ||
      negb (bool_decide (st_integrity st = StateIntegrity.VALID) ||
            bool_decide (st_integrity st = StateIntegrity.CORRUPT))
  | None => true
  end.
Definition lacks_compatibility : bool :=
  match c_compatibility c with
  | Some co => bool_decide (co_result co = CompatibilityResult.UNKNOWN) ||
      bool_decide (co_result co = CompatibilityResult.INSUFFICIENT_EVIDENCE)
  | None => negb (bool_decide (q_compatibility_requirements q = []))
  end.
Definition lacks_target : bool :=
  needs_live_target c &&
  match c_availability c with
  | Some av => bool_decide (av_readiness av = CandidateReadiness.UNKNOWN) ||
      stale_or_expired (av_meta av)
  | None => true
  end.
Definition lacks_resource : bool :=
  match c_resource c with
  | Some rs => has_value (rs_required rs) && negb (has_value (rs_available rs)) ||
      resource_view_short ctx rs || bool_decide (rs_status rs = ResourceStatus.UNKNOWN) ||
      stale_or_expired (rs_meta rs)
  | None => true
  end.
Definition lacks_migration : bool :=
  strategy_is RecoveryStrategy.MIGRATE &&
  (negb (has_value (c_topology c)) || negb (if_some (c_state c) st_is_durable) ||
   negb (has_value (c_transfer c))).
Definition lacks_strategy_evidence : bool :=
  lacks_migration ||
  strategy_is RecoveryStrategy.SHADOW_PROMOTE && negb (has_value (c_shadow c)) ||
  strategy_is RecoveryStrategy.RECOMPUTE &&
    negb (if_some (c_cost c) (fun cost => has_value (cost_recompute_time cost))).
Definition lacks_evidence : bool :=
  negb (has_value (c_authority c)) || lacks_state || lacks_compatibility || lacks_target ||
  lacks_resource || lacks_strategy_evidence.

(** Evidence loaded from durable state that must be revalidated first. *)
Definition awaits_revalidation : bool :=
  if_some (c_state c) (fun st => revalidation_needed (st_meta st)) ||
  if_some (c_compatibility c) (fun co => revalidation_needed (co_meta co)) ||
  needs_live_target c && if_some (c_availability c) (fun av => revalidation_needed (av_meta av)) ||
  if_some (c_resource c) (fun rs => revalidation_needed (rs_meta rs)).

Definition target_warming : bool :=
  needs_live_target c && if_some (c_availability c) (fun av =>
    bool_decide (av_readiness av = CandidateReadiness.WARMING)).
End Spec.

(** ** Effects of the checks *)

(** Boolean identities left by [effect], by cases on the evidence. *)
Ltac bool_cases :=
  unfold if_some, has_value; repeat case_match; subst;
  repeat match goal with |- context [bool_decide ?P] =>
    lazymatch P with context [bool_decide _] => fail | _ => destruct (bool_decide P) eqn:? end end;
  cbn; repeat first [rewrite orb_false_r | rewrite orb_true_r | rewrite andb_false_r
                    | rewrite andb_true_r | rewrite negb_involutive];
  try done.

Section CheckEffects.
Context (c : RecoveryCandidate) (q : RecoveryRequest) (ctx : PlannerContext).
Abbreviation viol := (violated c q ctx).
Import RejectionReason.

Lemma check_identity_effect :
  Effect (check_identity c) (viol INVALID_CANDIDATE_GENERATION || viol INVALID_STRATEGY)
    false false false.
Proof.
  eapply effect_eq; [unfold check_identity; effect|..]; bool_cases.
  unfold is_valid, is_null. rewrite !negb_involutive. f_equal.
  destruct (c_strategy c) as [ | | | | | | | n]; try done. apply orb_true_iff; right.
  apply Z.ltb_lt. cbn. lia.
Qed.

Lemma check_authority_effect :
  Effect (check_authority c ctx) (viol STALE_AUTHORITY || viol POLICY_GENERATION_STALE)
    (negb (has_value (c_authority c))) false false.
Proof. eapply effect_eq; [unfold check_authority; effect|..]; cbn; bool_cases. Qed.

Lemma check_workload_effect :
  Effect (check_workload c q) (viol WORKLOAD_GENERATION_STALE) false false false.
Proof. eapply effect_eq; [unfold check_workload; effect|..]; cbn; bool_cases. Qed.

Lemma check_state_effect :
  Effect (check_state c) (viol INVALID_STATE_INTEGRITY || viol EXPIRED_STATE)
    (lacks_state c) (if_some (c_state c) (fun st => revalidation_needed (st_meta st))) false.
Proof.
  eapply effect_eq; [unfold check_state; effect|..]; unfold lacks_state, violated, if_some;
    destruct (c_state c) as [st|]; try destruct (st_integrity st); decide_eqs; bool_cases.
Qed.

Lemma check_lineage_effect :
  Effect (check_lineage c) (viol STATE_GENERATION_STALE) false false false.
Proof. eapply effect_eq; [unfold check_lineage; effect|..]; cbn; bool_cases. Qed.

Lemma check_compatibility_effect :
  Effect (check_compatibility c q ctx)
    (incompatible_evidence c || viol COMPATIBILITY_GENERATION_STALE)
    (lacks_compatibility c q)
    (if_some (c_compatibility c) (fun co => revalidation_needed (co_meta co))) false.
Proof.
  eapply effect_eq; [unfold check_compatibility; effect|..]; 
    unfold lacks_compatibility, incompatible_evidence; cbn; bool_cases.
Qed.

Lemma check_reference_effect :
  Effect (check_reference_compatibility c ctx) (incompatible_reference c ctx)
    false false false.
Proof.
  eapply effect_eq; [unfold check_reference_compatibility; effect|..];
    unfold incompatible_reference; cbn; bool_cases.
Qed.

Lemma check_availability_effect :
  Effect (check_availability c ctx)
    (viol TARGET_UNAVAILABLE || viol TARGET_INCARNATION_MISMATCH || target_not_ready c)
    (lacks_target c)
    (needs_live_target c &&
       if_some (c_availability c) (fun av => revalidation_needed (av_meta av)))
    (target_warming c).
Proof.
  eapply effect_eq; [unfold check_availability; effect|..];
    unfold lacks_target, target_warming, target_not_ready; cbn; destruct (needs_live_target c); cbn; bool_cases.
Qed.

Lemma check_resource_effect :
  Effect (check_resource c ctx)
    (viol INSUFFICIENT_RESOURCES || viol RESOURCE_GENERATION_STALE)
    (lacks_resource c ctx)
    (if_some (c_resource c) (fun rs => revalidation_needed (rs_meta rs))) false.
Proof.
  eapply effect_eq; [unfold check_resource; effect|..]; unfold lacks_resource; cbn; bool_cases.
Qed.

Lemma check_topology_effect :
  Effect (check_topology c ctx) (viol TOPOLOGY_IMPOSSIBLE)
    (is_strategy c RecoveryStrategy.MIGRATE && negb (has_value (c_topology c))) false false.
Proof.
  eapply effect_eq; [unfold check_topology; effect|..]; cbn;
    destruct (is_strategy c RecoveryStrategy.MIGRATE); cbn; bool_cases.
Qed.

Lemma check_migration_effect :
  Effect (check_migration c) (viol INVALID_MIGRATION_RELATION)
    (is_strategy c RecoveryStrategy.MIGRATE &&
       (negb (if_some (c_state c) st_is_durable) || negb (has_value (c_transfer c))))
    false false.
Proof.
  eapply effect_eq; [unfold check_migration; effect|..]; cbn;
    destruct (is_strategy c RecoveryStrategy.MIGRATE); cbn; unfold is_valid, is_null; bool_cases.
Qed.

Lemma check_shadow_effect :
  Effect (check_shadow c) (shadow_not_ready c || shadow_lagging c || shadow_incompatible c)
    (is_strategy c RecoveryStrategy.SHADOW_PROMOTE && negb (has_value (c_shadow c)))
    false false.
Proof.
  eapply effect_eq; [unfold check_shadow; effect|..];
    unfold shadow_not_ready, shadow_lagging, shadow_incompatible, shadow_such;
    destruct (is_strategy c RecoveryStrategy.SHADOW_PROMOTE); cbn; try done; bool_cases.
  all: destruct (0 <? count (sh_lag s)) eqn:?, (_ <? count (sh_lag s)) eqn:?; try done; lia.
Qed.

Lemma check_recompute_effect :
  Effect (check_recompute c q ctx) (viol NO_RECOMPUTE_LINEAGE)
    (is_strategy c RecoveryStrategy.RECOMPUTE &&
       negb (if_some (c_cost c) (fun cost => has_value (cost_recompute_time cost))))
    false false.
Proof.
  eapply effect_eq; [unfold check_recompute; effect|..]; cbn;
    destruct (is_strategy c RecoveryStrategy.RECOMPUTE); cbn; bool_cases.
Qed.

Lemma check_rehydrate_effect :
  Effect (check_rehydrate c) false
    (is_strategy c RecoveryStrategy.REHYDRATE && negb (has_value (c_state c))) false false.
Proof.
  eapply effect_eq; [unfold check_rehydrate; effect|..]; cbn; bool_cases.
Qed.
(** The reasons a check other than the first can raise. *)
Definition checked_reasons : list RejectionReason.t :=
  [INVALID_CANDIDATE_GENERATION; INVALID_STRATEGY; STALE_AUTHORITY; POLICY_GENERATION_STALE;
   WORKLOAD_GENERATION_STALE; INVALID_STATE_INTEGRITY; EXPIRED_STATE; STATE_GENERATION_STALE;
   INCOMPATIBLE; COMPATIBILITY_GENERATION_STALE; TARGET_UNAVAILABLE;
   TARGET_INCARNATION_MISMATCH; READINESS_FAILED; INSUFFICIENT_RESOURCES;
   RESOURCE_GENERATION_STALE; TOPOLOGY_IMPOSSIBLE; INVALID_MIGRATION_RELATION;
   SHADOW_NOT_CURRENT; NO_RECOMPUTE_LINEAGE].

Definition violates_some : bool := existsb viol checked_reasons.

Lemma run_checks_effect :
  Effect (run_checks c q ctx) violates_some (lacks_evidence c q ctx) (awaits_revalidation c)
    (target_warming c).
Proof.
  eapply effect_eq.
  - unfold run_checks.
    apply effect_seq; [apply check_identity_effect|].
    apply effect_seq; [apply check_authority_effect|].
    apply effect_seq; [apply check_workload_effect|].
    apply effect_seq; [apply check_state_effect|].
    apply effect_seq; [apply check_lineage_effect|].
    apply effect_seq; [apply check_compatibility_effect|].
    apply effect_seq; [apply check_reference_effect|].
    apply effect_seq; [apply check_availability_effect|].
    apply effect_seq; [apply check_resource_effect|].
    apply effect_seq; [apply check_topology_effect|].
    apply effect_seq; [apply check_migration_effect|].
    apply effect_seq; [apply check_shadow_effect|].
    apply effect_seq; [apply check_recompute_effect|apply check_rehydrate_effect].
  - apply eq_true_iff_eq. unfold violates_some, checked_reasons, existsb.
    change (viol INCOMPATIBLE) with
      (incompatible_evidence c || incompatible_reference c ctx || shadow_incompatible c).
    change (viol READINESS_FAILED) with (target_not_ready c || shadow_not_ready c).
    change (viol SHADOW_NOT_CURRENT) with (shadow_lagging c).
    rewrite !orb_true_iff. tauto.
  - assert (negb (has_value (c_state c)) = true -> lacks_state c = true)
      by (unfold lacks_state; by destruct (c_state c)).
    apply eq_true_iff_eq. unfold lacks_evidence, lacks_strategy_evidence, lacks_migration.
    repeat (rewrite orb_true_iff || rewrite andb_true_iff). intuition discriminate.
  - unfold awaits_revalidation. by rewrite !orb_false_r, !orb_false_l, !orb_assoc.
  - by rewrite !orb_false_r.
Qed.
End CheckEffects.

(** ** The classification theorem *)

Lemma evaluate_classifies c q ctx :
  ev_result (evaluate_feasibility c q ctx) =
  if violated c q ctx RejectionReason.FORBIDDEN_STRATEGY || violates_some c q ctx
  then FeasibilityResult.INFEASIBLE
  else if lacks_evidence c q ctx then FeasibilityResult.INSUFFICIENT_EVIDENCE
  else if awaits_revalidation c then FeasibilityResult.REVALIDATION_REQUIRED
  else if target_warming c then FeasibilityResult.DEFER
  else FeasibilityResult.FEASIBLE.
Proof.
  unfold evaluate_feasibility. change (violated c q ctx _) with (forbidden c q).
  destruct (forbidden c q); [done|]. cbn [orb ev_result]. unfold aggregate.
  pose proof (run_checks_effect c q ctx) as E.
  rewrite (eff_revalidation _ _ _ _ _ E), (eff_defer _ _ _ _ _ E).
  destruct (infeasible (run_checks c q ctx acc0)) eqn:Hi.
  - rewrite (eff_infeasible _ _ _ _ _ E) in Hi. cbn [orb infeasible acc0] in Hi. by rewrite Hi.
  - rewrite (eff_insufficient _ _ _ _ _ E) by done.
    rewrite (eff_infeasible _ _ _ _ _ E) in Hi. cbn [orb infeasible acc0] in Hi. by rewrite Hi.
Qed.

Lemma violates_some_spec c q ctx :
  violates_some c q ctx = true <->
  exists r, r <> RejectionReason.FORBIDDEN_STRATEGY /\ violated c q ctx r = true.
Proof.
  unfold violates_some. rewrite existsb_exists. split.
  - intros (r & Hin & Hr). exists r. split; [|done]. intros ->. cbn in Hin.
    repeat (destruct Hin as [Hin|Hin]; [discriminate|]). done.
  - intros (r & Hne & Hr). exists r. split; [|done].
    destruct r; try done; cbn; tauto.
Qed.

Lemma feasible_flags c q ctx :
  ev_result (evaluate_feasibility c q ctx) = FeasibilityResult.FEASIBLE <->
  violated c q ctx RejectionReason.FORBIDDEN_STRATEGY = false /\
  violates_some c q ctx = false /\ lacks_evidence c q ctx = false /\
  awaits_revalidation c = false /\ target_warming c = false.
Proof.
  rewrite evaluate_classifies.
  destruct (violated c q ctx RejectionReason.FORBIDDEN_STRATEGY),
    (violates_some c q ctx), (lacks_evidence c q ctx), (awaits_revalidation c),
    (target_warming c); cbn; split; try done; intros; destruct_and?; done.
Qed.

(** ** Rejections are explained

    [Sound]: every recorded violation has a ground, and an infeasible candidate
    has a recorded violation that makes it infeasible. *)

Definition noted (c : RecoveryCandidate) (q : RecoveryRequest) (ctx : PlannerContext)
    (r : RejectionReason.t) : Prop :=
  violated c q ctx r = true \/
  r = RejectionReason.MISSING_EVIDENCE /\ lacks_migration c = true \/
  r = RejectionReason.INSUFFICIENT_RESOURCES /\
    if_some (c_resource c) (resource_view_short ctx) = true.

Section Explained.
Context (c : RecoveryCandidate) (q : RecoveryRequest) (ctx : PlannerContext).

Definition Sound (a : Acc) : Prop :=
  Forall (fun v => noted c q ctx (v_reason v)) (violations a) /\
  (infeasible a = true ->
   Exists (fun v => violated c q ctx (v_reason v) = true) (violations a)).

Definition Preserves (f : Acc -> Acc) : Prop := forall a, Sound a -> Sound (f a).

Lemma preserves_id : Preserves id.
Proof. by intros a. Qed.
Lemma preserves_seq f g : Preserves f -> Preserves g -> Preserves (f >>> g).
Proof. intros Hf Hg a Ha. apply Hg, Hf, Ha. Qed.
Lemma preserves_when b f : (b = true -> Preserves f) -> Preserves (when b f).
Proof. destruct b; cbn; intros Hf a Ha; [by apply Hf|done]. Qed.
Lemma preserves_insufficient : Preserves set_insufficient.
Proof. by intros a Ha. Qed.
Lemma preserves_revalidation : Preserves set_revalidation.
Proof. by intros a Ha. Qed.
Lemma preserves_defer : Preserves set_defer.
Proof. by intros a Ha. Qed.
Lemma preserves_push r d : noted c q ctx r -> Preserves (push r d).
Proof.
  intros Hr a [Hs Hi]. split; cbn.
  - apply Forall_app. split; [done|]. by constructor.
  - intros H. apply Exists_app. left. auto.
Qed.
Lemma preserves_hard r d : violated c q ctx r = true -> Preserves (hard r d).
Proof.
  intros Hr a [Hs Hi]. split; cbn.
  - apply Forall_app. split; [done|]. constructor; [by left|done].
  - intros _. apply Exists_app. right. by constructor.
Qed.
Lemma preserves_view r d :
  noted c q ctx r ->
  Preserves (fun a => if infeasible a then a else set_insufficient (push r d a)).
Proof. intros Hr a Ha. destruct (infeasible a); [done|]. by apply (preserves_push r d). Qed.

(** Walks through a block of checks and leaves the grounds to prove. *)
Ltac explain :=
  unfold hard_if, note_if, insufficient_if, revalidation_if, defer_if;
  repeat lazymatch goal with
  | |- Preserves (andthen _ _) => apply preserves_seq
  | |- Preserves (when _ _) => apply preserves_when; intros ?
  | |- Preserves (match ?o with Some _ => _ | None => _ end) => destruct o eqn:?
  | |- Preserves (hard _ _) => apply preserves_hard
  | |- Preserves (push _ _) => apply preserves_push
  | |- Preserves set_insufficient => apply preserves_insufficient
  | |- Preserves set_revalidation => apply preserves_revalidation
  | |- Preserves set_defer => apply preserves_defer
  | |- Preserves id => apply preserves_id
  | |- Preserves (fun a => if infeasible a then _ else _) => apply preserves_view
  end.

(** A ground that repeats the condition of its check. *)
Ltac ground :=
  unfold noted, lacks_migration, violated;
  unfold incompatible_evidence, incompatible_reference, target_not_ready, shadow_not_ready,
    shadow_lagging, shadow_incompatible, shadow_such;
  repeat match goal with
  | H : c_authority c = _ |- _ => rewrite H; clear H
  | H : c_state c = _ |- _ => rewrite H; clear H
  | H : c_checkpoint c = _ |- _ => rewrite H; clear H
  | H : c_compatibility c = _ |- _ => rewrite H; clear H
  | H : c_availability c = _ |- _ => rewrite H; clear H
  | H : c_resource c = _ |- _ => rewrite H; clear H
  | H : c_topology c = _ |- _ => rewrite H; clear H
  | H : c_shadow c = _ |- _ => rewrite H; clear H
  end; cbn [if_some];
  repeat match goal with
  | H : orb _ _ = true |- _ => apply orb_true_iff in H
  | H : andb _ _ = true |- _ => apply andb_true_iff in H
  end;
  rewrite ?negb_is_valid in *;
  repeat (rewrite orb_true_iff || rewrite andb_true_iff); tauto.

Lemma run_checks_preserves : Preserves (run_checks c q ctx).
Proof.
  unfold run_checks.
  repeat lazymatch goal with |- Preserves (andthen _ _) => apply preserves_seq end.
  all: unfold check_identity, check_authority, check_workload, check_state, check_lineage,
    check_compatibility, check_reference_compatibility, check_availability, check_resource,
    check_topology, check_migration, check_shadow, check_recompute, check_rehydrate; explain.
  all: try ground.
  - cbn. destruct (c_strategy c); try discriminate. done.
  - right; left; split; [done|]. unfold lacks_migration. destruct (c_state c); [done|].
    apply andb_true_iff. split; [done|]. by rewrite orb_true_r.
Qed.

Lemma evaluation_explained :
  Forall (fun v => noted c q ctx (v_reason v))
    (ev_violations (evaluate_feasibility c q ctx)) /\
  (ev_result (evaluate_feasibility c q ctx) = FeasibilityResult.INFEASIBLE ->
   Exists (fun v => violated c q ctx (v_reason v) = true)
     (ev_violations (evaluate_feasibility c q ctx))).
Proof.
  assert (Sound acc0) as H0 by (split; [constructor|done]).
  unfold evaluate_feasibility. destruct (forbidden c q) eqn:F.
  - assert (violated c q ctx RejectionReason.FORBIDDEN_STRATEGY = true) by done.
    split; [|intros _]; by repeat constructor.
  - destruct (run_checks_preserves acc0 H0) as [Hs Hi]. split; [done|].
    cbn [ev_result ev_violations]. unfold aggregate.
    destruct (infeasible _) eqn:E; [auto|]. by repeat case_match.
Qed.
End Explained.

(** ** Admissible candidates

    The conditions, per piece of evidence, under which the planner may execute a
    candidate: what [FEASIBLE] promises to the rest of the program. *)

(** Freshness the checks let through: note that [UNKNOWN] is among them. *)
Definition usable (m : EvidenceMeta) : Prop :=
  m_freshness m = Freshness.CURRENT \/ m_freshness m = Freshness.UNKNOWN.

Record AdmissibleTarget (ctx : PlannerContext) (av : AvailabilityEvidence) : Prop := {
  at_alive : av_is_alive av = true;
  at_current : av_worker av ∈ ctx_alive_workers ctx;
  at_boot : ctx_worker_boots ctx !! av_worker av = Some (av_boot av);
  at_ready : av_readiness av = CandidateReadiness.READY;
  at_usable : usable (av_meta av) }.

Record AdmissibleState (c : RecoveryCandidate) (q : RecoveryRequest) (st : StateEvidence)
    : Prop := {
  as_integrity : st_integrity st = StateIntegrity.VALID;
  as_usable : usable (st_meta st);
  as_generation : st_state_generation st = c_state_generation c;
  as_workload : st_workload_generation st = q_workload_generation q \/
                st_workload_generation st = id_null }.

Record AdmissibleResource (ctx : PlannerContext) (rs : ResourceEvidence) : Prop := {
  ar_status : rs_status rs = ResourceStatus.AVAILABLE \/
              rs_status rs = ResourceStatus.CONTENDED;
  ar_generation : rs_generation rs = ctx_resource_generation ctx;
  ar_usable : usable (rs_meta rs);
  ar_amount required : rs_required rs = Some required ->
    exists available, rs_available rs = Some available /\ required <= available /\
      (rs_resource_kind rs = "" \/
       exists amount, ctx_resource_available ctx !! rs_resource_kind rs = Some amount /\
         required <= amount) }.

Record AdmissibleCompatibility (ctx : PlannerContext) (co : CompatibilityEvidence) : Prop := {
  ac_result : co_result co <> CompatibilityResult.INCOMPATIBLE /\
              co_result co <> CompatibilityResult.UNKNOWN /\
              co_result co <> CompatibilityResult.INSUFFICIENT_EVIDENCE;
  ac_generation : co_compatibility_generation co = ctx_compatibility_generation ctx;
  ac_fresh : m_freshness (co_meta co) <> Freshness.REVALIDATION_REQUIRED;
  ac_reference targets : co_subject_identity co <> "" ->
    ctx_compatibility_table ctx !! co_subject_identity co = Some targets ->
    compatibility_target co ∈ targets }.

Record AdmissibleMigration (c : RecoveryCandidate) (ctx : PlannerContext) : Prop := {
  am_source : c_source_worker c <> id_null /\ c_source_worker c <> c_target_worker c;
  am_durable : exists st, c_state c = Some st /\ st_is_durable st = true;
  am_transfer : is_Some (c_transfer c);
  am_path : exists tp, c_topology c = Some tp /\ tp_path_possible tp = true /\
              tp_generation tp = ctx_topology_generation ctx }.

Record AdmissibleShadow (sh : ShadowEvidence) : Prop := {
  ah_ready : sh_readiness sh = CandidateReadiness.READY;
  ah_lag : count (sh_lag sh) <= 2 ^ 40;
  ah_compatible : sh_compatibility sh <> CompatibilityResult.INCOMPATIBLE }.

Record AdmissibleRecompute (c : RecoveryCandidate) (q : RecoveryRequest) (ctx : PlannerContext)
    : Prop := {
  ae_lineage : q_workload_generation q ∈ ctx_recompute_lineage_available ctx /\
               q_workload_generation q ∈ ctx_original_inputs_available ctx;
  ae_cost : exists cost, c_cost c = Some cost /\ is_Some (cost_recompute_time cost) }.

Record Admissible (c : RecoveryCandidate) (q : RecoveryRequest) (ctx : PlannerContext)
    : Prop := {
  ad_allowed : c_strategy c ∉ q_forbidden_strategies q;
  ad_identity : c_candidate_id c <> id_null /\ c_generation c <> id_null;
  ad_strategy : forall n, c_strategy c <> RecoveryStrategy.OTHER n;
  ad_authority : exists auth, c_authority c = Some auth /\
    auth_coordinator_epoch auth = ctx_epoch ctx /\
    auth_policy_generation auth = ctx_policy_generation ctx;
  ad_state : exists st, c_state c = Some st /\ AdmissibleState c q st;
  ad_checkpoint cp : c_checkpoint c = Some cp -> cp_state_generation cp = c_state_generation c;
  ad_compatibility :
    match c_compatibility c with
    | Some co => AdmissibleCompatibility ctx co
    | None => q_compatibility_requirements q = []
    end;
  ad_target : c_strategy c <> RecoveryStrategy.RECOMPUTE ->
    exists av, c_availability c = Some av /\ AdmissibleTarget ctx av;
  ad_resource : exists rs, c_resource c = Some rs /\ AdmissibleResource ctx rs;
  ad_migration : c_strategy c = RecoveryStrategy.MIGRATE -> AdmissibleMigration c ctx;
  ad_shadow : c_strategy c = RecoveryStrategy.SHADOW_PROMOTE ->
    exists sh, c_shadow c = Some sh /\ AdmissibleShadow sh;
  ad_recompute : c_strategy c = RecoveryStrategy.RECOMPUTE -> AdmissibleRecompute c q ctx }.

Section FeasibleIffAdmissible.
Context (c : RecoveryCandidate) (q : RecoveryRequest) (ctx : PlannerContext).
Abbreviation viol := (violated c q ctx).
Import RejectionReason.

Lemma is_null_false {tag} (i : Id tag) : is_null i = false <-> i <> id_null.
Proof.
  unfold is_null. rewrite Z.eqb_neq. destruct i as [v]. cbn. split.
  - intros H [=]. done.
  - intros H ->. done.
Qed.

Lemma usable_spec m :
  stale_or_expired m = false /\ revalidation_needed m = false <-> usable m.
Proof.
  unfold stale_or_expired, revalidation_needed, usable.
  destruct (m_freshness m); decide_eqs; cbn; split; intros; destruct_and?;
    destruct_or?; try discriminate; auto.
Qed.

Lemma negb_eqb_false {tag} (a b : Id tag) : negb (id_eqb a b) = false <-> a = b.
Proof. rewrite negb_false_iff. apply id_eqb_eq. Qed.

Lemma authority_ok :
  negb (has_value (c_authority c)) = false /\ viol STALE_AUTHORITY = false /\
  viol POLICY_GENERATION_STALE = false <->
  exists auth, c_authority c = Some auth /\ auth_coordinator_epoch auth = ctx_epoch ctx /\
    auth_policy_generation auth = ctx_policy_generation ctx.
Proof.
  cbn. destruct (c_authority c) as [auth|]; cbn [has_value if_some negb].
  - rewrite !negb_eqb_false. split; [intros (_ & ? & ?); by exists auth|].
    intros (? & [= ->] & ? & ?). done.
  - split; [by intros []|]. by intros (? & ? & _).
Qed.

Lemma state_ok :
  lacks_state c = false /\ viol INVALID_STATE_INTEGRITY = false /\
  viol EXPIRED_STATE = false /\ viol WORKLOAD_GENERATION_STALE = false /\
  if_some (c_state c) (fun st => negb (id_eqb (st_state_generation st) (c_state_generation c)))
    = false /\
  if_some (c_state c) (fun st => revalidation_needed (st_meta st)) = false <->
  exists st, c_state c = Some st /\ AdmissibleState c q st.
Proof.
  cbn. unfold lacks_state. destruct (c_state c) as [st|]; cbn [if_some].
  - rewrite negb_eqb_false, andb_false_iff, negb_eqb_false, orb_false_iff.
    rewrite (negb_false_iff (_ || _)), orb_true_iff, !bool_decide_eq_true, !bool_decide_eq_false.
    unfold is_valid. rewrite (negb_false_iff (_ =? 0)).
    change (value (st_workload_generation st) =? 0) with (is_null (st_workload_generation st)).
    assert (is_null (st_workload_generation st) = true <-> st_workload_generation st = id_null)
      as Hn by (unfold is_null; rewrite Z.eqb_eq; destruct (st_workload_generation st); cbn;
                split; [by intros ->|by intros [=]]).
    rewrite Hn. pose proof (usable_spec (st_meta st)) as Hu. split.
    + intros ([? ?] & ? & ? & ? & ? & ?). exists st. split; [done|]. split; tauto.
    + intros (? & [= <-] & []).
      assert (m_freshness (st_meta st) <> Freshness.EXPIRED)
        by (destruct as_usable0; congruence).
      assert (st_integrity st <> StateIntegrity.CORRUPT) by congruence. tauto.
  - split; [by intros []|]. by intros (? & ? & _).
Qed.

Lemma target_ok :
  lacks_target c = false /\ viol TARGET_UNAVAILABLE = false /\
  viol TARGET_INCARNATION_MISMATCH = false /\ target_not_ready c = false /\
  needs_live_target c && if_some (c_availability c) (fun av => revalidation_needed (av_meta av))
    = false /\ target_warming c = false <->
  (c_strategy c <> RecoveryStrategy.RECOMPUTE ->
   exists av, c_availability c = Some av /\ AdmissibleTarget ctx av).
Proof.
  cbn. unfold lacks_target, target_not_ready, target_warming.
  assert (needs_live_target c = true <-> c_strategy c <> RecoveryStrategy.RECOMPUTE) as Hl
    by (unfold needs_live_target, is_strategy; rewrite negb_true_iff; apply bool_decide_eq_false).
  destruct (needs_live_target c); cbn [andb];
    [|split; [intros _ H; apply Hl in H; discriminate|auto 10]].
  transitivity (exists av, c_availability c = Some av /\ AdmissibleTarget ctx av);
    [|by rewrite <- Hl; tauto].
  destruct (c_availability c) as [av|]; cbn [if_some];
    [|split; [by intros []|by intros (? & ? & _)]].
  rewrite !orb_false_iff, !negb_false_iff, worker_boot_matches_spec.
  unfold worker_is_current. rewrite bool_decide_eq_true.
  pose proof (usable_spec (av_meta av)) as Hu. split.
  - intros ([? ?] & [? ?] & ? & ? & ? & ?). exists av. split; [done|]. split; try tauto.
    bool_simp. by destruct (av_readiness av).
  - intros (? & [= <-] & []). rewrite at_ready0. decide_eqs. tauto.
Qed.

Lemma resource_ok :
  lacks_resource c ctx = false /\ viol INSUFFICIENT_RESOURCES = false /\
  viol RESOURCE_GENERATION_STALE = false /\
  if_some (c_resource c) (fun rs => revalidation_needed (rs_meta rs)) = false <->
  exists rs, c_resource c = Some rs /\ AdmissibleResource ctx rs.
Proof.
  cbn. unfold lacks_resource. destruct (c_resource c) as [rs|]; cbn [if_some];
    [|split; [by intros []|by intros (? & ? & _)]].
  rewrite !orb_false_iff, negb_eqb_false.
  pose proof (usable_spec (rs_meta rs)) as Hu.
  assert (has_value (rs_required rs) && negb (has_value (rs_available rs)) = false /\
          resource_view_short ctx rs = false /\ resource_short rs = false <->
          forall required, rs_required rs = Some required ->
            exists available, rs_available rs = Some available /\ required <= available /\
              (rs_resource_kind rs = "" \/
               exists amount, ctx_resource_available ctx !! rs_resource_kind rs = Some amount /\
                 required <= amount)) as Ha.
  { unfold resource_view_short, resource_short, resource_sufficient.
    destruct (rs_required rs) as [r|], (rs_available rs) as [a|]; cbn;
      [| |naive_solver..].
    - rewrite andb_false_iff, negb_false_iff, negb_false_iff, bool_decide_eq_true, Z.ltb_ge.
      destruct (ctx_resource_available ctx !! rs_resource_kind rs) as [amount|].
      + rewrite Z.leb_le. split.
        * intros (_ & ? & ?) ? [= <-]. exists a. naive_solver.
        * intros H. destruct (H r eq_refl) as (? & [= <-] & ? & [?|(? & [= <-] & ?)]); auto.
      + split.
        * intros (_ & [?|?] & ?) ? [= <-]; [|done]. exists a. auto.
        * intros H. destruct (H r eq_refl) as (? & [= <-] & ? & [?|(? & ? & ?)]); naive_solver.
    - split; [by intros []|]. intros H. by destruct (H r eq_refl) as (? & ? & _). }
  split.
  - intros ([[[? ?] ?] ?] & [? ?] & ? & ?). exists rs. split; [done|]. split; try tauto.
    bool_simp. destruct (rs_status rs); naive_solver.
  - intros (? & [= <-] & []).
    destruct ar_status0 as [E|E]; rewrite E; decide_eqs; tauto.
Qed.

Lemma compatibility_ok :
  lacks_compatibility c q = false /\ incompatible_evidence c = false /\
  incompatible_reference c ctx = false /\ viol COMPATIBILITY_GENERATION_STALE = false /\
  if_some (c_compatibility c) (fun co => revalidation_needed (co_meta co)) = false <->
  match c_compatibility c with
  | Some co => AdmissibleCompatibility ctx co
  | None => q_compatibility_requirements q = []
  end.
Proof.
  cbn. unfold lacks_compatibility, incompatible_evidence, incompatible_reference.
  destruct (c_compatibility c) as [co|]; cbn [if_some].
  - rewrite orb_false_iff, negb_eqb_false, !andb_false_iff, !negb_false_iff.
    unfold revalidation_needed. rewrite !bool_decide_eq_false, bool_decide_eq_true.
    unfold is_compatible.
    assert (((co_subject_identity co = "" \/
             has_value (ctx_compatibility_table ctx !! co_subject_identity co) = false) \/
            match ctx_compatibility_table ctx !! co_subject_identity co with
            | Some targets => bool_decide (compatibility_target co ∈ targets)
            | None => false
            end = true) <->
      (forall targets, co_subject_identity co <> "" ->
        ctx_compatibility_table ctx !! co_subject_identity co = Some targets ->
        compatibility_target co ∈ targets)) as Ht.
    { destruct (ctx_compatibility_table ctx !! co_subject_identity co) as [ts|]; cbn.
      - rewrite bool_decide_eq_true. split; [naive_solver|]. intros H.
        destruct (decide (co_subject_identity co = "")); [auto|]. right. by apply H.
      - naive_solver. }
    split.
    + intros ([? ?] & ? & ? & ? & ?). split; tauto.
    + intros []. tauto.
  - rewrite negb_false_iff, bool_decide_eq_true. tauto.
Qed.

Lemma strategy_is_false s : is_strategy c s = false <-> c_strategy c <> s.
Proof. apply bool_decide_eq_false. Qed.

Lemma identity_ok :
  viol INVALID_CANDIDATE_GENERATION = false /\ viol INVALID_STRATEGY = false <->
  (c_candidate_id c <> id_null /\ c_generation c <> id_null) /\
  (forall n, c_strategy c <> RecoveryStrategy.OTHER n).
Proof.
  cbn. rewrite orb_false_iff, !is_null_false.
  assert (match c_strategy c with RecoveryStrategy.OTHER _ => true | _ => false end = false <->
          forall n, c_strategy c <> RecoveryStrategy.OTHER n) as ->; [|tauto].
  destruct (c_strategy c); split; try done. intros H. by destruct (H n).
Qed.

Lemma checkpoint_ok :
  if_some (c_checkpoint c) (fun cp => negb (id_eqb (cp_state_generation cp) (c_state_generation c)))
    = false <->
  forall cp, c_checkpoint c = Some cp -> cp_state_generation cp = c_state_generation c.
Proof.
  destruct (c_checkpoint c) as [cp|]; cbn; [|done]. rewrite negb_eqb_false. naive_solver.
Qed.

Lemma migration_ok :
  lacks_migration c = false /\ viol TOPOLOGY_IMPOSSIBLE = false /\
  viol INVALID_MIGRATION_RELATION = false <->
  (c_strategy c = RecoveryStrategy.MIGRATE -> AdmissibleMigration c ctx).
Proof.
  unfold lacks_migration; cbn.
  destruct (is_strategy c RecoveryStrategy.MIGRATE) eqn:Es; cbn [andb].
  - unfold is_strategy in Es. apply bool_decide_eq_true in Es.
    transitivity (AdmissibleMigration c ctx); [|tauto].
    rewrite !orb_false_iff, is_null_false, id_eqb_neq. split.
    + intros (((Ht & Hd) & Hf) & Hp & Hs). split; [done|..].
      * destruct (c_state c) as [st|]; [|done]. exists st. split; [done|]. cbn in Hd.
        by destruct (st_is_durable st).
      * destruct (c_transfer c); [eauto|done].
      * destruct (c_topology c) as [tp|]; [|done]. exists tp. cbn in Hp.
        apply orb_false_iff in Hp as [Hp Hg]. apply negb_eqb_false in Hg.
        by apply negb_false_iff in Hp.
    + intros [Hs (st & Hst & Hd) [tr Htr] (tp & Htp & Hp & Hg)].
      rewrite Hst, Htr, Htp; cbn. rewrite Hd, Hp, Hg, id_eqb_refl. auto.
  - apply strategy_is_false in Es. split; [done|auto].
Qed.

Lemma shadow_ok :
  is_strategy c RecoveryStrategy.SHADOW_PROMOTE && negb (has_value (c_shadow c)) = false /\
  shadow_not_ready c = false /\ shadow_lagging c = false /\ shadow_incompatible c = false <->
  (c_strategy c = RecoveryStrategy.SHADOW_PROMOTE ->
   exists sh, c_shadow c = Some sh /\ AdmissibleShadow sh).
Proof.
  unfold shadow_not_ready, shadow_lagging, shadow_incompatible, shadow_such.
  destruct (is_strategy c RecoveryStrategy.SHADOW_PROMOTE) eqn:Es; cbn [andb].
  - unfold is_strategy in Es. apply bool_decide_eq_true in Es.
    transitivity (exists sh, c_shadow c = Some sh /\ AdmissibleShadow sh); [|tauto].
    destruct (c_shadow c) as [sh|]; cbn; [|split; [by intros []|by intros (? & ? & _)]].
    rewrite negb_false_iff, bool_decide_eq_true, bool_decide_eq_false, Z.ltb_ge. split.
    + intros (_ & ? & ? & ?). by exists sh.
    + by intros (? & [= <-] & []).
  - apply strategy_is_false in Es. split; [done|auto].
Qed.

Lemma recompute_ok :
  is_strategy c RecoveryStrategy.RECOMPUTE &&
    negb (if_some (c_cost c) (fun cost => has_value (cost_recompute_time cost))) = false /\
  viol NO_RECOMPUTE_LINEAGE = false <->
  (c_strategy c = RecoveryStrategy.RECOMPUTE -> AdmissibleRecompute c q ctx).
Proof.
  cbn. destruct (is_strategy c RecoveryStrategy.RECOMPUTE) eqn:Es; cbn [andb].
  - unfold is_strategy in Es. apply bool_decide_eq_true in Es.
    transitivity (AdmissibleRecompute c q ctx); [|tauto].
    rewrite !negb_false_iff, recompute_available_spec. split.
    + intros [Hc Hl]. split; [done|]. destruct (c_cost c) as [cost|]; [|done].
      exists cost. cbn in Hc. by rewrite <- has_value_is_Some.
    + intros [Hl (cost & Hc & Hr)]. rewrite Hc. cbn. by rewrite has_value_is_Some.
  - apply strategy_is_false in Es. split; [done|auto].
Qed.

Lemma feasible_admissible :
  ev_result (evaluate_feasibility c q ctx) = FeasibilityResult.FEASIBLE <->
  Admissible c q ctx.
Proof.
  rewrite feasible_flags.
  change (viol FORBIDDEN_STRATEGY) with (bool_decide (c_strategy c ∈ q_forbidden_strategies q)).
  rewrite bool_decide_eq_false.
  unfold violates_some, checked_reasons, lacks_evidence, lacks_strategy_evidence,
    awaits_revalidation; cbn [existsb].
  change (viol STATE_GENERATION_STALE) with
    (if_some (c_state c) (fun st =>
       negb (id_eqb (st_state_generation st) (c_state_generation c))) ||
     if_some (c_checkpoint c) (fun cp =>
       negb (id_eqb (cp_state_generation cp) (c_state_generation c)))).
  change (viol INCOMPATIBLE) with
    (incompatible_evidence c || incompatible_reference c ctx || shadow_incompatible c).
  change (viol READINESS_FAILED) with (target_not_ready c || shadow_not_ready c).
  change (viol SHADOW_NOT_CURRENT) with (shadow_lagging c).
  rewrite !orb_false_iff.
  pose proof identity_ok as H1. pose proof authority_ok as H2. pose proof state_ok as H3.
  pose proof checkpoint_ok as H4. pose proof compatibility_ok as H5. pose proof target_ok as H6.
  pose proof resource_ok as H7. pose proof migration_ok as H8. pose proof shadow_ok as H9.
  pose proof recompute_ok as H10. split.
  - intros H. destruct_and! H. split; [done|..]; first
      [apply H1 | apply H2 | apply H3 | apply H4 | apply H5 | apply H6 | apply H7
      | apply H8 | apply H9 | apply H10]; auto 10.
  - intros [].
    apply H2 in ad_authority0. apply H3 in ad_state0. apply H5 in ad_compatibility0.
    rewrite <- H4 in ad_checkpoint0. rewrite <- H6 in ad_target0. apply H7 in ad_resource0.
    rewrite <- H8 in ad_migration0. rewrite <- H9 in ad_shadow0.
    rewrite <- H10 in ad_recompute0. pose proof (proj2 H1 (conj ad_identity0 ad_strategy0)).
    destruct_and!. auto 30.
Qed.
End FeasibleIffAdmissible.
