(* ===== verification/StdSort.v ===== *)
(** * [std::sort]: its contract, and lexicographic keys

    The planner sorts candidate indices and explanation strings with
    [std::sort].  The class [StdSort] states what the standard promises of it: on
    a comparator that is a strict weak order of the elements, the result is a
    permutation of the input in which no element precedes an earlier one.
    The order of equivalent elements is left open, and the theorems of the
    clients hold for every instance; [insertion_sort] is an executable one. *)

From stdpp Require Import base list sorting sets.
From S2P Require Import Prelude.
#[local] Open Scope Z_scope.

(** ** Strict weak orders, on the elements of a list *)

Record StrictWeakOrderOn {A} (l : list A) (lt : A -> A -> bool) : Prop := {
  swo_irrefl a : a ∈ l -> lt a a = false;
  swo_trans a b c : a ∈ l -> b ∈ l -> c ∈ l ->
    lt a b = true -> lt b c = true -> lt a c = true;
  swo_incomparable a b c : a ∈ l -> b ∈ l -> c ∈ l ->
    lt a b = false -> lt b a = false -> lt b c = false -> lt c b = false ->
    lt a c = false /\ lt c a = false }.

(** No element precedes an earlier one. *)
Definition in_order {A} (lt : A -> A -> bool) (a b : A) : Prop := lt b a = false.

Class StdSort := {
  std_sort : forall {A}, (A -> A -> bool) -> list A -> list A;
  std_sort_perm {A} (lt : A -> A -> bool) l :
    StrictWeakOrderOn l lt -> std_sort lt l ≡ₚ l;
  std_sort_sorted {A} (lt : A -> A -> bool) l :
    StrictWeakOrderOn l lt -> StronglySorted (in_order lt) (std_sort lt l) }.

Lemma swo_subset {A} (l l' : list A) lt :
  (forall a, a ∈ l' -> a ∈ l) -> StrictWeakOrderOn l lt -> StrictWeakOrderOn l' lt.
Proof.
  intros Hs [Hi Ht Hn]. split.
  - auto.
  - intros a b c ? ? ?. apply Ht; auto.
  - intros a b c ? ? ?. apply Hn; auto.
Qed.

Lemma swo_cons {A} (x : A) l lt : StrictWeakOrderOn (x :: l) lt -> StrictWeakOrderOn l lt.
Proof. apply swo_subset. intros a Ha. by right. Qed.

Lemma swo_asym {A} (l : list A) lt a b :
  StrictWeakOrderOn l lt -> a ∈ l -> b ∈ l -> lt a b = true -> lt b a = false.
Proof.
  intros H Ha Hb Hab. destruct (lt b a) eqn:E; [|done].
  assert (lt a a = true) by eauto using swo_trans. by rewrite (swo_irrefl _ _ H) in *.
Qed.

Lemma swo_neg_trans {A} (l : list A) lt a b c :
  StrictWeakOrderOn l lt -> a ∈ l -> b ∈ l -> c ∈ l ->
  lt a b = false -> lt b c = false -> lt a c = false.
Proof.
  intros H Ha Hb Hc Hab Hbc. destruct (lt a c) eqn:E; [|done].
  assert (lt b a = false) as Hba.
  { destruct (lt b a) eqn:E2; [|done].
    assert (lt b c = true) by eauto using swo_trans. congruence. }
  assert (lt c b = false) as Hcb.
  { destruct (lt c b) eqn:E2; [|done].
    assert (lt a b = true) by eauto using swo_trans. congruence. }
  destruct (swo_incomparable _ _ H a b c); auto. congruence.
Qed.

(** ** Insertion sort *)

Section InsertionSort.
Context {A : Type} (lt : A -> A -> bool).

Fixpoint insert_sorted (x : A) (l : list A) : list A :=
  match l with
  | [] => [x]
  | y :: l' => if lt y x then y :: insert_sorted x l' else x :: l
  end.

Fixpoint insertion_sort (l : list A) : list A :=
  match l with
  | [] => []
  | x :: l' => insert_sorted x (insertion_sort l')
  end.

Lemma insert_sorted_perm x l : insert_sorted x l ≡ₚ x :: l.
Proof.
  induction l as [|y l IH]; cbn; [done|]. destruct (lt y x); [|done].
  rewrite IH. apply Permutation_swap.
Qed.

Lemma insertion_sort_perm l : insertion_sort l ≡ₚ l.
Proof. induction l as [|x l IH]; cbn; [done|]. by rewrite insert_sorted_perm, IH. Qed.

Lemma insert_sorted_sorted x l :
  StrictWeakOrderOn (x :: l) lt -> StronglySorted (in_order lt) l ->
  StronglySorted (in_order lt) (insert_sorted x l).
Proof.
  intros H Hl. induction Hl as [|y l Hl IH Hy]; cbn; [by repeat constructor|].
  destruct (lt y x) eqn:E.
  - constructor.
    + apply IH. eapply swo_subset; [|done]. set_solver.
    + rewrite Forall_forall in *. intros z Hz. rewrite insert_sorted_perm in Hz.
      apply elem_of_cons in Hz as [->|Hz]; [|by apply Hy].
      unfold in_order. eapply swo_asym; eauto; set_solver.
  - constructor; [by constructor|]. constructor; [done|].
    rewrite Forall_forall in *. intros z Hz. unfold in_order.
    eapply (swo_neg_trans _ _ z y x); eauto; [set_solver..|]. by apply Hy.
Qed.

Lemma insertion_sort_sorted l :
  StrictWeakOrderOn l lt -> StronglySorted (in_order lt) (insertion_sort l).
Proof.
  induction l as [|x l IH]; cbn; intros H; [constructor|].
  apply insert_sorted_sorted; [|by eapply IH, swo_cons].
  eapply swo_subset; [|done]. intros a. by rewrite insertion_sort_perm.
Qed.
End InsertionSort.

#[export] Instance insertion_std_sort : StdSort := {|
  std_sort := @insertion_sort;
  std_sort_perm A lt l _ := insertion_sort_perm lt l;
  std_sort_sorted A lt l H := insertion_sort_sorted lt l H |}.

(** ** Uniqueness: with no two equivalent elements, every sort agrees *)

Definition TotalOn {A} (l : list A) (lt : A -> A -> bool) : Prop :=
  forall a b, a ∈ l -> b ∈ l -> lt a b = false -> lt b a = false -> a = b.

Lemma sorted_unique {A} (lt : A -> A -> bool) l1 l2 :
  TotalOn l1 lt -> StronglySorted (in_order lt) l1 -> StronglySorted (in_order lt) l2 ->
  l1 ≡ₚ l2 -> l1 = l2.
Proof.
  intros Ht H1. revert l2. induction H1 as [|a l1 H1 IH Ha]; intros l2 H2 Hp.
  { symmetry in Hp. by apply Permutation_nil_r in Hp. }
  destruct H2 as [|b l2 H2 Hb]; [by apply Permutation_nil_r in Hp|].
  assert (a = b) as <-.
  { assert (a ∈ b :: l2) as Hab by (rewrite <- Hp; set_solver).
    assert (b ∈ a :: l1) as Hba by (rewrite Hp; set_solver).
    apply elem_of_cons in Hab as [?|Hab]; [done|].
    apply elem_of_cons in Hba as [?|Hba]; [done|].
    rewrite Forall_forall in Ha, Hb. apply Ht; [set_solver..| |].
    - by apply Hb.
    - by apply Ha. }
  f_equal. apply IH; [|done|by apply (inj (cons a))].
  intros x y Hx Hy. apply Ht; set_solver.
Qed.

Lemma std_sort_unique (S1 S2 : StdSort) {A} (lt : A -> A -> bool) l :
  StrictWeakOrderOn l lt -> TotalOn l lt ->
  @std_sort S1 A lt l = @std_sort S2 A lt l.
Proof.
  intros H Ht. apply (sorted_unique lt); [|by apply std_sort_sorted..|].
  - intros a b. rewrite !(@std_sort_perm S1 A lt l H). apply Ht.
  - by rewrite !std_sort_perm.
Qed.

(** ** Lexicographic order of integer keys *)

Fixpoint lex_ltb (a b : list Z) : bool :=
  match a, b with
  | [], [] => false
  | [], _ :: _ => true
  | _ :: _, [] => false
  | x :: a', y :: b' => if x <? y then true else if y <? x then false else lex_ltb a' b'
  end.

Lemma lex_ltb_irrefl a : lex_ltb a a = false.
Proof. induction a as [|x a IH]; cbn; [done|]. by rewrite Z.ltb_irrefl. Qed.

Lemma lex_ltb_trans a b c : lex_ltb a b = true -> lex_ltb b c = true -> lex_ltb a c = true.
Proof.
  revert b c. induction a as [|x a IH]; intros [|y b] [|z c]; cbn; try done.
  destruct (Z.ltb_spec x y), (Z.ltb_spec y x), (Z.ltb_spec y z), (Z.ltb_spec z y),
    (Z.ltb_spec x z), (Z.ltb_spec z x); try done; try lia. apply IH.
Qed.

Lemma lex_ltb_total a b : lex_ltb a b = false -> lex_ltb b a = false -> a = b.
Proof.
  revert b. induction a as [|x a IH]; intros [|y b]; cbn; try done.
  destruct (Z.ltb_spec x y), (Z.ltb_spec y x); try done; try lia.
  intros. f_equal; [lia|by apply IH].
Qed.

(** A comparator that compares keys is a strict weak order. *)
Lemma key_order_swo {A} (lt : A -> A -> bool) (key : A -> list Z) (l : list A) :
  (forall a b, a ∈ l -> b ∈ l -> lt a b = lex_ltb (key a) (key b)) ->
  StrictWeakOrderOn l lt.
Proof.
  intros Hk. split.
  - intros a Ha. rewrite Hk by done. apply lex_ltb_irrefl.
  - intros a b c Ha Hb Hc. rewrite !Hk by done. apply lex_ltb_trans.
  - intros a b c Ha Hb Hc. rewrite !Hk by done. intros H1 H2 H3 H4.
    rewrite <- (lex_ltb_total _ _ H3 H4), (lex_ltb_total _ _ H1 H2).
    by rewrite lex_ltb_irrefl.
Qed.

Lemma key_order_total {A} (lt : A -> A -> bool) (key : A -> list Z) (l : list A) :
  (forall a b, a ∈ l -> b ∈ l -> lt a b = lex_ltb (key a) (key b)) ->
  (forall a b, a ∈ l -> b ∈ l -> key a = key b -> a = b) ->
  TotalOn l lt.
Proof.
  intros Hk Hinj a b Ha Hb. rewrite !Hk by done. intros. by apply Hinj, lex_ltb_total.
Qed.
