(* ===== verification/Economics.v ===== *)
(** * Recovery economics and the ranking comparator

    Models [economics.hpp] and [src/economics.cpp]: saturating time arithmetic,
    the deadline evaluation, the named cost factors, and the lexicographic
    comparator the planner ranks candidates with. *)

From stdpp Require Import base gmap strings list.
From S2P Require Import Prelude Types Evidence StdSort.
#[local] Open Scope Z_scope.

Module DeadlineOutcome.
Inductive t := HARD_FEASIBLE | CONDITIONALLY_FEASIBLE | VIOLATED | NO_DEADLINE | UNKNOWN.
#[global] Instance eq_dec : EqDecision t.
Proof. solve_decision. Defined.

Definition to_string (o : t) : string :=
  match o with
  | HARD_FEASIBLE => "HARD_FEASIBLE" | CONDITIONALLY_FEASIBLE => "CONDITIONALLY_FEASIBLE"
  | VIOLATED => "VIOLATED" | NO_DEADLINE => "NO_DEADLINE" | UNKNOWN => "UNKNOWN"
  end.
End DeadlineOutcome.

Record DeadlineEvaluation := MkDeadline {
  d_deadline : option Timestamp;
  d_expected_completion : option Timestamp;
  d_slack : option Duration;
  d_outcome : DeadlineOutcome.t }.

Definition default_deadline : DeadlineEvaluation :=
  MkDeadline None None None DeadlineOutcome.UNKNOWN.

Record RecoveryEconomics := MkEconomics {
  e_expected_time : option Duration;
  e_restore_time : option Duration;
  e_restart_time : option Duration;
  e_transfer_duration : option Duration;
  e_recompute_time : option Duration;
  e_rehydrate_time : option Duration;
  e_transfer_bytes : option ByteCount;
  e_restore_bytes : option ByteCount;
  e_materialize_bytes : option ByteCount;
  e_expected_lost_progress : option ProgressUnits;
  e_expected_preserved_progress : option ProgressUnits;
  e_cost_units : option CostUnits;
  e_checkpoint_age : option Duration;
  e_deadline_slack : option Duration;
  e_max_tolerated_progress_loss : option ProgressUnits;
  e_progress_loss_within_tolerance : bool;
  e_failover_domain_risk : Z;
  e_confidence : Confidence }.

Definition default_economics : RecoveryEconomics :=
  MkEconomics None None None None None None None None None None None None None None None
    true 0 confidence_none.

(** ** Saturating 64-bit arithmetic *)

Definition sat_add (a b : Z) : Z :=
  if (0 <? b) && (INT64_MAX - b <? a) then INT64_MAX
  else if (b <? 0) && (a <? INT64_MIN - b) then INT64_MIN
  else a + b.

Definition sat_sub (a b : Z) : Z :=
  if (0 <? b) && (a <? INT64_MIN + b) then INT64_MIN
  else if (b <? 0) && (INT64_MAX + b <? a) then INT64_MAX
  else a - b.

(** ** Deadlines *)

Definition deadline_of (q : RecoveryRequest) (now : Timestamp) : option Timestamp :=
  match q_recovery_deadline q, q_max_recovery_duration q with
  | Some deadline, _ => Some deadline
  | None, Some allowance => Some (MkUnit (i64 (count now + count allowance)))
  | None, None => None
  end.

(** The sum of [deadline_of] is a plain signed addition of the code: outside the
    range of [std::int64_t] C++ leaves it undefined, and [i64] writes the
    two's-complement result. *)
Definition evaluate_deadline (c : RecoveryCandidate) (q : RecoveryRequest)
    (ctx : PlannerContext) (now : Timestamp) : DeadlineEvaluation :=
  match deadline_of q now with
  | None => MkDeadline None None None DeadlineOutcome.NO_DEADLINE
  | Some deadline =>
      match c_cost c with
      | Some cost =>
          match cost_expected_time cost with
          | Some expected =>
              let exp := if count expected <? 0 then 0 else count expected in
              let comp := sat_add (count now) exp in
              let dl := if count deadline <? count now then count now else count deadline in
              let slack := sat_sub dl comp in
              MkDeadline (Some deadline) (Some (MkUnit comp)) (Some (MkUnit slack))
                (if 0 <=? slack then DeadlineOutcome.HARD_FEASIBLE else DeadlineOutcome.VIOLATED)
          | None => MkDeadline (Some deadline) None None DeadlineOutcome.UNKNOWN
          end
      | None => MkDeadline (Some deadline) None None DeadlineOutcome.UNKNOWN
      end
  end.

(** ** Economics of a candidate *)

(** A member copied from the cost evidence, when there is one. *)
Definition from_cost {A} (c : RecoveryCandidate) (field : CostEvidence -> option A) : option A :=
  match c_cost c with Some cost => field cost | None => None end.

Definition checkpoint_age_of (c : RecoveryCandidate) : option Duration :=
  let age :=
    match c_checkpoint c with
    | Some cp => Some (cp_age cp)
    | None => from_cost c cost_checkpoint_age
    end in
  match age, c_state c with
  | None, Some st =>
      if bool_decide (m_provenance (st_meta st) = EvidenceProvenance.UNKNOWN) then None
      else Some (MkUnit 0)
  | _, _ => age
  end.

Definition compute_economics (c : RecoveryCandidate) (q : RecoveryRequest)
    (ctx : PlannerContext) (now : Timestamp) : RecoveryEconomics :=
  let lost := from_cost c cost_expected_lost_progress in
  {| e_expected_time := from_cost c cost_expected_time;
     e_restore_time := from_cost c cost_restore_time;
     e_restart_time := from_cost c cost_restart_time;
     e_transfer_duration := from_cost c cost_transfer_time;
     e_recompute_time := from_cost c cost_recompute_time;
     e_rehydrate_time := None;
     e_transfer_bytes := from_cost c cost_bytes_transferred;
     e_restore_bytes := from_cost c cost_bytes_read;
     e_materialize_bytes := from_cost c cost_bytes_materialized;
     e_expected_lost_progress := lost;
     e_expected_preserved_progress := from_cost c cost_expected_preserved_progress;
     e_cost_units := from_cost c cost_cost_units;
     e_checkpoint_age := checkpoint_age_of c;
     e_deadline_slack := d_slack (evaluate_deadline c q ctx now);
     e_max_tolerated_progress_loss :=
       match q_max_tolerated_progress_loss q, lost with
       | Some tolerated, Some _ => Some tolerated
       | _, _ => None
       end;
     e_progress_loss_within_tolerance :=
       match q_max_tolerated_progress_loss q, lost with
       | Some tolerated, Some l => count l <=? count tolerated
       | _, _ => true
       end;
     e_failover_domain_risk :=
       match c_cost c with Some cost => cost_failover_domain_risk cost | None => 0 end;
     e_confidence :=
       match c_cost c, c_authority c with
       | Some _, Some auth => m_confidence (auth_meta auth)
       | _, _ => confidence_none
       end |}.

(** ** The ranking comparator *)

Definition cmp_lower_better {tag} (a b : option (Unit tag)) : Z :=
  match a, b with
  | Some x, Some y => if unit_ltb x y then -1 else if unit_ltb y x then 1 else 0
  | Some _, None => -1
  | None, Some _ => 1
  | None, None => 0
  end.

Definition cmp_higher_better {tag} (a b : option (Unit tag)) : Z := cmp_lower_better b a.

Definition cmp_u8 (a b : Z) : Z := if a <? b then -1 else if b <? a then 1 else 0.

Definition candidate_precedes (lhs rhs : RecoveryCandidate) (le re : RecoveryEconomics)
    (ld rd : DeadlineEvaluation) : bool :=
  let cmp := cmp_higher_better (e_expected_preserved_progress le) (e_expected_preserved_progress re) in
  if negb (cmp =? 0) then cmp <? 0 else
  let cmp := cmp_lower_better (e_expected_lost_progress le) (e_expected_lost_progress re) in
  if negb (cmp =? 0) then cmp <? 0 else
  let cmp := cmp_lower_better (e_expected_time le) (e_expected_time re) in
  if negb (cmp =? 0) then cmp <? 0 else
  let cmp := cmp_lower_better (e_cost_units le) (e_cost_units re) in
  if negb (cmp =? 0) then cmp <? 0 else
  let cmp := cmp_u8 (e_failover_domain_risk le) (e_failover_domain_risk re) in
  if negb (cmp =? 0) then cmp <? 0 else
  let cmp := cmp_u8 (basis_points (e_confidence le)) (basis_points (e_confidence re)) in
  if negb (cmp =? 0) then 0 <? cmp else
  if negb (id_eqb (c_candidate_id lhs) (c_candidate_id rhs))
  then id_ltb (c_candidate_id lhs) (c_candidate_id rhs) else
  if negb (id_eqb (c_generation lhs) (c_generation rhs))
  then id_ltb (c_generation lhs) (c_generation rhs) else
  if negb (RecoveryStrategy.code (c_strategy lhs) =? RecoveryStrategy.code (c_strategy rhs))
  then RecoveryStrategy.code (c_strategy lhs) <? RecoveryStrategy.code (c_strategy rhs) else
  false.

(** ** Saturating arithmetic is clamping *)

Definition clamp_i64 (z : Z) : Z := Z.max INT64_MIN (Z.min INT64_MAX z).

Lemma clamp_i64_range z : is_i64 (clamp_i64 z).
Proof. unfold is_i64, clamp_i64, INT64_MIN, INT64_MAX. lia. Qed.

Lemma sat_add_clamp a b : is_i64 a -> is_i64 b -> sat_add a b = clamp_i64 (a + b).
Proof.
  unfold is_i64, sat_add, clamp_i64. intros Ha Hb.
  destruct_ifs; bool_simp; unfold INT64_MIN, INT64_MAX in *; try lia.
  all: repeat match goal with H : andb _ _ = false |- _ => apply andb_false_iff in H end.
  all: destruct_or?; bool_simp; lia.
Qed.

Lemma sat_sub_clamp a b : is_i64 a -> is_i64 b -> sat_sub a b = clamp_i64 (a - b).
Proof.
  unfold is_i64, sat_sub, clamp_i64. intros Ha Hb.
  destruct_ifs; bool_simp; unfold INT64_MIN, INT64_MAX in *; try lia.
  all: repeat match goal with H : andb _ _ = false |- _ => apply andb_false_iff in H end.
  all: destruct_or?; bool_simp; lia.
Qed.

(** The additions inside the guards stay in range: no overflow in [sat_add]. *)
Lemma sat_add_no_overflow a b :
  is_i64 a -> is_i64 b ->
  (0 < b -> is_i64 (INT64_MAX - b)) /\ (b < 0 -> is_i64 (INT64_MIN - b)) /\
  (sat_add a b = a + b -> is_i64 (a + b)).
Proof.
  intros Ha Hb. rewrite sat_add_clamp by done. pose proof (clamp_i64_range (a + b)) as Hc.
  unfold is_i64, INT64_MIN, INT64_MAX in *. repeat split; intros; try lia; congruence.
Qed.

(** ** Deadlines *)

(** Completion as the planner estimates it, and the deadline it is held to. *)
Definition estimated_completion (now expected : Z) : Z :=
  Z.min INT64_MAX (now + Z.max 0 expected).
Definition effective_deadline (now deadline : Z) : Z := Z.max now deadline.

Lemma evaluate_deadline_outcome c q ctx now deadline expected :
  deadline_of q now = Some deadline ->
  from_cost c cost_expected_time = Some expected ->
  is_i64 (count now) -> is_i64 (count deadline) -> is_i64 (count expected) ->
  let ev := evaluate_deadline c q ctx now in
  d_expected_completion ev = Some (MkUnit (estimated_completion (count now) (count expected))) /\
  d_slack ev = Some (MkUnit (clamp_i64 (effective_deadline (count now) (count deadline) -
                                        estimated_completion (count now) (count expected)))) /\
  d_outcome ev =
    if estimated_completion (count now) (count expected) <=?
       effective_deadline (count now) (count deadline)
    then DeadlineOutcome.HARD_FEASIBLE else DeadlineOutcome.VIOLATED.
Proof.
  intros Hd He Hn Hdl Hx. unfold evaluate_deadline. rewrite Hd.
  unfold from_cost in He. destruct (c_cost c) as [cost|]; [|done]. rewrite He.
  assert (forall x y, is_i64 x -> is_i64 y -> sat_sub x y = clamp_i64 (x - y)) as Hs
    by (intros; by apply sat_sub_clamp).
  set (exp := if count expected <? 0 then 0 else count expected).
  assert (exp = Z.max 0 (count expected)) as Hexp
    by (unfold exp; destruct (Z.ltb_spec (count expected) 0); lia).
  set (dl := if count deadline <? count now then count now else count deadline).
  assert (dl = effective_deadline (count now) (count deadline)) as Hdle
    by (unfold dl, effective_deadline; destruct (Z.ltb_spec (count deadline) (count now)); lia).
  assert (sat_add (count now) exp = estimated_completion (count now) (count expected)) as Hc.
  { rewrite Hexp, sat_add_clamp; [|done|].
    - unfold clamp_i64, estimated_completion. unfold is_i64, INT64_MIN, INT64_MAX in *. lia.
    - unfold is_i64, INT64_MIN, INT64_MAX in *. lia. }
  cbn [d_expected_completion d_slack d_outcome].
  assert (is_i64 dl) as Hdi by (rewrite Hdle; unfold effective_deadline, is_i64 in *; lia).
  assert (is_i64 (estimated_completion (count now) (count expected))) as Hci
    by (unfold estimated_completion, is_i64, INT64_MIN, INT64_MAX in *; lia).
  rewrite Hc, Hs, Hdle by done. split; [done|]. split; [done|].
  unfold clamp_i64, INT64_MIN, INT64_MAX.
  destruct (Z.leb_spec 0 (Z.max (-2 ^ 63) (Z.min (2 ^ 63 - 1)
    (effective_deadline (count now) (count deadline) -
     estimated_completion (count now) (count expected))))),
    (Z.leb_spec (estimated_completion (count now) (count expected))
       (effective_deadline (count now) (count deadline))); try done; lia.
Qed.

(** ** The comparator compares keys *)

(** "Lower is better", the unknown last.  For "higher is better" the code swaps
    the arguments of the same comparison, so the unknown comes first. *)
Definition key_lower {tag} (o : option (Unit tag)) : list Z :=
  match o with Some u => [0; count u] | None => [1; 0] end.
Definition key_higher {tag} (o : option (Unit tag)) : list Z :=
  match o with Some u => [1; - count u] | None => [0; 0] end.

(** The documented objectives in their order, then the tie-break. *)
Definition rank_key (c : RecoveryCandidate) (e : RecoveryEconomics) : list Z :=
  key_higher (e_expected_preserved_progress e) ++
  key_lower (e_expected_lost_progress e) ++
  key_lower (e_expected_time e) ++
  key_lower (e_cost_units e) ++
  [e_failover_domain_risk e; - basis_points (e_confidence e);
   value (c_candidate_id c); value (c_generation c); RecoveryStrategy.code (c_strategy c)].

Lemma key_lower_step {tag} (a b : option (Unit tag)) k1 k2 :
  lex_ltb (key_lower a ++ k1) (key_lower b ++ k2) =
  if negb (cmp_lower_better a b =? 0) then cmp_lower_better a b <? 0 else lex_ltb k1 k2.
Proof.
  destruct a as [x|], b as [y|]; cbn; try done. unfold unit_ltb.
  destruct (Z.ltb_spec (count x) (count y)), (Z.ltb_spec (count y) (count x)); done || lia.
Qed.

Lemma key_higher_step {tag} (a b : option (Unit tag)) k1 k2 :
  lex_ltb (key_higher a ++ k1) (key_higher b ++ k2) =
  if negb (cmp_higher_better a b =? 0) then cmp_higher_better a b <? 0 else lex_ltb k1 k2.
Proof.
  unfold cmp_higher_better. destruct a as [x|], b as [y|]; cbn; try done. unfold unit_ltb.
  destruct (Z.ltb_spec (count x) (count y)), (Z.ltb_spec (count y) (count x)),
    (Z.ltb_spec (- count x) (- count y)), (Z.ltb_spec (- count y) (- count x)); done || lia.
Qed.

Lemma precedes_key lhs rhs le re ld rd :
  candidate_precedes lhs rhs le re ld rd = lex_ltb (rank_key lhs le) (rank_key rhs re).
Proof.
  unfold rank_key. rewrite key_higher_step, !key_lower_step. unfold candidate_precedes.
  do 4 (match goal with |- (if ?b then _ else _) = _ => destruct b; [done|] end).
  unfold cmp_u8, id_eqb, id_ltb. cbn [lex_ltb].
  repeat match goal with
  | |- context [?x <? ?y] => destruct (Z.ltb_spec x y)
  | |- context [?x =? ?y] => destruct (Z.eqb_spec x y)
  end; cbn; try done; lia.
Qed.

Lemma rank_key_inj c1 c2 e1 e2 :
  rank_key c1 e1 = rank_key c2 e2 ->
  c_candidate_id c1 = c_candidate_id c2 /\ c_generation c1 = c_generation c2 /\
  c_strategy c1 = c_strategy c2.
Proof.
  unfold rank_key. rewrite !app_assoc.
  intros [_ H]%app_inj_2; [|done]. injection H as _ _ H1 H2 H3.
  destruct (c_candidate_id c1), (c_candidate_id c2), (c_generation c1), (c_generation c2).
  cbn in *. split_and!; [congruence..|by apply RecoveryStrategy.code_inj].
Qed.
