(* ===== verification/Digest.v ===== *)
(** * Canonical encoding and integrity primitives

    Models [digest.hpp] and [src/digest.cpp]: the big-endian [ByteWriter] and
    the bounded [ByteReader], CRC-32C, SHA-256 and hexadecimal text.  A byte is a
    [Z] in [0, 255]; a buffer is a list of bytes. *)

From Stdlib Require Import Ascii String.
From stdpp Require Import base strings list.
From S2P Require Import Prelude.
#[local] Open Scope Z_scope.

(** ** [ByteWriter]: the buffer written so far *)

(** The loop [for (i = n - 1; i >= 0; --i) push_back((v >> 8 * i) & 0xFF)]. *)
Fixpoint be_bytes (n : nat) (v : Z) : list Z :=
  match n with
  | O => []
  | S i => Z.land (Z.shiftr v (8 * Z.of_nat i)) 255 :: be_bytes i v
  end.

Definition w_u8 (v : Z) (buf : list Z) : list Z := buf ++ [v].
Definition w_u16 (v : Z) (buf : list Z) : list Z := buf ++ be_bytes 2 v.
Definition w_u32 (v : Z) (buf : list Z) : list Z := buf ++ be_bytes 4 v.
Definition w_u64 (v : Z) (buf : list Z) : list Z := buf ++ be_bytes 8 v.
Definition w_i64 (v : Z) (buf : list Z) : list Z := w_u64 (u64 v) buf.
Definition w_bytes (data : list Z) (buf : list Z) : list Z := buf ++ data.

(** The characters a [const char*] designates: up to the first NUL. *)
Fixpoint until_nul (l : list Z) : list Z :=
  match l with
  | [] => []
  | b :: l' => if b =? 0 then [] else b :: until_nul l'
  end.

(** [cstring(s.c_str())] *)
Definition w_cstring (s : string) (buf : list Z) : list Z :=
  buf ++ until_nul (string_bytes s) ++ [0].

(** ** [ByteReader]: bounded reads of untrusted data *)

Record ByteReader := MkReader {
  r_data : list Z;
  r_pos : nat;
  r_failed : bool }.

Definition reader (data : list Z) : ByteReader := MkReader data 0 false.

Definition r_ok (r : ByteReader) : bool := negb (r_failed r).
Definition remaining (r : ByteReader) : Z :=
  Z.of_nat (length (r_data r)) - Z.of_nat (r_pos r).
Definition has (n : Z) (r : ByteReader) : bool := negb (r_failed r) && (n <=? remaining r).
Definition fail (r : ByteReader) : ByteReader := MkReader (r_data r) (r_pos r) true.
Definition skip (n : nat) (r : ByteReader) : ByteReader :=
  MkReader (r_data r) (r_pos r + n) (r_failed r).

(** [data_[pos_ + i]], which the reads perform only in range. *)
Definition byte_at (r : ByteReader) (i : nat) : Z := default 0 (r_data r !! (r_pos r + i)%nat).

(** The loop [v = (v << 8) | data_[pos_ + i]] over [n] bytes, at width [w]. *)
Fixpoint be_value (w : Z) (v : Z) (bs : list Z) : Z :=
  match bs with
  | [] => v
  | b :: bs' => be_value w (Z.lor (wrap_u w (Z.shiftl v 8)) b) bs'
  end.

(** The next [n] bytes. *)
Definition next_bytes (n : nat) (r : ByteReader) : list Z := byte_at r <$> seq 0 n.

(** A read: its result and the reader after it. *)
Definition Reader (A : Type) : Type := ByteReader -> A * ByteReader.

Definition r_ret {A} (a : A) : Reader A := fun r => (a, r).
Definition r_bind {A B} (m : Reader A) (k : A -> Reader B) : Reader B :=
  fun r => let '(a, r') := m r in k a r'.

Declare Scope reader_scope.
Delimit Scope reader_scope with reader.
Notation "'let*' x := m 'in' k" := (r_bind m (fun x => k))
  (at level 10, x pattern, m at level 100, k at level 200) : reader_scope.
#[local] Open Scope reader_scope.

Definition r_u8 : Reader Z := fun r =>
  if has 1 r then (byte_at r 0, skip 1 r) else (0, fail r).
Definition r_u16 : Reader Z := fun r =>
  if has 2 r
  then (u16 (Z.lor (Z.shiftl (byte_at r 0) 8) (byte_at r 1)), skip 2 r)
  else (0, fail r).
Definition r_u32 : Reader Z := fun r =>
  if has 4 r then (be_value 32 0 (next_bytes 4 r), skip 4 r) else (0, fail r).
Definition r_u64 : Reader Z := fun r =>
  if has 8 r then (be_value 64 0 (next_bytes 8 r), skip 8 r) else (0, fail r).
Definition r_i64 : Reader Z := let* v := r_u64 in r_ret (i64 v).

(** [take(out, n)]: [None] when it returns false. *)
Definition r_take (n : Z) : Reader (option (list Z)) := fun r =>
  if has n r then (Some (next_bytes (Z.to_nat n) r), skip (Z.to_nat n) r) else (None, fail r).

Definition r_take_blob : Reader (option (list Z)) := fun r =>
  if has 4 r then
    let '(n, r1) := r_u32 r in
    if has n r1 then r_take n r1 else (None, fail r1)
  else (None, fail r).

(** [cstring()]: the loop stops at a NUL, at the end of the data or past 4096
    characters, so 4097 iterations are enough. *)
Fixpoint cstring_loop (fuel : nat) (s : list Z) (r : ByteReader) : list Z * ByteReader :=
  match fuel with
  | O => (s, r)
  | S fuel' =>
      if has 1 r then
        let c := byte_at r 0 in
        let r1 := skip 1 r in
        if c =? 0 then (s, r1)
        else
          let s1 := s ++ [c] in
          if 4096 <? Z.of_nat (length s1) then (s1, fail r1)
          else cstring_loop fuel' s1 r1
      else (s, fail r)
  end.

Definition cstring_fuel : nat := Z.to_nat 4097.

Definition r_cstring : Reader string := fun r =>
  let '(s, r') := cstring_loop cstring_fuel [] r in (bytes_string s, r').

(** ** CRC-32C *)

Definition u32_not (z : Z) : Z := Z.lxor z 4294967295.

Definition crc_poly : Z := 2197175160.

(** One iteration of the table's inner loop, and the table. *)
Definition crc_step (crc : Z) : Z :=
  if Z.land crc 1 =? 1 then Z.lxor crc_poly (Z.shiftr crc 1) else Z.shiftr crc 1.

Definition crc32c_table : list Z := (fun i => Nat.iter 8 crc_step (Z.of_nat i)) <$> seq 0 256.

Definition crc_update (crc b : Z) : Z :=
  Z.lxor (default 0 (crc32c_table !! Z.to_nat (Z.land (Z.lxor crc b) 255))) (Z.shiftr crc 8).

Definition crc32c (data : list Z) (seed : Z) : Z :=
  u32_not (foldl crc_update (u32_not seed) data).

(** ** SHA-256 *)

Definition sha_init : list Z :=
  [1779033703; 3144134277; 1013904242; 2773480762;
   1359893119; 2600822924; 528734635; 1541459225].

Definition sha_k : list Z :=
  [1116352408; 1899447441; 3049323471; 3921009573; 961987163; 1508970993; 2453635748;
   2870763221; 3624381080; 310598401; 607225278; 1426881987; 1925078388; 2162078206;
   2614888103; 3248222580; 3835390401; 4022224774; 264347078; 604807628; 770255983;
   1249150122; 1555081692; 1996064986; 2554220882; 2821834349; 2952996808; 3210313671;
   3336571891; 3584528711; 113926993; 338241895; 666307205; 773529912; 1294757372;
   1396182291; 1695183700; 1986661051; 2177026350; 2456956037; 2730485921; 2820302411;
   3259730800; 3345764771; 3516065817; 3600352804; 4094571909; 275423344; 430227734;
   506948616; 659060556; 883997877; 958139571; 1322822218; 1537002063; 1747873779;
   1955562222; 2024104815; 2227730452; 2361852424; 2428436474; 2756734187; 3204031479;
   3329325298].

(** [(x >> n) | (x << (32 - n))] on [std::uint32_t]. *)
Definition ror (n x : Z) : Z := Z.lor (Z.shiftr x n) (u32 (Z.shiftl x (32 - n))).

(** The number of zero bytes that brings [size] to 56 modulo 64: the loop
    [while (msg.size() % 64 != 56) push_back(0)], at most 63 iterations. *)
Fixpoint pad_loop (fuel : nat) (msg : list Z) : list Z :=
  match fuel with
  | O => msg
  | S fuel' =>
      if Z.of_nat (length msg) mod 64 =? 56 then msg else pad_loop fuel' (msg ++ [0])
  end.

Definition sha_pad (data : list Z) : list Z :=
  pad_loop 64 (data ++ [128]) ++ be_bytes 8 (u64 (Z.of_nat (length data) * 8)).

(** [w[i]] *)
Definition word (w : list Z) (i : nat) : Z := default 0 (w !! i).

Definition sha_first16 (msg : list Z) (off : nat) : list Z :=
  (fun i =>
     let b k := word msg (off + 4 * i + k) in
     Z.lor (Z.lor (Z.lor (u32 (Z.shiftl (b 0%nat) 24)) (u32 (Z.shiftl (b 1%nat) 16)))
                  (u32 (Z.shiftl (b 2%nat) 8))) (b 3%nat)) <$> seq 0 16.

(** The word the schedule loop appends at index [i]. *)
Definition sha_next_word (w : list Z) (i : nat) : Z :=
  let x := word w (i - 15) in
  let y := word w (i - 2) in
  let s0 := Z.lxor (Z.lxor (ror 7 x) (ror 18 x)) (Z.shiftr x 3) in
  let s1 := Z.lxor (Z.lxor (ror 17 y) (ror 19 y)) (Z.shiftr y 10) in
  u32 (word w (i - 16) + s0 + word w (i - 7) + s1).

Definition sha_schedule (msg : list Z) (off : nat) : list Z :=
  foldl (fun w i => w ++ [sha_next_word w i]) (sha_first16 msg off) (seq 16 48).

Record ShaState := MkSha { sa : Z; sb : Z; sc : Z; sd : Z; se : Z; sf : Z; sg : Z; sh : Z }.

Definition sha_round (s : ShaState) (kw : Z * Z) : ShaState :=
  let '(k, w) := kw in
  let S1 := Z.lxor (Z.lxor (ror 6 (se s)) (ror 11 (se s))) (ror 25 (se s)) in
  let ch := Z.lxor (Z.land (se s) (sf s)) (Z.land (u32_not (se s)) (sg s)) in
  let temp1 := u32 (sh s + S1 + ch + k + w) in
  let S0 := Z.lxor (Z.lxor (ror 2 (sa s)) (ror 13 (sa s))) (ror 22 (sa s)) in
  let maj := Z.lxor (Z.lxor (Z.land (sa s) (sb s)) (Z.land (sa s) (sc s))) (Z.land (sb s) (sc s)) in
  let temp2 := u32 (S0 + maj) in
  MkSha (u32 (temp1 + temp2)) (sa s) (sb s) (sc s) (u32 (sd s + temp1)) (se s) (sf s) (sg s).

Definition sha_words (s : ShaState) : list Z :=
  [sa s; sb s; sc s; sd s; se s; sf s; sg s; sh s].
Definition sha_state (h : list Z) : ShaState :=
  MkSha (word h 0) (word h 1) (word h 2) (word h 3) (word h 4) (word h 5) (word h 6) (word h 7).

(** One block: the 64 rounds, then the additions to [h]. *)
Definition sha_block (msg : list Z) (h : list Z) (off : nat) : list Z :=
  let s := foldl sha_round (sha_state h) (zip sha_k (sha_schedule msg off)) in
  zip_with (fun x y => u32 (x + y)) h (sha_words s).

Definition sha256 (data : list Z) : list Z :=
  let msg := sha_pad data in
  let h := foldl (sha_block msg) sha_init ((fun i => (64 * i)%nat) <$> seq 0 (length msg / 64)%nat) in
  h ≫= be_bytes 4.

(** ** Hexadecimal text *)

Definition hex_digits : list ascii :=
  ["0"; "1"; "2"; "3"; "4"; "5"; "6"; "7"; "8"; "9"; "a"; "b"; "c"; "d"; "e"; "f"]%char.

Definition hex_digit (z : Z) : ascii := default "0"%char (hex_digits !! Z.to_nat z).

Definition hex_encode (data : list Z) : string :=
  string_of_list_ascii
    (data ≫= fun b => [hex_digit (Z.land (Z.shiftr b 4) 15); hex_digit (Z.land b 15)]).

(** Published test vectors. *)
Example crc32c_check_value : crc32c (string_bytes "123456789") 0 = 3808858755.
Proof. vm_compute. reflexivity. Qed.

Example sha256_abc :
  hex_encode (sha256 (string_bytes "abc")) =
  "ba7816bf8f01cfea414140de5dae2223b00361a396177a9cb410ff61f20015ad".
Proof. vm_compute. reflexivity. Qed.

Example sha256_two_blocks :
  hex_encode (sha256 (string_bytes "abcdbcdecdefdefgefghfghighijhijkijkljklmklmnlmnomnopnopq")) =
  "248d6a61d20638b8e5c026930c3e6039a33ce45964ff2167f6ecedd419db06c1".
Proof. vm_compute. reflexivity. Qed.
