(* ===== verification/DigestSpec.v ===== *)
(** * What the encoding and integrity primitives promise

    Round trips of the big-endian writer and the bounded reader, stated so that
    decoders compose ([reads]); the position of a reader ([at_bytes]); and, in
    the other direction, the bytes a successful read has consumed. *)

From Stdlib Require Import Ascii String.
From stdpp Require Import base strings list.
From S2P Require Import Prelude Digest.
#[local] Open Scope Z_scope.
#[local] Open Scope reader_scope.

(** ** Big-endian bytes *)

Lemma length_be_bytes n v : length (be_bytes n v) = n.
Proof. induction n as [|n IH]; cbn; [done|]. by rewrite IH. Qed.

Lemma land_255_byte z : is_byte (Z.land z 255).
Proof.
  unfold is_byte, is_u. change 255 with (Z.ones 8).
  rewrite Z.land_ones by lia. by apply Z.mod_pos_bound.
Qed.

Lemma be_bytes_byte n v : Forall is_byte (be_bytes n v).
Proof. induction n; cbn; constructor; [apply land_255_byte|done]. Qed.

Lemma shiftr_low_byte x :
  Z.lor (Z.shiftl (Z.shiftr x 8) 8) (Z.land x 255) = x.
Proof.
  change 255 with (Z.ones 8). apply Z.bits_inj'. intros i Hi.
  rewrite Z.lor_spec, Z.land_spec, Z.shiftl_spec by lia.
  destruct (Z.lt_ge_cases i 8).
  - rewrite (Z.testbit_neg_r _ (i - 8)), Z.ones_spec_low by lia. by rewrite andb_true_r.
  - rewrite Z.shiftr_spec, Z.ones_spec_high by lia.
    replace (i - 8 + 8) with i by lia. by rewrite andb_false_r, orb_false_r.
Qed.

Lemma be_value_be_bytes w n v :
  0 <= v < 2 ^ w -> 0 <= w ->
  be_value w (Z.shiftr v (8 * Z.of_nat n)) (be_bytes n v) = v.
Proof.
  intros Hv Hw. induction n as [|n IH]; cbn [be_value be_bytes].
  { apply Z.shiftr_0_r. }
  set (x := Z.shiftr v (8 * Z.of_nat n)) in *.
  replace (Z.shiftr v (8 * Z.of_nat (S n))) with (Z.shiftr x 8)
    by (unfold x; rewrite Z.shiftr_shiftr by lia; f_equal; lia).
  assert (0 <= x < 2 ^ w) as Hx.
  { unfold x. rewrite Z.shiftr_div_pow2 by lia.
    assert (0 < 2 ^ (8 * Z.of_nat n)) by (apply Z.pow_pos_nonneg; lia).
    split; [apply Z.div_pos; lia|]. apply Z.div_lt_upper_bound; nia. }
  replace (wrap_u w (Z.shiftl (Z.shiftr x 8) 8)) with (Z.shiftl (Z.shiftr x 8) 8).
  - by rewrite shiftr_low_byte.
  - symmetry. apply wrap_u_id. unfold is_u.
    rewrite Z.shiftl_mul_pow2, Z.shiftr_div_pow2 by lia.
    pose proof (Z.mul_div_le x (2 ^ 8) eq_refl). pose proof (Z.div_pos x (2 ^ 8)). lia.
Qed.

Lemma be_value_bytes w n v :
  0 <= v < 2 ^ (8 * Z.of_nat n) -> 8 * Z.of_nat n <= w ->
  be_value w 0 (be_bytes n v) = v.
Proof.
  intros Hv Hw. rewrite <- (be_value_be_bytes w n v) at 2.
  - f_equal. symmetry. rewrite Z.shiftr_div_pow2 by lia. by apply Z.div_small.
  - pose proof (Z.pow_le_mono_r 2 (8 * Z.of_nat n) w). lia.
  - lia.
Qed.

(** ** Decoders

    [reads m bs v]: on a reader positioned before [bs], whatever follows, [m]
    returns [v], consumes exactly [bs] and does not fail. *)

Definition reads {A} (m : Reader A) (bs : list Z) (v : A) : Prop :=
  forall data pos rest, (pos <= length data)%nat -> drop pos data = bs ++ rest ->
  m (MkReader data pos false) = (v, MkReader data (pos + length bs) false).

Lemma drop_more {A} (data : list A) pos bs rest :
  drop pos data = bs ++ rest -> drop (pos + length bs) data = rest.
Proof. intros H. rewrite <- drop_drop, H. apply drop_app_length. Qed.

Lemma drop_bound {A} (data : list A) pos bs rest :
  (pos <= length data)%nat -> drop pos data = bs ++ rest ->
  (pos + length bs <= length data)%nat.
Proof.
  intros Hp H. apply (f_equal length) in H. rewrite length_drop, length_app in H. lia.
Qed.

Lemma reads_ret {A} (a : A) : reads (r_ret a) [] a.
Proof. intros data pos rest Hp H. unfold r_ret. by rewrite Nat.add_0_r. Qed.

Lemma reads_bind {A B} (m : Reader A) (k : A -> Reader B) b1 b2 v w :
  reads m b1 v -> reads (k v) b2 w -> reads (r_bind m k) (b1 ++ b2) w.
Proof.
  intros Hm Hk data pos rest Hp H. rewrite <- app_assoc in H. unfold r_bind.
  rewrite (Hm data pos (b2 ++ rest)) by done.
  rewrite (Hk data (pos + length b1)%nat rest).
  - by rewrite length_app, Nat.add_assoc.
  - by eapply drop_bound.
  - by eapply drop_more.
Qed.

(** A pure step after a decoder. *)
Lemma reads_map {A B} (m : Reader A) (f : A -> B) bs v :
  reads m bs v -> reads (r_bind m (fun x => r_ret (f x))) bs (f v).
Proof.
  intros Hm. rewrite <- (app_nil_r bs). eapply reads_bind; [done|]. apply reads_ret.
Qed.

Lemma has_at n data pos bs rest :
  (pos <= length data)%nat -> drop pos data = bs ++ rest -> n <= Z.of_nat (length bs) ->
  has n (MkReader data pos false) = true.
Proof.
  intros Hp H Hn. unfold has, remaining. cbn. apply Z.leb_le.
  pose proof (drop_bound _ _ _ _ Hp H). lia.
Qed.

Lemma byte_at_drop data pos f bs rest i :
  drop pos data = bs ++ rest -> (i < length bs)%nat ->
  byte_at (MkReader data pos f) i = default 0 (bs !! i).
Proof.
  intros H Hi. unfold byte_at. cbn. f_equal.
  rewrite <- lookup_drop, H. by apply lookup_app_l.
Qed.

Lemma next_bytes_at data pos f bs rest :
  drop pos data = bs ++ rest -> next_bytes (length bs) (MkReader data pos f) = bs.
Proof.
  intros H. unfold next_bytes. apply list_eq. intros i.
  rewrite list_lookup_fmap. destruct (decide (i < length bs)%nat) as [Hi|Hi].
  - rewrite lookup_seq_lt by done. cbn. rewrite (byte_at_drop _ _ _ bs rest) by done.
    by destruct (lookup_lt_is_Some_2 _ _ Hi) as [x ->].
  - rewrite lookup_seq_ge by lia. cbn. symmetry. apply lookup_ge_None_2. lia.
Qed.

Lemma reads_u8 v : reads r_u8 [v] v.
Proof.
  intros data pos rest Hp H. unfold r_u8. rewrite (has_at 1 _ _ [v] rest) by done.
  by rewrite (byte_at_drop _ _ _ [v] rest) by (done || cbn; lia).
Qed.

(** The fixed-width reads. *)
Lemma reads_fixed n w v :
  0 <= v < 2 ^ (8 * Z.of_nat n) -> 8 * Z.of_nat n <= w ->
  reads (fun r => if has (Z.of_nat n) r then (be_value w 0 (next_bytes n r), skip n r)
                  else (0, fail r))
    (be_bytes n v) v.
Proof.
  intros Hv Hw data pos rest Hp H.
  rewrite (has_at _ _ _ (be_bytes n v) rest) by (done || rewrite length_be_bytes; lia).
  rewrite <- (length_be_bytes n v) at 1. rewrite (next_bytes_at _ _ _ _ rest) by done.
  rewrite be_value_bytes by done. unfold skip. cbn. by rewrite length_be_bytes.
Qed.

Lemma reads_u32 v : 0 <= v < 2 ^ 32 -> reads r_u32 (be_bytes 4 v) v.
Proof. intros Hv. by apply (reads_fixed 4 32 v). Qed.

Lemma reads_u64 v : 0 <= v < 2 ^ 64 -> reads r_u64 (be_bytes 8 v) v.
Proof. intros Hv. by apply (reads_fixed 8 64 v). Qed.

Lemma reads_i64 v : is_i64 v -> reads r_i64 (be_bytes 8 (u64 v)) v.
Proof.
  intros Hv. rewrite <- (i64_u64 v Hv) at 2. apply reads_map, reads_u64, u64_range.
Qed.

Lemma reads_u16 v : 0 <= v < 2 ^ 16 -> reads r_u16 (be_bytes 2 v) v.
Proof.
  intros Hv data pos rest Hp H. unfold r_u16.
  rewrite (has_at 2 _ _ (be_bytes 2 v) rest) by done.
  rewrite !(byte_at_drop _ _ _ (be_bytes 2 v) rest) by (done || cbn; lia).
  change (default 0 (be_bytes 2 v !! 0%nat)) with (Z.land (Z.shiftr v 8) 255).
  change (default 0 (be_bytes 2 v !! 1%nat)) with (Z.land (Z.shiftr v 0) 255).
  rewrite Z.shiftr_0_r.
  replace (Z.land (Z.shiftr v 8) 255) with (Z.shiftr v 8).
  - rewrite shiftr_low_byte. unfold u16. by rewrite wrap_u_id.
  - symmetry. change 255 with (Z.ones 8). rewrite Z.land_ones, Z.shiftr_div_pow2 by lia.
    apply Z.mod_small. split; [apply Z.div_pos; lia|apply Z.div_lt_upper_bound; lia].
Qed.

(** ** NUL-terminated strings *)

Lemma until_nul_no_nul l : Forall (fun b => b <> 0) (until_nul l).
Proof.
  induction l as [|b l IH]; cbn; [constructor|].
  destruct (Z.eqb_spec b 0); [constructor|by constructor].
Qed.

Lemma until_nul_id l : Forall (fun b => b <> 0) l -> until_nul l = l.
Proof.
  induction 1 as [|b l Hb Hl IH]; cbn; [done|]. by rewrite (proj2 (Z.eqb_neq b 0) Hb), IH.
Qed.

Lemma byte_at_hd data pos b rest :
  drop pos data = b :: rest -> byte_at (MkReader data pos false) 0 = b.
Proof. intros H. by rewrite (byte_at_drop _ _ _ [b] rest) by (done || cbn; lia). Qed.

Lemma cstring_loop_reads fuel s bs data pos rest :
  Forall (fun b => b <> 0) bs -> (length bs < fuel)%nat ->
  Z.of_nat (length s + length bs) <= 4096 ->
  (pos <= length data)%nat -> drop pos data = bs ++ 0 :: rest ->
  cstring_loop fuel s (MkReader data pos false) =
    (s ++ bs, MkReader data (pos + length (bs ++ [0%Z])) false).
Proof.
  intros Hnz. revert fuel s pos. induction Hnz as [|b bs Hb Hbs IH]; intros fuel s pos Hf Hl Hp H.
  - destruct fuel as [|fuel]; [cbn in Hf; lia|]. cbn [cstring_loop app] in *.
    rewrite (has_at 1 _ _ [0] rest) by done. rewrite (byte_at_hd _ _ 0 rest) by done.
    by rewrite app_nil_r.
  - destruct fuel as [|fuel]; [cbn in Hf; lia|]. cbn [cstring_loop app length] in *.
    rewrite (has_at 1 _ _ [b] (bs ++ 0 :: rest)) by done.
    rewrite (byte_at_hd _ _ b (bs ++ 0 :: rest)) by done.
    rewrite (proj2 (Z.eqb_neq b 0) Hb).
    rewrite length_app. cbn [length].
    rewrite (proj2 (Z.ltb_ge _ _)) by lia.
    unfold skip. cbn [r_data r_pos r_failed]. rewrite IH.
    + rewrite <- app_assoc. cbn [app length]. do 2 f_equal. lia.
    + lia.
    + rewrite length_app; cbn [length]; lia.
    + pose proof (drop_bound data pos [b] (bs ++ 0 :: rest) Hp H) as Hd. cbn in Hd. lia.
    + by apply (drop_more data pos [b]).
Qed.

Lemma reads_cstring bs :
  Forall (fun b => b <> 0) bs -> Z.of_nat (length bs) <= 4096 ->
  reads r_cstring (bs ++ [0]) (bytes_string bs).
Proof.
  intros Hnz Hl data pos rest Hp H. rewrite <- app_assoc in H. unfold r_cstring.
  rewrite (cstring_loop_reads _ [] bs _ _ rest); try done.
  unfold cstring_fuel. lia.
Qed.

(** A string whose characters are kept by a round trip through [c_str]. *)
Definition storable (s : string) : Prop :=
  Forall (fun b => b <> 0) (string_bytes s) /\ Z.of_nat (String.length s) <= 4096.

Lemma reads_storable s :
  storable s -> reads r_cstring (until_nul (string_bytes s) ++ [0]) s.
Proof.
  intros [Hnz Hl]. rewrite until_nul_id by done.
  rewrite <- (bytes_string_bytes s) at 2. apply reads_cstring; [done|].
  by rewrite length_string_bytes.
Qed.

(** More than 4096 characters before the NUL: the reader fails. *)
Lemma cstring_loop_too_long fuel s bs data pos rest :
  Forall (fun b => b <> 0) bs -> Z.of_nat (fuel + length s) = 4097 ->
  4097 <= Z.of_nat (length s + length bs) -> Z.of_nat (length s) <= 4096 ->
  (pos <= length data)%nat -> drop pos data = bs ++ rest ->
  r_failed (cstring_loop fuel s (MkReader data pos false)).2 = true.
Proof.
  intros Hnz. revert fuel s pos. induction Hnz as [|b bs Hb Hbs IH]; intros fuel s pos Hf Hl Hs Hp H.
  - cbn in Hl. lia.
  - destruct fuel as [|fuel]; [lia|]. cbn [cstring_loop app length] in *.
    rewrite (has_at 1 _ _ [b] (bs ++ rest)) by done.
    rewrite (byte_at_hd _ _ b (bs ++ rest)) by done.
    rewrite (proj2 (Z.eqb_neq b 0) Hb).
    destruct (Z.ltb_spec 4096 (Z.of_nat (length (s ++ [b])))) as [Hlt|Hge]; [done|].
    rewrite length_app in Hge; cbn [length] in Hge. unfold skip; cbn [r_data r_pos r_failed].
    apply IH.
    + rewrite length_app; cbn [length]. lia.
    + rewrite length_app; cbn [length]. lia.
    + rewrite length_app; cbn [length]. lia.
    + pose proof (drop_bound data pos [b] (bs ++ rest) Hp H) as Hd. cbn in Hd. lia.
    + by apply (drop_more data pos [b]).
Qed.

Lemma cstring_too_long bs data pos rest :
  Forall (fun b => b <> 0) bs -> 4097 <= Z.of_nat (length bs) ->
  (pos <= length data)%nat -> drop pos data = bs ++ rest ->
  r_failed (r_cstring (MkReader data pos false)).2 = true.
Proof.
  intros Hnz Hl Hp H. unfold r_cstring.
  pose proof (cstring_loop_too_long cstring_fuel [] bs data pos rest) as Hf.
  destruct (cstring_loop _ _ _) as [s' r'] eqn:E. cbn in *. apply Hf; try done.
Qed.

(** ** Positions *)

(** The reader is positioned before exactly the bytes [bs]. *)
Definition at_bytes (r : ByteReader) (bs : list Z) : Prop :=
  r_failed r = false /\ (r_pos r <= length (r_data r))%nat /\ drop (r_pos r) (r_data r) = bs.

Lemma at_reader bs : at_bytes (reader bs) bs.
Proof. split_and!; [done|cbn; lia|done]. Qed.

Lemma reads_at {A} (m : Reader A) bs v r rest :
  reads m bs v -> at_bytes r (bs ++ rest) -> exists r', m r = (v, r') /\ at_bytes r' rest.
Proof.
  destruct r as [data pos failed]. intros Hm (Hf & Hp & Hd). cbn in Hf, Hp, Hd. subst failed.
  eexists. split; [by apply (Hm data pos rest)|].
  split_and!; [done|by eapply drop_bound|by apply drop_more in Hd].
Qed.

Lemma at_ok r bs : at_bytes r bs -> r_ok r = true.
Proof. intros (Hf & _). unfold r_ok. by rewrite Hf. Qed.

(** ** What a successful read has consumed *)

Lemma be_bytes_snoc n v :
  be_bytes (S n) v = be_bytes n (Z.shiftr v 8) ++ [Z.land v 255].
Proof.
  revert v. induction n as [|n IH]; intros v.
  - cbn. by rewrite Z.shiftr_0_r.
  - change (be_bytes (S (S n)) v) with
      (Z.land (Z.shiftr v (8 * Z.of_nat (S n))) 255 :: be_bytes (S n) v).
    rewrite IH. cbn [be_bytes app]. rewrite Z.shiftr_shiftr by lia.
    by replace (8 + 8 * Z.of_nat n) with (8 * Z.of_nat (S n)) by lia.
Qed.

Lemma be_value_snoc w v l b :
  be_value w v (l ++ [b]) = Z.lor (wrap_u w (Z.shiftl (be_value w v l) 8)) b.
Proof. revert v. induction l as [|c l IH]; intros v; cbn; [done|]. apply IH. Qed.

Lemma lor_byte x b : is_byte b -> Z.shiftr (Z.lor (Z.shiftl x 8) b) 8 = x /\
  Z.land (Z.lor (Z.shiftl x 8) b) 255 = b.
Proof.
  intros [Hb0 Hb]. assert (Z.shiftr b 8 = 0) as Hs.
  { rewrite Z.shiftr_div_pow2 by lia. by apply Z.div_small. }
  split.
  - rewrite Z.shiftr_lor, Hs, Z.lor_0_r, Z.shiftr_shiftl_l by lia. apply Z.shiftl_0_r.
  - rewrite Z.land_lor_distr_l. change 255 with (Z.ones 8).
    rewrite !Z.land_ones, Z.shiftl_mul_pow2, Z.mod_mul by lia.
    rewrite Z.lor_0_l. by apply Z.mod_small.
Qed.

Lemma be_value_range w l :
  Forall is_byte l -> 8 * Z.of_nat (length l) <= w ->
  0 <= be_value w 0 l < 2 ^ (8 * Z.of_nat (length l)) /\ be_bytes (length l) (be_value w 0 l) = l.
Proof.
  intros Hl. induction l as [|b l IH] using rev_ind; intros Hw; [by split; [cbn; lia|]|].
  apply Forall_app in Hl as [Hl Hb]. rewrite Forall_singleton in Hb.
  rewrite length_app in *. cbn [length] in *.
  destruct (IH Hl) as [Hr Hi]; [lia|]. rewrite be_value_snoc.
  set (x := be_value w 0 l) in *.
  assert (wrap_u w (Z.shiftl x 8) = Z.shiftl x 8) as ->.
  { apply wrap_u_id. unfold is_u. rewrite Z.shiftl_mul_pow2 by lia.
    pose proof (Z.pow_le_mono_r 2 (8 * Z.of_nat (length l) + 8) w) as Hp.
    rewrite Z.pow_add_r in Hp by lia. lia. }
  replace (length l + 1)%nat with (S (length l)) by lia.
  destruct (lor_byte x b Hb) as [H1 H2]. rewrite be_bytes_snoc, H1, H2, Hi.
  split; [|done]. split.
  - apply Z.lor_nonneg. split; [apply Z.shiftl_nonneg; lia|]. unfold is_byte, is_u in Hb. lia.
  - replace (8 * Z.of_nat (S (length l))) with (8 * Z.of_nat (length l) + 8) by lia.
    rewrite Z.pow_add_r by lia.
    pose proof (Z.div_mod (Z.lor (Z.shiftl x 8) b) (2 ^ 8)) as Hd.
    rewrite <- Z.shiftr_div_pow2, H1, <- Z.land_ones in Hd by lia.
    change (Z.ones 8) with 255 in Hd. rewrite H2 in Hd. unfold is_byte, is_u in Hb. lia.
Qed.

Lemma has_split n r :
  r_failed r = false -> (r_pos r <= length (r_data r))%nat -> has (Z.of_nat n) r = true ->
  at_bytes r (next_bytes n r ++ drop (r_pos r + n) (r_data r)) /\
  at_bytes (skip n r) (drop (r_pos r + n) (r_data r)) /\ length (next_bytes n r) = n.
Proof.
  destruct r as [data pos failed]. cbn. intros -> Hp Hh.
  unfold has, remaining in Hh. cbn in Hh. apply Z.leb_le in Hh.
  assert (drop pos data = take n (drop pos data) ++ drop (pos + n) data) as Hd
    by (rewrite <- drop_drop; symmetry; apply take_drop).
  assert (length (take n (drop pos data)) = n) as Hn
    by (rewrite length_take, length_drop; lia).
  assert (next_bytes n (MkReader data pos false) = take n (drop pos data)) as Hnb
    by (rewrite <- Hn at 1; by eapply next_bytes_at).
  rewrite Hnb. unfold at_bytes. cbn. split_and!; done || lia.
Qed.

Lemma at_byte_forall r bs : Forall is_byte (r_data r) -> at_bytes r bs -> Forall is_byte bs.
Proof. intros Hd (_ & _ & <-). by apply Forall_drop. Qed.

Lemma u32_consumed r bs v r' :
  Forall is_byte (r_data r) -> at_bytes r bs -> r_u32 r = (v, r') -> r_ok r' = true ->
  exists rest, bs = be_bytes 4 v ++ rest /\ at_bytes r' rest /\ is_u 32 v /\ r_data r' = r_data r.
Proof.
  intros Hd Ha H Hok. unfold r_u32 in H. destruct (has 4 r) eqn:Hh; simplify_eq.
  pose proof Ha as (Hf & Hp & <-).
  destruct (has_split 4 r Hf Hp Hh) as (H1 & H2 & H3).
  pose proof (at_byte_forall _ _ Hd H1) as Hb. apply Forall_app in Hb as [Hb _].
  destruct (be_value_range 32 (next_bytes 4 r) Hb) as [Hr Hi]; [by rewrite H3|].
  rewrite H3 in Hr, Hi. eexists. split_and!; [|exact H2|exact Hr|done].
  rewrite Hi. by destruct H1 as (_ & _ & ->).
Qed.

Lemma take_consumed n r bs v r' :
  at_bytes r bs -> 0 <= n -> r_take n r = (Some v, r') ->
  exists rest, bs = v ++ rest /\ at_bytes r' rest /\ Z.of_nat (length v) = n /\
    r_data r' = r_data r.
Proof.
  intros Ha Hn H. unfold r_take in H. destruct (has n r) eqn:Hh; simplify_eq.
  pose proof Ha as (Hf & Hp & <-).
  destruct (has_split (Z.to_nat n) r Hf Hp) as (H1 & H2 & H3); [by rewrite Z2Nat.id by lia|].
  eexists. split_and!; [|exact H2|rewrite H3; lia|done]. by destruct H1 as (_ & _ & ->).
Qed.

Lemma reads_take bs : reads (r_take (Z.of_nat (length bs))) bs (Some bs).
Proof.
  intros data pos rest Hp H. unfold r_take.
  rewrite (has_at _ _ _ bs rest) by (done || lia).
  rewrite Nat2Z.id, (next_bytes_at _ _ _ _ rest) by done. done.
Qed.

(** A failed reader stays failed. *)
Lemma u32_ok_before r v r' : r_u32 r = (v, r') -> r_ok r' = true -> r_ok r = true.
Proof.
  unfold r_u32, r_ok, has. destruct (r_failed r) eqn:Hf; cbn [negb andb]; [|done].
  intros [= <- <-] H. done.
Qed.
