(* ===== verification/Codec.v ===== *)
(** * Formats

    The contract of a byte format, as an interface: every well-formed value is
    recovered from its encoding, and nothing but an encoding of it decodes to a
    value.  Instances: the stored frame ([PersistenceSpec]) and the message
    ([NetworkSpec]). *)

From stdpp Require Import base list.
From S2P Require Import Prelude.
#[local] Open Scope Z_scope.

Class Codec {A : Type} (wf : A -> Prop) (enc : A -> list Z) (dec : list Z -> option A) : Prop := {
  codec_bytes a : wf a -> Forall is_byte (enc a);
  codec_complete a : wf a -> dec (enc a) = Some a;
  codec_sound raw a : Forall is_byte raw -> dec raw = Some a -> wf a /\ raw = enc a }.

Section Formats.
Context `{Codec A wf enc dec}.

Lemma codec_iff raw a : Forall is_byte raw -> dec raw = Some a <-> wf a /\ raw = enc a.
Proof.
  intros Hraw. split; [by apply codec_sound|]. intros [Ha ->]. by apply codec_complete.
Qed.

(** Two values never share an encoding. *)
Lemma codec_inj a b : wf a -> wf b -> enc a = enc b -> a = b.
Proof.
  intros Ha Hb He. apply (f_equal dec) in He. rewrite !codec_complete in He by done. congruence.
Qed.

(** An altered encoding never decodes to the original value. *)
Lemma codec_altered raw a : Forall is_byte raw -> raw <> enc a -> dec raw <> Some a.
Proof. intros Hraw Hne Hd. by apply codec_sound in Hd as [_ ?]. Qed.
End Formats.
