(* ===== verification/Plan.v ===== *)
(** * Plans: authority, lifecycle, explanation, and the dispatch messages

    Models [plan.hpp], [src/plan.cpp] and the types of [executor.hpp]. *)

From stdpp Require Import base gmap strings list.
From S2P Require Import Prelude Types Evidence Feasibility Economics.
#[local] Open Scope Z_scope.

(** ** [executor.hpp]: statuses and messages *)

Module DispatchStatus.
Inductive t := DISPATCHED | REJECTED | DROPPED | UNKNOWN.
#[global] Instance eq_dec : EqDecision t.
Proof. solve_decision. Defined.

Definition to_string (s : t) : string :=
  match s with
  | DISPATCHED => "DISPATCHED" | REJECTED => "REJECTED" | DROPPED => "DROPPED"
  | UNKNOWN => "UNKNOWN"
  end.
End DispatchStatus.

Module ExecutionOutcome.
Inductive t := SUCCEEDED | FAILED | AMBIGUOUS | UNKNOWN | CANCELLED | OTHER (n : N).
#[global] Instance eq_dec : EqDecision t.
Proof. solve_decision. Defined.

Definition code (o : t) : Z :=
  match o with
  | SUCCEEDED => 0 | FAILED => 1 | AMBIGUOUS => 2 | UNKNOWN => 3 | CANCELLED => 4
  | OTHER n => 5 + Z.of_N n
  end.
Definition of_code (z : Z) : t :=
  enum_of_code [SUCCEEDED; FAILED; AMBIGUOUS; UNKNOWN; CANCELLED] OTHER z.
Definition to_string (o : t) : string :=
  match o with
  | SUCCEEDED => "SUCCEEDED" | FAILED => "FAILED" | AMBIGUOUS => "AMBIGUOUS"
  | UNKNOWN => "UNKNOWN" | CANCELLED => "CANCELLED" | OTHER _ => "UNKNOWN"
  end.

Lemma outcome_of_code_code o : of_code (code o) = o.
Proof. destruct o as [ | | | | |n]; try done. apply (enum_of_code_other [_; _; _; _; _]). Qed.
End ExecutionOutcome.

Record RecoveryDispatch := MkDispatch {
  rd_dispatch_id : DispatchId;
  rd_plan_id : RecoveryPlanId;
  rd_plan_generation : RecoveryPlanGeneration;
  rd_request_id : RecoveryRequestId;
  rd_strategy : RecoveryStrategy.t;
  rd_target_worker : WorkerId;
  rd_target_boot : WorkerBootId;
  rd_engine_incarnation : EngineIncarnationId;
  rd_state_source : StateId;
  rd_state_generation : StateGeneration;
  rd_attempt : AttemptId;
  rd_payload : string }.

Record RecoveryReceipt := MkReceipt {
  rr_dispatch_id : DispatchId;
  rr_status : DispatchStatus.t;
  rr_at : Timestamp;
  rr_detail : string }.

(** ** Lifecycle states *)

Module PlanLifecycleState.
Inductive t :=
| REQUESTED | EVALUATING | PLANNED | AUTHORIZED | DISPATCHED | EXECUTING | SUCCEEDED | FAILED
| SUPERSEDED | CANCELLED | EXPIRED | INVALIDATED | OTHER (n : N).
#[global] Instance eq_dec : EqDecision t.
Proof. solve_decision. Defined.

Definition code (s : t) : Z :=
  match s with
  | REQUESTED => 0 | EVALUATING => 1 | PLANNED => 2 | AUTHORIZED => 3 | DISPATCHED => 4
  | EXECUTING => 5 | SUCCEEDED => 6 | FAILED => 7 | SUPERSEDED => 8 | CANCELLED => 9
  | EXPIRED => 10 | INVALIDATED => 11 | OTHER n => 12 + Z.of_N n
  end.
Definition of_code (z : Z) : t :=
  enum_of_code [REQUESTED; EVALUATING; PLANNED; AUTHORIZED; DISPATCHED; EXECUTING; SUCCEEDED;
                FAILED; SUPERSEDED; CANCELLED; EXPIRED; INVALIDATED] OTHER z.
Definition to_string (s : t) : string :=
  match s with
  | REQUESTED => "REQUESTED" | EVALUATING => "EVALUATING" | PLANNED => "PLANNED"
  | AUTHORIZED => "AUTHORIZED" | DISPATCHED => "DISPATCHED" | EXECUTING => "EXECUTING"
  | SUCCEEDED => "SUCCEEDED" | FAILED => "FAILED" | SUPERSEDED => "SUPERSEDED"
  | CANCELLED => "CANCELLED" | EXPIRED => "EXPIRED" | INVALIDATED => "INVALIDATED"
  | OTHER _ => "UNKNOWN"
  end.

Lemma state_of_code_code s : of_code (code s) = s.
Proof.
  destruct s as [ | | | | | | | | | | | |n]; try done.
  apply (enum_of_code_other [_; _; _; _; _; _; _; _; _; _; _; _]).
Qed.
End PlanLifecycleState.

(** The [terminal] test, written out at each of its uses in the code. *)
Definition terminal (s : PlanLifecycleState.t) : bool :=
  match s with
  | PlanLifecycleState.SUCCEEDED | PlanLifecycleState.FAILED | PlanLifecycleState.CANCELLED
  | PlanLifecycleState.EXPIRED | PlanLifecycleState.INVALIDATED
  | PlanLifecycleState.SUPERSEDED => true
  | _ => false
  end.

Definition validate_plan_transition (from to : PlanLifecycleState.t) : bool :=
  if terminal from then false
  else if bool_decide (to = from) then true
  else
    match from with
    | PlanLifecycleState.REQUESTED =>
        match to with
        | PlanLifecycleState.EVALUATING | PlanLifecycleState.PLANNED
        | PlanLifecycleState.CANCELLED | PlanLifecycleState.INVALIDATED => true
        | _ => false
        end
    | PlanLifecycleState.EVALUATING =>
        match to with
        | PlanLifecycleState.PLANNED | PlanLifecycleState.CANCELLED
        | PlanLifecycleState.INVALIDATED => true
        | _ => false
        end
    | PlanLifecycleState.PLANNED =>
        match to with
        | PlanLifecycleState.AUTHORIZED | PlanLifecycleState.CANCELLED
        | PlanLifecycleState.INVALIDATED | PlanLifecycleState.EXPIRED
        | PlanLifecycleState.SUPERSEDED => true
        | _ => false
        end
    | PlanLifecycleState.AUTHORIZED =>
        match to with
        | PlanLifecycleState.DISPATCHED | PlanLifecycleState.CANCELLED
        | PlanLifecycleState.INVALIDATED | PlanLifecycleState.EXPIRED
        | PlanLifecycleState.SUPERSEDED => true
        | _ => false
        end
    | PlanLifecycleState.DISPATCHED =>
        match to with
        | PlanLifecycleState.EXECUTING | PlanLifecycleState.FAILED
        | PlanLifecycleState.SUCCEEDED | PlanLifecycleState.INVALIDATED
        | PlanLifecycleState.SUPERSEDED => true
        | _ => false
        end
    | PlanLifecycleState.EXECUTING =>
        match to with
        | PlanLifecycleState.SUCCEEDED | PlanLifecycleState.FAILED
        | PlanLifecycleState.INVALIDATED | PlanLifecycleState.SUPERSEDED => true
        | _ => false
        end
    | _ => false
    end.

(** ** Authority, explanation, plan *)

Record PlanAuthority := MkAuthority {
  pa_coordinator_epoch : CoordinatorEpoch;
  pa_planner_boot : PlannerBootId;
  pa_request_id : RecoveryRequestId;
  pa_plan_generation : RecoveryPlanGeneration;
  pa_candidate_generation : CandidateGeneration;
  pa_target_boot : WorkerBootId;
  pa_engine_incarnation : EngineIncarnationId;
  pa_state_generation : StateGeneration;
  pa_compatibility_generation : CompatibilityGeneration;
  pa_resource_generation : ResourceGeneration;
  pa_policy_generation : PolicyGeneration;
  pa_topology_generation : TopologyGeneration;
  pa_workload_generation : WorkloadGeneration }.

Definition default_authority : PlanAuthority :=
  MkAuthority id_null id_null id_null id_null id_null id_null id_null id_null id_null id_null
    id_null id_null id_null.

Record RankFactor := MkRankFactor { rf_name : string; rf_value : string; rf_priority : Z }.

Record RejectedAlternative := MkRejected {
  ra_candidate_id : CandidateId;
  ra_strategy : RecoveryStrategy.t;
  ra_feasibility : FeasibilityResult.t;
  ra_reasons : list string }.

Record WhatWouldChange := MkWhatWouldChange { conditions : list (string * string) }.

Record PlanExplanation := MkExplanation {
  x_selected_strategy : RecoveryStrategy.t;
  x_selected_candidate : CandidateId;
  x_selected_candidate_generation : CandidateGeneration;
  x_rank_factors : list RankFactor;
  x_binding_constraints : list ConstraintViolation;
  x_feasibility_reasons : list string;
  x_deadline_slack : option Duration;
  x_preserved_progress : option ProgressUnits;
  x_lost_progress : option ProgressUnits;
  x_cost : option CostUnits;
  x_readiness : CandidateReadiness.t;
  x_compatibility : CompatibilityResult.t;
  x_resource_status : ResourceStatus.t;
  x_uncertainty : Confidence;
  x_authority : PlanAuthority;
  x_rejected_alternatives : list RejectedAlternative;
  x_missing_evidence : list string;
  x_what_would_change : WhatWouldChange }.

Definition default_explanation : PlanExplanation :=
  MkExplanation RecoveryStrategy.RESTART id_null id_null [] [] [] None None None None
    CandidateReadiness.UNKNOWN CompatibilityResult.UNKNOWN ResourceStatus.UNKNOWN
    confidence_none default_authority [] [] (MkWhatWouldChange []).

Record RecoveryPlan := MkPlan {
  p_plan_id : RecoveryPlanId;
  p_generation : RecoveryPlanGeneration;
  p_request_id : RecoveryRequestId;
  p_workload : WorkloadId;
  p_strategy : RecoveryStrategy.t;
  p_candidate_id : CandidateId;
  p_candidate_generation : CandidateGeneration;
  p_target_worker : WorkerId;
  p_target_boot : WorkerBootId;
  p_target_engine : EngineId;
  p_engine_incarnation : EngineIncarnationId;
  p_state_source : StateId;
  p_state_generation : StateGeneration;
  p_checkpoint_source : CheckpointId;
  p_authority : PlanAuthority;
  p_state : PlanLifecycleState.t;
  p_economics : RecoveryEconomics;
  p_deadline : DeadlineEvaluation;
  p_explanation : PlanExplanation;
  p_dispatch_payload : string;
  p_created_at : Timestamp;
  p_updated_at : Timestamp;
  p_last_attempt : AttemptId;
  p_execution_outcome : ExecutionOutcome.t;
  p_outcome_published : bool;
  p_decision_digest : string }.

Definition default_plan : RecoveryPlan :=
  MkPlan id_null id_null id_null id_null RecoveryStrategy.RESTART id_null id_null id_null id_null
    id_null id_null id_null id_null id_null default_authority PlanLifecycleState.PLANNED
    default_economics default_deadline default_explanation "" unit_zero unit_zero id_null
    ExecutionOutcome.UNKNOWN false "".

(** Assignments to the members the lifecycle operations change. *)
Definition p_update (state : PlanLifecycleState.t) (updated : Timestamp) (attempt : AttemptId)
    (outcome : ExecutionOutcome.t) (published : bool) (p : RecoveryPlan) : RecoveryPlan :=
  MkPlan (p_plan_id p) (p_generation p) (p_request_id p) (p_workload p) (p_strategy p)
    (p_candidate_id p) (p_candidate_generation p) (p_target_worker p) (p_target_boot p)
    (p_target_engine p) (p_engine_incarnation p) (p_state_source p) (p_state_generation p)
    (p_checkpoint_source p) (p_authority p) state (p_economics p) (p_deadline p)
    (p_explanation p) (p_dispatch_payload p) (p_created_at p) updated attempt outcome published
    (p_decision_digest p).

Definition p_set_state (s : PlanLifecycleState.t) (p : RecoveryPlan) : RecoveryPlan :=
  p_update s (p_updated_at p) (p_last_attempt p) (p_execution_outcome p)
    (p_outcome_published p) p.
Definition p_set_updated (t : Timestamp) (p : RecoveryPlan) : RecoveryPlan :=
  p_update (p_state p) t (p_last_attempt p) (p_execution_outcome p) (p_outcome_published p) p.
Definition p_set_attempt (a : AttemptId) (p : RecoveryPlan) : RecoveryPlan :=
  p_update (p_state p) (p_updated_at p) a (p_execution_outcome p) (p_outcome_published p) p.
Definition p_set_outcome (o : ExecutionOutcome.t) (p : RecoveryPlan) : RecoveryPlan :=
  p_update (p_state p) (p_updated_at p) (p_last_attempt p) o (p_outcome_published p) p.
Definition p_set_published (b : bool) (p : RecoveryPlan) : RecoveryPlan :=
  p_update (p_state p) (p_updated_at p) (p_last_attempt p) (p_execution_outcome p) b p.

Definition p_set_explanation (x : PlanExplanation) (p : RecoveryPlan) : RecoveryPlan :=
  MkPlan (p_plan_id p) (p_generation p) (p_request_id p) (p_workload p) (p_strategy p)
    (p_candidate_id p) (p_candidate_generation p) (p_target_worker p) (p_target_boot p)
    (p_target_engine p) (p_engine_incarnation p) (p_state_source p) (p_state_generation p)
    (p_checkpoint_source p) (p_authority p) (p_state p) (p_economics p) (p_deadline p)
    x (p_dispatch_payload p) (p_created_at p) (p_updated_at p) (p_last_attempt p)
    (p_execution_outcome p) (p_outcome_published p) (p_decision_digest p).

Definition p_set_digest (d : string) (p : RecoveryPlan) : RecoveryPlan :=
  MkPlan (p_plan_id p) (p_generation p) (p_request_id p) (p_workload p) (p_strategy p)
    (p_candidate_id p) (p_candidate_generation p) (p_target_worker p) (p_target_boot p)
    (p_target_engine p) (p_engine_incarnation p) (p_state_source p) (p_state_generation p)
    (p_checkpoint_source p) (p_authority p) (p_state p) (p_economics p) (p_deadline p)
    (p_explanation p) (p_dispatch_payload p) (p_created_at p) (p_updated_at p)
    (p_last_attempt p) (p_execution_outcome p) (p_outcome_published p) d.

Definition plan_authority_current (p : RecoveryPlan) (ctx : PlannerContext) : bool :=
  let a := p_authority p in
  if negb (id_eqb (pa_coordinator_epoch a) (ctx_epoch ctx)) then false
  else if negb (id_eqb (pa_policy_generation a) (ctx_policy_generation ctx)) then false
  else if negb (id_eqb (pa_compatibility_generation a) (ctx_compatibility_generation ctx))
  then false
  else if negb (id_eqb (pa_resource_generation a) (ctx_resource_generation ctx)) then false
  else if negb (id_eqb (pa_topology_generation a) (ctx_topology_generation ctx)) then false
  else if negb (id_eqb (pa_workload_generation a) (ctx_workload_generation ctx)) then false
  else if negb (worker_is_current ctx (p_target_worker p)) then false
  else if negb (worker_boot_matches ctx (p_target_worker p) (p_target_boot p)) then false
  else true.

(** ** Lemmas *)

Lemma terminal_no_transition s s' :
  terminal s = true -> validate_plan_transition s s' = false.
Proof. unfold validate_plan_transition. by intros ->. Qed.

Lemma transition_not_terminal s s' :
  validate_plan_transition s s' = true -> terminal s = false.
Proof. unfold validate_plan_transition. by destruct (terminal s). Qed.

(** What a current plan promises: every fence matches, and the target worker is
    alive under the boot the plan was made for. *)
Record AuthorityCurrent (p : RecoveryPlan) (ctx : PlannerContext) : Prop := {
  cur_epoch : pa_coordinator_epoch (p_authority p) = ctx_epoch ctx;
  cur_policy : pa_policy_generation (p_authority p) = ctx_policy_generation ctx;
  cur_compatibility :
    pa_compatibility_generation (p_authority p) = ctx_compatibility_generation ctx;
  cur_resource : pa_resource_generation (p_authority p) = ctx_resource_generation ctx;
  cur_topology : pa_topology_generation (p_authority p) = ctx_topology_generation ctx;
  cur_workload : pa_workload_generation (p_authority p) = ctx_workload_generation ctx;
  cur_alive : p_target_worker p ∈ ctx_alive_workers ctx;
  cur_boot : ctx_worker_boots ctx !! p_target_worker p = Some (p_target_boot p) }.

Lemma authority_current_spec p ctx :
  plan_authority_current p ctx = true <-> AuthorityCurrent p ctx.
Proof.
  unfold plan_authority_current, worker_is_current. split.
  - destruct_ifs; try done; intros _; bool_simp; id_simp.
    apply worker_boot_matches_spec in Heqb6. by split.
  - intros [].
    apply worker_boot_matches_spec in cur_boot0.
    rewrite cur_epoch0, cur_policy0, cur_compatibility0, cur_resource0, cur_topology0,
      cur_workload0, !id_eqb_refl, cur_boot0. cbn.
    by rewrite bool_decide_eq_true_2.
Qed.
