(* ===== verification/Explain.v ===== *)
(** * What the planner writes about a decision

    Models the free functions of [src/planner.cpp] (payload, decision digest,
    "what would change") and [Impl::build_explanation]. *)

From stdpp Require Import base gmap strings list.
From S2P Require Import Prelude Types Evidence Feasibility StdSort Economics Digest Plan.
#[local] Open Scope Z_scope.
#[local] Open Scope rp_scope.

(** ** [RankedCandidate] of [planner.hpp] *)

Record RankedCandidate := MkRanked {
  k_candidate : RecoveryCandidate;
  k_feasibility : FeasibilityEvaluation;
  k_economics : RecoveryEconomics;
  k_deadline : DeadlineEvaluation;
  k_rank : Z;
  k_feasible_rank : Z }.

#[export] Instance ranked_inhabited : Inhabited RankedCandidate :=
  populate (MkRanked default_candidate (MkEvaluation FeasibilityResult.INSUFFICIENT_EVIDENCE [])
              default_economics default_deadline 0 0).

(** ** Payload and digest *)

Definition value_or {tag} (v : option (Unit tag)) (fallback : string) : string :=
  match v with Some u => to_dec (count u) | None => fallback end.

Definition build_payload (c : RecoveryCandidate) : string :=
  RecoveryStrategy.to_string (c_strategy c) +:+ "|worker=" +:+ to_dec (value (c_target_worker c))
  +:+ "|boot=" +:+ to_dec (value (c_target_boot c))
  +:+ "|state=" +:+ to_dec (value (c_state_source c))
  +:+ "|state_gen=" +:+ to_dec (value (c_state_generation c)).

(** The bytes hashed: request identity, epoch, selected candidate, fences; not
    the plan's own id and generation. *)
Definition decision_bytes (req : RecoveryRequest) (p : RecoveryPlan) (ctx : PlannerContext)
    : list Z :=
  (w_u64 (value (q_request_id req)) >>>
   w_u64 (value (q_workload req)) >>>
   w_u64 (value (q_workload_generation req)) >>>
   w_u64 (value (q_execution req)) >>>
   w_u64 (value (q_failure req)) >>>
   w_u64 (value (ctx_epoch ctx)) >>>
   w_u8 (RecoveryStrategy.code (p_strategy p)) >>>
   w_u64 (value (p_candidate_id p)) >>>
   w_u64 (value (p_candidate_generation p)) >>>
   w_u64 (value (p_target_worker p)) >>>
   w_u64 (value (p_target_boot p)) >>>
   w_u64 (value (p_state_source p)) >>>
   w_u64 (value (p_state_generation p)) >>>
   w_u64 (value (pa_policy_generation (p_authority p))) >>>
   w_u64 (value (pa_compatibility_generation (p_authority p))) >>>
   w_u64 (value (pa_resource_generation (p_authority p)))) [].

Definition decision_digest (req : RecoveryRequest) (p : RecoveryPlan) (ctx : PlannerContext)
    : string :=
  hex_encode (sha256 (decision_bytes req p ctx)).

(** ** What would change the decision *)

(** [a < b] on [std::string]: bytes, compared as unsigned. *)
Definition string_ltb (a b : string) : bool := lex_ltb (string_bytes a) (string_bytes b).

(** The condition one ranked candidate contributes: the body of the loop. *)
Definition candidate_condition (sel : RecoveryStrategy.t) (rc : RankedCandidate)
    : list (string * string) :=
  let alt := RecoveryStrategy.to_string (c_strategy (k_candidate rc)) in
  let sel_name := RecoveryStrategy.to_string sel in
  match ev_result (k_feasibility rc) with
  | FeasibilityResult.DEFER =>
      [(if bool_decide (c_strategy (k_candidate rc) = RecoveryStrategy.SHADOW_PROMOTE)
        then "the shadow/warm candidate becomes READY"
        else alt +:+ " target becomes READY",
        alt +:+ " may overtake " +:+ sel_name)]
  | FeasibilityResult.INSUFFICIENT_EVIDENCE =>
      [("missing evidence for " +:+ alt +:+ " is supplied",
        alt +:+ " may become feasible and preferred")]
  | FeasibilityResult.INFEASIBLE =>
      match ev_violations (k_feasibility rc) with
      | v :: _ =>
          [(alt +:+ " resolves its constraint (" +:+ RejectionReason.to_string (v_reason v) +:+ ")",
            alt +:+ " may become feasible")]
      | [] => []
      end
  | FeasibilityResult.REVALIDATION_REQUIRED =>
      [(alt +:+ " evidence is revalidated as current", alt +:+ " may become feasible")]
  | FeasibilityResult.FEASIBLE =>
      match c_strategy (k_candidate rc) with
      | RecoveryStrategy.RESTORE | RecoveryStrategy.RECOMPUTE
      | RecoveryStrategy.SHADOW_PROMOTE | RecoveryStrategy.MIGRATE =>
          [("a " +:+ alt +:+ " path with better economics appears",
            alt +:+ " may overtake " +:+ sel_name)]
      | _ => []
      end
  end.

Definition deadline_conditions (p : RecoveryPlan) : list (string * string) :=
  (match d_outcome (p_deadline p), d_slack (p_deadline p), e_expected_time (p_economics p) with
   | DeadlineOutcome.HARD_FEASIBLE, Some slack, Some _ =>
       if count slack <? 0 then []
       else [("the recovery deadline increases",
              "a lower-risk but slower candidate may become preferred")]
   | _, _, _ => []
   end) ++
  (match d_outcome (p_deadline p) with
   | DeadlineOutcome.VIOLATED =>
       [("the recovery deadline is relaxed or the candidate speeds up",
         "the selected fallback plan may become deadline-feasible")]
   | _ => []
   end).

Section Explanation.
Context {sorter : StdSort}.

Definition condition_before (a b : string * string) : bool := string_ltb a.1 b.1.

Definition all_conditions (ranked : list RankedCandidate) (p : RecoveryPlan)
    : list (string * string) :=
  (ranked ≫= fun rc =>
     if id_eqb (c_candidate_id (k_candidate rc)) (p_candidate_id p) then []
     else candidate_condition (p_strategy p) rc) ++
  deadline_conditions p.

Definition compute_what_would_change (ranked : list RankedCandidate) (p : RecoveryPlan)
    : WhatWouldChange :=
  MkWhatWouldChange (std_sort condition_before (all_conditions ranked p)).

(** ** The explanation of a plan *)

Definition rank_factors_of (rc : RankedCandidate) : list RankFactor :=
  let e := k_economics rc in
  [MkRankFactor "expected_time" (value_or (e_expected_time e) "unknown") 1;
   MkRankFactor "expected_lost_progress" (value_or (e_expected_lost_progress e) "unknown") 2;
   MkRankFactor "cost_units" (value_or (e_cost_units e) "unknown") 3;
   MkRankFactor "failover_domain_risk" (to_dec (e_failover_domain_risk e)) 4;
   MkRankFactor "confidence" (to_dec (basis_points (e_confidence e))) 5].

Definition feasibility_reasons_of (rc : RankedCandidate) : list string :=
  let c := k_candidate rc in
  (if feasible (k_feasibility rc)
   then [RecoveryStrategy.to_string (c_strategy c) +:+ " is feasible"] else []) ++
  (match c_availability c with
   | Some av => ["target worker " +:+ to_dec (value (av_worker av)) +:+ " is READY under boot "
                 +:+ to_dec (value (av_boot av))]
   | None => []
   end) ++
  (match c_compatibility c with
   | Some co => ["compatibility=" +:+ CompatibilityResult.to_string (co_result co)]
   | None => []
   end) ++
  (match c_resource c with
   | Some rs => ["resource '" +:+ rs_resource_kind rs +:+ "' is " +:+
                 (if bool_decide (rs_status rs = ResourceStatus.AVAILABLE)
                  then "available" else "not available")]
   | None => []
   end).

Definition missing_evidence_of (c : RecoveryCandidate) : list string :=
  (if has_value (c_state c) then [] else ["state evidence"]) ++
  (if has_value (c_availability c) then [] else ["availability evidence"]) ++
  (if has_value (c_resource c) then [] else ["resource evidence"]) ++
  (if has_value (c_compatibility c) then [] else ["compatibility evidence"]).

Definition rejected_alternative (rc : RankedCandidate) : RejectedAlternative :=
  MkRejected (c_candidate_id (k_candidate rc)) (c_strategy (k_candidate rc))
    (ev_result (k_feasibility rc))
    [match blocked (k_feasibility rc), ev_violations (k_feasibility rc) with
     | true, v :: _ => RejectionReason.to_string (v_reason v)
     | _, _ => FeasibilityResult.to_string (ev_result (k_feasibility rc))
     end].

(** The candidates at the other indices, in order. *)
Definition alternatives (ranked : list RankedCandidate) (selected : nat)
    : list RejectedAlternative :=
  concat (imap (fun i rc => if bool_decide (i = selected) then [] else [rejected_alternative rc])
            ranked).

(** The temporary plan handed to [compute_what_would_change]. *)
Definition selection_plan (rc : RankedCandidate) : RecoveryPlan :=
  let c := k_candidate rc in
  let d := default_plan in
  MkPlan (p_plan_id d) (p_generation d) (p_request_id d) (p_workload d) (c_strategy c)
    (c_candidate_id c) (p_candidate_generation d) (p_target_worker d) (p_target_boot d)
    (p_target_engine d) (p_engine_incarnation d) (p_state_source d) (p_state_generation d)
    (p_checkpoint_source d) (p_authority d) (p_state d) (k_economics rc) (k_deadline rc)
    (p_explanation d) (p_dispatch_payload d) (p_created_at d) (p_updated_at d)
    (p_last_attempt d) (p_execution_outcome d) (p_outcome_published d) (p_decision_digest d).

Definition build_explanation (ctx : PlannerContext) (ranked : list RankedCandidate)
    (selected : nat) : PlanExplanation :=
  let rc := ranked !!! selected in
  let c := k_candidate rc in
  {| x_selected_strategy := c_strategy c;
     x_selected_candidate := c_candidate_id c;
     x_selected_candidate_generation := c_generation c;
     x_rank_factors := rank_factors_of rc;
     x_binding_constraints :=
       ev_violations (k_feasibility rc) ++
       (if bool_decide (d_outcome (k_deadline rc) = DeadlineOutcome.VIOLATED)
        then [MkViolation RejectionReason.DEADLINE_IMPOSSIBLE
                "selected fallback plan violates the recovery deadline"]
        else []);
     x_feasibility_reasons := feasibility_reasons_of rc;
     x_deadline_slack := d_slack (k_deadline rc);
     x_preserved_progress := e_expected_preserved_progress (k_economics rc);
     x_lost_progress := e_expected_lost_progress (k_economics rc);
     x_cost := e_cost_units (k_economics rc);
     x_readiness :=
       match c_availability c with
       | Some av => av_readiness av | None => CandidateReadiness.UNKNOWN end;
     x_compatibility :=
       match c_compatibility c with
       | Some co => co_result co | None => CompatibilityResult.UNKNOWN end;
     x_resource_status :=
       match c_resource c with Some rs => rs_status rs | None => ResourceStatus.UNKNOWN end;
     x_uncertainty :=
       match c_authority c with
       | Some auth => m_confidence (auth_meta auth) | None => confidence_none end;
     x_authority :=
       MkAuthority (ctx_epoch ctx) id_null id_null id_null id_null id_null id_null id_null id_null
         id_null (ctx_policy_generation ctx) id_null id_null;
     x_rejected_alternatives := alternatives ranked selected;
     x_missing_evidence := missing_evidence_of c;
     x_what_would_change := compute_what_would_change ranked (selection_plan rc) |}.

End Explanation.
