(* ===== verification/Planner.v ===== *)
(** * The planner: decisions and the fenced plan lifecycle

    Models [planner.hpp] and the class [RecoveryPlanner::Impl] of
    [src/planner.cpp].  [Planner] is the state the mutex protects; every method
    is a function from the state to its result and the new state, run as one
    step, except [dispatch_plan] and [on_adapter_completion], which release the
    mutex between two halves.  [now] is the reading of the clock the method
    makes; persistence is in [Persistence]. *)

From stdpp Require Import base gmap strings list.
From S2P Require Import Prelude Types Evidence Feasibility StdSort Economics Digest Plan.
From S2P Require Import Explain.
#[local] Open Scope Z_scope.
#[local] Open Scope rp_scope.

Module PlanOutcome.
Inductive t :=
| PLAN_FOUND | NO_VALID_PLAN | NO_DEADLINE_FEASIBLE_PLAN | NO_CANDIDATES | REVALIDATION_REQUIRED.
#[global] Instance eq_dec : EqDecision t.
Proof. solve_decision. Defined.

Definition to_string (o : t) : string :=
  match o with
  | PLAN_FOUND => "PLAN_FOUND" | NO_VALID_PLAN => "NO_VALID_PLAN"
  | NO_DEADLINE_FEASIBLE_PLAN => "NO_DEADLINE_FEASIBLE_PLAN"
  | NO_CANDIDATES => "NO_CANDIDATES" | REVALIDATION_REQUIRED => "REVALIDATION_REQUIRED"
  end.
End PlanOutcome.

Record RecoveryDecision := MkDecision {
  de_outcome : PlanOutcome.t;
  de_plan : option RecoveryPlan;
  de_ranked : list RankedCandidate;
  de_reasons : list string;
  de_summary : string }.

Record ExecutionReport := MkReport {
  er_dispatch : DispatchId;
  er_plan_id : RecoveryPlanId;
  er_plan_generation : RecoveryPlanGeneration;
  er_reporter_boot : WorkerBootId;
  er_outcome : ExecutionOutcome.t;
  er_recovered : ProgressUnits;
  er_elapsed : Duration;
  er_detail : string }.

(** ** The state of the planner *)

Definition DispatchMeta : Type := RecoveryPlanId * RecoveryPlanGeneration * WorkerBootId.

Record Planner := MkPlanner {
  ctx : PlannerContext;
  plans : gmap Z RecoveryPlan;
  requests : gmap Z RecoveryRequest;
  dispatch_meta : gmap Z DispatchMeta;
  history : list string;
  next_plan_id : Z;
  next_generation : Z }.

Definition initial_context : PlannerContext :=
  MkContext (MkId 1) (MkId 1) (MkId 1) (MkId 1) (MkId 1) (MkId 1) (MkId 1) ∅ ∅ ∅ ∅ ∅ ∅.

(** The constructor of [Impl]. *)
Definition new_planner : Planner := MkPlanner initial_context ∅ ∅ ∅ [] 1 1.

Definition set_ctx (c : PlannerContext) (s : Planner) : Planner :=
  MkPlanner c (plans s) (requests s) (dispatch_meta s) (history s) (next_plan_id s)
    (next_generation s).
Definition set_plans (ps : gmap Z RecoveryPlan) (s : Planner) : Planner :=
  MkPlanner (ctx s) ps (requests s) (dispatch_meta s) (history s) (next_plan_id s)
    (next_generation s).
Definition set_requests (rs : gmap Z RecoveryRequest) (s : Planner) : Planner :=
  MkPlanner (ctx s) (plans s) rs (dispatch_meta s) (history s) (next_plan_id s)
    (next_generation s).
Definition set_dispatch_meta (ms : gmap Z DispatchMeta) (s : Planner) : Planner :=
  MkPlanner (ctx s) (plans s) (requests s) ms (history s) (next_plan_id s) (next_generation s).
Definition set_history (h : list string) (s : Planner) : Planner :=
  MkPlanner (ctx s) (plans s) (requests s) (dispatch_meta s) h (next_plan_id s)
    (next_generation s).
Definition set_counters (id gen : Z) (s : Planner) : Planner :=
  MkPlanner (ctx s) (plans s) (requests s) (dispatch_meta s) (history s) id gen.

(** [plans_[key] = p], and the update of a plan through the iterator found at
    [key]. *)
Definition store_plan (key : Z) (p : RecoveryPlan) (s : Planner) : Planner :=
  set_plans (<[key := p]> (plans s)) s.

(** ** Planning *)

Section Planning.
Context {sorter : StdSort}.

Definition rank_candidate (q : RecoveryRequest) (c : PlannerContext) (now : Timestamp)
    (i : nat) (candidate : RecoveryCandidate) : RankedCandidate :=
  MkRanked candidate (evaluate_feasibility candidate q c) (compute_economics candidate q c now)
    (evaluate_deadline candidate q c now) (i32 (Z.of_nat i + 1)) 0.

Definition ranked_precedes (a b : RankedCandidate) : bool :=
  candidate_precedes (k_candidate a) (k_candidate b) (k_economics a) (k_economics b)
    (k_deadline a) (k_deadline b).

Definition index_precedes (ranked : list RankedCandidate) (a b : nat) : bool :=
  ranked_precedes (ranked !!! a) (ranked !!! b).

Definition rank_feasible (ranked : list RankedCandidate) (idx : list nat) : list nat :=
  std_sort (index_precedes ranked) idx.

Definition set_feasible_rank (k : Z) (rc : RankedCandidate) : RankedCandidate :=
  MkRanked (k_candidate rc) (k_feasibility rc) (k_economics rc) (k_deadline rc) (k_rank rc) k.

(** The loop that numbers the sorted indices. *)
Definition number_feasible (order : list nat) (ranked : list RankedCandidate)
    : list RankedCandidate :=
  foldl (fun rk ki => alter (set_feasible_rank (i32 (Z.of_nat ki.1 + 1))) ki.2 rk) ranked
    (imap pair order).

Definition hard_deadline (q : RecoveryRequest) : bool :=
  has_value (q_recovery_deadline q) || has_value (q_max_recovery_duration q).
Definition hard_progress (q : RecoveryRequest) : bool :=
  has_value (q_max_tolerated_progress_loss q).

Definition feasible_indices (ranked : list RankedCandidate) : list nat :=
  filter (fun i => feasible (k_feasibility (ranked !!! i)) = true) (seq 0 (length ranked)).

Definition meets_constraints (q : RecoveryRequest) (rc : RankedCandidate) : bool :=
  let deadline_ok :=
    if hard_deadline q
    then bool_decide (d_outcome (k_deadline rc) = DeadlineOutcome.HARD_FEASIBLE) else true in
  let progress_ok :=
    if hard_progress q then e_progress_loss_within_tolerance (k_economics rc) else true in
  deadline_ok && progress_ok.

Definition eligible_indices (q : RecoveryRequest) (ranked : list RankedCandidate) : list nat :=
  filter (fun i => meets_constraints q (ranked !!! i) = true) (feasible_indices ranked).

(** [build_plan]: the plan, and the counters advanced. *)
Definition plan_authority_of (q : RecoveryRequest) (c : RecoveryCandidate)
    (ctx : PlannerContext) (gen : RecoveryPlanGeneration) : PlanAuthority :=
  {| pa_coordinator_epoch := ctx_epoch ctx;
     pa_planner_boot := ctx_planner_boot ctx;
     pa_request_id := q_request_id q;
     pa_plan_generation := gen;
     pa_candidate_generation := c_generation c;
     pa_target_boot := c_target_boot c;
     pa_engine_incarnation := c_target_engine_incarnation c;
     pa_state_generation := c_state_generation c;
     pa_compatibility_generation := ctx_compatibility_generation ctx;
     pa_resource_generation := ctx_resource_generation ctx;
     pa_policy_generation := ctx_policy_generation ctx;
     pa_topology_generation := ctx_topology_generation ctx;
     pa_workload_generation := q_workload_generation q |}.

Definition plan_of (q : RecoveryRequest) (rc : RankedCandidate) (now : Timestamp)
    (ctx : PlannerContext) (id gen : Z) : RecoveryPlan :=
  let c := k_candidate rc in
  let p :=
    {| p_plan_id := MkId id;
       p_generation := MkId gen;
       p_request_id := q_request_id q;
       p_workload := q_workload q;
       p_strategy := c_strategy c;
       p_candidate_id := c_candidate_id c;
       p_candidate_generation := c_generation c;
       p_target_worker := c_target_worker c;
       p_target_boot := c_target_boot c;
       p_target_engine := c_target_engine c;
       p_engine_incarnation := c_target_engine_incarnation c;
       p_state_source := c_state_source c;
       p_state_generation := c_state_generation c;
       p_checkpoint_source := c_checkpoint_source c;
       p_authority := plan_authority_of q c ctx (MkId gen);
       p_state := PlanLifecycleState.PLANNED;
       p_economics := k_economics rc;
       p_deadline := k_deadline rc;
       p_explanation := default_explanation;
       p_dispatch_payload := build_payload c;
       p_created_at := now;
       p_updated_at := now;
       p_last_attempt := id_null;
       p_execution_outcome := ExecutionOutcome.UNKNOWN;
       p_outcome_published := false;
       p_decision_digest := "" |} in
  p_set_digest (decision_digest q p ctx) p.

Definition build_plan (q : RecoveryRequest) (rc : RankedCandidate) (now : Timestamp)
    (s : Planner) : RecoveryPlan * Planner :=
  (plan_of q rc now (ctx s) (next_plan_id s) (next_generation s),
   set_counters (u64 (next_plan_id s + 1)) (u64 (next_generation s + 1)) s).

(** [supersede_older]: the older open plans of the same request. *)
Definition supersede (q : RecoveryRequest) (keep : RecoveryPlanId) (now : Timestamp)
    (old : RecoveryPlan) : RecoveryPlan :=
  if id_eqb (p_plan_id old) keep then old
  else if id_eqb (p_request_id old) (q_request_id q) && negb (terminal (p_state old)) then
    if validate_plan_transition (p_state old) PlanLifecycleState.SUPERSEDED
    then p_set_updated now (p_set_state PlanLifecycleState.SUPERSEDED old)
    else old
  else old.

Definition supersede_older (q : RecoveryRequest) (keep : RecoveryPlanId) (now : Timestamp)
    (s : Planner) : Planner :=
  set_plans (supersede q keep now <$> plans s) s.

Definition history_entry (q : RecoveryRequest) (d : RecoveryDecision) : string :=
  "req=" +:+ to_dec (value (q_request_id q))
  +:+ " workload=" +:+ to_dec (value (q_workload q))
  +:+ " outcome=" +:+ PlanOutcome.to_string (de_outcome d)
  +:+ match de_plan d with
      | Some p =>
          " plan=" +:+ to_dec (value (p_plan_id p))
          +:+ " strategy=" +:+ RecoveryStrategy.to_string (p_strategy p)
          +:+ " candidate=" +:+ to_dec (value (p_candidate_id p))
          +:+ " digest=" +:+ p_decision_digest p
      | None => ""
      end.

Definition record_history (q : RecoveryRequest) (d : RecoveryDecision) (s : Planner) : Planner :=
  set_history (history s ++ [history_entry q d]) s.

(** The fallback decision: feasible candidates, none within the constraints. *)
Definition plan_fallback (q : RecoveryRequest) (now : Timestamp) (ranked : list RankedCandidate)
    (s : Planner) : RecoveryDecision * Planner :=
  let '(outcome, reason) :=
    if hard_deadline q
    then (PlanOutcome.NO_DEADLINE_FEASIBLE_PLAN, "no candidate satisfies the recovery deadline")
    else (PlanOutcome.NO_VALID_PLAN, "no candidate satisfies the hard constraints") in
  let order := rank_feasible ranked (feasible_indices ranked) in
  let ranked := number_feasible order ranked in
  let best := default 0%nat (head order) in
  let '(p, s) := build_plan q (ranked !!! best) now s in
  let d := MkDecision outcome (Some p) ranked [reason] "" in
  let s := store_plan (value (p_plan_id p)) p s in
  let s := supersede_older q (p_plan_id p) now s in
  (d, record_history q d s).

(** The decision for a non-empty list of eligible candidates. *)
Definition plan_selected (q : RecoveryRequest) (now : Timestamp) (ranked : list RankedCandidate)
    (s : Planner) : RecoveryDecision * Planner :=
  let order := rank_feasible ranked (eligible_indices q ranked) in
  let ranked := number_feasible order ranked in
  let best := default 0%nat (head order) in
  let '(p, s) := build_plan q (ranked !!! best) now s in
  let p := p_set_explanation (build_explanation (ctx s) ranked best) p in
  let d :=
    MkDecision PlanOutcome.PLAN_FOUND (Some p) ranked
      ["deterministic ranking selected " +:+ RecoveryStrategy.to_string (p_strategy p)]
      ("selected " +:+ RecoveryStrategy.to_string (p_strategy p) +:+ " on candidate "
       +:+ to_dec (value (p_candidate_id p))) in
  let s := store_plan (value (p_plan_id p)) p s in
  let s := set_requests (<[value (q_request_id q) := q]> (requests s)) s in
  let s := supersede_older q (p_plan_id p) now s in
  (d, record_history q d s).

Definition plan (q : RecoveryRequest) (candidates : list RecoveryCandidate) (now : Timestamp)
    (s : Planner) : RecoveryDecision * Planner :=
  match candidates with
  | [] =>
      (MkDecision PlanOutcome.NO_CANDIDATES None [] ["no recovery candidates were supplied"] "", s)
  | _ =>
      let ranked := imap (rank_candidate q (ctx s) now) candidates in
      match eligible_indices q ranked with
      | [] =>
          match feasible_indices ranked with
          | [] =>
              let d := MkDecision PlanOutcome.NO_VALID_PLAN None ranked
                         ["no candidate is feasible under current evidence"] "" in
              (d, record_history q d s)
          | _ => plan_fallback q now ranked s
          end
      | _ => plan_selected q now ranked s
      end
  end.

End Planning.
