(* ===== verification/PlannerSpec.v ===== *)
(** * What a planning decision promises

    The specification of [plan]: [DecisionSpec] says which candidate each
    outcome stands for, without indices or sorting, and [plan_decides] that the
    code's decision refines it.  The rest of the file describes the state after a
    decision, and shows that the specification determines the choice. *)

From Stdlib Require Import Sorted.
From stdpp Require Import base gmap strings list.
From S2P Require Import Prelude Types Evidence Feasibility FeasibilitySpec StdSort Economics.
From S2P Require Import Digest Plan Explain Planner.
#[local] Open Scope Z_scope.

(** ** The specification *)

Section Specification.
Context (q : RecoveryRequest) (ctx : PlannerContext) (now : Timestamp).

(** A candidate with everything the planner computes about it. *)
Definition assessed (c : RecoveryCandidate) : RankedCandidate := rank_candidate q ctx now 0 c.

Definition candidate_key (c : RecoveryCandidate) : list Z :=
  rank_key c (compute_economics c q ctx now).

(** Admissible, and within the deadline and the tolerated progress loss. *)
Definition Eligible (c : RecoveryCandidate) : Prop :=
  Admissible c q ctx /\ meets_constraints q (assessed c) = true.

(** A candidate of the list satisfying [P] that no other one is ranked before. *)
Definition BestOf (P : RecoveryCandidate -> Prop) (cs : list RecoveryCandidate)
    (c : RecoveryCandidate) : Prop :=
  c ∈ cs /\ P c /\
  forall c', c' ∈ cs -> P c' -> lex_ltb (candidate_key c') (candidate_key c) = false.

Inductive DecisionSpec (cs : list RecoveryCandidate)
    : PlanOutcome.t -> option RecoveryCandidate -> Prop :=
| decide_no_candidates :
    cs = [] -> DecisionSpec cs PlanOutcome.NO_CANDIDATES None
| decide_found c :
    BestOf Eligible cs c -> DecisionSpec cs PlanOutcome.PLAN_FOUND (Some c)
| decide_nothing_admissible :
    cs <> [] -> (forall c, c ∈ cs -> ~ Admissible c q ctx) ->
    DecisionSpec cs PlanOutcome.NO_VALID_PLAN None
| decide_fallback c :
    (forall c', c' ∈ cs -> ~ Eligible c') ->
    BestOf (fun c' => Admissible c' q ctx) cs c ->
    DecisionSpec cs
      (if hard_deadline q then PlanOutcome.NO_DEADLINE_FEASIBLE_PLAN
       else PlanOutcome.NO_VALID_PLAN) (Some c).

(** The plan for a candidate; an explanation is attached to selected plans. *)
Definition PlanFor (id gen : Z) (c : RecoveryCandidate) (p : RecoveryPlan) : Prop :=
  p_set_explanation default_explanation p = plan_of q (assessed c) now ctx id gen.
End Specification.

(** ** Numbering the sorted indices changes no decision data *)

Definition unranked (rc : RankedCandidate) : RankedCandidate :=
  MkRanked (k_candidate rc) (k_feasibility rc) (k_economics rc) (k_deadline rc) 0 0.

Lemma number_feasible_data order ranked :
  unranked <$> number_feasible order ranked = unranked <$> ranked.
Proof.
  unfold number_feasible. generalize (imap pair order). intros l. revert ranked.
  induction l as [|[k i] l IH]; intros ranked; cbn; [done|].
  rewrite IH. apply list_eq. intros j. rewrite !list_lookup_fmap.
  destruct (decide (i = j)) as [->|Hij].
  - rewrite list_lookup_alter_eq. by destruct (ranked !! j).
  - by rewrite list_lookup_alter_ne.
Qed.

Lemma lookup_total_data (l l' : list RankedCandidate) i :
  unranked <$> l = unranked <$> l' ->
  unranked (l !!! i) = unranked (l' !!! i).
Proof.
  intros H. apply (f_equal (lookup i)) in H. rewrite !list_lookup_fmap in H.
  rewrite !list_lookup_total_alt.
  apply (f_equal (default (unranked inhabitant))) in H.
  destruct (l !! i), (l' !! i); exact H.
Qed.

(** ** Indices and candidates *)

Lemma feasible_true c q ctx :
  feasible (evaluate_feasibility c q ctx) = true <-> Admissible c q ctx.
Proof. unfold feasible. rewrite bool_decide_eq_true. apply feasible_admissible. Qed.

Section Indices.
Context (q : RecoveryRequest) (c0 : PlannerContext) (now : Timestamp)
  (cs : list RecoveryCandidate).
Abbreviation ranked := (imap (rank_candidate q c0 now) cs).

Lemma ranked_at i c :
  cs !! i = Some c -> ranked !!! i = rank_candidate q c0 now i c.
Proof. intros H. by rewrite list_lookup_total_alt, list_lookup_imap, H. Qed.

Lemma feasible_index i :
  i ∈ feasible_indices ranked <-> exists c, cs !! i = Some c /\ Admissible c q c0.
Proof.
  unfold feasible_indices. rewrite list_elem_of_filter, elem_of_seq, length_imap. split.
  - intros [Hf [_ Hi]]. destruct (lookup_lt_is_Some_2 cs i Hi) as [c Hc].
    exists c. split; [done|]. rewrite (ranked_at i c Hc) in Hf.
    by apply feasible_true.
  - intros (c & Hc & Ha). rewrite (ranked_at i c Hc).
    apply lookup_lt_Some in Hc. split; [|lia].
    by apply feasible_true.
Qed.

Lemma eligible_index i :
  i ∈ eligible_indices q ranked <-> exists c, cs !! i = Some c /\ Eligible q c0 now c.
Proof.
  unfold eligible_indices. rewrite list_elem_of_filter, feasible_index. split.
  - intros (Hm & c & Hc & Ha). rewrite (ranked_at i c Hc) in Hm. by exists c.
  - intros (c & Hc & Ha & Hm). rewrite (ranked_at i c Hc). split; [done|]. eauto.
Qed.

(** The sort of indices the planner makes: its comparator compares keys. *)
Lemma index_precedes_key i j ci cj :
  cs !! i = Some ci -> cs !! j = Some cj ->
  index_precedes ranked i j =
    lex_ltb (candidate_key q c0 now ci) (candidate_key q c0 now cj).
Proof.
  intros Hi Hj. unfold index_precedes, ranked_precedes.
  rewrite (ranked_at i ci Hi), (ranked_at j cj Hj). apply precedes_key.
Qed.

Definition index_key (i : nat) : list Z :=
  rank_key (k_candidate (ranked !!! i)) (k_economics (ranked !!! i)).

Lemma index_order_swo idx : StrictWeakOrderOn idx (index_precedes ranked).
Proof. apply (key_order_swo _ index_key). intros. apply precedes_key. Qed.

(** The front of the sorted indices is the best candidate with the property the
    indices were filtered by. *)
Lemma front_is_best `{sorter : StdSort} (P : RecoveryCandidate -> Prop) idx :
  (forall i, i ∈ idx <-> exists c, cs !! i = Some c /\ P c) -> idx <> [] ->
  exists i c, head (rank_feasible ranked idx) = Some i /\ cs !! i = Some c /\
    BestOf q c0 now P cs c.
Proof.
  intros Hidx Hne. unfold rank_feasible.
  pose proof (std_sort_perm (index_precedes ranked) idx (index_order_swo idx)) as Hp.
  pose proof (std_sort_sorted (index_precedes ranked) idx (index_order_swo idx)) as Hs.
  destruct (std_sort (index_precedes ranked) idx) as [|i order].
  { symmetry in Hp. by apply Permutation_nil_r in Hp. }
  assert (i ∈ idx) as Hi by (rewrite <- Hp; set_solver).
  apply Hidx in Hi as (c & Hc & HP). exists i, c. split; [done|]. split; [done|].
  split; [by eapply list_elem_of_lookup_2|]. split; [done|]. intros c' Hc' HP'.
  apply list_elem_of_lookup in Hc' as [j Hj].
  assert (j ∈ i :: order) as Hj' by (rewrite Hp; apply Hidx; eauto).
  rewrite <- (index_precedes_key j i c' c) by done.
  apply elem_of_cons in Hj' as [->|Hj'].
  - apply (swo_irrefl idx); [apply index_order_swo|]. apply Hidx. eauto.
  - apply Sorted.StronglySorted_inv in Hs as [_ Hs]. rewrite Forall_forall in Hs. by apply Hs.
Qed.
End Indices.

(** ** The decision refines the specification *)

Lemma plan_of_rank q rc rc' now c id gen :
  unranked rc = unranked rc' ->
  plan_of q rc now c id gen = plan_of q rc' now c id gen.
Proof.
  intros H. change (plan_of q (unranked rc) now c id gen =
                    plan_of q (unranked rc') now c id gen). by rewrite H.
Qed.

(** The state after storing plan [p] for request [q]. *)
Definition with_new_plan (q : RecoveryRequest) (now : Timestamp) (p : RecoveryPlan)
    (d : RecoveryDecision) (s : Planner) : Planner :=
  record_history q d
    (supersede_older q (p_plan_id p) now
       (store_plan (value (p_plan_id p)) p
          (set_counters (u64 (next_plan_id s + 1)) (u64 (next_generation s + 1)) s))).

Section Decision.
Context `{sorter : StdSort} (q : RecoveryRequest) (cs : list RecoveryCandidate)
  (now : Timestamp) (s : Planner).
Abbreviation ranked := (imap (rank_candidate q (ctx s) now) cs).
Abbreviation planFor := (PlanFor q (ctx s) now (next_plan_id s) (next_generation s)).

(** The plan built from the front of a sorted list of indices. *)
Lemma built_plan (P : RecoveryCandidate -> Prop) idx :
  (forall i, i ∈ idx <-> exists c, cs !! i = Some c /\ P c) -> idx <> [] ->
  exists c, BestOf q (ctx s) now P cs c /\
    forall order, order = rank_feasible ranked idx ->
    (build_plan q (number_feasible order ranked !!! default 0%nat (head order)) now s).1 =
      plan_of q (assessed q (ctx s) now c) now (ctx s) (next_plan_id s) (next_generation s).
Proof.
  intros Hidx Hne.
  destruct (front_is_best q (ctx s) now cs P idx Hidx Hne) as (i & c & Hi & Hc & Hbest).
  exists c. split; [done|]. intros order ->. rewrite Hi. cbn [default build_plan fst].
  apply plan_of_rank. rewrite (lookup_total_data _ ranked) by apply number_feasible_data.
  by rewrite (ranked_at _ _ _ _ i c Hc).
Qed.

Lemma plan_fallback_built :
  feasible_indices ranked <> [] ->
  exists c p d,
    BestOf q (ctx s) now (fun c' => Admissible c' q (ctx s)) cs c /\ planFor c p /\
    plan_fallback q now ranked s = (d, with_new_plan q now p d s) /\
    de_plan d = Some p /\
    de_outcome d = if hard_deadline q then PlanOutcome.NO_DEADLINE_FEASIBLE_PLAN
                   else PlanOutcome.NO_VALID_PLAN.
Proof.
  intros Hne.
  destruct (built_plan (fun c' => Admissible c' q (ctx s)) (feasible_indices ranked))
    as (c & Hbest & Hp); [apply feasible_index|done|].
  specialize (Hp _ eq_refl). unfold plan_fallback.
  set (order := rank_feasible _ _) in *.
  destruct (build_plan _ _ _ _) as [p s'] eqn:Hb. cbn in Hp.
  assert (s' = set_counters (u64 (next_plan_id s + 1)) (u64 (next_generation s + 1)) s) as ->
    by (unfold build_plan in Hb; by injection Hb).
  exists c, p. destruct (hard_deadline q); (eexists; split; [done|]; split; [|done]);
    by rewrite Hp.
Qed.

Lemma plan_selected_built :
  eligible_indices q ranked <> [] ->
  exists c p d,
    BestOf q (ctx s) now (Eligible q (ctx s) now) cs c /\ planFor c p /\
    plan_selected q now ranked s =
      (d, with_new_plan q now p d
            (set_requests (<[value (q_request_id q) := q]> (requests s)) s)) /\
    de_plan d = Some p /\ de_outcome d = PlanOutcome.PLAN_FOUND.
Proof.
  intros Hne.
  destruct (built_plan (Eligible q (ctx s) now) (eligible_indices q ranked))
    as (c & Hbest & Hp); [apply eligible_index|done|].
  specialize (Hp _ eq_refl). unfold plan_selected.
  set (order := rank_feasible _ _) in *.
  destruct (build_plan _ _ _ _) as [p s'] eqn:Hb. cbn in Hp.
  assert (s' = set_counters (u64 (next_plan_id s + 1)) (u64 (next_generation s + 1)) s) as ->
    by (unfold build_plan in Hb; by injection Hb).
  set (x := build_explanation _ _ _). clearbody x.
  eexists c, (p_set_explanation x p), _. split; [done|]. split; [by rewrite Hp|].
  split; [reflexivity|done].
Qed.

Lemma eligible_index_admissible i :
  i ∈ eligible_indices q ranked -> i ∈ feasible_indices ranked.
Proof. unfold eligible_indices. rewrite list_elem_of_filter. by intros []. Qed.

Lemma no_eligible :
  eligible_indices q ranked = [] -> forall c, c ∈ cs -> ~ Eligible q (ctx s) now c.
Proof.
  intros Hn c [i Hi]%list_elem_of_lookup He.
  assert (i ∈ eligible_indices q ranked) as H by (apply eligible_index; eauto).
  rewrite Hn in H. by apply not_elem_of_nil in H.
Qed.

Lemma no_feasible :
  feasible_indices ranked = [] -> forall c, c ∈ cs -> ~ Admissible c q (ctx s).
Proof.
  intros Hn c [i Hi]%list_elem_of_lookup He.
  assert (i ∈ feasible_indices ranked) as H by (apply feasible_index; eauto).
  rewrite Hn in H. by apply not_elem_of_nil in H.
Qed.

(** Every way [plan] ends: the decision it refines, and the state it leaves. *)
Inductive PlanResult : RecoveryDecision -> Planner -> Prop :=
| result_no_candidates d :
    cs = [] -> de_outcome d = PlanOutcome.NO_CANDIDATES -> de_plan d = None -> PlanResult d s
| result_nothing_admissible d :
    cs <> [] -> (forall c, c ∈ cs -> ~ Admissible c q (ctx s)) ->
    de_outcome d = PlanOutcome.NO_VALID_PLAN -> de_plan d = None ->
    PlanResult d (record_history q d s)
| result_found d c p :
    BestOf q (ctx s) now (Eligible q (ctx s) now) cs c -> planFor c p ->
    de_outcome d = PlanOutcome.PLAN_FOUND -> de_plan d = Some p ->
    PlanResult d (with_new_plan q now p d
                    (set_requests (<[value (q_request_id q) := q]> (requests s)) s))
| result_fallback d c p :
    (forall c', c' ∈ cs -> ~ Eligible q (ctx s) now c') ->
    BestOf q (ctx s) now (fun c' => Admissible c' q (ctx s)) cs c -> planFor c p ->
    de_outcome d = (if hard_deadline q then PlanOutcome.NO_DEADLINE_FEASIBLE_PLAN
                    else PlanOutcome.NO_VALID_PLAN) ->
    de_plan d = Some p ->
    PlanResult d (with_new_plan q now p d s).

Lemma plan_result : PlanResult (plan q cs now s).1 (plan q cs now s).2.
Proof.
  unfold plan. destruct cs as [|c0 cs'] eqn:Hcs; [by apply result_no_candidates|].
  rewrite <- Hcs.
  destruct (eligible_indices q ranked) as [|i l] eqn:He.
  - destruct (feasible_indices ranked) as [|j l'] eqn:Hf.
    + apply result_nothing_admissible; [by rewrite Hcs|by apply no_feasible|done..].
    + destruct plan_fallback_built as (c & p & d & Hb & Hp & -> & Hd & Ho); [by rewrite Hf|].
      eapply result_fallback; eauto. by apply no_eligible.
  - destruct plan_selected_built as (c & p & d & Hb & Hp & -> & Hd & Ho); [by rewrite He|].
    eapply result_found; eauto.
Qed.
End Decision.

(** Storing the new plan and superseding older ones, on the map of plans. *)
Lemma with_new_plan_plans q now0 now c id gen cand p d s s0 :
  PlanFor q c now id gen cand p -> plans s0 = plans s ->
  plans (with_new_plan q now0 p d s0) = <[id := p]> (supersede q (MkId id) now0 <$> plans s).
Proof.
  intros Hp Hs. assert (p_plan_id p = MkId id) as Hid by exact (f_equal p_plan_id Hp).
  cbn. rewrite Hid, Hs, fmap_insert. f_equal. unfold supersede. by rewrite Hid, id_eqb_refl.
Qed.

(** ** The specification determines the choice *)

(** No two different candidates of the list share id, generation and strategy. *)
Definition DistinctIdentities (cs : list RecoveryCandidate) : Prop :=
  forall c1 c2, c1 ∈ cs -> c2 ∈ cs ->
    c_candidate_id c1 = c_candidate_id c2 -> c_generation c1 = c_generation c2 ->
    c_strategy c1 = c_strategy c2 -> c1 = c2.

Section Determinism.
Context (q : RecoveryRequest) (ctx : PlannerContext) (now : Timestamp).

Lemma best_unique P cs c1 c2 :
  DistinctIdentities cs -> BestOf q ctx now P cs c1 -> BestOf q ctx now P cs c2 -> c1 = c2.
Proof.
  intros Hd (H1 & HP1 & Hm1) (H2 & HP2 & Hm2).
  assert (candidate_key q ctx now c1 = candidate_key q ctx now c2) as Hk
    by (apply lex_ltb_total; auto).
  apply rank_key_inj in Hk as (? & ? & ?). by apply Hd.
Qed.

Lemma decision_unique cs o1 o2 ch1 ch2 :
  DistinctIdentities cs ->
  DecisionSpec q ctx now cs o1 ch1 -> DecisionSpec q ctx now cs o2 ch2 ->
  o1 = o2 /\ ch1 = ch2.
Proof.
  intros Hd [->|c1 B1|Hn1 A1|c1 E1 B1] [?|c2 B2|Hn2 A2|c2 E2 B2]; subst; try done;
    try (by split; [|f_equal; eapply best_unique]); exfalso;
    repeat match goal with
    | H : BestOf _ _ _ _ _ _ |- _ => destruct H as (? & ? & _)
    | H : Eligible _ _ _ _ |- _ => pose proof (proj1 H); revert H
    end; intros; solve [by eapply not_elem_of_nil | by eapply A1 | by eapply A2
                       | eapply E1; [|eassumption]; done | eapply E2; [|eassumption]; done].
Qed.

Lemma best_perm P cs1 cs2 c :
  cs1 ≡ₚ cs2 -> BestOf q ctx now P cs1 c -> BestOf q ctx now P cs2 c.
Proof.
  intros Hp (Hc & HP & Hm). split; [by rewrite <- Hp|]. split; [done|].
  intros c' Hc'. apply Hm. by rewrite Hp.
Qed.

Lemma decision_perm cs1 cs2 o ch :
  cs1 ≡ₚ cs2 -> DecisionSpec q ctx now cs1 o ch -> DecisionSpec q ctx now cs2 o ch.
Proof.
  intros Hp [Hn|c B|Hn A|c E B].
  - subst. apply Permutation_nil_l in Hp as <-. by constructor.
  - constructor. by eapply best_perm.
  - constructor; [intros ->|intros c Hc; apply A; by rewrite Hp].
    by apply Permutation_nil_r in Hp.
  - apply decide_fallback; [intros c' Hc'; apply E; by rewrite Hp|by eapply best_perm].
Qed.

(** The digest of a plan depends on its request, candidate and fences only. *)
Lemma plan_for_digest id1 gen1 id2 gen2 c p1 p2 :
  PlanFor q ctx now id1 gen1 c p1 -> PlanFor q ctx now id2 gen2 c p2 ->
  p_decision_digest p1 = p_decision_digest p2.
Proof.
  unfold PlanFor. intros H1 H2. apply (f_equal p_decision_digest) in H1, H2. cbn in H1, H2.
  rewrite H1, H2. reflexivity.
Qed.
End Determinism.

Lemma plan_for_strategy q ctx now id gen c p :
  PlanFor q ctx now id gen c p -> p_strategy p = c_strategy c.
Proof. intros H. exact (f_equal p_strategy H). Qed.

(** A decision as the specification sees it. *)
Definition Refines (q : RecoveryRequest) (c : PlannerContext) (now : Timestamp) (id gen : Z)
    (d : RecoveryDecision) (choice : option RecoveryCandidate) : Prop :=
  match de_plan d, choice with
  | Some p, Some c' => PlanFor q c now id gen c' p
  | None, None => True
  | _, _ => False
  end.

Lemma plan_decides `{sorter : StdSort} q cs now s :
  exists choice,
    DecisionSpec q (ctx s) now cs (de_outcome (plan q cs now s).1) choice /\
    Refines q (ctx s) now (next_plan_id s) (next_generation s) (plan q cs now s).1 choice.
Proof.
  unfold Refines.
  destruct (plan_result q cs now s) as [d Hn Ho Hp|d Hn Ha Ho Hp|d c p Hb Hp Ho Hd|d c p Hn Hb Hp Ho Hd].
  - exists None. rewrite Ho, Hp. by split; [constructor|].
  - exists None. rewrite Ho, Hp. by split; [constructor|].
  - exists (Some c). rewrite Ho, Hd. by split; [constructor|].
  - exists (Some c). rewrite Ho, Hd. by split; [apply decide_fallback|].
Qed.

(** ** Constraints, read off the plan *)

Definition OnTime (q : RecoveryRequest) (p : RecoveryPlan) : Prop :=
  hard_deadline q = true -> d_outcome (p_deadline p) = DeadlineOutcome.HARD_FEASIBLE.

(** A known loss is within the tolerance; an unknown one is let through. *)
Definition Tolerable (q : RecoveryRequest) (p : RecoveryPlan) : Prop :=
  forall tolerated lost, q_max_tolerated_progress_loss q = Some tolerated ->
    e_expected_lost_progress (p_economics p) = Some lost -> count lost <= count tolerated.

Lemma meets_constraints_plan q c now id gen cand p :
  PlanFor q c now id gen cand p ->
  meets_constraints q (assessed q c now cand) = true <-> OnTime q p /\ Tolerable q p.
Proof.
  intros Hf. unfold OnTime, Tolerable.
  pose proof (f_equal p_deadline Hf : p_deadline p = evaluate_deadline cand q c now) as ->.
  pose proof (f_equal p_economics Hf : p_economics p = compute_economics cand q c now) as ->.
  unfold meets_constraints, hard_progress. rewrite andb_true_iff.
  cbn [assessed rank_candidate k_deadline k_economics].
  unfold compute_economics; cbn [e_progress_loss_within_tolerance e_expected_lost_progress].
  split; intros [H1 H2]; split.
  - intros Hh. rewrite Hh in H1. by apply bool_decide_eq_true in H1.
  - intros tolerated lost Ht Hl. rewrite Ht, Hl in H2. by apply Z.leb_le.
  - destruct (hard_deadline q); [|done]. by apply bool_decide_eq_true, H1.
  - destruct (q_max_tolerated_progress_loss q) as [t|]; [|done]. cbn [has_value].
    destruct (from_cost _ _) as [l|]; [|done]. apply Z.leb_le. eauto.
Qed.
