(* ===== verification/SortSpec.v ===== *)
(** * The whole decision does not depend on the sort

    [plan] sorts twice with [std::sort]: the indices of the eligible candidates and
    the conditions of the explanation.  Neither list has two equivalent elements
    that differ, so that every correct sort gives the same decision, explanation
    included, and the same new state. *)

From Stdlib Require Import Ascii String.
From stdpp Require Import base gmap strings list.
From S2P Require Import Prelude Types Evidence Feasibility StdSort Economics Plan Explain.
From S2P Require Import Planner PlannerSpec.
#[local] Open Scope Z_scope.

(** ** Conditions: the first text determines the second *)

Lemma string_bytes_inj a b : string_bytes a = string_bytes b -> a = b.
Proof.
  unfold string_bytes. intros H%list_fmap_eq_inj.
  - by rewrite <- (string_of_list_ascii_of_string a), H, string_of_list_ascii_of_string.
  - intros x y Hxy%N2Z.inj. by rewrite <- (ascii_N_embedding x), Hxy, ascii_N_embedding.
Qed.

Definition all_strategies : list RecoveryStrategy.t :=
  [RecoveryStrategy.RESTORE; RecoveryStrategy.RESTART; RecoveryStrategy.MIGRATE;
   RecoveryStrategy.REHYDRATE; RecoveryStrategy.SHADOW_PROMOTE; RecoveryStrategy.FAILOVER;
   RecoveryStrategy.RECOMPUTE; RecoveryStrategy.OTHER 0].

(** Values outside the enumeration have one text. *)
Definition named (s : RecoveryStrategy.t) : RecoveryStrategy.t :=
  match s with RecoveryStrategy.OTHER _ => RecoveryStrategy.OTHER 0 | _ => s end.

(** Where a condition comes from: what the strategy's verdict was, or the deadline. *)
Inductive Origin :=
| FromVerdict (alt : RecoveryStrategy.t) (r : FeasibilityResult.t) (reason : RejectionReason.t)
| FromDeadline (violated : bool).

Definition origin_condition (sel : RecoveryStrategy.t) (o : Origin) : string * string :=
  match o with
  | FromVerdict alt r reason =>
      let a := RecoveryStrategy.to_string alt in
      let s := RecoveryStrategy.to_string sel in
      match r with
      | FeasibilityResult.DEFER =>
          (if bool_decide (alt = RecoveryStrategy.SHADOW_PROMOTE)
           then "the shadow/warm candidate becomes READY"
           else a +:+ " target becomes READY", a +:+ " may overtake " +:+ s)
      | FeasibilityResult.INSUFFICIENT_EVIDENCE =>
          ("missing evidence for " +:+ a +:+ " is supplied",
           a +:+ " may become feasible and preferred")
      | FeasibilityResult.INFEASIBLE =>
          (a +:+ " resolves its constraint (" +:+ RejectionReason.to_string reason +:+ ")",
           a +:+ " may become feasible")
      | FeasibilityResult.REVALIDATION_REQUIRED =>
          (a +:+ " evidence is revalidated as current", a +:+ " may become feasible")
      | FeasibilityResult.FEASIBLE =>
          ("a " +:+ a +:+ " path with better economics appears", a +:+ " may overtake " +:+ s)
      end
  | FromDeadline false =>
      ("the recovery deadline increases", "a lower-risk but slower candidate may become preferred")
  | FromDeadline true =>
      ("the recovery deadline is relaxed or the candidate speeds up",
       "the selected fallback plan may become deadline-feasible")
  end.

Lemma condition_origin sel rc x :
  x ∈ candidate_condition sel rc -> exists o, x = origin_condition sel o.
Proof.
  unfold candidate_condition.
  assert (forall reason, x = origin_condition sel
            (FromVerdict (c_strategy (k_candidate rc)) (ev_result (k_feasibility rc)) reason) ->
          exists o, x = origin_condition sel o) as H by eauto.
  destruct (ev_result (k_feasibility rc)) eqn:E.
  - intros Hx. apply (H RejectionReason.NONE). cbn [origin_condition].
    destruct (c_strategy (k_candidate rc)); try (by apply list_elem_of_singleton in Hx);
      by apply not_elem_of_nil in Hx.
  - destruct (ev_violations _) as [|v vs]; [by intros ?%not_elem_of_nil|].
    intros ->%list_elem_of_singleton. by apply (H (v_reason v)).
  - intros ->%list_elem_of_singleton. by apply (H RejectionReason.NONE).
  - intros ->%list_elem_of_singleton. by apply (H RejectionReason.NONE).
  - intros ->%list_elem_of_singleton. by apply (H RejectionReason.NONE).
Qed.

Lemma deadline_origin sel p x :
  x ∈ deadline_conditions p -> exists o, x = origin_condition sel o.
Proof.
  unfold deadline_conditions. rewrite elem_of_app. intros [Hx|Hx].
  - exists (FromDeadline false). cbn.
    destruct (d_outcome (p_deadline p)), (d_slack (p_deadline p)) as [slack|],
      (e_expected_time (p_economics p)); try (by apply not_elem_of_nil in Hx).
    destruct (count slack <? 0); [by apply not_elem_of_nil in Hx|].
    by apply list_elem_of_singleton in Hx.
  - exists (FromDeadline true). cbn.
    destruct (d_outcome (p_deadline p)); try (by apply not_elem_of_nil in Hx).
    by apply list_elem_of_singleton in Hx.
Qed.

(** All the conditions there are for a selected strategy, as a table: looking a
    first text up finds the second text of each condition that has it. *)
Definition all_verdicts : list FeasibilityResult.t :=
  [FeasibilityResult.FEASIBLE; FeasibilityResult.INFEASIBLE; FeasibilityResult.DEFER;
   FeasibilityResult.REVALIDATION_REQUIRED; FeasibilityResult.INSUFFICIENT_EVIDENCE].

Definition all_reasons : list RejectionReason.t :=
  [RejectionReason.NONE; RejectionReason.STALE_AUTHORITY; RejectionReason.INVALID_STATE_INTEGRITY;
   RejectionReason.INCOMPATIBLE; RejectionReason.TARGET_UNAVAILABLE;
   RejectionReason.INVALID_CANDIDATE_GENERATION; RejectionReason.INSUFFICIENT_RESOURCES;
   RejectionReason.EXPIRED_STATE; RejectionReason.STATE_TOO_OLD;
   RejectionReason.DEADLINE_IMPOSSIBLE; RejectionReason.FORBIDDEN_STRATEGY;
   RejectionReason.MISSING_EVIDENCE; RejectionReason.TARGET_INCARNATION_MISMATCH;
   RejectionReason.READINESS_FAILED; RejectionReason.TOPOLOGY_IMPOSSIBLE;
   RejectionReason.INCOMPATIBLE_CHECKPOINT; RejectionReason.INVALID_MIGRATION_RELATION;
   RejectionReason.SHADOW_NOT_CURRENT; RejectionReason.NO_RECOMPUTE_LINEAGE;
   RejectionReason.AMBIGUOUS_UNSAFE; RejectionReason.RESOURCE_GENERATION_STALE;
   RejectionReason.COMPATIBILITY_GENERATION_STALE; RejectionReason.POLICY_GENERATION_STALE;
   RejectionReason.WORKLOAD_GENERATION_STALE; RejectionReason.INVALID_STRATEGY;
   RejectionReason.STATE_GENERATION_STALE].

Definition all_origins : list Origin :=
  FromDeadline true :: FromDeadline false ::
  (alt ← all_strategies; r ← all_verdicts; reason ← all_reasons; [FromVerdict alt r reason]).

Definition named_origin (o : Origin) : Origin :=
  match o with
  | FromVerdict alt r reason => FromVerdict (named alt) r reason
  | FromDeadline v => FromDeadline v
  end.

Lemma named_condition sel o : origin_condition sel (named_origin o) = origin_condition sel o.
Proof. by destruct o as [[] r reason|]. Qed.

Lemma elem_of_all_origins o : named_origin o ∈ all_origins.
Proof.
  unfold all_origins.
  destruct o as [alt r reason|[]]; [|by left|by right; left].
  right. right. apply list_elem_of_bind. exists (named alt). split.
  - apply list_elem_of_bind. exists r. split.
    + apply list_elem_of_bind. exists reason. split; [by left|].
      apply (bool_decide_unpack _). destruct reason; vm_compute; exact I.
    + apply (bool_decide_unpack _). destruct r; vm_compute; exact I.
  - apply (bool_decide_unpack _). destruct alt; vm_compute; exact I.
Qed.

Definition condition_table (sel : RecoveryStrategy.t) : gmap string string :=
  list_to_map (origin_condition sel <$> all_origins).

Lemma table_total sel :
  (let table := condition_table sel in
   forallb (fun o => bool_decide (table !! (origin_condition sel o).1 =
                                  Some (origin_condition sel o).2)) all_origins) = true.
Proof. destruct sel; vm_compute; reflexivity. Qed.

Lemma origin_determined sel o1 o2 :
  (origin_condition sel o1).1 = (origin_condition sel o2).1 ->
  origin_condition sel o1 = origin_condition sel o2.
Proof.
  pose proof (table_total sel) as H. cbn zeta in H. rewrite forallb_forall in H. intros He.
  assert (forall o, condition_table sel !! (origin_condition sel o).1 =
                    Some (origin_condition sel o).2) as Ht.
  { intros o. rewrite <- (named_condition sel o). apply (bool_decide_unpack _), Is_true_true, H, list_elem_of_In, elem_of_all_origins. }
  pose proof (Ht o1) as H1. rewrite He, (Ht o2) in H1. injection H1 as H1.
  by apply injective_projections.
Qed.

Lemma all_conditions_total ranked p : TotalOn (all_conditions ranked p) condition_before.
Proof.
  assert (forall x, x ∈ all_conditions ranked p ->
            exists o, x = origin_condition (p_strategy p) o) as Ho.
  { intros x. unfold all_conditions. rewrite elem_of_app, list_elem_of_bind.
    intros [(rc & Hx & _)|Hx]; [|by eapply deadline_origin].
    destruct (id_eqb _ _); [by apply not_elem_of_nil in Hx|]. by eapply condition_origin. }
  apply (key_order_total _ (fun x => string_bytes x.1)); [done|].
  intros a b (o1 & ->)%Ho (o2 & ->)%Ho Hk%string_bytes_inj. by apply origin_determined.
Qed.

Lemma conditions_sort (S1 S2 : StdSort) ranked p :
  @compute_what_would_change S1 ranked p = @compute_what_would_change S2 ranked p.
Proof.
  unfold compute_what_would_change. f_equal. apply std_sort_unique; [|apply all_conditions_total].
  by apply (key_order_swo _ (fun x => string_bytes x.1)).
Qed.

Lemma explanation_sort (S1 S2 : StdSort) c ranked best :
  @build_explanation S1 c ranked best = @build_explanation S2 c ranked best.
Proof. unfold build_explanation. by rewrite (conditions_sort S1 S2). Qed.

(** ** Indices *)

Section Plan.
Context (S1 S2 : StdSort) (q : RecoveryRequest) (cs : list RecoveryCandidate)
  (now : Timestamp) (s : Planner).
Context (Hdistinct : DistinctIdentities cs) (Hnodup : NoDup cs).
Abbreviation ranked := (imap (rank_candidate q (ctx s) now) cs).

Lemma rank_sort idx :
  (forall i, i ∈ idx -> is_Some (cs !! i)) ->
  @rank_feasible S1 ranked idx = @rank_feasible S2 ranked idx.
Proof.
  intros Hidx. apply std_sort_unique; [apply index_order_swo|].
  apply (key_order_total _ (index_key q (ctx s) now cs)); [intros; apply precedes_key|].
  intros i j [ci Hi]%Hidx [cj Hj]%Hidx Hk. unfold index_key in Hk.
  rewrite (ranked_at _ _ _ _ i ci Hi), (ranked_at _ _ _ _ j cj Hj) in Hk.
  apply rank_key_inj in Hk as (Hn & Hg & Hs).
  assert (ci = cj) as -> by (apply Hdistinct; eauto using list_elem_of_lookup_2).
  by eapply NoDup_lookup.
Qed.

Lemma fallback_sort : @plan_fallback S1 q now ranked s = @plan_fallback S2 q now ranked s.
Proof.
  unfold plan_fallback. rewrite rank_sort; [done|].
  intros k (ck & Hk & _)%feasible_index. by rewrite Hk.
Qed.

Lemma selected_sort : @plan_selected S1 q now ranked s = @plan_selected S2 q now ranked s.
Proof.
  unfold plan_selected.
  rewrite rank_sort by (intros k (ck & Hk & _)%eligible_index; by rewrite Hk).
  destruct (build_plan _ _ _ _) as [p s']. by rewrite (explanation_sort S1 S2).
Qed.

Lemma plan_sort : @plan S1 q cs now s = @plan S2 q cs now s.
Proof. unfold plan. rewrite fallback_sort, selected_sort. reflexivity. Qed.
End Plan.
