(* ===== verification/Lifecycle.v ===== *)
(** * The fenced lifecycle of a plan

    Models the methods of [RecoveryPlanner] that act on stored plans and on the
    world ([src/planner.cpp], from [authorize_plan] to
    [set_recompute_available]).  A method that throws leaves the state it
    returns; the theorems show which leave it unchanged. *)

From stdpp Require Import base gmap strings list.
From S2P Require Import Prelude Types Evidence Economics Plan Planner.
#[local] Open Scope Z_scope.
#[local] Open Scope rp_scope.

Import PlanLifecycleState.

(** ** [authorize_plan] and [revalidate_plan] *)

Definition authorize_plan (pl : RecoveryPlan) (now : Timestamp) (s : Planner)
    : Result RecoveryError RecoveryPlan * Planner :=
  match plans s !! value (p_plan_id pl) with
  | None => (throw ErrorCode.NOT_FOUND "plan not found", s)
  | Some stored =>
      if negb (plan_authority_current stored (ctx s)) then
        (throw ErrorCode.STALE_AUTHORITY "plan authority is stale", s)
      else if negb (validate_plan_transition (p_state stored) AUTHORIZED) then
        (throw ErrorCode.INVALID_INPUT "cannot authorize from current lifecycle state", s)
      else
        let stored' := p_set_updated now (p_set_state AUTHORIZED stored) in
        (Ok stored', store_plan (value (p_plan_id pl)) stored' s)
  end.

Definition revalidate_plan (pl : RecoveryPlan) (s : Planner) : Result RecoveryError RecoveryPlan :=
  match plans s !! value (p_plan_id pl) with
  | None => throw ErrorCode.NOT_FOUND "plan not found"
  | Some stored =>
      if negb (plan_authority_current stored (ctx s)) then
        throw ErrorCode.STALE_AUTHORITY "revalidation failed: plan authority is stale"
      else if bool_decide (d_outcome (p_deadline stored) = DeadlineOutcome.VIOLATED) then
        throw ErrorCode.STALE_AUTHORITY "revalidation failed: deadline no longer viable"
      else Ok stored
  end.

(** ** [dispatch_plan] *)

(** The dispatch message for the plan as updated under the lock. *)
Definition dispatch_of (stored : RecoveryPlan) : RecoveryDispatch :=
  {| rd_dispatch_id := MkId (value (p_last_attempt stored));
     rd_plan_id := p_plan_id stored;
     rd_plan_generation := p_generation stored;
     rd_request_id := p_request_id stored;
     rd_strategy := p_strategy stored;
     rd_target_worker := p_target_worker stored;
     rd_target_boot := p_target_boot stored;
     rd_engine_incarnation := p_engine_incarnation stored;
     rd_state_source := p_state_source stored;
     rd_state_generation := p_state_generation stored;
     rd_attempt := p_last_attempt stored;
     rd_payload := p_dispatch_payload stored |}.

(** The first critical section. *)
Definition dispatch_begin (pl : RecoveryPlan) (now : Timestamp) (s : Planner)
    : Result RecoveryError RecoveryDispatch * Planner :=
  match plans s !! value (p_plan_id pl) with
  | None => (throw ErrorCode.NOT_FOUND "plan not found", s)
  | Some stored =>
      if negb (plan_authority_current stored (ctx s)) then
        (throw ErrorCode.STALE_AUTHORITY "plan authority is stale at dispatch", s)
      else if negb (bool_decide (p_state stored = AUTHORIZED)) then
        if terminal (p_state stored)
        then (throw ErrorCode.STALE_AUTHORITY "plan is no longer executable (stale/terminal)", s)
        else (throw ErrorCode.INVALID_INPUT "plan must be AUTHORIZED before dispatch", s)
      else if negb (validate_plan_transition (p_state stored) DISPATCHED) then
        (throw ErrorCode.INVALID_INPUT "cannot dispatch from current state", s)
      else
        let attempt := MkId (u64 (value (p_last_attempt stored) + 1)) in
        let stored' :=
          p_set_state DISPATCHED (p_set_attempt attempt (p_set_updated now stored)) in
        let dispatch := dispatch_of stored' in
        let s := store_plan (value (p_plan_id pl)) stored' s in
        (Ok dispatch,
         set_dispatch_meta
           (<[value (rd_dispatch_id dispatch) :=
                (p_plan_id stored', p_generation stored', p_target_boot stored')]>
              (dispatch_meta s)) s)
  end.

(** The receipt of the executor, applied to the plan found after the call. *)
Definition apply_receipt (status : DispatchStatus.t) (stored : RecoveryPlan) : RecoveryPlan :=
  let accepted := bool_decide (status = DispatchStatus.DISPATCHED) in
  if bool_decide (p_state stored = DISPATCHED) && accepted then
    if validate_plan_transition (p_state stored) EXECUTING
    then p_set_state EXECUTING stored else stored
  else if negb accepted then
    if validate_plan_transition (p_state stored) FAILED
    then p_set_state FAILED stored else stored
  else stored.

(** The second critical section. *)
Definition dispatch_finish (pl : RecoveryPlan) (status : DispatchStatus.t) (now : Timestamp)
    (s : Planner) : Result RecoveryError RecoveryPlan * Planner :=
  match plans s !! value (p_plan_id pl) with
  | None => (throw ErrorCode.NOT_FOUND "plan not found", s)
  | Some stored =>
      let stored' := p_set_updated now (apply_receipt status stored) in
      (Ok stored', store_plan (value (p_plan_id pl)) stored' s)
  end.

(** [IRecoveryExecutor]: its own state is [E]; while it runs the planner is
    unlocked, so it is a transformer of the planner's state too (its callbacks,
    and whatever other threads do meanwhile).  It returns a receipt or throws. *)
Class RecoveryExecutor (E : Type) := {
  dispatch : RecoveryDispatch -> E * Planner -> Result string RecoveryReceipt * (E * Planner) }.

(** What escapes from [dispatch_plan]. *)
Inductive Exception :=
| Recovery (e : RecoveryError)
| Runtime (what : string).

Definition recovery_result {A} (r : Result RecoveryError A) : Result Exception A :=
  match r with Ok a => Ok a | Throw e => Throw (Recovery e) end.

Definition dispatch_plan {E} {executor : RecoveryExecutor E} (pl : RecoveryPlan)
    (now_begin now_end : Timestamp) (st : E * Planner)
    : Result Exception RecoveryPlan * (E * Planner) :=
  let '(e, s) := st in
  match dispatch_begin pl now_begin s with
  | (Throw err, s) => (Throw (Recovery err), (e, s))
  | (Ok d, s) =>
      match dispatch d (e, s) with
      | (Throw msg, st) => (Throw (Runtime msg), st)
      | (Ok receipt, (e, s)) =>
          let '(r, s) := dispatch_finish pl (rr_status receipt) now_end s in
          (recovery_result r, (e, s))
      end
  end.

(** ** [report_execution] and [on_adapter_completion] *)

Definition close_plan (to : PlanLifecycleState.t) (o : ExecutionOutcome.t) (published : bool)
    (p : RecoveryPlan) : RecoveryPlan :=
  if validate_plan_transition (p_state p) to
  then p_set_published published (p_set_outcome o (p_set_state to p)) else p.

(** The [switch] on the outcome; a value outside the enumeration takes no case. *)
Definition apply_outcome (o : ExecutionOutcome.t) (p : RecoveryPlan) : RecoveryPlan :=
  match o with
  | ExecutionOutcome.SUCCEEDED => close_plan SUCCEEDED ExecutionOutcome.SUCCEEDED true p
  | ExecutionOutcome.FAILED => close_plan FAILED ExecutionOutcome.FAILED true p
  | ExecutionOutcome.AMBIGUOUS => close_plan FAILED ExecutionOutcome.AMBIGUOUS false p
  | ExecutionOutcome.UNKNOWN | ExecutionOutcome.CANCELLED => close_plan FAILED o false p
  | ExecutionOutcome.OTHER _ => p
  end.

Definition report_execution (report : ExecutionReport) (now : Timestamp) (s : Planner) : Planner :=
  match plans s !! value (er_plan_id report) with
  | None => s
  | Some p =>
      if negb (id_eqb (er_plan_generation report) (p_generation p)) then s
      else if negb (id_eqb (er_reporter_boot report) (p_target_boot p)) then s
      else if terminal (p_state p) then s
      else store_plan (value (er_plan_id report))
             (p_set_updated now (apply_outcome (er_outcome report) p)) s
  end.

(** The first half of [on_adapter_completion], under the lock: the report for
    the dispatch, whose metadata is dropped. *)
Definition take_completion (dispatch_id : DispatchId) (outcome : ExecutionOutcome.t)
    (recovered : ProgressUnits) (elapsed : Duration) (detail : string) (s : Planner)
    : option ExecutionReport * Planner :=
  match dispatch_meta s !! value dispatch_id with
  | None => (None, s)
  | Some (plan_id, plan_generation, boot) =>
      (Some (MkReport dispatch_id plan_id plan_generation boot outcome recovered elapsed detail),
       set_dispatch_meta (delete (value dispatch_id) (dispatch_meta s)) s)
  end.

Definition on_adapter_completion (dispatch_id : DispatchId) (outcome : ExecutionOutcome.t)
    (recovered : ProgressUnits) (elapsed : Duration) (detail : string) (now : Timestamp)
    (s : Planner) : Planner :=
  match take_completion dispatch_id outcome recovered elapsed detail s with
  | (None, s) => s
  | (Some report, s) => report_execution report now s
  end.

(** ** [cancel_plan] and [invalidate_plan] *)

Definition cancel_plan (plan_id : RecoveryPlanId) (force : bool) (now : Timestamp) (s : Planner)
    : bool * Planner :=
  match plans s !! value plan_id with
  | None => (false, s)
  | Some p =>
      if bool_decide (p_state p = SUCCEEDED) then (false, s)
      else
        let dispatched :=
          bool_decide (p_state p = DISPATCHED) || bool_decide (p_state p = EXECUTING) in
        if dispatched && negb force then (false, s)
        else if dispatched && force && p_outcome_published p then (false, s)
        else if validate_plan_transition (p_state p) CANCELLED then
          (true, store_plan (value plan_id)
                   (p_set_updated now
                      (p_set_outcome ExecutionOutcome.CANCELLED (p_set_state CANCELLED p))) s)
        else (false, s)
  end.

Definition invalidate_plan (plan_id : RecoveryPlanId) (now : Timestamp) (s : Planner) : Planner :=
  match plans s !! value plan_id with
  | None => s
  | Some p =>
      if bool_decide (p_state p = SUCCEEDED) then s
      else if validate_plan_transition (p_state p) INVALIDATED
      then store_plan (value plan_id) (p_set_updated now (p_set_state INVALIDATED p)) s
      else s
  end.

(** ** World maintenance *)

Definition register_worker (w : WorkerId) (boot : WorkerBootId) (s : Planner) : Planner :=
  set_ctx (ctx_register_worker w boot (ctx s)) s.
Definition unregister_worker (w : WorkerId) (s : Planner) : Planner :=
  set_ctx (ctx_unregister_worker w (ctx s)) s.
Definition set_resource (kind : string) (amount : Z) (s : Planner) : Planner :=
  set_ctx (ctx_set_dynamic (<[kind := amount]> (ctx_resource_available (ctx s)))
             (ctx_recompute_lineage_available (ctx s)) (ctx_original_inputs_available (ctx s))
             (ctx s)) s.
Definition set_recompute_available (gen : WorkloadGeneration) (available : bool) (s : Planner)
    : Planner :=
  let lineage := ctx_recompute_lineage_available (ctx s) in
  let inputs := ctx_original_inputs_available (ctx s) in
  set_ctx
    (ctx_set_dynamic (ctx_resource_available (ctx s))
       (if available then {[gen]} ∪ lineage else lineage ∖ {[gen]})
       (if available then {[gen]} ∪ inputs else inputs ∖ {[gen]}) (ctx s)) s.

(** ** Inspection *)

Definition context (s : Planner) : PlannerContext := ctx s.
Definition current_epoch (s : Planner) : CoordinatorEpoch := ctx_epoch (ctx s).
Definition history_size (s : Planner) : nat := length (history s).
Definition history_summaries (s : Planner) : list string := history s.
