(* ===== verification/LifecycleSpec.v ===== *)
(** * Histories of the planner and the invariants of stored plans

    Every public method of the planner that does not touch the store, and each
    half of the two methods that release the mutex, is an [Event]; a concurrent
    run is a sequence of events.  [plan_step] lists the ways an event changes one
    stored plan, and the invariants are proved by induction on histories through
    it. *)

From stdpp Require Import base gmap strings list.
From S2P Require Import Prelude Types Evidence Feasibility FeasibilitySpec StdSort Economics.
From S2P Require Import Digest Plan Explain Planner PlannerSpec Lifecycle.
#[local] Open Scope Z_scope.

Import PlanLifecycleState.

(** ** Events *)

Inductive Event :=
| EPlan (q : RecoveryRequest) (cs : list RecoveryCandidate) (now : Timestamp)
| EAuthorize (pl : RecoveryPlan) (now : Timestamp)
| EDispatchBegin (pl : RecoveryPlan) (now : Timestamp)
| EDispatchFinish (pl : RecoveryPlan) (status : DispatchStatus.t) (now : Timestamp)
| ETakeCompletion (d : DispatchId) (o : ExecutionOutcome.t) (recovered : ProgressUnits)
    (elapsed : Duration) (detail : string)
| EReport (r : ExecutionReport) (now : Timestamp)
| ECancel (id : RecoveryPlanId) (force : bool) (now : Timestamp)
| EInvalidate (id : RecoveryPlanId) (now : Timestamp)
| ERegister (w : WorkerId) (b : WorkerBootId)
| EUnregister (w : WorkerId)
| ESetResource (kind : string) (amount : Z)
| ESetRecompute (gen : WorkloadGeneration) (available : bool).

Section Histories.
Context {sorter : StdSort}.

Definition exec (e : Event) (s : Planner) : Planner :=
  match e with
  | EPlan q cs now => (plan q cs now s).2
  | EAuthorize pl now => (authorize_plan pl now s).2
  | EDispatchBegin pl now => (dispatch_begin pl now s).2
  | EDispatchFinish pl status now => (dispatch_finish pl status now s).2
  | ETakeCompletion d o recovered elapsed detail =>
      (take_completion d o recovered elapsed detail s).2
  | EReport r now => report_execution r now s
  | ECancel id force now => (cancel_plan id force now s).2
  | EInvalidate id now => invalidate_plan id now s
  | ERegister w b => register_worker w b s
  | EUnregister w => unregister_worker w s
  | ESetResource kind amount => set_resource kind amount s
  | ESetRecompute gen available => set_recompute_available gen available s
  end.

Definition run (es : list Event) (s : Planner) : Planner := foldl (fun s e => exec e s) s es.

(** The states a fresh planner reaches in [n] events. *)
Inductive Reachable : nat -> Planner -> Prop :=
| reach_new : Reachable 0 new_planner
| reach_exec n e s : Reachable n s -> Reachable (S n) (exec e s).

Lemma reachable_from n es s : Reachable n s -> Reachable (n + length es) (run es s).
Proof.
  intros Hr. induction es as [|e es IH] using rev_ind; [by rewrite Nat.add_0_r|].
  unfold run. rewrite foldl_app, length_app, Nat.add_assoc, Nat.add_comm. cbn.
  by constructor.
Qed.

Lemma reachable_run es : Reachable (length es) (run es new_planner).
Proof. exact (reachable_from 0 es new_planner reach_new). Qed.
End Histories.

(** ** How one stored plan changes *)

Inductive plan_step (p : RecoveryPlan) : RecoveryPlan -> Prop :=
| ps_same : plan_step p p
| ps_authorize now :
    validate_plan_transition (p_state p) AUTHORIZED = true ->
    plan_step p (p_set_updated now (p_set_state AUTHORIZED p))
| ps_dispatch now :
    p_state p = AUTHORIZED ->
    plan_step p (p_set_state DISPATCHED
                   (p_set_attempt (MkId (u64 (value (p_last_attempt p) + 1)))
                      (p_set_updated now p)))
| ps_receipt status now : plan_step p (p_set_updated now (apply_receipt status p))
| ps_report o now :
    terminal (p_state p) = false -> plan_step p (p_set_updated now (apply_outcome o p))
| ps_cancel now :
    validate_plan_transition (p_state p) CANCELLED = true ->
    plan_step p (p_set_updated now (p_set_outcome ExecutionOutcome.CANCELLED
                                      (p_set_state CANCELLED p)))
| ps_invalidate now :
    validate_plan_transition (p_state p) INVALIDATED = true ->
    plan_step p (p_set_updated now (p_set_state INVALIDATED p))
| ps_supersede now :
    validate_plan_transition (p_state p) SUPERSEDED = true ->
    plan_step p (p_set_updated now (p_set_state SUPERSEDED p)).

Lemma supersede_step q keep now p : plan_step p (supersede q keep now p).
Proof. unfold supersede. destruct_ifs; by constructor. Qed.

(** [ChangesOnly s s' R]: the stored plans of [s'] are those of [s], each
    related to itself by [plan_step]. *)
Definition plans_step (m m' : gmap Z RecoveryPlan) : Prop :=
  forall k, match m !! k, m' !! k with
            | Some p, Some p' => plan_step p p'
            | None, None => True
            | _, _ => False
            end.

Lemma plans_step_refl m : plans_step m m.
Proof. intros k. destruct (m !! k); [constructor|done]. Qed.

Lemma plans_step_insert m k p p' :
  m !! k = Some p -> plan_step p p' -> plans_step m (<[k := p']> m).
Proof.
  intros Hk Hs j. destruct (decide (j = k)) as [->|Hj].
  - by rewrite Hk, lookup_insert_eq.
  - rewrite lookup_insert_ne by done. apply plans_step_refl.
Qed.

Lemma plans_step_supersede q keep now m : plans_step m (supersede q keep now <$> m).
Proof.
  intros k. rewrite lookup_fmap. destruct (m !! k); cbn; [apply supersede_step|done].
Qed.

(** Events other than planning step the stored plans and leave the counters. *)
Lemma lifecycle_step `{StdSort} e s :
  (forall q cs now, e <> EPlan q cs now) ->
  plans_step (plans s) (plans (exec e s)) /\
  next_plan_id (exec e s) = next_plan_id s /\ next_generation (exec e s) = next_generation s.
Proof.
  intros Hne. destruct e as [q cs now| | | | | | | | | | |]; [by destruct (Hne q cs now)|..];
    cbn [exec];
    unfold authorize_plan, dispatch_begin, dispatch_finish, take_completion, report_execution,
      cancel_plan, invalidate_plan;
    repeat case_match; simplify_eq; cbn;
    (split; [|done]); try apply plans_step_refl;
    (eapply plans_step_insert; [eassumption|]);
    bool_simp; constructor; done.
Qed.

(** Planning supersedes, and stores the new plan under the next id. *)
Lemma planning_step `{StdSort} q cs now s :
  (plans (exec (EPlan q cs now) s) = plans s /\
   next_plan_id (exec (EPlan q cs now) s) = next_plan_id s /\
   next_generation (exec (EPlan q cs now) s) = next_generation s) \/
  exists c p,
    c ∈ cs /\ Admissible c q (ctx s) /\
    PlanFor q (ctx s) now (next_plan_id s) (next_generation s) c p /\
    plans (exec (EPlan q cs now) s) =
      <[next_plan_id s := p]> (supersede q (MkId (next_plan_id s)) now <$> plans s) /\
    next_plan_id (exec (EPlan q cs now) s) = u64 (next_plan_id s + 1) /\
    next_generation (exec (EPlan q cs now) s) = u64 (next_generation s + 1).
Proof.
  cbn [exec]. destruct (plan_result q cs now s)
    as [d Hn Ho Hp|d Hn Ha Ho Hp|d c p Hb Hp Ho Hd|d c p Hn Hb Hp Ho Hd]; [by left|by left|..];
    right; exists c, p; destruct Hb as (Hc & Hb & _); (split; [done|]);
    (split; [by try apply Hb|]); (split; [done|]); (split; [by eapply with_new_plan_plans|done]).
Qed.

(** ** What [plan_step] keeps *)

(** Everything in a plan but the five members the lifecycle assigns. *)
Definition fixed_part (p : RecoveryPlan) : RecoveryPlan :=
  p_update PLANNED unit_zero id_null ExecutionOutcome.UNKNOWN false p.

(** A plan but for its [updated_at]. *)
Definition untimed (p : RecoveryPlan) : RecoveryPlan := p_set_updated unit_zero p.

(** Attempt, outcome and publication agree with the lifecycle state; states
    outside the ones listed are not stored. *)
Definition coherent (p : RecoveryPlan) : Prop :=
  let attempt := value (p_last_attempt p) in
  let pending := p_execution_outcome p = ExecutionOutcome.UNKNOWN /\
                 p_outcome_published p = false in
  match p_state p with
  | PLANNED | AUTHORIZED => attempt = 0 /\ pending
  | DISPATCHED | EXECUTING => attempt = 1 /\ pending
  | SUCCEEDED =>
      attempt = 1 /\ p_execution_outcome p = ExecutionOutcome.SUCCEEDED /\
      p_outcome_published p = true
  | FAILED =>
      attempt = 1 /\
      (p_outcome_published p = true /\ p_execution_outcome p = ExecutionOutcome.FAILED \/
       p_outcome_published p = false /\
       (p_execution_outcome p = ExecutionOutcome.AMBIGUOUS \/
        p_execution_outcome p = ExecutionOutcome.UNKNOWN \/
        p_execution_outcome p = ExecutionOutcome.CANCELLED))
  | CANCELLED =>
      attempt = 0 /\ p_execution_outcome p = ExecutionOutcome.CANCELLED /\
      p_outcome_published p = false
  | SUPERSEDED | INVALIDATED => (attempt = 0 \/ attempt = 1) /\ pending
  | _ => False
  end.

Ltac plan_step_cases H p :=
  destruct H; [by auto|..];
  unfold apply_receipt, apply_outcome, close_plan, validate_plan_transition in *;
  destruct p as [? ? ? ? ? ? ? ? ? ? ? ? ? ? ? st ? ? ? ? ? ? att out pub ?];
  cbn in *.

Lemma plan_step_fixed p p' : plan_step p p' -> fixed_part p' = fixed_part p.
Proof. intros H. plan_step_cases H p; try done; repeat case_match; done. Qed.

Lemma plan_step_terminal p p' :
  plan_step p p' -> terminal (p_state p) = true -> untimed p' = untimed p.
Proof.
  intros H Ht. plan_step_cases H p; destruct st; try discriminate; try done;
    repeat case_match; done.
Qed.

Lemma plan_step_transition p p' :
  plan_step p p' ->
  p_state p' = p_state p \/ validate_plan_transition (p_state p) (p_state p') = true.
Proof.
  intros H. plan_step_cases H p; destruct st; try discriminate; auto;
    repeat case_match; cbn in *; try discriminate; auto.
Qed.

Lemma plan_step_coherent p p' : plan_step p p' -> coherent p -> coherent p'.
Proof.
  unfold coherent. intros H. plan_step_cases H p; destruct st; try discriminate; try done;
    intros Hc; destruct_and? Hc; subst; repeat case_match; cbn in *; simplify_eq;
    repeat split; auto 8; match goal with H : value _ = 0 |- _ => by rewrite H end.
Qed.

(** ** The invariant of the planner's state *)

Definition open (p : RecoveryPlan) : Prop := terminal (p_state p) = false.

(** The fence of a plan repeats the identities the plan carries. *)
Definition fenced (p : RecoveryPlan) : Prop :=
  let a := p_authority p in
  pa_request_id a = p_request_id p /\ pa_plan_generation a = p_generation p /\
  pa_candidate_generation a = p_candidate_generation p /\
  pa_target_boot a = p_target_boot p /\ pa_engine_incarnation a = p_engine_incarnation p /\
  pa_state_generation a = p_state_generation p.

Record PlanInvariant (s : Planner) (k : Z) (p : RecoveryPlan) : Prop := {
  pi_key : 1 <= k < next_plan_id s;
  pi_id : p_plan_id p = MkId k;
  pi_generation : p_generation p = MkId k;
  pi_fenced : fenced p;
  pi_coherent : coherent p }.

(** A pending dispatch belongs to a stored plan that was dispatched. *)
Definition MetaInvariant (s : Planner) (k : Z) (m : DispatchMeta) : Prop :=
  k = 1 /\ exists p, plans s !! value m.1.1 = Some p /\
  m = (p_plan_id p, p_generation p, p_target_boot p) /\ value (p_last_attempt p) = 1.

Record Invariant (n : nat) (s : Planner) : Prop := {
  inv_counters : next_generation s = next_plan_id s;
  inv_bound : 1 <= next_plan_id s <= Z.of_nat n + 1;
  inv_plans k p : plans s !! k = Some p -> PlanInvariant s k p;
  inv_one_open k1 k2 p1 p2 :
    plans s !! k1 = Some p1 -> plans s !! k2 = Some p2 ->
    p_request_id p1 = p_request_id p2 -> open p1 -> open p2 -> k1 = k2;
  inv_meta k m : dispatch_meta s !! k = Some m -> MetaInvariant s k m }.

Lemma fixed_part_members p p' :
  fixed_part p' = fixed_part p ->
  p_plan_id p' = p_plan_id p /\ p_generation p' = p_generation p /\
  p_request_id p' = p_request_id p /\ p_target_boot p' = p_target_boot p /\
  (fenced p -> fenced p').
Proof.
  destruct p, p'. unfold fixed_part, p_update, fenced. cbn. intros [=]. subst. tauto.
Qed.

Lemma plan_step_open p p' : plan_step p p' -> open p' -> open p.
Proof.
  unfold open. intros H Ho. destruct (terminal (p_state p)) eqn:Ht; [|done].
  assert (p_state p' = p_state p) as Hs
    by exact (f_equal p_state (plan_step_terminal _ _ H Ht)).
  congruence.
Qed.

Lemma plan_step_attempt p p' :
  plan_step p p' -> coherent p -> value (p_last_attempt p) = 1 -> value (p_last_attempt p') = 1.
Proof.
  unfold coherent. intros H Hc Ha. plan_step_cases H p; subst; try done;
    repeat case_match; cbn in *; try done; lia.
Qed.

(** A report to a finished plan has no effect. *)
Lemma report_terminal r now s p :
  plans s !! value (er_plan_id r) = Some p -> terminal (p_state p) = true ->
  report_execution r now s = s.
Proof.
  intros Hp Ht. unfold report_execution. rewrite Hp, Ht. by repeat case_match.
Qed.

(** ** Every event keeps the invariant *)

Lemma plan_invariant_step s s' k p p' :
  plan_step p p' -> next_plan_id s <= next_plan_id s' ->
  PlanInvariant s k p -> PlanInvariant s' k p'.
Proof.
  intros Hs Hn [Hk Hi Hg Hf Hc].
  destruct (fixed_part_members p p' (plan_step_fixed _ _ Hs)) as (Ei & Eg & _ & _ & Ef).
  split; [lia|congruence|congruence|auto|by eapply plan_step_coherent].
Qed.

Lemma plans_step_back m m' k p' :
  plans_step m m' -> m' !! k = Some p' -> exists p, m !! k = Some p /\ plan_step p p'.
Proof. intros H Hk. specialize (H k). rewrite Hk in H. destruct (m !! k); [eauto|done]. Qed.

Lemma plans_step_forward m m' k p :
  plans_step m m' -> m !! k = Some p -> exists p', m' !! k = Some p' /\ plan_step p p'.
Proof. intros H Hk. specialize (H k). rewrite Hk in H. destruct (m' !! k); [eauto|done]. Qed.

(** Stepping the plans of a pending dispatch keeps it pending for its plan. *)
Lemma meta_invariant_step s s' k m :
  (forall j p, plans s !! j = Some p -> coherent p) ->
  (forall j p, plans s !! j = Some p -> exists p', plans s' !! j = Some p' /\ plan_step p p') ->
  MetaInvariant s k m -> MetaInvariant s' k m.
Proof.
  intros Hc Hf [-> (p & Hp & -> & Ha)]. split; [done|]. cbn [fst] in *.
  destruct (Hf _ _ Hp) as (p' & Hp' & Hs). exists p'.
  destruct (fixed_part_members p p' (plan_step_fixed _ _ Hs)) as (Ei & Eg & _ & Eb & _).
  rewrite Ei, Eg, Eb. split; [done|]. split; [done|]. eauto using plan_step_attempt.
Qed.

(** Where the dispatch metadata comes from. *)
Lemma dispatch_meta_step `{StdSort} e s k m :
  dispatch_meta (exec e s) !! k = Some m ->
  dispatch_meta s !! k = Some m \/
  exists key p p',
    plans s !! key = Some p /\ p_state p = AUTHORIZED /\ plans (exec e s) !! key = Some p' /\
    plan_step p p' /\ p_last_attempt p' = MkId (u64 (value (p_last_attempt p) + 1)) /\
    k = value (p_last_attempt p') /\ m = (p_plan_id p', p_generation p', p_target_boot p').
Proof.
  destruct e as [q cs now|pl now|pl now| | |r now|i f now|i now| | | |]; cbn [exec]; try by left.
  - by destruct (plan_result q cs now s); left.
  - unfold authorize_plan. repeat case_match; by left.
  - unfold dispatch_begin. repeat case_match; try by left. cbn.
    intros [[<- <-]|[_ Hk]]%lookup_insert_Some; [right|by left]. bool_simp.
    exists (value (p_plan_id pl)). do 2 eexists. split; [done|]. split; [done|].
    split; [apply lookup_insert_eq|]. split; [by apply ps_dispatch with (now := now)|done].
  - unfold dispatch_finish. repeat case_match; by left.
  - unfold take_completion. repeat case_match; simplify_eq; try by left.
    cbn. intros [_ Hk]%lookup_delete_Some. by left.
  - unfold report_execution. repeat case_match; by left.
  - unfold cancel_plan. repeat case_match; by left.
  - unfold invalidate_plan. repeat case_match; by left.
Qed.

Lemma new_plan_invariant q c now id gen cand p :
  PlanFor q c now id gen cand p ->
  p_plan_id p = MkId id /\ p_generation p = MkId gen /\ p_request_id p = q_request_id q /\
  p_state p = PLANNED /\ fenced p /\ coherent p.
Proof.
  unfold PlanFor. intros Hp.
  assert (forall {A} (f : RecoveryPlan -> A), f (p_set_explanation default_explanation p) =
    f (plan_of q (assessed q c now cand) now c id gen)) as Hf by (intros; by rewrite Hp).
  split; [exact (Hf _ p_plan_id)|]. split; [exact (Hf _ p_generation)|].
  split; [exact (Hf _ p_request_id)|]. split; [exact (Hf _ p_state)|].
  split.
  - unfold fenced.
    pose proof (Hf _ p_authority : p_authority p = _) as ->.
    pose proof (Hf _ p_request_id : p_request_id p = _) as ->.
    pose proof (Hf _ p_generation : p_generation p = _) as ->.
    pose proof (Hf _ p_candidate_generation : p_candidate_generation p = _) as ->.
    pose proof (Hf _ p_target_boot : p_target_boot p = _) as ->.
    pose proof (Hf _ p_engine_incarnation : p_engine_incarnation p = _) as ->.
    by pose proof (Hf _ p_state_generation : p_state_generation p = _) as ->.
  - unfold coherent.
    pose proof (Hf _ p_state : p_state p = _) as ->.
    pose proof (Hf _ p_last_attempt : p_last_attempt p = _) as ->.
    pose proof (Hf _ p_execution_outcome : p_execution_outcome p = _) as ->.
    by pose proof (Hf _ p_outcome_published : p_outcome_published p = _) as ->.
Qed.

Section InvariantPreserved.
Context `{sorter : StdSort} (n : nat) (s : Planner) (e : Event).
Context (Hinv : Invariant n s).

Lemma stored_coherent j p : plans s !! j = Some p -> coherent p.
Proof. intros Hj. by destruct (inv_plans _ _ Hinv j p Hj). Qed.

Lemma new_meta_invariant key p p' m k :
  plans s !! key = Some p -> p_state p = AUTHORIZED -> plans (exec e s) !! key = Some p' ->
  plan_step p p' -> p_last_attempt p' = MkId (u64 (value (p_last_attempt p) + 1)) ->
  k = value (p_last_attempt p') -> m = (p_plan_id p', p_generation p', p_target_boot p') ->
  MetaInvariant (exec e s) k m.
Proof.
  intros Hp Hst Hp' Hs Ha -> ->.
  destruct (inv_plans _ _ Hinv _ _ Hp) as [_ Hid _ _ Hc].
  destruct (fixed_part_members p p' (plan_step_fixed _ _ Hs)) as (Ei & _).
  unfold coherent in Hc. rewrite Hst in Hc. destruct Hc as [Hz _].
  assert (value (p_last_attempt p') = 1) as H1 by (by rewrite Ha, Hz).
  split; [done|]. exists p'. cbn [fst]. by rewrite Ei, Hid.
Qed.

Lemma invariant_steps :
  plans_step (plans s) (plans (exec e s)) ->
  next_plan_id (exec e s) = next_plan_id s -> next_generation (exec e s) = next_generation s ->
  Invariant (S n) (exec e s).
Proof.
  intros Hs Hid Hgen. pose proof Hinv as [Hc Hb Hp Ho Hm]. split.
  - congruence.
  - lia.
  - intros k p' Hk. destruct (plans_step_back _ _ _ _ Hs Hk) as (p & Hkp & Hst).
    eapply (plan_invariant_step s); [done|lia|by apply Hp].
  - intros k1 k2 p1' p2' H1 H2 Hr O1 O2.
    destruct (plans_step_back _ _ _ _ Hs H1) as (p1 & Hp1 & S1).
    destruct (plans_step_back _ _ _ _ Hs H2) as (p2 & Hp2 & S2).
    destruct (fixed_part_members _ _ (plan_step_fixed _ _ S1)) as (_ & _ & R1 & _).
    destruct (fixed_part_members _ _ (plan_step_fixed _ _ S2)) as (_ & _ & R2 & _).
    apply (Ho k1 k2 p1 p2); eauto using plan_step_open. congruence.
  - intros k m Hk.
    destruct (dispatch_meta_step e s k m Hk) as [Hold|(key & p & p' & ? & ? & ? & ? & ? & ? & ?)].
    + eapply (meta_invariant_step s); [apply stored_coherent| |by apply Hm].
      intros j p Hj. by eapply plans_step_forward.
    + by eapply new_meta_invariant.
Qed.

(** Superseding closes every older open plan of the request. *)
Lemma supersede_closes q keep now p :
  coherent p -> p_plan_id p <> keep -> p_request_id p = q_request_id q ->
  ~ open (supersede q keep now p).
Proof.
  unfold coherent, open, supersede. intros Hc Hk Hr.
  rewrite (proj2 (id_eqb_neq _ _) Hk), Hr, id_eqb_refl. destruct (p_state p) eqn:E; cbn;
    rewrite ?E; done.
Qed.

Lemma supersede_other q keep now p :
  p_request_id p <> q_request_id q -> supersede q keep now p = p.
Proof.
  intros Hr. unfold supersede. rewrite (proj2 (id_eqb_neq _ _) Hr). by destruct_ifs.
Qed.

Lemma invariant_new_plan q now c0 c p :
  Z.of_nat n + 1 < 2 ^ 64 - 1 ->
  (forall k m, dispatch_meta (exec e s) !! k = Some m -> dispatch_meta s !! k = Some m) ->
  PlanFor q c0 now (next_plan_id s) (next_generation s) c p ->
  plans (exec e s) = <[next_plan_id s := p]> (supersede q (MkId (next_plan_id s)) now <$> plans s) ->
  next_plan_id (exec e s) = u64 (next_plan_id s + 1) ->
  next_generation (exec e s) = u64 (next_generation s + 1) ->
  Invariant (S n) (exec e s).
Proof.
  intros Hn Hmeta Hp Hpl Hid Hgen. pose proof Hinv as [Hc Hb Hpi Ho Hm].
  destruct (new_plan_invariant _ _ _ _ _ _ _ Hp) as (Ei & Eg & Er & Es & Ef & Ec).
  set (id := next_plan_id s) in *.
  assert (next_plan_id (exec e s) = id + 1) as Hid' by (rewrite Hid; apply u64_id; lia).
  assert (forall k p', plans (exec e s) !! k = Some p' ->
    k = id /\ p' = p \/ k <> id /\ exists p0, plans s !! k = Some p0 /\
                          p' = supersede q (MkId id) now p0) as Hback.
  { intros k p'. rewrite Hpl. intros [[<- <-]|[Hk Hl]]%lookup_insert_Some; [by left|right].
    split; [done|]. apply lookup_fmap_Some in Hl as (p0 & <- & ?). eauto. }
  assert (forall k p', k <> id -> plans (exec e s) !! k = Some p' -> open p' ->
    exists p0, plans s !! k = Some p0 /\ open p0 /\ p_request_id p' = p_request_id p0 /\
      p_request_id p' <> q_request_id q) as Hopen.
  { intros k p' Hk Hl Hop. destruct (Hback k p' Hl) as [[? _]|(_ & p0 & Hp0 & ->)]; [done|].
    pose proof (supersede_step q (MkId id) now p0) as Hst.
    destruct (fixed_part_members _ _ (plan_step_fixed _ _ Hst)) as (_ & _ & R & _).
    destruct (Hpi _ _ Hp0) as [_ Hid0 _ _ Hco].
    exists p0. split; [done|]. split; [by eapply plan_step_open|]. split; [done|].
    rewrite R. intros Hr. eapply (supersede_closes q (MkId id) now p0); try done.
    rewrite Hid0. by intros [=]. }
  split.
  - rewrite Hid, Hgen, Hc. done.
  - lia.
  - intros k p' Hk. destruct (Hback k p' Hk) as [[-> ->]|(_ & p0 & Hp0 & ->)].
    + split; [lia|done|congruence|done|done].
    + eapply (plan_invariant_step s); [apply supersede_step|lia|by apply Hpi].
  - intros k1 k2 p1 p2 H1 H2 Hr O1 O2.
    destruct (decide (k1 = id)) as [->|N1], (decide (k2 = id)) as [->|N2]; [done|..].
    + destruct (Hopen _ _ N2 H2 O2) as (? & _ & _ & _ & Hne).
      destruct (Hback _ _ H1) as [[_ ->]|[? _]]; [congruence|done].
    + destruct (Hopen _ _ N1 H1 O1) as (? & _ & _ & _ & Hne).
      destruct (Hback _ _ H2) as [[_ ->]|[? _]]; [congruence|done].
    + destruct (Hopen _ _ N1 H1 O1) as (p10 & ? & ? & ? & _).
      destruct (Hopen _ _ N2 H2 O2) as (p20 & ? & ? & ? & _).
      apply (Ho k1 k2 p10 p20); congruence.
  - intros k m Hk. eapply (meta_invariant_step s); [apply stored_coherent| |by apply Hm, Hmeta].
    intros j p0 Hj. exists (supersede q (MkId id) now p0). split; [|apply supersede_step].
    destruct (Hpi _ _ Hj) as [Hjk _ _ _ _]. rewrite Hpl, lookup_insert_ne by lia.
    by rewrite lookup_fmap, Hj.
Qed.
End InvariantPreserved.

Lemma plan_keeps_meta `{StdSort} q cs now s :
  dispatch_meta (plan q cs now s).2 = dispatch_meta s.
Proof. by destruct (plan_result q cs now s). Qed.

Lemma invariant_exec `{sorter : StdSort} n s e :
  Z.of_nat n + 1 < 2 ^ 64 - 1 -> Invariant n s -> Invariant (S n) (exec e s).
Proof.
  intros Hn Hinv.
  assert ((forall q cs now, e <> EPlan q cs now) -> Invariant (S n) (exec e s)) as Hother.
  { intros He. destruct (lifecycle_step e s He) as (? & ? & ?). by apply invariant_steps. }
  destruct e as [q cs now| | | | | | | | | | |]; try by apply Hother.
  destruct (planning_step q cs now s) as [(Hp & Hi & Hg)|(c & p & Hc & Ha & Hf & Hp & Hi & Hg)].
  - apply invariant_steps; try done. rewrite Hp. apply plans_step_refl.
  - eapply invariant_new_plan; eauto. intros k m. cbn [exec]. by rewrite plan_keeps_meta.
Qed.

Lemma reachable_invariant `{sorter : StdSort} n s :
  Z.of_nat n < 2 ^ 64 - 1 -> Reachable n s -> Invariant n s.
Proof.
  intros Hn Hr. induction Hr as [|n e s Hr IH].
  - by split.
  - apply invariant_exec; [lia|]. apply IH. lia.
Qed.

(** ** From a decision to an authorised plan *)

(** The plan of a fresh decision is stored in state [PLANNED], and its authority is
    current exactly for a live target and the request's current workload
    generation. *)
Lemma fresh_plan_stored {sorter : StdSort} q cs s p t0 :
  de_plan (plan q cs t0 s).1 = Some p ->
  ctx (plan q cs t0 s).2 = ctx s /\
  plans (plan q cs t0 s).2 !! value (p_plan_id p) = Some p /\ p_state p = PLANNED /\
  (AuthorityCurrent p (ctx s) <->
   q_workload_generation q = ctx_workload_generation (ctx s) /\
   p_target_worker p ∈ ctx_alive_workers (ctx s) /\
   ctx_worker_boots (ctx s) !! p_target_worker p = Some (p_target_boot p)).
Proof.
  assert (forall c d s0, PlanFor q (ctx s) t0 (next_plan_id s) (next_generation s) c p ->
    plans s0 = plans s -> ctx s0 = ctx s ->
    ctx (with_new_plan q t0 p d s0) = ctx s /\
    plans (with_new_plan q t0 p d s0) !! value (p_plan_id p) = Some p /\ p_state p = PLANNED /\
    (AuthorityCurrent p (ctx s) <->
     q_workload_generation q = ctx_workload_generation (ctx s) /\
     p_target_worker p ∈ ctx_alive_workers (ctx s) /\
     ctx_worker_boots (ctx s) !! p_target_worker p = Some (p_target_boot p))) as Hc.
  { intros c d s0 Hf Hs0 Hc0.
    assert (p_authority p = plan_authority_of q c (ctx s) (MkId (next_generation s))) as Ea
      by exact (f_equal p_authority Hf).
    split; [exact Hc0|]. split.
    { rewrite (with_new_plan_plans _ _ _ _ _ _ _ _ _ _ _ Hf Hs0).
      rewrite (f_equal p_plan_id Hf : p_plan_id p = _). apply lookup_insert_eq. }
    split; [exact (f_equal p_state Hf)|]. split; [intros []|intros (? & ? & ?)].
    - split_and!; [|done..]. rewrite <- cur_workload. by rewrite Ea.
    - by split; rewrite ?Ea. }
  intros Hd. destruct (plan_result q cs t0 s)
    as [d Hn Ho Hp|d Hn Hx Ho Hp|d c p' Hb Hp Ho Hd'|d c p' Hn Hb Hp Ho Hd']; simplify_eq;
    by apply (Hc c).
Qed.

(** The plan of a fresh decision for a live target of the request's workload
    generation is stored, current, and authorised on request. *)
Lemma fresh_plan_ready {sorter : StdSort} q cs s p t0 t1 :
  let s1 := (plan q cs t0 s).2 in
  de_plan (plan q cs t0 s).1 = Some p ->
  q_workload_generation q = ctx_workload_generation (ctx s) ->
  p_target_worker p ∈ ctx_alive_workers (ctx s) ->
  ctx_worker_boots (ctx s) !! p_target_worker p = Some (p_target_boot p) ->
  AuthorityCurrent p (ctx s1) /\ plans s1 !! value (p_plan_id p) = Some p /\
  authorize_plan p t1 s1 =
    (Ok (p_set_updated t1 (p_set_state AUTHORIZED p)),
     store_plan (value (p_plan_id p)) (p_set_updated t1 (p_set_state AUTHORIZED p)) s1).
Proof.
  cbn zeta. intros Hd Hw Halive Hboot.
  destruct (fresh_plan_stored q cs s p t0 Hd) as (Hctx & Hk & Hst & Ha).
  assert (AuthorityCurrent p (ctx s)) as Hcur by by apply Ha.
  rewrite Hctx. split; [done|]. split; [done|].
  unfold authorize_plan. rewrite Hk, Hctx, (proj2 (authority_current_spec _ _) Hcur), Hst. done.
Qed.
