(* ===== verification/Executor.v ===== *)
(** * The in-process reference executor

    Models [ReferenceExecutor] of [executor.hpp] and [src/executor.cpp], as an
    instance of the interface [dispatch_plan] is written against, and shows what
    the interface promises to the planner: whatever an executor does to the
    planner is a sequence of the planner's own events. *)

From stdpp Require Import base gmap strings list.
From S2P Require Import Prelude Types Evidence Economics StdSort Plan Planner Lifecycle.
From S2P Require Import LifecycleSpec.
#[local] Open Scope Z_scope.

(** ** The executor *)

(** [CompletionCallback]; calling it acts on the planner. *)
Definition CompletionCallback : Type :=
  DispatchId -> ExecutionOutcome.t -> ProgressUnits -> Duration -> string -> Planner -> Planner.

Definition Override : Type := ExecutionOutcome.t * ProgressUnits * Duration * string.

Record ReferenceExecutor := MkReferenceExecutor {
  overrides : gmap Z Override;
  dispatched : Z }.

Definition new_executor : ReferenceExecutor := MkReferenceExecutor ∅ 0.

Definition register_outcome (plan_id : Z) (outcome : ExecutionOutcome.t)
    (recovered : ProgressUnits) (elapsed : Duration) (detail : string) (e : ReferenceExecutor)
    : ReferenceExecutor :=
  MkReferenceExecutor (<[plan_id := (outcome, recovered, elapsed, detail)]> (overrides e))
    (dispatched e).

(** What a dispatch of the plan reports. *)
Definition outcome_for (e : ReferenceExecutor) (plan_id : Z) : Override :=
  default (ExecutionOutcome.SUCCEEDED, MkUnit 0, MkUnit 0, "synthetic reference execution")
    (overrides e !! plan_id).

(** [dispatch]: [now] is the reading of [now_fn], 0 when there is none. *)
Definition reference_dispatch (on_complete : option CompletionCallback) (now : Timestamp)
    (d : RecoveryDispatch) (st : ReferenceExecutor * Planner)
    : Result string RecoveryReceipt * (ReferenceExecutor * Planner) :=
  let '(e, s) := st in
  let e := MkReferenceExecutor (overrides e) (u64 (dispatched e + 1)) in
  let '(outcome, recovered, elapsed, detail) := outcome_for e (value (rd_plan_id d)) in
  let receipt := MkReceipt (rd_dispatch_id d) DispatchStatus.DISPATCHED now "accepted" in
  let s := match on_complete with
           | Some callback => callback (rd_dispatch_id d) outcome recovered elapsed detail s
           | None => s
           end in
  (Ok receipt, (e, s)).

Definition make_reference_executor (on_complete : option CompletionCallback) (now : Timestamp)
    : RecoveryExecutor ReferenceExecutor :=
  {| dispatch := reference_dispatch on_complete now |}.

(** The callback every caller installs. *)
Definition report_to_planner (now : Timestamp) : CompletionCallback :=
  fun d o recovered elapsed detail s => on_adapter_completion d o recovered elapsed detail now s.

(** ** What an executor may do to the planner *)

Class LawfulExecutor {sorter : StdSort} (E : Type) (X : RecoveryExecutor E) := {
  executor_events d e s : exists es, (dispatch d (e, s)).2.2 = run es s }.

Lemma run_app `{StdSort} es1 es2 s : run (es1 ++ es2) s = run es2 (run es1 s).
Proof. apply foldl_app. Qed.

Lemma run_cons `{StdSort} e es s : run (e :: es) s = run es (exec e s).
Proof. done. Qed.

Lemma completion_events `{StdSort} d o recovered elapsed detail now s :
  exists es, on_adapter_completion d o recovered elapsed detail now s = run es s.
Proof.
  unfold on_adapter_completion.
  pose proof (eq_refl : exec (ETakeCompletion d o recovered elapsed detail) s =
    (take_completion d o recovered elapsed detail s).2) as Ht.
  destruct (take_completion d o recovered elapsed detail s) as [[report|] s']; cbn [snd] in Ht.
  - exists [ETakeCompletion d o recovered elapsed detail; EReport report now]. by rewrite !run_cons, Ht.
  - exists [ETakeCompletion d o recovered elapsed detail]. by rewrite !run_cons, Ht.
Qed.

#[export] Instance reference_executor_lawful `{sorter : StdSort} now now' :
  LawfulExecutor ReferenceExecutor (make_reference_executor (Some (report_to_planner now')) now).
Proof.
  split. intros d e s. cbn. unfold reference_dispatch.
  destruct (outcome_for _ _) as [[[o r] el] detail]. apply completion_events.
Qed.

(** [dispatch_plan] with a lawful executor is a sequence of events too. *)
Lemma dispatch_plan_events `{sorter : StdSort} {E} (X : RecoveryExecutor E)
    (L : LawfulExecutor E X) pl now1 now2 e s :
  exists es, (dispatch_plan pl now1 now2 (e, s)).2.2 = run es s.
Proof.
  cbn. pose proof (eq_refl : exec (EDispatchBegin pl now1) s = (dispatch_begin pl now1 s).2) as Hb.
  destruct (dispatch_begin pl now1 s) as [[d|err] s1]; cbn [snd] in Hb;
    [|exists [EDispatchBegin pl now1]; by rewrite run_cons, Hb].
  destruct (executor_events d e s1) as [es Hes].
  destruct (dispatch d (e, s1)) as [[receipt|msg] [e2 s2]]; cbn in Hes.
  - exists (EDispatchBegin pl now1 :: es ++ [EDispatchFinish pl (rr_status receipt) now2]).
    rewrite run_cons, Hb, run_app, <- Hes, run_cons. cbn.
    by destruct (dispatch_finish _ _ _ _) as [r' s3].
  - exists (EDispatchBegin pl now1 :: es). by rewrite run_cons, Hb, <- Hes.
Qed.

(** ** A dispatch of an authorised, current plan *)

(** The plan as the first critical section leaves it. *)
Definition dispatched_plan (now : Timestamp) (p : RecoveryPlan) : RecoveryPlan :=
  p_set_state PlanLifecycleState.DISPATCHED
    (p_set_attempt (MkId (u64 (value (p_last_attempt p) + 1))) (p_set_updated now p)).

Lemma dispatch_begin_ok pl now s stored :
  plans s !! value (p_plan_id pl) = Some stored ->
  plan_authority_current stored (ctx s) = true ->
  p_state stored = PlanLifecycleState.AUTHORIZED ->
  dispatch_begin pl now s =
    (Ok (dispatch_of (dispatched_plan now stored)),
     set_dispatch_meta
       (<[u64 (value (p_last_attempt stored) + 1) :=
            (p_plan_id stored, p_generation stored, p_target_boot stored)]> (dispatch_meta s))
       (store_plan (value (p_plan_id pl)) (dispatched_plan now stored) s)).
Proof. intros Hp Ha Hs. unfold dispatch_begin. by rewrite Hp, Ha, Hs. Qed.

(** A dispatch during which the executor reports completion of the dispatch it was
    given, and no other thread acts: the plan ends as the outcome says. *)
Lemma dispatch_completes {E} (X : RecoveryExecutor E) pl now1 now2 now4 e e' s stored o r el detail
    rc :
  plans s !! value (p_plan_id pl) = Some stored ->
  value (p_plan_id stored) = value (p_plan_id pl) ->
  plan_authority_current stored (ctx s) = true ->
  p_state stored = PlanLifecycleState.AUTHORIZED ->
  let d := dispatch_of (dispatched_plan now1 stored) in
  let s1 := (dispatch_begin pl now1 s).2 in
  dispatch d (e, s1) =
    (Ok rc, (e', on_adapter_completion (rd_dispatch_id d) o r el detail now4 s1)) ->
  rr_status rc = DispatchStatus.DISPATCHED ->
  let finished := p_set_updated now2 (apply_receipt DispatchStatus.DISPATCHED
                    (p_set_updated now4 (apply_outcome o (dispatched_plan now1 stored)))) in
  let result := dispatch_plan pl now1 now2 (e, s) in
  result.1 = Ok finished /\ result.2.1 = e' /\
  plans result.2.2 = <[value (p_plan_id pl) := finished]> (plans s) /\
  dispatch_meta result.2.2 =
    delete (u64 (value (p_last_attempt stored) + 1)) (dispatch_meta s) /\
  ctx result.2.2 = ctx s.
Proof.
  intros Hp Hid Ha Hs. cbn zeta. unfold dispatch_plan.
  rewrite (dispatch_begin_ok pl now1 s stored) by done. cbn [snd].
  intros -> ->. unfold on_adapter_completion, take_completion.
  cbn [dispatch_meta set_dispatch_meta rd_dispatch_id dispatch_of value].
  rewrite (lookup_insert_eq (dispatch_meta s)). unfold report_execution.
  cbn [plans set_dispatch_meta store_plan set_plans er_plan_id er_plan_generation er_reporter_boot
       er_outcome].
  rewrite Hid, lookup_insert_eq.
  change (p_generation (dispatched_plan now1 stored)) with (p_generation stored).
  change (p_target_boot (dispatched_plan now1 stored)) with (p_target_boot stored).
  rewrite !id_eqb_refl. cbn [negb].
  change (terminal (p_state (dispatched_plan now1 stored))) with false. cbv iota.
  unfold dispatch_finish. cbn [plans store_plan set_plans rr_status].
  rewrite lookup_insert_eq.
  cbn [recovery_result fst snd plans store_plan set_plans dispatch_meta ctx set_dispatch_meta].
  split; [done|]. split; [done|]. split; [by rewrite !insert_insert_eq|].
  split; [by rewrite delete_insert_eq|done].
Qed.

Lemma reference_dispatch_completes pl now1 now2 now3 now4 e s stored :
  plans s !! value (p_plan_id pl) = Some stored ->
  value (p_plan_id stored) = value (p_plan_id pl) ->
  plan_authority_current stored (ctx s) = true ->
  p_state stored = PlanLifecycleState.AUTHORIZED ->
  let o := (outcome_for e (value (p_plan_id stored))).1.1.1 in
  let finished := p_set_updated now2 (apply_receipt DispatchStatus.DISPATCHED
                    (p_set_updated now4 (apply_outcome o (dispatched_plan now1 stored)))) in
  let result := dispatch_plan (executor := make_reference_executor (Some (report_to_planner now4)) now3)
                  pl now1 now2 (e, s) in
  result.1 = Ok finished /\ plans result.2.2 !! value (p_plan_id pl) = Some finished.
Proof.
  intros Hp Hid Ha Hs. cbn zeta.
  destruct (outcome_for e (value (p_plan_id stored))) as [[[o r] el] detail] eqn:Ho. cbn [fst].
  pose proof (dispatch_completes (make_reference_executor (Some (report_to_planner now4)) now3)
    pl now1 now2 now4 e (MkReferenceExecutor (overrides e) (u64 (dispatched e + 1))) s stored o r
    el detail
    (MkReceipt (rd_dispatch_id (dispatch_of (dispatched_plan now1 stored)))
       DispatchStatus.DISPATCHED now3 "accepted") Hp Hid Ha Hs) as Hc.
  destruct Hc as (H1 & _ & H3 & _); [|done|].
  - cbn [dispatch make_reference_executor]. unfold reference_dispatch.
    set (e' := MkReferenceExecutor (overrides e) (u64 (dispatched e + 1))).
    assert (outcome_for e' (value (rd_plan_id (dispatch_of (dispatched_plan now1 stored)))) =
            outcome_for e (value (p_plan_id stored))) as -> by reflexivity.
    rewrite Ho. reflexivity.
  - split; [exact H1|]. rewrite H3. apply lookup_insert_eq.
Qed.
