(* ===== verification/Program.v ===== *)
(** * Programs that may exit

    The [main] functions of the repository and the cases of its tests are state
    transformers that go on, return an exit code (with [return] from [main] or
    [std::exit]) or let an exception escape.  [ends] bounds every way a program can
    end. *)

From stdpp Require Import base list.
From S2P Require Import Prelude Types Plan Planner Lifecycle.
#[local] Open Scope Z_scope.

Inductive Exit (A : Type) :=
| Go (a : A)
| Return (code : Z)
| Raise (e : Exception).
Arguments Go {A} a.
Arguments Return {A} code.
Arguments Raise {A} e.

Definition p_ret {W A} (a : A) : W -> Exit A * W := fun w => (Go a, w).
Definition p_bind {W A B} (m : W -> Exit A * W) (k : A -> W -> Exit B * W) : W -> Exit B * W := fun w =>
  match m w with
  | (Go a, w') => k a w'
  | (Return code, w') => (Return code, w')
  | (Raise e, w') => (Raise e, w')
  end.

Declare Scope prog_scope.
Delimit Scope prog_scope with prog.
Notation "'do!' x := m 'in' k" := (p_bind m (fun x => k))
  (at level 10, x pattern, m at level 100, k at level 200) : prog_scope.
Notation "m ;; k" := (p_bind m (fun _ => k))
  (at level 100, k at level 200, right associativity) : prog_scope.
#[local] Open Scope prog_scope.

Definition p_exit {W A} (code : Z) : W -> Exit A * W := fun w => (Return code, w).

Definition exit_if {W} (b : bool) (code : Z) : W -> Exit unit * W :=
  fun w => if b then (Return code, w) else (Go tt, w).

(** A result whose exception nothing catches. *)
Definition or_raise {W A} (r : Result Exception A) : W -> Exit A * W := fun w =>
  (match r with Ok a => Go a | Throw e => Raise e end, w).

Fixpoint repeat_call {W} (n : nat) (fn : W -> Exit unit * W) : W -> Exit unit * W :=
  match n with
  | O => p_ret tt
  | S n => fn;; repeat_call n fn
  end.

(** The exit code; [None] when an exception ends the process. *)
Definition exit_code (e : Exit Z) : option Z :=
  match e with Go c | Return c => Some c | Raise _ => None end.

(** ** Steps of a program *)

Lemma p_bind_go {W A B} (m : W -> Exit A * W) (k : A -> W -> Exit B * W) w a w' :
  m w = (Go a, w') -> p_bind m k w = k a w'.
Proof. unfold p_bind. by intros ->. Qed.

Lemma p_bind_inv {W A B} (m : W -> Exit A * W) (k : A -> W -> Exit B * W) w b w' :
  p_bind m k w = (Go b, w') -> exists a w1, m w = (Go a, w1) /\ k a w1 = (Go b, w').
Proof. unfold p_bind. destruct (m w) as [[a|c|e] w1]; [eauto|discriminate..]. Qed.

Lemma exit_if_false {W} (w : W) b code : b = false -> exit_if b code w = (Go tt, w).
Proof. by intros ->. Qed.

(** ** Every way a program can end *)

(** [post] holds where it goes on, [codes] of a code it returns; nothing is said
    of an exception. *)
Definition ends {W A} (m : W -> Exit A * W) (w : W) (codes : Z -> Prop) (post : A -> W -> Prop)
    : Prop :=
  match m w with
  | (Go a, w') => post a w'
  | (Return c, _) => codes c
  | (Raise _, _) => True
  end.

Section Ends.
Context {W : Type}.

Lemma ends_bind {A B} (m : W -> Exit A * W) (k : A -> W -> Exit B * W) w codes post :
  ends m w codes (fun a w' => ends (k a) w' codes post) -> ends (p_bind m k) w codes post.
Proof. unfold ends, p_bind. by destruct (m w) as [[a|c|e] w']. Qed.

Lemma ends_weaken {A} (m : W -> Exit A * W) w (codes codes' : Z -> Prop) (post post' : A -> W -> Prop) :
  ends m w codes post -> (forall c, codes c -> codes' c) -> (forall a w', post a w' -> post' a w') ->
  ends m w codes' post'.
Proof. unfold ends. destruct (m w) as [[a|c|e] w']; auto. Qed.

Lemma ends_ret {A} (a : A) w codes (post : A -> W -> Prop) :
  post a w -> ends (p_ret a) w codes post.
Proof. done. Qed.

Lemma ends_exit_if b code w codes (post : unit -> W -> Prop) :
  (b = true -> codes code) -> (b = false -> post tt w) -> ends (exit_if b code) w codes post.
Proof. unfold ends, exit_if. destruct b; auto. Qed.

Lemma ends_or_raise {A} (r : Result Exception A) w codes (post : A -> W -> Prop) :
  (forall a, r = Ok a -> post a w) -> ends (or_raise r) w codes post.
Proof. unfold ends, or_raise. destruct r; auto. Qed.
End Ends.
