(* ===== verification/Cli.v ===== *)
(** * The scenarios of the command line tool

    Models [tools/rplanner.cpp]: the candidates it builds, the world it sets up,
    and the scenario it runs.  The concrete candidates also serve as inputs of the
    witnesses of the development.  [cli_decision] is the decision
    [print_decision] prints ([Tool] has its output). *)

From stdpp Require Import base gmap strings list.
From S2P Require Import Prelude Types Evidence Feasibility StdSort Economics Plan Explain.
From S2P Require Import Planner Lifecycle.
#[local] Open Scope Z_scope.
#[local] Open Scope rp_scope.

Import RecoveryStrategy.

(** ** Candidates *)

Definition cli_meta (p : EvidenceProvenance.t) (conf : Confidence) : EvidenceMeta :=
  MkMeta (MkId 1) (MkId 100) (MkUnit 100) p Freshness.CURRENT conf false.

Definition cli_state (preserved : ProgressUnits) : StateEvidence :=
  {| st_meta := cli_meta EvidenceProvenance.MEASURED confidence_full;
     st_state_id := MkId 1000;
     st_state_generation := MkId 1;
     st_workload_generation := MkId 1;
     st_checkpoint_generation := MkId 1;
     st_integrity := StateIntegrity.VALID;
     st_size_bytes := MkUnit 1024;
     st_restore_bytes := MkUnit 1024;
     st_preserved_progress := preserved;
     st_durable_progress := preserved;
     st_location := StorageLocation.LOCAL;
     st_is_durable := true;
     st_identity := "workload:v1" |}.

Definition when_strategy {A} (s s' : RecoveryStrategy.t) (a b : A) : A :=
  if bool_decide (s = s') then a else b.

Definition readiness_of (feasible : bool) : CandidateReadiness.t :=
  if feasible then CandidateReadiness.READY else CandidateReadiness.NOT_READY.

Definition make_candidate (s : RecoveryStrategy.t) (id : Z) (time : Duration)
    (preserved lost : ProgressUnits) (feasible : bool) : RecoveryCandidate :=
  let measured := cli_meta EvidenceProvenance.MEASURED confidence_none in
  let estimated := cli_meta EvidenceProvenance.ESTIMATED confidence_none in
  let target_worker := when_strategy s MIGRATE (MkId 2) (MkId 1) in
  let target_boot := when_strategy s MIGRATE (MkId 200) (MkId 100) in
  {| c_candidate_id := MkId id;
     c_generation := MkId id;
     c_strategy := s;
     c_target_worker := target_worker;
     c_target_boot := target_boot;
     c_target_engine := MkId 1;
     c_target_engine_incarnation := MkId 1;
     c_source_worker := MkId 1;
     c_source_boot := MkId 100;
     c_state_source := MkId 1000;
     c_state_generation := MkId 1;
     c_checkpoint_source := MkId 5000;
     c_checkpoint_generation := MkId 1;
     c_state := Some (cli_state preserved);
     c_compatibility := Some
       {| co_meta := cli_meta EvidenceProvenance.REPORTED confidence_none;
          co_compatibility_generation := MkId 1;
          co_result := if feasible then CompatibilityResult.EXACT
                       else CompatibilityResult.INCOMPATIBLE;
          co_subject_identity := "workload:v1";
          co_state_format := when_strategy s MIGRATE "worker:2" "worker:1";
          co_reason := "" |};
     c_availability := Some
       {| av_meta := measured;
          av_worker := target_worker;
          av_boot := target_boot;
          av_engine_incarnation := MkId 1;
          av_is_alive := true;
          av_readiness := readiness_of feasible |};
     c_resource := Some
       {| rs_meta := measured;
          rs_snapshot := MkId 1;
          rs_generation := MkId 1;
          rs_resource_kind := "gpu_mem";
          rs_required := Some 100;
          rs_available := Some 10000;
          rs_status := ResourceStatus.AVAILABLE |};
     c_topology := Some
       {| tp_meta := measured;
          tp_generation := MkId 1;
          tp_path_possible := true;
          tp_source := "worker:1";
          tp_destination := "worker:2";
          tp_path_latency := None |};
     c_transfer := Some
       {| tr_meta := estimated;
          tr_transfer_bytes := MkUnit 1024;
          tr_bandwidth := Some (MkUnit (1024 * 1024));
          tr_transfer_duration := None;
          tr_from := "worker:1";
          tr_to := "worker:2" |};
     c_checkpoint := None;
     c_shadow := Some
       {| sh_meta := measured;
          sh_shadow_worker := MkId 1;
          sh_shadow_boot := MkId 100;
          sh_shadow_state_generation := MkId 1;
          sh_lag := MkUnit 25;
          sh_last_sync_point := MkUnit 90;
          sh_readiness := readiness_of feasible;
          sh_compatibility := CompatibilityResult.EXACT |};
     c_progress := None;
     c_cost := Some
       {| cost_meta := estimated;
          cost_expected_time := Some time;
          cost_restore_time := when_strategy s RESTORE (Some time) None;
          cost_restart_time := when_strategy s SHADOW_PROMOTE (Some time) None;
          cost_transfer_time := when_strategy s MIGRATE (Some time) None;
          cost_recompute_time := when_strategy s RECOMPUTE (Some time) None;
          cost_bytes_transferred := Some (MkUnit 1024);
          cost_bytes_read := Some (MkUnit 1024);
          cost_bytes_materialized := Some (MkUnit 1024);
          cost_cost_units := None;
          cost_energy_cost := None;
          cost_expected_lost_progress := Some lost;
          cost_expected_preserved_progress := Some preserved;
          cost_checkpoint_age := None;
          cost_deadline_slack := None;
          cost_failover_domain_risk := 0 |};
     c_authority := Some
       {| auth_meta := cli_meta EvidenceProvenance.MEASURED confidence_full;
          auth_coordinator_epoch := MkId 1;
          auth_policy_generation := MkId 1;
          auth_coordinator_authority_valid := true;
          auth_policy_authority_valid := true;
          auth_candidate_authority_valid := true;
          auth_execution_authority_valid := true |};
     c_reason_for_existence := to_string s +:+ " candidate";
     c_capabilities := [];
     c_required_capabilities := [] |}.

(** ** The world and the request of [main] *)

Definition cli_world (s : Planner) : Planner :=
  (register_worker (MkId 1) (MkId 100) >>> register_worker (MkId 2) (MkId 200) >>>
   set_resource "gpu_mem" 10000 >>> set_resource "host_mem" 100000 >>>
   set_recompute_available (MkId 1) true) s.

Definition cli_request (deadline : option Timestamp) : RecoveryRequest :=
  {| q_request_id := MkId 1;
     q_workload := MkId 1;
     q_workload_generation := MkId 1;
     q_execution := MkId 1;
     q_execution_generation := MkId 1;
     q_failure := MkId 1;
     q_reason := "worker lost";
     q_prior_progress := default_progress;
     q_recovery_deadline := deadline;
     q_max_recovery_duration := None;
     q_max_tolerated_progress_loss := None;
     q_preferred_strategies := [];
     q_forbidden_strategies := [];
     q_state_requirements := [];
     q_placement_constraints := [];
     q_compatibility_requirements := [];
     q_coordinator_epoch := MkId 1;
     q_policy_generation := MkId 1;
     q_topology_generation := MkId 1;
     q_requested_at := MkUnit 0;
     q_value_priorities := [] |}.

Definition cli_candidates : list RecoveryCandidate :=
  [make_candidate RESTORE 11 (MkUnit 3000) (MkUnit 100) (MkUnit 0) true;
   make_candidate RESTART 12 (MkUnit 1000) (MkUnit 0) (MkUnit 100) true;
   make_candidate MIGRATE 13 (MkUnit 2000) (MkUnit 95) (MkUnit 5) true;
   make_candidate REHYDRATE 14 (MkUnit 1500) (MkUnit 90) (MkUnit 10) true;
   make_candidate SHADOW_PROMOTE 15 (MkUnit 50) (MkUnit 100) (MkUnit 0) true;
   make_candidate FAILOVER 16 (MkUnit 800) (MkUnit 100) (MkUnit 0) true;
   make_candidate RECOMPUTE 17 (MkUnit 1200) (MkUnit 100) (MkUnit 0) true].

(** ** Scenarios *)

Definition set_evidence (av : option AvailabilityEvidence) (auth : option AuthorityEvidence)
    (c : RecoveryCandidate) : RecoveryCandidate :=
  MkCandidate (c_candidate_id c) (c_generation c) (c_strategy c) (c_target_worker c)
    (c_target_boot c) (c_target_engine c) (c_target_engine_incarnation c) (c_source_worker c)
    (c_source_boot c) (c_state_source c) (c_state_generation c) (c_checkpoint_source c)
    (c_checkpoint_generation c) (c_state c) (c_compatibility c) av (c_resource c) (c_topology c)
    (c_transfer c) (c_checkpoint c) (c_shadow c) (c_progress c) (c_cost c) auth
    (c_reason_for_existence c) (c_capabilities c) (c_required_capabilities c).

(** [c.availability->readiness = NOT_READY] *)
Definition make_not_ready (c : RecoveryCandidate) : RecoveryCandidate :=
  set_evidence
    ((fun av => MkAvailabilityEvidence (av_meta av) (av_worker av) (av_boot av)
                  (av_engine_incarnation av) (av_is_alive av) CandidateReadiness.NOT_READY)
     <$> c_availability c) (c_authority c) c.

(** Both coordinator epochs of the authority evidence become [e]. *)
Definition set_evidence_epoch (e : CoordinatorEpoch) (c : RecoveryCandidate) : RecoveryCandidate :=
  set_evidence (c_availability c)
    ((fun a =>
        let m := auth_meta a in
        MkAuthorityEvidence
          (MkMeta e (m_observer m) (m_observed_at m) (m_provenance m) (m_freshness m)
             (m_confidence m) (m_persisted m))
          e (auth_policy_generation a) (auth_coordinator_authority_valid a)
          (auth_policy_authority_valid a) (auth_candidate_authority_valid a)
          (auth_execution_authority_valid a)) <$> c_authority c) c.

(** Only the candidates of strategy [s] stay ready. *)
Definition only_ready (s : RecoveryStrategy.t) (cs : list RecoveryCandidate)
    : list RecoveryCandidate :=
  (fun c => if bool_decide (c_strategy c = s) then c else make_not_ready c) <$> cs.

(** The [--scenario] names; any other string leaves the baseline candidates. *)
Inductive Scenario :=
| SRestore | SRecompute | SShadow | SMigrate | SRehydrate | SFailover | SRestart | SNoValid
| SDeadline | SOther.

Definition cli_deadline (sc : Scenario) : option Timestamp :=
  match sc with
  | SRecompute => Some (MkUnit 2000)
  | SDeadline => Some (MkUnit 600)
  | _ => None
  end.

Definition cli_scenario_candidates (sc : Scenario) : list RecoveryCandidate :=
  match sc with
  | SRecompute => only_ready RECOMPUTE cli_candidates
  | SRestore => only_ready RESTORE cli_candidates
  | SMigrate => only_ready MIGRATE cli_candidates
  | SRehydrate => only_ready REHYDRATE cli_candidates
  | SFailover => only_ready FAILOVER cli_candidates
  | SRestart => only_ready RESTART cli_candidates
  | SShadow => only_ready SHADOW_PROMOTE cli_candidates
  | SNoValid => set_evidence_epoch (MkId 999) <$> cli_candidates
  | SDeadline | SOther => cli_candidates
  end.

Definition cli_planner (sc : Scenario) : Planner :=
  match sc with
  | SRecompute | SDeadline => cli_world new_planner
  | _ => set_recompute_available (MkId 1) false (cli_world new_planner)
  end.

Definition cli_decision {sorter : StdSort} (sc : Scenario) : RecoveryDecision * Planner :=
  plan (cli_request (cli_deadline sc)) (cli_scenario_candidates sc) (MkUnit 0) (cli_planner sc).

(** Outcome and strategy of the selected plan. *)
Definition cli_summary {sorter : StdSort} (sc : Scenario)
    : PlanOutcome.t * option RecoveryStrategy.t :=
  let d := (cli_decision sc).1 in (de_outcome d, p_strategy <$> de_plan d).
