(* ===== verification/DecisionProps.v ===== *)
(** * Properties of feasibility, ranking and the planning decision

    The theorems about the decision layer, each with a witness on the candidates
    of [Cli] where it has hypotheses. *)

From stdpp Require Import base gmap strings list.
From S2P Require Import Prelude Types Evidence Feasibility FeasibilitySpec StdSort Economics.
From S2P Require Import Digest Plan Explain Planner PlannerSpec Lifecycle Cli.
From S2P Require Import SortSpec.
#[local] Open Scope Z_scope.

(** ** Feasibility *)

(** C2: A candidate is evaluated [FEASIBLE] exactly when it is admissible: allowed
    by the request, properly identified, observed under the current epoch and
    policy, with valid usable state of the right generation, compatible, with a
    live and ready target incarnation (unless it recomputes), sufficient
    resources, and the evidence its own strategy requires.  Usable is evidence
    whose freshness is [CURRENT] or [UNKNOWN], and a shadow of [UNKNOWN]
    compatibility will do: here the code departs from [feasibility.hpp], which says
    that UNKNOWN never becomes FEASIBLE ([unknown_becomes_feasible]). *)
Theorem feasible_iff_admissible c q ctx :
  ev_result (evaluate_feasibility c q ctx) = FeasibilityResult.FEASIBLE <-> Admissible c q ctx.
Proof. apply feasible_admissible. Qed.

(** What is known of [c] made unknown: the freshness of its evidence, and of its
    shadow the compatibility. *)
Definition forget_meta (m : EvidenceMeta) : EvidenceMeta :=
  if bool_decide (m_freshness m = Freshness.CURRENT) then set_freshness Freshness.UNKNOWN m else m.

Definition forget (c : RecoveryCandidate) : RecoveryCandidate :=
  MkCandidate (c_candidate_id c) (c_generation c) (c_strategy c) (c_target_worker c)
    (c_target_boot c) (c_target_engine c) (c_target_engine_incarnation c) (c_source_worker c)
    (c_source_boot c) (c_state_source c) (c_state_generation c) (c_checkpoint_source c)
    (c_checkpoint_generation c)
    ((fun st => MkStateEvidence (forget_meta (st_meta st)) (st_state_id st)
        (st_state_generation st) (st_workload_generation st) (st_checkpoint_generation st)
        (st_integrity st) (st_size_bytes st) (st_restore_bytes st) (st_preserved_progress st)
        (st_durable_progress st) (st_location st) (st_is_durable st) (st_identity st)) <$> c_state c)
    ((fun co => MkCompatibilityEvidence (forget_meta (co_meta co)) (co_compatibility_generation co)
        (co_result co) (co_subject_identity co) (co_state_format co) (co_reason co))
       <$> c_compatibility c)
    ((fun av => MkAvailabilityEvidence (forget_meta (av_meta av)) (av_worker av) (av_boot av)
        (av_engine_incarnation av) (av_is_alive av) (av_readiness av)) <$> c_availability c)
    ((fun rs => MkResourceEvidence (forget_meta (rs_meta rs)) (rs_snapshot rs) (rs_generation rs)
        (rs_resource_kind rs) (rs_required rs) (rs_available rs) (rs_status rs)) <$> c_resource c)
    (c_topology c) (c_transfer c) (c_checkpoint c)
    ((fun sh => MkShadowEvidence (sh_meta sh) (sh_shadow_worker sh) (sh_shadow_boot sh)
        (sh_shadow_state_generation sh) (sh_lag sh) (sh_last_sync_point sh) (sh_readiness sh)
        (if bool_decide (sh_compatibility sh = CompatibilityResult.INCOMPATIBLE)
         then CompatibilityResult.INCOMPATIBLE else CompatibilityResult.UNKNOWN)) <$> c_shadow c)
    (c_progress c) (c_cost c) (c_authority c) (c_reason_for_existence c) (c_capabilities c)
    (c_required_capabilities c).

Lemma forget_usable m : usable m -> usable (forget_meta m).
Proof. unfold usable, forget_meta. case_bool_decide; cbn; auto. Qed.

(** A feasible candidate stays feasible when the freshness of its evidence, and the
    compatibility of its shadow, become unknown. *)
Theorem unknown_becomes_feasible c q ctx :
  ev_result (evaluate_feasibility c q ctx) = FeasibilityResult.FEASIBLE ->
  ev_result (evaluate_feasibility (forget c) q ctx) = FeasibilityResult.FEASIBLE.
Proof.
  rewrite !feasible_admissible. intros [H1 H2 H3 H4 H5 H6 H7 H8 H9 H10 H11 H12].
  split; try assumption; cbn [forget c_state c_compatibility c_availability c_resource c_shadow
    c_strategy c_state_generation].
  - destruct H5 as (st & -> & []). eexists. split; [reflexivity|].
    split; cbn; auto using forget_usable.
  - destruct (c_compatibility c) as [co|]; [|exact H7]. destruct H7 as [? ? Hf ?].
    split; try assumption. cbn. unfold forget_meta. by case_bool_decide.
  - intros (av & -> & [])%H8. eexists. split; [reflexivity|]. split; cbn; auto using forget_usable.
  - destruct H9 as (rs & -> & []). eexists. split; [reflexivity|].
    split; cbn; auto using forget_usable.
  - intros Hm. destruct (H10 Hm) as [? (st & E & Hd) ? ?]. split; try assumption.
    eexists. cbn. rewrite E. by split.
  - intros (sh & -> & [])%H11. eexists. split; [reflexivity|]. split; cbn; try assumption.
    by case_bool_decide.
  - intros Hr. destruct (H12 Hr). by split.
Qed.

(** The flags of the authority evidence are not looked at. *)
Theorem authority_flags_ignored c q ctx auth b1 b2 b3 b4 :
  c_authority c = Some auth ->
  evaluate_feasibility
    (MkCandidate (c_candidate_id c) (c_generation c) (c_strategy c) (c_target_worker c)
       (c_target_boot c) (c_target_engine c) (c_target_engine_incarnation c) (c_source_worker c)
       (c_source_boot c) (c_state_source c) (c_state_generation c) (c_checkpoint_source c)
       (c_checkpoint_generation c) (c_state c) (c_compatibility c) (c_availability c)
       (c_resource c) (c_topology c) (c_transfer c) (c_checkpoint c) (c_shadow c) (c_progress c)
       (c_cost c)
       (Some (MkAuthorityEvidence (auth_meta auth) (auth_coordinator_epoch auth)
                (auth_policy_generation auth) b1 b2 b3 b4))
       (c_reason_for_existence c) (c_capabilities c) (c_required_capabilities c)) q ctx =
  evaluate_feasibility c q ctx.
Proof. intros Ha. destruct c. cbn in Ha. subst. reflexivity. Qed.

(** The verdict follows a fixed priority: any violated constraint makes the
    candidate [INFEASIBLE], else missing or indecisive evidence makes it
    [INSUFFICIENT_EVIDENCE], else evidence awaiting revalidation makes it
    [REVALIDATION_REQUIRED], else a warming target defers it. *)
Theorem verdict_priority c q ctx :
  ev_result (evaluate_feasibility c q ctx) =
  if violated c q ctx RejectionReason.FORBIDDEN_STRATEGY || violates_some c q ctx
  then FeasibilityResult.INFEASIBLE
  else if lacks_evidence c q ctx then FeasibilityResult.INSUFFICIENT_EVIDENCE
  else if awaits_revalidation c then FeasibilityResult.REVALIDATION_REQUIRED
  else if target_warming c then FeasibilityResult.DEFER
  else FeasibilityResult.FEASIBLE.
Proof. apply evaluate_classifies. Qed.

(** C29: Every rejection is explained: each recorded violation has its ground in
    the evidence, and an infeasible candidate records a violation that makes it
    infeasible. *)
Theorem rejections_explained c q ctx :
  Forall (fun v => noted c q ctx (v_reason v)) (ev_violations (evaluate_feasibility c q ctx)) /\
  (ev_result (evaluate_feasibility c q ctx) = FeasibilityResult.INFEASIBLE ->
   Exists (fun v => violated c q ctx (v_reason v) = true)
     (ev_violations (evaluate_feasibility c q ctx))).
Proof. apply evaluation_explained. Qed.

(** ** Economics and ranking *)

(** C35: With a deadline and an expected time, the evaluation estimates completion
    at now plus the expected time (negative estimates count as zero, the sum
    saturates), holds it to the later of now and the deadline, reports the
    clamped difference as slack, and calls the candidate [HARD_FEASIBLE] exactly
    when it completes in time. *)
Theorem deadline_evaluation_exact c q ctx now deadline expected :
  deadline_of q now = Some deadline ->
  from_cost c cost_expected_time = Some expected ->
  is_i64 (count now) -> is_i64 (count deadline) -> is_i64 (count expected) ->
  let ev := evaluate_deadline c q ctx now in
  d_expected_completion ev = Some (MkUnit (estimated_completion (count now) (count expected))) /\
  d_slack ev = Some (MkUnit (clamp_i64 (effective_deadline (count now) (count deadline) -
                                        estimated_completion (count now) (count expected)))) /\
  d_outcome ev =
    if estimated_completion (count now) (count expected) <=?
       effective_deadline (count now) (count deadline)
    then DeadlineOutcome.HARD_FEASIBLE else DeadlineOutcome.VIOLATED.
Proof. apply evaluate_deadline_outcome. Qed.

Lemma deadline_evaluation_exact_witness :
  let c := make_candidate RecoveryStrategy.RESTORE 11 (MkUnit 3000) (MkUnit 100) (MkUnit 0) true in
  d_outcome (evaluate_deadline c (cli_request (Some (MkUnit 600))) initial_context (MkUnit 0)) =
    DeadlineOutcome.VIOLATED.
Proof.
  apply (deadline_evaluation_exact _ _ _ (MkUnit 0) (MkUnit 600) (MkUnit 3000));
    first [reflexivity | by split].
Defined.

(** C40: The ranking comparator is a strict total order on what it ranks: it is
    irreflexive and transitive, and two candidates neither of which precedes the
    other have equal keys, hence the same id, generation and strategy.  This is
    what [std::sort] requires, and leaves it no freedom. *)
Theorem ranking_strict_total_order :
  (forall c e d, candidate_precedes c c e e d d = false) /\
  (forall c1 c2 c3 e1 e2 e3 d1 d2 d3,
     candidate_precedes c1 c2 e1 e2 d1 d2 = true -> candidate_precedes c2 c3 e2 e3 d2 d3 = true ->
     candidate_precedes c1 c3 e1 e3 d1 d3 = true) /\
  (forall c1 c2 e1 e2 d1 d2,
     candidate_precedes c1 c2 e1 e2 d1 d2 = false -> candidate_precedes c2 c1 e2 e1 d2 d1 = false ->
     rank_key c1 e1 = rank_key c2 e2 /\
     c_candidate_id c1 = c_candidate_id c2 /\ c_generation c1 = c_generation c2 /\
     c_strategy c1 = c_strategy c2).
Proof.
  split_and!; intros *; rewrite !precedes_key.
  - apply lex_ltb_irrefl.
  - apply lex_ltb_trans.
  - intros H1 H2. pose proof (lex_ltb_total _ _ H1 H2) as Hk. split; [done|].
    by eapply rank_key_inj.
Qed.

(** Ranking is by preserved progress first: of two candidates whose preserved
    progress is known, the one preserving more precedes, whatever its other
    costs.  A candidate whose preserved progress is unknown precedes every
    candidate that reports one (the comment in the source says the unknown is
    treated as worst). *)
Theorem preserved_progress_ranks_first c1 c2 e1 e2 d1 d2 :
  match e_expected_preserved_progress e1, e_expected_preserved_progress e2 with
  | Some p1, Some p2 =>
      count p2 < count p1 -> candidate_precedes c1 c2 e1 e2 d1 d2 = true
  | None, Some _ => candidate_precedes c1 c2 e1 e2 d1 d2 = true
  | _, _ => True
  end.
Proof.
  rewrite precedes_key. unfold rank_key. rewrite key_higher_step. unfold cmp_higher_better.
  destruct (e_expected_preserved_progress e1) as [p1|], (e_expected_preserved_progress e2) as [p2|];
    cbn; try done. intros Hlt. unfold unit_ltb.
  rewrite (proj2 (Z.ltb_lt _ _) Hlt). done.
Qed.

(** ** The decision *)


(** Two decisions refining the specification of the same candidates agree. *)
Lemma decisions_agree q c now cs id1 gen1 id2 gen2 d1 d2 ch1 ch2 :
  DistinctIdentities cs ->
  DecisionSpec q c now cs (de_outcome d1) ch1 -> Refines q c now id1 gen1 d1 ch1 ->
  DecisionSpec q c now cs (de_outcome d2) ch2 -> Refines q c now id2 gen2 d2 ch2 ->
  de_outcome d1 = de_outcome d2 /\ ch1 = ch2 /\
  p_decision_digest <$> de_plan d1 = p_decision_digest <$> de_plan d2 /\
  p_strategy <$> de_plan d1 = p_strategy <$> de_plan d2.
Proof.
  intros Hd D1 R1 D2 R2. destruct (decision_unique _ _ _ _ _ _ _ _ Hd D1 D2) as [Ho <-].
  split; [done|]. split; [done|]. unfold Refines in R1, R2.
  destruct (de_plan d1) as [p1|], (de_plan d2) as [p2|], ch1 as [c1|]; try done.
  change (Some (p_decision_digest p1) = Some (p_decision_digest p2) /\
          Some (p_strategy p1) = Some (p_strategy p2)).
  split; apply f_equal.
  - exact (plan_for_digest q c now _ _ _ _ c1 p1 p2 R1 R2).
  - transitivity (c_strategy c1).
    + exact (plan_for_strategy _ _ _ _ _ _ _ R1).
    + symmetry. exact (plan_for_strategy _ _ _ _ _ _ _ R2).
Qed.

(** C11: The decision is deterministic: two planners in the same context, given
    the same candidates in any order and using any two correct sorts, reach the
    same outcome and plan for the same candidate, with the same decision digest,
    however many plans they made before; from one state and one list without
    duplicates, any two sorts give the same whole decision, ranking and explanation
    included, and the same new state. *)
Theorem plan_deterministic (S1 S2 : StdSort) q cs1 cs2 now s1 s2 :
  ctx s1 = ctx s2 -> cs1 ≡ₚ cs2 -> DistinctIdentities cs1 ->
  let d1 := (@plan S1 q cs1 now s1).1 in
  let d2 := (@plan S2 q cs2 now s2).1 in
  de_outcome d1 = de_outcome d2 /\
  p_decision_digest <$> de_plan d1 = p_decision_digest <$> de_plan d2 /\
  exists choice, Refines q (ctx s1) now (next_plan_id s1) (next_generation s1) d1 choice /\
                 Refines q (ctx s1) now (next_plan_id s2) (next_generation s2) d2 choice /\
                 (NoDup cs1 -> @plan S1 q cs1 now s1 = @plan S2 q cs1 now s1).
Proof.
  intros Hc Hp Hd. cbn zeta.
  destruct (@plan_decides S1 q cs1 now s1) as (ch1 & D1 & R1).
  destruct (@plan_decides S2 q cs2 now s2) as (ch2 & D2 & R2). rewrite <- Hc in D2, R2.
  apply (decision_perm _ _ _ _ _ _ _ (symmetry Hp)) in D2.
  destruct (decisions_agree _ _ _ _ _ _ _ _ _ _ _ _ Hd D1 R1 D2 R2) as (Ho & <- & Hg & _).
  split; [exact Ho|]. split; [exact Hg|]. exists ch1. split; [exact R1|]. split; [exact R2|].
  intros Hn. by apply plan_sort.
Qed.

Definition identity_of (c : RecoveryCandidate) : Z * Z * Z :=
  (value (c_candidate_id c), value (c_generation c), RecoveryStrategy.code (c_strategy c)).

Lemma distinct_identities cs : NoDup (identity_of <$> cs) -> DistinctIdentities cs.
Proof.
  intros Hn c1 c2 H1 H2 Hi Hg Hs.
  apply list_elem_of_lookup in H1 as [i Hi1], H2 as [j Hj2].
  assert (identity_of c1 = identity_of c2) as He by (unfold identity_of; by rewrite Hi, Hg, Hs).
  assert (i = j) as ->; [|congruence].
  eapply NoDup_lookup; [done|..]; rewrite list_lookup_fmap.
  - by rewrite Hi1.
  - by rewrite Hj2, He.
Qed.

Lemma cli_candidates_distinct : DistinctIdentities cli_candidates.
Proof.
  apply distinct_identities.
  assert (identity_of <$> cli_candidates =
    [(11, 11, 0); (12, 12, 1); (13, 13, 2); (14, 14, 3); (15, 15, 4); (16, 16, 5); (17, 17, 6)])
    as -> by reflexivity.
  apply (bool_decide_unpack _). vm_compute. exact I.
Qed.

Lemma plan_deterministic_witness :
  let s := cli_world new_planner in
  de_outcome (plan (cli_request None) cli_candidates (MkUnit 0) s).1 =
  de_outcome (plan (cli_request None) (reverse cli_candidates) (MkUnit 0)
                (plan (cli_request None) cli_candidates (MkUnit 0) s).2).1.
Proof.
  apply (plan_deterministic insertion_std_sort insertion_std_sort);
    [vm_compute; reflexivity|symmetry; apply reverse_Permutation|apply cli_candidates_distinct].
Defined.

(** C30: The plan of a [PLAN_FOUND] decision keeps the request's hard constraints
    (its estimated completion is within the deadline, a known expected loss is
    within the tolerance), and the fallback plan of any other decision breaks
    one of them. *)
Theorem plan_constraints {sorter : StdSort} q cs now s p :
  let d := (plan q cs now s).1 in
  de_plan d = Some p ->
  if bool_decide (de_outcome d = PlanOutcome.PLAN_FOUND)
  then OnTime q p /\ Tolerable q p else ~ (OnTime q p /\ Tolerable q p).
Proof.
  cbn zeta.
  destruct (plan_result q cs now s) as [d Hn Ho Hp|d Hn Ha Ho Hp|d c p' Hb Hp Ho Hd|d c p' Hn Hb Hp Ho Hd];
    intros Hplan; simplify_eq; rewrite Ho.
  - decide_eqs. destruct Hb as (_ & [_ Hm] & _). by apply (meets_constraints_plan _ _ _ _ _ _ _ Hp).
  - rewrite bool_decide_eq_false_2 by (by destruct (hard_deadline q)).
    rewrite <- (meets_constraints_plan _ _ _ _ _ _ _ Hp). destruct Hb as (Hc & Ha & _).
    intros Hm. by apply (Hn c).
Qed.

Definition late_decision : RecoveryDecision :=
  (plan (cli_request (Some (MkUnit 20))) cli_candidates (MkUnit 0) (cli_world new_planner)).1.

Lemma plan_constraints_witness :
  let p := default default_plan (de_plan late_decision) in
  de_outcome late_decision = PlanOutcome.NO_DEADLINE_FEASIBLE_PLAN /\
  ~ (OnTime (cli_request (Some (MkUnit 20))) p /\ Tolerable (cli_request (Some (MkUnit 20))) p).
Proof.
  split; [vm_compute; reflexivity|].
  apply (plan_constraints (cli_request (Some (MkUnit 20))) cli_candidates (MkUnit 0)
           (cli_world new_planner)).
  vm_compute. reflexivity.
Defined.

(** What planning does to the state: the context and the pending dispatches
    are untouched; a plan is stored under the next id in state [PLANNED], the
    older open plans of its request are superseded and every other plan keeps
    its place; the request is remembered when a plan was found; a decision on a
    non-empty list of candidates adds one line of history. *)
Theorem plan_state_effect {sorter : StdSort} q cs now s :
  let d := (plan q cs now s).1 in
  let s' := (plan q cs now s).2 in
  ctx s' = ctx s /\ dispatch_meta s' = dispatch_meta s /\
  history s' = history s ++ (if bool_decide (cs = []) then [] else [history_entry q d]) /\
  requests s' = (if bool_decide (de_outcome d = PlanOutcome.PLAN_FOUND)
                 then <[value (q_request_id q) := q]> (requests s) else requests s) /\
  match de_plan d with
  | Some p =>
      p_plan_id p = MkId (next_plan_id s) /\ p_state p = PlanLifecycleState.PLANNED /\
      plans s' = <[next_plan_id s := p]>
                   (supersede q (MkId (next_plan_id s)) now <$> plans s) /\
      next_plan_id s' = u64 (next_plan_id s + 1) /\
      next_generation s' = u64 (next_generation s + 1)
  | None =>
      plans s' = plans s /\ next_plan_id s' = next_plan_id s /\
      next_generation s' = next_generation s
  end.
Proof.
  cbn zeta.
  destruct (plan_result q cs now s) as [d Hn Ho Hp|d Hn Ha Ho Hp|d c p' Hb Hp Ho Hd|d c p' Hn Hb Hp Ho Hd];
    rewrite Ho.
  - rewrite Hp, bool_decide_eq_true_2 by done. decide_eqs. by rewrite app_nil_r.
  - rewrite Hp, bool_decide_eq_false_2 by done. by decide_eqs.
  - rewrite Hd. assert (cs <> []) by (destruct Hb as [Hc _]; intros ->; by apply not_elem_of_nil in Hc).
    rewrite bool_decide_eq_false_2 by done. decide_eqs.
    split_and!; try done; [exact (f_equal p_plan_id Hp)|exact (f_equal p_state Hp)|].
    by eapply with_new_plan_plans.
  - rewrite Hd. assert (cs <> []) by (destruct Hb as [Hc _]; intros ->; by apply not_elem_of_nil in Hc).
    rewrite bool_decide_eq_false_2 by done.
    rewrite bool_decide_eq_false_2 by (by destruct (hard_deadline q)).
    split_and!; try done; [exact (f_equal p_plan_id Hp)|exact (f_equal p_state Hp)|].
    by eapply with_new_plan_plans.
Qed.

(** ** The scenarios of the command line tool *)

Definition cli_expected (sc : Scenario) : PlanOutcome.t * option RecoveryStrategy.t :=
  match sc with
  | SRestore => (PlanOutcome.PLAN_FOUND, Some RecoveryStrategy.RESTORE)
  | SRecompute => (PlanOutcome.PLAN_FOUND, Some RecoveryStrategy.RECOMPUTE)
  | SMigrate => (PlanOutcome.PLAN_FOUND, Some RecoveryStrategy.MIGRATE)
  | SRehydrate => (PlanOutcome.PLAN_FOUND, Some RecoveryStrategy.REHYDRATE)
  | SFailover => (PlanOutcome.PLAN_FOUND, Some RecoveryStrategy.FAILOVER)
  | SRestart => (PlanOutcome.PLAN_FOUND, Some RecoveryStrategy.RESTART)
  | SNoValid => (PlanOutcome.NO_VALID_PLAN, None)
  | SShadow | SDeadline | SOther =>
      (PlanOutcome.PLAN_FOUND, Some RecoveryStrategy.SHADOW_PROMOTE)
  end.

Lemma cli_distinct sc : NoDup (identity_of <$> cli_scenario_candidates sc).
Proof.
  assert (identity_of <$> cli_scenario_candidates sc =
    [(11, 11, 0); (12, 12, 1); (13, 13, 2); (14, 14, 3); (15, 15, 4); (16, 16, 5); (17, 17, 6)])
    as -> by (by destruct sc).
  apply (bool_decide_unpack _). vm_compute. exact I.
Qed.

Lemma distinct_nodup cs : NoDup (identity_of <$> cs) -> DistinctIdentities cs /\ NoDup cs.
Proof. intros H. split; [by apply distinct_identities|by eapply NoDup_fmap_1]. Qed.

(** Any two sorts give the same decision. *)
Lemma cli_decision_sort (S1 S2 : StdSort) sc : @cli_decision S1 sc = @cli_decision S2 sc.
Proof.
  unfold cli_decision. destruct (distinct_nodup _ (cli_distinct sc)) as [Hd Hn].
  exact (plan_sort S1 S2 _ _ _ _ Hd Hn).
Qed.

Lemma cli_summary_sort (S1 S2 : StdSort) sc : @cli_summary S1 sc = @cli_summary S2 sc.
Proof. unfold cli_summary. by rewrite (cli_decision_sort S1 S2). Qed.

(** Every named scenario of the command line tool selects the strategy it is named
    after ([SHADOW_PROMOTE] for the baseline and the deadline scenario, no plan for
    [NOVALID]), whichever correct sort ranks the candidates. *)
Theorem cli_scenarios {sorter : StdSort} sc : cli_summary sc = cli_expected sc.
Proof.
  rewrite (cli_summary_sort sorter insertion_std_sort).
  destruct sc; vm_compute; reflexivity.
Qed.
