(* ===== verification/LifecycleProps.v ===== *)
(** * Properties of the plan lifecycle

    Safety of every history of the planner, the exact behaviour of its
    operations, and the behaviours that differ from what the source's comments
    say. *)

From stdpp Require Import base gmap strings list.
From S2P Require Import Prelude Types Evidence Feasibility FeasibilitySpec StdSort Economics.
From S2P Require Import Digest Plan Explain Planner PlannerSpec Lifecycle LifecycleSpec.
From S2P Require Import Executor Cli.
#[local] Open Scope Z_scope.

Import PlanLifecycleState.

(** ** Histories *)

Lemma exec_plan `{sorter : StdSort} n s e k p :
  Invariant n s -> plans s !! k = Some p ->
  exists p', plans (exec e s) !! k = Some p' /\ plan_step p p'.
Proof.
  intros Hinv Hk.
  assert ((forall q cs now, e <> EPlan q cs now) ->
    exists p', plans (exec e s) !! k = Some p' /\ plan_step p p') as Hother.
  { intros He. destruct (lifecycle_step e s He) as (Hst & _). by eapply plans_step_forward. }
  destruct e as [q cs now| | | | | | | | | | |]; try by apply Hother.
  destruct (planning_step q cs now s) as [(Hp & _)|(c & p0 & _ & _ & _ & Hp & _)]; rewrite Hp.
  - exists p. by split; [|constructor].
  - destruct (inv_plans _ _ Hinv _ _ Hk) as [Hkey _ _ _ _].
    rewrite lookup_insert_ne by lia. rewrite lookup_fmap, Hk.
    eexists. split; [done|]. apply supersede_step.
Qed.

(** Stored plans along a history: those not overwritten keep their key. *)
Lemma run_plan `{sorter : StdSort} es n s k p :
  Z.of_nat (n + length es) < 2 ^ 64 - 1 -> Invariant n s -> plans s !! k = Some p ->
  exists p', plans (run es s) !! k = Some p' /\ rtc plan_step p p'.
Proof.
  revert n s p. induction es as [|e es IH]; intros n s p Hn Hinv Hk.
  { exists p. by split; [|apply rtc_refl]. }
  cbn [length] in Hn.
  assert (exists p', plans (exec e s) !! k = Some p' /\ plan_step p p') as (p1 & H1 & Hs).
  { by eapply exec_plan. }
  destruct (IH (S n) (exec e s) p1) as (p' & Hp' & Hr); [lia| |done|].
  - apply invariant_exec; [lia|done].
  - exists p'. split; [done|]. by eapply rtc_l.
Qed.

Lemma rtc_step_fixed p p' : rtc plan_step p p' -> fixed_part p' = fixed_part p.
Proof. induction 1 as [|p p1 p' Hs _ IH]; [done|]. by rewrite IH, (plan_step_fixed _ _ Hs). Qed.

Lemma rtc_step_terminal p p' :
  rtc plan_step p p' -> terminal (p_state p) = true -> untimed p' = untimed p.
Proof.
  induction 1 as [|p p1 p' Hs _ IH]; intros Ht; [done|].
  pose proof (plan_step_terminal _ _ Hs Ht) as Hu.
  rewrite IH; [done|]. by rewrite (f_equal p_state Hu : p_state p1 = p_state p).
Qed.

Lemma rtc_step_states p p' :
  rtc plan_step p p' ->
  rtc (fun st st' => validate_plan_transition st st' = true) (p_state p) (p_state p').
Proof.
  induction 1 as [|p p1 p' Hs _ IH]; [constructor|].
  destruct (plan_step_transition _ _ Hs) as [He|Hv]; [by rewrite <- He|by eapply rtc_l].
Qed.

(** ** A concrete history *)

Definition restore_candidate : RecoveryCandidate :=
  make_candidate RecoveryStrategy.RESTORE 11 (MkUnit 3000) (MkUnit 100) (MkUnit 0) true.

Definition with_request_id (id : Z) (q : RecoveryRequest) : RecoveryRequest :=
  MkRequest (MkId id) (q_workload q) (q_workload_generation q) (q_execution q)
    (q_execution_generation q) (q_failure q) (q_reason q) (q_prior_progress q)
    (q_recovery_deadline q) (q_max_recovery_duration q) (q_max_tolerated_progress_loss q)
    (q_preferred_strategies q) (q_forbidden_strategies q) (q_state_requirements q)
    (q_placement_constraints q) (q_compatibility_requirements q) (q_coordinator_epoch q)
    (q_policy_generation q) (q_topology_generation q) (q_requested_at q) (q_value_priorities q).

(** A handle on plan [k]: only the id of the argument is read. *)
Definition handle (k : Z) : RecoveryPlan :=
  plan_of (cli_request None) inhabitant (MkUnit 0) initial_context k k.

Definition world_events : list Event :=
  [ERegister (MkId 1) (MkId 100); ESetResource "gpu_mem" 10000].
Definition plan_events (id : Z) : list Event :=
  [EPlan (with_request_id id (cli_request None)) [restore_candidate] (MkUnit 0);
   EAuthorize (handle id) (MkUnit 1); EDispatchBegin (handle id) (MkUnit 2)].
Definition success_report (k : Z) : ExecutionReport :=
  MkReport (MkId 1) (MkId k) (MkId k) (MkId 100) ExecutionOutcome.SUCCEEDED (MkUnit 100)
    (MkUnit 7) "done".
Definition demo_events : list Event :=
  world_events ++ plan_events 1 ++ [EReport (success_report 1) (MkUnit 3)].
Definition demo_state : Planner := run demo_events new_planner.

Lemma demo_reachable : Reachable 6 demo_state.
Proof. unfold demo_state. exact (reachable_run demo_events). Qed.

(** In every state reached by fewer than 2^64 - 1 events from a fresh
    planner: a plan is stored under its own id, below the next id; its fence
    repeats its identities; its attempt counter, outcome and publication flag
    agree with its lifecycle state (a published outcome only with [SUCCEEDED] or
    [FAILED], [SUCCEEDED] only when dispatched and published); no request has two
    open plans; and every pending dispatch belongs to a dispatched plan. *)
Theorem reachable_states_sound {sorter : StdSort} n s :
  Z.of_nat n < 2 ^ 64 - 1 -> Reachable n s -> Invariant n s.
Proof. apply reachable_invariant. Qed.

Lemma reachable_states_sound_witness : Invariant 6 demo_state /\ plans demo_state <> ∅.
Proof.
  split; [|by vm_compute].
  apply (reachable_states_sound 6 demo_state); [done|exact demo_reachable].
Defined.

(** C10: Exactly one terminal outcome survives: once a plan is terminal, no
    further history (duplicate or stale completions, cancellation, new plans)
    changes anything in it but its update time. *)
Theorem terminal_outcome_final {sorter : StdSort} n s es k p :
  Reachable n s -> Z.of_nat (n + length es) < 2 ^ 64 - 1 ->
  plans s !! k = Some p -> terminal (p_state p) = true ->
  exists p', plans (run es s) !! k = Some p' /\ untimed p' = untimed p.
Proof.
  intros Hr Hn Hk Ht. destruct (run_plan es n s k p) as (p' & Hp' & Hs); [done| |done|].
  - apply reachable_invariant; [lia|done].
  - exists p'. split; [done|]. by apply rtc_step_terminal.
Qed.

Definition demo_plan : RecoveryPlan := default default_plan (plans demo_state !! 1).

Lemma terminal_outcome_final_witness :
  p_state demo_plan = SUCCEEDED /\
  exists p', plans (run [ECancel (MkId 1) true (MkUnit 9)] demo_state) !! 1 = Some p' /\
             untimed p' = untimed demo_plan.
Proof.
  split; [vm_compute; reflexivity|].
  apply (terminal_outcome_final 6 demo_state [ECancel (MkId 1) true (MkUnit 9)] 1 demo_plan);
    [exact demo_reachable|done|vm_compute; reflexivity|vm_compute; reflexivity].
Defined.

(** C31: Along every history a stored plan is never lost, keeps its identities,
    target, fence, economics and digest, and its state only moves along the
    transitions [validate_plan_transition] allows. *)
Theorem plans_follow_lifecycle {sorter : StdSort} n s es k p :
  Reachable n s -> Z.of_nat (n + length es) < 2 ^ 64 - 1 -> plans s !! k = Some p ->
  exists p', plans (run es s) !! k = Some p' /\ fixed_part p' = fixed_part p /\
    rtc (fun st st' => validate_plan_transition st st' = true) (p_state p) (p_state p').
Proof.
  intros Hr Hn Hk. destruct (run_plan es n s k p) as (p' & Hp' & Hs); [done| |done|].
  - apply reachable_invariant; [lia|done].
  - exists p'. split; [done|]. split; [by apply rtc_step_fixed|by apply rtc_step_states].
Qed.

Lemma plans_follow_lifecycle_witness :
  exists p', plans (run (plan_events 2) demo_state) !! 1 = Some p' /\
    fixed_part p' = fixed_part demo_plan /\
    rtc (fun st st' => validate_plan_transition st st' = true) (p_state demo_plan) (p_state p').
Proof.
  apply (plans_follow_lifecycle 6 demo_state (plan_events 2) 1 demo_plan);
    [exact demo_reachable|done|vm_compute; reflexivity].
Defined.

(** ** Where a success comes from *)

Definition Reports (r : ExecutionReport) (k : Z) (p : RecoveryPlan) : Prop :=
  value (er_plan_id r) = k /\ er_plan_generation r = p_generation p /\
  er_reporter_boot r = p_target_boot p /\ er_outcome r = ExecutionOutcome.SUCCEEDED.

(** An event that brings a plan to [SUCCEEDED] is a report of success. *)
Lemma success_step `{sorter : StdSort} e s k p' :
  plans (exec e s) !! k = Some p' -> p_state p' = SUCCEEDED ->
  (exists p, plans s !! k = Some p /\ p_state p = SUCCEEDED /\ fixed_part p' = fixed_part p) \/
  exists r now, e = EReport r now /\ Reports r k p'.
Proof.
  assert (forall key p0 p1, plans s !! key = Some p0 -> <[key := p1]> (plans s) !! k = Some p' ->
    (p_state p1 = SUCCEEDED -> p_state p0 = SUCCEEDED) -> fixed_part p1 = fixed_part p0 ->
    p_state p' = SUCCEEDED ->
    exists p, plans s !! k = Some p /\ p_state p = SUCCEEDED /\ fixed_part p' = fixed_part p)
    as Hins.
  { intros key p0 p1 H0 [[<- <-]|[_ Hk]]%lookup_insert_Some Hst Hf Hs; [|by exists p'].
    exists p0. auto. }
  intros Hk Hs. destruct e as [q cs now|pl now|pl now|pl st now| |r now|i f now|i now| | | |];
    cbn [exec] in Hk; try (left; by exists p').
  - destruct (planning_step q cs now s) as [(Hp & _)|(c & p0 & _ & _ & Hf & Hp & _)];
      cbn [exec] in Hp; rewrite Hp in Hk; [left; by exists p'|].
    apply lookup_insert_Some in Hk as [[_ <-]|[_ Hk]].
    + destruct (new_plan_invariant _ _ _ _ _ _ _ Hf) as (_ & _ & _ & Hst & _). congruence.
    + apply lookup_fmap_Some in Hk as (p1 & <- & Hk). left. exists p1. split; [done|].
      pose proof (supersede_step q (MkId (next_plan_id s)) now p1) as Hst.
      split; [|by apply plan_step_fixed]. unfold supersede in Hs. by repeat case_match.
  - left. unfold authorize_plan in Hk. repeat case_match; try (by exists p').
    by eapply Hins; [| exact Hk|..].
  - left. unfold dispatch_begin in Hk. repeat case_match; try (by exists p').
    by eapply Hins; [| exact Hk|..].
  - left. unfold dispatch_finish in Hk. repeat case_match; try (by exists p').
    eapply Hins; [done|exact Hk| |apply plan_step_fixed, ps_receipt|done].
    unfold apply_receipt. by repeat case_match.
  - left. unfold take_completion in Hk. repeat case_match; by exists p'.
  - unfold report_execution in Hk. repeat case_match; try (left; by exists p'). bool_simp; id_simp.
    cbn in Hk. apply lookup_insert_Some in Hk as [[<- <-]|[_ Hk]]; [|left; by exists p'].
    right. exists r, now. split; [done|].
    pose proof (ps_report _ (er_outcome r) now ltac:(eassumption)) as Hst.
    destruct (fixed_part_members _ _ (plan_step_fixed _ _ Hst)) as (_ & Eg & _ & Eb & _).
    split; [done|]. split; [congruence|]. split; [congruence|].
    unfold apply_outcome, close_plan in Hs. repeat case_match; cbn in Hs; try done;
      match goal with H : terminal _ = false |- _ => by rewrite Hs in H end.
  - left. unfold cancel_plan in Hk. repeat case_match; try (by exists p').
    by eapply Hins; [| exact Hk|..].
  - left. unfold invalidate_plan in Hk. repeat case_match; try (by exists p').
    by eapply Hins; [| exact Hk|..].
Qed.

(** No silent success: a plan that is [SUCCEEDED] in any history of a fresh
    planner was reported so, by a report of success carrying the plan's own id
    and generation and the boot id of its target. *)
Theorem success_was_reported {sorter : StdSort} es k p :
  plans (run es new_planner) !! k = Some p -> p_state p = SUCCEEDED ->
  exists r now, EReport r now ∈ es /\ Reports r k p.
Proof.
  revert p. induction es as [|e es IH] using rev_ind; intros p Hk Hs; [done|].
  rewrite run_app in Hk.
  destruct (success_step e _ k p Hk Hs) as [(p0 & Hp0 & Hs0 & Hf)|(r & now & -> & Hr)].
  - destruct (IH p0 Hp0 Hs0) as (r & now & Hin & (? & ? & ? & ?)).
    exists r, now. split; [by apply elem_of_app; left|].
    destruct (fixed_part_members _ _ Hf) as (_ & Eg & _ & Eb & _). split_and!; congruence.
  - exists r, now. split; [|done]. apply elem_of_app. right. by apply list_elem_of_singleton.
Qed.

Lemma success_was_reported_witness :
  exists r now, EReport r now ∈ demo_events /\ Reports r 1 demo_plan.
Proof.
  apply (success_was_reported demo_events 1 demo_plan); vm_compute; reflexivity.
Defined.

(** ** The operations, on every branch *)

Lemma authority_reflect p c : reflect (AuthorityCurrent p c) (plan_authority_current p c).
Proof. apply iff_reflect. by rewrite authority_current_spec. Qed.

(** [authorize_plan] succeeds exactly on a stored plan in state [PLANNED] or
    [AUTHORIZED] whose every fence is current and whose target is alive under its
    boot; it then only moves the plan to [AUTHORIZED].  It answers [NOT_FOUND] for
    an unknown id, [STALE_AUTHORITY] when a fence moved (whatever the state),
    [INVALID_INPUT] otherwise, and every refusal leaves the planner unchanged. *)
Theorem authorize_exact pl now s :
  let '(r, s') := authorize_plan pl now s in
  match plans s !! value (p_plan_id pl) with
  | None => error_code r = Some ErrorCode.NOT_FOUND /\ s' = s
  | Some p =>
      (AuthorityCurrent p (ctx s) /\ (p_state p = PLANNED \/ p_state p = AUTHORIZED) /\
         r = Ok (p_set_updated now (p_set_state AUTHORIZED p)) /\
         s' = store_plan (value (p_plan_id pl)) (p_set_updated now (p_set_state AUTHORIZED p)) s) \/
      (~ AuthorityCurrent p (ctx s) /\ error_code r = Some ErrorCode.STALE_AUTHORITY /\ s' = s) \/
      (AuthorityCurrent p (ctx s) /\ p_state p <> PLANNED /\ p_state p <> AUTHORIZED /\
         error_code r = Some ErrorCode.INVALID_INPUT /\ s' = s)
  end.
Proof.
  unfold authorize_plan. destruct (plans s !! _) as [p|]; [|done].
  destruct (authority_reflect p (ctx s)); cbn [negb]; [|right; left; by split].
  destruct (p_state p) eqn:E; cbn; naive_solver.
Qed.

(** [dispatch_plan] hands an executor exactly the plans that are [AUTHORIZED]
    with every fence current and the target alive under its boot: the plan then
    becomes [DISPATCHED] under the next attempt number, the message repeats the
    plan's identities and payload, and the dispatch is remembered.  Otherwise it
    throws ([NOT_FOUND]; [STALE_AUTHORITY] when a fence moved or the plan is
    terminal; [INVALID_INPUT]) and the planner is unchanged. *)
Theorem dispatch_begin_exact pl now s :
  let key := value (p_plan_id pl) in
  let '(r, s') := dispatch_begin pl now s in
  match plans s !! key with
  | None => error_code r = Some ErrorCode.NOT_FOUND /\ s' = s
  | Some p =>
      (AuthorityCurrent p (ctx s) /\ p_state p = AUTHORIZED /\
         r = Ok (dispatch_of (dispatched_plan now p)) /\
         plans s' = <[key := dispatched_plan now p]> (plans s) /\
         dispatch_meta s' =
           <[u64 (value (p_last_attempt p) + 1) :=
               (p_plan_id p, p_generation p, p_target_boot p)]> (dispatch_meta s) /\
         ctx s' = ctx s) \/
      ((~ AuthorityCurrent p (ctx s) \/ terminal (p_state p) = true) /\
         error_code r = Some ErrorCode.STALE_AUTHORITY /\ s' = s) \/
      (AuthorityCurrent p (ctx s) /\ p_state p <> AUTHORIZED /\ terminal (p_state p) = false /\
         error_code r = Some ErrorCode.INVALID_INPUT /\ s' = s)
  end.
Proof.
  cbn zeta. unfold dispatch_begin. destruct (plans s !! _) as [p|]; [|done].
  destruct (authority_reflect p (ctx s)); cbn [negb]; [|right; left; auto].
  destruct (p_state p) eqn:E; cbn; naive_solver.
Qed.

(** [revalidate_plan] returns a stored plan exactly when its authority is
    current and its deadline evaluation is not [VIOLATED]; it never changes the
    planner, and refuses with [NOT_FOUND] or [STALE_AUTHORITY]. *)
Theorem revalidate_exact pl s :
  match plans s !! value (p_plan_id pl) with
  | None => error_code (revalidate_plan pl s) = Some ErrorCode.NOT_FOUND
  | Some p =>
      (AuthorityCurrent p (ctx s) /\ d_outcome (p_deadline p) <> DeadlineOutcome.VIOLATED /\
         revalidate_plan pl s = Ok p) \/
      ((~ AuthorityCurrent p (ctx s) \/ d_outcome (p_deadline p) = DeadlineOutcome.VIOLATED) /\
         error_code (revalidate_plan pl s) = Some ErrorCode.STALE_AUTHORITY)
  end.
Proof.
  unfold revalidate_plan. destruct (plans s !! _) as [p|]; [|done].
  destruct (authority_reflect p (ctx s)); cbn [negb]; [|right; auto].
  case_bool_decide; auto.
Qed.

(** What a report does to an open plan: new state, recorded outcome, published. *)
Definition report_effect (o : ExecutionOutcome.t) (st : PlanLifecycleState.t)
    : option (PlanLifecycleState.t * ExecutionOutcome.t * bool) :=
  match st, o with
  | DISPATCHED, ExecutionOutcome.OTHER _ | EXECUTING, ExecutionOutcome.OTHER _ => None
  | DISPATCHED, ExecutionOutcome.SUCCEEDED | EXECUTING, ExecutionOutcome.SUCCEEDED =>
      Some (SUCCEEDED, ExecutionOutcome.SUCCEEDED, true)
  | DISPATCHED, ExecutionOutcome.FAILED | EXECUTING, ExecutionOutcome.FAILED =>
      Some (FAILED, ExecutionOutcome.FAILED, true)
  | DISPATCHED, _ | EXECUTING, _ => Some (FAILED, o, false)
  | _, _ => None
  end.

(** Execution reports are fenced: a report acts only on the open plan with
    its id, and only when it carries the plan's generation and target boot;
    otherwise the planner is unchanged.  Success and failure are published, every
    other outcome closes the plan as an unpublished failure, and a plan that was
    not dispatched takes no outcome at all. *)
Theorem report_exact r now s :
  let key := value (er_plan_id r) in
  match plans s !! key with
  | Some p =>
      if decide (er_plan_generation r = p_generation p /\ er_reporter_boot r = p_target_boot p /\
                 terminal (p_state p) = false)
      then report_execution r now s =
             store_plan key
               (match report_effect (er_outcome r) (p_state p) with
                | Some (st, o, published) =>
                    p_update st now (p_last_attempt p) o published p
                | None => p_set_updated now p
                end) s
      else report_execution r now s = s
  | None => report_execution r now s = s
  end.
Proof.
  cbn zeta. unfold report_execution. destruct (plans s !! _) as [p|]; [|done].
  destruct (decide _) as [(Hg & Hb & Ht)|Hne].
  - rewrite Hg, Hb, !id_eqb_refl, Ht. cbn [negb]. f_equal.
    unfold apply_outcome, close_plan. destruct (p_state p), (er_outcome r); try done; by rewrite Ht.
  - repeat case_match; try done. bool_simp. id_simp. destruct Hne. auto.
Qed.

(** [cancel_plan] succeeds exactly on a plan that has not been dispatched;
    it records the cancellation and nothing else, a refusal changes nothing, and
    [force] makes no difference (its documentation says it cancels a dispatched
    plan). *)
Theorem cancel_exact id force now s :
  let '(ok, s') := cancel_plan id force now s in
  match plans s !! value id with
  | Some p =>
      if bool_decide (p_state p ∈ [REQUESTED; EVALUATING; PLANNED; AUTHORIZED])
      then ok = true /\
           s' = store_plan (value id)
                  (p_update CANCELLED now (p_last_attempt p) ExecutionOutcome.CANCELLED
                     (p_outcome_published p) p) s
      else ok = false /\ s' = s
  | None => ok = false /\ s' = s
  end.
Proof.
  unfold cancel_plan. destruct (plans s !! _) as [p|]; [|done].
  destruct (p_state p) eqn:E; destruct force, (p_outcome_published p) eqn:Ep; cbn;
    try (split; [done|]); unfold p_set_updated, p_set_outcome, p_set_state; cbn; by rewrite ?Ep.
Qed.

(** C33: Dispatch ids collide.  A dispatch id is the attempt number of its plan,
    and a plan is dispatched at most once, so every dispatch of every reachable
    state has id 1, and beginning it leaves it the only remembered one: while it
    is pending, the metadata of any other plan's pending dispatch is gone. *)
Theorem dispatch_ids_collide {sorter : StdSort} n s pl now d s' :
  Z.of_nat n < 2 ^ 64 - 1 -> Reachable n s -> dispatch_begin pl now s = (Ok d, s') ->
  rd_dispatch_id d = MkId 1 /\
  dispatch_meta s' = {[1 := (rd_plan_id d, rd_plan_generation d, rd_target_boot d)]}.
Proof.
  intros Hn Hr Hd. pose proof (reachable_invariant n s Hn Hr) as Hinv.
  unfold dispatch_begin in Hd. repeat case_match; simplify_eq. bool_simp.
  match goal with H : plans s !! _ = Some ?p |- _ =>
    pose proof (stored_coherent n s Hinv _ _ H) as Hc end.
  unfold coherent in Hc. match goal with H : p_state _ = AUTHORIZED |- _ => rewrite H in Hc end.
  destruct Hc as [Hz _]. cbn [dispatch_of rd_dispatch_id].
  cbn -[u64]. rewrite Hz. change (u64 (0 + 1)) with 1. split; [done|].
  apply map_eq. intros k. destruct (decide (k = 1)) as [->|Hk].
  - by rewrite lookup_insert_eq, lookup_singleton_eq.
  - rewrite lookup_insert_ne, lookup_singleton_ne by done.
    destruct (dispatch_meta s !! k) as [m|] eqn:E; [|done].
    by destruct (inv_meta _ _ Hinv _ _ E).
Qed.

Definition collision_events : list Event :=
  world_events ++ plan_events 1 ++ take 2 (plan_events 2).
Definition collision_state : Planner := run collision_events new_planner.

Lemma collision_reachable : Reachable 7 collision_state.
Proof. unfold collision_state. exact (reachable_run collision_events). Qed.

Definition collision_dispatch : RecoveryDispatch :=
  match (dispatch_begin (handle 2) (MkUnit 4) collision_state).1 with
  | Ok d => d
  | Throw _ => dispatch_of default_plan
  end.

(** Plan 1 is pending under dispatch 1 when plan 2 is dispatched under 1 too. *)
Lemma dispatch_ids_collide_witness :
  dispatch_meta collision_state = {[1 := (MkId 1, MkId 1, MkId 100)]} /\
  rd_plan_id collision_dispatch = MkId 2 /\
  rd_dispatch_id collision_dispatch = MkId 1 /\
  dispatch_meta (dispatch_begin (handle 2) (MkUnit 4) collision_state).2 =
    {[1 := (rd_plan_id collision_dispatch, rd_plan_generation collision_dispatch,
            rd_target_boot collision_dispatch)]}.
Proof.
  split; [vm_compute; reflexivity|]. split; [vm_compute; reflexivity|].
  apply (dispatch_ids_collide 7 collision_state (handle 2) (MkUnit 4) collision_dispatch
           (dispatch_begin (handle 2) (MkUnit 4) collision_state).2);
    [done|exact collision_reachable|vm_compute; reflexivity].
Defined.

(** ** From a decision to its execution *)

(** C34: A freshly made plan can be authorised exactly when the request names the
    current workload generation and the candidate's own target worker is alive
    under the candidate's target boot: [authorize_plan] then returns it as
    [AUTHORIZED], and otherwise throws [STALE_AUTHORITY] and changes nothing.
    Feasibility checks neither for a recomputation, and compares the boot of the
    availability evidence instead for the others. *)
Theorem fresh_plan_authority {sorter : StdSort} q cs now s p now' :
  de_plan (plan q cs now s).1 = Some p ->
  let s1 := (plan q cs now s).2 in
  let authorised :=
    q_workload_generation q = ctx_workload_generation (ctx s) /\
    p_target_worker p ∈ ctx_alive_workers (ctx s) /\
    ctx_worker_boots (ctx s) !! p_target_worker p = Some (p_target_boot p) in
  let '(r, s2) := authorize_plan p now' s1 in
  authorised /\ r = Ok (p_set_updated now' (p_set_state AUTHORIZED p)) /\
    s2 = store_plan (value (p_plan_id p)) (p_set_updated now' (p_set_state AUTHORIZED p)) s1 \/
  ~ authorised /\ error_code r = Some ErrorCode.STALE_AUTHORITY /\ s2 = s1.
Proof.
  intros Hd. cbv zeta. destruct (fresh_plan_stored q cs s p now Hd) as (Hctx & Hk & Hst & Ha).
  unfold authorize_plan. rewrite Hk, Hctx, Hst.
  destruct (authority_reflect p (ctx s)) as [Hc|Hc]; rewrite Ha in Hc; cbn; [left|right];
    by split.
Qed.

(** A recomputation with no target at all: feasible and selected, never authorised. *)
Definition untargeted_recompute : RecoveryCandidate :=
  let c := make_candidate RecoveryStrategy.RECOMPUTE 17 (MkUnit 1200) (MkUnit 100) (MkUnit 0) true in
  MkCandidate (c_candidate_id c) (c_generation c) (c_strategy c) id_null id_null (c_target_engine c)
    (c_target_engine_incarnation c) (c_source_worker c) (c_source_boot c) (c_state_source c)
    (c_state_generation c) (c_checkpoint_source c) (c_checkpoint_generation c) (c_state c)
    (c_compatibility c) None (c_resource c) (c_topology c) (c_transfer c) (c_checkpoint c)
    (c_shadow c) (c_progress c) (c_cost c) (c_authority c) (c_reason_for_existence c)
    (c_capabilities c) (c_required_capabilities c).

Definition recompute_result : RecoveryDecision * Planner :=
  plan (cli_request None) [untargeted_recompute] (MkUnit 0) (cli_world new_planner).
Definition recompute_plan : RecoveryPlan := default default_plan (de_plan recompute_result.1).

Lemma fresh_plan_authority_witness :
  de_outcome recompute_result.1 = PlanOutcome.PLAN_FOUND /\
  error_code (authorize_plan recompute_plan (MkUnit 1) recompute_result.2).1 =
    Some ErrorCode.STALE_AUTHORITY.
Proof.
  split; [vm_compute; reflexivity|].
  unfold recompute_result.
  pose proof (fresh_plan_authority (cli_request None) [untargeted_recompute] (MkUnit 0)
    (cli_world new_planner) recompute_plan (MkUnit 1)) as H.
  cbv zeta in H. destruct (authorize_plan recompute_plan _ _) as [r s2]. cbn [fst].
  destruct H as [[(_ & _ & Hb) _]|(_ & Hr & _)]; [vm_compute; reflexivity| |exact Hr].
  vm_compute in Hb. discriminate.
Defined.

(** Whatever a lawful executor does (any mixture of callbacks and of other
    threads' calls while the planner is unlocked), [dispatch_plan] with it is a
    history of the planner, so every invariant of reachable states holds after
    it. *)
Theorem dispatch_plan_is_history {sorter : StdSort} {E} (X : RecoveryExecutor E)
    (L : LawfulExecutor E X) n s pl now1 now2 e :
  Reachable n s ->
  exists es, (dispatch_plan pl now1 now2 (e, s)).2.2 = run es s /\
    Reachable (n + length es) (dispatch_plan pl now1 now2 (e, s)).2.2.
Proof.
  intros Hr. destruct (dispatch_plan_events X L pl now1 now2 e s) as [es Hes].
  exists es. split; [done|]. rewrite Hes. by apply reachable_from.
Qed.

Definition authorized_events : list Event := world_events ++ take 2 (plan_events 1).
Definition authorized_state : Planner := run authorized_events new_planner.

Lemma authorized_reachable : Reachable 4 authorized_state.
Proof. unfold authorized_state. exact (reachable_run authorized_events). Qed.

Lemma dispatch_plan_is_history_witness :
  let X := make_reference_executor (Some (report_to_planner (MkUnit 3))) (MkUnit 3) in
  exists es,
    (dispatch_plan (executor := X) (handle 1) (MkUnit 2) (MkUnit 4)
       (new_executor, authorized_state)).2.2 = run es authorized_state /\
    Reachable (4 + length es)
      (dispatch_plan (executor := X) (handle 1) (MkUnit 2) (MkUnit 4)
         (new_executor, authorized_state)).2.2.
Proof.
  apply (dispatch_plan_is_history
           (make_reference_executor (Some (report_to_planner (MkUnit 3))) (MkUnit 3)) _ 4
           authorized_state (handle 1) (MkUnit 2) (MkUnit 4) new_executor).
  exact authorized_reachable.
Defined.

(** State and publication a reported outcome leads a dispatched plan to. *)
Definition outcome_state (o : ExecutionOutcome.t) : PlanLifecycleState.t :=
  match o with
  | ExecutionOutcome.SUCCEEDED => SUCCEEDED
  | ExecutionOutcome.OTHER _ => EXECUTING
  | _ => FAILED
  end.
Definition outcome_published (o : ExecutionOutcome.t) : bool :=
  match o with
  | ExecutionOutcome.SUCCEEDED | ExecutionOutcome.FAILED => true
  | _ => false
  end.

(** Dispatching an authorised, current plan through the reference executor
    returns the plan closed by the outcome registered for it (success by
    default): [SUCCEEDED] and published for success, [FAILED] and published for
    failure, [FAILED] and unpublished for an ambiguous, unknown or cancelled
    execution; the stored plan is the one returned. *)
Theorem reference_dispatch_closes_plan pl now1 now2 now3 now4 e s p :
  plans s !! value (p_plan_id pl) = Some p ->
  p_plan_id p = p_plan_id pl -> AuthorityCurrent p (ctx s) -> p_state p = AUTHORIZED ->
  p_outcome_published p = false ->
  let o := (outcome_for e (value (p_plan_id pl))).1.1.1 in
  let '(r, (_, s')) :=
    dispatch_plan (executor := make_reference_executor (Some (report_to_planner now4)) now3)
      pl now1 now2 (e, s) in
  exists p', r = Ok p' /\ plans s' !! value (p_plan_id pl) = Some p' /\
    fixed_part p' = fixed_part p /\ p_state p' = outcome_state o /\
    p_outcome_published p' = outcome_published o.
Proof.
  intros Hp Hid Ha Hst Hpub. cbn zeta.
  pose proof (reference_dispatch_completes pl now1 now2 now3 now4 e s p Hp
                (f_equal value Hid) (proj2 (authority_current_spec _ _) Ha) Hst) as Hx.
  rewrite Hid in Hx. destruct Hx as [Hr Hs].
  destruct (dispatch_plan _ _ _ _) as [r [e' s']]. cbn [fst snd] in Hr, Hs.
  eexists. split; [exact Hr|]. split; [exact Hs|]. clear Hr Hs.
  destruct (outcome_for e (value (p_plan_id pl))) as [[[o rec] el] detail]. cbn [fst].
  destruct p; cbn in *; subst. by destruct o.
Qed.

Lemma reference_dispatch_closes_plan_witness :
  let '(r, (_, s')) :=
    dispatch_plan
      (executor := make_reference_executor (Some (report_to_planner (MkUnit 4))) (MkUnit 3))
      (handle 1) (MkUnit 1) (MkUnit 2) (new_executor, authorized_state) in
  exists p', r = Ok p' /\ plans s' !! 1 = Some p' /\
    fixed_part p' = fixed_part (default default_plan (plans authorized_state !! 1)) /\
    p_state p' = SUCCEEDED /\ p_outcome_published p' = true.
Proof.
  apply (reference_dispatch_closes_plan (handle 1) (MkUnit 1) (MkUnit 2) (MkUnit 3) (MkUnit 4)
           new_executor authorized_state (default default_plan (plans authorized_state !! 1)));
    [vm_compute; reflexivity|vm_compute; reflexivity| |vm_compute; reflexivity
    |vm_compute; reflexivity].
  apply authority_current_spec. vm_compute. reflexivity.
Defined.

(** C12: Planning leads to recovery: when a decision has a plan for a live target
    of the request's workload generation, authorising it and dispatching it
    through the reference executor, with no outcome registered against it,
    returns the plan [SUCCEEDED] and published. *)
Theorem planned_recovery_succeeds {sorter : StdSort} q cs s p t0 t1 t2 t3 t4 t5 :
  let s1 := (plan q cs t0 s).2 in
  de_plan (plan q cs t0 s).1 = Some p ->
  q_workload_generation q = ctx_workload_generation (ctx s) ->
  p_target_worker p ∈ ctx_alive_workers (ctx s) ->
  ctx_worker_boots (ctx s) !! p_target_worker p = Some (p_target_boot p) ->
  exists p2 p3 e s3,
    (authorize_plan p t1 s1).1 = Ok p2 /\
    dispatch_plan (executor := make_reference_executor (Some (report_to_planner t4)) t3)
      p2 t2 t5 (new_executor, (authorize_plan p t1 s1).2) = (Ok p3, (e, s3)) /\
    p_state p3 = SUCCEEDED /\ p_execution_outcome p3 = ExecutionOutcome.SUCCEEDED /\
    p_outcome_published p3 = true.
Proof.
  cbn zeta. intros Hd Hw Halive Hboot.
  destruct (fresh_plan_ready q cs s p t0 t1 Hd Hw Halive Hboot) as (Ha & Hk & Hau).
  set (s1 := (plan q cs t0 s).2) in *. clearbody s1.
  rewrite Hau. cbn [fst snd].
  set (p2 := p_set_updated t1 (p_set_state AUTHORIZED p)).
  set (s2 := store_plan (value (p_plan_id p)) p2 s1).
  pose proof (reference_dispatch_completes p2 t2 t5 t3 t4 new_executor s2 p2) as Hx.
  destruct Hx as [Hr _]; [apply lookup_insert_eq|done| |done|].
  { apply authority_current_spec. by destruct Ha; split. }
  exists p2. destruct (dispatch_plan _ _ _ _) as [r [e3 s3]]. cbn [fst] in Hr. subst r.
  do 3 eexists. split; [done|]. split; [done|]. by split_and!.
Qed.

Definition found_plan : RecoveryPlan :=
  default default_plan
    (de_plan (plan (cli_request None) [restore_candidate] (MkUnit 0) (cli_world new_planner)).1).

Lemma planned_recovery_succeeds_witness :
  exists p2 p3 e s3,
    (authorize_plan found_plan (MkUnit 1)
       (plan (cli_request None) [restore_candidate] (MkUnit 0) (cli_world new_planner)).2).1 =
      Ok p2 /\
    dispatch_plan
      (executor := make_reference_executor (Some (report_to_planner (MkUnit 4))) (MkUnit 3))
      p2 (MkUnit 2) (MkUnit 5)
      (new_executor,
       (authorize_plan found_plan (MkUnit 1)
          (plan (cli_request None) [restore_candidate] (MkUnit 0) (cli_world new_planner)).2).2) =
      (Ok p3, (e, s3)) /\
    p_state p3 = SUCCEEDED /\ p_execution_outcome p3 = ExecutionOutcome.SUCCEEDED /\
    p_outcome_published p3 = true.
Proof.
  apply (planned_recovery_succeeds (cli_request None) [restore_candidate] (cli_world new_planner)
           found_plan (MkUnit 0) (MkUnit 1) (MkUnit 2) (MkUnit 3) (MkUnit 4) (MkUnit 5)).
  - vm_compute. reflexivity.
  - vm_compute. reflexivity.
  - apply (bool_decide_unpack _). vm_compute. exact I.
  - vm_compute. reflexivity.
Defined.
