(* ===== verification/Snapshot.v ===== *)
(** * The planner's durable snapshot

    Models [Impl::encode_snapshot] and [Impl::apply_snapshot] of
    [src/planner.cpp].  Maps are written in key order, as [std::map] iterates.
    [apply_snapshot] assigns members while it reads, so a rejected snapshot can
    leave a partly assigned state: the model returns that state too. *)

From stdpp Require Import base gmap strings list.
From S2P Require Import Prelude Types Evidence StdSort Economics Digest Plan Planner.
#[local] Open Scope Z_scope.
#[local] Open Scope rp_scope.
#[local] Open Scope reader_scope.

Definition kPersistenceFormatVersion : Z := 1.

(** ** Encoding *)

(** The entries of a [std::map] in iteration order. *)
Definition entries {A} (m : gmap Z A) : list (Z * A) :=
  insertion_sort (fun a b => a.1 <? b.1) (map_to_list m).

(** [plans()]: copies of the stored plans, in iteration order. *)
Definition all_plans (s : Planner) : list RecoveryPlan := snd <$> entries (plans s).

Definition worker_entries (m : gmap WorkerId WorkerBootId) : list (WorkerId * WorkerBootId) :=
  insertion_sort (fun a b => id_ltb a.1 b.1) (map_to_list m).

(** [w.u32(size)] then the loop over the elements. *)
Definition w_list {A} (f : A -> list Z -> list Z) (l : list A) (buf : list Z) : list Z :=
  foldl (fun b x => f x b) (w_u32 (u32 (Z.of_nat (length l))) buf) l.

(** [w.u8(o ? 1 : 0); if (o) ...] *)
Definition w_option {A} (f : A -> list Z -> list Z) (o : option A) (buf : list Z) : list Z :=
  match o with
  | Some a => f a (w_u8 1 buf)
  | None => w_u8 0 buf
  end.

Definition w_id {tag} (i : Id tag) : list Z -> list Z := w_u64 (value i).
Definition w_time {tag} (u : Unit tag) : list Z -> list Z := w_i64 (count u).
Definition w_count {tag} (u : Unit tag) : list Z -> list Z := w_u64 (count u).
Definition w_strategy (s : RecoveryStrategy.t) : list Z -> list Z :=
  w_u8 (u8 (RecoveryStrategy.code s)).

Definition encode_worker (kv : WorkerId * WorkerBootId) : list Z -> list Z :=
  w_id kv.1 >>> w_id kv.2.

Definition encode_request (r : RecoveryRequest) : list Z -> list Z :=
  w_id (q_request_id r) >>> w_id (q_workload r) >>> w_id (q_workload_generation r) >>>
  w_id (q_execution r) >>> w_id (q_execution_generation r) >>> w_id (q_failure r) >>>
  w_cstring (q_reason r) >>>
  w_option w_time (q_recovery_deadline r) >>>
  w_option w_time (q_max_recovery_duration r) >>>
  w_option w_count (q_max_tolerated_progress_loss r) >>>
  w_list w_strategy (q_preferred_strategies r) >>>
  w_list w_strategy (q_forbidden_strategies r) >>>
  w_id (q_coordinator_epoch r) >>> w_id (q_policy_generation r) >>>
  w_id (q_topology_generation r) >>> w_time (q_requested_at r) >>>
  w_list w_cstring (q_state_requirements r) >>>
  w_list w_cstring (q_placement_constraints r) >>>
  w_list w_cstring (q_compatibility_requirements r).

Definition encode_authority (a : PlanAuthority) : list Z -> list Z :=
  w_id (pa_coordinator_epoch a) >>> w_id (pa_planner_boot a) >>> w_id (pa_request_id a) >>>
  w_id (pa_plan_generation a) >>> w_id (pa_candidate_generation a) >>>
  w_id (pa_target_boot a) >>> w_id (pa_engine_incarnation a) >>>
  w_id (pa_state_generation a) >>> w_id (pa_compatibility_generation a) >>>
  w_id (pa_resource_generation a) >>> w_id (pa_policy_generation a) >>>
  w_id (pa_topology_generation a) >>> w_id (pa_workload_generation a).

Definition encode_plan (p : RecoveryPlan) : list Z -> list Z :=
  w_id (p_plan_id p) >>> w_id (p_generation p) >>> w_id (p_request_id p) >>>
  w_id (p_workload p) >>> w_strategy (p_strategy p) >>> w_id (p_candidate_id p) >>>
  w_id (p_candidate_generation p) >>> w_id (p_target_worker p) >>> w_id (p_target_boot p) >>>
  w_id (p_target_engine p) >>> w_id (p_engine_incarnation p) >>> w_id (p_state_source p) >>>
  w_id (p_state_generation p) >>> w_id (p_checkpoint_source p) >>>
  encode_authority (p_authority p) >>>
  w_u8 (u8 (PlanLifecycleState.code (p_state p))) >>>
  w_u8 (u8 (ExecutionOutcome.code (p_execution_outcome p))) >>>
  w_u8 (if p_outcome_published p then 1 else 0) >>>
  w_time (p_created_at p) >>> w_time (p_updated_at p) >>> w_id (p_last_attempt p) >>>
  w_cstring (p_dispatch_payload p) >>> w_cstring (p_decision_digest p).

Definition encode_header (c : PlannerContext) : list Z -> list Z :=
  w_u32 kPersistenceFormatVersion >>> w_id (ctx_epoch c) >>> w_id (ctx_planner_boot c) >>>
  w_id (ctx_workload_generation c) >>> w_id (ctx_policy_generation c) >>>
  w_id (ctx_compatibility_generation c) >>> w_id (ctx_resource_generation c) >>>
  w_id (ctx_topology_generation c).

Definition encode_snapshot (s : Planner) : list Z :=
  (encode_header (ctx s) >>>
   w_list encode_worker (worker_entries (ctx_worker_boots (ctx s))) >>>
   w_list (fun kv => encode_request kv.2) (entries (requests s)) >>>
   w_list (fun kv => encode_plan kv.2) (entries (plans s)) >>>
   w_list w_cstring (history s)) [].

(** ** Decoding *)

(** [for (i = 0; i < n; ++i) push_back(read)] *)
Fixpoint r_repeat {A} (n : nat) (m : Reader A) : Reader (list A) :=
  match n with
  | O => r_ret []
  | S n' => let* x := m in let* l := r_repeat n' m in r_ret (x :: l)
  end.

Definition r_list {A} (m : Reader A) : Reader (list A) :=
  let* n := r_u32 in r_repeat (Z.to_nat n) m.

(** [if (r.u8()) o = ...] *)
Definition r_option {A} (m : Reader A) : Reader (option A) :=
  let* b := r_u8 in
  if b =? 0 then r_ret None else let* x := m in r_ret (Some x).

Definition r_id {tag} : Reader (Id tag) := let* v := r_u64 in r_ret (MkId v).
Definition r_time {tag} : Reader (Unit tag) := let* v := r_i64 in r_ret (MkUnit v).
Definition r_count {tag} : Reader (Unit tag) := let* v := r_u64 in r_ret (MkUnit v).
Definition r_strategy : Reader RecoveryStrategy.t :=
  let* c := r_u8 in r_ret (RecoveryStrategy.of_code c).
Definition r_bool : Reader bool := let* b := r_u8 in r_ret (negb (b =? 0)).

Definition decode_worker : Reader (WorkerId * WorkerBootId) :=
  let* w := r_id in let* b := r_id in r_ret (w, b).

Definition decode_request : Reader RecoveryRequest :=
  let* request_id := r_id in
  let* workload := r_id in
  let* workload_generation := r_id in
  let* execution := r_id in
  let* execution_generation := r_id in
  let* failure := r_id in
  let* reason := r_cstring in
  let* deadline := r_option r_time in
  let* duration := r_option r_time in
  let* loss := r_option r_count in
  let* preferred := r_list r_strategy in
  let* forbidden := r_list r_strategy in
  let* epoch := r_id in
  let* policy := r_id in
  let* topology := r_id in
  let* requested_at := r_time in
  let* state_requirements := r_list r_cstring in
  let* placement := r_list r_cstring in
  let* compatibility := r_list r_cstring in
  r_ret (MkRequest request_id workload workload_generation execution execution_generation failure
           reason default_progress deadline duration loss preferred forbidden state_requirements
           placement compatibility epoch policy topology requested_at []).

Definition decode_authority : Reader PlanAuthority :=
  let* epoch := r_id in
  let* boot := r_id in
  let* request_id := r_id in
  let* plan_generation := r_id in
  let* candidate_generation := r_id in
  let* target_boot := r_id in
  let* engine := r_id in
  let* state := r_id in
  let* compatibility := r_id in
  let* resource := r_id in
  let* policy := r_id in
  let* topology := r_id in
  let* workload := r_id in
  r_ret (MkAuthority epoch boot request_id plan_generation candidate_generation target_boot engine
           state compatibility resource policy topology workload).

(** Economics, deadline and explanation are not stored: they come back as the
    default-initialised members of the [RecoveryPlan] being filled. *)
Definition decode_plan : Reader RecoveryPlan :=
  let* plan_id := r_id in
  let* generation := r_id in
  let* request_id := r_id in
  let* workload := r_id in
  let* strategy := r_strategy in
  let* candidate_id := r_id in
  let* candidate_generation := r_id in
  let* target_worker := r_id in
  let* target_boot := r_id in
  let* target_engine := r_id in
  let* engine_incarnation := r_id in
  let* state_source := r_id in
  let* state_generation := r_id in
  let* checkpoint_source := r_id in
  let* authority := decode_authority in
  let* state := r_u8 in
  let* outcome := r_u8 in
  let* published := r_bool in
  let* created_at := r_time in
  let* updated_at := r_time in
  let* last_attempt := r_id in
  let* payload := r_cstring in
  let* digest := r_cstring in
  r_ret (MkPlan plan_id generation request_id workload strategy candidate_id candidate_generation
           target_worker target_boot target_engine engine_incarnation state_source
           state_generation checkpoint_source authority (PlanLifecycleState.of_code state)
           default_economics default_deadline default_explanation payload created_at updated_at
           last_attempt (ExecutionOutcome.of_code outcome) published digest).

(** The loop that fills a map, leaving at the first failed element: the map
    filled so far, and whether every element was read. *)
Fixpoint r_fill {A} (n : nat) (m : Reader A) (key : A -> Z) (acc : gmap Z A)
    : Reader (bool * gmap Z A) :=
  match n with
  | O => r_ret (true, acc)
  | S n' => fun r =>
      let '(x, r') := m r in
      if negb (r_ok r') then ((false, acc), r')
      else r_fill n' m key (<[key x := x]> acc) r'
  end.

(** Assignments to the context's authority members. *)
Definition ctx_set_authority (epoch : CoordinatorEpoch) (boot : PlannerBootId)
    (c : PlannerContext) : PlannerContext :=
  MkContext epoch boot (ctx_workload_generation c) (ctx_policy_generation c)
    (ctx_compatibility_generation c) (ctx_resource_generation c) (ctx_topology_generation c)
    (ctx_worker_boots c) (ctx_alive_workers c) (ctx_resource_available c)
    (ctx_compatibility_table c) (ctx_recompute_lineage_available c)
    (ctx_original_inputs_available c).
Definition ctx_set_generations (w : WorkloadGeneration) (p : PolicyGeneration)
    (co : CompatibilityGeneration) (rs : ResourceGeneration) (tp : TopologyGeneration)
    (c : PlannerContext) : PlannerContext :=
  MkContext (ctx_epoch c) (ctx_planner_boot c) w p co rs tp (ctx_worker_boots c)
    (ctx_alive_workers c) (ctx_resource_available c) (ctx_compatibility_table c)
    (ctx_recompute_lineage_available c) (ctx_original_inputs_available c).

Definition apply_snapshot (bytes : list Z) (preserve_epoch_boot : bool) (s : Planner)
    : bool * Planner :=
  let '(ver, r) := r_u32 (reader bytes) in
  if negb (ver =? kPersistenceFormatVersion) || negb (r_ok r) then (false, s) else
  let '(epoch, r) := r_id r in
  let '(boot, r) := r_id r in
  let s := if preserve_epoch_boot then s
           else set_ctx (ctx_set_authority epoch boot (ctx s)) s in
  let '(w, r) := r_id r in
  let '(p, r) := r_id r in
  let '(co, r) := r_id r in
  let '(rs, r) := r_id r in
  let '(tp, r) := r_id r in
  let s := set_ctx (ctx_set_generations w p co rs tp (ctx s)) s in
  if negb (r_ok r) then (false, s) else
  let '(workers, r) := r_list decode_worker r in
  let s := set_ctx (ctx_set_world (foldl (fun m kv => <[kv.1 := kv.2]> m) ∅ workers) ∅ (ctx s)) s in
  let '(rcount, r) := r_u32 r in
  let '((rok, rm), r) :=
    r_fill (Z.to_nat rcount) decode_request (fun q => value (q_request_id q)) ∅ r in
  let s := set_requests rm s in
  if negb rok then (false, s) else
  let '(pcount, r) := r_u32 r in
  let '((pok, pm), r) := r_fill (Z.to_nat pcount) decode_plan (fun p => value (p_plan_id p)) ∅ r in
  let s := set_plans pm s in
  if negb pok then (false, s) else
  let '(h, r) := r_list r_cstring r in
  let s := set_history h s in
  (r_ok r, s).
