(* ===== verification/SnapshotSpec.v ===== *)
(** * The snapshot round trip

    A snapshot read back gives the persisted part of the state: what
    [apply_snapshot] restores of what [encode_snapshot] wrote, for every state
    whose values the format can hold ([Storable]).  [round_trip f m v] says that
    the reader [m] returns [v] on exactly the bytes that the writer [f] appends;
    it composes along the statements of a writer. *)

From stdpp Require Import base gmap strings list sorting.
From S2P Require Import Prelude Types Evidence StdSort Economics Digest DigestSpec Plan Planner.
From S2P Require Import Snapshot.
#[local] Open Scope Z_scope.
#[local] Open Scope rp_scope.
#[local] Open Scope reader_scope.

(** ** Writers and readers in correspondence *)

Definition round_trip {A} (f : list Z -> list Z) (m : Reader A) (v : A) : Prop :=
  exists bs, (forall buf, f buf = buf ++ bs) /\ reads m bs v.

Lemma rt_bind {A B} f g (m : Reader A) (k : A -> Reader B) v w :
  round_trip f m v -> round_trip g (k v) w -> round_trip (f >>> g) (r_bind m k) w.
Proof.
  intros (b1 & Hf & Hm) (b2 & Hg & Hk). exists (b1 ++ b2). split.
  - intros buf. unfold andthen. by rewrite Hf, Hg, app_assoc.
  - by eapply reads_bind.
Qed.

Lemma rt_last {A B} f (m : Reader A) (k : A -> Reader B) v w :
  round_trip f m v -> k v = r_ret w -> round_trip f (r_bind m k) w.
Proof.
  intros (bs & Hf & Hm) Hk. exists bs. split; [done|].
  rewrite <- (app_nil_r bs). eapply reads_bind; [done|]. rewrite Hk. apply reads_ret.
Qed.

Lemma rt_u8 v : round_trip (w_u8 v) r_u8 v.
Proof. exists [v]. split; [done|apply reads_u8]. Qed.

Lemma rt_u32 v : is_u 32 v -> round_trip (w_u32 v) r_u32 v.
Proof. intros Hv. exists (be_bytes 4 v). split; [done|by apply reads_u32]. Qed.

Lemma rt_u64 v : is_u 64 v -> round_trip (w_u64 v) r_u64 v.
Proof. intros Hv. exists (be_bytes 8 v). split; [done|by apply reads_u64]. Qed.

Lemma rt_i64 v : is_i64 v -> round_trip (w_i64 v) r_i64 v.
Proof. intros Hv. exists (be_bytes 8 (u64 v)). split; [done|by apply reads_i64]. Qed.

Lemma rt_cstring s : storable s -> round_trip (w_cstring s) r_cstring s.
Proof.
  intros Hs. exists (until_nul (string_bytes s) ++ [0]). split; [done|by apply reads_storable].
Qed.

Lemma rt_id {tag} (i : Id tag) : id_wf i -> round_trip (w_id i) r_id i.
Proof. intros Hi. destruct i as [v]. eapply rt_last; [by apply rt_u64|done]. Qed.

Lemma rt_time {tag} (u : Unit tag) : is_i64 (count u) -> round_trip (w_time u) r_time u.
Proof. intros Hu. destruct u as [v]. eapply rt_last; [by apply rt_i64|done]. Qed.

Lemma rt_count {tag} (u : Unit tag) : is_u 64 (count u) -> round_trip (w_count u) r_count u.
Proof. intros Hu. destruct u as [v]. eapply rt_last; [by apply rt_u64|done]. Qed.

Lemma rt_strategy s : RecoveryStrategy.code s < 256 -> round_trip (w_strategy s) r_strategy s.
Proof.
  intros Hs. eapply rt_last; [apply rt_u8|].
  pose proof (RecoveryStrategy.code_nonneg s).
  unfold u8. rewrite wrap_u_id by (unfold is_u; lia).
  by rewrite RecoveryStrategy.strategy_of_code_code.
Qed.

Lemma rt_bool (b : bool) : round_trip (w_u8 (if b then 1 else 0)) r_bool b.
Proof. eapply rt_last; [apply rt_u8|]. by destruct b. Qed.

Lemma rt_option {A} f (m : Reader A) (o : option A) :
  (forall a, o = Some a -> round_trip (f a) m a) -> round_trip (w_option f o) (r_option m) o.
Proof.
  intros Ha. destruct o as [a|].
  - change (w_option f (Some a)) with (w_u8 1 >>> f a).
    eapply rt_bind; [apply rt_u8|]. cbn. eapply rt_last; [by apply Ha|done].
  - change (w_option f None) with (w_u8 0). eapply rt_last; [apply rt_u8|done].
Qed.

(** A loop of writes, and the loop that reads the elements back; the elements
    read are images of those written. *)
Lemma rt_repeat {A B} (f : A -> list Z -> list Z) (m : Reader B) (g : A -> B) l :
  Forall (fun x => round_trip (f x) m (g x)) l ->
  round_trip (fun buf => foldl (fun b x => f x b) buf l) (r_repeat (length l) m) (g <$> l).
Proof.
  induction 1 as [|x l Hx Hl IH]; cbn [foldl length r_repeat fmap list_fmap].
  - exists []. split; [intros buf; by rewrite app_nil_r|apply reads_ret].
  - change (round_trip (f x >>> (fun buf => foldl (fun b y => f y b) buf l))
              (let* x' := m in let* l' := r_repeat (length l) m in r_ret (x' :: l'))
              (g x :: (g <$> l))).
    eapply rt_bind; [exact Hx|]. cbn. eapply rt_last; [exact IH|done].
Qed.

Lemma rt_size n : Z.of_nat n < 2 ^ 32 ->
  round_trip (w_u32 (u32 (Z.of_nat n))) r_u32 (Z.of_nat n).
Proof.
  intros Hn. unfold u32. rewrite wrap_u_id by (unfold is_u; lia).
  apply rt_u32. unfold is_u. lia.
Qed.

Lemma rt_list {A B} (f : A -> list Z -> list Z) (m : Reader B) (g : A -> B) l :
  Z.of_nat (length l) < 2 ^ 32 -> Forall (fun x => round_trip (f x) m (g x)) l ->
  round_trip (w_list f l) (r_list m) (g <$> l).
Proof.
  intros Hn Hl.
  change (w_list f l) with
    (w_u32 (u32 (Z.of_nat (length l))) >>> (fun buf => foldl (fun b x => f x b) buf l)).
  eapply rt_bind; [by apply rt_size|]. cbn. rewrite Nat2Z.id. by apply rt_repeat.
Qed.

Lemma rt_list_id {A} (f : A -> list Z -> list Z) (m : Reader A) l :
  Z.of_nat (length l) < 2 ^ 32 -> Forall (fun x => round_trip (f x) m x) l ->
  round_trip (w_list f l) (r_list m) l.
Proof. intros Hn Hl. pose proof (rt_list f m id l Hn Hl) as H. by rewrite list_fmap_id in H. Qed.

#[export] Hint Resolve rt_u8 rt_u32 rt_id rt_time rt_count rt_strategy rt_cstring rt_bool : rp.

(** ** The values the format can hold *)

Definition small {A} (l : list A) : Prop := Z.of_nat (length l) < 2 ^ 32.

Definition on_some {A} (P : A -> Prop) (o : option A) : Prop := forall a, o = Some a -> P a.

Definition strategies_wf (l : list RecoveryStrategy.t) : Prop :=
  small l /\ Forall (fun s => RecoveryStrategy.code s < 256) l.
Definition strings_wf (l : list string) : Prop := small l /\ Forall storable l.

Record RequestStorable (r : RecoveryRequest) : Prop := {
  rs_request_id : id_wf (q_request_id r);
  rs_workload : id_wf (q_workload r);
  rs_workload_generation : id_wf (q_workload_generation r);
  rs_execution : id_wf (q_execution r);
  rs_execution_generation : id_wf (q_execution_generation r);
  rs_failure : id_wf (q_failure r);
  rs_reason : storable (q_reason r);
  rs_deadline : on_some (fun d => is_i64 (count d)) (q_recovery_deadline r);
  rs_duration : on_some (fun d => is_i64 (count d)) (q_max_recovery_duration r);
  rs_loss : on_some (fun u => is_u 64 (count u)) (q_max_tolerated_progress_loss r);
  rs_preferred : strategies_wf (q_preferred_strategies r);
  rs_forbidden : strategies_wf (q_forbidden_strategies r);
  rs_epoch : id_wf (q_coordinator_epoch r);
  rs_policy : id_wf (q_policy_generation r);
  rs_topology : id_wf (q_topology_generation r);
  rs_requested_at : is_i64 (count (q_requested_at r));
  rs_state : strings_wf (q_state_requirements r);
  rs_placement : strings_wf (q_placement_constraints r);
  rs_compatibility : strings_wf (q_compatibility_requirements r) }.

Record AuthorityStorable (a : PlanAuthority) : Prop := {
  as_epoch : id_wf (pa_coordinator_epoch a);
  as_boot : id_wf (pa_planner_boot a);
  as_request : id_wf (pa_request_id a);
  as_plan : id_wf (pa_plan_generation a);
  as_candidate : id_wf (pa_candidate_generation a);
  as_target : id_wf (pa_target_boot a);
  as_engine : id_wf (pa_engine_incarnation a);
  as_state : id_wf (pa_state_generation a);
  as_compatibility : id_wf (pa_compatibility_generation a);
  as_resource : id_wf (pa_resource_generation a);
  as_policy : id_wf (pa_policy_generation a);
  as_topology : id_wf (pa_topology_generation a);
  as_workload : id_wf (pa_workload_generation a) }.

Record PlanStorable (p : RecoveryPlan) : Prop := {
  ps_plan_id : id_wf (p_plan_id p);
  ps_generation : id_wf (p_generation p);
  ps_request : id_wf (p_request_id p);
  ps_workload : id_wf (p_workload p);
  ps_strategy : RecoveryStrategy.code (p_strategy p) < 256;
  ps_candidate : id_wf (p_candidate_id p);
  ps_candidate_generation : id_wf (p_candidate_generation p);
  ps_target_worker : id_wf (p_target_worker p);
  ps_target_boot : id_wf (p_target_boot p);
  ps_target_engine : id_wf (p_target_engine p);
  ps_engine : id_wf (p_engine_incarnation p);
  ps_state_source : id_wf (p_state_source p);
  ps_state_generation : id_wf (p_state_generation p);
  ps_checkpoint : id_wf (p_checkpoint_source p);
  ps_authority : AuthorityStorable (p_authority p);
  ps_state : PlanLifecycleState.code (p_state p) < 256;
  ps_outcome : ExecutionOutcome.code (p_execution_outcome p) < 256;
  ps_created : is_i64 (count (p_created_at p));
  ps_updated : is_i64 (count (p_updated_at p));
  ps_attempt : id_wf (p_last_attempt p);
  ps_payload : storable (p_dispatch_payload p);
  ps_digest : storable (p_decision_digest p) }.

Record ContextStorable (c : PlannerContext) : Prop := {
  cs_epoch : id_wf (ctx_epoch c);
  cs_boot : id_wf (ctx_planner_boot c);
  cs_workload : id_wf (ctx_workload_generation c);
  cs_policy : id_wf (ctx_policy_generation c);
  cs_compatibility : id_wf (ctx_compatibility_generation c);
  cs_resource : id_wf (ctx_resource_generation c);
  cs_topology : id_wf (ctx_topology_generation c);
  cs_workers : map_Forall (fun w b => id_wf w /\ id_wf b) (ctx_worker_boots c);
  cs_worker_count : Z.of_nat (size (ctx_worker_boots c)) < 2 ^ 32 }.

Record Storable (s : Planner) : Prop := {
  st_context : ContextStorable (ctx s);
  st_requests :
    map_Forall (fun k r => k = value (q_request_id r) /\ RequestStorable r) (requests s);
  st_request_count : Z.of_nat (size (requests s)) < 2 ^ 32;
  st_plans : map_Forall (fun k p => k = value (p_plan_id p) /\ PlanStorable p) (plans s);
  st_plan_count : Z.of_nat (size (plans s)) < 2 ^ 32;
  st_history : strings_wf (history s) }.

(** ** What the format keeps of a request and of a plan

    The prior progress and the value priorities of a request, and the economics,
    the deadline evaluation and the explanation of a plan are not written. *)

Definition persisted_request (r : RecoveryRequest) : RecoveryRequest :=
  MkRequest (q_request_id r) (q_workload r) (q_workload_generation r) (q_execution r)
    (q_execution_generation r) (q_failure r) (q_reason r) default_progress
    (q_recovery_deadline r) (q_max_recovery_duration r) (q_max_tolerated_progress_loss r)
    (q_preferred_strategies r) (q_forbidden_strategies r) (q_state_requirements r)
    (q_placement_constraints r) (q_compatibility_requirements r) (q_coordinator_epoch r)
    (q_policy_generation r) (q_topology_generation r) (q_requested_at r) [].

Definition persisted_plan (p : RecoveryPlan) : RecoveryPlan :=
  MkPlan (p_plan_id p) (p_generation p) (p_request_id p) (p_workload p) (p_strategy p)
    (p_candidate_id p) (p_candidate_generation p) (p_target_worker p) (p_target_boot p)
    (p_target_engine p) (p_engine_incarnation p) (p_state_source p) (p_state_generation p)
    (p_checkpoint_source p) (p_authority p) (p_state p) default_economics default_deadline
    default_explanation (p_dispatch_payload p) (p_created_at p) (p_updated_at p)
    (p_last_attempt p) (p_execution_outcome p) (p_outcome_published p) (p_decision_digest p).

(** The next statement of a writer and of its reader. *)
Ltac rt_step :=
  lazymatch goal with
  | |- round_trip (_ >>> _) _ _ => eapply rt_bind; [solve [eauto with rp]|cbn beta]
  end.
Ltac rt_end := eapply rt_last; [solve [eauto with rp]|reflexivity].

Lemma rt_strategies l : strategies_wf l -> round_trip (w_list w_strategy l) (r_list r_strategy) l.
Proof.
  intros [Hn Hl]. apply rt_list_id; [exact Hn|]. eapply Forall_impl; [exact Hl|].
  exact rt_strategy.
Qed.

Lemma rt_strings l : strings_wf l -> round_trip (w_list w_cstring l) (r_list r_cstring) l.
Proof.
  intros [Hn Hl]. apply rt_list_id; [exact Hn|]. eapply Forall_impl; [exact Hl|].
  exact rt_cstring.
Qed.

Lemma rt_option_time {tag} (o : option (Unit tag)) :
  on_some (fun d => is_i64 (count d)) o -> round_trip (w_option w_time o) (r_option r_time) o.
Proof. intros H. apply rt_option. intros a Ha. apply rt_time, H, Ha. Qed.

Lemma rt_option_count {tag} (o : option (Unit tag)) :
  on_some (fun d => is_u 64 (count d)) o -> round_trip (w_option w_count o) (r_option r_count) o.
Proof. intros H. apply rt_option. intros a Ha. apply rt_count, H, Ha. Qed.

#[export] Hint Resolve rt_strategies rt_strings rt_option_time rt_option_count : rp.

Lemma rt_request r :
  RequestStorable r -> round_trip (encode_request r) decode_request (persisted_request r).
Proof.
  intros []. unfold encode_request, decode_request. repeat rt_step. rt_end.
Qed.

Lemma rt_authority a : AuthorityStorable a -> round_trip (encode_authority a) decode_authority a.
Proof.
  intros []. unfold encode_authority, decode_authority. repeat rt_step.
  eapply rt_last; [solve [eauto with rp]|by destruct a].
Qed.

Lemma u8_code z : 0 <= z < 256 -> u8 z = z.
Proof. intros Hz. apply wrap_u_id. exact Hz. Qed.

#[export] Hint Resolve rt_authority : rp.

Lemma rt_plan p : PlanStorable p -> round_trip (encode_plan p) decode_plan (persisted_plan p).
Proof.
  intros []. unfold encode_plan, decode_plan. repeat rt_step.
  eapply rt_last; [solve [eauto with rp]|].
  assert (0 <= PlanLifecycleState.code (p_state p)) by (destruct (p_state p); cbn; lia).
  assert (0 <= ExecutionOutcome.code (p_execution_outcome p))
    by (destruct (p_execution_outcome p); cbn; lia).
  rewrite !u8_code, PlanLifecycleState.state_of_code_code, ExecutionOutcome.outcome_of_code_code
    by lia.
  reflexivity.
Qed.

Lemma rt_worker (kv : WorkerId * WorkerBootId) :
  id_wf kv.1 -> id_wf kv.2 -> round_trip (encode_worker kv) decode_worker kv.
Proof.
  destruct kv as [w b]. cbn. intros Hw Hb. unfold encode_worker, decode_worker.
  rt_step. rt_end.
Qed.

(** ** Entries of a map, and the map rebuilt from them *)

Lemma entries_perm {A} (m : gmap Z A) : entries m ≡ₚ map_to_list m.
Proof. apply insertion_sort_perm. Qed.

Lemma worker_entries_perm m : worker_entries m ≡ₚ map_to_list m.
Proof. apply insertion_sort_perm. Qed.

Section Rebuild.
Context {K V : Type} `{Countable K}.

Definition insert_all (acc : gmap K V) (l : list (K * V)) : gmap K V :=
  foldl (fun m kv => <[kv.1 := kv.2]> m) acc l.

Lemma insert_all_lookup l acc k :
  NoDup l.*1 ->
  insert_all acc l !! k = match (list_to_map l : gmap K V) !! k with
                          | Some v => Some v
                          | None => acc !! k
                          end.
Proof.
  revert acc. induction l as [|[k' v] l IH]; intros acc Hd; cbn in *.
  - by rewrite lookup_empty.
  - apply NoDup_cons in Hd as [Hni Hd]. change (insert_all (<[k' := v]> acc) l !! k = 
      match (<[k' := v]> (list_to_map l : gmap K V)) !! k with Some v => Some v | None => acc !! k end).
    rewrite IH by done. destruct (decide (k = k')) as [->|Hk].
    + rewrite (not_elem_of_list_to_map_1 l k' Hni). by rewrite !lookup_insert_eq.
    + by rewrite !lookup_insert_ne by done.
Qed.

Lemma insert_all_entries (m : gmap K V) l : l ≡ₚ map_to_list m -> insert_all ∅ l = m.
Proof.
  intros Hl. assert (NoDup l.*1) as Hd by (rewrite Hl; apply NoDup_fst_map_to_list).
  apply map_eq. intros k. rewrite insert_all_lookup by done.
  rewrite (list_to_map_proper l (map_to_list m)) by done.
  rewrite list_to_map_to_list. by destruct (m !! k).
Qed.
End Rebuild.

(** ** The loop that fills a map *)

Lemma rt_fill {A B} (f : A -> list Z -> list Z) (m : Reader B) (g : A -> B) key l acc :
  Forall (fun x => round_trip (f x) m (g x)) l ->
  round_trip (fun buf => foldl (fun b x => f x b) buf l) (r_fill (length l) m key acc)
    (true, insert_all acc ((fun x => (key (g x), g x)) <$> l)).
Proof.
  intros Hl. revert acc. induction Hl as [|x l (b1 & Hf & Hm) Hl IH]; intros acc.
  - exists []. split; [intros buf; by rewrite app_nil_r|apply reads_ret].
  - destruct (IH (<[key (g x) := g x]> acc)) as (b2 & Hf2 & Hm2).
    exists (b1 ++ b2). split.
    + intros buf. cbn. by rewrite Hf, Hf2, app_assoc.
    + intros data pos rest Hp Hd. rewrite <- app_assoc in Hd. cbn [length r_fill].
      rewrite (Hm data pos (b2 ++ rest) Hp Hd). cbn [r_ok r_failed negb].
      rewrite (Hm2 data (pos + length b1)%nat rest).
      * by rewrite length_app, Nat.add_assoc.
      * by eapply drop_bound.
      * by eapply drop_more.
Qed.

(** A map of requests or of plans, keyed by identity. *)
Lemma rt_entries {A B} (f : A -> list Z -> list Z) (m : Reader B) (g : A -> B) key
    (P : A -> Prop) (ms : gmap Z A) :
  (forall x, P x -> round_trip (f x) m (g x)) ->
  map_Forall (fun k x => k = key (g x) /\ P x) ms ->
  round_trip (fun buf => foldl (fun b (kv : Z * A) => f kv.2 b) buf (entries ms))
    (r_fill (length (entries ms)) m key ∅) (true, g <$> ms).
Proof.
  intros Hrt Hms.
  assert (Forall (fun kv : Z * A => kv.1 = key (g kv.2) /\ P kv.2) (entries ms)) as HF.
  { rewrite entries_perm. apply Forall_forall. intros [k x] Hkx%elem_of_map_to_list.
    exact (Hms k x Hkx). }
  pose proof (rt_fill (fun kv : Z * A => f kv.2) m (fun kv => g kv.2) key (entries ms) ∅) as H.
  rewrite insert_all_entries with (m := g <$> ms) in H.
  - apply H. eapply Forall_impl; [exact HF|]. cbn. intros kv [_ Hp]. apply Hrt, Hp.
  - rewrite map_to_list_fmap, <- entries_perm. apply reflexive_eq, list_fmap_ext.
    intros i [k x] Hi. eapply Forall_lookup_1 in HF as [Hk _]; [|exact Hi]. cbn in *.
    by rewrite <- Hk.
Qed.

(** ** The state read back *)

(** The state after a successful read of the snapshot of [s] over [s0]. *)
Definition restored (preserve : bool) (s s0 : Planner) : Planner :=
  MkPlanner
    (MkContext (if preserve then ctx_epoch (ctx s0) else ctx_epoch (ctx s))
       (if preserve then ctx_planner_boot (ctx s0) else ctx_planner_boot (ctx s))
       (ctx_workload_generation (ctx s)) (ctx_policy_generation (ctx s))
       (ctx_compatibility_generation (ctx s)) (ctx_resource_generation (ctx s))
       (ctx_topology_generation (ctx s)) (ctx_worker_boots (ctx s)) ∅
       (ctx_resource_available (ctx s0)) (ctx_compatibility_table (ctx s0))
       (ctx_recompute_lineage_available (ctx s0)) (ctx_original_inputs_available (ctx s0)))
    (persisted_plan <$> plans s) (persisted_request <$> requests s) (dispatch_meta s0)
    (history s) (next_plan_id s0) (next_generation s0).

Lemma rt_workers c :
  ContextStorable c ->
  round_trip (w_list encode_worker (worker_entries (ctx_worker_boots c))) (r_list decode_worker)
    (worker_entries (ctx_worker_boots c)).
Proof.
  intros []. apply rt_list_id.
  - by rewrite (Permutation_length (worker_entries_perm _)), length_map_to_list.
  - rewrite worker_entries_perm. apply Forall_forall. intros [w b] Hwb%elem_of_map_to_list.
    destruct (cs_workers0 w b Hwb). by apply rt_worker.
Qed.

Lemma rt_map_size {A} (m : gmap Z A) :
  Z.of_nat (size m) < 2 ^ 32 ->
  round_trip (w_u32 (u32 (Z.of_nat (length (entries m))))) r_u32
    (Z.of_nat (length (entries m))).
Proof.
  intros Hm. apply rt_size. by rewrite (Permutation_length (entries_perm m)), length_map_to_list.
Qed.

(** One read of [apply_snapshot]. *)
Ltac read_step :=
  match goal with
  | Hr : reads ?m ?bs ?v, Ha : at_bytes ?r (?bs ++ _) |- context [?m ?r] =>
      let r' := fresh "r" in let E := fresh "E" in let Ha' := fresh "Ha" in
      destruct (reads_at m bs v r _ Hr Ha) as (r' & E & Ha'); rewrite E; clear E Ha;
      rename Ha' into Ha
  end.

Lemma snapshot_applied s s0 preserve :
  Storable s -> apply_snapshot (encode_snapshot s) preserve s0 = (true, restored preserve s s0).
Proof.
  intros [Hc Hreq Hreqn Hpl Hpln Hh].
  pose proof Hc as [].
  destruct (rt_u32 kPersistenceFormatVersion) as (b0 & F0 & R0);
    [by unfold is_u, kPersistenceFormatVersion; lia|].
  destruct (rt_id (ctx_epoch (ctx s))) as (b1 & F1 & R1); [done|].
  destruct (rt_id (ctx_planner_boot (ctx s))) as (b2 & F2 & R2); [done|].
  destruct (rt_id (ctx_workload_generation (ctx s))) as (b3 & F3 & R3); [done|].
  destruct (rt_id (ctx_policy_generation (ctx s))) as (b4 & F4 & R4); [done|].
  destruct (rt_id (ctx_compatibility_generation (ctx s))) as (b5 & F5 & R5); [done|].
  destruct (rt_id (ctx_resource_generation (ctx s))) as (b6 & F6 & R6); [done|].
  destruct (rt_id (ctx_topology_generation (ctx s))) as (b7 & F7 & R7); [done|].
  destruct (rt_workers (ctx s) Hc) as (b8 & F8 & R8).
  destruct (rt_map_size (requests s) Hreqn) as (b9 & F9 & R9).
  destruct (rt_entries encode_request decode_request persisted_request
              (fun q => value (q_request_id q)) RequestStorable (requests s) rt_request Hreq)
    as (b10 & F10 & R10).
  destruct (rt_map_size (plans s) Hpln) as (b11 & F11 & R11).
  destruct (rt_entries encode_plan decode_plan persisted_plan
              (fun p => value (p_plan_id p)) PlanStorable (plans s) rt_plan Hpl)
    as (b12 & F12 & R12).
  destruct (rt_strings (history s) Hh) as (b13 & F13 & R13).
  assert (encode_snapshot s =
          b0 ++ b1 ++ b2 ++ b3 ++ b4 ++ b5 ++ b6 ++ b7 ++ b8 ++ b9 ++ b10 ++ b11 ++ b12 ++ b13 ++ [])
    as ->.
  { unfold encode_snapshot, encode_header, andthen.
    rewrite F13. unfold w_list in *. rewrite F12, F11, F10, F9, F8, F7, F6, F5, F4, F3, F2, F1, F0.
    rewrite app_nil_r, !app_assoc. reflexivity. }
  pose proof (at_reader (b0 ++ b1 ++ b2 ++ b3 ++ b4 ++ b5 ++ b6 ++ b7 ++ b8 ++ b9 ++ b10 ++ b11 ++
                b12 ++ b13 ++ [])) as Ha.
  unfold apply_snapshot. read_step.
  rewrite (at_ok _ _ Ha). cbn [negb orb Z.eqb kPersistenceFormatVersion Pos.eqb].
  do 7 read_step. rewrite (at_ok _ _ Ha). cbn [negb].
  read_step. read_step. rewrite Nat2Z.id. read_step. cbn [negb].
  read_step. rewrite Nat2Z.id. read_step. cbn [negb]. read_step. rewrite (at_ok _ _ Ha).
  f_equal. change (foldl _ ∅ ?l) with (insert_all ∅ l).
  rewrite (insert_all_entries _ _ (worker_entries_perm _)). by destruct preserve.
Qed.
