(* ===== verification/CrcSpec.v ===== *)
(** * CRC-32C: the table-driven routine and what it detects

    The table-driven loop of [crc32c] runs the bitwise division eight steps at a
    time: [crc_foldl] gives its register after any message as [8 * length] steps
    of [crc_step] on the initial register xored with the message read as one
    little-endian number.  A step is linear and injective on 32-bit registers,
    so a change confined to four consecutive bytes changes the checksum. *)

From stdpp Require Import base strings list.
From S2P Require Import Prelude Digest DigestSpec.
#[local] Open Scope Z_scope.

(** ** One step of the division *)

Lemma crc_step_alt x :
  crc_step x = Z.lxor (if Z.testbit x 0 then crc_poly else 0) (Z.shiftr x 1).
Proof.
  unfold crc_step. change 1 with (Z.ones 1) at 1. rewrite Z.land_ones by lia.
  change (2 ^ 1) with 2. rewrite Zmod_odd, Z.bit0_odd. destruct (Z.odd x); cbn [Z.eqb].
  - done.
  - by rewrite Z.lxor_0_l.
Qed.

Lemma crc_step_lxor x y : crc_step (Z.lxor x y) = Z.lxor (crc_step x) (crc_step y).
Proof.
  rewrite !crc_step_alt, Z.lxor_spec, Z.shiftr_lxor.
  apply Z.bits_inj'. intros i Hi. rewrite !Z.lxor_spec.
  destruct (Z.testbit x 0), (Z.testbit y 0); cbn [xorb]; rewrite ?Z.bits_0;
    destruct (Z.testbit crc_poly i), (Z.testbit (Z.shiftr x 1) i), (Z.testbit (Z.shiftr y 1) i);
    done.
Qed.

(** A register whose low bit is clear is shifted. *)
Lemma crc_step_double y : crc_step (2 * y) = y.
Proof.
  rewrite crc_step_alt, Z.testbit_even_0, Z.lxor_0_l, Z.shiftr_div_pow2 by lia.
  change (2 ^ 1) with 2. rewrite Z.mul_comm. by apply Z.div_mul.
Qed.

Lemma u32_bit_31 x : is_u 32 x -> Z.testbit (Z.shiftr x 1) 31 = false.
Proof.
  intros [Hx0 Hx]. rewrite Z.shiftr_spec by lia. change (31 + 1) with 32.
  destruct (Z.eq_dec x 0) as [->|Hne]; [done|].
  apply Z.bits_above_log2; [lia|]. apply Z.log2_lt_pow2; lia.
Qed.

Lemma shiftr_1_bits x y : Z.testbit x 0 = Z.testbit y 0 -> Z.shiftr x 1 = Z.shiftr y 1 -> x = y.
Proof.
  rewrite <- !Z.div2_spec, !Z.bit0_odd. intros Ho Hd.
  rewrite (Z.div2_odd x), (Z.div2_odd y). congruence.
Qed.

Lemma lxor_cancel_l a x y : Z.lxor a x = Z.lxor a y -> x = y.
Proof.
  intros H. apply (f_equal (Z.lxor a)) in H.
  by rewrite <- !Z.lxor_assoc, Z.lxor_nilpotent, !Z.lxor_0_l in H.
Qed.

Lemma crc_step_inj x y : is_u 32 x -> is_u 32 y -> crc_step x = crc_step y -> x = y.
Proof.
  intros Hx Hy H. rewrite !crc_step_alt in H.
  pose proof (f_equal (fun z => Z.testbit z 31) H) as Hb. cbn beta in Hb.
  rewrite !Z.lxor_spec, !u32_bit_31 in Hb by done.
  destruct (Z.testbit x 0) eqn:Bx, (Z.testbit y 0) eqn:By; cbn in Hb; try done;
    apply lxor_cancel_l in H; by apply shiftr_1_bits; [rewrite Bx, By|].
Qed.

Lemma is_u_bits w x : 0 <= w -> is_u w x <-> 0 <= x /\ Z.shiftr x w = 0.
Proof.
  intros Hw. unfold is_u. rewrite Z.shiftr_div_pow2 by lia.
  assert (0 < 2 ^ w) by (apply Z.pow_pos_nonneg; lia). split.
  - intros Hx. split; [lia|]. by apply Z.div_small.
  - intros [Hx Hd]. split; [lia|]. apply Z.div_small_iff in Hd; lia.
Qed.

Lemma is_u_lxor w x y : 0 <= w -> is_u w x -> is_u w y -> is_u w (Z.lxor x y).
Proof.
  intros Hw. rewrite !is_u_bits by done. intros [Hx Hsx] [Hy Hsy].
  rewrite Z.shiftr_lxor, Hsx, Hsy. split; [|done]. by apply Z.lxor_nonneg.
Qed.

Lemma crc_step_u32 x : is_u 32 x -> is_u 32 (crc_step x).
Proof.
  intros Hx. rewrite crc_step_alt. apply is_u_lxor; [lia| |].
  - destruct (Z.testbit x 0); unfold is_u, crc_poly; lia.
  - unfold is_u in *. rewrite Z.shiftr_div_pow2 by lia. change (2 ^ 1) with 2.
    Z.div_mod_to_equations. lia.
Qed.

(** ** Iterated steps *)

Lemma crc_iter_lxor n x y :
  Nat.iter n crc_step (Z.lxor x y) = Z.lxor (Nat.iter n crc_step x) (Nat.iter n crc_step y).
Proof. induction n as [|n IH]; [done|]. by rewrite !Nat.iter_succ, IH, crc_step_lxor. Qed.

Lemma crc_iter_u32 n x : is_u 32 x -> is_u 32 (Nat.iter n crc_step x).
Proof. intros Hx. induction n as [|n IH]; [done|]. rewrite Nat.iter_succ. by apply crc_step_u32. Qed.

Lemma crc_iter_inj n x y :
  is_u 32 x -> is_u 32 y -> Nat.iter n crc_step x = Nat.iter n crc_step y -> x = y.
Proof.
  intros Hx Hy. induction n as [|n IH]; [done|]. rewrite !Nat.iter_succ. intros H.
  apply IH, crc_step_inj; [by apply crc_iter_u32..|done].
Qed.

(** Eight clear low bits leave in eight steps. *)
Lemma crc_iter_shift y : Nat.iter 8 crc_step (Z.shiftl y 8) = y.
Proof.
  rewrite Z.shiftl_mul_pow2 by lia. rewrite !Nat.iter_succ. change (Nat.iter 0 crc_step ?x) with x.
  replace (y * 2 ^ 8) with (2 * (2 * (2 * (2 * (2 * (2 * (2 * (2 * y)))))))) by lia.
  by rewrite !crc_step_double.
Qed.

(** ** One byte: the table holds eight steps *)

Lemma crc_table_lookup i :
  0 <= i < 256 -> default 0 (crc32c_table !! Z.to_nat i) = Nat.iter 8 crc_step i.
Proof.
  intros Hi. unfold crc32c_table. rewrite list_lookup_fmap, lookup_seq_lt by lia. cbn [fmap option_fmap option_map default].
  by rewrite Nat.add_0_l, Z2Nat.id by lia.
Qed.

Lemma byte_high_bits b : is_byte b -> Z.shiftr b 8 = 0.
Proof. intros Hb. by apply (is_u_bits 8). Qed.

Lemma crc_update_steps crc b :
  is_byte b -> crc_update crc b = Nat.iter 8 crc_step (Z.lxor crc b).
Proof.
  intros Hb. unfold crc_update. set (x := Z.lxor crc b).
  assert (Z.shiftr crc 8 = Z.shiftr x 8) as ->.
  { unfold x. by rewrite Z.shiftr_lxor, (byte_high_bits b), Z.lxor_0_r. }
  rewrite crc_table_lookup by apply land_255_byte.
  rewrite <- (crc_iter_shift (Z.shiftr x 8)), <- crc_iter_lxor. f_equal.
  rewrite <- (shiftr_low_byte x) at 3.
  rewrite <- Z.lxor_lor, Z.lxor_comm; [done|].
  apply Z.bits_inj'. intros i Hi. change 255 with (Z.ones 8).
  rewrite Z.bits_0, !Z.land_spec, Z.shiftl_spec by lia.
  destruct (Z.lt_ge_cases i 8).
  - by rewrite Z.testbit_neg_r by lia.
  - rewrite Z.ones_spec_high by lia. by rewrite !andb_false_r.
Qed.

(** ** Whole messages *)

(** A message as a little-endian number. *)
Fixpoint le_value (l : list Z) : Z :=
  match l with
  | [] => 0
  | b :: l' => Z.lxor b (Z.shiftl (le_value l') 8)
  end.

Lemma nat_iter_add {A} (f : A -> A) m n x :
  Nat.iter (m + n) f x = Nat.iter m f (Nat.iter n f x).
Proof. induction m as [|m IH]; [done|]. cbn [Nat.add]. by rewrite !Nat.iter_succ, IH. Qed.

Lemma crc_foldl l c :
  Forall is_byte l ->
  foldl crc_update c l = Nat.iter (length l * 8) crc_step (Z.lxor c (le_value l)).
Proof.
  intros Hl. revert c. induction Hl as [|b l Hb Hl IH]; intros c; cbn [foldl length le_value].
  - cbn. by rewrite Z.lxor_0_r.
  - rewrite IH, crc_update_steps by done.
    replace (S (length l) * 8)%nat with (length l * 8 + 8)%nat by lia.
    rewrite nat_iter_add. f_equal.
    by rewrite <- (Z.lxor_assoc c b), (crc_iter_lxor 8 (Z.lxor c b)), crc_iter_shift.
Qed.

Lemma le_value_range l :
  Forall is_byte l -> is_u (8 * Z.of_nat (length l)) (le_value l).
Proof.
  induction 1 as [|b l Hb Hl IH]; [unfold is_u; cbn; lia|].
  cbn [le_value length]. replace (8 * Z.of_nat (S (length l))) with (8 * Z.of_nat (length l) + 8) by lia.
  apply is_u_lxor; [lia| |].
  - unfold is_byte, is_u in *. rewrite Z.pow_add_r by lia. nia.
  - unfold is_u in *. rewrite Z.shiftl_mul_pow2, Z.pow_add_r by lia. lia.
Qed.

Lemma le_value_inj l l' :
  Forall is_byte l -> Forall is_byte l' -> length l = length l' ->
  le_value l = le_value l' -> l = l'.
Proof.
  intros Hl. revert l'. induction Hl as [|b l Hb Hl IH]; intros l' Hl' Hlen Hv.
  - by destruct l'.
  - destruct Hl' as [|b' l' Hb' Hl']; [done|]. cbn [le_value length] in *.
    assert (le_value l = le_value l') as Hv'.
    { apply (f_equal (fun z => Z.shiftr z 8)) in Hv.
      rewrite !Z.shiftr_lxor, (byte_high_bits b), (byte_high_bits b'), !Z.lxor_0_l,
        !Z.shiftr_shiftl_l, !Z.shiftl_0_r in Hv by (done || lia). exact Hv. }
    rewrite Hv' in Hv. rewrite !(Z.lxor_comm _ (Z.shiftl _ _)) in Hv.
    apply lxor_cancel_l in Hv as ->. f_equal. apply IH; [done|lia|done].
Qed.

(** The register is injective in the initial value, and in any window of at
    most four bytes. *)
Lemma crc_foldl_inj l c c' :
  Forall is_byte l -> is_u 32 c -> is_u 32 c' ->
  foldl crc_update c l = foldl crc_update c' l -> c = c'.
Proof.
  intros Hl Hc Hc'. rewrite !crc_foldl by done. rewrite !crc_iter_lxor.
  rewrite !(Z.lxor_comm _ (Nat.iter _ _ (le_value l))). intros H.
  apply lxor_cancel_l in H. by eapply crc_iter_inj.
Qed.

Lemma crc_foldl_u32 l c : Forall is_byte l -> is_u 32 c -> is_u 32 (foldl crc_update c l).
Proof.
  intros Hl. revert c. induction Hl as [|b l Hb Hl IH]; intros c Hc; cbn [foldl]; [done|].
  apply IH. rewrite crc_update_steps by done. apply crc_iter_u32, is_u_lxor; [lia|done|].
  unfold is_byte, is_u in *. lia.
Qed.

Lemma crc_window_inj d d' c :
  Forall is_byte d -> Forall is_byte d' -> is_u 32 c ->
  length d = length d' -> (length d <= 4)%nat ->
  foldl crc_update c d = foldl crc_update c d' -> d = d'.
Proof.
  intros Hd Hd' Hc Hlen Hle H.
  assert (forall l, Forall is_byte l -> (length l <= 4)%nat -> is_u 32 (Z.lxor c (le_value l)))
    as Hw.
  { intros l Hl Hn. apply is_u_lxor; [lia|done|].
    pose proof (le_value_range l Hl) as Hr. unfold is_u in *.
    pose proof (Z.pow_le_mono_r 2 (8 * Z.of_nat (length l)) 32). lia. }
  rewrite !crc_foldl, <- Hlen in H by done.
  apply crc_iter_inj in H; [|by apply Hw|apply Hw; [done|lia]].
  apply lxor_cancel_l in H. by apply le_value_inj.
Qed.

Lemma u32_not_range z : is_u 32 z -> is_u 32 (u32_not z).
Proof. intros Hz. apply is_u_lxor; [lia|done|]. unfold is_u. lia. Qed.

Lemma u32_not_inj x y : u32_not x = u32_not y -> x = y.
Proof. unfold u32_not. rewrite !(Z.lxor_comm _ 4294967295). apply lxor_cancel_l. Qed.

Lemma crc32c_u32 data seed : Forall is_byte data -> is_u 32 seed -> is_u 32 (crc32c data seed).
Proof. intros Hd Hs. apply u32_not_range, crc_foldl_u32; [done|by apply u32_not_range]. Qed.

Lemma crc32c_window pre d d' post seed :
  Forall is_byte (pre ++ d ++ post) -> Forall is_byte d' -> is_u 32 seed ->
  length d = length d' -> (length d <= 4)%nat ->
  crc32c (pre ++ d ++ post) seed = crc32c (pre ++ d' ++ post) seed -> d = d'.
Proof.
  rewrite !Forall_app. intros (Hpre & Hd & Hpost) Hd' Hs Hlen Hle H.
  assert (is_u 32 (foldl crc_update (u32_not seed) pre)) as Hc
    by (apply crc_foldl_u32; [done|by apply u32_not_range]).
  unfold crc32c in H. apply u32_not_inj in H. rewrite !foldl_app in H.
  apply crc_foldl_inj in H; [|done|by apply crc_foldl_u32..].
  by eapply crc_window_inj.
Qed.
