(* ===== verification/Persistence.v ===== *)
(** * The persistence stores, and the planner's use of one

    Models [persistence.hpp], [src/persistence.cpp] and the methods of
    [src/planner.cpp] that use the store.  [PersistenceStore] is the interface;
    [memory_store] keeps blobs in a map, [file_store] frames them in the files of
    one directory.  What the operating system may do to a call is an argument
    ([SaveFaults]); [file_save_ops] lists the changes of the
    directory one by one, for a process that stops in between. *)

From Stdlib Require Import Ascii String.
From stdpp Require Import base gmap strings list.
From S2P Require Import Prelude Types Evidence StdSort Digest Plan Planner Snapshot.
#[local] Open Scope Z_scope.
#[local] Open Scope rp_scope.

(** ** The interface *)

Class PersistenceStore (St : Type) := {
  store_save : string -> list Z -> St -> Result RecoveryError unit * St;
  store_load : string -> St -> option (list Z) }.

(** What the planner needs of a store: a successful save is what a load returns. *)
Class LawfulStore (St : Type) `{PersistenceStore St} : Prop :=
  store_load_save key bytes st st' :
    Forall is_byte bytes -> store_save key bytes st = (Ok tt, st') -> store_load key st' = Some bytes.

(** ** The store in memory *)

Record MemoryStore := MkMemory { data_ : gmap string (list Z) }.

Definition memory_save (key : string) (bytes : list Z) (m : MemoryStore)
    : Result RecoveryError unit * MemoryStore := (Ok tt, MkMemory (<[key := bytes]> (data_ m))).
Definition memory_load (key : string) (m : MemoryStore) : option (list Z) := data_ m !! key.

#[export] Instance memory_store : PersistenceStore MemoryStore :=
  {| store_save := memory_save; store_load := memory_load |}.

(** ** Frames *)

Definition kPersistenceMagic : Z := 21072.
Definition kMaxPayload : Z := 256 * 1024 * 1024.

(** [for (b : bytes) w.u8(b)] *)
Definition w_each (bytes : list Z) (buf : list Z) : list Z :=
  foldl (fun buf b => w_u8 b buf) buf bytes.

Definition encode_frame (bytes : list Z) : list Z :=
  (w_u32 kPersistenceMagic >>> w_u32 kPersistenceFormatVersion >>>
   w_u32 (u32 (Z.of_nat (length bytes))) >>> w_each bytes >>> w_u32 (crc32c bytes 0)) [].

Definition decode_frame (raw : list Z) : option (list Z) :=
  if Z.of_nat (length raw) <? 16 then None else
  let '(magic, r) := r_u32 (reader raw) in
  let '(ver, r) := r_u32 r in
  let '(len, r) := r_u32 r in
  if negb (r_ok r) || negb (magic =? kPersistenceMagic) then None else
  if negb (ver =? kPersistenceFormatVersion) then None else
  if kMaxPayload <? len then None else
  if negb (has (u32 (len + 4)) r) then None else
  match r_take len r with
  | (None, _) => None
  | (Some payload, r) =>
      let '(stored_crc, r) := r_u32 r in
      if negb (r_ok r) then None else
      if negb (remaining r =? 0) then None else
      if negb (crc32c payload 0 =? stored_crc) then None else Some payload
  end.

(** ** The store in files *)

Definition in_range (lo hi c : ascii) : bool :=
  (N_of_ascii lo <=? N_of_ascii c)%N && (N_of_ascii c <=? N_of_ascii hi)%N.

Definition sanitize_char (c : ascii) : ascii :=
  if in_range "a" "z" c || in_range "A" "Z" c || in_range "0" "9" c ||
     bool_decide (c = "-"%char) || bool_decide (c = "_"%char) || bool_decide (c = "."%char)
  then c else "_"%char.

Definition sanitize_key (k : string) : string :=
  let out := string_of_list_ascii (sanitize_char <$> list_ascii_of_string k) in
  if bool_decide (out = "") then "state" else out.

(** The files of the store's directory, by name. *)
Abbreviation Directory := (gmap string (list Z)).

Definition file_path (key : string) : string := sanitize_key key +:+ ".rpp".
Definition tmp_path (key : string) : string := file_path key +:+ ".tmp".

(** How the calls of one [save] end: whether the temporary file opens, how many
    of the bytes handed to the stream reach it, whether the stream reports a
    failed write, whether the old file is removed, whether the rename succeeds
    and the text of its error. *)
Record SaveFaults := MkSaveFaults {
  sf_open : bool;
  sf_written : nat -> nat;
  sf_write : bool;
  sf_remove : bool;
  sf_rename : bool;
  sf_message : string }.

Definition no_fault : SaveFaults := MkSaveFaults true id true true true "".

Definition rename_file (from to : string) (d : Directory) : Directory :=
  match d !! from with
  | Some raw => <[to := raw]> (delete from d)
  | None => d
  end.

Definition file_save (f : SaveFaults) (key : string) (bytes : list Z) (d : Directory)
    : Result RecoveryError unit * Directory :=
  if kMaxPayload <? Z.of_nat (length bytes)
  then (throw ErrorCode.RESOURCE_EXHAUSTION "persistence payload exceeds maximum size", d)
  else
  let raw := encode_frame bytes in
  if negb (sf_open f)
  then (throw ErrorCode.PERSISTENCE_CORRUPTION "cannot open temp file for write", d)
  else
  let d := <[tmp_path key := take (sf_written f (length raw)) raw]> d in
  if negb (sf_write f)
  then (throw ErrorCode.PERSISTENCE_CORRUPTION "failed to write temp persistence frame", d)
  else
  let d := when (sf_remove f) (delete (file_path key)) d in
  if sf_rename f then (Ok tt, rename_file (tmp_path key) (file_path key) d)
  else (throw ErrorCode.PERSISTENCE_CORRUPTION
          ("failed to commit persistence frame: " +:+ sf_message f), d).

(** Whether the file opens for reading. *)
Definition file_load (readable : bool) (key : string) (d : Directory) : option (list Z) :=
  match d !! file_path key with
  | None => None
  | Some raw => if negb readable then None else decode_frame raw
  end.

(** The directory after each change a fault-free [save] makes, in order: the
    temporary file created empty, written, the old file removed, the temporary
    file renamed. *)
Definition file_save_ops (key : string) (bytes : list Z) : list (Directory -> Directory) :=
  [ <[tmp_path key := []]>; <[tmp_path key := encode_frame bytes]>;
    delete (file_path key); rename_file (tmp_path key) (file_path key) ].

(** The directory left by a process that stops after [n] of the changes. *)
Definition file_save_crash (n : nat) (key : string) (bytes : list Z) (d : Directory) : Directory :=
  foldl (fun d op => op d) d (take n (file_save_ops key bytes)).

(** A file store whose calls do not fail. *)
#[export] Instance file_store : PersistenceStore Directory :=
  {| store_save := file_save no_fault; store_load := file_load true |}.

(** ** The planner's use of its store *)

Definition state_key : string := "planner_state".

Section WithStore.
Context {St : Type} `{PersistenceStore St}.

(** [store_] may be null: [None].  A [save] that throws leaves the method. *)
Definition save_locked (store : option St) (s : Planner)
    : Result RecoveryError unit * option St :=
  match store with
  | None => (Ok tt, None)
  | Some st => let '(r, st') := store_save state_key (encode_snapshot s) st in (r, Some st')
  end.

Definition load_locked (store : option St) (s : Planner) : Planner :=
  match store with
  | None => s
  | Some st =>
      match store_load state_key st with
      | None => s
      | Some blob => (apply_snapshot blob false s).2
      end
  end.

Definition save_state (store : option St) (s : Planner)
    : Result RecoveryError bool * option St :=
  match store with
  | None => (Ok false, store)
  | Some _ =>
      match save_locked store s with
      | (Ok _, store') => (Ok true, store')
      | (Throw e, store') => (Throw e, store')
      end
  end.

Definition load_state (store : option St) (s : Planner) : bool * Planner :=
  match store with
  | None => (false, s)
  | Some _ => (true, load_locked store s)
  end.

(** ** Coordinator restart *)

Definition advance_authority (c : PlannerContext) : PlannerContext :=
  ctx_set_authority (next (ctx_epoch c)) (next (ctx_planner_boot c)) c.

(** Dynamic evidence is cleared. *)
Definition clear_dynamic (c : PlannerContext) : PlannerContext :=
  MkContext (ctx_epoch c) (ctx_planner_boot c) (ctx_workload_generation c)
    (ctx_policy_generation c) (ctx_compatibility_generation c) (ctx_resource_generation c)
    (ctx_topology_generation c) (ctx_worker_boots c) ∅ ∅ (ctx_compatibility_table c) ∅ ∅.

(** [now k] is the clock reading made for the plan under key [k]. *)
Definition invalidate_unfinished (now : Z -> Timestamp) (ps : gmap Z RecoveryPlan)
    : gmap Z RecoveryPlan :=
  map_imap (fun k p =>
    Some (if terminal (p_state p) then p
          else p_set_updated (now k) (p_set_state PlanLifecycleState.INVALIDATED p))) ps.

Definition restart_message (c : PlannerContext) : string :=
  "coordinator restart; epoch=" +:+ to_dec (value (ctx_epoch c)) +:+
  " boot=" +:+ to_dec (value (ctx_planner_boot c)).

Definition restart_coordinator (now : Z -> Timestamp) (store : option St) (s : Planner)
    : Result RecoveryError unit * option St * Planner :=
  match save_locked store s with
  | (Throw e, store') => (Throw e, store', s)
  | (Ok _, store') =>
      let s := set_ctx (clear_dynamic (advance_authority (ctx s))) s in
      let s := match store' with
               | None => s
               | Some st =>
                   match store_load state_key st with
                   | None => s
                   | Some blob => (apply_snapshot blob true s).2
                   end
               end in
      let s := set_plans (invalidate_unfinished now (plans s)) s in
      (Ok tt, store', set_history (history s ++ [restart_message (ctx s)]) s)
  end.
End WithStore.
