(* ===== verification/PersistenceSpec.v ===== *)
(** * What the stores promise

    Frames decode to the payload they were made from and nothing else decodes
    ([decode_frame_iff]); the laws of the two stores; the directory a crash or a
    failed call can leave; and the effect of a coordinator restart. *)

From stdpp Require Import base gmap strings list.
From S2P Require Import Prelude Types Evidence StdSort Economics Digest DigestSpec CrcSpec.
From S2P Require Import Codec Plan.
From S2P Require Import Planner Lifecycle Snapshot SnapshotSpec Persistence.
#[local] Open Scope Z_scope.
#[local] Open Scope rp_scope.

(** ** Frames *)

Definition frame_header (n : Z) : list Z :=
  be_bytes 4 kPersistenceMagic ++ be_bytes 4 kPersistenceFormatVersion ++ be_bytes 4 n.

Lemma w_each_app bytes buf : w_each bytes buf = buf ++ bytes.
Proof.
  unfold w_each, w_u8. revert buf. induction bytes as [|b l IH]; intros buf; cbn.
  - by rewrite app_nil_r.
  - by rewrite IH, <- app_assoc.
Qed.

(** A payload a frame can hold. *)
Definition payload_wf (p : list Z) : Prop :=
  Forall is_byte p /\ Z.of_nat (length p) <= kMaxPayload.

Lemma payload_length p : payload_wf p -> u32 (Z.of_nat (length p)) = Z.of_nat (length p).
Proof.
  intros [_ Hp]. apply wrap_u_id. unfold is_u, kMaxPayload in *. lia.
Qed.

Lemma encode_frame_eq p :
  payload_wf p ->
  encode_frame p = frame_header (Z.of_nat (length p)) ++ p ++ be_bytes 4 (crc32c p 0).
Proof.
  intros Hp. unfold encode_frame, frame_header, andthen, w_u32. rewrite w_each_app.
  rewrite payload_length by done. cbn [app]. by rewrite <- !app_assoc.
Qed.

Lemma length_frame_header n : length (frame_header n) = 12%nat.
Proof. done. Qed.

Lemma length_encode_frame p : payload_wf p -> length (encode_frame p) = (length p + 16)%nat.
Proof.
  intros Hp. rewrite encode_frame_eq by done.
  rewrite !length_app, length_frame_header, length_be_bytes. lia.
Qed.

Lemma u32_seed : is_u 32 0.
Proof. unfold is_u. lia. Qed.

Lemma frame_round_trip p : payload_wf p -> decode_frame (encode_frame p) = Some p.
Proof.
  intros Hp. pose proof Hp as [Hb Hn]. unfold decode_frame.
  rewrite length_encode_frame by done.
  destruct (Z.ltb_spec (Z.of_nat (length p + 16)) 16) as [Hlt|_]; [lia|].
  rewrite encode_frame_eq by done. unfold frame_header. rewrite <- !app_assoc.
  assert (0 <= Z.of_nat (length p) < 2 ^ 32) as Hlen by (unfold kMaxPayload in Hn; lia).
  pose proof (reads_u32 kPersistenceMagic ltac:(unfold kPersistenceMagic; lia)) as R1.
  pose proof (reads_u32 kPersistenceFormatVersion
                ltac:(unfold kPersistenceFormatVersion; lia)) as R2.
  pose proof (reads_u32 (Z.of_nat (length p)) Hlen) as R3.
  pose proof (reads_take p) as R4.
  pose proof (reads_u32 (crc32c p 0) (crc32c_u32 p 0 Hb u32_seed)) as R5.
  set (tail := be_bytes 4 (crc32c p 0)) in *. rewrite <- (app_nil_r tail).
  match goal with |- context [reader ?l] => pose proof (at_reader l) as Ha end.
  do 3 read_step. rewrite (at_ok _ _ Ha), !Z.eqb_refl. cbn [negb orb].
  destruct (Z.ltb_spec kMaxPayload (Z.of_nat (length p))) as [Hlt|_]; [lia|].
  match goal with Ha : at_bytes ?r _ |- context [has ?n ?r] => assert (has n r = true) as -> end.
  { destruct Ha as (Hf & Hp' & Hd). unfold has. rewrite Hf. cbn [negb andb].
    apply Z.leb_le. apply (f_equal length) in Hd. unfold remaining, tail in *.
    rewrite length_drop, !length_app, length_be_bytes in Hd.
    unfold u32. rewrite wrap_u_id by (unfold is_u, kMaxPayload in *; lia).
    cbn [length] in Hd. lia. }
  cbn [negb]. read_step. read_step. rewrite (at_ok _ _ Ha). cbn [negb].
  destruct Ha as (_ & Hp' & Hd). unfold remaining.
  apply (f_equal length) in Hd. rewrite length_drop in Hd. cbn [length] in Hd.
  destruct (Z.eqb_spec (Z.of_nat (length (r_data r3)) - Z.of_nat (r_pos r3)) 0) as [_|Hne]; [|lia].
  by rewrite Z.eqb_refl.
Qed.

(** What a successful decode has seen. *)
Lemma decode_frame_canonical raw p :
  Forall is_byte raw -> decode_frame raw = Some p -> payload_wf p /\ raw = encode_frame p.
Proof.
  intros Hraw H. unfold decode_frame in H. destruct (_ <? 16); [done|].
  destruct (r_u32 (reader raw)) as [magic r1] eqn:E1.
  destruct (r_u32 r1) as [ver r2] eqn:E2.
  destruct (r_u32 r2) as [len r3] eqn:E3.
  destruct (negb (r_ok r3)) eqn:O3; [done|].
  destruct (negb (magic =? kPersistenceMagic)) eqn:Em; [done|]. cbn [orb] in H.
  destruct (negb (ver =? kPersistenceFormatVersion)) eqn:Ev; [done|].
  destruct (kMaxPayload <? len) eqn:El; [done|].
  destruct (negb (has _ r3)); [done|].
  destruct (r_take len r3) as [[payload|] r4] eqn:E4; [|done].
  destruct (r_u32 r4) as [crc r5] eqn:E5.
  destruct (negb (r_ok r5)) eqn:O5; [done|].
  destruct (negb (remaining r5 =? 0)) eqn:Er; [done|].
  destruct (negb (crc32c payload 0 =? crc)) eqn:Ec; [done|]. simplify_eq. bool_simp. subst.
  assert (r_ok r2 = true) as O2 by exact (u32_ok_before _ _ _ E3 O3).
  assert (r_ok r1 = true) as O1 by exact (u32_ok_before _ _ _ E2 O2).
  assert (Forall is_byte (r_data (reader raw))) as Hd by exact Hraw.
  destruct (u32_consumed (reader raw) raw _ _ Hd (at_reader raw) E1 O1) as (t1 & B1 & A1 & _ & D1).
  rewrite <- D1 in Hd.
  destruct (u32_consumed r1 t1 _ _ Hd A1 E2 O2) as (t2 & B2 & A2 & _ & D2). rewrite <- D2 in Hd.
  destruct (u32_consumed r2 t2 _ _ Hd A2 E3 O3) as (t3 & B3 & A3 & Hlen & D3). rewrite <- D3 in Hd.
  destruct (take_consumed len r3 t3 _ _ A3 (proj1 Hlen) E4) as (t4 & B4 & A4 & Hpl & D4).
  assert (Forall is_byte p) as Hb.
  { pose proof (at_byte_forall r3 t3 Hd A3) as Hb. rewrite B4 in Hb.
    by apply Forall_app in Hb as [Hb _]. }
  rewrite <- D4 in Hd.
  destruct (u32_consumed r4 t4 _ _ Hd A4 E5 O5) as (t5 & B5 & A5 & _ & D5).
  assert (t5 = []) as ->.
  { destruct A5 as (_ & Hp & <-). clear B5. unfold remaining in Er. apply drop_ge. lia. }
  assert (payload_wf p) as Hwf by (split; [done|lia]).
  split; [done|]. rewrite encode_frame_eq, Hpl, B1, B2, B3, B4, B5, app_nil_r by done.
  unfold frame_header. by rewrite <- !app_assoc.
Qed.

Lemma encode_frame_bytes p : payload_wf p -> Forall is_byte (encode_frame p).
Proof.
  intros Hp. rewrite encode_frame_eq by done. unfold frame_header.
  repeat apply Forall_app_2; apply be_bytes_byte || apply Hp.
Qed.

Lemma be_bytes_4_inj v v' :
  is_u 32 v -> is_u 32 v' -> be_bytes 4 v = be_bytes 4 v' -> v = v'.
Proof.
  intros Hv Hv' H. rewrite <- (be_value_bytes 32 4 v), <- (be_value_bytes 32 4 v') by (done || lia).
  by rewrite H.
Qed.

Lemma insert_same_lookup {A} (l : list A) i b :
  (i < length l)%nat -> <[i := b]> l = l -> l !! i = Some b.
Proof. intros Hi H. rewrite <- H at 1. by apply list_lookup_insert_eq. Qed.

(** Changing one byte of a payload changes its checksum. *)
Lemma crc_insert p j b :
  Forall is_byte p -> is_byte b -> (j < length p)%nat ->
  crc32c (<[j := b]> p) 0 = crc32c p 0 -> p !! j = Some b.
Proof.
  intros Hp Hb Hj H. destruct (lookup_lt_is_Some_2 p j Hj) as [x Hx].
  pose proof (take_drop_middle p j x Hx) as Hs.
  assert (<[j := b]> p = take j p ++ [b] ++ drop (S j) p) as Hi
    by (by rewrite insert_take_drop by done).
  rewrite Hi in H. rewrite <- Hs in Hp. rewrite <- Hs in H at 3.
  symmetry in H. apply (crc32c_window _ [x] [b]) in H; [congruence|done| |exact u32_seed|done|cbn; lia].
  by constructor.
Qed.

Lemma frame_byte_detected p i b :
  payload_wf p -> is_byte b -> (i < length (encode_frame p))%nat ->
  encode_frame p !! i <> Some b -> decode_frame (<[i := b]> (encode_frame p)) = None.
Proof.
  intros Hp Hb Hi Hne.
  destruct (decode_frame _) as [p'|] eqn:E; [exfalso|done].
  apply decode_frame_canonical in E as [Hp' E].
  2:{ apply Forall_insert; [by apply encode_frame_bytes|done]. }
  pose proof (f_equal length E) as Hl. rewrite length_insert, !length_encode_frame in Hl by done.
  assert (length p = length p') as Hlen by lia.
  rewrite length_encode_frame in Hi by done.
  rewrite !encode_frame_eq, <- Hlen in * by done.
  set (h := frame_header (Z.of_nat (length p))) in *.
  assert (length h = 12%nat) as Hh by done.
  destruct (decide (i < 12)%nat) as [H1|H1].
  { rewrite insert_app_l in E by lia. apply app_inj_1 in E as [E _]; [|by rewrite length_insert].
    apply Hne. rewrite lookup_app_l by lia. apply insert_same_lookup; [lia|done]. }
  rewrite insert_app_r_alt in E by lia. apply app_inj_1 in E as [_ E]; [|done].
  rewrite lookup_app_r in Hne by lia. rewrite Hh in *. set (j := (i - 12)%nat) in *.
  destruct (decide (j < length p)%nat) as [H2|H2].
  - rewrite insert_app_l in E by done.
    apply app_inj_1 in E as [E Ec]; [|by rewrite length_insert].
    apply be_bytes_4_inj in Ec; [|by apply crc32c_u32; [apply Hp|exact u32_seed]..|idtac].
    + apply Hne. rewrite lookup_app_l by done. apply crc_insert; [apply Hp|done|done|].
      by rewrite E.
    + apply crc32c_u32; [apply Hp'|exact u32_seed].
  - rewrite insert_app_r_alt in E by lia. apply app_inj_1 in E as [<- E]; [|done].
    apply Hne. rewrite lookup_app_r by lia. apply insert_same_lookup; [|done].
    rewrite length_be_bytes. lia.
Qed.

(** A file that holds a proper prefix of a frame. *)
Lemma frame_prefix_rejected p n :
  payload_wf p -> (n < length (encode_frame p))%nat ->
  decode_frame (take n (encode_frame p)) = None.
Proof.
  intros Hp Hn. destruct (decode_frame _) as [p'|] eqn:E; [exfalso|done].
  pose proof E as E'. unfold decode_frame in E'. rewrite length_take in E'.
  destruct (Z.ltb_spec (Z.of_nat (n `min` length (encode_frame p))) 16) as [|Hn16]; [done|].
  apply decode_frame_canonical in E as [Hp' E]; [|by apply Forall_take, encode_frame_bytes].
  pose proof (f_equal length E) as Hl. rewrite length_take, length_encode_frame in Hl by done.
  rewrite length_encode_frame in * by done.
  apply (f_equal (take 12)) in E. rewrite take_take in E.
  replace (12 `min` n)%nat with 12%nat in E by lia.
  rewrite !encode_frame_eq, !take_app_length' in E by done.
  unfold frame_header in E. do 2 apply app_inv_head in E.
  apply be_bytes_4_inj in E; unfold payload_wf, is_u, kMaxPayload in *; lia.
Qed.

#[export] Instance frame_format : Codec payload_wf encode_frame decode_frame :=
  {| codec_bytes := encode_frame_bytes;
     codec_complete := frame_round_trip;
     codec_sound := decode_frame_canonical |}.

(** ** The laws of the stores *)

#[export] Instance memory_store_lawful : LawfulStore MemoryStore.
Proof. intros key bytes st st' _ H. cbn in *. injection H as <-. apply lookup_insert_eq. Qed.

(** The last characters of a file name tell frames from temporary files. *)
Lemma app_suffix_inj (s t x y : string) :
  String.length x = String.length y -> s +:+ x = t +:+ y -> s = t /\ x = y.
Proof.
  intros Hl. revert t. induction s as [|c s IH]; intros [|c' t] H.
  - done.
  - exfalso. apply (f_equal String.length) in H. rewrite !length_string_app in H. cbn in H. lia.
  - exfalso. apply (f_equal String.length) in H. rewrite !length_string_app in H. cbn in H. lia.
  - injection H as -> H. apply IH in H as [-> ->]. done.
Qed.

Lemma tmp_path_not_frame k k' : tmp_path k <> file_path k'.
Proof.
  unfold tmp_path, file_path. intros H. apply app_suffix_inj in H as [_ H]; done.
Qed.

Lemma file_path_inj k k' : file_path k = file_path k' -> sanitize_key k = sanitize_key k'.
Proof. unfold file_path. intros H. by apply app_suffix_inj in H as [H _]. Qed.

Lemma decode_no_bytes : decode_frame [] = None.
Proof. done. Qed.

(** What a [save] that returns has stored. *)
Lemma file_save_ok f key bytes d d' :
  Forall is_byte bytes -> file_save f key bytes d = (Ok tt, d') ->
  payload_wf bytes /\
  file_load true key d' =
    decode_frame (take (sf_written f (length (encode_frame bytes))) (encode_frame bytes)).
Proof.
  intros Hb H. unfold file_save in H.
  destruct (Z.ltb_spec kMaxPayload (Z.of_nat (length bytes))) as [|Hle]; [done|].
  destruct (sf_open f); cbn [negb] in H; [|done].
  destruct (sf_write f); cbn [negb] in H; [|done].
  destruct (sf_rename f); [|done]. injection H as <-. split; [done|].
  unfold file_load, rename_file.
  assert (forall x, when (sf_remove f) (delete (file_path key)) (<[tmp_path key := x]> d)
            !! tmp_path key = Some x) as ->.
  { intros x. unfold when. destruct (sf_remove f);
      rewrite ?lookup_delete_ne by apply not_eq_sym, tmp_path_not_frame; apply lookup_insert_eq. }
  by rewrite lookup_insert_eq.
Qed.

#[export] Instance file_store_lawful : LawfulStore Directory.
Proof.
  intros key bytes d d' Hb H. cbn in *. apply file_save_ok in H as [Hp ->]; [|done].
  cbn. rewrite take_ge by lia. by apply frame_round_trip.
Qed.

(** A save that returns: a later load gives the new state, or nothing when the
    stream lost bytes it did not report.  It never gives other bytes. *)
Lemma file_save_faults f key bytes d d' :
  Forall is_byte bytes -> file_save f key bytes d = (Ok tt, d') ->
  file_load true key d' =
    if bool_decide (length (encode_frame bytes) <= sf_written f (length (encode_frame bytes)))%nat
    then Some bytes else None.
Proof.
  intros Hb H. apply file_save_ok in H as [Hp ->]; [|done].
  case_bool_decide as Hw.
  - rewrite take_ge by done. by apply frame_round_trip.
  - apply frame_prefix_rejected; [done|lia].
Qed.

(** ** Crashes during a save *)

Lemma rename_other from to d k : k <> from -> k <> to -> rename_file from to d !! k = d !! k.
Proof.
  intros Hf Ht. unfold rename_file. destruct (d !! from); [|done].
  by rewrite lookup_insert_ne, lookup_delete_ne by done.
Qed.

Lemma crash_other_file n key bytes d k :
  k <> file_path key -> k <> tmp_path key -> file_save_crash n key bytes d !! k = d !! k.
Proof.
  intros Hf Ht. unfold file_save_crash, file_save_ops.
  do 4 (destruct n as [|n]; [cbn; by rewrite ?rename_other, ?lookup_delete_ne,
    ?lookup_insert_ne by done|cbn [take foldl]]).
  rewrite take_nil. cbn [foldl].
  by rewrite rename_other, lookup_delete_ne, !lookup_insert_ne by done.
Qed.

Lemma crash_own_file n key bytes d :
  payload_wf bytes ->
  file_load true key (file_save_crash n key bytes d) =
    if (n <? 3)%nat then file_load true key d
    else if (n =? 3)%nat then None else Some bytes.
Proof.
  intros Hp. pose proof (tmp_path_not_frame key key) as Hne.
  unfold file_load, file_save_crash, file_save_ops.
  destruct n as [|[|[|[|n]]]]; cbn [take foldl Nat.ltb Nat.leb Nat.eqb].
  - done.
  - by rewrite lookup_insert_ne.
  - by rewrite !lookup_insert_ne.
  - by rewrite lookup_delete_eq.
  - rewrite take_nil. cbn [foldl]. unfold rename_file.
    rewrite lookup_delete_ne, lookup_insert_eq by done. rewrite lookup_insert_eq. cbn [negb].
    by apply frame_round_trip.
Qed.

(** ** The bytes of a snapshot *)

Definition bytewise (f : list Z -> list Z) : Prop :=
  forall buf, Forall is_byte buf -> Forall is_byte (f buf).

Lemma bytewise_andthen f g : bytewise f -> bytewise g -> bytewise (f >>> g).
Proof. intros Hf Hg buf Hb. by apply Hg, Hf. Qed.

Lemma bytewise_app bs : Forall is_byte bs -> bytewise (fun buf => buf ++ bs).
Proof. intros Hb buf Hbuf. by apply Forall_app_2. Qed.

Lemma bytewise_u8 z : bytewise (w_u8 (u8 z)).
Proof. apply bytewise_app. constructor; [by apply (wrap_u_range 8)|done]. Qed.

Lemma bytewise_bool (b : bool) : bytewise (w_u8 (if b then 1 else 0)).
Proof. apply bytewise_app. constructor; [|done]. unfold is_byte, is_u. by destruct b; lia. Qed.

Lemma bytewise_u32 z : bytewise (w_u32 z).
Proof. apply bytewise_app, be_bytes_byte. Qed.

Lemma bytewise_u64 z : bytewise (w_u64 z).
Proof. apply bytewise_app, be_bytes_byte. Qed.

Lemma until_nul_bytes l : Forall is_byte l -> Forall is_byte (until_nul l).
Proof. induction 1 as [|b l Hb Hl IH]; cbn; [done|]. destruct (b =? 0); by constructor. Qed.

Lemma bytewise_cstring s : bytewise (w_cstring s).
Proof.
  apply bytewise_app. apply Forall_app_2; [apply until_nul_bytes, string_bytes_is_byte|].
  constructor; [|done]. unfold is_byte, is_u. lia.
Qed.

Lemma bytewise_list {A} (f : A -> list Z -> list Z) l :
  (forall x, bytewise (f x)) -> bytewise (w_list f l).
Proof.
  intros Hf buf Hb. unfold w_list.
  pose proof (bytewise_u32 (u32 (Z.of_nat (length l))) buf Hb) as Hb'.
  generalize dependent (w_u32 (u32 (Z.of_nat (length l))) buf). clear Hb.
  induction l as [|x l IH]; intros b Hb; cbn; [done|]. by apply IH, Hf.
Qed.

Lemma bytewise_option {A} (f : A -> list Z -> list Z) o :
  (forall x, bytewise (f x)) -> bytewise (w_option f o).
Proof.
  intros Hf buf Hb. destruct o as [a|]; cbn;
    [by apply Hf, (bytewise_bool true)|by apply (bytewise_bool false)].
Qed.

Lemma bytewise_i64 z : bytewise (w_i64 z).
Proof. exact (bytewise_u64 (u64 z)). Qed.

#[export] Hint Resolve bytewise_u8 bytewise_bool bytewise_u32 bytewise_u64 bytewise_i64
  bytewise_cstring : rp.

Ltac bytewise :=
  repeat (cbv beta; lazymatch goal with
  | |- bytewise (_ >>> _) => apply bytewise_andthen
  | |- bytewise (w_list _ _) => apply bytewise_list; intros ?
  | |- bytewise (w_option _ _) => apply bytewise_option; intros ?
  | |- bytewise _ => solve [auto with rp]
  end).

Lemma encode_snapshot_bytes s : Forall is_byte (encode_snapshot s).
Proof.
  unfold encode_snapshot.
  match goal with |- Forall _ (?f []) => assert (bytewise f) as Hf; [|by apply Hf] end.
  unfold encode_header, encode_worker, encode_request, encode_plan, encode_authority,
    w_strategy, w_id, w_time, w_count.
  bytewise.
Qed.

(** ** The planner over a store *)

Section OverStore.
Context {St : Type} `{PersistenceStore St}.

Lemma save_locked_ok `{!LawfulStore St} st s st' :
  save_locked (Some st) s = (Ok tt, st') ->
  exists st1, st' = Some st1 /\ store_load state_key st1 = Some (encode_snapshot s).
Proof.
  unfold save_locked. destruct (store_save _ _ _) as [r st1] eqn:E. intros [= -> <-].
  exists st1. split; [done|]. eapply store_load_save; [apply encode_snapshot_bytes|done].
Qed.

Lemma save_state_ok st s st' :
  save_state (Some st) s = (Ok true, st') -> save_locked (Some st) s = (Ok tt, st').
Proof.
  unfold save_state. destruct (save_locked _ _) as [[[]|e] st1]; [|done].
  by intros [= <-].
Qed.

(** The state a restart leaves, given what the store held ([restored_ctx] is the
    planner after the reload). *)
Definition after_restart (now : Z -> Timestamp) (s : Planner) : Planner :=
  set_history (history s ++ [restart_message (ctx s)])
    (set_plans (invalidate_unfinished now (plans s)) s).

Definition restarting (s : Planner) : Planner :=
  set_ctx (clear_dynamic (advance_authority (ctx s))) s.

Definition reload (store : option St) (s : Planner) : Planner :=
  match store with
  | None => s
  | Some st =>
      match store_load state_key st with
      | None => s
      | Some blob => (apply_snapshot blob true s).2
      end
  end.

Lemma restart_ok now store s store' s' :
  restart_coordinator now store s = (Ok tt, store', s') ->
  save_locked store s = (Ok tt, store') /\ s' = after_restart now (reload store' (restarting s)).
Proof.
  unfold restart_coordinator. destruct (save_locked store s) as [[[]|e] store1]; [|done].
  by intros [= <- <-].
Qed.
End OverStore.

(** What [apply_snapshot] never touches, whatever the bytes. *)
Record SameAuthority (s s' : Planner) : Prop := {
  sa_epoch : ctx_epoch (ctx s') = ctx_epoch (ctx s);
  sa_boot : ctx_planner_boot (ctx s') = ctx_planner_boot (ctx s);
  sa_alive : ctx_alive_workers (ctx s) = ∅ -> ctx_alive_workers (ctx s') = ∅;
  sa_resource : ctx_resource_available (ctx s') = ctx_resource_available (ctx s);
  sa_lineage : ctx_recompute_lineage_available (ctx s') = ctx_recompute_lineage_available (ctx s);
  sa_inputs : ctx_original_inputs_available (ctx s') = ctx_original_inputs_available (ctx s);
  sa_meta : dispatch_meta s' = dispatch_meta s;
  sa_ids : next_plan_id s' = next_plan_id s /\ next_generation s' = next_generation s }.

Lemma apply_snapshot_authority bytes s : SameAuthority s (apply_snapshot bytes true s).2.
Proof.
  unfold apply_snapshot.
  repeat (match goal with
  | |- context [let '(_, _) := ?e in _] => destruct e as [? ?] eqn:?
  | |- context [if ?b then (false, _) else _] => destruct b
  end; try (by split)).
Qed.

Lemma invalidate_lookup now ps k :
  invalidate_unfinished now ps !! k =
    (fun p => if terminal (p_state p) then p
              else p_set_updated (now k) (p_set_state PlanLifecycleState.INVALIDATED p)) <$> ps !! k.
Proof. unfold invalidate_unfinished. rewrite map_lookup_imap. by destruct (ps !! k). Qed.

Lemma invalidate_terminal now ps k p :
  invalidate_unfinished now ps !! k = Some p -> terminal (p_state p) = true.
Proof.
  rewrite invalidate_lookup, fmap_Some. intros (p0 & _ & ->).
  by destruct (terminal (p_state p0)) eqn:E.
Qed.

Lemma reload_authority `{PersistenceStore St} store s : SameAuthority s (reload store s).
Proof.
  unfold reload. destruct store as [st|]; [|by split].
  destruct (store_load state_key st) as [blob|]; [apply apply_snapshot_authority|by split].
Qed.

(** No report has an effect when every plan is terminal. *)
Lemma report_all_terminal r now s :
  (forall k p, plans s !! k = Some p -> terminal (p_state p) = true) ->
  report_execution r now s = s.
Proof.
  intros Ht. unfold report_execution. destruct (plans s !! _) as [p|] eqn:E; [|done].
  rewrite (Ht _ _ E). by repeat case_match.
Qed.
