(* ===== verification/PersistenceProps.v ===== *)
(** * Properties of persistence and restart

    What a snapshot keeps, what the stores return after faults and crashes, what
    the checksums detect, and what a coordinator restart guarantees. *)

From stdpp Require Import base gmap strings list.
From S2P Require Import Prelude Types Evidence Feasibility StdSort Economics Digest DigestSpec.
From S2P Require Import CrcSpec Codec Plan Explain Planner PlannerSpec Lifecycle LifecycleSpec.
From S2P Require Import Executor Cli LifecycleProps Snapshot SnapshotSpec Persistence.
From S2P Require Import PersistenceSpec.
#[local] Open Scope Z_scope.

(** ** A state the format can hold *)

Ltac holds :=
  lazymatch goal with
  | |- storable _ => split; [vm_compute; repeat constructor; discriminate|vm_compute; discriminate]
  | |- strings_wf _ => split; [vm_compute; reflexivity|repeat (apply Forall_cons_2; [holds|]); apply Forall_nil_2]
  | |- strategies_wf _ => split; [vm_compute; reflexivity|vm_compute; repeat constructor]
  | |- on_some _ _ => intros ? [=]; subst; split; vm_compute; discriminate
  | |- AuthorityStorable _ => split; holds
  | |- id_wf _ => split; vm_compute; [discriminate|reflexivity]
  | |- is_i64 _ => split; vm_compute; discriminate
  | |- _ < _ => vm_compute; reflexivity
  end.

(** A map with one entry. *)
Lemma map_Forall_one {A} (P : Z -> A -> Prop) (m : gmap Z A) k x :
  map_to_list m = [(k, x)] -> P k x -> map_Forall P m.
Proof.
  intros Hm Hp i y Hy%elem_of_map_to_list. rewrite Hm in Hy.
  apply list_elem_of_singleton in Hy. injection Hy as -> ->. exact Hp.
Qed.

Definition demo_request : RecoveryRequest :=
  Eval vm_compute in default (cli_request None) (requests demo_state !! 1%Z).
Definition demo_stored_plan : RecoveryPlan := Eval vm_compute in demo_plan.
Definition demo_history : list string := Eval vm_compute in history demo_state.

(** What the snapshot of [demo_state] holds, computed once. *)
Lemma demo_contents :
  map_to_list (requests demo_state) = [(1, demo_request)] /\
  map_to_list (plans demo_state) = [(1, demo_stored_plan)] /\
  history demo_state = demo_history.
Proof. vm_compute. split_and!; reflexivity. Qed.

Lemma demo_context :
  ctx_epoch (ctx demo_state) = MkId 1 /\ ctx_planner_boot (ctx demo_state) = MkId 1 /\
  ctx_workload_generation (ctx demo_state) = MkId 1 /\
  ctx_policy_generation (ctx demo_state) = MkId 1 /\
  ctx_compatibility_generation (ctx demo_state) = MkId 1 /\
  ctx_resource_generation (ctx demo_state) = MkId 1 /\
  ctx_topology_generation (ctx demo_state) = MkId 1 /\
  ctx_worker_boots (ctx demo_state) = {[MkId 1 := MkId 100]}.
Proof. vm_compute. split_and!; reflexivity. Qed.

Lemma demo_request_storable : RequestStorable demo_request.
Proof. split; holds. Qed.

Lemma demo_plan_storable : PlanStorable demo_stored_plan.
Proof. split; holds. Qed.

Lemma demo_context_storable : ContextStorable (ctx demo_state).
Proof.
  destruct demo_context as (E1 & E2 & E3 & E4 & E5 & E6 & E7 & E8).
  generalize dependent (ctx demo_state). intros c E1 E2 E3 E4 E5 E6 E7 E8.
  split; rewrite ?E1, ?E2, ?E3, ?E4, ?E5, ?E6, ?E7, ?E8; try holds.
  apply map_Forall_singleton. split; holds.
Qed.

Lemma demo_storable : Storable demo_state.
Proof.
  destruct demo_contents as (Er & Ep & Eh). split.
  - exact demo_context_storable.
  - eapply map_Forall_one; [exact Er|]. split; [reflexivity|exact demo_request_storable].
  - by rewrite <- length_map_to_list, Er.
  - eapply map_Forall_one; [exact Ep|]. split; [reflexivity|exact demo_plan_storable].
  - by rewrite <- length_map_to_list, Ep.
  - rewrite Eh. unfold demo_history. holds.
Qed.

(** ** Snapshots *)

(** C17: Every state the format can hold is restored by its own snapshot, up to
    what is not stored: [apply_snapshot] of [encode_snapshot] succeeds on every
    planner and gives the durable identities, the registrations, every request,
    every plan with its fence and lifecycle state, and the history. *)
Theorem snapshot_round_trip s s0 preserve :
  Storable s -> apply_snapshot (encode_snapshot s) preserve s0 = (true, restored preserve s s0).
Proof. apply snapshot_applied. Qed.

Lemma snapshot_round_trip_witness :
  apply_snapshot (encode_snapshot demo_state) false new_planner =
    (true, restored false demo_state new_planner) /\ Storable demo_state.
Proof.
  split; [|exact demo_storable].
  apply (snapshot_round_trip demo_state new_planner false). exact demo_storable.
Defined.

(** Through any store that keeps what it accepts, [load_state] after a
    [save_state] that returned restores the durable part of the saved state. *)
Theorem save_load_state {St} `{LawfulStore St} st s st' s0 :
  Storable s -> save_state (Some st) s = (Ok true, st') ->
  load_state st' s0 = (true, restored false s s0).
Proof.
  intros Hs Hsave. apply save_state_ok, save_locked_ok in Hsave as (st1 & -> & Hl).
  cbn [load_state load_locked]. by rewrite Hl, snapshot_applied.
Qed.

Definition demo_memory : MemoryStore := MkMemory {[state_key := encode_snapshot demo_state]}.

Lemma save_load_state_witness :
  load_state (Some demo_memory) new_planner = (true, restored false demo_state new_planner).
Proof.
  apply (save_load_state (MkMemory ∅) demo_state (Some demo_memory) new_planner).
  - exact demo_storable.
  - reflexivity.
Defined.

(** Events that only describe the world: workers, resources, inputs. *)
Definition world_event (e : Event) : bool :=
  match e with
  | ERegister _ _ | EUnregister _ | ESetResource _ _ | ESetRecompute _ _ => true
  | _ => false
  end.

Lemma world_run {sorter : StdSort} es s :
  Forall (fun e => world_event e = true) es ->
  plans (run es s) = plans s /\ next_plan_id (run es s) = next_plan_id s /\
  next_generation (run es s) = next_generation s.
Proof.
  intros Hes. revert s. induction Hes as [|e es He _ IH]; intros s; [done|].
  change (run (e :: es) s) with (run es (exec e s)).
  destruct (IH (exec e s)) as (-> & -> & ->). by destruct e.
Qed.

(** The plan of a decision takes the next id and generation. *)
Lemma fresh_plan_numbered {sorter : StdSort} q cs now s p :
  de_plan (plan q cs now s).1 = Some p ->
  p_plan_id p = MkId (next_plan_id s) /\ p_generation p = MkId (next_generation s) /\
  exists p2, plans (plan q cs now s).2 !! next_plan_id s = Some p2 /\
             p_request_id p2 = q_request_id q.
Proof.
  assert (forall c d s0, PlanFor q (ctx s) now (next_plan_id s) (next_generation s) c p ->
    plans s0 = plans s ->
    p_plan_id p = MkId (next_plan_id s) /\ p_generation p = MkId (next_generation s) /\
    exists p2, plans (with_new_plan q now p d s0) !! next_plan_id s = Some p2 /\
               p_request_id p2 = q_request_id q) as Hnew.
  { intros c d s0 Hf Hs0. split; [exact (f_equal p_plan_id Hf)|].
    split; [exact (f_equal p_generation Hf)|].
    rewrite (with_new_plan_plans _ _ _ _ _ _ _ _ _ s s0 Hf Hs0).
    exists p. split; [apply lookup_insert_eq|exact (f_equal p_request_id Hf)]. }
  intros Hd. destruct (plan_result q cs now s)
    as [d ? ? Hn|d ? ? ? Hn|d c p1 _ Hf _ Hd1|d c p1 _ _ Hf _ Hd1]; simplify_eq; by eapply Hnew.
Qed.

(** C37: A reloaded planner forgets which ids it has used: in a fresh process,
    [load_state] reads a saved state that holds plan 1 and returns [true]; whatever
    the process then registers, its next plan has id 1 and generation 1 again, and
    overwrites the loaded plan. *)
Theorem reload_reuses_plan_identity {sorter : StdSort} {St} `{PersistenceStore St} (st : St) s es
    q cs now p p' :
  let '(loaded, s0) := load_state (Some st) new_planner in
  let s1 := run es s0 in
  store_load state_key st = Some (encode_snapshot s) -> Storable s ->
  Forall (fun e => world_event e = true) es ->
  plans s !! 1 = Some p -> de_plan (plan q cs now s1).1 = Some p' ->
  loaded = true /\ plans s1 !! 1 = Some (persisted_plan p) /\
  p_plan_id p' = MkId 1 /\ p_generation p' = MkId 1 /\
  exists p2, plans (plan q cs now s1).2 !! 1 = Some p2 /\ p_request_id p2 = q_request_id q.
Proof.
  cbn [load_state load_locked]. cbv zeta. intros Hl Hs Hes Hp Hd.
  rewrite Hl, snapshot_applied in Hd |- * by done. cbn [snd] in *. split; [done|].
  pose proof (world_run es (restored false s new_planner) Hes) as Hw.
  generalize dependent (run es (restored false s new_planner)). intros s1 Hd (Hpl & Hid & Hgen).
  change (next_plan_id s1 = 1) in Hid. change (next_generation s1 = 1) in Hgen. split.
  { rewrite Hpl. cbn. by rewrite lookup_fmap, Hp. }
  destruct (fresh_plan_numbered q cs now s1 p' Hd) as (E1 & E2 & p2 & E3 & E4).
  rewrite Hid in E1, E3. rewrite Hgen in E2. by split_and!; [..|exists p2].
Qed.

(** The planner of a new process: the demo state reloaded, its worker back. *)
Definition reloaded_state : Planner :=
  run world_events (load_state (Some demo_memory) new_planner).2.

Definition second_decision : RecoveryDecision :=
  (plan (with_request_id 2 (cli_request None)) [restore_candidate] (MkUnit 9) reloaded_state).1.

Lemma reload_reuses_plan_identity_witness :
  exists p', de_plan second_decision = Some p' /\ p_plan_id p' = p_plan_id demo_plan.
Proof.
  exists (default default_plan (de_plan second_decision)). split; [vm_compute; reflexivity|].
  transitivity (MkId 1 : RecoveryPlanId); [|vm_compute; reflexivity].
  apply (reload_reuses_plan_identity demo_memory demo_state world_events
           (with_request_id 2 (cli_request None)) [restore_candidate] (MkUnit 9) demo_plan).
  - reflexivity.
  - exact demo_storable.
  - repeat constructor.
  - vm_compute. reflexivity.
  - vm_compute. reflexivity.
Defined.

(** ** Frames and checksums *)

(** C24: The frame format is canonical: a file decodes to a payload exactly when it
    is the frame that [save] writes for that payload, so no truncated, extended,
    reversioned or otherwise altered file is read as a payload it does not hold. *)
Theorem frame_codec raw p :
  Forall is_byte raw ->
  decode_frame raw = Some p <->
  (Forall is_byte p /\ Z.of_nat (length p) <= kMaxPayload) /\ raw = encode_frame p.
Proof. exact (codec_iff (wf := payload_wf) raw p). Qed.

Lemma frame_codec_witness :
  decode_frame (encode_frame [1; 2; 3]) = Some [1; 2; 3] /\
  decode_frame (encode_frame [1; 2; 3] ++ [0]) <> Some [1; 2; 3].
Proof.
  assert (Forall is_byte (encode_frame [1; 2; 3] ++ [0])) as Hb
    by (vm_compute; repeat constructor; discriminate).
  split; [|rewrite frame_codec by exact Hb; intros [_ H]; vm_compute in H; discriminate].
  apply frame_codec; [by apply Forall_app in Hb as [? _]|].
  split; [|reflexivity]. split; [repeat constructor; discriminate|by vm_compute].
Defined.

(** C25: Any single altered byte of a stored frame, wherever it is, makes [load]
    report the entry as absent. *)
Theorem frame_corruption_detected p i b :
  Forall is_byte p -> Z.of_nat (length p) <= kMaxPayload -> is_byte b ->
  (i < length (encode_frame p))%nat -> encode_frame p !! i <> Some b ->
  decode_frame (<[i := b]> (encode_frame p)) = None.
Proof. intros Hp Hn. by apply frame_byte_detected. Qed.

Lemma frame_corruption_detected_witness :
  decode_frame (<[13%nat := 255]> (encode_frame [1; 2; 3])) = None.
Proof.
  apply (frame_corruption_detected [1; 2; 3] 13 255).
  - repeat constructor; discriminate.
  - by vm_compute.
  - split; [discriminate|reflexivity].
  - vm_compute. lia.
  - vm_compute. discriminate.
Defined.

(** One step of the division by the CRC-32C polynomial, 0x1EDC6F41, on a register
    whose bit 31 is the constant term. *)
Definition division_step (r : Z) : Z :=
  if Z.testbit r 0 then Z.lxor (Z.shiftr r 1) 0x82F63B78 else Z.shiftr r 1.

Lemma division_step_crc r : crc_step r = division_step r.
Proof.
  rewrite crc_step_alt. unfold division_step.
  destruct (Z.testbit r 0); [apply Z.lxor_comm|apply Z.lxor_0_l].
Qed.

(** C38: The table-driven checksum is the bitwise CRC: the register after a message
    is eight division steps per byte, run on the inverted seed xored with the
    message read as one little-endian number. *)
Theorem crc32c_bitwise data seed :
  Forall is_byte data ->
  crc32c data seed =
    u32_not (Nat.iter (length data * 8) division_step (Z.lxor (u32_not seed) (le_value data))).
Proof.
  intros Hd. unfold crc32c. rewrite crc_foldl by done. f_equal.
  induction (length data * 8)%nat as [|n IH]; [done|].
  by rewrite !Nat.iter_succ, IH, division_step_crc.
Qed.

Lemma crc32c_bitwise_witness :
  crc32c [49; 50] 0 = u32_not (Nat.iter 16 division_step (Z.lxor 4294967295 12849)).
Proof. apply (crc32c_bitwise [49; 50] 0). repeat constructor; discriminate. Defined.

(** The checksum detects every alteration confined to four consecutive bytes
    of a message of any length. *)
Theorem crc32c_detects_bursts pre d d' post seed :
  Forall is_byte (pre ++ d ++ post) -> Forall is_byte d' -> is_u 32 seed ->
  length d = length d' -> (length d <= 4)%nat -> d <> d' ->
  crc32c (pre ++ d ++ post) seed <> crc32c (pre ++ d' ++ post) seed.
Proof. intros Hb Hd' Hs Hl Hn Hne H. apply Hne. by eapply crc32c_window. Qed.

Lemma crc32c_detects_bursts_witness :
  crc32c [1; 2; 3; 4; 5; 6] 0 <> crc32c [1; 9; 9; 9; 9; 6] 0.
Proof.
  apply (crc32c_detects_bursts [1] [2; 3; 4; 5] [9; 9; 9; 9] [6] 0).
  - repeat constructor; discriminate.
  - repeat constructor; discriminate.
  - split; [discriminate|reflexivity].
  - reflexivity.
  - cbn. lia.
  - discriminate.
Defined.

(** ** The file store under faults *)

(** C26: What a file save leaves to a later load, whatever its calls do.  A save
    that returns leaves the new payload, or no payload when the stream lost bytes
    without reporting it; a save that throws leaves the old one, unless the old
    file was removed before the rename failed, when it leaves none. *)
Theorem file_save_outcomes f key bytes d :
  Forall is_byte bytes ->
  let '(r, d') := file_save f key bytes d in
  let n := length (encode_frame bytes) in
  match r with
  | Ok _ => file_load true key d' = if bool_decide (n <= sf_written f n)%nat then Some bytes else None
  | Throw e =>
      if bool_decide (err_code e = ErrorCode.PERSISTENCE_CORRUPTION) && sf_open f && sf_write f &&
         sf_remove f
      then file_load true key d' = None else file_load true key d' = file_load true key d
  end.
Proof.
  intros Hb. destruct (file_save f key bytes d) as [[[]|e] d'] eqn:E.
  { exact (file_save_faults f key bytes d d' Hb E). }
  pose proof (tmp_path_not_frame key key) as Hne. cbn zeta. unfold file_save in E.
  destruct (_ <? _); [by injection E as <- <-|].
  destruct (sf_open f); cbn [negb] in E; [|by injection E as <- <-].
  destruct (sf_write f); cbn [negb] in E.
  2:{ injection E as <- <-. unfold file_load. cbn. by rewrite lookup_insert_ne. }
  destruct (sf_rename f); [done|]. injection E as <- <-. unfold file_load, when. cbn.
  destruct (sf_remove f); [by rewrite lookup_delete_eq|by rewrite lookup_insert_ne].
Qed.

Lemma file_save_outcomes_witness :
  file_load true "k" (file_save no_fault "k" [7] ∅).2 = Some [7].
Proof.
  pose proof (file_save_outcomes no_fault "k" [7] ∅) as H.
  assert (Forall is_byte [7]) as Hb by (repeat constructor; discriminate).
  exact (H Hb).
Defined.

(** C27: A process that stops during a save: after any number of the directory
    changes, the entry reads as before, as the new payload, or — between the
    removal of the old file and the rename — as absent, even if it was there
    before; the other files of the directory are untouched. *)
Theorem file_save_crash_points n key bytes d :
  Forall is_byte bytes -> Z.of_nat (length bytes) <= kMaxPayload ->
  file_load true key (file_save_crash n key bytes d) =
    (if (n <? 3)%nat then file_load true key d
     else if (n =? 3)%nat then None else Some bytes) /\
  forall k, k <> file_path key -> k <> tmp_path key ->
    file_save_crash n key bytes d !! k = d !! k.
Proof.
  intros Hb Hn. split; [exact (crash_own_file n key bytes d (conj Hb Hn))|].
  intros k. apply crash_other_file.
Qed.

(** The directory of a store that holds [old] under [key]. *)
Definition stored_once (key : string) (old : list Z) : Directory := (file_save no_fault key old ∅).2.

Lemma file_save_crash_points_witness :
  file_load true "k" (stored_once "k" [7]) = Some [7] /\
  file_load true "k" (file_save_crash 3 "k" [8] (stored_once "k" [7])) = None.
Proof.
  split; [vm_compute; reflexivity|].
  apply (file_save_crash_points 3 "k" [8] (stored_once "k" [7])).
  - repeat constructor; discriminate.
  - by vm_compute.
Defined.

(** ** Coordinator restart *)

Lemma next_neq {tag} (i : Id tag) : next i <> i.
Proof.
  intros H. apply (f_equal value) in H. cbn in H. unfold u64, wrap_u in H.
  Z.div_mod_to_equations. lia.
Qed.

Lemma world_run_context {sorter : StdSort} es s :
  Forall (fun e => world_event e = true) es -> ctx_epoch (ctx (run es s)) = ctx_epoch (ctx s).
Proof.
  intros Hes. revert s. induction Hes as [|e es He _ IH]; intros s; [done|].
  change (run (e :: es) s) with (run es (exec e s)). rewrite IH. by destruct e.
Qed.

(** C19: Whatever the store holds or returns, a restart that completes advances the
    coordinator epoch and the planner boot, forgets which workers are alive and
    every other dynamic observation, and leaves no plan open; no completion report
    has any effect afterwards, and no plan issued under the previous epoch is ever
    current again, even once its worker has registered anew. *)
Theorem restart_fences {sorter : StdSort} {St} `{PersistenceStore St} now store s store' s' :
  restart_coordinator now store s = (Ok tt, store', s') ->
  ctx_epoch (ctx s') = next (ctx_epoch (ctx s)) /\
  ctx_planner_boot (ctx s') = next (ctx_planner_boot (ctx s)) /\
  ctx_alive_workers (ctx s') = ∅ /\ ctx_resource_available (ctx s') = ∅ /\
  ctx_recompute_lineage_available (ctx s') = ∅ /\ ctx_original_inputs_available (ctx s') = ∅ /\
  (forall k p, plans s' !! k = Some p -> terminal (p_state p) = true) /\
  (forall r t, report_execution r t s' = s') /\
  (forall es p, Forall (fun e => world_event e = true) es ->
     pa_coordinator_epoch (p_authority p) = ctx_epoch (ctx s) ->
     plan_authority_current p (ctx (run es s')) = false).
Proof.
  intros Hr. apply restart_ok in Hr as [_ ->].
  destruct (reload_authority store' (restarting s)) as [He Hb Ha Hra Hli Hin _ _].
  set (s1 := reload store' (restarting s)) in *.
  assert (forall k p, plans (after_restart now s1) !! k = Some p -> terminal (p_state p) = true)
    as Ht by (intros k p; apply invalidate_terminal).
  split; [exact He|]. split; [exact Hb|]. split; [by apply Ha|]. split; [exact Hra|].
  split; [exact Hli|]. split; [exact Hin|]. split; [exact Ht|].
  split; [intros r t; by apply report_all_terminal|].
  intros es p Hes Hp. apply not_true_is_false. intros Hc%authority_current_spec.
  pose proof (cur_epoch _ _ Hc) as H1. rewrite (world_run_context es _ Hes), Hp in H1.
  change (ctx_epoch (ctx s) = ctx_epoch (ctx s1)) in H1. rewrite He in H1.
  by apply (next_neq (ctx_epoch (ctx s))).
Qed.

(** A coordinator with an authorised, dispatched plan, no store attached. *)
Definition dispatched_state : Planner := run (world_events ++ plan_events 1) new_planner.
Definition restarted_state : Planner :=
  (restart_coordinator (fun _ => MkUnit 20) (@None MemoryStore) dispatched_state).2.

Lemma restart_fences_witness :
  report_execution (success_report 1) (MkUnit 21) dispatched_state <> dispatched_state /\
  report_execution (success_report 1) (MkUnit 21) restarted_state = restarted_state.
Proof.
  split.
  - intros H. apply (f_equal (fun s => p_state <$> plans s !! 1)) in H. vm_compute in H. discriminate.
  - apply (restart_fences (fun _ => MkUnit 20) (@None MemoryStore) dispatched_state None
             restarted_state).
    reflexivity.
Defined.

(** The state a restart computes from the state saved at its beginning. *)
Definition restart_result (now : Z -> Timestamp) (s : Planner) : Planner :=
  after_restart now (restored true s (restarting s)).

(** Bytes of another format version are refused before anything is assigned. *)
Lemma other_version_refused blob preserve s :
  (r_u32 (reader blob)).1 <> kPersistenceFormatVersion -> apply_snapshot blob preserve s = (false, s).
Proof.
  unfold apply_snapshot. destruct (r_u32 (reader blob)) as [ver r]. cbn [fst].
  intros Hv%Z.eqb_neq. by rewrite Hv.
Qed.

(** [s'] is the state of a planner restarted from [s] with the requests, plans,
    registrations and history of [base]. *)
Record Restarted (now : Z -> Timestamp) (s base s' : Planner) : Prop := {
  re_epoch : ctx_epoch (ctx s') = next (ctx_epoch (ctx s));
  re_boot : ctx_planner_boot (ctx s') = next (ctx_planner_boot (ctx s));
  re_requests : requests s' = requests base;
  re_history : history s' = history base ++ [restart_message (ctx s')];
  re_workers : ctx_worker_boots (ctx s') = ctx_worker_boots (ctx base);
  re_counters : next_plan_id s' = next_plan_id s /\ next_generation s' = next_generation s;
  re_plans k : plans s' !! k =
    (fun p => if terminal (p_state p) then p
              else p_set_updated (now k) (p_set_state PlanLifecycleState.INVALIDATED p))
    <$> plans base !! k }.

Lemma restarted_own now s : Restarted now s s (after_restart now (restarting s)).
Proof. split; try done. intros k. apply invalidate_lookup. Qed.

Lemma restarted_saved now s : Restarted now s (restored true s s) (restart_result now s).
Proof. split; try done. intros k. apply invalidate_lookup. Qed.

Lemma restarted_blob now s blob :
  let base := (apply_snapshot blob true (restarting s)).2 in
  Restarted now s base (after_restart now base).
Proof.
  cbv zeta. destruct (apply_snapshot_authority blob (restarting s)) as [He Hb _ _ _ _ Hi Hg].
  split; try done. intros k. apply invalidate_lookup.
Qed.

(** C18: A restart on every branch.  When the save throws, so does the restart, and
    nothing has changed.  Otherwise it returns with the next epoch and boot, every
    unfinished plan [INVALIDATED] at the clock reading of its turn, and one more
    history line naming the new epoch and boot.  Requests, plans, registrations
    and history are the planner's own when there is no store, when the store has
    nothing under the key or when what it has is of another format; else they are
    what [apply_snapshot] left, accepting the bytes or not; and with a store that
    keeps what it accepts, they are what the snapshot holds of the planner's own. *)
Theorem restart_exact {St} `{PersistenceStore St} now (store : option St) s :
  let '(r, store', s') := restart_coordinator now store s in
  match store with
  | None => r = Ok tt /\ store' = None /\ Restarted now s s s'
  | Some st =>
      let '(r1, st1) := store_save state_key (encode_snapshot s) st in
      r = r1 /\ store' = Some st1 /\
      match r1 with
      | Throw _ => s' = s
      | Ok _ =>
          match store_load state_key st1 with
          | None => Restarted now s s s'
          | Some blob =>
              Restarted now s (apply_snapshot blob true (restarting s)).2 s' /\
              ((r_u32 (reader blob)).1 <> kPersistenceFormatVersion -> Restarted now s s s')
          end /\
          (LawfulStore St -> Storable s ->
             s' = restart_result now s /\ Restarted now s (restored true s s) s')
      end
  end.
Proof.
  destruct (restart_coordinator now store s) as [[r store'] s'] eqn:E. destruct r as [[]|e].
  - apply restart_ok in E as [Hsave ->].
    destruct store as [st|]; [|injection Hsave as <-; split_and!; [done..|apply restarted_own]].
    unfold save_locked in Hsave. destruct (store_save _ _ _) as [r1 st1] eqn:Es.
    injection Hsave as -> <-. split; [done|]. split; [done|]. split.
    + cbn [reload]. destruct (store_load state_key st1) as [blob|]; [|apply restarted_own].
      split; [apply restarted_blob|]. intros Hv.
      rewrite other_version_refused by done. apply restarted_own.
    + intros Hl Hs. assert (reload (Some st1) (restarting s) = restored true s (restarting s)) as ->.
      { cbn [reload]. by rewrite (store_load_save _ _ _ _ (encode_snapshot_bytes s) Es), snapshot_applied. }
      split; [done|apply restarted_saved].
  - unfold restart_coordinator in E. destruct (save_locked store s) as [[[]|e'] st1] eqn:Es; [done|].
    injection E as -> -> <-. destruct store as [st|]; [|done]. unfold save_locked in Es.
    destruct (store_save _ _ _) as [r1 st2]. by injection Es as -> <-.
Qed.

Lemma restart_exact_witness :
  (restart_coordinator (fun _ => MkUnit 20) (Some (MkMemory ∅)) demo_state).2 =
    restart_result (fun _ => MkUnit 20) demo_state.
Proof.
  pose proof (restart_exact (fun _ => MkUnit 20) (Some (MkMemory ∅)) demo_state) as H.
  destruct (restart_coordinator _ _ _) as [[r st'] s'].
  destruct H as (_ & _ & _ & Hs). exact (proj1 (Hs memory_store_lawful demo_storable)).
Defined.
