(* ===== verification/Tool.v ===== *)
(** * The command line tool

    Models [main] and [print_decision] of [tools/rplanner.cpp]: the commands, their
    exit codes and the lines they print ([Cli] has the scenarios themselves).  What
    the file system does to [--validate] is an argument. *)

From Stdlib Require Import Ascii String.
From stdpp Require Import base gmap strings list.
From S2P Require Import Prelude Types Evidence Feasibility StdSort Economics Plan Explain.
From S2P Require Import Planner PlannerSpec Lifecycle Cli Codec Persistence PersistenceSpec.
From S2P Require Import DecisionProps.
#[local] Open Scope Z_scope.
#[local] Open Scope string_scope.

(** ** Formatted output *)

Fixpoint spaces (n : nat) : string :=
  match n with O => "" | S n' => String " "%char (spaces n') end.

(** [%2d] and [%-14s]: padding to a width, on the left and on the right. *)
Definition pad_left (n : nat) (s : string) : string := spaces (n - String.length s) +:+ s.
Definition pad_right (n : nat) (s : string) : string := s +:+ spaces (n - String.length s).

(** [o ? std::to_string(o->value()) : "?"] *)
Definition or_question {tag} (o : option (Unit tag)) : string :=
  match o with Some u => to_dec (count u) | None => "?" end.

Definition ranked_lines (rc : RankedCandidate) : list string :=
  ("  rank=" +:+ pad_left 2 (to_dec (k_rank rc)) +:+
   " feasible_rank=" +:+ pad_left 2 (to_dec (k_feasible_rank rc)) +:+
   " strategy=" +:+ pad_right 14 (RecoveryStrategy.to_string (c_strategy (k_candidate rc))) +:+
   " feasibility=" +:+ pad_right 22 (FeasibilityResult.to_string (ev_result (k_feasibility rc))) +:+
   " time=" +:+ or_question (e_expected_time (k_economics rc)) +:+
   " lost=" +:+ or_question (e_expected_lost_progress (k_economics rc)) +:+
   " preserved=" +:+ or_question (e_expected_preserved_progress (k_economics rc))) ::
  match ev_violations (k_feasibility rc) with
  | v :: _ => if blocked (k_feasibility rc)
              then ["       rejected: " +:+ RejectionReason.to_string (v_reason v)] else []
  | [] => []
  end.

Definition selected_line (p : RecoveryPlan) : string :=
  "  selected=" +:+ RecoveryStrategy.to_string (p_strategy p) +:+
  " candidate=" +:+ to_dec (value (p_candidate_id p)) +:+ " digest=" +:+ p_decision_digest p.

Definition plan_lines (p : RecoveryPlan) : list string :=
  [selected_line p;
   "  deadline_outcome=" +:+ DeadlineOutcome.to_string (d_outcome (p_deadline p)) +:+
   " slack=" +:+ or_question (d_slack (p_deadline p));
   "  what_would_change:"] ++
  ((fun c => "    if " +:+ c.1 +:+ " -> " +:+ c.2) <$>
     conditions (x_what_would_change (p_explanation p))) ++
  ["  rejected_alternatives=" +:+
   to_dec (Z.of_nat (length (x_rejected_alternatives (p_explanation p))))].

Definition decision_lines (title : string) (d : RecoveryDecision) : list string :=
  ["=== " +:+ title +:+ " ==="; "  outcome=" +:+ PlanOutcome.to_string (de_outcome d)] ++
  (de_ranked d ≫= ranked_lines) ++
  match de_plan d with Some p => plan_lines p | None => [] end ++
  [""].

(** ** Commands *)

Definition scenario_of (name : string) : Scenario :=
  if String.eqb name "RECOMPUTE" then SRecompute
  else if String.eqb name "RESTORE" then SRestore
  else if String.eqb name "MIGRATE" then SMigrate
  else if String.eqb name "REHYDRATE" then SRehydrate
  else if String.eqb name "FAILOVER" then SFailover
  else if String.eqb name "RESTART" then SRestart
  else if String.eqb name "SHADOW" then SShadow
  else if String.eqb name "NOVALID" then SNoValid
  else if String.eqb name "DEADLINE" then SDeadline
  else SOther.

Definition is_slash (c : ascii) : bool :=
  bool_decide (c = "\"%char) || bool_decide (c = "/"%char).

(** [path.find_last_of("\\/")] *)
Fixpoint find_last_slash (s : string) : option nat :=
  match s with
  | EmptyString => None
  | String c s' =>
      match find_last_slash s' with
      | Some n => Some (S n)
      | None => if is_slash c then Some O else None
      end
  end.

Definition directory_of (path : string) : string :=
  match find_last_slash path with
  | None => "."
  | Some pos => String.substring 0 pos path
  end.

(** Whether [create_directories] succeeds on a path, the files of the directory it
    then names, and whether the file looked for opens. *)
Record FileSystem := MkFileSystem {
  fs_create : string -> bool;
  fs_files : string -> Directory;
  fs_readable : bool }.

(** Exit code and printed lines; [Throw] is the exception of the store's
    constructor, which nothing catches. *)
Definition Output : Type := Result string (Z * list string).

Definition validate (fs : FileSystem) (path : string) : Output :=
  let dir := directory_of path in
  if negb (fs_create fs dir) then Throw "create_directories" else
  match file_load (fs_readable fs) state_key (fs_files fs dir) with
  | None => Ok (1, ["INVALID_OR_CORRUPT"])
  | Some blob =>
      Ok (0, ["VALID persistence frame (" +:+ to_dec (Z.of_nat (length blob)) +:+ " bytes)"])
  end.

Definition usage : list string :=
  ["rplanner usage:";
   "  --scenario <RESTORE|RECOMPUTE|SHADOW|MIGRATE|REHYDRATE|FAILOVER|RESTART|NOVALID|DEADLINE>";
   "  --validate <persistence-file>"].

(** [main] of [argv]: the program's name and its arguments. *)
Definition rplanner_main {sorter : StdSort} (fs : FileSystem) (argv : list string) : Output :=
  match argv with
  | _ :: command :: args =>
      match args with
      | arg :: _ =>
          if String.eqb command "--validate" then validate fs arg
          else if String.eqb command "--scenario"
          then Ok (0, decision_lines arg (cli_decision (scenario_of arg)).1)
          else Ok (2, ["unknown arguments"])
      | [] => Ok (2, ["unknown arguments"])
      end
  | _ => Ok (2, usage)
  end.

(** ** What the commands answer *)

(** What the tool prints does not depend on the sort. *)
Lemma rplanner_sort (S1 S2 : StdSort) fs argv :
  @rplanner_main S1 fs argv = @rplanner_main S2 fs argv.
Proof.
  destruct argv as [|program [|command [|arg more]]]; [reflexivity..|].
  cbn [rplanner_main]. by rewrite (cli_decision_sort S1 S2).
Qed.

(** The scenario command exits with 0 and prints the outcome and the plan of the
    strategy the scenario is named after, for [SHADOW_PROMOTE] also in the deadline
    scenario and under any other name, and no plan for [NOVALID], whichever correct
    sort ranks the candidates. *)
Theorem tool_scenarios {sorter : StdSort} fs program name more :
  exists lines, rplanner_main fs (program :: "--scenario" :: name :: more) = Ok (0, lines) /\
    let '(outcome, strategy) := cli_expected (scenario_of name) in
    take 2 lines = ["=== " +:+ name +:+ " ==="; "  outcome=" +:+ PlanOutcome.to_string outcome] /\
    forall st, strategy = Some st <->
               exists p, p_strategy p = st /\ de_plan (cli_decision (scenario_of name)).1 = Some p /\
                         selected_line p ∈ lines.
Proof.
  eexists. split; [reflexivity|].
  pose proof (cli_scenarios (scenario_of name)) as Hs. unfold cli_summary in Hs.
  destruct (cli_decision (scenario_of name)) as [d s]. cbn [fst] in *.
  rewrite <- Hs. split; [reflexivity|]. intros st. split.
  - intros (p & Hp & ->)%fmap_Some. exists p. split; [done|]. split; [done|].
    unfold decision_lines. rewrite Hp, !elem_of_app. right. right. left. by left.
  - intros (p & <- & Hp & _). by rewrite Hp.
Qed.

Lemma tool_scenarios_restore :
  exists lines, rplanner_main (sorter := insertion_std_sort)
    (MkFileSystem (fun _ => true) (fun _ => ∅) true) ["rplanner"; "--scenario"; "RESTORE"] =
    Ok (0, lines) /\ length lines = 26%nat.
Proof. eexists. split; [reflexivity|]. vm_compute. reflexivity. Qed.

(** C36: The validate command answers for the directory of its argument: exit code 0
    with the size of the payload exactly when the file [planner_state.rpp] there is
    readable and is the frame of a payload within the bound, exit code 1 when not;
    the file named by the argument itself is not looked at. *)
Theorem validate_exact {sorter : StdSort} fs program path more :
  (forall raw, fs_files fs (directory_of path) !! "planner_state.rpp" = Some raw ->
               Forall is_byte raw) ->
  fs_create fs (directory_of path) = true ->
  match rplanner_main fs (program :: "--validate" :: path :: more) with
  | Throw _ => False
  | Ok (code, lines) =>
      (code = 0 /\ exists p, payload_wf p /\ fs_readable fs = true /\
         fs_files fs (directory_of path) !! "planner_state.rpp" = Some (encode_frame p) /\
         lines = ["VALID persistence frame (" +:+ to_dec (Z.of_nat (length p)) +:+ " bytes)"]) \/
      (code = 1 /\ lines = ["INVALID_OR_CORRUPT"] /\
       (fs_readable fs = true -> forall p, payload_wf p ->
          fs_files fs (directory_of path) !! "planner_state.rpp" <> Some (encode_frame p)))
  end.
Proof.
  intros Hbytes Hc. cbn [rplanner_main String.eqb]. unfold validate. rewrite Hc. cbn [negb].
  unfold file_load. change (file_path state_key) with "planner_state.rpp".
  destruct (fs_files fs (directory_of path) !! "planner_state.rpp") as [raw|] eqn:E;
    [|by right].
  destruct (fs_readable fs); cbn [negb]; [|by right].
  destruct (decode_frame raw) as [p|] eqn:Ed.
  - left. split; [done|]. apply codec_iff in Ed as [Hp ->]; [|by apply Hbytes]. by exists p.
  - right. split; [done|]. split; [done|]. intros _ p Hp [= ->].
    by rewrite frame_round_trip in Ed.
Qed.

(** A state saved beside the file that is asked about. *)
Lemma validate_exact_witness :
  let fs := MkFileSystem (fun _ => true)
              (fun dir => if String.eqb dir "var" then {["planner_state.rpp" := encode_frame [1; 2]]}
                          else ∅) true in
  exists lines, rplanner_main (sorter := insertion_std_sort) fs
                  ["rplanner"; "--validate"; "var/other.rpp"] = Ok (0, lines).
Proof.
  cbn zeta.
  pose proof (validate_exact (sorter := insertion_std_sort)
    (MkFileSystem (fun _ => true)
       (fun dir => if String.eqb dir "var" then {["planner_state.rpp" := encode_frame [1; 2]]}
                   else ∅) true) "rplanner" "var/other.rpp" []) as H.
  destruct (rplanner_main _ _) as [[code lines]|e].
  - destruct H as [(-> & _)|(_ & _ & H)].
    + vm_compute. intros raw [= <-]. repeat constructor; discriminate.
    + reflexivity.
    + by exists lines.
    + destruct (H eq_refl [1; 2]); [|reflexivity].
      split; [repeat constructor; discriminate|vm_compute; discriminate].
  - destruct H; [|reflexivity]. vm_compute. intros raw [= <-]. repeat constructor; discriminate.
Defined.
