(* ===== verification/Examples.v ===== *)
(** * The example programs

    Models [examples/recovery_examples.cpp]: its candidates, its nine examples and
    the lines [main] prints, and shows what these lines are.  The planner's clock
    stands still. *)

From stdpp Require Import base gmap strings list.
From S2P Require Import Prelude Types Evidence Feasibility StdSort Economics Plan Explain.
From S2P Require Import Planner PlannerSpec SortSpec Lifecycle Cli DecisionProps.
From S2P Require Import Persistence Tool.
#[local] Open Scope Z_scope.
#[local] Open Scope rp_scope.
Import RecoveryStrategy.

(** ** Candidates *)

(** The metadata and the state evidence have the values of the tool's ([Cli]). *)
Definition cand (s : RecoveryStrategy.t) (id : Z) (time : Duration)
    (preserved lost : ProgressUnits) : RecoveryCandidate :=
  let measured := cli_meta EvidenceProvenance.MEASURED confidence_none in
  {| c_candidate_id := MkId id;
     c_generation := MkId id;
     c_strategy := s;
     c_target_worker := MkId 1;
     c_target_boot := MkId 100;
     c_target_engine := MkId 1;
     c_target_engine_incarnation := MkId 1;
     c_source_worker := MkId 1;
     c_source_boot := MkId 100;
     c_state_source := MkId 1000;
     c_state_generation := MkId 1;
     c_checkpoint_source := MkId 5000;
     c_checkpoint_generation := MkId 1;
     c_state := Some (cli_state preserved);
     c_compatibility := Some
       {| co_meta := cli_meta EvidenceProvenance.REPORTED confidence_none;
          co_compatibility_generation := MkId 1;
          co_result := CompatibilityResult.EXACT;
          co_subject_identity := "workload:v1";
          co_state_format := "worker:1";
          co_reason := "" |};
     c_availability := Some
       {| av_meta := measured;
          av_worker := MkId 1;
          av_boot := MkId 100;
          av_engine_incarnation := MkId 1;
          av_is_alive := true;
          av_readiness := CandidateReadiness.READY |};
     c_resource := Some
       {| rs_meta := measured;
          rs_snapshot := MkId 1;
          rs_generation := MkId 1;
          rs_resource_kind := "gpu_mem";
          rs_required := Some 100;
          rs_available := Some 10000;
          rs_status := ResourceStatus.AVAILABLE |};
     c_topology := Some
       {| tp_meta := measured;
          tp_generation := MkId 1;
          tp_path_possible := true;
          tp_source := "worker:1";
          tp_destination := "worker:2";
          tp_path_latency := None |};
     c_transfer := Some
       {| tr_meta := MkMeta (MkId 1) id_null unit_zero EvidenceProvenance.UNKNOWN
                       Freshness.UNKNOWN confidence_none false;
          tr_transfer_bytes := MkUnit 1024;
          tr_bandwidth := None;
          tr_transfer_duration := None;
          tr_from := "";
          tr_to := "" |};
     c_checkpoint := None;
     c_shadow := Some
       {| sh_meta := measured;
          sh_shadow_worker := MkId 1;
          sh_shadow_boot := MkId 100;
          sh_shadow_state_generation := MkId 1;
          sh_lag := MkUnit 25;
          sh_last_sync_point := MkUnit 90;
          sh_readiness := CandidateReadiness.READY;
          sh_compatibility := CompatibilityResult.EXACT |};
     c_progress := None;
     c_cost := Some
       {| cost_meta := cli_meta EvidenceProvenance.ESTIMATED confidence_none;
          cost_expected_time := Some time;
          cost_restore_time := when_strategy s RESTORE (Some time) None;
          cost_restart_time := None;
          cost_transfer_time := when_strategy s MIGRATE (Some time) None;
          cost_recompute_time := when_strategy s RECOMPUTE (Some time) None;
          cost_bytes_transferred := Some (MkUnit 1024);
          cost_bytes_read := Some (MkUnit 1024);
          cost_bytes_materialized := Some (MkUnit 1024);
          cost_cost_units := None;
          cost_energy_cost := None;
          cost_expected_lost_progress := Some lost;
          cost_expected_preserved_progress := Some preserved;
          cost_checkpoint_age := None;
          cost_deadline_slack := None;
          cost_failover_domain_risk := 0 |};
     c_authority := Some
       {| auth_meta := cli_meta EvidenceProvenance.MEASURED confidence_full;
          auth_coordinator_epoch := MkId 1;
          auth_policy_generation := MkId 1;
          auth_coordinator_authority_valid := true;
          auth_policy_authority_valid := true;
          auth_candidate_authority_valid := true;
          auth_execution_authority_valid := true |};
     c_reason_for_existence := "";
     c_capabilities := [];
     c_required_capabilities := [] |}.

(** [req_for()], with a deadline assigned to it or not: the tool's values again. *)
Definition req_for (deadline : option Timestamp) : RecoveryRequest := cli_request deadline.

(** [c.compatibility->result = INCOMPATIBLE] *)
Definition make_incompatible (c : RecoveryCandidate) : RecoveryCandidate :=
  MkCandidate (c_candidate_id c) (c_generation c) (c_strategy c) (c_target_worker c)
    (c_target_boot c) (c_target_engine c) (c_target_engine_incarnation c) (c_source_worker c)
    (c_source_boot c) (c_state_source c) (c_state_generation c) (c_checkpoint_source c)
    (c_checkpoint_generation c) (c_state c)
    ((fun co => MkCompatibilityEvidence (co_meta co) (co_compatibility_generation co)
                  CompatibilityResult.INCOMPATIBLE (co_subject_identity co) (co_state_format co)
                  (co_reason co)) <$> c_compatibility c)
    (c_availability c) (c_resource c) (c_topology c)
    (c_transfer c) (c_checkpoint c) (c_shadow c) (c_progress c) (c_cost c) (c_authority c)
    (c_reason_for_existence c) (c_capabilities c) (c_required_capabilities c).

Definition example_planner : Planner :=
  (register_worker (MkId 1) (MkId 100) >>> register_worker (MkId 2) (MkId 200) >>>
   set_resource "gpu_mem" 10000 >>> set_recompute_available (MkId 1) true) new_planner.

(** ** The examples *)

Section Programs.
Context {sorter : StdSort}.

Definition demo (title : string) (q : RecoveryRequest) (cs : list RecoveryCandidate) : string :=
  let d := (plan q cs (MkUnit 0) example_planner).1 in
  pad_right 32 title +:+ " outcome=" +:+ pad_right 14 (PlanOutcome.to_string (de_outcome d)) +:+
  " selected=" +:+ match de_plan d with
                   | Some p => RecoveryStrategy.to_string (p_strategy p) | None => "-" end.

Definition restore := cand RESTORE 11 (MkUnit 3000) (MkUnit 100) (MkUnit 0).
Definition restart := cand RESTART 12 (MkUnit 1000) (MkUnit 0) (MkUnit 100).
Definition restore_slow := cand RESTORE 11 (MkUnit 500000) (MkUnit 100) (MkUnit 0).
Definition recompute := cand RECOMPUTE 13 (MkUnit 1000) (MkUnit 90) (MkUnit 10).
Definition stale := set_evidence_epoch (MkId 999) (cand RESTORE 11 (MkUnit 1000) (MkUnit 100) (MkUnit 0)).
Definition mig := make_incompatible (cand MIGRATE 21 (MkUnit 2000) (MkUnit 95) (MkUnit 5)).
Definition shadow := cand SHADOW_PROMOTE 31 (MkUnit 50) (MkUnit 100) (MkUnit 0).
Definition slow_restore := cand RESTORE 11 (MkUnit 3000) (MkUnit 100) (MkUnit 0).
Definition rehydrate := cand REHYDRATE 41 (MkUnit 1500) (MkUnit 90) (MkUnit 10).
Definition stale2 := set_evidence_epoch (MkId 999) (cand RESTART 12 (MkUnit 1000) (MkUnit 0) (MkUnit 100)).

(** Example 7: the explanation of a plan. *)
Definition explanation_lines : list string :=
  match de_plan (plan (req_for None) [slow_restore; shadow] (MkUnit 0) example_planner).1 with
  | None => []
  | Some p =>
      let x := p_explanation p in
      ["plan_explanation: strategy=" +:+ RecoveryStrategy.to_string (p_strategy p) +:+
       " candidate=" +:+ to_dec (value (p_candidate_id p)) +:+
       " digest=" +:+ p_decision_digest p +:+
       " rejected=" +:+ to_dec (Z.of_nat (length (x_rejected_alternatives x))) +:+
       " what_changes=" +:+ to_dec (Z.of_nat (length (conditions (x_what_would_change x))))]
  end.

(** Example 8: a restart with a plan in flight.  Nothing catches an exception. *)
Definition restart_line : Result RecoveryError string :=
  let '(d, s) := plan (req_for None) [slow_restore] (MkUnit 0) example_planner in
  let '(r, s) := match de_plan d with
                 | Some p => authorize_plan p (MkUnit 0) s
                 | None => (Ok default_plan, s)
                 end in
  match r with
  | Throw e => Throw e
  | Ok _ =>
      let before := value (current_epoch s) in
      match restart_coordinator (fun _ => MkUnit 0) (Some (MkMemory ∅)) s with
      | (Throw e, _, _) => Throw e
      | (Ok _, _, s) =>
          let after := value (current_epoch s) in
          let invalidated :=
            existsb (fun p => bool_decide (p_state p = PlanLifecycleState.INVALIDATED))
              (map_to_list (plans s)).*2 in
          Ok ("coordinator_restart: epoch=" +:+ to_dec before +:+ "->" +:+ to_dec after +:+
              " inflight_invalidated=" +:+ if invalidated then "YES" else "NO")
      end
  end.

Definition examples_main : Result RecoveryError (Z * list string) :=
  match restart_line with
  | Throw e => Throw e
  | Ok line =>
      Ok (0,
        [demo "restore_vs_restart" (req_for None) [restore; restart];
         demo "deadline_loose_picks_restore" (req_for None) [restore_slow; recompute];
         demo "deadline_tight_picks_recompute" (req_for (Some (MkUnit 5000)))
           [restore_slow; recompute];
         demo "stale_candidate_rejected" (req_for None) [stale];
         demo "incompatible_migration" (req_for None) [mig];
         demo "shadow_promotion" (req_for None) [slow_restore; shadow];
         demo "rehydration" (req_for None) [rehydrate]] ++
        explanation_lines ++
        [line; demo "no_valid_plan" (req_for None) [stale2]])
  end.
End Programs.

(** ** What the program prints *)

Section Sorts.
Context (S1 S2 : StdSort).

Lemma distinct_plan_sort q cs s :
  NoDup (identity_of <$> cs) -> @plan S1 q cs (MkUnit 0) s = @plan S2 q cs (MkUnit 0) s.
Proof. intros [Hd Hn]%distinct_nodup. exact (plan_sort S1 S2 q cs (MkUnit 0) s Hd Hn). Qed.

Lemma demo_sort title q cs :
  NoDup (identity_of <$> cs) -> @demo S1 title q cs = @demo S2 title q cs.
Proof. intros H. unfold demo. by rewrite distinct_plan_sort. Qed.

(** The identities of the lists of the examples. *)
Definition example_lists : list (list RecoveryCandidate) :=
  [[restore; restart]; [restore_slow; recompute]; [stale]; [mig]; [slow_restore; shadow];
   [rehydrate]; [stale2]; [slow_restore]].

Lemma examples_distinct : Forall (fun cs => NoDup (identity_of <$> cs)) example_lists.
Proof. repeat constructor; apply (bool_decide_unpack _); vm_compute; exact I. Qed.

Lemma examples_sort : @examples_main S1 = @examples_main S2.
Proof.
  assert (forall i cs, example_lists !! i = Some cs -> NoDup (identity_of <$> cs)) as Hd.
  { intros i cs Hi. exact (proj1 (Forall_lookup _ _) examples_distinct i cs Hi). }
  assert (@restart_line S1 = @restart_line S2) as Hr.
  { unfold restart_line. by rewrite (distinct_plan_sort _ _ _ (Hd 7%nat _ eq_refl)). }
  assert (@explanation_lines S1 = @explanation_lines S2) as Hx.
  { unfold explanation_lines. by rewrite (distinct_plan_sort _ _ _ (Hd 4%nat _ eq_refl)). }
  unfold examples_main. rewrite Hr, Hx.
  rewrite !(demo_sort _ _ _ (Hd 0%nat _ eq_refl)), !(demo_sort _ _ _ (Hd 1%nat _ eq_refl)),
    !(demo_sort _ _ _ (Hd 2%nat _ eq_refl)), !(demo_sort _ _ _ (Hd 3%nat _ eq_refl)),
    !(demo_sort _ _ _ (Hd 4%nat _ eq_refl)), !(demo_sort _ _ _ (Hd 5%nat _ eq_refl)),
    !(demo_sort _ _ _ (Hd 6%nat _ eq_refl)).
  reflexivity.
Qed.
End Sorts.

(** The example program exits with 0 and prints these lines, whichever correct
    sort the standard library has: each example has the outcome and the strategy
    its title announces (a tight deadline turns the choice from RESTORE to
    RECOMPUTE, stale authority and an incompatible target leave no plan), and a
    restart of the coordinator invalidates the plan in flight. *)
Theorem examples_output {sorter : StdSort} :
  examples_main = Ok (0,
    ["restore_vs_restart               outcome=PLAN_FOUND     selected=RESTORE";
     "deadline_loose_picks_restore     outcome=PLAN_FOUND     selected=RESTORE";
     "deadline_tight_picks_recompute   outcome=PLAN_FOUND     selected=RECOMPUTE";
     "stale_candidate_rejected         outcome=NO_VALID_PLAN  selected=-";
     "incompatible_migration           outcome=NO_VALID_PLAN  selected=-";
     "shadow_promotion                 outcome=PLAN_FOUND     selected=SHADOW_PROMOTE";
     "rehydration                      outcome=PLAN_FOUND     selected=REHYDRATE";
     "plan_explanation: strategy=SHADOW_PROMOTE candidate=31 digest=e61dd8353864dda97a753fa75d6bf3be034e3cc576b1a5121fd0804b16697552 rejected=1 what_changes=1";
     "coordinator_restart: epoch=1->2 inflight_invalidated=YES";
     "no_valid_plan                    outcome=NO_VALID_PLAN  selected=-"]).
Proof. rewrite (examples_sort sorter insertion_std_sort). vm_compute. reflexivity. Qed.
