(* ===== verification/Durable.v ===== *)
(** * Histories across coordinator restarts

    A coordinator's life is a sequence of planner events, saves and restarts over
    one store ([durable_run]).  A restart may also fail in the store, and may find
    no store at all.  The invariants and the safety of plans proved for histories
    of one incarnation hold across incarnations. *)

From stdpp Require Import base gmap strings list.
From S2P Require Import Prelude Types Evidence Feasibility StdSort Economics Digest Plan Explain.
From S2P Require Import Planner PlannerSpec Lifecycle LifecycleSpec LifecycleProps Snapshot.
From S2P Require Import SnapshotSpec Persistence PersistenceSpec PersistenceProps.
#[local] Open Scope Z_scope.

Import PlanLifecycleState.

(** ** The life of a coordinator *)

Inductive Act :=
| AEvent (e : Event)
| ASave
| ARestart (now : Z -> Timestamp).

(** What a restart leaves of the plan stored under [k]; [keep] is what reading it
    back from the store, if there is one, does to it. *)
Definition closed_at (now : Z -> Timestamp) (keep : RecoveryPlan -> RecoveryPlan) (k : Z)
    (p : RecoveryPlan) : RecoveryPlan :=
  if terminal (p_state (keep p)) then keep p
  else p_set_updated (now k) (p_set_state INVALIDATED (keep p)).

Definition keeps (keep : RecoveryPlan -> RecoveryPlan) : Prop := keep = id \/ keep = persisted_plan.

(** The part of a plan that no restart and no event changes once it is terminal. *)
Definition durable_part (p : RecoveryPlan) : RecoveryPlan := persisted_plan (untimed p).

Lemma durable_part_state p p' : durable_part p' = durable_part p -> p_state p' = p_state p.
Proof. intros H. exact (f_equal p_state H). Qed.

Section ClosedAt.
Context (now : Z -> Timestamp) (keep : RecoveryPlan -> RecoveryPlan) (Hkeep : keeps keep) (k : Z).

Lemma closed_terminal p : terminal (p_state (closed_at now keep k p)) = true.
Proof. unfold closed_at. by destruct (terminal (p_state (keep p))) eqn:E. Qed.

Lemma closed_members p :
  let p' := closed_at now keep k p in
  p_plan_id p' = p_plan_id p /\ p_generation p' = p_generation p /\
  p_request_id p' = p_request_id p /\ p_target_boot p' = p_target_boot p /\
  p_last_attempt p' = p_last_attempt p /\ (fenced p -> fenced p').
Proof. unfold closed_at. destruct Hkeep as [-> | ->]; case_match; by split_and!. Qed.

Lemma closed_coherent p : coherent p -> coherent (closed_at now keep k p).
Proof.
  unfold coherent, closed_at.
  destruct Hkeep as [-> | ->]; destruct p as [? ? ? ? ? ? ? ? ? ? ? ? ? ? ? st ? ? ? ? ? ? ? ? ? ?];
    cbn; destruct st; cbn; tauto.
Qed.

(** A finished plan is kept, an unfinished one invalidated. *)
Lemma closed_durable p :
  terminal (p_state p) = true -> durable_part (closed_at now keep k p) = durable_part p.
Proof. unfold closed_at. by destruct Hkeep as [-> | ->]; cbn; intros ->. Qed.

Lemma closed_succeeded p :
  p_state (closed_at now keep k p) = SUCCEEDED -> p_state p = SUCCEEDED.
Proof. unfold closed_at. destruct Hkeep as [-> | ->]; cbn; by case_match. Qed.
End ClosedAt.

Section Durable.
Context {sorter : StdSort} {St : Type} `{LawfulStore St}.
#[local] Abbreviation Config := (option St * Planner)%type.

(** With a store, a restart is described for states the snapshot format holds. *)
Inductive act_step : Act -> Config -> Config -> Prop :=
| as_event e st s : act_step (AEvent e) (st, s) (st, exec e s)
| as_save st s r st' : save_state st s = (r, st') -> act_step ASave (st, s) (st', s)
| as_restart now st s r st' s' :
    (st = None \/ Storable s) -> restart_coordinator now st s = (r, st', s') ->
    act_step (ARestart now) (st, s) (st', s').

Inductive durable_run : list Act -> Config -> Config -> Prop :=
| dr_nil c : durable_run [] c c
| dr_snoc l a c c1 c2 :
    durable_run l c c1 -> act_step a c1 c2 -> durable_run (l ++ [a]) c c2.

(** ** What one restart does to the planner *)

Lemma restart_keeps (st : option St) s st' :
  (st = None \/ Storable s) -> save_locked st s = (Ok tt, st') ->
  exists keep, keeps keep /\ plans (reload st' (restarting s)) = keep <$> plans s.
Proof.
  intros Hst Hsave. destruct st as [st|].
  - destruct Hst as [[=]|Hs]. apply save_locked_ok in Hsave as (st1 & -> & Hl).
    exists persisted_plan. split; [by right|]. cbn [reload]. by rewrite Hl, snapshot_applied.
  - injection Hsave as <-. exists id. split; [by left|]. cbn. by rewrite map_fmap_id.
Qed.

Lemma restart_effect now (st : option St) s r st' s' :
  (st = None \/ Storable s) -> restart_coordinator now st s = (r, st', s') ->
  s' = s \/
  exists keep, keeps keep /\ (forall k, plans s' !! k = closed_at now keep k <$> plans s !! k) /\
    dispatch_meta s' = dispatch_meta s /\ next_plan_id s' = next_plan_id s /\
    next_generation s' = next_generation s.
Proof.
  intros Hst E. destruct r as [[]|e].
  - right. apply restart_ok in E as [Hsave ->].
    destruct (restart_keeps st s st' Hst Hsave) as (keep & Hk & Hp).
    destruct (reload_authority st' (restarting s)) as [_ _ _ _ _ _ Hm [Hi Hg]].
    exists keep. split; [done|]. split; [|done]. intros k. cbn [after_restart plans set_history set_plans].
    rewrite invalidate_lookup, Hp, lookup_fmap. by destruct (plans s !! k).
  - left. unfold restart_coordinator in E. destruct (save_locked _ _) as [[[]|e'] st1]; [done|].
    by injection E as _ _ <-.
Qed.

Lemma restart_plan now (st : option St) s st' s' :
  restart_coordinator now st s = (Ok tt, st', s') -> (st = None \/ Storable s) ->
  forall k p, plans s !! k = Some p ->
  exists keep, keeps keep /\ plans s' !! k = Some (closed_at now keep k p).
Proof.
  intros E Hst k p Hk. destruct (restart_ok _ _ _ _ _ E) as [Hsave ->].
  destruct (restart_keeps st s st' Hst Hsave) as (keep & Hkeep & Hp).
  exists keep. split; [done|]. cbn [after_restart plans set_history set_plans].
  by rewrite invalidate_lookup, Hp, lookup_fmap, Hk.
Qed.

Lemma invariant_restart n now (st : option St) s r st' s' :
  (st = None \/ Storable s) -> restart_coordinator now st s = (r, st', s') ->
  Invariant n s -> Invariant n s'.
Proof.
  intros Hst E Hinv.
  destruct (restart_effect _ _ _ _ _ _ Hst E) as [->|(keep & Hk & Hp & Hm & Hi & Hg)]; [done|].
  destruct Hinv as [Hc Hb Hpl Ho Hme].
  assert (forall k p', plans s' !! k = Some p' ->
            exists p, plans s !! k = Some p /\ p' = closed_at now keep k p) as Hback.
  { intros k p'. rewrite Hp, fmap_Some. intros (p & ? & ->). eauto. }
  split; [congruence|by rewrite Hi|..].
  - intros k p' (p & Hkp & ->)%Hback. destruct (Hpl _ _ Hkp) as [Hkey Hid Hgen Hf Hco].
    destruct (closed_members now keep Hk k p) as (Ei & Eg & _ & _ & _ & Ef).
    split; [by rewrite Hi|congruence|congruence|auto|by apply closed_coherent].
  - intros k1 k2 p1 p2 (p & _ & ->)%Hback _ _ Hop. unfold open in Hop.
    by rewrite (closed_terminal now keep k1 p) in Hop.
  - intros k m Hkm. rewrite Hm in Hkm. destruct (Hme _ _ Hkm) as [-> (p & Hpm & -> & Ha)].
    split; [done|]. cbn [fst] in *. exists (closed_at now keep (value (p_plan_id p)) p).
    destruct (closed_members now keep Hk (value (p_plan_id p)) p) as (Ei & Eg & _ & Eb & Ea & _).
    split; [by rewrite Hp, Hpm|]. by rewrite Ei, Eg, Eb, Ea.
Qed.

(** ** Whole lives *)

Lemma act_step_invariant n a c c' :
  Z.of_nat n + 1 < 2 ^ 64 - 1 -> act_step a c c' -> Invariant n c.2 -> Invariant (S n) c'.2.
Proof.
  intros Hn Ha Hinv.
  assert (forall s, Invariant n s -> Invariant (S n) s) as Hmono.
  { intros s [? ? ? ? ?]. split; [done|lia|done..]. }
  destruct Ha as [e st s|st s r st' E|now st s r st' s' Hst E]; cbn [snd] in *.
  - by apply invariant_exec.
  - by apply Hmono.
  - by eapply Hmono, invariant_restart.
Qed.

Lemma durable_invariant n l c c' :
  Z.of_nat (n + length l) < 2 ^ 64 - 1 -> durable_run l c c' -> Invariant n c.2 ->
  Invariant (n + length l) c'.2.
Proof.
  intros Hn Hr Hinv. induction Hr as [c|l a c c1 c2 Hr IH Ha]; [by rewrite Nat.add_0_r|].
  rewrite length_app, Nat.add_1_r, Nat.add_succ_r in *.
  apply (act_step_invariant _ a c1); [lia|done|]. apply IH; [lia|done].
Qed.

(** One act leaves a terminal plan's durable part alone. *)
Lemma act_step_terminal n a c c' k p :
  act_step a c c' -> Invariant n c.2 -> plans c.2 !! k = Some p -> terminal (p_state p) = true ->
  exists p', plans c'.2 !! k = Some p' /\ durable_part p' = durable_part p.
Proof.
  intros Ha Hinv Hk Ht. destruct Ha as [e st s|st s r st' E|now st s r st' s' Hst E]; cbn [snd] in *.
  - destruct (exec_plan n s e k p Hinv Hk) as (p' & Hp' & Hs). exists p'. split; [done|].
    unfold durable_part. by rewrite (plan_step_terminal _ _ Hs Ht).
  - by exists p.
  - destruct (restart_effect _ _ _ _ _ _ Hst E) as [->|(keep & Hkeep & Hp & _)]; [by exists p|].
    exists (closed_at now keep k p). split; [by rewrite Hp, Hk|]. by apply closed_durable.
Qed.

Lemma durable_terminal n l c c' k p :
  Z.of_nat (n + length l) < 2 ^ 64 - 1 -> durable_run l c c' -> Invariant n c.2 ->
  plans c.2 !! k = Some p -> terminal (p_state p) = true ->
  exists p', plans c'.2 !! k = Some p' /\ durable_part p' = durable_part p.
Proof.
  intros Hn Hr Hinv Hk Ht. induction Hr as [c|l a c c1 c2 Hr IH Ha]; [by exists p|].
  rewrite length_app, Nat.add_1_r, Nat.add_succ_r in Hn.
  destruct IH as (p1 & Hp1 & E1); [lia|done|done|].
  assert (Invariant (n + length l) c1.2) as Hinv1 by (apply (durable_invariant _ _ c); [lia|done..]).
  destruct (act_step_terminal _ a c1 c2 k p1 Ha Hinv1 Hp1) as (p2 & Hp2 & E2).
  - by rewrite (durable_part_state _ _ E1).
  - exists p2. split; [done|]. by rewrite E2.
Qed.

(** A success was there at the start, or was reported since. *)
Lemma success_origin l c c' k p :
  durable_run l c c' -> plans c'.2 !! k = Some p -> p_state p = SUCCEEDED ->
  (exists p0, plans c.2 !! k = Some p0 /\ p_state p0 = SUCCEEDED) \/
  exists r now, AEvent (EReport r now) ∈ l /\ Reports r k p.
Proof.
  intros Hr. revert p. induction Hr as [c|l a c c1 c2 Hr IH Ha]; intros p Hk Hs;
    [left; by exists p|].
  assert (forall p1, plans c1.2 !! k = Some p1 -> p_state p1 = SUCCEEDED ->
            p_generation p = p_generation p1 -> p_target_boot p = p_target_boot p1 ->
            (exists p0, plans c.2 !! k = Some p0 /\ p_state p0 = SUCCEEDED) \/
            exists r now, AEvent (EReport r now) ∈ l ++ [a] /\ Reports r k p) as Hold.
  { intros p1 Hp1 Hs1 Eg Eb. destruct (IH p1 Hp1 Hs1) as [?|(r & now & Hin & R)]; [by left|].
    destruct R as (? & ? & ? & ?). right. exists r, now.
    split; [by apply elem_of_app; left|]. split_and!; congruence. }
  destruct Ha as [e st1 s1|st1 s1 r st' E|now st1 s1 r st' s' Hst E]; cbn [snd] in *.
  - destruct (success_step e s1 k p Hk Hs) as [(p0 & Hp0 & Hs0 & Hf)|(r & now & -> & R)].
    + destruct (fixed_part_members _ _ Hf) as (_ & Eg & _ & Eb & _). by eapply Hold.
    + right. exists r, now. split; [|done]. apply elem_of_app. right.
      by apply list_elem_of_singleton.
  - by eapply Hold.
  - destruct (restart_effect _ _ _ _ _ _ Hst E) as [->|(keep & Hkeep & Hp & _)]; [by eapply Hold|].
    rewrite Hp in Hk. apply fmap_Some in Hk as (p0 & Hp0 & ->).
    destruct (closed_members now keep Hkeep k p0) as (_ & Eg & _ & Eb & _).
    eapply Hold; eauto using closed_succeeded.
Qed.

Lemma durable_events es (st : option St) s : durable_run (AEvent <$> es) (st, s) (st, run es s).
Proof.
  induction es as [|e es IH] using rev_ind; [constructor|].
  rewrite fmap_app. unfold run. rewrite foldl_app. eapply dr_snoc; [exact IH|constructor].
Qed.

Lemma new_planner_invariant n : Invariant n new_planner.
Proof. split; [done|cbn; lia|done|done|done]. Qed.
End Durable.

(** ** The safety of a coordinator's whole life *)

(** C3: The invariant of histories ([reachable_states_sound]) holds throughout the
    life of a coordinator: events, saves that succeed or fail, and restarts over
    any store that keeps what it accepts, in any order. *)
Theorem durable_states_sound {sorter : StdSort} {St} `{LawfulStore St} l (st0 : option St) st s :
  Z.of_nat (length l) < 2 ^ 64 - 1 -> durable_run l (st0, new_planner) (st, s) ->
  Invariant (length l) s.
Proof.
  intros Hn Hr. apply (durable_invariant 0 l (st0, new_planner) (st, s) Hn Hr).
  apply new_planner_invariant.
Qed.

(** A life with a success, a restart over a store in memory, and a late report. *)
Definition twenty (k : Z) : Timestamp := MkUnit 20.
Definition life_events : list Act := (AEvent <$> demo_events) ++ [ARestart twenty].
Definition life : list Act := life_events ++ (AEvent <$> [EReport (success_report 1) (MkUnit 21)]).
Definition life_restart : Result RecoveryError unit * option MemoryStore * Planner :=
  restart_coordinator twenty (Some (MkMemory ∅)) demo_state.
Definition life_state : Planner :=
  run [EReport (success_report 1) (MkUnit 21)] life_restart.2.

Lemma state_of (m : gmap Z RecoveryPlan) k p st :
  m !! k = Some p -> p_state <$> m !! k = Some st -> p_state p = st.
Proof. intros ->. by intros [= ->]. Qed.

Lemma triple_eta {A B C} (x : A * B * C) : x = (x.1.1, x.1.2, x.2).
Proof. by destruct x as [[a b] c]. Qed.

Lemma life_run :
  durable_run life (Some (MkMemory ∅), new_planner) (life_restart.1.2, life_state).
Proof.
  unfold life.
  apply (dr_snoc life_events (AEvent (EReport (success_report 1) (MkUnit 21))) _
           (life_restart.1.2, life_restart.2)); [|constructor].
  unfold life_events.
  apply (dr_snoc (AEvent <$> demo_events) (ARestart twenty) _ (Some (MkMemory ∅), demo_state)).
  { exact (durable_events demo_events (Some (MkMemory ∅)) new_planner). }
  apply (as_restart twenty (Some (MkMemory ∅)) demo_state life_restart.1.1);
    [right; exact demo_storable|].
  exact (triple_eta life_restart).
Qed.

Lemma durable_states_sound_witness :
  Invariant (length life) life_state /\ ctx_epoch (ctx life_state) = MkId 2.
Proof.
  split; [|vm_compute; reflexivity].
  apply (durable_states_sound life (Some (MkMemory ∅)) life_restart.1.2 life_state);
    [vm_compute; reflexivity|exact life_run].
Defined.

(** C4: A restart is a barrier: what was finished before it stays as it was for
    ever after, through later restarts too, and what was not is [INVALIDATED] for
    ever; no late report, receipt or new plan brings it back. *)
Theorem restart_is_barrier {sorter : StdSort} {St} `{LawfulStore St} l0 l (st0 : option St) st s now
    st1 s1 st2 s2 k p :
  Z.of_nat (length l0 + length l) < 2 ^ 64 - 1 ->
  durable_run l0 (st0, new_planner) (st, s) -> (st = None \/ Storable s) ->
  restart_coordinator now st s = (Ok tt, st1, s1) ->
  durable_run l (st1, s1) (st2, s2) -> plans s !! k = Some p ->
  exists p', plans s2 !! k = Some p' /\
    if terminal (p_state p) then durable_part p' = durable_part p
    else p_state p' = INVALIDATED.
Proof.
  intros Hn Hr0 Hst E Hr Hk.
  assert (Invariant (length l0) s) as Hinv.
  { apply (durable_states_sound l0 st0 st); [lia|done]. }
  pose proof (invariant_restart _ _ _ _ _ _ _ Hst E Hinv) as Hinv1.
  assert (exists p1, plans s1 !! k = Some p1 /\ terminal (p_state p1) = true /\
            if terminal (p_state p) then durable_part p1 = durable_part p
            else p_state p1 = INVALIDATED) as (p1 & Hp1 & Ht1 & He).
  { destruct (restart_plan _ _ _ _ _ E Hst k p Hk) as (keep & Hkeep & Hp1).
    exists (closed_at now keep k p). split; [done|]. split; [apply closed_terminal|].
    destruct (terminal (p_state p)) eqn:Ht; [by apply closed_durable|].
    unfold closed_at. destruct Hkeep as [-> | ->]; cbn; by rewrite Ht. }
  destruct (durable_terminal _ l (st1, s1) (st2, s2) k p1 Hn Hr Hinv1 Hp1 Ht1) as (p2 & Hp2 & E2).
  exists p2. split; [done|].
  destruct (terminal (p_state p)); [by rewrite E2|by rewrite (durable_part_state _ _ E2)].
Qed.

(** A dispatched plan, a restart without a store, and then the report of success. *)
Lemma restart_is_barrier_witness :
  p_state <$> plans dispatched_state !! 1 = Some DISPATCHED /\
  exists p', plans (run [EReport (success_report 1) (MkUnit 21)] restarted_state) !! 1 = Some p' /\
             p_state p' = INVALIDATED.
Proof.
  split; [vm_compute; reflexivity|].
  destruct (plans dispatched_state !! 1) as [p|] eqn:Hp; [|vm_compute in Hp; discriminate].
  destruct (restart_is_barrier (AEvent <$> (world_events ++ plan_events 1))
              (AEvent <$> [EReport (success_report 1) (MkUnit 21)])
              (@None MemoryStore) None dispatched_state twenty None restarted_state None
              (run [EReport (success_report 1) (MkUnit 21)] restarted_state) 1 p)
    as (p' & Hp' & Hs).
  - vm_compute. reflexivity.
  - exact (durable_events (world_events ++ plan_events 1) None new_planner).
  - by left.
  - reflexivity.
  - exact (durable_events [EReport (success_report 1) (MkUnit 21)] None restarted_state).
  - exact Hp.
  - exists p'. split; [exact Hp'|]. revert Hs.
    by rewrite (state_of _ _ _ DISPATCHED Hp ltac:(vm_compute; reflexivity)).
Defined.

(** C5: No silent success across restarts: a plan that is [SUCCEEDED] at any point
    of a coordinator's life was reported so in it, by a report carrying the plan's
    own id and generation and the boot id of its target; a restart never makes a
    success out of anything else. *)
Theorem durable_success_reported {sorter : StdSort} {St} `{LawfulStore St} l (st0 : option St) st s
    k p :
  durable_run l (st0, new_planner) (st, s) ->
  plans s !! k = Some p -> p_state p = SUCCEEDED ->
  exists r now, AEvent (EReport r now) ∈ l /\ Reports r k p.
Proof.
  intros Hr Hk Hs.
  by destruct (success_origin l (st0, new_planner) (st, s) k p Hr Hk Hs) as [(p0 & Hp0 & _)|Hrep].
Qed.

Lemma durable_success_reported_witness :
  exists p r now, plans life_state !! 1 = Some p /\ AEvent (EReport r now) ∈ life /\
    Reports r 1 p.
Proof.
  destruct (plans life_state !! 1) as [p|] eqn:Hp; [|vm_compute in Hp; discriminate].
  destruct (durable_success_reported life (Some (MkMemory ∅)) life_restart.1.2 life_state 1 p)
    as (r & now & Hin & Hr).
  - exact life_run.
  - exact Hp.
  - exact (state_of _ _ _ SUCCEEDED Hp ltac:(vm_compute; reflexivity)).
  - exists p, r, now. exact (conj eq_refl (conj Hin Hr)).
Defined.

(** ** What a restart does not save *)

(** [restart_coordinator] saves before it advances the authority and does not save
    again: a planner that loads what the store then holds has the epoch and boot
    from before the restart and the plans the restart invalidated as they were, and
    its own restart takes the very epoch the first one had issued. *)
Lemma restart_epoch_reissued {St} `{LawfulStore St} now now' (st : St) s st' s' s0 :
  Storable s -> restart_coordinator now (Some st) s = (Ok tt, st', s') ->
  let s1 := (load_state st' s0).2 in
  ctx_epoch (ctx s') = next (ctx_epoch (ctx s)) /\
  ctx_epoch (ctx s1) = ctx_epoch (ctx s) /\ ctx_planner_boot (ctx s1) = ctx_planner_boot (ctx s) /\
  plans s1 = persisted_plan <$> plans s /\
  forall st2 s2, restart_coordinator now' (@None St) s1 = (Ok tt, st2, s2) ->
    ctx_epoch (ctx s2) = ctx_epoch (ctx s') /\ ctx_planner_boot (ctx s2) = ctx_planner_boot (ctx s').
Proof.
  intros Hs Hr. apply restart_ok in Hr as [Hsave ->].
  destruct (save_locked_ok _ _ _ Hsave) as (st1 & -> & Hl).
  destruct (reload_authority (Some st1) (restarting s)) as [He Hb _ _ _ _ _ _].
  cbn [load_state snd load_locked]. rewrite Hl, snapshot_applied by done. cbn [snd].
  split; [exact He|]. split; [done|]. split; [done|]. split; [done|].
  intros st2 s2 Hr2. apply restart_ok in Hr2 as [Hn ->]. injection Hn as <-.
  split; [exact (eq_sym He)|exact (eq_sym Hb)].
Qed.
