(* ===== verification/Text.v ===== *)
(** * Sizes of the texts the planner writes

    [fits n s]: [s] has no NUL and at most [n] characters.  The history entries,
    payloads and digests the planner stores are far below the 4096 characters the
    snapshot format holds, whatever numbers they print. *)

From Stdlib Require Import Ascii String DecimalFacts DecimalString DecimalZ.
From stdpp Require Import base gmap strings list.
From S2P Require Import Prelude Types Evidence Feasibility Economics Digest DigestSpec Plan Explain.
From S2P Require Import Planner Persistence.
#[local] Open Scope Z_scope.

Definition fits (n : Z) (s : string) : Prop :=
  Forall (fun b => b <> 0) (string_bytes s) /\ Z.of_nat (String.length s) <= n.

Lemma fits_storable n s : fits n s -> n <= 4096 -> storable s.
Proof. intros [Hz Hl] Hn. split; [done|lia]. Qed.

Lemma fits_mono n m s : fits n s -> n <= m -> fits m s.
Proof. intros [Hz Hl] Hn. split; [done|lia]. Qed.

Lemma fits_app n m a b : fits n a -> fits m b -> fits (n + m) (a +:+ b).
Proof.
  intros [Ha La] [Hb Lb]. split; [rewrite string_bytes_app; by apply Forall_app|].
  rewrite length_string_app. lia.
Qed.

(** Concrete text. *)
Definition plain (n : Z) (s : string) : bool :=
  forallb (fun b => negb (b =? 0)) (string_bytes s) && (Z.of_nat (String.length s) <=? n).

Lemma fits_plain n s : plain n s = true -> fits n s.
Proof.
  unfold plain. rewrite andb_true_iff, forallb_forall. intros [Hz Hl%Z.leb_le].
  split; [|exact Hl]. apply Forall_forall. intros b Hb.
  apply Z.eqb_neq, negb_true_iff, Hz, list_elem_of_In, Hb.
Qed.

(** ** Numbers

    At most one digit for each bit. *)

Lemma little_double_digits d :
  (Decimal.nb_digits (Decimal.Little.double d) <= S (Decimal.nb_digits d))%nat /\
  (Decimal.nb_digits (Decimal.Little.succ_double d) <= S (Decimal.nb_digits d))%nat.
Proof. induction d; cbn [Decimal.Little.double Decimal.Little.succ_double Decimal.nb_digits]; lia. Qed.

Lemma little_digits n p :
  Z.pos p < 2 ^ Z.of_nat n -> (Decimal.nb_digits (Pos.to_little_uint p) <= n)%nat.
Proof.
  revert n. induction p as [p IH|p IH|]; intros [|n] Hn; try (cbn in *; lia);
    rewrite Nat2Z.inj_succ, Z.pow_succ_r in Hn by lia; specialize (IH n ltac:(lia)); cbn;
    pose proof (little_double_digits (Pos.to_little_uint p)); lia.
Qed.

(** The text of [d] has its digits only, and one more for the empty number. *)
Lemma uint_text d :
  fits (Z.of_nat (Decimal.nb_digits d)) (NilEmpty.string_of_uint d).
Proof.
  induction d as [|d IH|d IH|d IH|d IH|d IH|d IH|d IH|d IH|d IH|d IH]; [by split|..].
  all: destruct IH as [Hz Hl]; split; [by constructor|]; cbn [NilEmpty.string_of_uint String.length].
  all: cbn [Decimal.nb_digits]; lia.
Qed.

Lemma fits_dec z : is_u 64 z -> fits 64 (to_dec z).
Proof.
  intros [H0 H1]. unfold to_dec. destruct z as [|p|p]; [by apply fits_plain| |lia].
  cbn [Z.to_int]. unfold NilZero.string_of_int, NilZero.string_of_uint.
  assert (fits 64 (NilEmpty.string_of_uint (Pos.to_uint p))) as Hf.
  { eapply fits_mono; [apply uint_text|].
    unfold Pos.to_uint. rewrite DecimalFacts.nb_digits_rev.
    pose proof (little_digits 64 p ltac:(lia)). lia. }
  destruct (Pos.to_uint p) eqn:E; [by apply fits_plain|exact Hf..].
Qed.

(** ** Enumerations and digests *)

Lemma fits_strategy s : fits 64 (RecoveryStrategy.to_string s).
Proof. apply fits_plain. by destruct s. Qed.

Lemma fits_outcome o : fits 64 (PlanOutcome.to_string o).
Proof. apply fits_plain. by destruct o. Qed.

Lemma length_sha_block msg h off : length h = 8%nat -> length (sha_block msg h off) = 8%nat.
Proof. intros Hh. unfold sha_block. rewrite length_zip_with, Hh. reflexivity. Qed.

Lemma length_sha256 data : length (sha256 data) = 32%nat.
Proof.
  unfold sha256. generalize ((fun i => (64 * i)%nat) <$> seq 0 (length (sha_pad data) / 64)%nat).
  intros offs.
  assert (length (foldl (sha_block (sha_pad data)) sha_init offs) = 8%nat) as Hl.
  { assert (length sha_init = 8%nat) as Hi by done. revert Hi. generalize sha_init as h.
    induction offs as [|off offs IH]; intros h Hh; [done|]. cbn [foldl].
    apply IH. by apply length_sha_block. }
  revert Hl. generalize (foldl (sha_block (sha_pad data)) sha_init offs). intros h Hl.
  do 8 (destruct h as [|? h]; [discriminate|]). by destruct h.
Qed.

Lemma hex_digit_nonzero z : Z.of_N (N_of_ascii (hex_digit z)) <> 0.
Proof.
  unfold hex_digit. destruct (hex_digits !! Z.to_nat z) as [c|] eqn:E; [|done].
  apply list_elem_of_lookup_2 in E. unfold hex_digits in E. cbn [default].
  repeat (apply elem_of_cons in E as [->|E]; [done|]). by apply not_elem_of_nil in E.
Qed.

Lemma length_of_ascii l : String.length (string_of_list_ascii l) = length l.
Proof. induction l as [|c l IH]; [done|]. cbn. by rewrite IH. Qed.

Lemma fits_hex data : fits (2 * Z.of_nat (length data)) (hex_encode data).
Proof.
  unfold hex_encode. split.
  - unfold string_bytes. rewrite list_ascii_of_string_of_list_ascii. apply Forall_fmap.
    apply Forall_bind, Forall_forall. intros b _.
    repeat constructor; apply hex_digit_nonzero.
  - rewrite length_of_ascii. induction data as [|b data IH]; [done|]. cbn in *. lia.
Qed.

Lemma fits_decision_digest q p c : fits 64 (decision_digest q p c).
Proof. pose proof (fits_hex (sha256 (decision_bytes q p c))) as H. by rewrite length_sha256 in H. Qed.

(** ** The planner's texts *)

(** Pieces of at most 64 characters, put together. *)
Ltac text_piece :=
  first [ eassumption | apply fits_strategy | apply fits_outcome
        | apply fits_dec; eassumption | apply (fits_plain 64); reflexivity ].
Ltac text := eapply fits_mono; [repeat (first [text_piece | eapply fits_app])|lia].

Lemma fits_payload c :
  id_wf (c_target_worker c) -> id_wf (c_target_boot c) -> id_wf (c_state_source c) ->
  id_wf (c_state_generation c) -> fits 1000 (build_payload c).
Proof. unfold id_wf. intros. unfold build_payload. text. Qed.

Lemma fits_history_entry q d :
  id_wf (q_request_id q) -> id_wf (q_workload q) ->
  (forall p, de_plan d = Some p ->
     id_wf (p_plan_id p) /\ id_wf (p_candidate_id p) /\ fits 64 (p_decision_digest p)) ->
  fits 2000 (history_entry q d).
Proof.
  unfold id_wf. intros Hr Hw Hp. unfold history_entry.
  destruct (de_plan d) as [p|]; [|text].
  destruct (Hp p eq_refl) as (Hi & Hc & Hg). text.
Qed.

Lemma fits_restart_message c :
  id_wf (ctx_epoch c) -> id_wf (ctx_planner_boot c) -> fits 1000 (restart_message c).
Proof. unfold id_wf. intros. unfold restart_message. text. Qed.
