(* ===== verification/Typing.v ===== *)
(** * Every state a coordinator reaches can be stored and read back

    The typing of the planner's values: with inputs whose integers are within the
    width of their C++ types and whose texts the format holds, every event, save
    and restart keeps the state within what the snapshot format holds
    ([Storable]), so that the round trip of [SnapshotSpec] applies to all of them
    and a restart always finds what the planner knew. *)

From stdpp Require Import base gmap strings list.
From S2P Require Import Prelude Types Evidence Feasibility StdSort Economics Digest DigestSpec Plan.
From S2P Require Import Explain Planner PlannerSpec Lifecycle LifecycleSpec LifecycleProps Snapshot.
From S2P Require Import Executor Cli SnapshotSpec Persistence PersistenceSpec PersistenceProps Durable Text.
#[local] Open Scope Z_scope.

Import PlanLifecycleState.

(** ** Inputs within their types *)

Record CandidateTyped (c : RecoveryCandidate) : Prop := {
  ct_candidate : id_wf (c_candidate_id c);
  ct_generation : id_wf (c_generation c);
  ct_strategy : RecoveryStrategy.code (c_strategy c) < 256;
  ct_target_worker : id_wf (c_target_worker c);
  ct_target_boot : id_wf (c_target_boot c);
  ct_target_engine : id_wf (c_target_engine c);
  ct_incarnation : id_wf (c_target_engine_incarnation c);
  ct_state_source : id_wf (c_state_source c);
  ct_state_generation : id_wf (c_state_generation c);
  ct_checkpoint : id_wf (c_checkpoint_source c) }.

Definition time_typed (t : Timestamp) : Prop := is_i64 (count t).

(** What the clocks read is within the type of a timestamp. *)
Lemma system_clock_typed (c : SystemClock) : time_typed (impl_now (Some c)).
Proof. apply i64_range. Qed.

Lemma advanced_clock_typed d c : time_typed (impl_now (Some (advance d c))).
Proof. apply i64_range. Qed.

Lemma no_clock_typed : time_typed (impl_now (@None SystemClock)).
Proof. split; vm_compute; discriminate. Qed.

Definition EventTyped (e : Event) : Prop :=
  match e with
  | EPlan q cs now => RequestStorable q /\ Forall CandidateTyped cs /\ time_typed now
  | EAuthorize _ now | EDispatchBegin _ now | EDispatchFinish _ _ now | EReport _ now
  | ECancel _ _ now | EInvalidate _ now => time_typed now
  | ERegister w b => id_wf w /\ id_wf b
  | ETakeCompletion _ _ _ _ _ | EUnregister _ | ESetResource _ _ | ESetRecompute _ _ => True
  end.

Definition ActTyped (a : Act) : Prop :=
  match a with
  | AEvent e => EventTyped e
  | ASave => True
  | ARestart now => forall k, time_typed (now k)
  end.

(** ** States *)

(** [n] bounds every collection that is counted in 32 bits. *)
Record Typed (n : nat) (s : Planner) : Prop := {
  ty_storable : Storable s;
  ty_next_id : is_u 64 (next_plan_id s);
  ty_next_generation : is_u 64 (next_generation s);
  ty_workers : (size (ctx_worker_boots (ctx s)) <= n)%nat;
  ty_requests : (size (requests s) <= n)%nat;
  ty_plans : (size (plans s) <= n)%nat;
  ty_history : (length (history s) <= n)%nat }.

Lemma typed_mono n m s : (n <= m)%nat -> Typed n s -> Typed m s.
Proof. intros Hn []. split; [done..| | | |]; lia. Qed.

Lemma new_planner_typed n : Typed n new_planner.
Proof.
  split; [|by split..|apply le_0_n|apply le_0_n|apply le_0_n|apply le_0_n].
  split; repeat first [done | split | constructor].
Qed.

(** ** Plans *)

Lemma storable_explained x p : PlanStorable (p_set_explanation x p) -> PlanStorable p.
Proof. intros []. split; assumption. Qed.

Lemma authority_storable q c cx gen :
  RequestStorable q -> CandidateTyped c -> ContextStorable cx -> id_wf gen ->
  AuthorityStorable (plan_authority_of q c cx gen).
Proof. intros [] [] [] Hg. split; assumption. Qed.

Lemma new_plan_storable q cx now id gen c p :
  RequestStorable q -> CandidateTyped c -> ContextStorable cx -> time_typed now ->
  is_u 64 id -> is_u 64 gen -> PlanFor q cx now id gen c p -> PlanStorable p.
Proof.
  intros Hq Hc Hx Hn Hi Hg Hp. apply (storable_explained default_explanation). rewrite Hp.
  pose proof (authority_storable q c cx (MkId gen) Hq Hc Hx Hg) as Ha.
  pose proof Hq as []. pose proof Hc as []. unfold plan_of.
  split; cbn [p_set_digest p_plan_id p_generation p_request_id p_workload p_strategy p_candidate_id
    p_candidate_generation p_target_worker p_target_boot p_target_engine p_engine_incarnation
    p_state_source p_state_generation p_checkpoint_source p_authority p_state p_created_at
    p_updated_at p_last_attempt p_execution_outcome p_dispatch_payload p_decision_digest
    assessed rank_candidate k_candidate k_economics k_deadline]; try assumption.
  - done.
  - done.
  - by unfold id_wf, is_u.
  - by eapply fits_storable; [apply fits_payload|].
  - by eapply fits_storable; [apply fits_decision_digest|].
Qed.

Lemma plan_for_id q cx now id gen c p :
  PlanFor q cx now id gen c p -> p_plan_id p = MkId id.
Proof. unfold PlanFor. intros Hp. exact (f_equal p_plan_id Hp). Qed.

Lemma plan_for_fits q cx now id gen c p :
  PlanFor q cx now id gen c p -> fits 64 (p_decision_digest p).
Proof.
  unfold PlanFor. intros Hp. apply (f_equal p_decision_digest) in Hp.
  cbn [p_decision_digest p_set_explanation] in Hp. rewrite Hp. unfold plan_of.
  cbn [p_decision_digest p_set_digest]. apply fits_decision_digest.
Qed.

(** A step gives a storable plan when the time it writes is in range. *)
Lemma plan_step_storable p p' :
  plan_step p p' -> time_typed (p_updated_at p') -> PlanStorable p -> PlanStorable p'.
Proof.
  intros Hs Ht Hp. pose proof Hp as [].
  assert (PlanLifecycleState.code (p_state p') < 256 /\ id_wf (p_last_attempt p') /\
          ExecutionOutcome.code (p_execution_outcome p') < 256) as (H1 & H2 & H3).
  { destruct Hs as [|now H|now H|status now|o now H|now H|now H|now H];
      cbn; unfold apply_receipt, apply_outcome, close_plan; repeat case_match; cbn;
      split_and!; try done; apply u64_range. }
  assert (fixed_part p' = fixed_part p) as Hf by exact (plan_step_fixed _ _ Hs).
  destruct p, p'. cbn in *. injection Hf as -> -> -> -> -> -> -> -> -> -> -> -> -> -> -> -> -> -> -> -> ->.
  split; cbn; assumption.
Qed.

(** ** Events *)

(** The clock reading an event writes. *)
Definition event_time (e : Event) : option Timestamp :=
  match e with
  | EPlan _ _ now | EAuthorize _ now | EDispatchBegin _ now | EDispatchFinish _ _ now
  | EReport _ now | ECancel _ _ now | EInvalidate _ now => Some now
  | _ => None
  end.

Lemma event_time_typed e now : EventTyped e -> event_time e = Some now -> time_typed now.
Proof. destruct e; cbn; intros He [= <-]; naive_solver. Qed.

Lemma plans_step_size m m' : plans_step m m' -> size m' = size m.
Proof.
  intros H. rewrite <- !size_dom. f_equal. apply set_eq. intros k. rewrite !elem_of_dom.
  specialize (H k). destruct (m !! k), (m' !! k); try done; split; by intros [].
Qed.

Section Events.
Context {sorter : StdSort}.

(** Of the members a lifecycle event can change, only times come from outside. *)
Lemma event_writes e s k p' :
  (forall q cs now, e <> EPlan q cs now) -> plans (exec e s) !! k = Some p' ->
  plans s !! k = Some p' \/ event_time e = Some (p_updated_at p').
Proof.
  intros Hne. destruct e as [q cs now| | | | | | | | | | |]; [by destruct (Hne q cs now)|..];
    cbn [exec event_time];
    unfold authorize_plan, dispatch_begin, dispatch_finish, take_completion, report_execution,
      cancel_plan, invalidate_plan;
    repeat case_match; simplify_eq; cbn; auto;
    intros [[<- <-]|[_ Hk]]%lookup_insert_Some; auto.
Qed.

Lemma event_rest e s :
  (forall q cs now, e <> EPlan q cs now) ->
  requests (exec e s) = requests s /\ history (exec e s) = history s /\
  (ctx (exec e s) = ctx s \/
   exists w b, e = ERegister w b /\ ctx (exec e s) = ctx_register_worker w b (ctx s) \/
               ctx_worker_boots (ctx (exec e s)) = ctx_worker_boots (ctx s) /\
               (ContextStorable (ctx s) -> ContextStorable (ctx (exec e s)))).
Proof.
  intros Hne. destruct e as [q cs now| | | | | | | |w b| | |];
    [by destruct (Hne q cs now)|..]; cbn [exec];
    unfold authorize_plan, dispatch_begin, dispatch_finish, take_completion, report_execution,
      cancel_plan, invalidate_plan;
    repeat case_match; simplify_eq; cbn; split_and!; try done; auto.
  all: right.
  all: try (exists w, b; by left).
  all: exists id_null, id_null; right; (split; [done|]); intros []; split; assumption.
Qed.

Lemma lifecycle_typed n e s :
  (forall q cs now, e <> EPlan q cs now) -> Z.of_nat n + 1 < 2 ^ 32 -> EventTyped e ->
  Typed n s -> Typed (S n) (exec e s).
Proof.
  intros Hne Hn He [[Hc Hr Hrn Hp Hpn Hh] Hi Hg Hws Hrs Hps Hhs].
  destruct (lifecycle_step e s Hne) as (Hst & Ei & Eg), (event_rest e s Hne) as (Er & Eh & Ec).
  assert (ContextStorable (ctx (exec e s)) /\
          (size (ctx_worker_boots (ctx (exec e s))) <= S n)%nat) as [Hc' Hws'].
  { destruct Ec as [->|(w & b & [[-> Ec]|[Ew Hx]])]; [split; [done|lia]| |].
    - rewrite Ec. destruct He as [Hw Hb], Hc as []. cbn.
      assert (size (<[w:=b]> (ctx_worker_boots (ctx s))) <= S n)%nat as Hsz.
      { rewrite map_size_insert. destruct (_ !! w); cbn; lia. }
      split; [|exact Hsz]. split; try assumption; [by apply map_Forall_insert_2|cbn; lia].
    - rewrite Ew. split; [by apply Hx|lia]. }
  split; [split|..]; rewrite ?Er, ?Eh, ?Ei, ?Eg, ?(plans_step_size _ _ Hst); try done; try lia.
  - intros k p' Hk. destruct (plans_step_back _ _ _ _ Hst Hk) as (p & Hk0 & Hs).
    destruct (Hp k p Hk0) as [Hkey Hpl]. destruct (fixed_part_members _ _ (plan_step_fixed _ _ Hs))
      as (Eid & _). rewrite Eid. split; [done|].
    destruct (event_writes e s k p' Hne Hk) as [Hold|Ht]; [by apply (Hp k)|].
    eapply plan_step_storable; [exact Hs| |exact Hpl]. by eapply event_time_typed.
Qed.

Lemma history_typed q d s :
  strings_wf (history s) -> Z.of_nat (length (history s)) + 1 < 2 ^ 32 -> RequestStorable q ->
  (forall p, de_plan d = Some p -> PlanStorable p /\ fits 64 (p_decision_digest p)) ->
  strings_wf (history s ++ [history_entry q d]).
Proof.
  intros [_ Hf] Hn Hq Hp. split; [unfold small; rewrite length_app; cbn [length]; lia|].
  apply Forall_app. split; [exact Hf|]. apply Forall_singleton. destruct Hq.
  eapply fits_storable; [apply fits_history_entry; [done|done|]|lia].
  intros p Hd. destruct (Hp p Hd) as [[] Hg]. by split_and!.
Qed.

(** A new plan, its request recorded or not. *)
Lemma new_plan_typed n q cs c p d now s rs :
  Z.of_nat n + 1 < 2 ^ 32 -> EventTyped (EPlan q cs now) -> c ∈ cs ->
  PlanFor q (ctx s) now (next_plan_id s) (next_generation s) c p -> de_plan d = Some p ->
  rs = requests s \/ rs = <[value (q_request_id q) := q]> (requests s) ->
  Typed n s -> Typed (S n) (with_new_plan q now p d (set_requests rs s)).
Proof.
  intros Hn (Hq & Hcs & Ht) Hc Hp Hd Hrs [[Hcx Hr Hrn Hpl Hpn Hh] Hi Hg Hws Hrz Hps Hhs].
  assert (PlanStorable p) as Hst.
  { apply (new_plan_storable q (ctx s) now (next_plan_id s) (next_generation s) c p);
      [exact Hq| |exact Hcx|exact Ht|exact Hi|exact Hg|exact Hp].
    by eapply Forall_forall in Hcs. }
  pose proof (plan_for_fits _ _ _ _ _ _ _ Hp) as Hdg.
  assert (value (p_plan_id p) = next_plan_id s) as Epid.
  { rewrite (plan_for_id _ _ _ _ _ _ _ Hp). reflexivity. }
  assert ((size rs <= S n)%nat /\
          map_Forall (fun k r => k = value (q_request_id r) /\ RequestStorable r) rs) as [Hz Hrs'].
  { destruct Hrs as [->| ->]; [split; [lia|done]|]. split; [|by apply map_Forall_insert_2].
    rewrite map_size_insert. destruct (_ !! value (q_request_id q)); cbn; lia. }
  pose proof (with_new_plan_plans q now now (ctx s) _ _ c p d s (set_requests rs s) Hp eq_refl) as Ep.
  assert (size (plans (with_new_plan q now p d (set_requests rs s))) <= S n)%nat as Hsz.
  { rewrite Ep, map_size_insert, lookup_fmap, map_size_fmap. destruct (plans s !! _); cbn; lia. }
  split; [split|..].
  - exact Hcx.
  - exact Hrs'.
  - cbn. lia.
  - rewrite Ep. apply map_Forall_insert_2; [by rewrite Epid|].
    apply map_Forall_fmap. intros k p0 Hk. destruct (Hpl k p0 Hk) as [Hkey Hp0].
    pose proof (supersede_step q (MkId (next_plan_id s)) now p0) as Hs. cbn.
    destruct (fixed_part_members _ _ (plan_step_fixed _ _ Hs)) as (Eid & _). rewrite Eid.
    split; [done|]. eapply plan_step_storable; [exact Hs| |exact Hp0].
    unfold supersede. destruct_ifs; try exact Ht; by destruct Hp0.
  - lia.
  - apply (history_typed q d s); [exact Hh|lia|exact Hq|]. intros p' E. rewrite Hd in E.
    by injection E as <-.
  - apply u64_range.
  - apply u64_range.
  - cbn. lia.
  - exact Hz.
  - exact Hsz.
  - cbn. rewrite length_app. cbn. lia.
Qed.

Lemma exec_typed n e s :
  Z.of_nat n + 1 < 2 ^ 32 -> EventTyped e -> Typed n s -> Typed (S n) (exec e s).
Proof.
  intros Hn He Hs. destruct e as [q cs now| | | | | | | | | | |];
    [|apply lifecycle_typed; [discriminate|assumption..]..].
  cbn [exec]. destruct (plan_result q cs now s)
    as [d Hc Ho Hp|d Hc Ha Ho Hp|d c p Hb Hp Ho Hd|d c p Hx Hb Hp Ho Hd].
  - by apply (typed_mono n); [lia|].
  - destruct He as (Hq & _), Hs as [[Hcx Hr Hrn Hpl Hpn Hh] Hi Hg Hws Hrz Hps Hhs].
    split; [split|..]; cbn; try assumption; try lia.
    + apply history_typed; [exact Hh|lia|exact Hq|]. intros p. by rewrite Hp.
    + rewrite length_app. cbn. lia.
  - eapply new_plan_typed; try eassumption; [by destruct Hb|by right].
  - pose proof (new_plan_typed n q cs c p d now s (requests s) Hn He) as H.
    replace (set_requests (requests s) s) with s in H by by destruct s.
    apply H; try assumption; [by destruct Hb|by left].
Qed.
End Events.

(** ** Restarts *)

Lemma id_wf_next {tag} (i : Id tag) : id_wf (next i).
Proof. apply u64_range. Qed.

Lemma persisted_plan_storable p : PlanStorable p -> PlanStorable (persisted_plan p).
Proof. intros []. split; assumption. Qed.

Lemma persisted_request_storable r : RequestStorable r -> RequestStorable (persisted_request r).
Proof. intros []. split; assumption. Qed.

Lemma restarting_typed n s : Typed n s -> Typed n (restarting s).
Proof.
  intros [[Hcx Hr Hrn Hp Hpn Hh] Hi Hg Hws Hrs Hps Hhs].
  split; [|exact Hi|exact Hg|exact Hws|exact Hrs|exact Hps|exact Hhs].
  split; [|exact Hr|exact Hrn|exact Hp|exact Hpn|exact Hh].
  destruct Hcx. split; try assumption; apply id_wf_next.
Qed.

(** What a snapshot of [s] read back over [s0] holds. *)
Lemma restored_typed n preserve s s0 :
  Typed n s -> Typed n s0 -> Typed n (restored preserve s s0).
Proof.
  intros [[Hcx Hr Hrn Hp Hpn Hh] Hi Hg Hws Hrs Hps Hhs].
  intros [[[He Hb _ _ _ _ _ _ _] _ _ _ _ _] Hi0 Hg0 _ _ _ _].
  split; [|exact Hi0|exact Hg0|exact Hws|cbn; by rewrite map_size_fmap..|exact Hhs].
  split; [| |cbn; by rewrite map_size_fmap| |cbn; by rewrite map_size_fmap|exact Hh].
  - destruct Hcx. split; destruct preserve; assumption.
  - apply map_Forall_fmap. intros k r [Hk Hst]%Hr. split; [exact Hk|].
    by apply persisted_request_storable.
  - apply map_Forall_fmap. intros k p [Hk Hst]%Hp. split; [exact Hk|].
    by apply persisted_plan_storable.
Qed.

Lemma after_restart_typed n now s :
  Z.of_nat n + 1 < 2 ^ 32 -> (forall k, time_typed (now k)) -> Typed n s ->
  Typed (S n) (after_restart now s).
Proof.
  intros Hn Ht [[Hcx Hr Hrn Hp Hpn Hh] Hi Hg Hws Hrs Hps Hhs].
  assert (size (invalidate_unfinished now (plans s)) = size (plans s)) as Hsz.
  { rewrite <- !size_dom. f_equal. apply set_eq. intros k.
    rewrite !elem_of_dom, invalidate_lookup. by destruct (plans s !! k). }
  assert (strings_wf (history s ++ [restart_message (ctx s)])) as Hh'.
  { destruct Hh as [Hl Hf]. split; [unfold small; rewrite length_app; cbn [length]; lia|].
    apply Forall_app. split; [exact Hf|]. apply Forall_singleton. destruct Hcx.
    by eapply fits_storable; [apply fits_restart_message|]. }
  assert (map_Forall (fun k p => k = value (p_plan_id p) /\ PlanStorable p)
            (invalidate_unfinished now (plans s))) as Hp'.
  { intros k p'. rewrite invalidate_lookup, fmap_Some. intros (p & Hk & ->).
    destruct (Hp k p Hk) as [Hkey Hst]. destruct (terminal (p_state p)); [by split|].
    split; [exact Hkey|]. destruct Hst. split; try assumption; [done|apply Ht]. }
  split; [split; [exact Hcx|exact Hr|exact Hrn|exact Hp'| |exact Hh']
         |exact Hi|exact Hg| | | |]; cbn [ctx requests plans history after_restart set_history
    set_plans]; rewrite ?Hsz, ?length_app; cbn [length]; lia.
Qed.

(** ** Lives *)

Section Lives.
Context {sorter : StdSort} {St : Type} `{LawfulStore St}.
#[local] Abbreviation Config := (option St * Planner)%type.

(** One act, carried out. *)
Definition perform (c : Config) (a : Act) : Config :=
  match a with
  | AEvent e => (c.1, exec e c.2)
  | ASave => ((save_state c.1 c.2).2, c.2)
  | ARestart now => let r := restart_coordinator now c.1 c.2 in (r.1.2, r.2)
  end.

Definition live (l : list Act) (c : Config) : Config := foldl perform c l.

Lemma restart_typed n now (st : option St) s :
  Z.of_nat n + 1 < 2 ^ 32 -> (forall k, time_typed (now k)) -> Typed n s ->
  Typed (S n) (restart_coordinator now st s).2.
Proof.
  intros Hn Ht Hs. destruct (restart_coordinator now st s) as [[[[]|e] st'] s'] eqn:E; cbn [snd].
  - apply restart_ok in E as [Hsave ->]. apply after_restart_typed; [done|done|].
    pose proof (restarting_typed n s Hs) as Hr. destruct st as [st|].
    + apply save_locked_ok in Hsave as (st1 & -> & Hl). cbn [reload].
      rewrite Hl, snapshot_applied by by destruct Hs. by apply restored_typed.
    + injection Hsave as <-. exact Hr.
  - unfold restart_coordinator in E. destruct (save_locked _ _) as [[[]|e'] st1]; [done|].
    injection E as _ _ <-. by apply (typed_mono n); [lia|].
Qed.

Lemma perform_typed n c a :
  Z.of_nat n + 1 < 2 ^ 32 -> ActTyped a -> Typed n c.2 -> Typed (S n) (perform c a).2.
Proof.
  intros Hn Ha Hs. destruct a as [e| |now]; cbn [perform snd].
  - by apply exec_typed.
  - by apply (typed_mono n); [lia|].
  - by apply restart_typed.
Qed.

(** Each act is a step of the relation of [Durable]. *)
Lemma perform_step n c a : Typed n c.2 -> act_step a c (perform c a).
Proof.
  intros Hs. destruct c as [st s], a as [e| |now]; cbn [perform fst snd].
  - constructor.
  - econstructor. apply surjective_pairing.
  - econstructor; [right; by destruct Hs|]. apply triple_eta.
Qed.

Lemma live_typed l (st0 : option St) :
  Z.of_nat (length l) < 2 ^ 32 -> Forall ActTyped l ->
  Typed (length l) (live l (st0, new_planner)).2 /\
  durable_run l (st0, new_planner) (live l (st0, new_planner)).
Proof.
  induction l as [|a l IH] using rev_ind; intros Hn Hl.
  { split; [apply new_planner_typed|constructor]. }
  rewrite length_app, Nat.add_1_r in *. apply Forall_app in Hl as [Hl Ha].
  destruct IH as [Ht Hr]; [lia|done|]. unfold live. rewrite foldl_app. cbn [foldl].
  pose proof (proj1 (Forall_singleton _ _) Ha) as Ha1. split; [apply perform_typed; [lia|exact Ha1|exact Ht]|]. eapply dr_snoc; [exact Hr|].
  eapply perform_step. exact Ht.
Qed.
End Lives.


(** The life with a success, a restart over a store in memory and a late report,
    with a save at the end. *)
Definition long_life : list Act := life ++ [ASave].

Lemma request_storable_one : RequestStorable (with_request_id 1 (cli_request None)).
Proof. split; holds. Qed.

Lemma restore_candidate_typed : CandidateTyped restore_candidate.
Proof. split; holds. Qed.

Lemma long_life_typed : Forall ActTyped long_life.
Proof.
  unfold long_life, life, life_events, demo_events, world_events, plan_events.
  cbn [app fmap list_fmap].
  repeat (apply Forall_cons_2; [|try (apply Forall_nil_2)]); cbn [ActTyped EventTyped];
    unfold time_typed; try exact I; try holds.
  - split; holds.
  - split; [exact request_storable_one|]. split; [|holds].
    apply Forall_cons_2; [exact restore_candidate_typed|apply Forall_nil_2].
  - intros k. unfold twenty. holds.
Qed.

