(* ===== verification/Concurrency.v ===== *)
(** * Threads calling one planner

    Callers of one [RecoveryPlanner] run in any number of threads; a method is a
    sequence of critical sections on the planner's mutex ([src/planner.cpp]).  Two
    methods have more than one: [dispatch_plan] calls the executor between its
    two, and [on_adapter_completion] unlocks before it reports.  A thread is a
    stack of calls in progress, since an executor may call the planner back; the
    scheduler ([Choice]) decides which thread goes on, what the clock reads and
    what the executor does.

    The planner is what the critical sections in the order of their entry ([log])
    make of it, so that all that is proved of lives in [Durable] and [Typing] holds
    of concurrent runs.  On that rest the theorems: no plan is handed to an executor
    twice; the methods of one section are linearisable, with respect to the
    definitions of the other files; and [dispatch_plan], when no other thread acts,
    is what [Lifecycle] says it is. *)

From stdpp Require Import base gmap strings list.
From S2P Require Import Prelude Types Evidence Feasibility StdSort Economics Plan Explain Planner.
From S2P Require Import PlannerSpec Lifecycle LifecycleSpec Executor Cli LifecycleProps Snapshot.
From S2P Require Import SnapshotSpec Persistence PersistenceSpec PersistenceProps Durable Typing.
#[local] Open Scope Z_scope.

Import PlanLifecycleState.

(** ** Calls and threads *)

(** The methods that change the planner; [load_state] is for a planner no other
    thread has yet. *)
Inductive Call :=
| CPlan (q : RecoveryRequest) (cs : list RecoveryCandidate)
| CAuthorize (pl : RecoveryPlan)
| CDispatch (pl : RecoveryPlan)
| CReport (r : ExecutionReport)
| CCompletion (d : DispatchId) (o : ExecutionOutcome.t) (recovered : ProgressUnits)
    (elapsed : Duration) (detail : string)
| CCancel (id : RecoveryPlanId) (force : bool)
| CInvalidate (id : RecoveryPlanId)
| CRegister (w : WorkerId) (b : WorkerBootId)
| CUnregister (w : WorkerId)
| CResource (kind : string) (amount : Z)
| CRecompute (gen : WorkloadGeneration) (available : bool)
| CSave
| CRestart.

(** A call in progress: where it waits for the mutex, or is in the executor. *)
Inductive Frame :=
| Enter (c : Call)
| InExecutor (pl : RecoveryPlan) (d : RecoveryDispatch)
| Finish (pl : RecoveryPlan) (status : DispatchStatus.t)
| Reporting (r : ExecutionReport).

Abbreviation Thread := (list Frame).

(** A caller's own code runs, so that it may call: no call is in progress, or
    the executor has control. *)
Definition may_call (fs : Thread) : bool :=
  match fs with
  | [] | InExecutor _ _ :: _ => true
  | _ => false
  end.

(** The critical section of a frame that waits for the mutex. *)
Definition section_of (now : Timestamp) (nows : Z -> Timestamp) (f : Frame) : option Act :=
  match f with
  | Enter (CPlan q cs) => Some (AEvent (EPlan q cs now))
  | Enter (CAuthorize pl) => Some (AEvent (EAuthorize pl now))
  | Enter (CDispatch pl) => Some (AEvent (EDispatchBegin pl now))
  | Enter (CReport r) | Reporting r => Some (AEvent (EReport r now))
  | Enter (CCompletion d o r e detail) => Some (AEvent (ETakeCompletion d o r e detail))
  | Enter (CCancel id force) => Some (AEvent (ECancel id force now))
  | Enter (CInvalidate id) => Some (AEvent (EInvalidate id now))
  | Enter (CRegister w b) => Some (AEvent (ERegister w b))
  | Enter (CUnregister w) => Some (AEvent (EUnregister w))
  | Enter (CResource kind amount) => Some (AEvent (ESetResource kind amount))
  | Enter (CRecompute gen available) => Some (AEvent (ESetRecompute gen available))
  | Enter CSave => Some ASave
  | Enter CRestart => Some (ARestart nows)
  | Finish pl status => Some (AEvent (EDispatchFinish pl status now))
  | InExecutor _ _ => None
  end.

(** What is left of the call after its section, made on the state [s]: a dispatch
    goes to the executor, a completion found goes on to its report. *)
Definition after_section (a : Act) (f : Frame) (s : Planner) : Thread :=
  match f, a with
  | Enter (CDispatch pl), AEvent (EDispatchBegin _ now) =>
      match (dispatch_begin pl now s).1 with
      | Ok d => [InExecutor pl d]
      | Throw _ => []
      end
  | Enter (CCompletion d o r e detail), _ =>
      match (take_completion d o r e detail s).1 with
      | Some report => [Reporting report]
      | None => []
      end
  | _, _ => []
  end.

(** ** The system *)

Section System.
Context {sorter : StdSort} {St : Type} `{PersistenceStore St}.

(** [log] and [handed] record the sections carried out and the dispatches given
    to executors; no step reads them. *)
Record System := MkSystem {
  threads : gmap nat Thread;
  config : option St * Planner;
  log : list Act;
  handed : list RecoveryDispatch }.

Definition start (st : option St) : System := MkSystem ∅ (st, new_planner) [] [].

(** What the scheduler does next.  A choice that is not possible changes
    nothing. *)
Inductive Choice :=
| DoCall (t : nat) (c : Call)
| DoSection (t : nat) (now : Timestamp) (nows : Z -> Timestamp)
| DoReceipt (t : nat) (status : DispatchStatus.t)
| DoThrow (t : nat).

Definition set_thread (t : nat) (fs : Thread) (y : System) : System :=
  MkSystem (<[t := fs]> (threads y)) (config y) (log y) (handed y).

Definition thread (y : System) (t : nat) : Thread := default [] (threads y !! t).

Definition handed_by (fs : Thread) : list RecoveryDispatch :=
  omap (fun f => match f with InExecutor _ d => Some d | _ => None end) fs.

Definition sys_step (y : System) (ch : Choice) : System :=
  match ch with
  | DoCall t c =>
      if may_call (thread y t) then set_thread t (Enter c :: thread y t) y else y
  | DoSection t now nows =>
      match thread y t with
      | f :: fs =>
          match section_of now nows f with
          | Some a =>
              let rest := after_section a f (config y).2 in
              MkSystem (<[t := rest ++ fs]> (threads y)) (perform (config y) a) (log y ++ [a])
                (handed y ++ handed_by rest)
          | None => y
          end
      | [] => y
      end
  | DoReceipt t status =>
      match thread y t with
      | InExecutor pl _ :: fs => set_thread t (Finish pl status :: fs) y
      | _ => y
      end
  | DoThrow t =>
      match thread y t with
      | InExecutor _ _ :: fs => set_thread t fs y
      | _ => y
      end
  end.

Definition sys_run (chs : list Choice) (y : System) : System := foldl sys_step y chs.

(** The dispatches a sequence of sections gives to executors. *)
Fixpoint dispatches (l : list Act) (c : option St * Planner) : list RecoveryDispatch :=
  match l with
  | [] => []
  | a :: l =>
      match a with
      | AEvent (EDispatchBegin pl now) =>
          match (dispatch_begin pl now c.2).1 with Ok d => [d] | Throw _ => [] end
      | _ => []
      end ++ dispatches l (perform c a)
  end.

(** ** Interleavings are sequences of sections *)

Lemma dispatches_snoc l a c :
  dispatches (l ++ [a]) c = dispatches l c ++ dispatches [a] (live l c).
Proof.
  revert c. induction l as [|b l IH]; intros c; [done|].
  change ((b :: l) ++ [a]) with (b :: (l ++ [a])).
  cbn [dispatches]. rewrite IH. by rewrite <- app_assoc.
Qed.

Lemma live_snoc l a (c : option St * Planner) : live (l ++ [a]) c = perform (live l c) a.
Proof. unfold live. by rewrite foldl_app. Qed.

(** Only the first section of [dispatch_plan] gives a dispatch. *)
Lemma handed_section now nows f a (c : option St * Planner) :
  section_of now nows f = Some a ->
  handed_by (after_section a f c.2) = dispatches [a] c.
Proof.
  destruct f as [[]| | |]; intros [= <-]; cbn; rewrite ?app_nil_r; try done.
  - by destruct (dispatch_begin pl now c.2).1.
  - by destruct (take_completion d o recovered elapsed detail c.2).1.
Qed.

(** What holds of every state of the system. *)
Record Serial (c0 : option St * Planner) (y : System) : Prop := {
  se_config : config y = live (log y) c0;
  se_handed : handed y = dispatches (log y) c0 }.

Lemma serial_step c0 y ch : Serial c0 y -> Serial c0 (sys_step y ch).
Proof.
  intros [Hc Hh]. destruct ch as [t c|t now nows|t status|t]; cbn [sys_step].
  - case_match; by split.
  - destruct (thread y t) as [|f fs]; [by split|].
    destruct (section_of now nows f) as [a|] eqn:E; [|by split]. split; cbn [config log handed].
    + by rewrite live_snoc, Hc.
    + by rewrite dispatches_snoc, (handed_section _ _ _ _ _ E), Hh, Hc.
  - by repeat case_match.
  - by repeat case_match.
Qed.

Lemma serial_run c0 chs y : Serial c0 y -> Serial c0 (sys_run chs y).
Proof.
  revert y. induction chs as [|ch chs IH]; intros y Hy; [done|]. by apply IH, serial_step.
Qed.

Lemma serial_start st : Serial (st, new_planner) (start st).
Proof. by split. Qed.
End System.

(** ** A plan is dispatched once *)

Lemma dispatch_begin_inv pl now s d :
  (dispatch_begin pl now s).1 = Ok d ->
  exists stored, plans s !! value (p_plan_id pl) = Some stored /\ p_state stored = AUTHORIZED /\
    d = dispatch_of (dispatched_plan now stored) /\
    plans (dispatch_begin pl now s).2 =
      <[value (p_plan_id pl) := dispatched_plan now stored]> (plans s).
Proof.
  unfold dispatch_begin. destruct (plans s !! value (p_plan_id pl)) as [stored|] eqn:E; [|done].
  repeat case_match; try done. intros [= <-]. exists stored. bool_simp. done.
Qed.

(** The plan of a dispatch that was given to an executor, ever since. *)
Definition HandedOver (s : Planner) (d : RecoveryDispatch) : Prop :=
  rd_attempt d = MkId 1 /\
  exists p, plans s !! value (rd_plan_id d) = Some p /\ p_last_attempt p = MkId 1 /\
    p_generation p = rd_plan_generation d /\ p_target_boot p = rd_target_boot d.

Section Once.
Context {sorter : StdSort} {St : Type} `{LawfulStore St}.

Lemma attempt_one (i : AttemptId) : value i = 1 <-> i = MkId 1.
Proof. destruct i. cbn. split; congruence. Qed.

Lemma handed_over_kept n a (c : option St * Planner) d :
  Invariant n c.2 -> Storable c.2 -> HandedOver c.2 d -> HandedOver (perform c a).2 d.
Proof.
  intros Hinv Hst [Hd (p & Hk & Ha & Hg & Hb)]. split; [done|].
  destruct a as [e| |now]; cbn [perform snd]; [|by exists p|].
  - destruct (exec_plan n c.2 e _ p Hinv Hk) as (p' & Hp' & Hs). exists p'. split; [done|].
    destruct (inv_plans _ _ Hinv _ _ Hk) as [_ _ _ _ Hco].
    destruct (fixed_part_members p p' (plan_step_fixed _ _ Hs)) as (_ & -> & _ & -> & _).
    split; [|done]. apply attempt_one.
    eapply plan_step_attempt; [exact Hs|exact Hco|by apply attempt_one].
  - destruct (restart_coordinator now c.1 c.2) as [[r st'] s'] eqn:E. cbn [snd].
    destruct (restart_effect _ _ _ _ _ _ (or_intror Hst) E)
      as [->|(keep & Hkeep & Hp & _)]; [by exists p|].
    exists (closed_at now keep (value (rd_plan_id d)) p). split; [by rewrite Hp, Hk|].
    destruct (closed_members now keep Hkeep (value (rd_plan_id d)) p) as (_ & -> & _ & -> & -> & _).
    done.
Qed.

(** A section that gives a dispatch gives one that was not given before. *)
Lemma handed_over_new n a (c : option St * Planner) d :
  Invariant n c.2 -> d ∈ dispatches [a] c ->
  dispatches [a] c = [d] /\ HandedOver (perform c a).2 d /\
  forall d', HandedOver c.2 d' -> rd_plan_id d' <> rd_plan_id d.
Proof.
  intros Hinv Hd. destruct a as [[]| |]; try (by apply not_elem_of_nil in Hd).
  cbn [dispatches] in Hd |- *. rewrite app_nil_r in *.
  destruct (dispatch_begin pl now c.2).1 as [d1|err] eqn:E; [|by apply not_elem_of_nil in Hd].
  apply list_elem_of_singleton in Hd as ->.
  destruct (dispatch_begin_inv pl now c.2 d1 E) as (stored & Hk & Hs & -> & Hp).
  destruct (inv_plans _ _ Hinv _ _ Hk) as [_ Hid _ _ Hco].
  unfold coherent in Hco. rewrite Hs in Hco. destruct Hco as [Hz _].
  split; [done|]. split.
  - cbn [perform exec snd]. split; [cbn; by rewrite Hz|].
    exists (dispatched_plan now stored). rewrite Hp. cbn [rd_plan_id dispatch_of].
    split; [|cbn; by rewrite Hz]. change (p_plan_id (dispatched_plan now stored)) with
      (p_plan_id stored). rewrite Hid. apply lookup_insert_eq.
  - intros d' [_ (p & Hk' & Ha & _)] Heq. rewrite Heq in Hk'. cbn [rd_plan_id dispatch_of] in Hk'.
    change (p_plan_id (dispatched_plan now stored)) with (p_plan_id stored) in Hk'.
    rewrite Hid in Hk'. cbn [value] in Hk'. rewrite Hk in Hk'. injection Hk' as <-.
    rewrite Ha in Hz. discriminate.
Qed.

Lemma dispatches_once l (st0 : option St) :
  Z.of_nat (length l) < 2 ^ 32 -> Forall ActTyped l ->
  let c0 := (st0, new_planner) in
  NoDup (rd_plan_id <$> dispatches l c0) /\ Forall (HandedOver (live l c0).2) (dispatches l c0).
Proof.
  cbv zeta. induction l as [|a l IH] using rev_ind; intros Hn Hl; [by split; constructor|].
  rewrite length_app, Nat.add_1_r in Hn. apply Forall_app in Hl as [Hl Ha].
  destruct IH as [Hnd Hf]; [lia|done|].
  destruct (live_typed l st0 ltac:(lia) Hl) as [Hty Hr].
  pose proof (durable_invariant 0 l _ _ ltac:(lia) Hr (new_planner_invariant 0)) as Hinv.
  rewrite dispatches_snoc, live_snoc.
  generalize dependent (live l (st0, new_planner)). intros c Hf Hty Hr Hinv.
  assert (Forall (HandedOver (perform c a).2) (dispatches l (st0, new_planner))) as Hf'.
  { eapply Forall_impl; [exact Hf|]. intros d. eapply handed_over_kept; [exact Hinv|].
    by destruct Hty. }
  destruct (dispatches [a] c) as [|d ds] eqn:E; [rewrite app_nil_r; by split|].
  destruct (handed_over_new _ a c d Hinv) as (Ed & Hd & Hnew); [rewrite E; by left|].
  rewrite E in Ed. injection Ed as ->. rewrite fmap_app. split.
  - apply NoDup_app. split; [done|]. split; [|apply NoDup_singleton].
    intros i Hi Hin. apply list_elem_of_singleton in Hin as ->.
    apply list_elem_of_fmap in Hi as (d' & Heq & Hd').
    eapply Forall_forall in Hf; [|exact Hd']. by eapply (Hnew d').
  - apply Forall_app. split; [done|by apply Forall_singleton].
Qed.
End Once.

(** ** What all calls have, all sections have

    [okc] holds of every call made, [okt] of every reading of the clock, and [oka]
    follows for the sections. *)

Section Kept.
Context {sorter : StdSort} {St : Type} `{PersistenceStore St}.
Context (okc : Call -> Prop) (okt : Timestamp -> (Z -> Timestamp) -> Prop) (oka : Act -> Prop).

Definition frame_ok (f : Frame) : Prop := match f with Enter c => okc c | _ => True end.

Definition choice_ok (ch : Choice) : Prop :=
  match ch with
  | DoCall _ c => okc c
  | DoSection _ now nows => okt now nows
  | _ => True
  end.

Context (section_ok : forall now nows f a,
  section_of now nows f = Some a -> frame_ok f -> okt now nows -> oka a).

Record Kept (y : System (St := St)) : Prop := {
  ke_threads : map_Forall (fun _ fs => Forall frame_ok fs) (threads y);
  ke_log : Forall oka (log y) }.

Lemma after_section_ok a f s : Forall frame_ok (after_section a f s).
Proof.
  destruct f as [[]| | |], a as [[]| |]; cbn; try apply Forall_nil_2;
    case_match; repeat constructor.
Qed.

Lemma thread_kept y t : Kept y -> Forall frame_ok (thread y t).
Proof.
  intros [Ht _]. unfold thread. destruct (threads y !! t) as [fs|] eqn:E; [by apply (Ht t)|].
  apply Forall_nil_2.
Qed.

Lemma kept_step y ch : choice_ok ch -> Kept y -> Kept (sys_step y ch).
Proof.
  intros Hch Hy. pose proof Hy as [Ht Hl].
  assert (forall t f fs, thread y t = f :: fs -> frame_ok f /\ Forall frame_ok fs) as Hcons.
  { intros t f fs E. pose proof (thread_kept y t Hy) as Hf. rewrite E in Hf.
    by apply Forall_cons in Hf. }
  destruct ch as [t c|t now nows|t status|t]; cbn [sys_step].
  - destruct (may_call _); [|done]. split; [|done].
    apply map_Forall_insert_2; [|done]. apply Forall_cons_2; [done|by apply thread_kept].
  - destruct (thread y t) as [|f fs] eqn:E; [done|]. destruct (Hcons _ _ _ E) as [Hf Hfs].
    destruct (section_of now nows f) as [a|] eqn:Ea; [|done]. split; cbn [threads log].
    + apply map_Forall_insert_2; [|done]. apply Forall_app. split; [apply after_section_ok|done].
    + apply Forall_app. split; [done|].
      apply Forall_cons_2; [by eapply section_ok|apply Forall_nil_2].
  - destruct (thread y t) as [|[]] eqn:E; try done. destruct (Hcons _ _ _ E). split; [|done].
    apply map_Forall_insert_2; [by apply Forall_cons_2|done].
  - destruct (thread y t) as [|[]] eqn:E; try done. destruct (Hcons _ _ _ E). split; [|done].
    by apply map_Forall_insert_2.
Qed.

Lemma kept_run chs y : Forall choice_ok chs -> Kept y -> Kept (sys_run chs y).
Proof.
  intros Hchs. revert y. induction Hchs as [|ch chs Hch Hchs IH]; intros y Hy; [done|].
  by apply IH, kept_step.
Qed.

Lemma kept_start st : Kept (start st).
Proof. split; [apply map_Forall_empty|apply Forall_nil_2]. Qed.
End Kept.

(** ** Inputs of concurrent runs *)

Definition CallTyped (c : Call) : Prop :=
  match c with
  | CPlan q cs => RequestStorable q /\ Forall CandidateTyped cs
  | CRegister w b => id_wf w /\ id_wf b
  | _ => True
  end.

Section Typed.
Context {sorter : StdSort} {St : Type} `{LawfulStore St}.

Definition times_typed (now : Timestamp) (nows : Z -> Timestamp) : Prop :=
  time_typed now /\ forall k, time_typed (nows k).
Definition ChoiceTyped : Choice -> Prop := choice_ok CallTyped times_typed.

Lemma section_typed now nows f a :
  section_of now nows f = Some a -> frame_ok CallTyped f -> times_typed now nows -> ActTyped a.
Proof. destruct f as [[]| | |]; intros [= <-] Hf [Hn Hs]; cbn in *; tauto. Qed.

Lemma run_log_typed chs (st : option St) :
  Forall ChoiceTyped chs -> Forall ActTyped (log (sys_run chs (start st))).
Proof.
  intros Hch. eapply ke_log, (kept_run CallTyped times_typed ActTyped section_typed); [exact Hch|].
  apply kept_start.
Qed.

Lemma log_length_step (y : System (St := St)) ch :
  (length (log (sys_step y ch)) <= S (length (log y)))%nat.
Proof. destruct ch; cbn [sys_step]; repeat case_match; cbn; rewrite ?length_app; cbn; lia. Qed.

Lemma log_length chs (y : System (St := St)) :
  (length (log (sys_run chs y)) <= length (log y) + length chs)%nat.
Proof.
  revert y. induction chs as [|ch chs IH]; intros y; [cbn; lia|].
  pose proof (IH (sys_step y ch)). pose proof (log_length_step y ch).
  cbn [length]. change (sys_run (ch :: chs) y) with (sys_run chs (sys_step y ch)). lia.
Qed.
End Typed.

(** ** A race

    Two threads dispatch the same authorised plan, and a third reports the
    completion of the dispatch while the first is still in the executor; then the
    coordinator restarts. *)
Definition at_time (t : nat) (n : Z) : Choice := DoSection t (MkUnit n) twenty.
Definition race : list Choice :=
  [DoCall 0 (CRegister (MkId 1) (MkId 100)); at_time 0 0;
   DoCall 0 (CResource "gpu_mem" 10000); at_time 0 0;
   DoCall 0 (CPlan (with_request_id 1 (cli_request None)) [restore_candidate]); at_time 0 0;
   DoCall 0 (CAuthorize (handle 1)); at_time 0 1;
   DoCall 1 (CDispatch (handle 1)); DoCall 2 (CDispatch (handle 1));
   at_time 1 2; at_time 2 2;
   DoCall 3 (CCompletion (MkId 1) ExecutionOutcome.SUCCEEDED (MkUnit 1) (MkUnit 1) "done");
   at_time 3 3; at_time 3 4;
   DoReceipt 1 DispatchStatus.DISPATCHED; at_time 1 5;
   DoCall 0 CRestart; at_time 0 6].

Lemma race_typed : Forall ChoiceTyped race.
Proof.
  unfold race. repeat (apply Forall_cons_2; [|try (apply Forall_nil_2)]);
    unfold ChoiceTyped, at_time; cbn [choice_ok CallTyped]; unfold times_typed, time_typed; try exact I.
  all: try (split; [holds|intros k; unfold twenty; holds]).
  - split; holds.
  - split; [exact request_storable_one|].
    apply Forall_cons_2; [exact restore_candidate_typed|apply Forall_nil_2].
Qed.

Definition race_end : System (St := MemoryStore) := sys_run race (start (Some (MkMemory ∅))).

(** ** The properties *)

(** C7: No plan is dispatched twice.  In every interleaving of any number of
    threads, over restarts, the dispatches given to executors are for pairwise
    different plans, each with attempt number 1, and the plan of each is still
    stored and carries that attempt. *)
Theorem dispatched_at_most_once {sorter : StdSort} {St} `{LawfulStore St} chs (st : option St) :
  Z.of_nat (length chs) < 2 ^ 32 -> Forall ChoiceTyped chs ->
  let y := sys_run chs (start st) in
  NoDup (rd_plan_id <$> handed y) /\ Forall (HandedOver (config y).2) (handed y).
Proof.
  intros Hn Hch. cbv zeta. set (y := sys_run chs (start st)).
  pose proof (serial_run _ chs _ (serial_start st)) as [Hc Hh].
  pose proof (run_log_typed chs st Hch) as Hl. fold y in Hl.
  pose proof (log_length chs (start st)) as Hlen. cbn [log start length] in Hlen.
  fold y in Hc, Hh, Hlen. rewrite Hc, Hh. apply dispatches_once; [lia|exact Hl].
Qed.

(** Both threads had called: one was refused. *)
Lemma dispatched_at_most_once_witness :
  length (handed race_end) = 1%nat /\ NoDup (rd_plan_id <$> handed race_end).
Proof.
  split; [vm_compute; reflexivity|].
  refine (proj1 (dispatched_at_most_once race (Some (MkMemory ∅)) _ race_typed)).
  vm_compute. reflexivity.
Defined.

(** ** Methods of one section

    All methods but [dispatch_plan] and [on_adapter_completion] hold the mutex from
    their first access to their last.  [method] is such a call run on its own, by
    the definitions of [Planner], [Lifecycle] and [Persistence]. *)

Definition single (c : Call) : Prop :=
  match c with CDispatch _ | CCompletion _ _ _ _ _ => False | _ => True end.

Section Linear.
Context {sorter : StdSort} {St : Type} `{PersistenceStore St}.
#[local] Abbreviation Sys := (System (St := St)).
#[local] Abbreviation World := (option St * Planner)%type.

(** A call, by which thread, with its readings of the clock. *)
Record Entry := MkEntry {
  en_thread : nat; en_call : Call; en_now : Timestamp; en_nows : Z -> Timestamp }.

Definition method (w : World) (e : Entry) : World :=
  let '(st, s) := w in
  let now := en_now e in
  match en_call e with
  | CPlan q cs => (st, (plan q cs now s).2)
  | CAuthorize pl => (st, (authorize_plan pl now s).2)
  | CReport r => (st, report_execution r now s)
  | CCancel id force => (st, (cancel_plan id force now s).2)
  | CInvalidate id => (st, invalidate_plan id now s)
  | CRegister w b => (st, register_worker w b s)
  | CUnregister w => (st, unregister_worker w s)
  | CResource kind amount => (st, set_resource kind amount s)
  | CRecompute gen available => (st, set_recompute_available gen available s)
  | CSave => ((save_state st s).2, s)
  | CRestart => let '(_, st', s') := restart_coordinator (en_nows e) st s in (st', s')
  | CDispatch _ | CCompletion _ _ _ _ _ => w
  end.

Definition methods (order : list Entry) (w : World) : World := foldl method w order.

(** The calls of [t], in the order [order] gives them. *)
Definition calls_of (t : nat) (order : list Entry) : list Call :=
  en_call <$> filter (fun e => en_thread e = t) order.

(** The calls [t] makes; a thread that waits in a call makes none. *)
Fixpoint issued (t : nat) (chs : list Choice) (y : Sys) : list Call :=
  match chs with
  | [] => []
  | ch :: chs =>
      match ch with
      | DoCall u c => if decide (u = t) then if may_call (thread y t) then [c] else [] else []
      | _ => []
      end ++ issued t chs (sys_step y ch)
  end.

(** The call [t] waits in. *)
Definition pending (fs : Thread) : list Call :=
  match fs with Enter c :: _ => [c] | _ => [] end.

(** [order] explains the state [y], reached from the store [st] by threads that
    made the calls [made]. *)
Record Explains (st : option St) (made : nat -> list Call) (y : Sys) (order : list Entry) : Prop := {
  ex_calls t : calls_of t order ++ pending (thread y t) = made t;
  ex_state : config y = methods order (st, new_planner) }.

Definition waiting (y : Sys) : Prop :=
  forall t, thread y t = [] \/ exists c, single c /\ thread y t = [Enter c].

Definition single_choice (ch : Choice) : Prop :=
  match ch with DoCall _ c => single c | _ => True end.

Lemma thread_other (ts : gmap nat Thread) t u fs c l h :
  thread (MkSystem (<[t := fs]> ts) c l h : Sys) u =
    if decide (u = t) then fs else thread (MkSystem ts c l h : Sys) u.
Proof.
  unfold thread. cbn. case_decide as E; [subst; by rewrite lookup_insert_eq|].
  by rewrite lookup_insert_ne by congruence.
Qed.

(** The section of such a call is the method, and nothing is left of it. *)
Lemma single_section now nows c (w : World) a t :
  single c -> section_of now nows (Enter c) = Some a ->
  perform w a = method w (MkEntry t c now nows) /\ after_section a (Enter c) w.2 = [].
Proof.
  destruct w as [st s].
  destruct c; intros Hc [= <-]; try done; (split; [|reflexivity]); cbn;
    try reflexivity; by destruct (restart_coordinator nows st s) as [[? ?] ?].
Qed.

Lemma calls_of_snoc t order e :
  calls_of t (order ++ [e]) = calls_of t order ++ (if decide (en_thread e = t) then [en_call e] else []).
Proof.
  unfold calls_of. rewrite filter_app, fmap_app. f_equal. rewrite filter_cons, filter_nil.
  by case_decide.
Qed.

Lemma linear_step st made y order ch :
  single_choice ch -> waiting y -> Explains st made y order ->
  waiting (sys_step y ch) /\
  exists o, Explains st (fun t => made t ++ issued t [ch] y) (sys_step y ch) (order ++ o).
Proof.
  intros Hch Hw [Hc Hs]. destruct ch as [t c|t now nows|t status|t]; cbn [sys_step issued].
  - destruct (Hw t) as [E|(c' & Hc' & E)].
    + assert (may_call (thread y t) = true) as Hm by by rewrite E.
      rewrite Hm. split.
      { intros u. unfold set_thread. rewrite thread_other. case_decide; [|apply Hw].
        right. exists c. by rewrite E. }
      exists []. rewrite (app_nil_r order). split; [|exact Hs]. intros u. unfold set_thread.
      rewrite thread_other. destruct (decide (u = t)) as [->|Hne].
      * rewrite decide_True by done. rewrite Hm, <- (Hc t), E. cbn. by rewrite !app_nil_r.
      * rewrite (decide_False (P := t = u)) by congruence. rewrite !app_nil_r. exact (Hc u).
    + assert (may_call (thread y t) = false) as Hm by by rewrite E.
      rewrite Hm. split; [done|]. exists []. rewrite (app_nil_r order). split; [|exact Hs]. intros u.
      destruct (decide (t = u)) as [<-|_]; [rewrite Hm|]; rewrite !app_nil_r; apply Hc.
  - destruct (Hw t) as [E|(c & Hcs & E)]; rewrite E.
    { split; [done|]. exists []. rewrite (app_nil_r order). split; [|exact Hs]. intros u.
      cbn. rewrite app_nil_r. apply Hc. }
    destruct (section_of now nows (Enter c)) as [a|] eqn:Ea; [|destruct c; discriminate Ea].
    destruct (single_section now nows c (config y) a t Hcs Ea) as [Ep ->]. split.
    { intros u. cbn [app]. rewrite thread_other. case_decide; [by left|apply Hw]. }
    exists [MkEntry t c now nows]. split; cbn [config app].
    + intros u. rewrite thread_other, calls_of_snoc. cbn [en_thread en_call].
      destruct (decide (u = t)) as [->|Hne].
      * rewrite decide_True by done. rewrite <- (Hc t), E. cbn. by rewrite !app_nil_r.
      * rewrite decide_False by congruence. cbn. rewrite !app_nil_r. exact (Hc u).
    + unfold methods. rewrite foldl_app. cbn [foldl]. rewrite Ep, Hs. reflexivity.
  - split; [by destruct (Hw t) as [->|(c & _ & ->)]|]. exists []. rewrite (app_nil_r order).
    destruct (Hw t) as [->|(c & _ & ->)]; (split; [|exact Hs]); intros u; cbn;
      rewrite app_nil_r; apply Hc.
  - split; [by destruct (Hw t) as [->|(c & _ & ->)]|]. exists []. rewrite (app_nil_r order).
    destruct (Hw t) as [->|(c & _ & ->)]; (split; [|exact Hs]); intros u; cbn;
      rewrite app_nil_r; apply Hc.
Qed.

Lemma linear_run st chs : forall made y order,
  Forall single_choice chs -> waiting y -> Explains st made y order ->
  waiting (sys_run chs y) /\
  exists o, Explains st (fun t => made t ++ issued t chs y) (sys_run chs y) (order ++ o).
Proof.
  induction chs as [|ch chs IH]; intros made y order Hch Hw He.
  { split; [done|]. exists []. rewrite app_nil_r. destruct He as [Hc Hs]. split; [|done].
    intros t. cbn. by rewrite app_nil_r. }
  apply Forall_cons in Hch as [H1 Hch].
  destruct (linear_step st made y order ch H1 Hw He) as [Hw1 [o1 He1]].
  destruct (IH _ _ _ Hch Hw1 He1) as [Hw2 [o2 [Hc2 Hs2]]].
  split; [exact Hw2|]. exists (o1 ++ o2). rewrite app_assoc. split; [|exact Hs2].
  intros t. etransitivity; [exact (Hc2 t)|]. cbn [issued]. by rewrite app_nil_r, <- app_assoc.
Qed.

Lemma issued_app t chs1 chs2 : forall y,
  issued t (chs1 ++ chs2) y = issued t chs1 y ++ issued t chs2 (sys_run chs1 y).
Proof.
  induction chs1 as [|ch chs1 IH]; intros y; [done|]. cbn [app issued]. rewrite IH.
  by rewrite app_assoc.
Qed.

Lemma waiting_start st : waiting (start st).
Proof. intros t. left. unfold thread. cbn. by rewrite lookup_empty. Qed.

Lemma explains_start st : Explains st (fun _ => []) (start st) [].
Proof. split; [|done]. intros t. unfold thread. cbn. by rewrite lookup_empty. Qed.
End Linear.

(** C8: The methods of one section are linearisable.  However the scheduler interleaves
    any number of threads that call them, planner and store are at every moment as
    if the methods had run one after another, each once and undivided, in an order
    that keeps the order of each thread's calls; and the order of a longer run
    extends that of the shorter one, so that a call that has returned stays before
    every call made later, by whichever thread. *)
Theorem calls_linearise {sorter : StdSort} {St} `{PersistenceStore St} (st : option St) chs1 chs2 :
  Forall single_choice (chs1 ++ chs2) ->
  exists o1 o2,
    Explains st (fun t => issued t chs1 (start st)) (sys_run chs1 (start st)) o1 /\
    Explains st (fun t => issued t (chs1 ++ chs2) (start st)) (sys_run (chs1 ++ chs2) (start st))
      (o1 ++ o2).
Proof.
  intros [H1 H2]%Forall_app.
  destruct (linear_run st chs1 _ _ _ H1 (waiting_start st) (explains_start st)) as [Hw1 [o1 He1]].
  destruct (linear_run st chs2 _ _ _ H2 Hw1 He1) as [_ [o2 [Hc2 Hs2]]].
  exists o1, o2. split; [exact He1|].
  assert (sys_run (chs1 ++ chs2) (start st) = sys_run chs2 (sys_run chs1 (start st))) as ->
    by apply foldl_app.
  split; [|exact Hs2]. intros t. rewrite issued_app. exact (Hc2 t).
Qed.

(** Two threads: a cancellation called first gets the mutex after an
    authorisation called later, and a third thread's report last. *)
Definition crossing : list Choice :=
  [DoCall 0 (CRegister (MkId 1) (MkId 100)); at_time 0 0;
   DoCall 0 (CResource "gpu_mem" 10000); at_time 0 0;
   DoCall 0 (CPlan (with_request_id 1 (cli_request None)) [restore_candidate]); at_time 0 0;
   DoCall 1 (CCancel (MkId 1) false); DoCall 0 (CAuthorize (handle 1)); at_time 0 1].

Lemma calls_linearise_witness :
  exists o1 o2,
    calls_of 1 o1 = [] /\ calls_of 1 (o1 ++ o2) = [CCancel (MkId 1) false] /\
    (p_state <$> plans (methods (o1 ++ o2) (@None MemoryStore, new_planner)).2 !! 1) =
      Some CANCELLED.
Proof.
  destruct (calls_linearise (@None MemoryStore) crossing [at_time 1 2]) as (o1 & o2 & H1 & H2).
  { repeat constructor. }
  exists o1, o2. split; [|split].
  - pose proof (ex_calls _ _ _ _ H1 1%nat) as E.
    assert (pending (thread (sys_run crossing (start (@None MemoryStore))) 1%nat) =
            [CCancel (MkId 1) false]) as Ep by (vm_compute; reflexivity).
    assert (issued 1%nat crossing (start (@None MemoryStore)) = [CCancel (MkId 1) false]) as Ei
      by (vm_compute; reflexivity).
    rewrite Ep, Ei in E. exact (app_inv_tail [CCancel (MkId 1) false] _ [] E).
  - pose proof (ex_calls _ _ _ _ H2 1%nat) as E.
    assert (pending (thread (sys_run (crossing ++ [at_time 1 2]) (start (@None MemoryStore))) 1%nat) =
            []) as Ep by (vm_compute; reflexivity).
    assert (issued 1%nat (crossing ++ [at_time 1 2]) (start (@None MemoryStore)) =
            [CCancel (MkId 1) false]) as Ei by (vm_compute; reflexivity).
    rewrite Ep, Ei, app_nil_r in E. exact E.
  - rewrite <- (ex_state _ _ _ _ H2). vm_compute. reflexivity.
Defined.

(** ** One thread alone

    The definitions of [Lifecycle] that run a whole call are what a thread does
    when no other thread acts in between. *)

Definition section (t : nat) (now : Timestamp) : Choice := DoSection t now (fun _ => now).

(** What the thread does: it calls [dispatch_plan]; unless that is refused, the
    reference executor calls [on_adapter_completion] of the planner (in two
    sections, if it finds the dispatch), accepts, and [dispatch_plan] goes on. *)
Definition dispatch_choices (t : nat) (pl : RecoveryPlan) (now1 now2 now' : Timestamp)
    (ex : ReferenceExecutor) (s : Planner) : list Choice :=
  DoCall t (CDispatch pl) :: section t now1 ::
  match (dispatch_begin pl now1 s).1 with
  | Throw _ => []
  | Ok d =>
      let '(o, r, elapsed, detail) := outcome_for ex (value (rd_plan_id d)) in
      [DoCall t (CCompletion (rd_dispatch_id d) o r elapsed detail); section t now'; section t now';
       DoReceipt t DispatchStatus.DISPATCHED; section t now2]
  end.

Section Alone.
Context {sorter : StdSort} {St : Type} `{PersistenceStore St} (t : nat).
#[local] Abbreviation Sys := (System (St := St)).

(** From a state with the stack [fs] of the thread and the planner [s], the choices
    lead to one with [fs'] and [s'], the other threads, the store and the
    dispatches handed out otherwise as they were. *)
Definition leads (chs : list Choice) (fs : Thread) (s : Planner) (fs' : Thread) (s' : Planner)
    (given : list RecoveryDispatch) : Prop :=
  forall y : Sys, thread y t = fs -> (config y).2 = s ->
  let y' := sys_run chs y in
  thread y' t = fs' /\ config y' = ((config y).1, s') /\ handed y' = handed y ++ given /\
  forall u, u <> t -> thread y' u = thread y u.

Lemma leads_nil fs s : leads [] fs s fs s [].
Proof.
  intros y Hf Hs. cbv zeta. cbn. rewrite app_nil_r. split_and!; try done.
  rewrite <- Hs. by destruct (config y).
Qed.

Lemma leads_cons ch chs fs s fs1 s1 fs2 s2 given1 given2 :
  leads [ch] fs s fs1 s1 given1 -> leads chs fs1 s1 fs2 s2 given2 ->
  leads (ch :: chs) fs s fs2 s2 (given1 ++ given2).
Proof.
  intros H1 H2 y Hf Hs. destruct (H1 y Hf Hs) as (A1 & A2 & A3 & A4).
  destruct (H2 (sys_run [ch] y) A1 ltac:(by rewrite A2)) as (B1 & B2 & B3 & B4).
  cbv zeta. change (sys_run (ch :: chs) y) with (sys_run chs (sys_run [ch] y)).
  split; [exact B1|]. split; [by rewrite B2, A2|]. split; [by rewrite B3, A3, app_assoc|].
  intros u Hu. by rewrite B4, A4.
Qed.

Lemma leads_call c fs s : may_call fs = true -> leads [DoCall t c] fs s (Enter c :: fs) s [].
Proof.
  intros Hm y Hf Hs. cbv zeta. cbn [sys_run foldl sys_step]. rewrite Hf, Hm.
  unfold set_thread. split_and!.
  - rewrite thread_other. by rewrite decide_True.
  - cbn. rewrite <- Hs. by destruct (config y).
  - by rewrite app_nil_r.
  - intros u Hu. rewrite thread_other. by rewrite decide_False.
Qed.

Lemma leads_section now e f fs s :
  section_of now (fun _ => now) f = Some (AEvent e) ->
  let rest := after_section (AEvent e) f s in
  leads [section t now] (f :: fs) s (rest ++ fs) (exec e s) (handed_by rest).
Proof.
  intros He rest y Hf Hs. cbv zeta. unfold section. cbn [sys_run foldl sys_step].
  rewrite Hf, He, Hs. split_and!.
  - rewrite thread_other. by rewrite decide_True.
  - cbn. by rewrite Hs.
  - done.
  - intros u Hu. rewrite thread_other. by rewrite decide_False.
Qed.

(** The scheduler cannot go on with a thread that is in the executor. *)
Lemma leads_blocked now pl d fs s :
  leads [section t now] (InExecutor pl d :: fs) s (InExecutor pl d :: fs) s [].
Proof.
  intros y Hf Hs. cbv zeta. unfold section. cbn [sys_run foldl sys_step]. rewrite Hf.
  cbn [section_of]. by apply leads_nil.
Qed.

Lemma leads_receipt pl d status fs s :
  leads [DoReceipt t status] (InExecutor pl d :: fs) s (Finish pl status :: fs) s [].
Proof.
  intros y Hf Hs. cbv zeta. cbn [sys_run foldl sys_step]. rewrite Hf. unfold set_thread. split_and!.
  - rewrite thread_other. by rewrite decide_True.
  - cbn. rewrite <- Hs. by destruct (config y).
  - by rewrite app_nil_r.
  - intros u Hu. rewrite thread_other. by rewrite decide_False.
Qed.

(** A completion reported from within an executor. *)
Lemma leads_completion i o r e detail now pl d fs s chs fs2 s2 given :
  leads chs (InExecutor pl d :: fs) (on_adapter_completion i o r e detail now s) fs2 s2 given ->
  leads (DoCall t (CCompletion i o r e detail) :: section t now :: section t now :: chs)
    (InExecutor pl d :: fs) s fs2 s2 given.
Proof.
  intros Ha. apply (leads_cons (DoCall t _) _ (InExecutor pl d :: fs) s
    (Enter (CCompletion i o r e detail) :: InExecutor pl d :: fs) s fs2 s2 [] given); [by apply leads_call|].
  pose proof (leads_section now (ETakeCompletion i o r e detail) (Enter (CCompletion i o r e detail))
    (InExecutor pl d :: fs) s eq_refl) as H1.
  unfold on_adapter_completion in Ha. cbn [after_section exec] in H1.
  destruct (take_completion i o r e detail s) as [[report|] s1]; cbn [fst snd app] in H1.
  - apply (leads_cons _ _ _ _ _ _ _ _ [] given H1).
    exact (leads_cons _ _ _ _ _ _ _ _ [] given
             (leads_section now (EReport report now) (Reporting report) _ s1 eq_refl) Ha).
  - apply (leads_cons _ _ _ _ _ _ _ _ [] given H1).
    exact (leads_cons _ _ _ _ _ _ _ _ [] given (leads_blocked now _ _ _ _) Ha).
Qed.
End Alone.

(** A dispatch nobody interrupts is the sequential definition: from any state in which
    the thread is idle, its choices end the call, with the planner as
    [Lifecycle.dispatch_plan] with the reference executor leaves it, the dispatch
    handed out once unless the call was refused, and nothing else touched. *)
Theorem dispatch_alone {sorter : StdSort} {St} `{PersistenceStore St} (t : nat) pl now1 now2 now now'
    (ex : ReferenceExecutor) s :
  leads (St := St) t (dispatch_choices t pl now1 now2 now' ex s) [] s []
    (dispatch_plan (executor := make_reference_executor (Some (report_to_planner now')) now)
       pl now1 now2 (ex, s)).2.2
    match (dispatch_begin pl now1 s).1 with Ok d => [d] | Throw _ => [] end.
Proof.
  unfold dispatch_choices.
  pose proof (leads_section (St := St) t now1 (EDispatchBegin pl now1) (Enter (CDispatch pl)) [] s eq_refl)
    as H1. cbn [after_section exec] in H1. unfold dispatch_plan.
  apply (leads_cons t (DoCall t (CDispatch pl)) _ [] s [Enter (CDispatch pl)] s _ _ []);
    [by apply leads_call|].
  destruct (dispatch_begin pl now1 s) as [[d|err] s1]; cbn [fst snd app handed_by] in *.
  2: { exact (leads_cons t _ _ _ _ _ _ _ _ [] [] H1 (leads_nil t _ _)). }
  apply (leads_cons t _ _ _ _ _ _ _ _ [d] [] H1).
  cbn [dispatch make_reference_executor]. unfold reference_dispatch.
  change (outcome_for (MkReferenceExecutor (overrides ex) (u64 (dispatched ex + 1))))
    with (outcome_for ex).
  destruct (outcome_for ex _) as [[[o r] el] detail]. cbn [rr_status].
  apply leads_completion. unfold report_to_planner.
  apply (leads_cons t _ _ _ _ _ _ _ _ [] [] (leads_receipt t _ _ DispatchStatus.DISPATCHED _ _)).
  pose proof (leads_section (St := St) t now2 (EDispatchFinish pl DispatchStatus.DISPATCHED now2)
    (Finish pl DispatchStatus.DISPATCHED) []
    (on_adapter_completion (rd_dispatch_id d) o r el detail now' s1) eq_refl) as H2.
  cbn [after_section exec app handed_by] in H2.
  destruct (dispatch_finish _ _ _ _) as [r' s3]. cbn [fst snd] in *.
  exact (leads_cons t _ _ _ _ _ _ _ _ [] [] H2 (leads_nil t _ _)).
Qed.
