(* ===== verification/TestSuite.v ===== *)
(** * The repository's tests

    Models [tests/]: the scenario builders of [scenario.hpp] and the test cases,
    each a boolean that is [true] when the case passes ([RP_CHECK] of a condition
    is a conjunct, [RP_EXPECT_THROW] compares the code of the error).  The cases
    with one thread are evaluated; those of [test_concurrency.cpp] are proved for
    every schedule of their threads. *)

From stdpp Require Import base gmap strings list.
From S2P Require Import Prelude Types Evidence Feasibility StdSort Economics Digest Plan Explain.
From S2P Require Import Planner Lifecycle Executor Program Cli DecisionProps Snapshot Persistence.
From S2P Require Import Examples.
#[local] Open Scope Z_scope.
#[local] Open Scope rp_scope.
#[local] Open Scope prog_scope.

Import RecoveryStrategy.

(** ** [scenario.hpp] *)

Module scenario.
Definition kEpoch : CoordinatorEpoch := MkId 1.
Definition kBoot : PlannerBootId := MkId 1.
Definition kWorkloadGen : WorkloadGeneration := MkId 1.
Definition kPolicyGen : PolicyGeneration := MkId 1.
Definition kCompatGen : CompatibilityGeneration := MkId 1.
Definition kResourceGen : ResourceGeneration := MkId 1.
Definition kTopoGen : TopologyGeneration := MkId 1.
Definition kWorkerA : WorkerId := MkId 1.
Definition kBootA : WorkerBootId := MkId 100.
Definition kWorkerB : WorkerId := MkId 2.
Definition kBootB : WorkerBootId := MkId 200.
Definition kEngineA : EngineId := MkId 1.
Definition kEngineIncA : EngineIncarnationId := MkId 10.
Definition kStateA : StateId := MkId 1000.
Definition kStateGenA : StateGeneration := MkId 1.
Definition kCheckpointA : CheckpointId := MkId 5000.

Definition make_context : PlannerContext :=
  (ctx_register_worker kWorkerA kBootA >>> ctx_register_worker kWorkerB kBootB)
    (MkContext kEpoch kBoot kWorkloadGen kPolicyGen kCompatGen kResourceGen kTopoGen ∅ ∅
       {["gpu_mem" := 10000; "host_mem" := 200000]}
       {["workload:v1" := {["workerA"; "workerB"; "gpu:sm120"]}]}
       {[kWorkloadGen]} {[kWorkloadGen]}).

Definition make_request_for (reason : string) : RecoveryRequest :=
  {| q_request_id := MkId 1;
     q_workload := MkId 1;
     q_workload_generation := kWorkloadGen;
     q_execution := MkId 1;
     q_execution_generation := MkId 1;
     q_failure := MkId 1;
     q_reason := reason;
     q_prior_progress := default_progress;
     q_recovery_deadline := None;
     q_max_recovery_duration := None;
     q_max_tolerated_progress_loss := None;
     q_preferred_strategies := [];
     q_forbidden_strategies := [];
     q_state_requirements := [];
     q_placement_constraints := [];
     q_compatibility_requirements := [];
     q_coordinator_epoch := kEpoch;
     q_policy_generation := kPolicyGen;
     q_topology_generation := kTopoGen;
     q_requested_at := MkUnit 0;
     q_value_priorities := [] |}.
Definition make_request : RecoveryRequest := make_request_for "worker lost".

(** The metadata every piece of evidence has. *)
Definition observed (p : EvidenceProvenance.t) (conf : Confidence) : EvidenceMeta :=
  MkMeta kEpoch kBootA (MkUnit 100) p Freshness.CURRENT conf false.

Definition make_candidate (strategy : RecoveryStrategy.t) (id : Z) : RecoveryCandidate :=
  let measured := observed EvidenceProvenance.MEASURED confidence_none in
  let certain := observed EvidenceProvenance.MEASURED confidence_full in
  let estimated := observed EvidenceProvenance.ESTIMATED confidence_none in
  let migrate := bool_decide (strategy = MIGRATE) in
  {| c_candidate_id := MkId id;
     c_generation := MkId id;
     c_strategy := strategy;
     c_target_worker := kWorkerA;
     c_target_boot := kBootA;
     c_target_engine := kEngineA;
     c_target_engine_incarnation := kEngineIncA;
     c_source_worker := if migrate then kWorkerB else kWorkerA;
     c_source_boot := if migrate then kBootB else kBootA;
     c_state_source := kStateA;
     c_state_generation := kStateGenA;
     c_checkpoint_source := kCheckpointA;
     c_checkpoint_generation := MkId 1;
     c_state := Some
       {| st_meta := certain;
          st_state_id := kStateA;
          st_state_generation := kStateGenA;
          st_workload_generation := kWorkloadGen;
          st_checkpoint_generation := MkId 1;
          st_integrity := StateIntegrity.VALID;
          st_size_bytes := MkUnit 1024;
          st_restore_bytes := MkUnit 1024;
          st_preserved_progress := MkUnit 90;
          st_durable_progress := MkUnit 90;
          st_location := StorageLocation.LOCAL;
          st_is_durable := true;
          st_identity := "workload:v1" |};
     c_compatibility := Some
       {| co_meta := observed EvidenceProvenance.REPORTED confidence_none;
          co_compatibility_generation := kCompatGen;
          co_result := CompatibilityResult.EXACT;
          co_subject_identity := "workload:v1";
          co_state_format := "workerA";
          co_reason := "exact match" |};
     c_availability := Some
       {| av_meta := measured;
          av_worker := kWorkerA;
          av_boot := kBootA;
          av_engine_incarnation := kEngineIncA;
          av_is_alive := true;
          av_readiness := CandidateReadiness.READY |};
     c_resource := Some
       {| rs_meta := measured;
          rs_snapshot := MkId 1;
          rs_generation := kResourceGen;
          rs_resource_kind := "gpu_mem";
          rs_required := Some 100;
          rs_available := Some 10000;
          rs_status := ResourceStatus.AVAILABLE |};
     c_topology := Some
       {| tp_meta := measured;
          tp_generation := kTopoGen;
          tp_path_possible := true;
          tp_source := "workerA";
          tp_destination := "workerB";
          tp_path_latency := None |};
     c_transfer := Some
       {| tr_meta := estimated;
          tr_transfer_bytes := MkUnit 1024;
          tr_bandwidth := Some (MkUnit (1024 * 1024));
          tr_transfer_duration := None;
          tr_from := "workerA";
          tr_to := "workerB" |};
     c_checkpoint := Some
       {| cp_meta := measured;
          cp_checkpoint_id := kCheckpointA;
          cp_checkpoint_generation := MkId 1;
          cp_state_generation := kStateGenA;
          cp_age := MkUnit 1000;
          cp_integrity := StateIntegrity.VALID;
          cp_is_durable := true |};
     c_shadow := Some
       {| sh_meta := measured;
          sh_shadow_worker := kWorkerB;
          sh_shadow_boot := kBootB;
          sh_shadow_state_generation := kStateGenA;
          sh_lag := MkUnit 50;
          sh_last_sync_point := MkUnit 90;
          sh_readiness := CandidateReadiness.READY;
          sh_compatibility := CompatibilityResult.EXACT |};
     c_progress := Some
       {| pr_meta := measured;
          pr_committed := MkUnit 100;
          pr_durable := MkUnit 90;
          pr_recoverable := MkUnit 90;
          pr_recomputable := MkUnit 80;
          pr_lost := MkUnit 0;
          pr_total := Some (MkUnit 100) |};
     c_cost := Some
       {| cost_meta := estimated;
          cost_expected_time := Some (MkUnit 5000);
          cost_restore_time := Some (MkUnit 3000);
          cost_restart_time := Some (MkUnit 1000);
          cost_transfer_time := Some (MkUnit 1000);
          cost_recompute_time := Some (MkUnit 500);
          cost_bytes_transferred := Some (MkUnit 1024);
          cost_bytes_read := Some (MkUnit 1024);
          cost_bytes_materialized := Some (MkUnit 1024);
          cost_cost_units := None;
          cost_energy_cost := None;
          cost_expected_lost_progress := Some (MkUnit 0);
          cost_expected_preserved_progress := Some (MkUnit 90);
          cost_checkpoint_age := None;
          cost_deadline_slack := None;
          cost_failover_domain_risk := 0 |};
     c_authority := Some
       {| auth_meta := certain;
          auth_coordinator_epoch := kEpoch;
          auth_policy_generation := kPolicyGen;
          auth_coordinator_authority_valid := true;
          auth_policy_authority_valid := true;
          auth_candidate_authority_valid := true;
          auth_execution_authority_valid := true |};
     c_reason_for_existence := "scenario candidate " +:+ to_dec id;
     c_capabilities := [];
     c_required_capabilities := [] |}.
End scenario.

(** ** [test_util.hpp]: a test case *)

Definition Case (A : Type) : Type := Planner -> Exit A * Planner.

(** [RP_CHECK] *)
Definition check (b : bool) : Case unit := fun s =>
  (if b then Go tt else Raise (Runtime "CHECK failed"), s).
Definition calls {A} (f : Planner -> A * Planner) : Case A := fun s =>
  let '(a, s) := f s in (Go a, s).
Definition acts (f : Planner -> Planner) : Case unit := fun s => (Go tt, f s).
Definition must {A} (f : Planner -> Result RecoveryError A * Planner) : Case A :=
  do! r := calls f in or_raise (recovery_result r).
(** [RP_EXPECT_THROW] *)
Definition expect_throw {A} (code : ErrorCode.t)
    (f : Planner -> Result RecoveryError A * Planner) : Case unit :=
  do! r := calls f in check (bool_decide (error_code r = Some code)).
(** A member of an optional or of a list that has to be there. *)
Definition deref {A} (o : option A) : Case A := fun s =>
  (match o with Some a => Go a | None => Raise (Runtime "no value") end, s).

Definition passes (c : Case unit) : bool :=
  match (c new_planner).1 with Go _ => true | _ => false end.

(** ** What the cases share *)

Import scenario.

Definition t0 : Timestamp := MkUnit 0.

Definition make_world : Planner -> Planner :=
  register_worker kWorkerA kBootA >>> register_worker kWorkerB kBootB >>>
  set_resource "gpu_mem" 10000 >>> set_recompute_available kWorkloadGen true.

(** Assignments to the members of a candidate. *)
Definition c_update (strategy : RecoveryStrategy.t) (state : option StateEvidence)
    (resource : option ResourceEvidence) (checkpoint : option CheckpointEvidence)
    (cost : option CostEvidence) (authority : option AuthorityEvidence) (c : RecoveryCandidate)
    : RecoveryCandidate :=
  MkCandidate (c_candidate_id c) (c_generation c) strategy (c_target_worker c)
    (c_target_boot c) (c_target_engine c) (c_target_engine_incarnation c) (c_source_worker c)
    (c_source_boot c) (c_state_source c) (c_state_generation c) (c_checkpoint_source c)
    (c_checkpoint_generation c) state (c_compatibility c) (c_availability c) resource
    (c_topology c) (c_transfer c) checkpoint (c_shadow c) (c_progress c) cost authority
    (c_reason_for_existence c) (c_capabilities c) (c_required_capabilities c).
Definition set_strategy (s : RecoveryStrategy.t) (c : RecoveryCandidate) : RecoveryCandidate :=
  c_update s (c_state c) (c_resource c) (c_checkpoint c) (c_cost c) (c_authority c) c.
Definition set_resource_evidence (f : ResourceEvidence -> ResourceEvidence)
    (c : RecoveryCandidate) : RecoveryCandidate :=
  c_update (c_strategy c) (c_state c) (f <$> c_resource c) (c_checkpoint c) (c_cost c)
    (c_authority c) c.
Definition drop_state (c : RecoveryCandidate) : RecoveryCandidate :=
  c_update (c_strategy c) None (c_resource c) (c_checkpoint c) (c_cost c) (c_authority c) c.
Definition set_cost (f : CostEvidence -> CostEvidence) (c : RecoveryCandidate)
    : RecoveryCandidate :=
  c_update (c_strategy c) (c_state c) (c_resource c) (c_checkpoint c) (f <$> c_cost c)
    (c_authority c) c.
Definition cost_update (time : option Duration) (lost preserved : option ProgressUnits)
    (k : CostEvidence) : CostEvidence :=
  MkCostEvidence (cost_meta k) time (cost_restore_time k) (cost_restart_time k)
    (cost_transfer_time k) (cost_recompute_time k) (cost_bytes_transferred k)
    (cost_bytes_read k) (cost_bytes_materialized k) (cost_cost_units k) (cost_energy_cost k)
    lost preserved (cost_checkpoint_age k) (cost_deadline_slack k) (cost_failover_domain_risk k).
Definition set_expected_time (t : Z) : RecoveryCandidate -> RecoveryCandidate :=
  set_cost (fun k => cost_update (Some (MkUnit t)) (cost_expected_lost_progress k)
                       (cost_expected_preserved_progress k) k).
Definition set_lost (n : Z) : RecoveryCandidate -> RecoveryCandidate :=
  set_cost (fun k => cost_update (cost_expected_time k) (Some (MkUnit n))
                       (cost_expected_preserved_progress k) k).
Definition with_time (time lost preserved : Z) : RecoveryCandidate -> RecoveryCandidate :=
  set_cost (cost_update (Some (MkUnit time)) (Some (MkUnit lost)) (Some (MkUnit preserved))).
Definition set_checkpoint_state (g : StateGeneration) (c : RecoveryCandidate) : RecoveryCandidate :=
  c_update (c_strategy c) (c_state c) (c_resource c)
    ((fun k => MkCheckpointEvidence (cp_meta k) (cp_checkpoint_id k) (cp_checkpoint_generation k)
                 g (cp_age k) (cp_integrity k) (cp_is_durable k)) <$> c_checkpoint c)
    (c_cost c) (c_authority c) c.

(** Assignments to the members of a request. *)
Definition q_update (id : RecoveryRequestId) (deadline : option Timestamp)
    (loss : option ProgressUnits) (forbidden : list RecoveryStrategy.t) (r : RecoveryRequest)
    : RecoveryRequest :=
  MkRequest id (q_workload r) (q_workload_generation r) (q_execution r)
    (q_execution_generation r) (q_failure r) (q_reason r) (q_prior_progress r) deadline
    (q_max_recovery_duration r) loss (q_preferred_strategies r) forbidden
    (q_state_requirements r) (q_placement_constraints r) (q_compatibility_requirements r)
    (q_coordinator_epoch r) (q_policy_generation r) (q_topology_generation r)
    (q_requested_at r) (q_value_priorities r).
Definition with_deadline (t : Z) (r : RecoveryRequest) : RecoveryRequest :=
  q_update (q_request_id r) (Some (MkUnit t)) (q_max_tolerated_progress_loss r)
    (q_forbidden_strategies r) r.
Definition with_tolerance (n : Z) (r : RecoveryRequest) : RecoveryRequest :=
  q_update (q_request_id r) (q_recovery_deadline r) (Some (MkUnit n)) (q_forbidden_strategies r) r.
Definition with_forbidden (s : RecoveryStrategy.t) (r : RecoveryRequest) : RecoveryRequest :=
  q_update (q_request_id r) (q_recovery_deadline r) (q_max_tolerated_progress_loss r)
    (q_forbidden_strategies r ++ [s]) r.
Definition with_id (id : Z) (r : RecoveryRequest) : RecoveryRequest :=
  q_update (MkId id) (q_recovery_deadline r) (q_max_tolerated_progress_loss r)
    (q_forbidden_strategies r) r.

(** The callback that reports to the planner, and the one that does nothing. *)
Definition reporting : CompletionCallback := report_to_planner t0.
Definition silent : CompletionCallback := fun _ _ _ _ _ s => s.

Definition dispatch_with (callback : CompletionCallback) (pl : RecoveryPlan) (s : Planner)
    : Result Exception RecoveryPlan * Planner :=
  let '(r, (_, s)) :=
    dispatch_plan (executor := make_reference_executor (Some callback) t0) pl t0 t0
      (new_executor, s) in (r, s).
Definition exception_code {A} (r : Result Exception A) : option ErrorCode.t :=
  match r with Throw (Recovery e) => Some (err_code e) | _ => None end.

Definition report_of (d : Z) (boot : WorkerBootId) (p : RecoveryPlan) (o : ExecutionOutcome.t)
    : ExecutionReport :=
  MkReport (MkId d) (p_plan_id p) (p_generation p) boot o (MkUnit 0) (MkUnit 0) "".

Definition state_is (st : PlanLifecycleState.t) (p : RecoveryPlan) : bool :=
  bool_decide (p_state p = st).
Definition outcome_is (o : PlanOutcome.t) (d : RecoveryDecision) : bool :=
  bool_decide (de_outcome d = o).

(** The first of [plans()]. *)
Definition first_plan : Case RecoveryPlan := fun s => deref (head (all_plans s)) s.

Section Cases.
Context {sorter : StdSort}.

Definition planned (q : RecoveryRequest) (cs : list RecoveryCandidate) : Case RecoveryDecision :=
  calls (plan q cs t0).

(** ** [test_core.cpp] *)

Definition restore_preferred_over_restart : Case unit :=
  acts make_world;;
  do! decision := planned make_request
    [with_time 3000 0 100 (make_candidate RESTORE 1);
     with_time 3000 20 80 (make_candidate RESTART 2)] in
  check (outcome_is PlanOutcome.PLAN_FOUND decision);;
  do! p := deref (de_plan decision) in
  check (bool_decide (p_strategy p = RESTORE));;
  check (id_eqb (p_candidate_id p) (MkId 1)).

Definition deadline_changes_winner : Case unit :=
  acts make_world;;
  let restore := with_time 200000 0 100 (make_candidate RESTORE 1) in
  let restart := with_time 1000 90 0 (make_candidate RESTART 2) in
  do! d1 := planned (with_deadline 5000 make_request) [restore; restart] in
  check (outcome_is PlanOutcome.PLAN_FOUND d1);;
  do! p1 := deref (de_plan d1) in
  check (bool_decide (p_strategy p1 = RESTART));;
  do! d2 := planned (with_deadline 1000000000 make_request) [restore; restart] in
  check (outcome_is PlanOutcome.PLAN_FOUND d2);;
  do! p2 := deref (de_plan d2) in
  check (bool_decide (p_strategy p2 = RESTORE)).

Definition deterministic_selection_independent_of_input_order : Case unit :=
  acts make_world;;
  let restore := make_candidate RESTORE 1 in
  let migrate := make_candidate MIGRATE 2 in
  let recompute := make_candidate RECOMPUTE 3 in
  let restart := make_candidate RESTART 4 in
  do! d1 := planned make_request [restore; migrate; recompute; restart] in
  do! d2 := planned make_request [restart; recompute; migrate; restore] in
  check (outcome_is PlanOutcome.PLAN_FOUND d1);;
  check (outcome_is PlanOutcome.PLAN_FOUND d2);;
  do! p1 := deref (de_plan d1) in
  do! p2 := deref (de_plan d2) in
  check (bool_decide (p_strategy p1 = p_strategy p2));;
  check (id_eqb (p_candidate_id p1) (p_candidate_id p2));;
  check (bool_decide (p_decision_digest p1 = p_decision_digest p2)).

Definition stale_authority_candidate_is_rejected : Case unit :=
  acts make_world;;
  do! decision := planned make_request
    [set_evidence_epoch (MkId 999) (make_candidate RESTORE 1);
     set_evidence_epoch (MkId 999) (make_candidate RESTART 2)] in
  check (outcome_is PlanOutcome.NO_VALID_PLAN decision);;
  check (negb (has_value (de_plan decision))).

Definition no_deadline_feasible_plan_when_all_miss : Case unit :=
  acts make_world;;
  do! decision := planned (with_deadline 500 make_request)
    [with_time 100000 0 100 (make_candidate RESTORE 1);
     with_time 100000 0 50 (make_candidate RESTART 2)] in
  check (outcome_is PlanOutcome.NO_DEADLINE_FEASIBLE_PLAN decision);;
  do! p := deref (de_plan decision) in
  check (bool_decide (d_outcome (p_deadline p) = DeadlineOutcome.VIOLATED)).

(** ** [test_lifecycle.cpp] *)

(** [planner.plan(req, {make_candidate(s, id)})], dereferenced. *)
Definition plan_with (s : RecoveryStrategy.t) (id : Z) : Case RecoveryPlan :=
  do! decision := planned make_request [make_candidate s id] in deref (de_plan decision).

Definition planned_and_authorized : Case RecoveryPlan :=
  acts make_world;;
  do! p := plan_with RESTORE 1 in
  must (authorize_plan p t0).

Definition dispatched_by (callback : CompletionCallback) (p : RecoveryPlan) : Case RecoveryPlan :=
  do! r := calls (dispatch_with callback p) in or_raise r.

Definition authorize_revalidate_dispatch_success : Case unit :=
  acts make_world;;
  do! decision := planned make_request [make_candidate RESTORE 1] in
  check (outcome_is PlanOutcome.PLAN_FOUND decision);;
  do! p := deref (de_plan decision) in
  check (state_is PlanLifecycleState.PLANNED p);;
  do! authorized := must (authorize_plan p t0) in
  check (state_is PlanLifecycleState.AUTHORIZED authorized);;
  do! revalidated := must (fun s => (revalidate_plan authorized s, s)) in
  check (state_is PlanLifecycleState.AUTHORIZED revalidated);;
  do! dispatched := dispatched_by reporting revalidated in
  check (state_is PlanLifecycleState.SUCCEEDED dispatched);;
  check (bool_decide (p_execution_outcome dispatched = ExecutionOutcome.SUCCEEDED));;
  check (p_outcome_published dispatched).

Definition duplicate_completion_rejected : Case unit :=
  do! authorized := planned_and_authorized in
  do! dispatched := dispatched_by reporting authorized in
  check (state_is PlanLifecycleState.SUCCEEDED dispatched);;
  acts (report_execution
    (report_of 99 (p_target_boot dispatched) dispatched ExecutionOutcome.SUCCEEDED) t0);;
  do! after := first_plan in
  check (state_is PlanLifecycleState.SUCCEEDED after);;
  check (bool_decide (p_execution_outcome after = ExecutionOutcome.SUCCEEDED)).

Definition stale_completion_rejected : Case unit :=
  do! authorized := planned_and_authorized in
  do! dispatched := dispatched_by silent authorized in
  check (state_is PlanLifecycleState.EXECUTING dispatched);;
  acts (report_execution (report_of 0 (MkId 999999) dispatched ExecutionOutcome.SUCCEEDED) t0);;
  do! after := first_plan in
  check (state_is PlanLifecycleState.EXECUTING after).

Definition stale_plan_rejected_on_revalidate : Case unit :=
  do! authorized := planned_and_authorized in
  acts (unregister_worker kWorkerA);;
  expect_throw ErrorCode.STALE_AUTHORITY (fun s => (revalidate_plan authorized s, s)).

Definition cancel_plan_before_dispatch : Case unit :=
  acts make_world;;
  do! p := plan_with RESTART 1 in
  do! ok := calls (cancel_plan (p_plan_id p) false t0) in
  check ok;;
  do! after := first_plan in
  check (state_is PlanLifecycleState.CANCELLED after).

Definition expect_dispatch_throw (code : ErrorCode.t) (p : RecoveryPlan) : Case unit :=
  do! r := calls (dispatch_with reporting p) in
  check (bool_decide (exception_code r = Some code)).

Definition late_completion_from_invalidated_plan_rejected : Case unit :=
  do! authorized := planned_and_authorized in
  acts (invalidate_plan (p_plan_id authorized) t0);;
  expect_dispatch_throw ErrorCode.STALE_AUTHORITY authorized.

Definition new_plan_supersedes_older_plan : Case unit :=
  acts make_world;;
  do! p1 := plan_with RESTORE 1 in
  do! p2 := plan_with RESTART 2 in
  check (negb (id_eqb (p_candidate_id p1) (p_candidate_id p2)));;
  expect_throw ErrorCode.INVALID_INPUT (authorize_plan p1 t0);;
  do! after := first_plan in
  check (state_is PlanLifecycleState.SUPERSEDED after).

(** ** [test_persistence.cpp]: a planner over the files of an empty directory *)

Definition saved : Case (RecoveryPlan * Directory) :=
  acts make_world;;
  do! decision := planned make_request [make_candidate RESTORE 1] in
  check (outcome_is PlanOutcome.PLAN_FOUND decision);;
  do! p := deref (de_plan decision) in
  fun s => match save_state (Some (∅ : Directory)) s with
           | (Ok _, Some dir) => (Go (p, dir), s)
           | _ => (Raise (Runtime "save_state"), s)
           end.

Definition persistence_save_load_roundtrip : Case unit :=
  do! r := saved in
  let digest := p_decision_digest r.1 in
  acts (fun _ => new_planner);;
  acts (fun s => (load_state (Some r.2) s).2);;
  acts make_world;;
  do! epoch := calls (fun s => (ctx_epoch (context s), s)) in
  check (id_eqb epoch kEpoch);;
  do! ps := calls (fun s => (all_plans s, s)) in
  check (bool_decide (length ps = 1%nat));;
  do! p := deref (head ps) in
  check (bool_decide (p_decision_digest p = digest));;
  do! p2 := plan_with RESTORE 1 in
  check (bool_decide (p_decision_digest p2 = digest)).

(** The saved file, damaged by [f], is not loaded. *)
Definition damaged_rejected (f : list Z -> list Z) : Case unit :=
  do! r := saved in
  let path := file_path "planner_state" in
  do! raw := deref (r.2 !! path) in
  check (16 <? Z.of_nat (length raw));;
  check (negb (has_value (store_load "planner_state" (<[path := f raw]> r.2)))).

Definition persistence_corruption_rejected : Case unit :=
  damaged_rejected (fun raw => alter (fun b => Z.lxor b 255) (length raw / 2)%nat raw).
Definition persistence_truncation_rejected : Case unit :=
  damaged_rejected (fun raw => take (length raw / 2)%nat raw).

Definition coordinator_restart_invalidates_inflight_and_advances_epoch : Case unit :=
  do! authorized := planned_and_authorized in
  check (state_is PlanLifecycleState.AUTHORIZED authorized);;
  do! before := calls (fun s => (current_epoch s, s)) in
  do! _ := must (fun s =>
    match save_state (Some (∅ : Directory)) s with
    | (Ok _, store) => let '(r, _, s) := restart_coordinator (fun _ => t0) store s in (r, s)
    | (Throw e, _) => (Throw e, s)
    end) in
  do! after := calls (fun s => (current_epoch s, s)) in
  check (value after =? u64 (value before + 1));;
  do! ps := calls (fun s => (all_plans s, s)) in
  check (existsb (fun p => id_eqb (p_plan_id p) (p_plan_id authorized)) ps);;
  check (forallb (fun p =>
    if id_eqb (p_plan_id p) (p_plan_id authorized)
    then state_is PlanLifecycleState.INVALIDATED p else true) ps);;
  acts make_world;;
  do! now_epoch := calls (fun s => (current_epoch s, s)) in
  do! d2 := planned make_request [set_evidence_epoch now_epoch (make_candidate RESTORE 1)] in
  check (outcome_is PlanOutcome.PLAN_FOUND d2).

(** ** [test_adversarial.cpp] *)

Definition rejected (ctx : PlannerContext) (q : RecoveryRequest) (c : RecoveryCandidate) : Case unit :=
  check (negb (feasible (evaluate_feasibility c q ctx))).
Definition deadline_outcome (q : RecoveryRequest) (c : RecoveryCandidate) : DeadlineOutcome.t :=
  d_outcome (evaluate_deadline c q make_context t0).

Definition malformed_strategy_rejected : Case unit :=
  rejected make_context make_request
    (set_strategy (of_code 200) (make_candidate RESTORE 1)).

Definition huge_duration_no_overflow : Case unit :=
  let o := deadline_outcome (with_deadline (INT64_MAX - 100) make_request)
             (set_expected_time INT64_MAX (make_candidate RESTORE 1)) in
  check (bool_decide (o = DeadlineOutcome.HARD_FEASIBLE) ||
         bool_decide (o = DeadlineOutcome.VIOLATED)).

Definition negative_duration_clamped : Case unit :=
  check (bool_decide
    (deadline_outcome (with_deadline 1000 make_request)
       (set_expected_time (-5000) (make_candidate RESTORE 1)) = DeadlineOutcome.HARD_FEASIBLE)).

Definition absurd_required_bytes_rejected : Case unit :=
  rejected make_context make_request
    (set_resource_evidence (fun r =>
       MkResourceEvidence (rs_meta r) (rs_snapshot r) (rs_generation r) (rs_resource_kind r)
         (Some (2 ^ 64 - 1)) (rs_available r) (rs_status r)) (make_candidate RESTORE 1)).

(** [write_frame] *)
Definition frame_bytes (payload : list Z) (version : Z) (append_garbage : bool) : list Z :=
  (w_u32 kPersistenceMagic >>> w_u32 version >>> w_u32 (u32 (Z.of_nat (length payload))) >>>
   w_each payload >>> w_u32 (crc32c payload 0)) [] ++
  (if append_garbage then [195; 158; 194; 173] else []).
Definition loaded_frame (key : string) (raw : list Z) : option (list Z) :=
  store_load key ({[key +:+ ".rpp" := raw]} : Directory).

Definition frame_trailing_garbage_rejected : Case unit :=
  check (negb (has_value
    (loaded_frame "g" (frame_bytes [1; 2; 3; 4] kPersistenceFormatVersion true)))).
Definition frame_version_mismatch_rejected : Case unit :=
  check (negb (has_value (loaded_frame "v" (frame_bytes [1; 2; 3; 4] 9999 false)))).
Definition valid_frame_roundtrips : Case unit :=
  do! got := deref (loaded_frame "ok" (frame_bytes [9; 8; 7] kPersistenceFormatVersion false)) in
  check (bool_decide (length got = 3%nat) && bool_decide (got !! 0%nat = Some 9) &&
         bool_decide (got !! 2%nat = Some 7)).

Definition state_generation_lineage_mismatch_rejected : Case unit :=
  rejected make_context make_request
    (set_checkpoint_state (MkId 999) (make_candidate RESTORE 1)).

Definition forbidden_strategy_rejected : Case unit :=
  let ev := evaluate_feasibility (make_candidate RECOMPUTE 1)
              (with_forbidden RECOMPUTE make_request) make_context in
  check (negb (feasible ev));;
  check (bool_decide (ev_result ev = FeasibilityResult.INFEASIBLE)).

Definition deadline_in_past_is_violated : Case unit :=
  check (bool_decide
    (deadline_outcome (with_deadline (-5000) make_request)
       (set_expected_time 1000 (make_candidate RESTORE 1)) = DeadlineOutcome.VIOLATED)).

Definition ambiguous_completion_does_not_fabricate_success : Case unit :=
  do! auth := planned_and_authorized in
  do! dispatched := dispatched_by silent auth in
  check (state_is PlanLifecycleState.EXECUTING dispatched);;
  acts (report_execution
    (report_of 0 (p_target_boot dispatched) dispatched ExecutionOutcome.AMBIGUOUS) t0);;
  do! p := first_plan in
  check (state_is PlanLifecycleState.FAILED p);;
  check (bool_decide (p_execution_outcome p = ExecutionOutcome.AMBIGUOUS));;
  check (negb (p_outcome_published p)).

(** ** [test_property.cpp] *)

(** Hashes are not modelled; a [std::map] begins with its least key. *)
Definition id_ordering_hash_stream_deterministic : Case unit :=
  let a : CoordinatorEpoch := MkId 5 in
  let b : CoordinatorEpoch := MkId 10 in
  check (id_ltb a b);;
  check (negb (id_eqb a b));;
  do! e := deref (head (entries (<[value b := 2]> (<[value a := 1]> (∅ : gmap Z Z))))) in
  check (bool_decide (e.1 = value a));;
  check (value (MkId 42 : WorkerBootId) =? 42).

Definition selected_candidate_never_infeasible : Case unit :=
  acts make_world;;
  do! decision := planned make_request
    [make_candidate RESTORE 1; set_expected_time 100 (make_candidate RESTART 2)] in
  check (outcome_is PlanOutcome.PLAN_FOUND decision);;
  do! p := deref (de_plan decision) in
  check (forallb (fun rc =>
    if id_eqb (c_candidate_id (k_candidate rc)) (p_candidate_id p)
    then feasible (k_feasibility rc) else true) (de_ranked decision)).

(** The loop over the deadlines, with [prev_ok]. *)
Fixpoint deadlines_monotonic (prev_ok : bool) (ds : list Z) : bool :=
  match ds with
  | [] => prev_ok
  | d :: ds =>
      let ok := negb (bool_decide
        (deadline_outcome (with_deadline d make_request)
           (set_expected_time 1000 (make_candidate RESTORE 1)) = DeadlineOutcome.VIOLATED)) in
      (negb prev_ok || ok) && deadlines_monotonic ok ds
  end.
Definition deadline_monotonic_never_less_feasible : Case unit :=
  check (deadlines_monotonic false ((fun i => 500 + 250 * i) <$> seqZ 0 19)).

Definition unknown_resource_never_unconditionally_feasible : Case unit :=
  let c := set_resource_evidence (fun r =>
    MkResourceEvidence (rs_meta r) (rs_snapshot r) (rs_generation r) (rs_resource_kind r)
      (rs_required r) None ResourceStatus.UNKNOWN) (make_candidate RESTORE 1) in
  let ev := evaluate_feasibility c make_request make_context in
  check (negb (feasible ev));;
  check (bool_decide (ev_result ev = FeasibilityResult.INSUFFICIENT_EVIDENCE)).

Definition missing_mandatory_evidence_never_feasible : Case unit :=
  rejected make_context make_request (drop_state (make_candidate RESTORE 1)).

Definition terminal_plan_stays_terminal : Case unit :=
  do! auth := planned_and_authorized in
  do! done := dispatched_by reporting auth in
  check (state_is PlanLifecycleState.SUCCEEDED done);;
  acts (report_execution (report_of 0 (p_target_boot done) done ExecutionOutcome.FAILED) t0);;
  do! p := first_plan in
  check (state_is PlanLifecycleState.SUCCEEDED p).

Definition exactly_one_authoritative_terminal_success : Case unit :=
  do! auth := planned_and_authorized in
  do! done := dispatched_by reporting auth in
  expect_dispatch_throw ErrorCode.STALE_AUTHORITY done;;
  do! p := first_plan in
  check (bool_decide (p_execution_outcome p = ExecutionOutcome.SUCCEEDED));;
  check (p_outcome_published p).

Definition precedes (a b : RecoveryCandidate) : bool :=
  let economics c := compute_economics c make_request make_context t0 in
  let deadline c := evaluate_deadline c make_request make_context t0 in
  candidate_precedes a b (economics a) (economics b) (deadline a) (deadline b).
Definition candidate_tie_break_is_deterministic : Case unit :=
  let a := make_candidate RESTORE 7 in
  let b := make_candidate RESTORE 3 in
  check (precedes b a);;
  check (negb (precedes a b)).

Definition progress_loss_tolerance_is_a_hard_constraint : Case unit :=
  acts make_world;;
  do! decision := planned (with_tolerance 10 make_request)
    [set_lost 5 (make_candidate RESTORE 1); set_lost 50 (make_candidate RESTART 2)] in
  check (outcome_is PlanOutcome.PLAN_FOUND decision);;
  do! p := deref (de_plan decision) in
  check (id_eqb (p_candidate_id p) (MkId 1)).

(** ** [test_main.cpp] *)

Definition registry : list (string * Case unit) :=
  [("malformed_strategy_rejected", malformed_strategy_rejected);
   ("huge_duration_no_overflow", huge_duration_no_overflow);
   ("negative_duration_clamped", negative_duration_clamped);
   ("absurd_required_bytes_rejected", absurd_required_bytes_rejected);
   ("frame_trailing_garbage_rejected", frame_trailing_garbage_rejected);
   ("frame_version_mismatch_rejected", frame_version_mismatch_rejected);
   ("valid_frame_roundtrips", valid_frame_roundtrips);
   ("state_generation_lineage_mismatch_rejected", state_generation_lineage_mismatch_rejected);
   ("forbidden_strategy_rejected", forbidden_strategy_rejected);
   ("deadline_in_past_is_violated", deadline_in_past_is_violated);
   ("ambiguous_completion_does_not_fabricate_success",
     ambiguous_completion_does_not_fabricate_success);
   ("restore_preferred_over_restart", restore_preferred_over_restart);
   ("deadline_changes_winner", deadline_changes_winner);
   ("deterministic_selection_independent_of_input_order",
     deterministic_selection_independent_of_input_order);
   ("stale_authority_candidate_is_rejected", stale_authority_candidate_is_rejected);
   ("no_deadline_feasible_plan_when_all_miss", no_deadline_feasible_plan_when_all_miss);
   ("authorize_revalidate_dispatch_success", authorize_revalidate_dispatch_success);
   ("duplicate_completion_rejected", duplicate_completion_rejected);
   ("stale_completion_rejected", stale_completion_rejected);
   ("stale_plan_rejected_on_revalidate", stale_plan_rejected_on_revalidate);
   ("cancel_plan_before_dispatch", cancel_plan_before_dispatch);
   ("late_completion_from_invalidated_plan_rejected",
     late_completion_from_invalidated_plan_rejected);
   ("new_plan_supersedes_older_plan", new_plan_supersedes_older_plan);
   ("persistence_save_load_roundtrip", persistence_save_load_roundtrip);
   ("persistence_corruption_rejected", persistence_corruption_rejected);
   ("persistence_truncation_rejected", persistence_truncation_rejected);
   ("coordinator_restart_invalidates_inflight_and_advances_epoch",
     coordinator_restart_invalidates_inflight_and_advances_epoch);
   ("id_ordering_hash_stream_deterministic", id_ordering_hash_stream_deterministic);
   ("selected_candidate_never_infeasible", selected_candidate_never_infeasible);
   ("deadline_monotonic_never_less_feasible", deadline_monotonic_never_less_feasible);
   ("unknown_resource_never_unconditionally_feasible",
     unknown_resource_never_unconditionally_feasible);
   ("missing_mandatory_evidence_never_feasible", missing_mandatory_evidence_never_feasible);
   ("terminal_plan_stays_terminal", terminal_plan_stays_terminal);
   ("exactly_one_authoritative_terminal_success", exactly_one_authoritative_terminal_success);
   ("candidate_tie_break_is_deterministic", candidate_tie_break_is_deterministic);
   ("progress_loss_tolerance_is_a_hard_constraint",
     progress_loss_tolerance_is_a_hard_constraint)].

(** The names of the cases that fail. *)
Definition failures : list string :=
  fst <$> filter (fun t => passes t.2 = false) registry.
End Cases.

(** ** The cases do not depend on the sort *)

Create HintDb same_case.

Definition same_case {A} (c1 c2 : Case A) : Prop := forall s, c1 s = c2 s.

Lemma same_bind {A B} (m1 m2 : Case A) (k1 k2 : A -> Case B) :
  same_case m1 m2 -> (forall a, same_case (k1 a) (k2 a)) ->
  same_case (p_bind m1 k1) (p_bind m2 k2).
Proof.
  intros Hm Hk s. unfold p_bind. rewrite Hm. destruct (m2 s) as [[a|c|e] s']; [apply Hk|done..].
Qed.

Lemma same_refl {A} (c : Case A) : same_case c c.
Proof. done. Qed.

Section Sorts.
Context (S1 S2 : StdSort).

Lemma planned_same q cs :
  NoDup (identity_of <$> cs) -> same_case (planned (sorter := S1) q cs) (planned (sorter := S2) q cs).
Proof. intros Hd s. unfold planned, calls. by rewrite (distinct_plan_sort S1 S2). Qed.

(** Statement by statement; the identities of a list of candidates are computed. *)
Ltac same_step :=
  lazymatch goal with
  | |- same_case (planned _ _) _ =>
      apply planned_same; first [apply NoDup_singleton | apply (bool_decide_unpack _); vm_compute; exact I]
  | |- same_case (p_bind _ _) _ => apply same_bind; [|intros ?]
  | |- same_case (let _ := _ in _) _ => cbv zeta
  | |- same_case (?case S1) _ => first [solve [auto with same_case] | unfold case]
  | |- _ => first [solve [auto with same_case] | apply same_refl]
  end.
Ltac same := repeat same_step.

Lemma plan_with_same s id : same_case (plan_with (sorter := S1) s id) (plan_with (sorter := S2) s id).
Proof. unfold plan_with. same. Qed.

#[local] Hint Resolve plan_with_same : same_case.

Lemma authorized_same :
  same_case (planned_and_authorized (sorter := S1)) (planned_and_authorized (sorter := S2)).
Proof. unfold planned_and_authorized. same. Qed.

Lemma saved_same : same_case (saved (sorter := S1)) (saved (sorter := S2)).
Proof. unfold saved. same. Qed.

#[local] Hint Resolve authorized_same saved_same : same_case.

Lemma damaged_same f :
  same_case (damaged_rejected (sorter := S1) f) (damaged_rejected (sorter := S2) f).
Proof. unfold damaged_rejected. same. Qed.

#[local] Hint Resolve damaged_same : same_case.

Lemma registry_same :
  Forall2 (fun t1 t2 => t1.1 = t2.1 /\ same_case t1.2 t2.2)
    (registry (sorter := S1)) (registry (sorter := S2)).
Proof.
  unfold registry. repeat (apply Forall2_cons_2; [split; cbn [fst snd]; [reflexivity|]|]);
    [..|apply Forall2_nil_2].
  all: same.
Qed.

Lemma failures_same : failures (sorter := S1) = failures (sorter := S2).
Proof.
  unfold failures. induction registry_same as [|t1 t2 l1 l2 [Hn Hc] Hl IH]; [done|].
  assert (passes t1.2 = passes t2.2) as E by (unfold passes; by rewrite Hc).
  rewrite !filter_cons. repeat case_decide; cbn [fmap list_fmap] in *; congruence.
Qed.
End Sorts.

(** The repository's tests hold of the model: every case of [tests/] that runs
    in one thread passes, whichever correct sort the standard library has. *)
Theorem single_threaded_tests_pass {sorter : StdSort} :
  failures = [] /\ length registry = 36%nat.
Proof. split; [|done]. rewrite (failures_same sorter insertion_std_sort). vm_compute. reflexivity. Qed.
