(* ===== verification/Schedules.v ===== *)
(** * The repository's concurrent tests, for every schedule

    [tests/test_concurrency.cpp] runs a few threads against one planner and checks
    the outcome of the schedule that happened; here each case is an instance of a
    theorem about all schedules of any number of threads ([Concurrency]): one on
    reports and cancellations that race, one on planning while the world changes. *)

From stdpp Require Import base gmap strings list.
From S2P Require Import Prelude Types Evidence Feasibility FeasibilitySpec StdSort Economics Plan.
From S2P Require Import Explain Planner PlannerSpec Lifecycle LifecycleSpec Executor Program Cli.
From S2P Require Import LifecycleProps Snapshot Persistence Durable Typing Concurrency TestSuite.
#[local] Open Scope Z_scope.

Import PlanLifecycleState.

(** ** Threads that were started with one call each *)

Section Joined.
Context {sorter : StdSort} {St : Type} `{PersistenceStore St}.

Definition spawned (cs : list Call) (st : option St) (s : Planner) : System :=
  MkSystem (list_to_map (imap (fun i c => (i, [Enter c])) cs)) (st, s) [] [].

(** The threads only go on with what they do. *)
Definition goes_on (ch : Choice) : Prop :=
  match ch with DoSection _ _ _ => True | _ => False end.

(** [join]: every thread is done. *)
Definition joined (y : System (St := St)) : Prop := forall t, thread y t = [].

Lemma spawned_thread cs st s t :
  thread (spawned cs st s) t = match cs !! t with Some c => [Enter c] | None => [] end.
Proof.
  unfold thread, spawned. cbn [threads].
  destruct (list_to_map (imap (fun i c => (i, [Enter c])) cs) !! t) as [fs|] eqn:E.
  - apply elem_of_list_to_map_2 in E. apply elem_of_lookup_imap in E as (i & c & [= -> ->] & Hc).
    by rewrite Hc.
  - apply not_elem_of_list_to_map_2 in E. destruct (cs !! t) as [c|] eqn:Hc; [|done].
    destruct E. apply list_elem_of_fmap. exists (t, [Enter c]). split; [done|].
    apply elem_of_lookup_imap. eauto.
Qed.

(** What holds along a schedule of such threads: each is done or has its call
    left, and the log is made of sections of their calls. *)
Record Along (cs : list Call) (c0 : option St * Planner) (y : System (St := St)) : Prop := {
  al_config : config y = live (log y) c0;
  al_threads t : thread y t = [] \/ exists c, cs !! t = Some c /\ thread y t = [Enter c];
  al_log a : a ∈ log y -> exists c now nows, c ∈ cs /\ section_of now nows (Enter c) = Some a;
  al_done t c : cs !! t = Some c -> thread y t = [] ->
    exists now nows a, section_of now nows (Enter c) = Some a /\ a ∈ log y }.

Lemma along_start cs st s : Along cs (st, s) (spawned cs st s).
Proof.
  split.
  - done.
  - intros t. rewrite spawned_thread. destruct (cs !! t) as [c|]; [right; eauto|by left].
  - intros a Ha. by apply not_elem_of_nil in Ha.
  - intros t c Hc. by rewrite spawned_thread, Hc.
Qed.

Lemma along_step cs c0 y ch :
  Forall single cs -> goes_on ch -> Along cs c0 y -> Along cs c0 (sys_step y ch).
Proof.
  intros Hs Hg Hy. pose proof Hy as [Hc Ht Hl Hd].
  destruct ch as [|t now nows| |]; try done. cbn [sys_step].
  destruct (Ht t) as [->|(c & Hct & ->)]; [done|].
  destruct (section_of now nows (Enter c)) as [a|] eqn:Ea; [|done].
  assert (after_section a (Enter c) (config y).2 = []) as ->.
  { pose proof (proj1 (Forall_lookup _ _) Hs t c Hct) as Hsc. by destruct c. }
  split; cbn [config log threads app].
  - by rewrite live_snoc, Hc.
  - intros u. rewrite thread_other. case_decide; [by left|]. apply Ht.
  - intros b [Hb|Hb%list_elem_of_singleton]%elem_of_app; [by apply Hl|]. subst b.
    exists c, now, nows. split; [by eapply list_elem_of_lookup_2|done].
  - intros u cu Hcu. rewrite thread_other. case_decide as E.
    + subst u. intros _. rewrite Hct in Hcu. injection Hcu as <-.
      exists now, nows, a. split; [done|]. apply elem_of_app. right. by apply list_elem_of_singleton.
    + intros Hu. destruct (Hd u cu Hcu Hu) as (now' & nows' & b & Hb & Hin).
      exists now', nows', b. split; [done|]. apply elem_of_app. by left.
Qed.

Lemma along_run cs c0 chs y :
  Forall single cs -> Forall goes_on chs -> Along cs c0 y -> Along cs c0 (sys_run chs y).
Proof.
  intros Hs Hg. revert y. induction Hg as [|ch chs Hch Hg IH]; intros y Hy; [done|].
  by apply IH, along_step.
Qed.
End Joined.

(** ** Reports and cancellations of a plan that is being executed *)

Section Race.
Context {sorter : StdSort} {St : Type} `{PersistenceStore St}.
Context (k : Z) (p : RecoveryPlan) (s : Planner) (st : option St).
Context (Hp : plans s !! k = Some p) (Hid : p_plan_id p = MkId k).
Context (Hexec : p_state p = EXECUTING) (Hpub : p_outcome_published p = false).

(** A report that carries the plan's identities and an authoritative outcome. *)
Definition authoritative (r : ExecutionReport) : Prop :=
  Reports r k p \/
  er_plan_id r = p_plan_id p /\ er_plan_generation r = p_generation p /\
  er_reporter_boot r = p_target_boot p /\ er_outcome r = ExecutionOutcome.FAILED.

Definition racing (c : Call) : Prop :=
  match c with
  | CReport r => authoritative r
  | CCancel id _ => id = p_plan_id p
  | _ => False
  end.

Definition racing_act (a : Act) : Prop :=
  match a with
  | AEvent (EReport r _) => authoritative r
  | AEvent (ECancel id _ _) => id = p_plan_id p
  | _ => False
  end.

Definition is_report (a : Act) : Prop :=
  match a with AEvent (EReport _ _) => True | _ => False end.

Lemma authoritative_members r :
  authoritative r ->
  value (er_plan_id r) = k /\ er_plan_generation r = p_generation p /\
  er_reporter_boot r = p_target_boot p /\
  (er_outcome r = ExecutionOutcome.SUCCEEDED \/ er_outcome r = ExecutionOutcome.FAILED).
Proof.
  intros [(? & ? & ? & ?)|(Hi & ? & ? & ?)]; [by auto|]. rewrite Hi, Hid. by auto.
Qed.

(** The plan that a report closes. *)
Definition closed_by (r : ExecutionReport) (now : Timestamp) : RecoveryPlan :=
  p_set_updated now (apply_outcome (er_outcome r) p).

Lemma closed_by_terminal r now :
  authoritative r ->
  terminal (p_state (closed_by r now)) = true /\
  p_execution_outcome (closed_by r now) = er_outcome r /\
  p_outcome_published (closed_by r now) = true /\
  (p_state (closed_by r now) = SUCCEEDED <-> er_outcome r = ExecutionOutcome.SUCCEEDED).
Proof.
  intros (_ & _ & _ & Ho)%authoritative_members. unfold closed_by, apply_outcome, close_plan.
  rewrite Hexec. by destruct Ho as [-> | ->].
Qed.

Lemma racing_report r now :
  authoritative r -> report_execution r now s = store_plan k (closed_by r now) s.
Proof.
  intros (Hi & Hg & Hb & _)%authoritative_members. unfold report_execution.
  rewrite Hi, Hp, Hg, Hb, !id_eqb_refl, Hexec. done.
Qed.

Lemma racing_cancel id force now : id = p_plan_id p -> (cancel_plan id force now s).2 = s.
Proof.
  intros ->. unfold cancel_plan. rewrite Hid. cbn [value]. rewrite Hp, Hexec, Hpub.
  by destruct force.
Qed.

(** Nothing touches the plan once it is closed. *)
Lemma racing_after r now a c :
  authoritative r -> racing_act a -> c = (st, store_plan k (closed_by r now) s) ->
  perform c a = c.
Proof.
  intros Hr Ha ->. destruct (closed_by_terminal r now Hr) as (Ht & _).
  destruct a as [[]| |]; try done; cbn [perform exec fst snd racing_act] in *; f_equal.
  - apply authoritative_members in Ha as (Hi & _). eapply report_terminal; [|exact Ht].
    rewrite Hi. apply lookup_insert_eq.
  - subst. unfold cancel_plan. rewrite Hid. cbn [value plans store_plan set_plans].
    rewrite lookup_insert_eq. destruct (p_state (closed_by r now)) eqn:E; try done.
Qed.

Lemma race_after r now l :
  authoritative r -> Forall racing_act l ->
  live l (st, store_plan k (closed_by r now) s) = (st, store_plan k (closed_by r now) s).
Proof.
  intros Hr Hl. induction Hl as [|a l Ha Hl IH]; [done|].
  change (live (a :: l)) with (fun c => live l (perform c a)). cbv beta.
  by rewrite (racing_after r now a _ Hr Ha eq_refl).
Qed.

Lemma race_log l :
  Forall racing_act l -> (exists a, a ∈ l /\ is_report a) ->
  exists before r now after, l = before ++ AEvent (EReport r now) :: after /\
    authoritative r /\ Forall (fun a => ~ is_report a) before /\
    live l (st, s) = (st, store_plan k (closed_by r now) s).
Proof.
  induction 1 as [|a l Ha Hl IH]; intros (b & Hb & Hrep); [by apply not_elem_of_nil in Hb|].
  change (live (a :: l)) with (fun c => live l (perform c a)). cbv beta.
  destruct a as [[]| |]; try done; cbn [perform exec fst snd racing_act] in *.
  - exists [], r, now, l. split; [done|]. split; [done|]. split; [constructor|].
    rewrite racing_report by done. by apply race_after.
  - rewrite racing_cancel by done. apply elem_of_cons in Hb as [->|Hb]; [done|].
    destruct IH as (before & r & now' & after & -> & Hr & Hbef & E); [by exists b|].
    exists (AEvent (ECancel id force now) :: before), r, now', after.
    split; [done|]. split; [done|]. split; [constructor; [tauto|done]|exact E].
Qed.
End Race.

(** ** Planning *)

Section Planning.
Context {sorter : StdSort} {St : Type} `{PersistenceStore St}.

Lemma planning_context q cs now s : ctx (exec (EPlan q cs now) s) = ctx s.
Proof. cbn [exec]. by destruct (plan_result q cs now s). Qed.

Lemma eligible_found q cs now s c :
  c ∈ cs -> Eligible q (ctx s) now c -> de_outcome (plan q cs now s).1 = PlanOutcome.PLAN_FOUND.
Proof.
  intros Hc He. destruct (plan_result q cs now s)
    as [d Hn Ho Hp|d Hn Ha Ho Hp|d c' p Hb Hp Ho Hd|d c' p Hn Hb Hp Ho Hd].
  - subst. by apply not_elem_of_nil in Hc.
  - destruct (Ha c Hc). by destruct He.
  - exact Ho.
  - by destruct (Hn c Hc).
Qed.

(** A call that can make the candidate [c] of the request [q] ineligible: it changes
    the workers, what [c] needs of a resource, or withdraws what [c] recomputes from. *)
Definition disturbs (q : RecoveryRequest) (c : RecoveryCandidate) (call : Call) : Prop :=
  match call with
  | CRegister _ _ | CUnregister _ | CRestart => True
  | CResource kind _ => exists rs, c_resource c = Some rs /\ rs_resource_kind rs = kind
  | CRecompute gen available =>
      available = false /\ gen = q_workload_generation q /\ c_strategy c = RecoveryStrategy.RECOMPUTE
  | _ => False
  end.

Definition disturbing_act (q : RecoveryRequest) (c : RecoveryCandidate) (a : Act) : Prop :=
  match a with
  | AEvent (ERegister _ _) | AEvent (EUnregister _) | ARestart _ => True
  | AEvent (ESetResource kind amount) => disturbs q c (CResource kind amount)
  | AEvent (ESetRecompute gen available) => disturbs q c (CRecompute gen available)
  | _ => False
  end.

(** What of the context the evaluation of [c] for [q] depends on. *)
Record SameFor (q : RecoveryRequest) (c : RecoveryCandidate) (x x' : PlannerContext) : Prop := {
  sf_fixed : (ctx_epoch x', ctx_policy_generation x', ctx_alive_workers x', ctx_worker_boots x',
              ctx_resource_generation x', ctx_compatibility_generation x',
              ctx_compatibility_table x', ctx_topology_generation x') =
             (ctx_epoch x, ctx_policy_generation x, ctx_alive_workers x, ctx_worker_boots x,
              ctx_resource_generation x, ctx_compatibility_generation x,
              ctx_compatibility_table x, ctx_topology_generation x);
  sf_amount rs : c_resource c = Some rs ->
    ctx_resource_available x' !! rs_resource_kind rs = ctx_resource_available x !! rs_resource_kind rs;
  sf_lineage : c_strategy c = RecoveryStrategy.RECOMPUTE ->
    q_workload_generation q ∈ ctx_recompute_lineage_available x ->
    q_workload_generation q ∈ ctx_recompute_lineage_available x';
  sf_inputs : c_strategy c = RecoveryStrategy.RECOMPUTE ->
    q_workload_generation q ∈ ctx_original_inputs_available x ->
    q_workload_generation q ∈ ctx_original_inputs_available x' }.

Lemma same_for_refl q c x : SameFor q c x x.
Proof. by split. Qed.

Lemma admissible_same q c x x' : SameFor q c x x' -> Admissible c q x -> Admissible c q x'.
Proof.
  intros [Hf Ha Hl Hi] [H1 H2 H3 H4 H5 H6 H7 H8 H9 H10 H11 H12].
  injection Hf as Ee Ep Eal Eb Er Ec Et Eg. split; try assumption.
  - by rewrite Ee, Ep.
  - destruct (c_compatibility c) as [co|]; [|exact H7]. destruct H7.
    split; by rewrite ?Ec, ?Et.
  - intros (av & E & [])%H8. exists av. split; [exact E|]. by split; rewrite ?Eal, ?Eb.
  - destruct H9 as (rs & E & []). exists rs. split; [exact E|].
    split; rewrite ?Er, ?(Ha rs E); assumption.
  - intros Hm. destruct (H10 Hm) as [? ? ? (tp & E & ? & ?)]. split; try assumption.
    exists tp. by rewrite Eg.
  - intros Hr. destruct (H12 Hr) as [[Hx Hy] ?]. split; [|assumption].
    split; [by apply Hl|by apply Hi].
Qed.

(** Whether it is within the constraints does not depend on the context. *)
Lemma eligible_same q c x x' now : SameFor q c x x' -> Eligible q x now c -> Eligible q x' now c.
Proof. intros Hs [Ha Hm]. split; [by eapply admissible_same|exact Hm]. Qed.

Lemma calm_context q c a (w : option St * Planner) :
  ~ disturbing_act q c a -> SameFor q c (ctx w.2) (ctx (perform w a).2).
Proof.
  intros Ha. destruct w as [st s], a as [[q' cs now| | | | | | | | | |kind amount|gen available]| |];
    try (by destruct Ha); try apply same_for_refl; cbn [perform snd].
  1: { rewrite planning_context. apply same_for_refl. }
  1-7: cbn [exec]; unfold authorize_plan, dispatch_begin, dispatch_finish, report_execution,
    take_completion, cancel_plan, invalidate_plan; repeat case_match; apply same_for_refl.
  - split; try done. intros rs E. cbn. apply lookup_insert_ne. intros ->. apply Ha. by exists rs.
  - assert (available = true \/ gen <> q_workload_generation q \/
            c_strategy c <> RecoveryStrategy.RECOMPUTE) as Hor.
    { destruct available; [by left|]. right. destruct (decide (gen = q_workload_generation q)); [|by left].
      right. intros Hr. apply Ha. by split. }
    split; try done; intros Hr Hin; clear Ha; cbn; destruct available; set_solver.
Qed.

Lemma calm_live q c l (w : option St * Planner) now :
  Forall (fun a => ~ disturbing_act q c a) l -> Eligible q (ctx w.2) now c ->
  Eligible q (ctx (live l w).2) now c.
Proof.
  intros Hl. revert w. induction Hl as [|a l Ha Hl IH]; intros w Hw; [done|].
  change (live (a :: l) w) with (live l (perform w a)). apply IH.
  eapply eligible_same; [by apply calm_context|exact Hw].
Qed.

(** The choices of threads none of whose calls disturbs. *)
Definition undisturbing (q : RecoveryRequest) (c : RecoveryCandidate) : Choice -> Prop :=
  choice_ok (fun call => ~ disturbs q c call) (fun _ _ => True).

Lemma undisturbed_section q c now nows f a :
  section_of now nows f = Some a -> frame_ok (fun call => ~ disturbs q c call) f -> True ->
  ~ disturbing_act q c a.
Proof.
  intros E Hf _. destruct f as [[]| | |]; cbn in E; try discriminate E;
    apply (inj Some) in E as <-; cbn in *; tauto.
Qed.

(** A planner that threads begin to call. *)
Definition running (st : option St) (s : Planner) : System := MkSystem ∅ (st, s) [] [].
End Planning.

(** ** The properties *)

(** C9: Whatever the schedule, the first report wins.  Threads report an executing
    plan, with success or failure, or try to cancel it, forcibly or not; when all
    are done the plan is closed, its published outcome is that of the first report
    that got the mutex, and neither a cancellation nor a later report changed it. *)
Theorem first_report_wins {sorter : StdSort} {St} `{PersistenceStore St} k p s (st : option St) cs chs :
  plans s !! k = Some p -> p_plan_id p = MkId k -> p_state p = EXECUTING ->
  p_outcome_published p = false -> Forall (racing k p) cs -> (exists r, CReport r ∈ cs) ->
  Forall goes_on chs ->
  let y := sys_run chs (spawned cs st s) in
  joined y ->
  exists before r now after p', log y = before ++ AEvent (EReport r now) :: after /\
    Forall (fun a => ~ is_report a) before /\ plans (config y).2 !! k = Some p' /\
    terminal (p_state p') = true /\ p_execution_outcome p' = er_outcome r /\
    p_outcome_published p' = true /\
    (p_state p' = SUCCEEDED <-> er_outcome r = ExecutionOutcome.SUCCEEDED).
Proof.
  intros Hp Hid He Hpub Hcs [r0 Hr0] Hg. cbv zeta. set (y := sys_run chs (spawned cs st s)).
  intros Hj.
  assert (Along cs (st, s) y) as [Hc _ Hl Hd].
  { apply along_run; [|done|apply along_start]. eapply Forall_impl; [exact Hcs|]. by intros []. }
  destruct (race_log k p s st Hp Hid He Hpub (log y)) as (before & r & now & after & E & Hr & Hb & Hlive).
  - apply Forall_forall. intros a (c & now & nows & Hin & Ha)%Hl.
    eapply Forall_forall in Hcs; [|exact Hin]. destruct c; try done; by injection Ha as <-.
  - apply list_elem_of_lookup in Hr0 as [t Ht].
    destruct (Hd t _ Ht (Hj t)) as (now & nows & a & [= <-] & Hin). by eexists.
  - destruct (closed_by_terminal k p Hid He r now Hr) as (H1 & H2 & H3 & H4).
    exists before, r, now, after, (closed_by p r now). rewrite Hc, Hlive.
    split; [done|]. split; [done|]. split; [apply lookup_insert_eq|done].
Qed.

(** A plan that a silent executor has accepted; a forced cancellation, a failure
    and a success race for it, and the failure gets the mutex first. *)
Definition executing_state : Planner :=
  exec (EDispatchFinish (handle 1) DispatchStatus.DISPATCHED (MkUnit 3))
    (run (world_events ++ plan_events 1) new_planner).
Definition failure_report : ExecutionReport :=
  MkReport (MkId 1) (MkId 1) (MkId 1) (MkId 100) ExecutionOutcome.FAILED (MkUnit 0) (MkUnit 0) "".
Definition racers : list Call :=
  [CCancel (MkId 1) true; CReport failure_report; CReport (success_report 1)].
Definition racing_schedule : list Choice :=
  (fun t => DoSection t (MkUnit 4) twenty) <$> [0; 1; 2]%nat.
Definition raced : System (St := MemoryStore) :=
  sys_run racing_schedule (spawned racers None executing_state).

Lemma executing_members p :
  plans executing_state !! 1 = Some p ->
  p_plan_id p = MkId 1 /\ p_state p = EXECUTING /\ p_outcome_published p = false /\
  p_generation p = MkId 1 /\ p_target_boot p = MkId 100.
Proof.
  intros Hp.
  assert ((fun p => (p_plan_id p, p_state p, p_outcome_published p, p_generation p, p_target_boot p))
            <$> plans executing_state !! 1 = Some (MkId 1, EXECUTING, false, MkId 1, MkId 100)) as E
    by (vm_compute; reflexivity).
  rewrite Hp in E. clear Hp. cbn [fmap option_fmap option_map] in E.
  injection E as E1 E2 E3 E4 E5. exact (conj E1 (conj E2 (conj E3 (conj E4 E5)))).
Qed.

Lemma racers_racing p : plans executing_state !! 1 = Some p -> Forall (racing 1 p) racers.
Proof.
  intros (Hi & _ & _ & Hg & Hb)%executing_members. unfold racers.
  apply Forall_cons_2; [exact (eq_sym Hi)|].
  apply Forall_cons_2; [right; by rewrite Hi, Hg, Hb|].
  apply Forall_cons_2; [left; unfold Reports; by rewrite Hg, Hb|apply Forall_nil_2].
Qed.

Lemma raced_joined : joined raced.
Proof.
  assert (Along racers (None, executing_state) raced) as [_ Ht _ _].
  { apply along_run; [repeat constructor|repeat constructor|apply along_start]. }
  intros t. destruct (Ht t) as [|(c & Hc & _)]; [done|].
  do 3 (destruct t as [|t]; [vm_compute; reflexivity|]). discriminate Hc.
Qed.

Lemma first_report_wins_witness :
  (fun p => (p_state p, p_execution_outcome p)) <$> plans (config raced).2 !! 1 =
    Some (FAILED, ExecutionOutcome.FAILED) /\
  exists p', plans (config raced).2 !! 1 = Some p' /\ p_outcome_published p' = true.
Proof.
  split; [vm_compute; reflexivity|].
  destruct (plans executing_state !! 1) as [p|] eqn:Hp; [|vm_compute in Hp; discriminate].
  destruct (executing_members p Hp) as (Hi & He & Hpub & _).
  destruct (first_report_wins (St := MemoryStore) 1 p executing_state None racers racing_schedule
              Hp Hi He Hpub (racers_racing p Hp))
    as (before & r & now & after & p' & _ & _ & Hp' & _ & _ & Hpub' & _).
  - exists failure_report. right. left.
  - repeat constructor.
  - exact raced_joined.
  - exists p'. exact (conj Hp' Hpub').
Defined.

(** C39: Concurrent planning finds the plan.  Any number of threads call the planner in
    any way, under any schedule, but for calls that could disturb a candidate: they
    register no worker, restart nothing, do not change the resource the candidate
    needs, and do not withdraw what it would be recomputed from.  Then each call of
    [plan] with that candidate among others, for a request it was eligible for at
    the start (at the call's reading of the clock), answers with a plan. *)
Theorem concurrent_planning_finds {sorter : StdSort} {St} `{PersistenceStore St} (st : option St) s
    q cs c chs :
  c ∈ cs -> Forall (undisturbing q c) chs ->
  let y := sys_run chs (running st s) in
  forall before now after, log y = before ++ AEvent (EPlan q cs now) :: after ->
  Eligible q (ctx s) now c ->
  de_outcome (plan q cs now (live before (st, s)).2).1 = PlanOutcome.PLAN_FOUND.
Proof.
  intros Hc Hch. cbv zeta. intros before now after E He.
  assert (Forall (fun a => ~ disturbing_act q c a) (log (sys_run chs (running st s)))) as Hl.
  { eapply ke_log, (kept_run _ _ _ (undisturbed_section q c)); [exact Hch|].
    split; [apply map_Forall_empty|apply Forall_nil_2]. }
  rewrite E in Hl. apply Forall_app in Hl as [Hb _].
  eapply eligible_found; [exact Hc|]. by apply calm_live.
Qed.

(** Two threads, each asking twice, and a third that changes the world. *)
Definition asked (id : Z) : RecoveryRequest := with_id id scenario.make_request.
Definition offered : RecoveryCandidate := scenario.make_candidate RecoveryStrategy.RESTORE 1.
Definition ask (t : nat) (id : Z) : Choice := DoCall t (CPlan (asked id) [offered]).
Definition asking_schedule : list Choice :=
  [ask 0 1000; ask 1 2000; at_time 1 1; ask 1 2001; DoCall 2 (CResource "host_mem" 100);
   at_time 2 1; at_time 0 2; ask 0 1001; DoCall 2 (CRecompute scenario.kWorkloadGen false);
   at_time 2 2; at_time 0 3; at_time 1 4].

Lemma asking_undisturbing id : Forall (undisturbing (asked id) offered) asking_schedule.
Proof.
  unfold asking_schedule, ask, at_time, undisturbing.
  repeat apply Forall_cons_2; try apply Forall_nil_2; cbn; try tauto.
  - intros (rs & [= <-] & [=]).
  - intros (_ & _ & [=]).
Qed.

Lemma offered_eligible id now : Eligible (asked id) (ctx (make_world new_planner)) now offered.
Proof. split; [|reflexivity]. apply feasible_true. vm_compute. reflexivity. Qed.

Lemma concurrent_planning_finds_witness :
  let y := sys_run asking_schedule (running (St := MemoryStore) None (make_world new_planner)) in
  length (log y) = 6%nat /\
  exists before now after, log y = before ++ AEvent (EPlan (asked 2001) [offered] now) :: after /\
    de_outcome (plan (asked 2001) [offered] now
      (live before (@None MemoryStore, make_world new_planner)).2).1 = PlanOutcome.PLAN_FOUND.
Proof.
  cbv zeta. split; [vm_compute; reflexivity|].
  set (l := log _). assert (exists before now after,
    l = before ++ AEvent (EPlan (asked 2001) [offered] now) :: after) as (before & now & after & E).
  { eexists [_; _; _; _; _], _, []. reflexivity. }
  exists before, now, after. split; [exact E|].
  apply (concurrent_planning_finds (St := MemoryStore) None (make_world new_planner) (asked 2001)
           [offered] offered asking_schedule (list_elem_of_here _ _) (asking_undisturbing 2001)
           before now after E).
  apply offered_eligible.
Defined.
