(* ===== verification/Benchmark.v ===== *)
(** * The planning benchmark

    Models [benchmarks/benchmark_planning.cpp]: what it does between its readings of
    the clock, and of the lines it prints the numbers that are not durations.  The
    threads of its second part enter the planner in an order that is an argument,
    one call of [plan] being one critical section ([Concurrency]). *)

From stdpp Require Import base gmap strings list.
From S2P Require Import Prelude Types Evidence Feasibility StdSort Economics Plan Explain Planner.
From S2P Require Import PlannerSpec Lifecycle LifecycleSpec LifecycleProps Executor Program Cli.
From S2P Require Import Snapshot SnapshotSpec Persistence PersistenceSpec PersistenceProps Durable.
From S2P Require Import Typing Schedules.
#[local] Open Scope Z_scope.
#[local] Open Scope rp_scope.

(** ** Its inputs *)

Definition bench_observed (p : EvidenceProvenance.t) (conf : Confidence) : EvidenceMeta :=
  MkMeta (MkId 1) (MkId 100) (MkUnit 100) p Freshness.CURRENT conf false.

Definition bench_candidate (id seed : Z) : RecoveryCandidate :=
  let measured := bench_observed EvidenceProvenance.MEASURED confidence_none in
  let certain := bench_observed EvidenceProvenance.MEASURED confidence_full in
  let preserved := MkUnit (90 + seed mod 10) in
  {| c_candidate_id := MkId id;
     c_generation := MkId id;
     c_strategy := RecoveryStrategy.of_code (u64 (id + seed) mod 7);
     c_target_worker := MkId 1;
     c_target_boot := MkId 100;
     c_target_engine := MkId 1;
     c_target_engine_incarnation := MkId 1;
     c_source_worker := id_null;
     c_source_boot := id_null;
     c_state_source := MkId 1000;
     c_state_generation := MkId 1;
     c_checkpoint_source := MkId 5000;
     c_checkpoint_generation := MkId 1;
     c_state := Some
       {| st_meta := certain;
          st_state_id := MkId 1000;
          st_state_generation := MkId 1;
          st_workload_generation := MkId 1;
          st_checkpoint_generation := MkId 1;
          st_integrity := StateIntegrity.VALID;
          st_size_bytes := MkUnit 1024;
          st_restore_bytes := MkUnit 1024;
          st_preserved_progress := preserved;
          st_durable_progress := preserved;
          st_location := StorageLocation.LOCAL;
          st_is_durable := true;
          st_identity := "workload:v1" |};
     c_compatibility := Some
       {| co_meta := bench_observed EvidenceProvenance.REPORTED confidence_none;
          co_compatibility_generation := MkId 1;
          co_result := CompatibilityResult.EXACT;
          co_subject_identity := "workload:v1";
          co_state_format := "worker:1";
          co_reason := "" |};
     c_availability := Some
       {| av_meta := measured;
          av_worker := MkId 1;
          av_boot := MkId 100;
          av_engine_incarnation := MkId 1;
          av_is_alive := true;
          av_readiness := if seed mod 7 =? 3 then CandidateReadiness.NOT_READY
                          else CandidateReadiness.READY |};
     c_resource := Some
       {| rs_meta := measured;
          rs_snapshot := MkId 1;
          rs_generation := MkId 1;
          rs_resource_kind := "gpu_mem";
          rs_required := Some 100;
          rs_available := Some 10000;
          rs_status := ResourceStatus.AVAILABLE |};
     c_topology := None;
     c_transfer := None;
     c_checkpoint := None;
     c_shadow := None;
     c_progress := None;
     c_cost := Some
       {| cost_meta := bench_observed EvidenceProvenance.ESTIMATED confidence_none;
          cost_expected_time := Some (MkUnit (1000 + u64 (seed * 7919) mod 50000));
          cost_restore_time := None;
          cost_restart_time := None;
          cost_transfer_time := None;
          cost_recompute_time := None;
          cost_bytes_transferred := Some (MkUnit 1024);
          cost_bytes_read := Some (MkUnit 1024);
          cost_bytes_materialized := None;
          cost_cost_units := None;
          cost_energy_cost := None;
          cost_expected_lost_progress := Some (MkUnit (seed mod 40));
          cost_expected_preserved_progress := Some preserved;
          cost_checkpoint_age := None;
          cost_deadline_slack := None;
          cost_failover_domain_risk := 0 |};
     c_authority := Some
       {| auth_meta := certain;
          auth_coordinator_epoch := MkId 1;
          auth_policy_generation := MkId 1;
          auth_coordinator_authority_valid := true;
          auth_policy_authority_valid := true;
          auth_candidate_authority_valid := true;
          auth_execution_authority_valid := true |};
     c_reason_for_existence := "bench";
     c_capabilities := [];
     c_required_capabilities := [] |}.

Definition bench_request (id : Z) : RecoveryRequest :=
  {| q_request_id := MkId id;
     q_workload := MkId 1;
     q_workload_generation := MkId 1;
     q_execution := MkId 1;
     q_execution_generation := MkId 1;
     q_failure := MkId 1;
     q_reason := "bench";
     q_prior_progress := default_progress;
     q_recovery_deadline := None;
     q_max_recovery_duration := None;
     q_max_tolerated_progress_loss := None;
     q_preferred_strategies := [];
     q_forbidden_strategies := [];
     q_state_requirements := [];
     q_placement_constraints := [];
     q_compatibility_requirements := [];
     q_coordinator_epoch := MkId 1;
     q_policy_generation := MkId 1;
     q_topology_generation := MkId 1;
     q_requested_at := MkUnit 0;
     q_value_priorities := [] |}.

(** [TestClock(Timestamp(0))], which nothing advances. *)
Definition bench_now : Timestamp := impl_now (Some (MkTestClock (MkUnit 0))).

(** ** The benchmark *)

Section Benchmark.
Context {sorter : StdSort}.

Definition bench_planner : Planner :=
  (register_worker (MkId 1) (MkId 100) >>> set_resource "gpu_mem" 10000 >>>
   set_recompute_available (MkId 1) true) new_planner.

Definition bench_candidates (n : nat) : list RecoveryCandidate :=
  (fun i => bench_candidate (Z.of_nat i + 1) (Z.of_nat i)) <$> seq 0 n.

(** [reps] calls of [plan], and how many of them did what is counted. *)
Fixpoint plan_reps (reps : nat) (q : RecoveryRequest) (cs : list RecoveryCandidate)
    (outcome_count : Z) (s : Planner) : Z * Planner :=
  match reps with
  | O => (outcome_count, s)
  | S reps =>
      let '(d, s) := plan q cs bench_now s in
      let counted := bool_decide (de_outcome d = PlanOutcome.PLAN_FOUND) ||
                     bool_decide (de_outcome d = PlanOutcome.NO_VALID_PLAN) in
      plan_reps reps q cs (outcome_count + if counted then 1 else 0) s
  end.

Inductive Line :=
| PlanningLine (n reps performed_work : Z)
| ConcurrentLine (threads completed : Z)
| PersistenceLine.

Definition planning_scale (n : nat) : Line * Planner :=
  let cands := bench_candidates n in
  let req := bench_request 1 in
  let s := bench_planner in
  let s := (plan_reps 3 req cands 0 s).2 in
  let reps := if (n <? 1000)%nat then 20%nat else 3%nat in
  let '(outcome_count, s) := plan_reps reps req cands 0 s in
  (PlanningLine (Z.of_nat n) (Z.of_nat reps) outcome_count, s).

(** The [i]-th call of thread [t]. *)
Definition thread_call (t i : Z) (s : Planner) : RecoveryDecision * Planner :=
  plan (bench_request (1000 + t * 1000 + i))
    [bench_candidate (i + 1) i; bench_candidate (i + 2) (i + 7)] bench_now s.

(** [turns] holds the calls each thread has left.  A thread of [order] without any
    has ended, and is passed over. *)
Fixpoint run_threads (order : list nat) (turns : list nat) (s : Planner) : list nat * Planner :=
  match order with
  | [] => (turns, s)
  | t :: order =>
      match turns !! t with
      | Some (S rest) =>
          run_threads order (<[t := rest]> turns)
            (thread_call (Z.of_nat t) (200 - Z.of_nat (S rest)) s).2
      | _ => run_threads order turns s
      end
  end.

Definition concurrent_planner : Planner :=
  (register_worker (MkId 1) (MkId 100) >>> register_worker (MkId 2) (MkId 200) >>>
   set_resource "gpu_mem" 10000 >>> set_recompute_available (MkId 1) true) new_planner.

(** The main thread joins the four, so that all of them have ended. *)
Definition concurrent_part (order : list nat) : option (Line * Planner) :=
  let '(turns, s) := run_threads order (replicate 4 200%nat) concurrent_planner in
  if forallb (fun rest => (rest =? 0)%nat) turns then Some (ConcurrentLine 4 (4 * 200), s) else None.

Definition hundred_plans (s : Planner) : Planner :=
  foldl (fun s i =>
    (plan (bench_request (2000 + i)) [bench_candidate (i + 1) i] bench_now s).2) s (seqZ 0 100).

(** [planner.save_state(); planner.load_state();], [n] times. *)
Fixpoint save_and_load (n : nat) : MemoryStore * Planner -> Exit unit * (MemoryStore * Planner) :=
  match n with
  | O => p_ret tt
  | S n => fun w =>
      match save_state (Some w.1) w.2 with
      | (Ok _, store) =>
          let '(_, s) := load_state store w.2 in save_and_load n (default w.1 store, s)
      | (Throw e, store) => (Raise (Recovery e), (default w.1 store, w.2))
      end
  end.

Definition persistence_part : Exit unit * (MemoryStore * Planner) :=
  save_and_load 10 (MkMemory ∅, hundred_plans bench_planner).

(** [None] when the threads have not all ended. *)
Definition benchmark_main (order : list nat) : option (Exit Z * list Line) :=
  let scales := (fun n => (planning_scale (Z.to_nat n)).1) <$> [8; 64; 256; 1000; 10000] in
  match concurrent_part order with
  | None => None
  | Some (line, _) =>
      Some match persistence_part.1 with
           | Go _ => (Go 0, scales ++ [line; PersistenceLine])
           | Return code => (Return code, scales ++ [line])
           | Raise e => (Raise e, scales ++ [line])
           end
  end.
End Benchmark.

(** ** Every call plans *)

Section Spec.
Context {sorter : StdSort}.

(** The request has no constraints, so that every admissible candidate is eligible. *)
Lemma bench_eligible id ctx c :
  feasible (evaluate_feasibility c (bench_request id) ctx) = true ->
  Eligible (bench_request id) ctx bench_now c.
Proof. intros Hf. split; [by apply feasible_true|reflexivity]. Qed.

Lemma plan_reps_found id c cs s reps :
  c ∈ cs -> Eligible (bench_request id) (ctx s) bench_now c -> forall k,
  (plan_reps reps (bench_request id) cs k s).1 = k + Z.of_nat reps /\
  ctx (plan_reps reps (bench_request id) cs k s).2 = ctx s.
Proof.
  intros Hc He. revert s He. induction reps as [|reps IH]; intros s He k; cbn [plan_reps].
  { split; [cbn; lia|done]. }
  pose proof (eligible_found _ cs bench_now s c Hc He) as Ho.
  pose proof (planning_context (bench_request id) cs bench_now s) as Hx. cbn [exec] in Hx.
  destruct (plan _ _ _ s) as [d s1]. cbn [fst snd] in Ho, Hx. rewrite Ho.
  destruct (IH s1) with (k := k + 1) as [E1 E2]; [by rewrite Hx|].
  rewrite bool_decide_true by done. cbn [orb].
  rewrite E1, E2. split; [lia|exact Hx].
Qed.

Lemma planning_scale_line n :
  (0 <? n)%nat = true ->
  (planning_scale n).1 =
    let reps := if (n <? 1000)%nat then 20 else 3 in PlanningLine (Z.of_nat n) reps reps.
Proof.
  intros Hn%Nat.ltb_lt. unfold planning_scale.
  assert (bench_candidate 1 0 ∈ bench_candidates n) as Hc.
  { apply list_elem_of_fmap. exists 0%nat. split; [reflexivity|]. apply elem_of_seq. lia. }
  assert (Eligible (bench_request 1) (ctx bench_planner) bench_now (bench_candidate 1 0)) as He.
  { apply bench_eligible. vm_compute. reflexivity. }
  destruct (plan_reps_found 1 _ _ bench_planner 3 Hc He 0) as [_ Hx].
  destruct (plan_reps 3 _ _ 0 _) as [k s]. cbn [snd] in *. rewrite <- Hx in He.
  destruct (plan_reps_found 1 _ _ s (if (n <? 1000)%nat then 20 else 3)%nat Hc He 0) as [Ho _].
  destruct (plan_reps _ _ _ 0 s) as [k' s']. cbn [fst] in *. subst k'.
  destruct (n <? 1000)%nat; reflexivity.
Qed.

(** ** Every call is recorded *)

Lemma plan_history q cs now s :
  cs <> [] -> length (history (plan q cs now s).2) = S (length (history s)).
Proof.
  intros Hc. destruct (plan_result q cs now s); [done|..]; cbn; rewrite length_app; cbn; lia.
Qed.

Lemma turn_taken (turns : list nat) t rest :
  turns !! t = Some (S rest) -> (sum_list turns = S (sum_list (<[t:=rest]> turns)))%nat.
Proof.
  revert t. induction turns as [|x turns IH]; intros [|t]; cbn; [done..| |].
  - intros [= ->]. done.
  - intros Ht%IH. rewrite Ht. apply Nat.add_succ_r.
Qed.

Lemma run_threads_history order : forall turns s,
  (length (history (run_threads order turns s).2) +
     sum_list (run_threads order turns s).1 = length (history s) + sum_list turns)%nat.
Proof.
  induction order as [|t order IH]; intros turns s; cbn [run_threads]; [done|].
  destruct (turns !! t) as [[|rest]|] eqn:Et; [apply IH| |apply IH].
  rewrite IH. unfold thread_call. rewrite plan_history by done.
  rewrite (turn_taken _ _ _ Et). lia.
Qed.

(** ** What the planner that is saved holds *)

(** [k] plans, stored under the identities handed out. *)
Definition holds_plans (k : nat) (s : Planner) : Prop :=
  ctx s = ctx bench_planner /\ size (plans s) = k /\ next_plan_id s = 1 + Z.of_nat k /\
  map_Forall (fun id _ => id < next_plan_id s) (plans s).

Definition bench_feasible (i : Z) : bool :=
  feasible (evaluate_feasibility (bench_candidate (i + 1) i) (bench_request (2000 + i))
              (ctx bench_planner)).

Lemma bench_plan_held i k s :
  1 + Z.of_nat k + 1 < 2 ^ 64 -> holds_plans k s ->
  holds_plans (if bench_feasible i then S k else k)
    (plan (bench_request (2000 + i)) [bench_candidate (i + 1) i] bench_now s).2.
Proof.
  intros Hk (Hc & Hs & Hn & Hf).
  unfold bench_feasible. rewrite <- Hc.
  destruct (plan_result (bench_request (2000 + i)) [bench_candidate (i + 1) i] bench_now s)
    as [d Hcs Ho Hp|d Hcs Ha Ho Hp|d c p Hb Hp Ho Hd|d c p He Hb Hp Ho Hd].
  - done.
  - destruct (feasible _) eqn:Ef; [|by split].
    apply feasible_true in Ef. destruct (Ha _ (list_elem_of_here _ _) Ef).
  - destruct Hb as [Hin [[Hadm _] _]]. apply list_elem_of_singleton in Hin as ->.
    apply feasible_true in Hadm as ->.
    pose proof (with_new_plan_plans _ bench_now bench_now (ctx s) _ _ _ p d s
      (set_requests (<[value (q_request_id (bench_request (2000 + i))) := bench_request (2000 + i)]>
         (requests s)) s) Hp eq_refl) as Ep.
    unfold holds_plans. rewrite Ep. cbn [ctx next_plan_id with_new_plan record_history set_history
      supersede_older set_plans store_plan set_counters set_requests].
    rewrite u64_id by lia. split; [exact Hc|]. split; [|split; [lia|]].
    + rewrite map_size_insert, lookup_fmap, map_size_fmap.
      destruct (plans s !! next_plan_id s) as [p0|] eqn:E0; [|cbn; by rewrite Hs].
      apply Hf in E0. lia.
    + apply map_Forall_insert_2; [lia|]. apply map_Forall_fmap. intros id p0 H0.
      apply Hf in H0. cbn. lia.
  - destruct Hb as [Hin [Hadm _]]. destruct (He c Hin). apply bench_eligible.
    by apply feasible_true.
Qed.

Lemma plans_held js : forall k s,
  1 + Z.of_nat k + Z.of_nat (length js) < 2 ^ 64 -> holds_plans k s ->
  holds_plans (k + length (filter (fun i => bench_feasible i = true) js))%nat
    (foldl (fun s i =>
       (plan (bench_request (2000 + i)) [bench_candidate (i + 1) i] bench_now s).2) s js).
Proof.
  induction js as [|i js IH]; intros k s Hk Hs; cbn [foldl filter length] in *.
  { by rewrite Nat.add_0_r. }
  pose proof (bench_plan_held i k s ltac:(lia) Hs) as H1. rewrite filter_cons.
  destruct (bench_feasible i); case_decide; try done; cbn [length].
  - replace (k + S _)%nat with (S k + length (filter (fun i => bench_feasible i = true) js))%nat by lia.
    apply IH; [lia|exact H1].
  - apply IH; [lia|exact H1].
Qed.

Lemma hundred_plans_held : holds_plans 44 (hundred_plans bench_planner).
Proof.
  pose proof (plans_held (seqZ 0 100) 0 bench_planner) as H.
  replace (0 + length _)%nat with 44%nat in H by (vm_compute; reflexivity).
  apply H; [vm_compute; reflexivity|]. split; [done|]. split; [done|]. split; [done|].
  apply map_Forall_empty.
Qed.

(** ** Saving and loading *)

Lemma save_and_load_goes k : forall n st s,
  Typed n s -> exists st' s',
  save_and_load k (st, s) = (Go tt, (st', s')) /\ size (plans s') = size (plans s) /\ Typed n s'.
Proof.
  induction k as [|k IH]; intros n st s Hs; [by exists st, s|].
  cbn [save_and_load fst snd].
  assert (save_state (Some st) s = (Ok true, Some (MkMemory (<[state_key := encode_snapshot s]> (data_ st)))))
    as -> by reflexivity.
  assert (load_state (Some (MkMemory (<[state_key := encode_snapshot s]> (data_ st)))) s =
          (true, restored false s s)) as ->.
  { unfold load_state, load_locked. cbn [store_load memory_store memory_load data_].
    unfold memory_load. cbn [data_]. rewrite lookup_insert_eq, snapshot_applied by by destruct Hs.
    reflexivity. }
  destruct (IH n (MkMemory (<[state_key := encode_snapshot s]> (data_ st))) (restored false s s))
    as (st' & s' & E & Hz & Ht).
  { by apply restored_typed. }
  exists st', s'. split; [exact E|]. split; [|exact Ht]. rewrite Hz. apply map_size_fmap.
Qed.

Lemma bench_request_storable id : is_u 64 id -> RequestStorable (bench_request id).
Proof. intros Hid. split; [exact Hid|holds..]. Qed.

Lemma strategy_code_typed z : 0 <= z < 256 -> RecoveryStrategy.code (RecoveryStrategy.of_code z) < 256.
Proof.
  intros Hz. unfold RecoveryStrategy.of_code, enum_of_code.
  destruct (_ !! Z.to_nat z) as [x|] eqn:E; [|cbn; lia].
  apply list_elem_of_lookup_2 in E.
  repeat (apply elem_of_cons in E as [->|E]; [cbn; lia|]). by apply not_elem_of_nil in E.
Qed.

Lemma bench_candidate_typed id seed : is_u 64 id -> CandidateTyped (bench_candidate id seed).
Proof.
  intros Hid. split; [exact Hid|exact Hid| |holds..]. apply strategy_code_typed.
  pose proof (Z.mod_pos_bound (u64 (id + seed)) 7). lia.
Qed.

Definition bench_events : list Act :=
  [AEvent (ERegister (MkId 1) (MkId 100)); AEvent (ESetResource "gpu_mem" 10000);
   AEvent (ESetRecompute (MkId 1) true)] ++
  ((fun i => AEvent (EPlan (bench_request (2000 + i)) [bench_candidate (i + 1) i] bench_now))
     <$> seqZ 0 100).

Lemma plan_events_live {St} `{PersistenceStore St} js : forall (c : option St * Planner),
  (live ((fun i => AEvent (EPlan (bench_request (2000 + i)) [bench_candidate (i + 1) i] bench_now))
     <$> js) c).2 =
  foldl (fun s i =>
    (plan (bench_request (2000 + i)) [bench_candidate (i + 1) i] bench_now s).2) c.2 js.
Proof. induction js as [|j js IH]; intros c; [done|]. apply IH. Qed.

Lemma bench_events_typed : Forall ActTyped bench_events.
Proof.
  unfold bench_events. apply Forall_app. split.
  - repeat apply Forall_cons_2; [split; holds|exact I..|apply Forall_nil_2].
  - apply Forall_fmap, Forall_forall. intros i Hi. apply elem_of_seqZ in Hi.
    unfold compose. split; [apply bench_request_storable; unfold is_u; lia|].
    split; [|split; vm_compute; discriminate]. apply Forall_cons_2; [|apply Forall_nil_2].
    apply bench_candidate_typed. unfold is_u. lia.
Qed.

Lemma live_app {St} `{PersistenceStore St} l1 l2 (c : option St * Planner) :
  live (l1 ++ l2) c = live l2 (live l1 c).
Proof. apply foldl_app. Qed.

Lemma hundred_plans_live {St} `{PersistenceStore St} (c : option St * Planner) :
  (live ((fun i => AEvent (EPlan (bench_request (2000 + i)) [bench_candidate (i + 1) i] bench_now))
     <$> seqZ 0 100) c).2 = hundred_plans c.2.
Proof. exact (plan_events_live (seqZ 0 100) c). Qed.

Lemma bench_events_live :
  (live bench_events (@None MemoryStore, new_planner)).2 = hundred_plans bench_planner.
Proof.
  unfold bench_events. rewrite live_app, hundred_plans_live. f_equal.
Qed.

Lemma hundred_plans_typed : Typed 103 (hundred_plans bench_planner).
Proof.
  destruct (live_typed bench_events (@None MemoryStore)) as [H _];
    [vm_compute; reflexivity|exact bench_events_typed|].
  rewrite bench_events_live in H. revert H.
  replace (length bench_events) with 103%nat by (vm_compute; reflexivity). done.
Qed.
End Spec.

(** The benchmark runs to its end, for every conforming [std::sort] and every order of
    its threads: each call of the first part finds a plan, so that the work it prints
    is the number of repetitions; each of the eight hundred calls of the threads is
    recorded; every save and load succeeds.  The planner it stores holds 44 plans,
    where its output says 100: the other candidates are not feasible. *)
Theorem benchmark_completes {sorter : StdSort} order :
  match benchmark_main order with
  | Some result =>
      result = (Go 0, [PlanningLine 8 20 20; PlanningLine 64 20 20; PlanningLine 256 20 20;
                       PlanningLine 1000 3 3; PlanningLine 10000 3 3; ConcurrentLine 4 800;
                       PersistenceLine]) /\
      exists s, concurrent_part order = Some (ConcurrentLine 4 800, s) /\
                length (history s) = 800%nat
  | None => exists t, t ∈ (run_threads order (replicate 4 200%nat) concurrent_planner).1 /\ t <> 0%nat
  end /\
  persistence_part.1 = Go tt /\ size (plans persistence_part.2.2) = 44%nat.
Proof.
  assert (persistence_part.1 = Go tt /\ size (plans persistence_part.2.2) = 44%nat) as [Hp Hz].
  { destruct (save_and_load_goes 10 103 (MkMemory ∅) _ hundred_plans_typed)
      as (st & s & E & Hz & _).
    unfold persistence_part. rewrite E. split; [done|]. cbn [snd]. rewrite Hz.
    apply hundred_plans_held. }
  split; [|by split]. unfold benchmark_main. rewrite Hp.
  pose proof (run_threads_history order (replicate 4 200%nat) concurrent_planner) as Hh.
  unfold concurrent_part. destruct (run_threads _ _ _) as [turns s]. cbn [fst snd] in *.
  destruct (forallb _ turns) eqn:Ef.
  - split.
    + cbn [fmap list_fmap app]. rewrite !planning_scale_line by (vm_compute; reflexivity).
      vm_compute. reflexivity.
    + exists s. split; [done|]. change (length (history concurrent_planner)) with 0%nat in Hh.
      assert (sum_list turns = 0)%nat as H0.
      { clear -Ef. induction turns as [|x turns IH]; [done|]. cbn [forallb] in Ef.
        apply andb_true_iff in Ef as [->%Nat.eqb_eq Ef]. exact (IH Ef). }
      rewrite H0, Nat.add_0_r in Hh. exact Hh.
  - clear -Ef. induction turns as [|x turns IH]; [done|]. cbn [forallb] in Ef.
    apply andb_false_iff in Ef as [Ef|Ef].
    + exists x. split; [by left|]. by apply Nat.eqb_neq.
    + destruct (IH Ef) as (t & Ht & Hne). exists t. split; [by right|done].
Qed.
