(* ===== verification/Protocol.v ===== *)
(** * Messages between the coordinator and its workers

    Models [distributed/protocol.hpp] and [distributed/protocol.cpp].  The
    decoder reads an untrusted payload at a running position and assigns the
    members of [out] as it goes ([decode_into]); [decode] is a decode into a fresh
    message whose caller drops it when the answer is false. *)

From Stdlib Require Import Ascii String.
From stdpp Require Import base strings list.
From S2P Require Import Prelude Digest DigestSpec.
#[local] Open Scope Z_scope.
#[local] Open Scope rp_scope.

Module MsgType.
Inductive t :=
| NONE | REGISTER | REGISTER_ACK | RUN | WORK_DONE | DISPATCH | COMPLETE | PING | STOP
| OTHER (n : N).
#[global] Instance eq_dec : EqDecision t.
Proof. solve_decision. Defined.

Definition code (m : t) : Z :=
  match m with
  | NONE => 0 | REGISTER => 1 | REGISTER_ACK => 2 | RUN => 3 | WORK_DONE => 4 | DISPATCH => 5
  | COMPLETE => 6 | PING => 7 | STOP => 8 | OTHER n => 9 + Z.of_N n
  end.
Definition of_code (z : Z) : t :=
  enum_of_code [NONE; REGISTER; REGISTER_ACK; RUN; WORK_DONE; DISPATCH; COMPLETE; PING; STOP]
    OTHER z.
Definition to_string (m : t) : string :=
  match m with
  | REGISTER => "REGISTER" | REGISTER_ACK => "REGISTER_ACK" | RUN => "RUN"
  | WORK_DONE => "WORK_DONE" | DISPATCH => "DISPATCH" | COMPLETE => "COMPLETE"
  | PING => "PING" | STOP => "STOP" | _ => "NONE"
  end.

Lemma type_of_code_code m : of_code (code m) = m.
Proof.
  destruct m as [ | | | | | | | | |n]; try done.
  apply (enum_of_code_other [_; _; _; _; _; _; _; _; _]).
Qed.

Lemma type_code_nonneg m : 0 <= code m.
Proof. destruct m; cbn; lia. Qed.

Lemma type_code_of_code z : 0 <= z -> code (of_code z) = z.
Proof.
  intros Hz. unfold of_code, enum_of_code.
  destruct (decide (z < 9)) as [H|H].
  - assert (z = 0 \/ z = 1 \/ z = 2 \/ z = 3 \/ z = 4 \/ z = 5 \/ z = 6 \/ z = 7 \/ z = 8)
      as Hc by lia.
    by destruct Hc as [->|[->|[->|[->|[->|[->|[->|[->| ->]]]]]]]].
  - rewrite lookup_ge_None_2 by (cbn; lia). cbn. lia.
Qed.
End MsgType.

Record Msg := MkMsg {
  m_type : MsgType.t;
  m_a : Z; m_b : Z; m_c : Z; m_d : Z;
  m_s1 : string; m_s2 : string;
  m_blob : list Z }.

(** The message a declaration without initialisers makes. *)
Definition default_msg : Msg := MkMsg MsgType.NONE 0 0 0 0 "" "" [].

(** ** Encoding *)

Definition put_u8 (x : Z) (v : list Z) : list Z := v ++ [x].
Definition put_u64 (x : Z) (v : list Z) : list Z := v ++ be_bytes 8 x.
Definition put_u32 (x : Z) (v : list Z) : list Z := v ++ be_bytes 4 x.
Definition put_str (s : string) (v : list Z) : list Z :=
  put_u32 (u32 (Z.of_nat (String.length s))) v ++ string_bytes s.
Definition put_blob (b : list Z) (v : list Z) : list Z :=
  put_u32 (u32 (Z.of_nat (length b))) v ++ b.

Definition kStrMax : Z := 65536.
Definition kBlobMax : Z := 1024 * 1024.

Definition encode (m : Msg) : list Z :=
  (put_u8 (u8 (MsgType.code (m_type m))) >>> put_u64 (m_a m) >>> put_u64 (m_b m) >>>
   put_u64 (m_c m) >>> put_u64 (m_d m) >>> put_str (m_s1 m) >>> put_str (m_s2 m) >>>
   put_blob (m_blob m)) [].

(** ** Decoding *)

(** The [n] bytes at position [pos]; every read is in range when it is made. *)
Definition slice (pos n : nat) (data : list Z) : list Z := take n (drop pos data).

Definition get_u64 (data : list Z) (pos : nat) : Z := be_value 64 0 (slice pos 8 data).
Definition get_u32 (data : list Z) (pos : nat) : Z := be_value 32 0 (slice pos 4 data).

(** The value read and the position after it. *)
Definition get_str (data : list Z) (pos : nat) : option (string * nat) :=
  if (length data <? pos + 4)%nat then None else
  let n := get_u32 data pos in
  let pos := (pos + 4)%nat in
  if kStrMax <? n then None else
  if Z.of_nat (length data) <? Z.of_nat pos + n then None else
  Some (bytes_string (slice pos (Z.to_nat n) data), (pos + Z.to_nat n)%nat).

Definition get_blob (data : list Z) (pos : nat) : option (list Z * nat) :=
  if (length data <? pos + 4)%nat then None else
  let n := get_u32 data pos in
  let pos := (pos + 4)%nat in
  if kBlobMax <? n then None else
  if Z.of_nat (length data) <? Z.of_nat pos + n then None else
  Some (slice pos (Z.to_nat n) data, (pos + Z.to_nat n)%nat).

(** Assignments to the members of a message. *)
Definition m_set_head (t : MsgType.t) (a b c d : Z) (m : Msg) : Msg :=
  MkMsg t a b c d (m_s1 m) (m_s2 m) (m_blob m).
Definition m_set_s1 (s : string) (m : Msg) : Msg :=
  MkMsg (m_type m) (m_a m) (m_b m) (m_c m) (m_d m) s (m_s2 m) (m_blob m).
Definition m_set_s2 (s : string) (m : Msg) : Msg :=
  MkMsg (m_type m) (m_a m) (m_b m) (m_c m) (m_d m) (m_s1 m) s (m_blob m).
Definition m_set_blob (b : list Z) (m : Msg) : Msg :=
  MkMsg (m_type m) (m_a m) (m_b m) (m_c m) (m_d m) (m_s1 m) (m_s2 m) b.

Definition decode_into (data : list Z) (out : Msg) : bool * Msg :=
  if (length data <? 1 + 32)%nat then (false, out) else
  let type := MsgType.of_code (default 0 (data !! 0%nat)) in
  let a := get_u64 data 1 in
  let b := get_u64 data 9 in
  let c := get_u64 data 17 in
  let d := get_u64 data 25 in
  let out := m_set_head type a b c d out in
  match get_str data 33 with
  | None => (false, out)
  | Some (s1, pos) =>
      let out := m_set_s1 s1 out in
      match get_str data pos with
      | None => (false, out)
      | Some (s2, pos) =>
          let out := m_set_s2 s2 out in
          match get_blob data pos with
          | None => (false, out)
          | Some (blob, pos) => ((pos =? length data)%nat, m_set_blob blob out)
          end
      end
  end.

Definition decode (data : list Z) : option Msg :=
  let '(ok, m) := decode_into data default_msg in if ok then Some m else None.

(** The members of a message that decodes do not depend on what it held. *)
Lemma decode_fields data :
  decode data =
    if (length data <? 1 + 32)%nat then None else
    match get_str data 33 with
    | None => None
    | Some (s1, p1) =>
        match get_str data p1 with
        | None => None
        | Some (s2, p2) =>
            match get_blob data p2 with
            | None => None
            | Some (blob, p3) =>
                if (p3 =? length data)%nat
                then Some (MkMsg (MsgType.of_code (default 0 (data !! 0%nat))) (get_u64 data 1)
                             (get_u64 data 9) (get_u64 data 17) (get_u64 data 25) s1 s2 blob)
                else None
            end
        end
    end.
Proof.
  unfold decode, decode_into. destruct (length data <? 1 + 32)%nat; [done|].
  destruct (get_str data 33) as [[s1 p1]|]; [|done].
  destruct (get_str data p1) as [[s2 p2]|]; [|done].
  by destruct (get_blob data p2) as [[b p3]|].
Qed.

(** ** What a payload can carry *)

Record MsgWf (m : Msg) : Prop := {
  wf_type : MsgType.code (m_type m) < 256;
  wf_a : is_u 64 (m_a m);
  wf_b : is_u 64 (m_b m);
  wf_c : is_u 64 (m_c m);
  wf_d : is_u 64 (m_d m);
  wf_s1 : Z.of_nat (String.length (m_s1 m)) <= kStrMax;
  wf_s2 : Z.of_nat (String.length (m_s2 m)) <= kStrMax;
  wf_blob_size : Z.of_nat (length (m_blob m)) <= kBlobMax;
  wf_blob : Forall is_byte (m_blob m) }.

(** The bytes of a message, field by field. *)
Definition str_field (bs : list Z) : list Z := be_bytes 4 (Z.of_nat (length bs)) ++ bs.
Definition head_field (m : Msg) : list Z :=
  MsgType.code (m_type m) :: be_bytes 8 (m_a m) ++ be_bytes 8 (m_b m) ++ be_bytes 8 (m_c m) ++
    be_bytes 8 (m_d m).

Lemma encode_fields m :
  MsgWf m ->
  encode m = head_field m ++ str_field (string_bytes (m_s1 m)) ++
             str_field (string_bytes (m_s2 m)) ++ str_field (m_blob m).
Proof.
  intros []. unfold encode, andthen, put_str, put_blob, put_u32, put_u64, put_u8, str_field,
    head_field.
  pose proof (MsgType.type_code_nonneg (m_type m)).
  unfold u8, u32. rewrite !wrap_u_id by (unfold is_u, kStrMax, kBlobMax in *; lia).
  rewrite !length_string_bytes. cbn [app]. by rewrite <- !app_assoc.
Qed.

Lemma length_str_field bs : length (str_field bs) = (4 + length bs)%nat.
Proof. unfold str_field. by rewrite length_app, length_be_bytes. Qed.

(** ** Slices *)

Lemma slice_app_l pre bs post n :
  length pre = n -> slice n (length bs) (pre ++ bs ++ post) = bs.
Proof.
  intros <-. unfold slice. rewrite drop_app_length. apply take_app_length.
Qed.

Lemma get_field (max : Z) data pre bs post :
  max < 2 ^ 32 -> data = pre ++ str_field bs ++ post -> Z.of_nat (length bs) <= max ->
  get_u32 data (length pre) = Z.of_nat (length bs) /\
  (length data <? length pre + 4)%nat = false /\
  (max <? Z.of_nat (length bs)) = false /\
  (Z.of_nat (length data) <? Z.of_nat (length pre + 4) + Z.of_nat (length bs)) = false /\
  slice (length pre + 4) (length bs) data = bs.
Proof.
  intros Hmax -> Hbs. assert (length (pre ++ str_field bs ++ post) =
    (length pre + (4 + length bs + length post)))%nat as Hlen
    by (rewrite !length_app, length_str_field; lia).
  split_and!.
  - unfold get_u32. unfold str_field. rewrite <- !app_assoc.
    rewrite (slice_app_l pre (be_bytes 4 (Z.of_nat (length bs)))) by done.
    apply be_value_bytes; lia.
  - apply Nat.ltb_ge. lia.
  - apply Z.ltb_ge. lia.
  - apply Z.ltb_ge. lia.
  - unfold str_field. rewrite <- app_assoc, app_assoc. apply slice_app_l.
    by rewrite length_app, length_be_bytes.
Qed.

Lemma get_str_at data pre bs post :
  data = pre ++ str_field bs ++ post -> Z.of_nat (length bs) <= kStrMax ->
  get_str data (length pre) = Some (bytes_string bs, length (pre ++ str_field bs)).
Proof.
  intros Hd Hbs. destruct (get_field kStrMax data pre bs post) as (E1 & E2 & E3 & E4 & E5);
    [by unfold kStrMax; lia|done|done|].
  unfold get_str. rewrite E2, E1, E3, E4, Nat2Z.id, E5, length_app, length_str_field.
  do 2 f_equal. lia.
Qed.

Lemma get_blob_at data pre bs post :
  data = pre ++ str_field bs ++ post -> Z.of_nat (length bs) <= kBlobMax ->
  get_blob data (length pre) = Some (bs, length (pre ++ str_field bs)).
Proof.
  intros Hd Hbs. destruct (get_field kBlobMax data pre bs post) as (E1 & E2 & E3 & E4 & E5);
    [by unfold kBlobMax; lia|done|done|].
  unfold get_blob. rewrite E2, E1, E3, E4, Nat2Z.id, E5, length_app, length_str_field.
  do 2 f_equal. lia.
Qed.

Lemma get_u64_at pre v post pos :
  is_u 64 v -> length pre = pos -> get_u64 (pre ++ be_bytes 8 v ++ post) pos = v.
Proof.
  intros Hv Hp. unfold get_u64.
  pose proof (slice_app_l pre (be_bytes 8 v) post pos Hp) as E. rewrite length_be_bytes in E.
  rewrite E. by apply be_value_bytes.
Qed.

Lemma length_head_field m : length (head_field m) = 33%nat.
Proof. done. Qed.

Lemma head_field_read m data rest :
  MsgWf m -> data = head_field m ++ rest ->
  default 0 (data !! 0%nat) = MsgType.code (m_type m) /\ get_u64 data 1 = m_a m /\
  get_u64 data 9 = m_b m /\ get_u64 data 17 = m_c m /\ get_u64 data 25 = m_d m.
Proof.
  intros [] ->. unfold head_field. set (t := MsgType.code (m_type m)).
  split; [done|]. cbn [app]. rewrite <- !app_assoc.
  change (t :: ?l) with ([t] ++ l). split_and!.
  - by apply get_u64_at.
  - rewrite (app_assoc [t]). by apply get_u64_at.
  - rewrite (app_assoc [t]), (app_assoc ([t] ++ _)). by apply get_u64_at.
  - rewrite (app_assoc [t]), (app_assoc ([t] ++ _)), (app_assoc (([t] ++ _) ++ _)).
    by apply get_u64_at.
Qed.

(** ** The round trip *)

Lemma decode_encode m : MsgWf m -> decode (encode m) = Some m.
Proof.
  intros Hm. pose proof (encode_fields m Hm) as E. set (data := encode m) in *.
  pose proof Hm as [_ _ _ _ _ H1 H2 H3 _].
  destruct (head_field_read m data _ Hm E) as (Et & Ea & Eb & Ec & Ed).
  set (f1 := str_field (string_bytes (m_s1 m))) in *.
  set (f2 := str_field (string_bytes (m_s2 m))) in *.
  set (f3 := str_field (m_blob m)) in *.
  assert (get_str data 33 = Some (m_s1 m, length (head_field m ++ f1))) as G1.
  { rewrite <- (length_head_field m), (get_str_at data _ (string_bytes (m_s1 m)) (f2 ++ f3))
      by (done || by rewrite length_string_bytes).
    by rewrite bytes_string_bytes. }
  assert (get_str data (length (head_field m ++ f1)) =
          Some (m_s2 m, length ((head_field m ++ f1) ++ f2))) as G2.
  { rewrite (get_str_at data _ (string_bytes (m_s2 m)) f3)
      by (by rewrite <- app_assoc || by rewrite length_string_bytes).
    by rewrite bytes_string_bytes. }
  assert (get_blob data (length ((head_field m ++ f1) ++ f2)) =
          Some (m_blob m, length (((head_field m ++ f1) ++ f2) ++ f3))) as G3.
  { apply (get_blob_at data _ (m_blob m) []); [|done]. by rewrite app_nil_r, <- !app_assoc. }
  assert (length data = length (((head_field m ++ f1) ++ f2) ++ f3)) as Hl
    by (by rewrite E, <- !app_assoc).
  rewrite decode_fields, Et, Ea, Eb, Ec, Ed, G1, G2, G3, <- Hl, Nat.eqb_refl.
  rewrite MsgType.type_of_code_code.
  destruct (Nat.ltb_spec (length data) (1 + 32)) as [Hlt|_]; [|by destruct m].
  exfalso. rewrite Hl, !length_app, length_head_field in Hlt. lia.
Qed.

(** ** Nothing else decodes *)

Lemma string_bytes_string l : Forall is_byte l -> string_bytes (bytes_string l) = l.
Proof.
  unfold string_bytes, bytes_string.
  induction 1 as [|b l Hb Hl IH]; [done|]. cbn. f_equal; [|exact IH].
  unfold is_byte, is_u in Hb. rewrite N_ascii_embedding by lia. lia.
Qed.

Lemma slice_split pos n data :
  (pos + n <= length data)%nat ->
  drop pos data = slice pos n data ++ drop (pos + n) data /\ length (slice pos n data) = n.
Proof.
  intros H. unfold slice. rewrite <- drop_drop, take_drop. split; [done|].
  rewrite length_take, length_drop. lia.
Qed.

Lemma slice_bytes pos n data : Forall is_byte data -> Forall is_byte (slice pos n data).
Proof. intros H. by apply Forall_take, Forall_drop. Qed.

Lemma field_consumed max data pos :
  Forall is_byte data -> max < 2 ^ 32 ->
  (length data <? pos + 4)%nat = false -> (max <? get_u32 data pos) = false ->
  (Z.of_nat (length data) <? Z.of_nat (pos + 4) + get_u32 data pos) = false ->
  let bs := slice (pos + 4) (Z.to_nat (get_u32 data pos)) data in
  let pos' := (pos + 4 + Z.to_nat (get_u32 data pos))%nat in
  drop pos data = str_field bs ++ drop pos' data /\ Z.of_nat (length bs) <= max /\
  (pos' <= length data)%nat.
Proof.
  intros Hd Hmax H1%Nat.ltb_ge H2%Z.ltb_ge H3%Z.ltb_ge. cbn zeta.
  destruct (slice_split pos 4 data H1) as [S1 L1].
  destruct (be_value_range 32 (slice pos 4 data) (slice_bytes _ _ _ Hd)) as [R1 I1]; [by rewrite L1|].
  rewrite L1 in R1, I1. fold (get_u32 data pos) in R1, I1.
  set (n := get_u32 data pos) in *.
  destruct (slice_split (pos + 4) (Z.to_nat n) data) as [S2 L2]; [lia|].
  split; [|split; lia]. unfold str_field. rewrite L2, Z2Nat.id, I1 by lia.
  by rewrite <- app_assoc, <- S2, <- S1.
Qed.

Lemma get_str_consumed data pos s pos' :
  Forall is_byte data -> get_str data pos = Some (s, pos') ->
  drop pos data = str_field (string_bytes s) ++ drop pos' data /\
  Z.of_nat (String.length s) <= kStrMax /\ (pos' <= length data)%nat.
Proof.
  intros Hd H. unfold get_str in H.
  destruct (_ <? _)%nat eqn:E1; [done|]. destruct (kStrMax <? _) eqn:E2; [done|].
  destruct (_ <? Z.of_nat _ + _) eqn:E3; [done|]. injection H as <- <-.
  destruct (field_consumed kStrMax data pos Hd) as (E & L & P); [by unfold kStrMax; lia|done..|].
  rewrite <- length_string_bytes, string_bytes_string by by apply slice_bytes. done.
Qed.

Lemma get_blob_consumed data pos b pos' :
  Forall is_byte data -> get_blob data pos = Some (b, pos') ->
  drop pos data = str_field b ++ drop pos' data /\
  Z.of_nat (length b) <= kBlobMax /\ (pos' <= length data)%nat /\ Forall is_byte b.
Proof.
  intros Hd H. unfold get_blob in H.
  destruct (_ <? _)%nat eqn:E1; [done|]. destruct (kBlobMax <? _) eqn:E2; [done|].
  destruct (_ <? Z.of_nat _ + _) eqn:E3; [done|]. injection H as <- <-.
  destruct (field_consumed kBlobMax data pos Hd) as (E & L & P); [by unfold kBlobMax; lia|done..|].
  split; [done|]. split; [done|]. split; [done|]. by apply slice_bytes.
Qed.

Lemma u64_consumed data pos :
  Forall is_byte data -> (pos + 8 <= length data)%nat ->
  drop pos data = be_bytes 8 (get_u64 data pos) ++ drop (pos + 8) data /\
  is_u 64 (get_u64 data pos).
Proof.
  intros Hd H. destruct (slice_split pos 8 data H) as [S L].
  destruct (be_value_range 64 (slice pos 8 data) (slice_bytes _ _ _ Hd)) as [R I]; [by rewrite L|].
  rewrite L in R, I. unfold get_u64. split; [by rewrite I|exact R].
Qed.

Lemma decode_canonical data m :
  Forall is_byte data -> decode data = Some m -> MsgWf m /\ data = encode m.
Proof.
  intros Hd H. rewrite decode_fields in H.
  destruct (Nat.ltb_spec (length data) (1 + 32)) as [|Hl]; [done|].
  destruct (get_str data 33) as [[s1 p1]|] eqn:G1; [|done].
  destruct (get_str data p1) as [[s2 p2]|] eqn:G2; [|done].
  destruct (get_blob data p2) as [[b p3]|] eqn:G3; [|done].
  destruct (Nat.eqb_spec p3 (length data)) as [->|]; [|done]. injection H as <-.
  destruct (get_str_consumed _ _ _ _ Hd G1) as (C1 & L1 & _).
  destruct (get_str_consumed _ _ _ _ Hd G2) as (C2 & L2 & _).
  destruct (get_blob_consumed _ _ _ _ Hd G3) as (C3 & L3 & _ & B3).
  destruct (u64_consumed data 1 Hd) as [A1 U1]; [lia|].
  destruct (u64_consumed data 9 Hd) as [A2 U2]; [lia|].
  destruct (u64_consumed data 17 Hd) as [A3 U3]; [lia|].
  destruct (u64_consumed data 25 Hd) as [A4 U4]; [lia|].
  destruct data as [|t data']; [cbn in Hl; lia|].
  change (default 0 ((t :: data') !! 0%nat)) with t.
  assert (is_byte t) as Ht by (by inversion Hd). unfold is_byte, is_u in Ht.
  assert (MsgType.code (MsgType.of_code t) = t) as Et by (apply MsgType.type_code_of_code; lia).
  match goal with |- MsgWf ?m /\ _ => assert (MsgWf m) as Hm end.
  { split; cbn [m_type m_a m_b m_c m_d m_s1 m_s2 m_blob]; try done. rewrite Et. lia. }
  split; [exact Hm|]. rewrite encode_fields by exact Hm. unfold head_field. cbn [m_type m_a m_b m_c m_d m_s1 m_s2 m_blob].
  rewrite Et.
  rewrite drop_all, app_nil_r in C3.
  cbn [app]. f_equal. change data' with (drop 1 (t :: data')) at 1.
  rewrite A1. cbn [Nat.add]. rewrite A2. cbn [Nat.add]. rewrite A3. cbn [Nat.add].
  rewrite A4. cbn [Nat.add]. rewrite C1, C2, C3. by rewrite <- !app_assoc.
Qed.
