(* ===== verification/Transport.v ===== *)
(** * Framed transport over a byte stream

    Models [distributed/transport.hpp] and the framing of
    [distributed/transport.cpp].  A socket delivers a stream of bytes in pieces
    the program does not choose: what the successive [recv] calls find is a list
    of [Segment]s, what the successive [send] calls do is a list of [SendResult]s.
    The sockets' own calls (bind, accept, connect) belong to the system. *)

From stdpp Require Import base strings list.
From S2P Require Import Prelude Types Digest DigestSpec CrcSpec.
#[local] Open Scope Z_scope.

Definition kFrameMagic : Z := 1380992561.
Definition kFrameVersion : Z := 1.
Definition kMaxFramePayload : Z := 1024 * 1024.

(** ** Fixed-width fields *)

Definition read_u32 (p : list Z) : Z :=
  Z.lor (Z.lor (Z.lor (u32 (Z.shiftl (p !!! 0%nat) 24)) (u32 (Z.shiftl (p !!! 1%nat) 16)))
               (u32 (Z.shiftl (p !!! 2%nat) 8))) (p !!! 3%nat).
Definition write_u32 (v : Z) : list Z :=
  [Z.land (Z.shiftr v 24) 255; Z.land (Z.shiftr v 16) 255; Z.land (Z.shiftr v 8) 255;
   Z.land v 255].

(** The same computation as [crc32c], from its initial register. *)
Definition crc32c_bytes (data : list Z) : Z := u32_not (foldl crc_update (u32_not 0) data).

(** ** Receiving *)

(** What a [recv] call meets: bytes that have arrived (it takes at most as many
    as it asked for and leaves the others), an interruption, or an error.  No
    bytes at all is the orderly shutdown, and so is the end of the list. *)
Inductive Segment :=
| Data (bytes : list Z)
| Interrupted
| Broken.

(** The loop of [recv_all], with [len - got] still to read: the bytes, or [None]
    for -1, and what is left of the stream. *)
Fixpoint recv_all (len : nat) (segs : list Segment) : option (list Z) * list Segment :=
  match len with
  | O => (Some [], segs)
  | S _ =>
      match segs with
      | [] => (None, [])
      | Data [] :: rest => (None, rest)
      | Data bs :: rest =>
          if (length bs <=? len)%nat then
            match recv_all (len - length bs) rest with
            | (Some more, rest') => (Some (bs ++ more), rest')
            | (None, rest') => (None, rest')
            end
          else (Some (take len bs), Data (drop len bs) :: rest)
      | Interrupted :: rest => recv_all len rest
      | Broken :: rest => (None, rest)
      end
  end.

(** [Connection::recv_frame]: [Ok None] when it returns false, [Throw] with the
    text of the [std::runtime_error]. *)
Definition recv_frame (segs : list Segment)
    : Result string (option (list Z)) * list Segment :=
  match recv_all 9 segs with
  | (None, segs) => (Ok None, segs)
  | (Some header, segs) =>
      if negb (read_u32 header =? kFrameMagic)
      then (Throw "malformed transport frame: bad magic", segs)
      else if negb (header !!! 4%nat =? kFrameVersion)
      then (Throw "malformed transport frame: unsupported version", segs)
      else
        let len := read_u32 (drop 5 header) in
        if kMaxFramePayload <? len
        then (Throw "malformed transport frame: oversized payload", segs)
        else
          match (if 0 <? len then recv_all (Z.to_nat len) segs else (Some [], segs)) with
          | (None, segs) => (Ok None, segs)
          | (Some payload, segs) =>
              match recv_all 4 segs with
              | (None, segs) => (Ok None, segs)
              | (Some crcbuf, segs) =>
                  if negb (crc32c_bytes payload =? read_u32 crcbuf)
                  then (Throw "malformed transport frame: checksum mismatch", segs)
                  else (Ok (Some payload), segs)
              end
          end
  end.

(** ** Sending *)

(** What a [send] call does: takes some of the bytes, is interrupted, or fails. *)
Inductive SendResult :=
| Sent (n : nat)
| SendInterrupted
| SendFailed.

(** A socket's sending side: what it has put on the wire, and what its next
    calls do; past the end of the list the connection is broken. *)
Record Outbound := MkOutbound {
  wire : list Z;
  sends : list SendResult }.

(** The loop of [send_all] on the bytes still to send.  A [send] takes at least
    one byte and at most those it was given. *)
Fixpoint send_all (buf : list Z) (wire : list Z) (sends : list SendResult) : bool * Outbound :=
  match buf with
  | [] => (true, MkOutbound wire sends)
  | _ :: _ =>
      match sends with
      | [] | SendFailed :: _ => (false, MkOutbound wire (tail sends))
      | SendInterrupted :: rest => send_all buf wire rest
      | Sent n :: rest =>
          let n := (Nat.max 1 n `min` length buf)%nat in
          send_all (drop n buf) (wire ++ take n buf) rest
      end
  end.

Definition send_bytes (buf : list Z) (o : Outbound) : bool * Outbound :=
  send_all buf (wire o) (sends o).

Definition frame_head (payload : list Z) : list Z :=
  write_u32 kFrameMagic ++ [kFrameVersion] ++ write_u32 (u32 (Z.of_nat (length payload))).

(** [Connection::send_frame] *)
Definition send_frame (payload : list Z) (o : Outbound) : bool * Outbound :=
  if kMaxFramePayload <? Z.of_nat (length payload) then (false, o)
  else
    let crc := crc32c_bytes payload in
    let tail := write_u32 crc in
    let '(ok, o) := send_bytes (frame_head payload) o in
    if negb ok then (false, o) else
    let '(ok, o) := match payload with
                    | [] => (ok, o)
                    | _ :: _ => send_bytes payload o
                    end in
    if negb ok then (false, o) else send_bytes tail o.

(** ** The stream behind the segments *)

(** The bytes that arrive before the stream ends or breaks. *)
Fixpoint stream (segs : list Segment) : list Z :=
  match segs with
  | [] => []
  | Data [] :: _ => []
  | Data bs :: rest => bs ++ stream rest
  | Interrupted :: rest => stream rest
  | Broken :: _ => []
  end.

(** The bytes of one frame. *)
Definition frame_bytes (payload : list Z) : list Z :=
  frame_head payload ++ payload ++ write_u32 (crc32c_bytes payload).

(** Receiving does not depend on how the stream is cut into segments. *)
Lemma recv_all_stream len segs :
  if (len <=? length (stream segs))%nat
  then exists segs', recv_all len segs = (Some (take len (stream segs)), segs') /\
                     stream segs' = drop len (stream segs)
  else exists segs', recv_all len segs = (None, segs').
Proof.
  revert len. induction segs as [|seg segs IH]; intros [|len].
  1,3: eexists; by split.
  - by eexists.
  - destruct seg as [[|b bs]| |].
    + by eexists.
    + cbn [stream]. set (l := b :: bs). assert (1 <= length l)%nat by (cbn; lia).
      rewrite length_app.
      assert (recv_all (S len) (Data l :: segs) =
        if (length l <=? S len)%nat then
          match recv_all (S len - length l) segs with
          | (Some more, rest') => (Some (l ++ more), rest')
          | (None, rest') => (None, rest')
          end
        else (Some (take (S len) l), Data (drop (S len) l) :: segs)) as -> by reflexivity.
      destruct (Nat.leb_spec (length l) (S len)) as [Hl|Hl].
      * specialize (IH (S len - length l)%nat).
        destruct (Nat.leb_spec (S len - length l) (length (stream segs))) as [Hs|Hs];
          destruct (Nat.leb_spec (S len) (length l + length (stream segs))); try lia.
        -- destruct IH as (segs' & -> & Hd). exists segs'.
           rewrite take_app, (take_ge l), drop_app, (drop_ge l) by lia. done.
        -- destruct IH as (segs' & ->). by eexists.
      * destruct (Nat.leb_spec (S len) (length l + length (stream segs))); [|lia].
        eexists. rewrite take_app_le, drop_app_le by lia. split; [done|].
        cbn [stream]. destruct (drop (S len) l) eqn:E; [|done].
        apply (f_equal length) in E. rewrite length_drop in E. cbn [length] in E. lia.
    + exact (IH (S len)).
    + by eexists.
Qed.

(** ** Fields read and written *)

Lemma write_u32_be v : write_u32 v = be_bytes 4 v.
Proof. unfold write_u32. cbn. by rewrite Z.shiftr_0_r. Qed.

Lemma wrap_shiftl w b k :
  is_byte b -> 0 <= k -> k + 8 <= w -> wrap_u w (Z.shiftl b k) = Z.shiftl b k.
Proof.
  intros [Hb0 Hb] Hk Hw. apply wrap_u_id. unfold is_u. rewrite Z.shiftl_mul_pow2 by lia.
  pose proof (Z.pow_le_mono_r 2 (k + 8) w ltac:(lia) Hw) as Hp.
  rewrite Z.pow_add_r in Hp by lia. assert (0 < 2 ^ k) by (apply Z.pow_pos_nonneg; lia). nia.
Qed.

Lemma read_u32_value a b c d :
  is_byte a -> is_byte b -> is_byte c -> is_byte d ->
  read_u32 [a; b; c; d] = be_value 32 0 [a; b; c; d].
Proof.
  intros Ha Hb Hc Hd. unfold read_u32. cbn [lookup_total list_lookup_total be_value].
  unfold u32. rewrite !wrap_shiftl by (done || lia).
  change (wrap_u 32 (Z.shiftl 0 8)) with 0. rewrite Z.lor_0_l, (wrap_shiftl 32 a 8) by (done || lia).
  assert (forall x, is_u 24 x -> wrap_u 32 (Z.shiftl x 8) = Z.shiftl x 8) as Hw.
  { intros x [Hx0 Hx]. apply wrap_u_id. unfold is_u. rewrite Z.shiftl_mul_pow2 by lia. lia. }
  assert (forall x y, is_u 16 x -> is_byte y -> is_u 24 (Z.lor (Z.shiftl x 8) y)) as Hu.
  { intros x y Hx Hy. apply is_u_bits; [lia|]. split.
    - apply Z.lor_nonneg. split; [apply Z.shiftl_nonneg; apply Hx|apply Hy].
    - rewrite Z.shiftr_lor. change 24 with (8 + 16) at 1.
      rewrite <- Z.shiftr_shiftr, Z.shiftr_shiftl_l, Z.shiftl_0_r by lia.
      rewrite (proj2 (proj1 (is_u_bits 16 x ltac:(lia)) Hx)).
      rewrite Z.lor_0_l. apply (is_u_bits 24); [lia|]. unfold is_byte, is_u in *. lia. }
  assert (is_u 16 (Z.lor (Z.shiftl a 8) b)) as Hab.
  { apply is_u_bits; [lia|]. split.
    - apply Z.lor_nonneg. split; [apply Z.shiftl_nonneg; apply Ha|apply Hb].
    - rewrite Z.shiftr_lor. change 16 with (8 + 8) at 1.
      rewrite <- Z.shiftr_shiftr, Z.shiftr_shiftl_l, Z.shiftl_0_r by lia.
      rewrite (byte_high_bits a Ha), Z.lor_0_l.
      apply (is_u_bits 16); [lia|]. unfold is_byte, is_u in *. lia. }
  rewrite (Hw (Z.lor (Z.shiftl a 8) b)) by (unfold is_u in *; lia).
  rewrite Hw by by apply Hu.
  rewrite !Z.shiftl_lor, !Z.shiftl_shiftl by lia. done.
Qed.

Lemma read_bytes_4 l :
  Forall is_byte l -> length l = 4%nat ->
  read_u32 l = be_value 32 0 l /\ is_u 32 (read_u32 l) /\ write_u32 (read_u32 l) = l.
Proof.
  intros Hb Hl. destruct (be_value_range 32 l Hb) as [Hr Hi]; [by rewrite Hl|].
  rewrite Hl in Hr, Hi.
  destruct l as [|a [|b [|c [|d [|e l]]]]]; try done. pose proof Hb as Hb'.
  do 4 (apply Forall_cons in Hb' as [? Hb']).
  rewrite read_u32_value by done. rewrite write_u32_be. done.
Qed.

Lemma read_write_u32 v rest : is_u 32 v -> read_u32 (write_u32 v ++ rest) = v.
Proof.
  intros Hv. change (read_u32 (write_u32 v ++ rest)) with (read_u32 (write_u32 v)).
  destruct (read_bytes_4 (write_u32 v)) as (-> & _).
  - rewrite write_u32_be. apply be_bytes_byte.
  - done.
  - rewrite write_u32_be. by apply be_value_bytes.
Qed.

(** A payload one frame can carry. *)
Definition frame_wf (p : list Z) : Prop :=
  Forall is_byte p /\ Z.of_nat (length p) <= kMaxFramePayload.

Lemma frame_length p : frame_wf p -> u32 (Z.of_nat (length p)) = Z.of_nat (length p).
Proof. intros [_ Hp]. apply wrap_u_id. unfold is_u, kMaxFramePayload in *. lia. Qed.

Lemma crc_bytes_u32 p : Forall is_byte p -> is_u 32 (crc32c_bytes p).
Proof. intros Hp. apply (crc32c_u32 p 0 Hp). unfold is_u. lia. Qed.

Lemma length_frame_head p : length (frame_head p) = 9%nat.
Proof. done. Qed.

Lemma recv_all_app n segs bs rest :
  length bs = n -> stream segs = bs ++ rest ->
  exists segs', recv_all n segs = (Some bs, segs') /\ stream segs' = rest.
Proof.
  intros <- Hs. pose proof (recv_all_stream (length bs) segs) as H. rewrite Hs in H.
  rewrite length_app in H. destruct (Nat.leb_spec (length bs) (length bs + length rest)); [|lia].
  rewrite take_app_length, drop_app_length in H. exact H.
Qed.

(** ** A frame sent is a frame received *)

Lemma recv_frame_complete p segs rest :
  frame_wf p -> stream segs = frame_bytes p ++ rest ->
  exists segs', recv_frame segs = (Ok (Some p), segs') /\ stream segs' = rest.
Proof.
  intros Hp Hs. unfold frame_bytes in Hs. rewrite <- !app_assoc in Hs.
  destruct (recv_all_app 9 segs (frame_head p) _ eq_refl Hs) as (s1 & E1 & H1).
  unfold recv_frame. rewrite E1. unfold frame_head.
  rewrite read_write_u32 by (unfold is_u, kFrameMagic; lia). rewrite Z.eqb_refl. cbn [negb].
  change (((write_u32 kFrameMagic ++ [kFrameVersion] ++
             write_u32 (u32 (Z.of_nat (length p)))) !!! 4%nat)) with kFrameVersion.
  rewrite Z.eqb_refl. cbn [negb].
  change (drop 5 (write_u32 kFrameMagic ++ [kFrameVersion] ++
             write_u32 (u32 (Z.of_nat (length p))))) with (write_u32 (u32 (Z.of_nat (length p)))).
  rewrite frame_length by done.
  assert (read_u32 (write_u32 (Z.of_nat (length p))) = Z.of_nat (length p)) as ->.
  { rewrite <- (app_nil_r (write_u32 _)). apply read_write_u32.
    destruct Hp as [_ Hp]. unfold is_u, kMaxFramePayload in *. lia. }
  destruct (Z.ltb_spec kMaxFramePayload (Z.of_nat (length p))) as [Hlt|_];
    [destruct Hp; lia|]. cbn zeta. rewrite Nat2Z.id.
  destruct (recv_all_app (length p) s1 p _ eq_refl H1) as (s2 & E2 & H2).
  assert ((if 0 <? Z.of_nat (length p) then recv_all (length p) s1 else (Some [], s1)) =
          (Some p, s2)) as ->.
  { destruct (Z.ltb_spec 0 (Z.of_nat (length p))); [exact E2|].
    destruct p; [|cbn in *; lia]. by destruct s1. }
  destruct (recv_all_app 4 s2 (write_u32 (crc32c_bytes p)) rest eq_refl H2) as (s3 & E3 & H3).
  rewrite E3. rewrite <- (app_nil_r (write_u32 _)), read_write_u32 by by apply crc_bytes_u32, Hp.
  rewrite Z.eqb_refl. cbn [negb]. by exists s3.
Qed.

Lemma recv_all_some n segs bs segs' :
  recv_all n segs = (Some bs, segs') ->
  stream segs = bs ++ stream segs' /\ length bs = n.
Proof.
  intros H. pose proof (recv_all_stream n segs) as Hs.
  destruct (Nat.leb_spec n (length (stream segs))) as [Hn|Hn].
  - destruct Hs as (s' & Hs & Hd). rewrite H in Hs. injection Hs as -> <-.
    rewrite Hd, take_drop. split; [done|]. rewrite length_take. lia.
  - destruct Hs as (s' & Hs). congruence.
Qed.

Lemma recv_frame_sound p segs segs' :
  Forall is_byte (stream segs) -> recv_frame segs = (Ok (Some p), segs') ->
  frame_wf p /\ stream segs = frame_bytes p ++ stream segs'.
Proof.
  intros Hb H. unfold recv_frame in H.
  destruct (recv_all 9 segs) as [[header|] s1] eqn:E1; [|done].
  apply recv_all_some in E1 as [S1 L1]. rewrite S1 in Hb. apply Forall_app in Hb as [Hh Hb].
  destruct (negb (read_u32 header =? kFrameMagic)) eqn:Em; [done|].
  destruct (negb (header !!! 4%nat =? kFrameVersion)) eqn:Ev; [done|]. bool_simp.
  cbn zeta in H. destruct (kMaxFramePayload <? _) eqn:El; [done|]. bool_simp.
  destruct (if 0 <? _ then _ else _) as [[payload|] s2] eqn:E2; [|done].
  assert (recv_all (Z.to_nat (read_u32 (drop 5 header))) s1 = (Some payload, s2)) as E2'.
  { destruct (Z.ltb_spec 0 (read_u32 (drop 5 header))); [exact E2|].
    replace (Z.to_nat (read_u32 (drop 5 header))) with 0%nat by lia. by destruct s1. }
  clear E2. apply recv_all_some in E2' as [S2 L2].
  destruct (recv_all 4 s2) as [[crcbuf|] s3] eqn:E3; [|done].
  apply recv_all_some in E3 as [S3 L3].
  destruct (negb _) eqn:Ec; [done|]. injection H as -> <-. bool_simp.
  rewrite S2, S3 in Hb. apply Forall_app in Hb as [Hp Hb]. apply Forall_app in Hb as [Hcb _].
  assert (length (drop 5 header) = 4%nat) as Ld by (rewrite length_drop; lia).
  assert (length (take 4 header) = 4%nat) as Lt by (rewrite length_take; lia).
  destruct (read_bytes_4 (drop 5 header)) as (_ & R1 & W1); [by apply Forall_drop|done|].
  destruct (read_bytes_4 (take 4 header)) as (_ & _ & W2); [by apply Forall_take|done|].
  destruct (read_bytes_4 crcbuf Hcb L3) as (_ & _ & W3).
  assert (frame_wf p) as Hwf by (split; [done|unfold is_u in R1; lia]).
  split; [done|]. rewrite S1, S2, S3. unfold frame_bytes, frame_head.
  rewrite frame_length, Ec, W3 by done.
  assert (Z.of_nat (length p) = read_u32 (drop 5 header)) as -> by (unfold is_u in R1; lia).
  rewrite W1, <- Em.
  assert (read_u32 header = read_u32 (take 4 header)) as ->.
  { do 4 (destruct header as [|? header]; [done|]). done. }
  rewrite W2, <- Ev.
  assert (header = take 4 header ++ [header !!! 4%nat] ++ drop 5 header) as Hhd.
  { do 9 (destruct header as [|? header]; [done|]). by destruct header. }
  rewrite Hhd at 1. by rewrite <- !app_assoc.
Qed.

(** ** What reaches the wire *)

Lemma send_all_wire buf w ss ok o :
  send_all buf w ss = (ok, o) ->
  exists sent rest, wire o = w ++ sent /\ buf = sent ++ rest /\ (ok = true <-> rest = []).
Proof.
  revert buf w. induction ss as [|r ss IH]; intros [|b buf] w H; cbn in H.
  - injection H as <- <-. exists [], []. by rewrite app_nil_r.
  - injection H as <- <-. exists [], (b :: buf). by rewrite app_nil_r.
  - injection H as <- <-. exists [], []. by rewrite app_nil_r.
  - destruct r as [n| |].
    + apply IH in H as (sent & rest & Hw & Hb & Hok).
      match type of Hb with drop ?k _ = _ =>
        exists (take k (b :: buf) ++ sent), rest end.
      rewrite Hw, <- !app_assoc, <- Hb. split; [done|]. by rewrite take_drop.
    + by apply IH in H.
    + injection H as <- <-. exists [], (b :: buf). by rewrite app_nil_r.
Qed.

Lemma send_frame_wire p o ok o' :
  send_frame p o = (ok, o') ->
  exists sent rest, wire o' = wire o ++ sent /\
    if ok then sent = frame_bytes p /\ Z.of_nat (length p) <= kMaxFramePayload
    else frame_bytes p = sent ++ rest /\ rest <> [].
Proof.
  unfold send_frame, send_bytes. intros H.
  destruct (Z.ltb_spec kMaxFramePayload (Z.of_nat (length p))) as [_|Hp].
  { injection H as <- <-. exists [], (frame_bytes p). by rewrite app_nil_r. }
  set (h := frame_head p) in *. set (c := write_u32 (crc32c_bytes p)) in *.
  destruct (send_all h _ _) as [ok1 o1] eqn:E1.
  apply send_all_wire in E1 as (s1 & r1 & W1 & B1 & K1).
  destruct ok1; cbn [negb] in H.
  2:{ injection H as <- <-. exists s1, (r1 ++ p ++ c). split; [done|].
      unfold frame_bytes. fold h c. rewrite B1, <- !app_assoc. split; [done|].
      destruct r1; [|done]. by destruct K1 as [_ K1]; discriminate K1. }
  assert (r1 = []) as -> by by apply K1. rewrite app_nil_r in B1. subst s1.
  assert (exists ok2 o2, match p with
          | [] => (true, o1) | _ :: _ => send_all p (wire o1) (sends o1) end = (ok2, o2) /\
          exists s2 r2, wire o2 = wire o1 ++ s2 /\ p = s2 ++ r2 /\ (ok2 = true <-> r2 = []))
    as (ok2 & o2 & E2 & s2 & r2 & W2 & B2 & K2).
  { destruct p as [|b p']; [exists true, o1; split; [done|]; exists [], []; by rewrite app_nil_r|].
    destruct (send_all (b :: p') (wire o1) (sends o1)) as [ok2 o2] eqn:E2. exists ok2, o2.
    split; [done|]. by apply send_all_wire in E2. }
  rewrite E2 in H. destruct ok2; cbn [negb] in H.
  2:{ injection H as <- <-. exists (h ++ s2), (r2 ++ c). rewrite W2, W1, app_assoc.
      split; [done|]. unfold frame_bytes. fold h c. rewrite B2 at 1. rewrite <- !app_assoc.
      split; [done|]. destruct r2; [|done]. by destruct K2 as [_ K2]; discriminate K2. }
  assert (r2 = []) as -> by by apply K2. rewrite app_nil_r in B2. subst s2.
  apply send_all_wire in H as (s3 & r3 & W3 & B3 & K3).
  exists (h ++ p ++ s3), r3. rewrite W3, W2, W1, !app_assoc. split; [done|].
  unfold frame_bytes. fold h c. rewrite B3. destruct ok.
  - assert (r3 = []) as -> by by apply K3. by rewrite app_nil_r, !app_assoc.
  - rewrite !app_assoc. split; [done|]. destruct r3; [|done].
    by destruct K3 as [_ K3]; discriminate K3.
Qed.
