(* ===== verification/Sockets.v ===== *)
(** * Sockets and their owners

    Models [Listener], [Connection] and [connect_to] of [distributed/transport.cpp]
    as far as they own descriptors: which are opened, closed and kept, over any
    results of the system's calls.  The frames a connection carries are in
    [Transport].  A descriptor number is its [sock_t]; [transport_init] does nothing
    outside Windows. *)

From stdpp Require Import base gmap sets list.
From S2P Require Import Prelude.
#[local] Open Scope Z_scope.

(** ** The process's descriptors *)

(** The open sockets, and the closes of descriptors that were not open. *)
Record Sys := MkSys { open_fds : gset Z; stray_closes : list Z }.

Definition open_sock (fd : Z) (y : Sys) : Sys := MkSys ({[fd]} ∪ open_fds y) (stray_closes y).

Definition close_sock (fd : Z) (y : Sys) : Sys :=
  if bool_decide (fd ∈ open_fds y) then MkSys (open_fds y ∖ {[fd]}) (stray_closes y)
  else MkSys (open_fds y) (stray_closes y ++ [fd]).

(** ** Listeners *)

Record Listener := MkListener { handle_ : Z; port_ : Z }.
Definition new_listener : Listener := MkListener 0 0.

(** The results of [socket] ([None] for [kInvalidSocket]), [bind] of a port,
    [listen], and the port [getsockname] fills in ([None]: it fails). *)
Record BindCalls := MkBindCalls {
  bc_socket : option Z;
  bc_bind : Z -> bool;
  bc_listen : bool;
  bc_name : option Z }.

Definition listener_bind (calls : BindCalls) (port : Z) (l : Listener) (y : Sys)
    : bool * Listener * Sys :=
  match bc_socket calls with
  | None => (false, l, y)
  | Some s =>
      let y := open_sock s y in
      if negb (bc_bind calls port) then (false, l, close_sock s y)
      else if negb (bc_listen calls) then (false, l, close_sock s y)
      else (true, MkListener s (default 0 (bc_name calls)), y)
  end.

Definition listener_destroy (l : Listener) (y : Sys) : Listener * Sys :=
  if negb (handle_ l =? 0) then (MkListener 0 (port_ l), close_sock (handle_ l) y) else (l, y).

(** ** Connections *)

Record SocketConnection := MkConn { socket_ : Z; closed_ : bool }.
Definition new_connection (socket : Z) : SocketConnection := MkConn socket false.

(** [accept]: the result of the system's call. *)
Definition listener_accept (result : option Z) (y : Sys) : option SocketConnection * Sys :=
  match result with
  | None => (None, y)
  | Some s => (Some (new_connection s), open_sock s y)
  end.

(** [close], which the destructor calls too. *)
Definition conn_close (c : SocketConnection) (y : Sys) : SocketConnection * Sys :=
  if negb (closed_ c) && negb (socket_ c =? 0)
  then (MkConn 0 true, close_sock (socket_ c) y) else (c, y).

Record ConnectCalls := MkConnectCalls { cc_socket : option Z; cc_connect : Z -> bool }.

Definition connect_to (calls : ConnectCalls) (port : Z) (y : Sys)
    : option SocketConnection * Sys :=
  match cc_socket calls with
  | None => (None, y)
  | Some s =>
      let y := open_sock s y in
      if negb (cc_connect calls port) then (None, close_sock s y)
      else (Some (new_connection s), y)
  end.

(** ** A program that uses them *)

(** Its listener, and its connections by the order they were made in; the
    destructor of a connection runs when its last reference goes. *)
Record Process := MkProcess {
  sys : Sys;
  listener : Listener;
  conns : gmap nat SocketConnection;
  made : nat }.

Definition started : Process := MkProcess (MkSys ∅ []) new_listener ∅ 0.

Inductive Op :=
| Bind (calls : BindCalls) (port : Z)
| Accept (result : option Z)
| Connect (calls : ConnectCalls) (port : Z)
| Close (k : nat)
| Drop (k : nat)
| DropListener.

Definition keep_connection (r : option SocketConnection * Sys) (p : Process) : Process :=
  match r with
  | (None, y) => MkProcess y (listener p) (conns p) (made p)
  | (Some c, y) => MkProcess y (listener p) (<[made p := c]> (conns p)) (S (made p))
  end.

Definition run_op (o : Op) (p : Process) : Process :=
  match o with
  | Bind calls port =>
      let '(_, l, y) := listener_bind calls port (listener p) (sys p) in
      MkProcess y l (conns p) (made p)
  | Accept result => keep_connection (listener_accept result (sys p)) p
  | Connect calls port => keep_connection (connect_to calls port (sys p)) p
  | Close k =>
      match conns p !! k with
      | None => p
      | Some c =>
          let '(c, y) := conn_close c (sys p) in
          MkProcess y (listener p) (<[k := c]> (conns p)) (made p)
      end
  | Drop k =>
      match conns p !! k with
      | None => p
      | Some c => MkProcess (conn_close c (sys p)).2 (listener p) (delete k (conns p)) (made p)
      end
  | DropListener =>
      let '(l, y) := listener_destroy (listener p) (sys p) in MkProcess y l (conns p) (made p)
  end.

(** What the system returns: descriptors that are not open.  Descriptor 0, which
    the code reads as none, is the standard input.  A listener is bound only while
    it has no descriptor, as both programs do. *)
Definition fresh_fd (r : option Z) (p : Process) : Prop :=
  forall fd, r = Some fd -> 0 < fd /\ fd ∉ open_fds (sys p).

Definition op_ok (o : Op) (p : Process) : Prop :=
  match o with
  | Bind calls _ => fresh_fd (bc_socket calls) p /\ handle_ (listener p) = 0
  | Accept r => fresh_fd r p
  | Connect calls _ => fresh_fd (cc_socket calls) p
  | Close _ | Drop _ | DropListener => True
  end.

Inductive Runs : list Op -> Process -> Process -> Prop :=
| runs_nil p : Runs [] p p
| runs_cons o os p p' : op_ok o p -> Runs os (run_op o p) p' -> Runs (o :: os) p p'.

(** ** Every open descriptor has one owner *)

Inductive Owner := OwnerListener | OwnerConnection (k : nat).
#[global] Instance owner_eq_dec : EqDecision Owner.
Proof. solve_decision. Defined.

(** The descriptor of an owner: its member, unless that is the 0 of none. *)
Definition held (fd : Z) : option Z := if fd =? 0 then None else Some fd.

Definition holding (p : Process) (w : Owner) : option Z :=
  match w with
  | OwnerListener => held (handle_ (listener p))
  | OwnerConnection k => c ← conns p !! k; held (socket_ c)
  end.

Record OwnedBy (y : Sys) (holds : Owner -> option Z) : Prop := {
  owned_open fd : fd ∈ open_fds y <-> exists w, holds w = Some fd;
  owned_once w1 w2 fd : holds w1 = Some fd -> holds w2 = Some fd -> w1 = w2;
  owned_no_stray : stray_closes y = [] }.

Record Owned (p : Process) : Prop := {
  owned_by : OwnedBy (sys p) (holding p);
  owned_closed k c : conns p !! k = Some c -> (closed_ c = true <-> socket_ c = 0);
  owned_made k : is_Some (conns p !! k) -> (k < made p)%nat }.

(** What a step can do to the holdings: nothing, one more, one less. *)
Lemma owned_same y h h' : OwnedBy y h -> (forall w, h' w = h w) -> OwnedBy y h'.
Proof.
  intros [Ho H1 Hs] He. split; [|intros w1 w2 fd; rewrite !He; apply H1|done].
  intros fd. rewrite Ho. split; intros [w Hw]; exists w; by rewrite He in *.
Qed.

Lemma owned_gain y h h' w fd :
  OwnedBy y h -> fd ∉ open_fds y -> h w = None -> h' w = Some fd ->
  (forall w', w' <> w -> h' w' = h w') -> OwnedBy (open_sock fd y) h'.
Proof.
  intros [Ho H1 Hs] Hf Hn Hw He.
  assert (forall w' f, h' w' = Some f <-> h w' = Some f \/ (w' = w /\ f = fd)) as Hh.
  { intros w' f. destruct (decide (w' = w)) as [->|Hne]; [naive_solver|]. rewrite He by done.
    naive_solver. }
  split; [| |done].
  - intros f. cbn [open_sock open_fds]. rewrite elem_of_union, elem_of_singleton, Ho.
    setoid_rewrite Hh. naive_solver.
  - intros w1 w2 f. rewrite !Hh. rewrite Ho in Hf. naive_solver.
Qed.

Lemma owned_lose y h h' w fd :
  OwnedBy y h -> h w = Some fd -> h' w = None -> (forall w', w' <> w -> h' w' = h w') ->
  OwnedBy (close_sock fd y) h'.
Proof.
  intros [Ho H1 Hs] Hw Hn He.
  assert (forall w' f, h' w' = Some f <-> h w' = Some f /\ w' <> w) as Hh.
  { intros w' f. destruct (decide (w' = w)) as [->|Hne]; [naive_solver|]. rewrite He by done.
    naive_solver. }
  assert (fd ∈ open_fds y) as Hin by (apply Ho; eauto).
  unfold close_sock. rewrite bool_decide_eq_true_2 by done. split; [| |done].
  - intros f. cbn [open_fds]. rewrite elem_of_difference, elem_of_singleton, Ho.
    setoid_rewrite Hh. naive_solver.
  - intros w1 w2 f. rewrite !Hh. naive_solver.
Qed.

(** A descriptor opened and closed again. *)
Lemma open_close fd y : fd ∉ open_fds y -> close_sock fd (open_sock fd y) = y.
Proof.
  intros Hf. unfold close_sock, open_sock. destruct y as [fds strays]. cbn [open_fds stray_closes] in *.
  rewrite bool_decide_eq_true_2 by set_solver. f_equal. set_solver.
Qed.

Lemma held_pos fd : 0 < fd -> held fd = Some fd.
Proof. intros H. unfold held. by rewrite (proj2 (Z.eqb_neq fd 0)) by lia. Qed.

(** ** Preservation *)

(** Keeping a new connection of a fresh descriptor. *)
Lemma owned_new p s :
  Owned p -> 0 < s -> s ∉ open_fds (sys p) ->
  Owned (keep_connection (Some (new_connection s), open_sock s (sys p)) p).
Proof.
  intros [Hb Hc Hm] Hpos Hf.
  assert (conns p !! made p = None) as Hfree.
  { destruct (conns p !! made p) eqn:E; [|done]. assert (made p < made p)%nat by eauto. lia. }
  split; cbn [keep_connection sys conns made].
  - eapply (owned_gain _ _ _ (OwnerConnection (made p)) s); [exact Hb|done|..]; cbn [holding conns].
    + by rewrite Hfree.
    + rewrite lookup_insert_eq. cbn. by apply held_pos.
    + intros [|k] Hne; [done|]. cbn [holding conns listener]. by rewrite lookup_insert_ne by congruence.
  - intros k c. rewrite lookup_insert_Some. intros [[<- <-]|[_ Hk]]; [|by eapply Hc].
    cbn. split; [done|lia].
  - intros k. destruct (decide (k = made p)) as [->|Hne]; [lia|].
    rewrite lookup_insert_ne by done. intros Hk%Hm. lia.
Qed.

(** Closing a connection and what is then kept of it. *)
Lemma owned_close p k c (m : gmap nat SocketConnection) :
  Owned p -> conns p !! k = Some c ->
  let '(c', y) := conn_close c (sys p) in
  m = <[k := c']> (conns p) \/ m = delete k (conns p) ->
  Owned (MkProcess y (listener p) m (made p)).
Proof.
  intros [Hb Hc Hm] Hk. unfold conn_close. pose proof (Hc k c Hk) as Hcl.
  destruct (closed_ c) eqn:Ecl; cbn [negb andb].
  - intros Hmk. assert (socket_ c = 0) as E0 by (by apply Hcl).
    split; cbn [sys conns made].
    + eapply owned_same; [exact Hb|]. intros [|k']; [done|]. cbn [holding conns].
      destruct (decide (k' = k)) as [->|Hne].
      * rewrite Hk. cbn. unfold held at 2. rewrite E0, Z.eqb_refl.
        destruct Hmk as [->| ->]; [by rewrite lookup_insert_eq; cbn; rewrite E0|by rewrite lookup_delete_eq].
      * destruct Hmk as [->| ->]; [by rewrite lookup_insert_ne|by rewrite lookup_delete_ne].
    + intros k' c'. destruct Hmk as [->| ->]; [|intros [_ H]%lookup_delete_Some; by eapply Hc].
      rewrite lookup_insert_Some. intros [[<- <-]|[_ H]]; [by rewrite Ecl|by eapply Hc].
    + intros k'. destruct Hmk as [->| ->]; [rewrite lookup_insert_is_Some|rewrite lookup_delete_is_Some];
        naive_solver.
  - assert (socket_ c <> 0) as E0 by (intros E; apply Hcl in E; congruence).
    rewrite (proj2 (Z.eqb_neq _ _) E0). cbn [negb]. intros Hmk.
    split; cbn [sys conns made].
    + eapply (owned_lose _ _ _ (OwnerConnection k)); [exact Hb|..]; cbn [holding conns].
      * rewrite Hk. cbn. unfold held. by rewrite (proj2 (Z.eqb_neq _ _) E0).
      * destruct Hmk as [->| ->]; [by rewrite lookup_insert_eq|by rewrite lookup_delete_eq].
      * intros [|k'] Hne; [done|]. cbn [holding conns].
        destruct Hmk as [->| ->]; [rewrite lookup_insert_ne by congruence|rewrite lookup_delete_ne by congruence];
          done.
    + intros k' c'. destruct Hmk as [->| ->]; [|intros [_ H]%lookup_delete_Some; by eapply Hc].
      rewrite lookup_insert_Some. intros [[<- <-]|[_ H]]; [done|by eapply Hc].
    + intros k'. destruct Hmk as [->| ->]; [rewrite lookup_insert_is_Some|rewrite lookup_delete_is_Some];
        naive_solver.
Qed.

Lemma owned_bind p calls port :
  Owned p -> op_ok (Bind calls port) p -> Owned (run_op (Bind calls port) p).
Proof.
  intros Hp [Hf Hl]. cbn [run_op]. unfold listener_bind. destruct p as [y l m n].
  cbn [sys listener conns made] in *.
  destruct (bc_socket calls) as [s|] eqn:Es; [|exact Hp].
  destruct (Hf s eq_refl) as [Hpos Hfresh]. cbn [sys] in Hfresh.
  destruct (bc_bind calls port), (bc_listen calls); cbn [negb];
    rewrite ?open_close by exact Hfresh; try exact Hp.
  destruct Hp as [Hb Hc Hm]. split; [|exact Hc|exact Hm]. cbn [sys].
  eapply (owned_gain _ _ _ OwnerListener s); [exact Hb|exact Hfresh|..]; cbn [holding listener handle_].
  - by rewrite Hl.
  - by apply held_pos.
  - by intros [|k].
Qed.

Lemma owned_drop_listener p : Owned p -> Owned (run_op DropListener p).
Proof.
  intros Hp. cbn [run_op]. unfold listener_destroy. destruct p as [y l m n].
  cbn [sys listener conns made]. destruct (Z.eqb_spec (handle_ l) 0) as [E|E]; cbn [negb]; [exact Hp|].
  destruct Hp as [Hb Hc Hm]. split; [|exact Hc|exact Hm]. cbn [sys].
  eapply (owned_lose _ _ _ OwnerListener); [exact Hb|..]; cbn [holding listener handle_].
  - unfold held. by rewrite (proj2 (Z.eqb_neq _ _) E).
  - done.
  - by intros [|k].
Qed.

Lemma run_op_owned o p : Owned p -> op_ok o p -> Owned (run_op o p).
Proof.
  intros Hp Ho. destruct o as [calls port|r|calls port|k|k|]; [by apply owned_bind|..].
  - cbn [run_op]. unfold listener_accept. destruct r as [s|]; [|by destruct p].
    destruct (Ho s eq_refl). by apply owned_new.
  - cbn [run_op]. unfold connect_to. destruct (cc_socket calls) as [s|] eqn:Es; [|by destruct p].
    destruct (Ho s Es) as [Hpos Hf].
    destruct (cc_connect calls port); cbn [negb]; [by apply owned_new|].
    rewrite open_close by done. by destruct p.
  - cbn [run_op]. destruct (conns p !! k) as [c|] eqn:Hk; [|done].
    pose proof (fun m => owned_close p k c m Hp Hk) as H.
    destruct (conn_close c (sys p)) as [c' y]. apply H. by left.
  - cbn [run_op]. destruct (conns p !! k) as [c|] eqn:Hk; [|done].
    pose proof (fun m => owned_close p k c m Hp Hk) as H.
    destruct (conn_close c (sys p)) as [c' y]. apply H. by right.
  - by apply owned_drop_listener.
Qed.

Lemma started_owned : Owned started.
Proof.
  split; cbn; [|by intros|by intros k []].
  split; [|by intros [] ?|done]. intros fd. split; [set_solver|].
  by intros [[|k] H].
Qed.

Lemma runs_owned os p p' : Runs os p p' -> Owned p -> Owned p'.
Proof. induction 1; auto using run_op_owned. Qed.

(** ** The end of a program *)

(** The destructors of everything it made. *)
Definition teardown (p : Process) : list Op := DropListener :: (Drop <$> seq 0 (made p)).

Lemma runs_free os p :
  Forall (fun o => forall p, op_ok o p) os -> Runs os p (foldl (fun p o => run_op o p) p os).
Proof. intros H. revert p. induction H as [|o os Ho _ IH]; intros p; constructor; auto. Qed.

Lemma drops_made ks p : made (foldl (fun p o => run_op o p) p (Drop <$> ks)) = made p.
Proof.
  revert p. induction ks as [|k ks IH]; intros p; [done|]. cbn [fmap list_fmap foldl].
  rewrite IH. cbn [run_op]. by destruct (conns p !! k).
Qed.

Lemma drops_listener ks p : listener (foldl (fun p o => run_op o p) p (Drop <$> ks)) = listener p.
Proof.
  revert p. induction ks as [|k ks IH]; intros p; [done|]. cbn [fmap list_fmap foldl].
  rewrite IH. cbn [run_op]. by destruct (conns p !! k).
Qed.

Lemma drops_conns ks p k :
  conns (foldl (fun p o => run_op o p) p (Drop <$> ks)) !! k =
  if bool_decide (k ∈ ks) then None else conns p !! k.
Proof.
  revert p. induction ks as [|j ks IH]; intros p; [done|]. cbn [fmap list_fmap foldl].
  rewrite IH. cbn [run_op].
  destruct (decide (k = j)) as [->|Hne].
  - rewrite (bool_decide_eq_true_2 (j ∈ j :: ks)) by by left.
    destruct (bool_decide (j ∈ ks)); [done|].
    destruct (conns p !! j) eqn:E; [by apply lookup_delete_eq|done].
  - rewrite (bool_decide_ext (k ∈ j :: ks) (k ∈ ks)) by (rewrite elem_of_cons; naive_solver).
    destruct (bool_decide (k ∈ ks)); [done|].
    destruct (conns p !! j) eqn:E; [by apply lookup_delete_ne|done].
Qed.

(** C23: Over any sequence of binds, accepts, connects, closes and destructors with
    any results of the system's calls, the open descriptors are exactly those that
    the listener and the connections hold, each held once, and no descriptor is
    closed that was not open (twice, for one); once the destructors have run, none
    is left open. *)
Theorem sockets_owned ops p :
  Runs ops started p ->
  stray_closes (sys p) = [] /\
  (forall fd, fd ∈ open_fds (sys p) <-> exists w, holding p w = Some fd) /\
  (forall w1 w2 fd, holding p w1 = Some fd -> holding p w2 = Some fd -> w1 = w2) /\
  sys (foldl (fun p o => run_op o p) p (teardown p)) = MkSys ∅ [].
Proof.
  intros H. pose proof (runs_owned _ _ _ H started_owned) as Hp.
  destruct (owned_by _ Hp) as [Ho H1 Hs]. split; [done|]. split; [done|]. split; [done|].
  assert (Owned (foldl (fun p o => run_op o p) p (teardown p))) as Ht.
  { eapply runs_owned; [apply runs_free|exact Hp]. constructor; [done|]. by apply Forall_fmap, Forall_true. }
  unfold teardown in *. cbn [foldl] in *.
  assert (made (run_op DropListener p) = made p) as Hmade.
  { cbn [run_op]. by destruct (listener_destroy _ _). }
  assert (handle_ (listener (run_op DropListener p)) = 0) as Hl.
  { cbn [run_op]. unfold listener_destroy.
    destruct (Z.eqb_spec (handle_ (listener p)) 0) as [E|E]; [exact E|done]. }
  destruct Ht as [[Ho' _ Hs'] _ Hm'].
  destruct (sys (foldl _ _ _)) as [fds strays] eqn:E. cbn [open_fds stray_closes] in Ho', Hs'. subst strays. f_equal.
  apply set_eq. intros fd. rewrite Ho'. split; [|set_solver]. intros [w Hw]. exfalso. revert Hw.
  destruct w as [|k]; cbn [holding].
  - rewrite drops_listener, Hl. done.
  - destruct (conns (foldl _ _ _) !! k) as [c|] eqn:Ek; [|done].
    assert (k < made p)%nat as Hk.
    { rewrite <- Hmade, <- (drops_made (seq 0 (made p))). by apply Hm'. }
    rewrite drops_conns, bool_decide_eq_true_2 in Ek; [done|]. apply elem_of_seq. lia.
Qed.

(** A run with a bind that fails and one that succeeds, two connections, one
    closed and dropped. *)
Definition socket_ops : list Op :=
  [Bind (MkBindCalls (Some 3) (fun _ => false) true None) 80;
   Bind (MkBindCalls (Some 3) (fun _ => true) true (Some 4000)) 0;
   Accept (Some 4); Accept None; Connect (MkConnectCalls (Some 5) (fun _ => true)) 80; Close 0; Drop 0].

Lemma sockets_owned_witness :
  let p := foldl (fun p o => run_op o p) started socket_ops in
  open_fds (sys p) = {[3; 5]} /\ stray_closes (sys p) = [].
Proof.
  cbn zeta. split; [apply (bool_decide_unpack _); vm_compute; exact I|].
  refine (proj1 (sockets_owned socket_ops _ _)).
  repeat first [apply runs_nil | apply runs_cons]; cbn [op_ok socket_ops]; unfold fresh_fd.
  all: try (split; [|reflexivity]). all: try exact I. all: intros fd E; inversion E; subst fd.
  all: split; [reflexivity|]; apply (bool_decide_unpack _); vm_compute; exact I.
Defined.

(** ** Descriptor 0, and binding twice *)

(** A connection on descriptor 0 is never closed, nor is a listener's. *)
Lemma descriptor_zero_kept y :
  conn_close (new_connection 0) y = (new_connection 0, y) /\
  forall port, listener_destroy (MkListener 0 port) y = (MkListener 0 port, y).
Proof. done. Qed.

(** Binding a bound listener forgets its descriptor, which stays open. *)
Lemma rebinding_leaks calls port p s1 s2 :
  Owned p -> handle_ (listener p) = s1 -> s1 <> 0 -> bc_socket calls = Some s2 ->
  fresh_fd (Some s2) p -> bc_bind calls port = true -> bc_listen calls = true ->
  let p' := run_op (Bind calls port) p in
  s1 ∈ open_fds (sys p') /\ forall w, holding p' w <> Some s1.
Proof.
  intros Hp E1 Hne E2 Hf Eb El. cbn zeta. destruct (Hf s2 eq_refl) as [Hpos Hfresh].
  destruct (owned_by _ Hp) as [Ho H1 _].
  assert (holding p OwnerListener = Some s1) as Hw.
  { cbn [holding]. rewrite E1. unfold held. by rewrite (proj2 (Z.eqb_neq _ _) Hne). }
  assert (s1 ∈ open_fds (sys p)) as Hin by (apply Ho; eauto).
  cbn [run_op]. unfold listener_bind. rewrite E2, Eb, El. cbn [negb sys open_sock open_fds]. split.
  - set_solver.
  - intros [|k]; cbn [holding listener handle_].
    + rewrite held_pos by done. intros [= ->]. done.
    + intros Hk. by specialize (H1 OwnerListener (OwnerConnection k) s1 Hw Hk).
Qed.
