(* ===== verification/Network.v ===== *)
(** * Workers, and the executor that reaches them over the transport

    Models the worker process of [distributed/worker_main.cpp], its command line,
    and [NetworkExecutor] of [distributed/coordinator_main.cpp]: the second instance
    of the interface [dispatch_plan] is written against.  A connection is the two
    streams of one socket. *)

From Stdlib Require Import Ascii String.
From stdpp Require Import base gmap strings list.
From S2P Require Import Prelude Types Evidence Economics StdSort Digest Plan Planner Lifecycle.
From S2P Require Import LifecycleSpec Executor Protocol Transport.
#[local] Open Scope Z_scope.

Record Connection := MkConnection {
  inbound : list Segment;
  outbound : Outbound }.

Definition conn_send (payload : list Z) (c : Connection) : bool * Connection :=
  let '(ok, o) := send_frame payload (outbound c) in (ok, MkConnection (inbound c) o).
Definition conn_recv (c : Connection) : Result string (option (list Z)) * Connection :=
  let '(r, i) := recv_frame (inbound c) in (r, MkConnection i (outbound c)).

(** The helpers [send] and [recv] both processes define. *)
Definition send_msg (m : Msg) (c : Connection) : bool * Connection := conn_send (encode m) c.
Definition recv_msg (c : Connection) : Result string (option Msg) * Connection :=
  match conn_recv c with
  | (Throw e, c) => (Throw e, c)
  | (Ok None, c) => (Ok None, c)
  | (Ok (Some p), c) => (Ok (decode p), c)
  end.

(** ** The worker *)

Definition checkpoint_for (worker_id progress : Z) (role : string) : list Z :=
  sha256 (string_bytes (role +:+ ":" +:+ to_dec worker_id +:+ ":" +:+ to_dec progress)).

Record Worker := MkWorker { wk_id : Z; wk_boot : Z; wk_engine : Z; wk_role : string }.

Definition registration (w : Worker) : Msg :=
  MkMsg MsgType.REGISTER (wk_id w) (wk_boot w) (wk_engine w) 0 (wk_role w) "" [].

(** What the loop does with one message: end, answer, or nothing.  The synthetic
    work of RUN has no effect but the answer. *)
Inductive WorkerAction :=
| Stop
| Answer (m : Msg)
| Ignore.

Definition complete_message (w : Worker) (m : Msg) : Msg :=
  MkMsg MsgType.COMPLETE (m_a m) (m_b m) (wk_boot w) 0
    (RecoveryStrategy.to_string (RecoveryStrategy.of_code (u8 (m_c m))) +:+
     " performed by worker " +:+ to_dec (wk_id w))
    (to_dec (m_d m)) [].

Definition worker_on_message (w : Worker) (m : Msg) : WorkerAction :=
  match m_type m with
  | MsgType.STOP => Stop
  | MsgType.RUN =>
      Answer (MkMsg MsgType.WORK_DONE (wk_id w) (m_b m) (m_a m) 0 (wk_role w) ""
                (checkpoint_for (wk_id w) (m_b m) (wk_role w)))
  | MsgType.DISPATCH => Answer (complete_message w m)
  | _ => Ignore
  end.

(** How a worker process ends. *)
Inductive WorkerExit :=
| Stopped
| Disconnected
| Crashed (what : string).

(** The loop [while (true)]; the results of its sends are not looked at. *)
Fixpoint worker_loop (fuel : nat) (w : Worker) (c : Connection) : option (WorkerExit * Connection) :=
  match fuel with
  | O => None
  | S fuel' =>
      match conn_recv c with
      | (Throw e, c) => Some (Crashed e, c)
      | (Ok None, c) => Some (Disconnected, c)
      | (Ok (Some payload), c) =>
          match decode payload with
          | None => worker_loop fuel' w c
          | Some m =>
              match worker_on_message w m with
              | Stop => Some (Stopped, c)
              | Answer r => worker_loop fuel' w (send_msg r c).2
              | Ignore => worker_loop fuel' w c
              end
          end
      end
  end.

(** Every frame takes at least thirteen bytes of the stream. *)
Definition worker_fuel (c : Connection) : nat := S (length (stream (inbound c))).

Definition worker_main (w : Worker) (c : Connection) : option (WorkerExit * Connection) :=
  let c := (send_msg (registration w) c).2 in worker_loop (worker_fuel c) w c.

(** ** [strtoull(s, nullptr, 10)] *)

Definition is_space (b : Z) : bool := (b =? 32) || ((9 <=? b) && (b <=? 13)).

Fixpoint skip_space (l : list Z) : list Z :=
  match l with
  | b :: l' => if is_space b then skip_space l' else l
  | [] => []
  end.

(** The value of the longest run of digits, of any size. *)
Fixpoint digits_value (l : list Z) (acc : Z) : Z :=
  match l with
  | b :: l' => if (48 <=? b) && (b <=? 57) then digits_value l' (10 * acc + (b - 48)) else acc
  | [] => acc
  end.

Definition saturate_u64 (v : Z) : Z := if 2 ^ 64 <=? v then 2 ^ 64 - 1 else v.

Definition strtoull (s : string) : Z :=
  match skip_space (until_nul (string_bytes s)) with
  | b :: l' =>
      if b =? 45 then
        let v := digits_value l' 0 in if 2 ^ 64 <=? v then 2 ^ 64 - 1 else u64 (- v)
      else if b =? 43 then saturate_u64 (digits_value l' 0)
      else saturate_u64 (digits_value (b :: l') 0)
  | [] => 0
  end.

(** ** The worker's command line *)

(** The arguments [spawn_worker] puts on the command line, after the program's
    own name. *)
Definition worker_argv (port : Z) (w : Worker) : list string :=
  ["rp_distributed_worker.exe"; to_dec port; to_dec (wk_id w); to_dec (wk_boot w);
   to_dec (wk_engine w); wk_role w].

(** [main] up to the connection: too few arguments are exit code 2. *)
Definition worker_of_args (argv : list string) : option Worker :=
  match argv with
  | _ :: _ :: id :: boot :: engine :: role :: _ =>
      Some (MkWorker (strtoull id) (strtoull boot) (strtoull engine) role)
  | _ => None
  end.

(** The process: [conn] is what [connect_to] gave. *)
Definition worker_process (argv : list string) (conn : option Connection)
    : option (Z + WorkerExit * Connection) :=
  match worker_of_args argv with
  | None => Some (inl 2)
  | Some w =>
      match conn with
      | None => Some (inl 3)
      | Some c => inr <$> worker_main w c
      end
  end.

(** ** The executor *)

Definition kProgress : Z := 100.

(** The message a dispatch is sent as. *)
Definition dispatch_message (d : RecoveryDispatch) : Msg :=
  MkMsg MsgType.DISPATCH (value (rd_plan_id d)) (value (rd_plan_generation d))
    (RecoveryStrategy.code (rd_strategy d)) kProgress (rd_payload d) "" [].

Definition receipt (d : RecoveryDispatch) (status : DispatchStatus.t) (now : Timestamp)
    (detail : string) : RecoveryReceipt := MkReceipt (rd_dispatch_id d) status now detail.

(** [dispatch]: [now] is the clock of the receipt, [now'] the one the planner
    reads for the report. *)
Definition network_dispatch (now now' : Timestamp) (d : RecoveryDispatch)
    (st : Connection * Planner) : Result string RecoveryReceipt * (Connection * Planner) :=
  let '(c, s) := st in
  match conn_send (encode (dispatch_message d)) c with
  | (false, c) => (Ok (receipt d DispatchStatus.REJECTED now "send failed"), (c, s))
  | (true, c) =>
      match conn_recv c with
      | (Throw e, c) => (Throw e, (c, s))
      | (Ok None, c) => (Ok (receipt d DispatchStatus.REJECTED now "no response"), (c, s))
      | (Ok (Some resp), c) =>
          match decode resp with
          | None => (Ok (receipt d DispatchStatus.UNKNOWN now "malformed complete"), (c, s))
          | Some r =>
              if negb (bool_decide (m_type r = MsgType.COMPLETE))
              then (Ok (receipt d DispatchStatus.UNKNOWN now "malformed complete"), (c, s))
              else
                let outcome := if m_d r =? 0 then ExecutionOutcome.SUCCEEDED
                               else ExecutionOutcome.FAILED in
                let recovered := MkUnit (strtoull (m_s2 r)) in
                let s := on_adapter_completion (rd_dispatch_id d) outcome recovered (MkUnit 0)
                           (m_s1 r) now' s in
                (Ok (receipt d DispatchStatus.DISPATCHED now "complete"), (c, s))
          end
      end
  end.

Definition make_network_executor (now now' : Timestamp) : RecoveryExecutor Connection :=
  {| dispatch := network_dispatch now now' |}.

(** Whatever the network does, the executor acts on the planner only through
    completions. *)
#[export] Instance network_executor_lawful `{sorter : StdSort} now now' :
  LawfulExecutor Connection (make_network_executor now now').
Proof.
  split. intros d c s. cbn. unfold network_dispatch.
  destruct (conn_send _ c) as [[|] c1]; [|by exists []].
  destruct (conn_recv c1) as [[[resp|]|e] c2]; [|by exists []..].
  destruct (decode resp) as [r|]; [|by exists []].
  destruct (bool_decide (m_type r = MsgType.COMPLETE)); [|by exists []].
  apply completion_events.
Qed.
