(* ===== verification/NetworkSpec.v ===== *)
(** * The worker protocol

    Numbers survive the text field they travel in; the worker's answers fit the
    message format; its loop ends within its fuel; and a dispatch over the network
    to a worker that answers completes the plan. *)

From Stdlib Require Import Ascii String Decimal DecimalFacts DecimalPos DecimalString DecimalZ.
From stdpp Require Import base gmap strings list.
From S2P Require Import Prelude Types Evidence Economics StdSort Digest DigestSpec Codec Plan.
From S2P Require Import Planner Lifecycle LifecycleSpec Executor Text Protocol Transport Network.
#[local] Open Scope Z_scope.

(** ** Decimal text *)

(** The value of one digit in front of a run. *)
Ltac digit_step :=
  cbn [NilEmpty.string_of_uint]; unfold string_bytes; cbn [list_ascii_of_string fmap list_fmap];
  cbn [digits_value]; match goal with |- context [N_of_ascii ?c] =>
    let v := eval vm_compute in (N_of_ascii c) in change (N_of_ascii c) with v end;
  cbn [Z.of_N Z.leb Z.compare Pos.compare Pos.compare_cont andb].

(** A run of digits, after a nonzero accumulator and from the beginning. *)
Lemma digits_value_acc d a :
  digits_value (string_bytes (NilEmpty.string_of_uint d)) (Z.pos a) = Z.pos (Pos.of_uint_acc d a).
Proof.
  revert a. induction d as [|d IH|d IH|d IH|d IH|d IH|d IH|d IH|d IH|d IH|d IH]; intros a; [done|..];
    (etransitivity; [|exact (IH _)]); digit_step; f_equal; lia.
Qed.

Lemma digits_value_uint d :
  digits_value (string_bytes (NilEmpty.string_of_uint d)) 0 = Z.of_N (Pos.of_uint d).
Proof.
  induction d as [|d IH|d _|d _|d _|d _|d _|d _|d _|d _|d _]; [done|..].
  - etransitivity; [|exact IH]. by digit_step.
  - etransitivity; [|exact (digits_value_acc d 1)]. by digit_step.
  - etransitivity; [|exact (digits_value_acc d 2)]. by digit_step.
  - etransitivity; [|exact (digits_value_acc d 3)]. by digit_step.
  - etransitivity; [|exact (digits_value_acc d 4)]. by digit_step.
  - etransitivity; [|exact (digits_value_acc d 5)]. by digit_step.
  - etransitivity; [|exact (digits_value_acc d 6)]. by digit_step.
  - etransitivity; [|exact (digits_value_acc d 7)]. by digit_step.
  - etransitivity; [|exact (digits_value_acc d 8)]. by digit_step.
  - etransitivity; [|exact (digits_value_acc d 9)]. by digit_step.
Qed.

(** The text of a number starts with a digit, which is neither a space nor a sign
    nor a NUL, and holds no NUL. *)
Definition is_digit (b : Z) : Prop := 48 <= b <= 57.

Lemma uint_text_digits d : Forall is_digit (string_bytes (NilEmpty.string_of_uint d)).
Proof.
  induction d as [|d IH|d IH|d IH|d IH|d IH|d IH|d IH|d IH|d IH|d IH]; [constructor|..];
    (constructor; [split; vm_compute; discriminate|exact IH]).
Qed.

(** Leading character of a decimal text, by cases on the number. *)
Lemma to_dec_pos p : to_dec (Z.pos p) = NilEmpty.string_of_uint (Pos.to_uint p).
Proof.
  unfold to_dec. cbn [Z.to_int NilZero.string_of_int].
  destruct (Pos.to_uint p) eqn:E; [|done..].
  exfalso. pose proof (DecimalPos.Unsigned.of_to p) as H. by rewrite E in H.
Qed.

Lemma to_dec_digits z : 0 <= z -> Forall is_digit (string_bytes (to_dec z)).
Proof.
  intros Hz. destruct z as [|p|p]; [repeat constructor; vm_compute; discriminate| |lia].
  rewrite to_dec_pos. apply uint_text_digits.
Qed.

Lemma to_dec_value z : 0 <= z -> digits_value (string_bytes (to_dec z)) 0 = z.
Proof.
  intros Hz. destruct z as [|p|p]; [done| |lia].
  by rewrite to_dec_pos, digits_value_uint, DecimalPos.Unsigned.of_to.
Qed.

Lemma to_dec_nonempty z : 0 <= z -> string_bytes (to_dec z) <> [].
Proof.
  intros Hz. destruct z as [|p|p]; [done| |lia].
  intros E. pose proof (to_dec_value (Z.pos p) Hz) as H. by rewrite E in H.
Qed.

(** Parsing undoes printing. *)
Lemma strtoull_to_dec z : is_u 64 z -> strtoull (to_dec z) = z.
Proof.
  intros [Hz0 Hz]. unfold strtoull.
  pose proof (to_dec_digits z Hz0) as Hd. pose proof (to_dec_value z Hz0) as Hv.
  pose proof (to_dec_nonempty z Hz0) as Hne.
  rewrite until_nul_id.
  2:{ eapply Forall_impl; [exact Hd|]. unfold is_digit. cbn. lia. }
  destruct (string_bytes (to_dec z)) as [|b l]; [done|].
  apply Forall_cons in Hd as [Hb _]. unfold is_digit in Hb.
  assert (is_space b = false) as Hs.
  { unfold is_space. apply orb_false_intro; [apply Z.eqb_neq; lia|].
    apply andb_false_intro2, Z.leb_gt. lia. }
  cbn [skip_space]. rewrite Hs.
  destruct (Z.eqb_spec b 45); [lia|]. destruct (Z.eqb_spec b 43); [lia|].
  rewrite Hv. unfold saturate_u64. by destruct (Z.leb_spec (2 ^ 64) z); [lia|].
Qed.

Lemma to_dec_length z : is_u 64 z -> (String.length (to_dec z) <= 64)%nat.
Proof. intros Hz. destruct (fits_dec z Hz) as [_ Hl]. lia. Qed.

(** ** Messages in frames *)

Lemma encode_bytes m : MsgWf m -> Forall is_byte (encode m).
Proof.
  intros Hm. rewrite encode_fields by done. destruct Hm. unfold head_field, str_field.
  pose proof (MsgType.type_code_nonneg (m_type m)).
  constructor; [unfold is_byte, is_u; lia|].
  repeat apply Forall_app_2; (apply be_bytes_byte || apply string_bytes_is_byte || done).
Qed.

#[export] Instance message_format : Codec MsgWf encode decode :=
  {| codec_bytes := encode_bytes;
     codec_complete := decode_encode;
     codec_sound := decode_canonical |}.

(** A message that one frame carries. *)
Definition msg_fits (m : Msg) : Prop :=
  MsgWf m /\ Z.of_nat (length (encode m)) <= kMaxFramePayload.

Lemma length_encode m :
  MsgWf m ->
  length (encode m) =
    (45 + String.length (m_s1 m) + String.length (m_s2 m) + length (m_blob m))%nat.
Proof.
  intros Hm. rewrite encode_fields by done. rewrite !length_app, length_head_field.
  rewrite !length_str_field, !length_string_bytes. lia.
Qed.

Lemma msg_frame_wf m : msg_fits m -> frame_wf (encode m).
Proof. intros [Hm Hn]. split; [by apply encode_bytes|done]. Qed.

(** Receiving a message that was sent whole. *)
Lemma recv_msg_sent m c rest :
  msg_fits m -> stream (inbound c) = frame_bytes (encode m) ++ rest ->
  exists c', recv_msg c = (Ok (Some m), c') /\ stream (inbound c') = rest /\
             outbound c' = outbound c.
Proof.
  intros Hm Hs. destruct (recv_frame_complete _ _ _ (msg_frame_wf m Hm) Hs) as (i & E & Hi).
  unfold recv_msg, conn_recv. rewrite E. exists (MkConnection i (outbound c)). split; [|by split].
  by rewrite decode_encode by apply Hm.
Qed.

(** Messages sent one after the other, and messages received. *)
Fixpoint send_msgs (ms : list Msg) (c : Connection) : bool * Connection :=
  match ms with
  | [] => (true, c)
  | m :: ms' => let '(ok, c) := send_msg m c in if ok then send_msgs ms' c else (false, c)
  end.

Fixpoint recv_msgs (n : nat) (c : Connection) : option (list Msg) * Connection :=
  match n with
  | O => (Some [], c)
  | S n' =>
      match recv_msg c with
      | (Ok (Some m), c) => let '(r, c) := recv_msgs n' c in (cons m <$> r, c)
      | (_, c) => (None, c)
      end
  end.

Definition frames (ms : list Msg) : list Z := ms ≫= fun m => frame_bytes (encode m).

Lemma frames_cons m ms : frames (m :: ms) = frame_bytes (encode m) ++ frames ms.
Proof. reflexivity. Qed.

Lemma send_msg_wire m c c' :
  send_msg m c = (true, c') ->
  wire (outbound c') = wire (outbound c) ++ frame_bytes (encode m) /\ inbound c' = inbound c /\
  Z.of_nat (length (encode m)) <= kMaxFramePayload.
Proof.
  unfold send_msg, conn_send. destruct (send_frame _ _) as [ok o] eqn:E. intros [= -> <-].
  apply send_frame_wire in E as (sent & rest & Hw & -> & Hn). done.
Qed.

Lemma send_msgs_wire ms c c' :
  send_msgs ms c = (true, c') ->
  wire (outbound c') = wire (outbound c) ++ frames ms /\
  Forall (fun m => Z.of_nat (length (encode m)) <= kMaxFramePayload) ms.
Proof.
  revert c. induction ms as [|m ms IH]; intros c H; cbn in H.
  - injection H as <-. unfold frames. cbn. by rewrite app_nil_r.
  - destruct (send_msg m c) as [[|] c1] eqn:E; [|done].
    apply send_msg_wire in E as (W & _ & Hn). apply IH in H as [-> Hms].
    rewrite W, frames_cons, app_assoc. split; [done|by constructor].
Qed.

Lemma recv_msgs_sent ms c rest :
  Forall msg_fits ms -> stream (inbound c) = frames ms ++ rest ->
  exists c', recv_msgs (length ms) c = (Some ms, c') /\ stream (inbound c') = rest.
Proof.
  intros Hms. revert c. induction Hms as [|m ms Hm Hms IH]; intros c Hs.
  - exists c. by split.
  - rewrite frames_cons, <- app_assoc in Hs.
    destruct (recv_msg_sent m c _ Hm Hs) as (c1 & E1 & S1 & _).
    destruct (IH c1 S1) as (c2 & E2 & S2). exists c2. cbn. rewrite E1, E2. by split.
Qed.

(** ** The worker *)

Definition worker_wf (w : Worker) : Prop := is_u 64 (wk_id w) /\ is_u 64 (wk_boot w).

Lemma strategy_name_length s : (String.length (RecoveryStrategy.to_string s) <= 14)%nat.
Proof. destruct s; cbn; lia. Qed.

Lemma complete_message_fits w m :
  worker_wf w -> is_u 64 (m_a m) -> is_u 64 (m_b m) -> is_u 64 (m_d m) ->
  msg_fits (complete_message w m).
Proof.
  intros [Hw Hb] Ha Hmb Hd. unfold msg_fits, complete_message.
  set (st := RecoveryStrategy.of_code _).
  pose proof (strategy_name_length st). pose proof (to_dec_length _ Hw).
  pose proof (to_dec_length _ Hd).
  assert (forall s, String.length (RecoveryStrategy.to_string st +:+
    " performed by worker " +:+ s) =
    (String.length (RecoveryStrategy.to_string st) + (21 + String.length s))%nat) as Hl.
  { intros s. by rewrite !length_string_app. }
  match goal with |- MsgWf ?m' /\ _ => assert (MsgWf m') as Hwf end.
  { split; cbn [m_type m_a m_b m_c m_d m_s1 m_s2 m_blob MsgType.code length]; try done;
      rewrite ?Hl; unfold kStrMax, kBlobMax; lia. }
  split; [exact Hwf|]. rewrite length_encode by exact Hwf.
  cbn [m_s1 m_s2 m_blob length]. rewrite Hl. unfold kMaxFramePayload. lia.
Qed.

Lemma length_frame_bytes p : length (frame_bytes p) = (13 + length p)%nat.
Proof. unfold frame_bytes. rewrite !length_app, length_frame_head. cbn. lia. Qed.

(** A received frame shortens the stream, so the loop ends within its fuel. *)
Lemma recv_frame_shorter p c c' :
  Forall is_byte (stream (inbound c)) -> conn_recv c = (Ok (Some p), c') ->
  (length (stream (inbound c')) < length (stream (inbound c)))%nat /\
  Forall is_byte (stream (inbound c')).
Proof.
  intros Hb. unfold conn_recv. destruct (recv_frame (inbound c)) as [r i] eqn:E.
  intros [= -> <-]. apply recv_frame_sound in E as [_ E]; [|done]. cbn [inbound]. rewrite E in Hb.
  apply Forall_app in Hb as [_ Hb]. split; [|done].
  rewrite E, length_app, length_frame_bytes. lia.
Qed.

Lemma send_msg_inbound m c : inbound (send_msg m c).2 = inbound c.
Proof. unfold send_msg, conn_send. by destruct (send_frame _ _). Qed.

Lemma worker_loop_ends fuel w c :
  Forall is_byte (stream (inbound c)) -> (length (stream (inbound c)) < fuel)%nat ->
  exists r, worker_loop fuel w c = Some r.
Proof.
  revert c. induction fuel as [|fuel IH]; intros c Hb Hf; [lia|]. cbn [worker_loop].
  destruct (conn_recv c) as [[[p|]|e] c1] eqn:E; [|by eexists..].
  destruct (recv_frame_shorter _ _ _ Hb E) as [Hs Hb1].
  destruct (decode p) as [m|]; [|apply IH; [done|lia]].
  destruct (worker_on_message w m) as [|r|]; [by eexists| |apply IH; [done|lia]].
  apply IH; rewrite send_msg_inbound; [done|lia].
Qed.

(** ** Dispatch over the network *)

Lemma network_dispatch_answer w now now' d c s c1 rest :
  worker_wf w -> is_u 64 (value (rd_plan_id d)) -> is_u 64 (value (rd_plan_generation d)) ->
  conn_send (encode (dispatch_message d)) c = (true, c1) ->
  stream (inbound c) = frame_bytes (encode (complete_message w (dispatch_message d))) ++ rest ->
  exists c' recovered detail,
    network_dispatch now now' d (c, s) =
      (Ok (receipt d DispatchStatus.DISPATCHED now "complete"),
       (c', on_adapter_completion (rd_dispatch_id d) ExecutionOutcome.SUCCEEDED recovered
              (MkUnit 0) detail now' s)) /\
    recovered = MkUnit kProgress /\ stream (inbound c') = rest /\ outbound c' = outbound c1.
Proof.
  intros Hw Ha Hb Hsend Hs. unfold network_dispatch. rewrite Hsend.
  assert (inbound c1 = inbound c) as Hi.
  { unfold conn_send in Hsend. destruct (send_frame _ _). by injection Hsend as _ <-. }
  assert (msg_fits (complete_message w (dispatch_message d))) as Hfit.
  { apply complete_message_fits; [done..|].
    cbn [m_d dispatch_message]. unfold is_u, kProgress. lia. }
  rewrite <- Hi in Hs.
  destruct (recv_frame_complete _ _ _ (msg_frame_wf _ Hfit) Hs) as (i & E & Hrest).
  unfold conn_recv. rewrite E, decode_encode by apply Hfit.
  cbn [m_type complete_message negb bool_decide decide].
  exists (MkConnection i (outbound c1)), (MkUnit (strtoull (to_dec kProgress))), (m_s1 (complete_message w (dispatch_message d))).
  split; [reflexivity|]. split; [|by split].
  cbn [m_s2 m_d dispatch_message]. by rewrite strtoull_to_dec.
Qed.

Lemma network_dispatch_completes w pl now1 now2 now now' c s stored rest :
  plans s !! value (p_plan_id pl) = Some stored ->
  value (p_plan_id stored) = value (p_plan_id pl) ->
  plan_authority_current stored (ctx s) = true ->
  p_state stored = PlanLifecycleState.AUTHORIZED ->
  worker_wf w -> id_wf (p_plan_id stored) -> id_wf (p_generation stored) ->
  let msg := dispatch_message (dispatch_of (dispatched_plan now1 stored)) in
  (conn_send (encode msg) c).1 = true ->
  stream (inbound c) = frame_bytes (encode (complete_message w msg)) ++ rest ->
  let finished := p_set_updated now2 (apply_receipt DispatchStatus.DISPATCHED
                    (p_set_updated now' (apply_outcome ExecutionOutcome.SUCCEEDED
                       (dispatched_plan now1 stored)))) in
  let result := dispatch_plan (executor := make_network_executor now now') pl now1 now2 (c, s) in
  result.1 = Ok finished /\ stream (inbound result.2.1) = rest /\
  outbound result.2.1 = outbound (conn_send (encode msg) c).2 /\
  plans result.2.2 = <[value (p_plan_id pl) := finished]> (plans s) /\
  dispatch_meta result.2.2 =
    delete (u64 (value (p_last_attempt stored) + 1)) (dispatch_meta s) /\
  ctx result.2.2 = ctx s.
Proof.
  intros Hp Hid Ha Hs Hw Hi Hg. cbn zeta. set (d := dispatch_of (dispatched_plan now1 stored)).
  intros Hsend Hst. destruct (conn_send (encode (dispatch_message d)) c) as [ok c1] eqn:E.
  cbn in Hsend. subst ok.
  destruct (network_dispatch_answer w now now' d c (dispatch_begin pl now1 s).2 c1 rest Hw Hi Hg E
              Hst) as (c' & recovered & detail & Hd & _ & Hrest & Hout).
  pose proof (dispatch_completes (make_network_executor now now') pl now1 now2 now' c c' s stored
    ExecutionOutcome.SUCCEEDED recovered (MkUnit 0) detail
    (receipt d DispatchStatus.DISPATCHED now "complete") Hp Hid Ha Hs Hd eq_refl) as Hc.
  cbn zeta in Hc. destruct Hc as (H1 & H2 & H3). split; [exact H1|]. rewrite H2.
  split; [exact Hrest|]. split; [exact Hout|exact H3].
Qed.

(** ** Sends that do not fail *)

(** How many bytes a socket's next calls are sure to take. *)
Fixpoint capacity (ss : list SendResult) : nat :=
  match ss with
  | Sent _ :: rest => S (capacity rest)
  | SendInterrupted :: rest => capacity rest
  | _ => O
  end.

Lemma send_all_capacity buf w ss :
  (length buf <= capacity ss)%nat ->
  (send_all buf w ss).1 = true /\
  (capacity ss <= length buf + capacity (sends (send_all buf w ss).2))%nat.
Proof.
  revert buf w. induction ss as [|r ss IH]; intros [|b buf] w H; cbn [capacity length] in H;
    try lia; try (split; [done|cbn; lia]).
  destruct r as [n| |]; [|exact (IH (b :: buf) w H)|lia].
  cbn [send_all]. set (k := (Nat.max 1 n `min` length (b :: buf))%nat).
  assert (1 <= k <= length (b :: buf))%nat as Hk by (unfold k; cbn [length]; lia).
  clearbody k. cbn [length] in Hk.
  destruct (IH (drop k (b :: buf)) (w ++ take k (b :: buf))) as [H1 H2].
  { rewrite length_drop. cbn [length]. lia. }
  split; [exact H1|]. rewrite length_drop in H2. cbn [length] in H2. cbn [capacity length]. lia.
Qed.

Lemma send_frame_capacity p o :
  frame_wf p -> (13 + length p <= capacity (sends o))%nat ->
  (send_frame p o).1 = true /\
  (capacity (sends o) <= 13 + length p + capacity (sends (send_frame p o).2))%nat.
Proof.
  intros [_ Hn] Hc. unfold send_frame, send_bytes.
  destruct (Z.ltb_spec kMaxFramePayload (Z.of_nat (length p))) as [|_]; [lia|].
  pose proof (send_all_capacity (frame_head p) (wire o) (sends o)) as H1.
  rewrite length_frame_head in H1. specialize (H1 ltac:(lia)).
  destruct (send_all (frame_head p) _ _) as [ok1 o1]. cbn [fst snd] in H1. destruct H1 as [-> H1].
  cbn [negb].
  assert (match p with [] => (true, o1) | _ :: _ => send_all p (wire o1) (sends o1) end =
          send_all p (wire o1) (sends o1)) as ->.
  { destruct p; [|done]. destruct o1 as [w1 ss1]. cbn [wire sends]. by destruct ss1. }
  pose proof (send_all_capacity p (wire o1) (sends o1) ltac:(lia)) as H2.
  destruct (send_all p _ _) as [ok2 o2]. cbn [fst snd] in H2. destruct H2 as [-> H2]. cbn [negb].
  pose proof (send_all_capacity (write_u32 (crc32c_bytes p)) (wire o2) (sends o2)) as H3.
  cbn [length write_u32] in H3. specialize (H3 ltac:(lia)). destruct H3 as [H3 H4].
  split; [exact H3|]. lia.
Qed.

Lemma frames_one m : frames [m] = frame_bytes (encode m).
Proof. rewrite frames_cons. apply app_nil_r. Qed.

Lemma frames_app ms1 ms2 : frames (ms1 ++ ms2) = frames ms1 ++ frames ms2.
Proof. apply bind_app. Qed.

Lemma length_frames_cons m ms :
  length (frames (m :: ms)) = (13 + length (encode m) + length (frames ms))%nat.
Proof. by rewrite frames_cons, length_app, length_frame_bytes. Qed.

(** What the sending side is still sure to take. *)
Definition room (c : Connection) : nat := capacity (sends (outbound c)).

(** [sent ms c c']: the frames of [ms] have been put on the wire in between. *)
Definition sent (ms : list Msg) (c c' : Connection) : Prop :=
  wire (outbound c') = wire (outbound c) ++ frames ms.

Lemma sent_trans ms1 ms2 c1 c2 c3 : sent ms1 c1 c2 -> sent ms2 c2 c3 -> sent (ms1 ++ ms2) c1 c3.
Proof. unfold sent. intros H1 ->. by rewrite H1, frames_app, app_assoc. Qed.

Lemma sent_nothing c c' : outbound c' = outbound c -> sent [] c c'.
Proof. unfold sent, frames. cbn. intros ->. by rewrite app_nil_r. Qed.

Lemma send_room m c :
  msg_fits m -> (13 + length (encode m) <= room c)%nat ->
  exists c', send_msg m c = (true, c') /\ inbound c' = inbound c /\
    (room c <= 13 + length (encode m) + room c')%nat /\ sent [m] c c'.
Proof.
  intros Hm Hc. destruct (send_frame_capacity _ _ (msg_frame_wf m Hm) Hc) as [H1 H2].
  destruct (send_msg m c) as [ok c'] eqn:E. unfold send_msg, conn_send in E.
  destruct (send_frame _ _) as [ok' o] eqn:Es. cbn [fst snd] in *. subst ok'.
  injection E as <- <-. exists (MkConnection (inbound c) o). split; [done|]. split; [done|].
  split; [exact H2|].
  assert (send_msg m c = (true, MkConnection (inbound c) o)) as E
    by (unfold send_msg, conn_send; by rewrite Es).
  apply send_msg_wire in E as [E _]. unfold sent. by rewrite frames_one.
Qed.

(** ** What a worker does with a whole conversation *)

(** Its answers to the messages before the first STOP, and how it ends. *)
Fixpoint worker_answers (w : Worker) (ms : list Msg) : list Msg :=
  match ms with
  | [] => []
  | m :: ms' =>
      match worker_on_message w m with
      | Stop => []
      | Answer r => r :: worker_answers w ms'
      | Ignore => worker_answers w ms'
      end
  end.

Definition worker_exit (ms : list Msg) : WorkerExit :=
  if existsb (fun m => bool_decide (m_type m = MsgType.STOP)) ms then Stopped else Disconnected.

Lemma recv_at_end c : stream (inbound c) = [] -> exists c', conn_recv c = (Ok None, c') /\ outbound c' = outbound c.
Proof.
  intros H. pose proof (recv_all_stream 9 (inbound c)) as E. rewrite H in E. cbn [length Nat.leb] in E.
  destruct E as (i & E). unfold conn_recv, recv_frame. rewrite E. by eexists.
Qed.

Lemma recv_next m ms c :
  msg_fits m -> stream (inbound c) = frames (m :: ms) ->
  exists c', conn_recv c = (Ok (Some (encode m)), c') /\ stream (inbound c') = frames ms /\
             outbound c' = outbound c.
Proof.
  intros Hm Hs. rewrite frames_cons in Hs.
  destruct (recv_frame_complete _ _ _ (msg_frame_wf m Hm) Hs) as (i & E & Hi).
  unfold conn_recv. rewrite E. by eexists.
Qed.

Lemma worker_action_stop w m :
  match worker_on_message w m with
  | Stop => m_type m = MsgType.STOP
  | _ => m_type m <> MsgType.STOP
  end.
Proof. unfold worker_on_message. by destruct (m_type m). Qed.

(** Over any fragmentation of the conversation, the worker answers message by
    message and puts exactly its answers on the wire. *)
Lemma worker_loop_serves fuel w ms c :
  Forall msg_fits ms -> stream (inbound c) = frames ms ->
  Forall msg_fits (worker_answers w ms) ->
  (length (frames (worker_answers w ms)) <= room c)%nat -> (length ms < fuel)%nat ->
  exists c', worker_loop fuel w c = Some (worker_exit ms, c') /\ sent (worker_answers w ms) c c'.
Proof.
  intros Hms. revert fuel c. induction Hms as [|m ms Hm Hms IH]; intros [|fuel] c Hs Ha Hr Hf;
    cbn [length] in Hf; try lia.
  - destruct (recv_at_end c Hs) as (c' & E & Ho). exists c'. cbn [worker_loop]. rewrite E.
    split; [done|by apply sent_nothing].
  - destruct (recv_next m ms c Hm Hs) as (c1 & E & Hs1 & Ho).
    cbn [worker_loop worker_answers] in *. rewrite E, decode_encode by apply Hm.
    pose proof (worker_action_stop w m) as Hst. unfold worker_exit. cbn [existsb].
    assert (room c1 = room c) as Hroom by (unfold room; by rewrite Ho).
    destruct (worker_on_message w m) as [|r|].
    + rewrite bool_decide_eq_true_2 by done. exists c1. split; [done|by apply sent_nothing].
    + rewrite bool_decide_eq_false_2 by done. cbn [orb].
      apply Forall_cons in Ha as [Hfit Ha]. rewrite length_frames_cons in Hr.
      destruct (send_room r c1 Hfit ltac:(lia)) as (c2 & E2 & Hi2 & Hr2 & Hw2). rewrite E2. cbn [snd].
      destruct (IH fuel c2) as (c' & E' & Hw'); [congruence|done|lia|lia|].
      exists c'. split; [exact E'|].
      apply (sent_trans [r] _ c c2); [|exact Hw']. unfold sent in *. by rewrite Hw2, Ho.
    + rewrite bool_decide_eq_false_2 by done. cbn [orb].
      destruct (IH fuel c1) as (c' & E' & Hw'); [done|done|lia|lia|].
      exists c'. split; [exact E'|]. unfold sent in *. by rewrite Hw', Ho.
Qed.

Lemma length_frames ms : (length ms <= length (frames ms))%nat.
Proof.
  induction ms as [|m ms IH]; [done|]. rewrite length_frames_cons. cbn [length]. lia.
Qed.

(** The whole process: registration, then the answers. *)
Lemma worker_main_serves w ms c :
  Forall msg_fits ms -> stream (inbound c) = frames ms ->
  Forall msg_fits (registration w :: worker_answers w ms) ->
  (length (frames (registration w :: worker_answers w ms)) <= room c)%nat ->
  exists c', worker_main w c = Some (worker_exit ms, c') /\
    sent (registration w :: worker_answers w ms) c c'.
Proof.
  intros Hms Hs Ha Hr. apply Forall_cons in Ha as [Hreg Ha]. rewrite length_frames_cons in Hr.
  destruct (send_room (registration w) c Hreg ltac:(lia)) as (c1 & E1 & Hi1 & Hr1 & Hw1).
  unfold worker_main. rewrite E1. cbn [snd].
  destruct (worker_loop_serves (worker_fuel c1) w ms c1) as (c' & E' & Hw');
    [done|congruence|done|lia| |].
  - unfold worker_fuel. rewrite Hi1, Hs. pose proof (length_frames ms). lia.
  - exists c'. split; [exact E'|]. exact (sent_trans [registration w] _ c c1 c' Hw1 Hw').
Qed.
