(* ===== verification/NetworkProps.v ===== *)
(** * Properties of the messages, the transport and the network executor

    The message format, delivery of messages over a connection, the worker's loop,
    and what a dispatch over the network can do to the planner. *)

From Stdlib Require Import Ascii String.
From stdpp Require Import base gmap strings list.
From S2P Require Import Prelude Types Evidence Economics StdSort Digest DigestSpec Codec Plan.
From S2P Require Import Planner Lifecycle LifecycleSpec Executor LifecycleProps Protocol.
From S2P Require Import Transport Network NetworkSpec.
#[local] Open Scope Z_scope.

(** ** Messages *)

(** C20: The message format is canonical: a payload decodes exactly when it is the
    encoding of a message whose fields are within the protocol's bounds, and then
    to that message; truncated, extended or oversized payloads are refused. *)
Theorem message_codec data m :
  Forall is_byte data -> decode data = Some m <-> MsgWf m /\ data = encode m.
Proof. exact (codec_iff data m). Qed.

Definition ping : Msg := MkMsg MsgType.PING 1 2 3 4 "a" "bc" [7; 8].

Lemma message_codec_witness :
  decode (encode ping) = Some ping /\ decode (removelast (encode ping)) <> Some ping.
Proof.
  assert (Forall is_byte (encode ping)) as Hb by (vm_compute; repeat constructor; discriminate).
  assert (Forall is_byte (removelast (encode ping))) as Hb'
    by (vm_compute; repeat constructor; discriminate).
  split; [|rewrite (message_codec _ _ Hb'); intros [_ H]; vm_compute in H; discriminate].
  apply (message_codec _ _ Hb). split; [|reflexivity].
  split; try (vm_compute; reflexivity);
    try (split; [vm_compute; discriminate|vm_compute; reflexivity]); try (vm_compute; discriminate).
  repeat constructor; discriminate.
Defined.

(** ** Delivery *)

(** C21: Messages sent on one connection are received on the other, all of them and
    in order: if every send returned true, then whatever pieces the sends took
    and whatever segments and interruptions the receiver meets, as long as its
    stream starts with what was put on the wire, it receives those messages. *)
Theorem messages_delivered ms c c' d rest :
  Forall MsgWf ms -> wire (outbound c) = [] -> send_msgs ms c = (true, c') ->
  stream (inbound d) = wire (outbound c') ++ rest ->
  exists d', recv_msgs (length ms) d = (Some ms, d') /\ stream (inbound d') = rest.
Proof.
  intros Hms Hw Hsend Hd. apply send_msgs_wire in Hsend as [Hwire Hsize].
  rewrite Hw in Hwire. cbn [app] in Hwire. rewrite Hwire in Hd.
  apply recv_msgs_sent; [|exact Hd]. apply Forall_forall. intros m Hm.
  rewrite Forall_forall in Hms, Hsize. split; [by apply Hms|by apply Hsize].
Qed.

(** A sender whose calls take five bytes, with interruptions. *)
Definition slow_sender : Connection :=
  MkConnection [] (MkOutbound [] (mjoin (replicate 40 [SendInterrupted; Sent 5]))).
Definition sent_pings : list Z := wire (outbound (send_msgs [ping; ping] slow_sender).2).
(** A receiver that gets the same bytes as one byte, a pause, and the others. *)
Definition slow_receiver : Connection :=
  MkConnection [Data (take 1 sent_pings); Interrupted; Data (drop 1 sent_pings)] (MkOutbound [] []).

Lemma messages_delivered_witness :
  exists d', recv_msgs 2 slow_receiver = (Some [ping; ping], d') /\ stream (inbound d') = [].
Proof.
  apply (messages_delivered [ping; ping] slow_sender (send_msgs [ping; ping] slow_sender).2
           slow_receiver []).
  - assert (MsgWf ping) as Hp.
    { split; try (vm_compute; reflexivity);
        try (split; [vm_compute; discriminate|vm_compute; reflexivity]);
        try (vm_compute; discriminate).
      repeat constructor; discriminate. }
    by repeat constructor.
  - reflexivity.
  - vm_compute. reflexivity.
  - vm_compute. reflexivity.
Defined.

(** C22: A receiver accepts only whole frames: a payload it returns was preceded
    on the stream by exactly its frame (magic, version, length within the bound,
    payload, matching checksum), and those bytes are the ones it consumed; and a
    sender that fails has put no whole frame on the wire. *)
Theorem frames_exact :
  (forall segs p segs', Forall is_byte (stream segs) -> recv_frame segs = (Ok (Some p), segs') ->
     stream segs = frame_bytes p ++ stream segs' /\ Z.of_nat (length p) <= kMaxFramePayload) /\
  (forall p o ok o', send_frame p o = (ok, o') ->
     exists sent missing, wire o' = wire o ++ sent /\
       if ok then sent = frame_bytes p /\ Z.of_nat (length p) <= kMaxFramePayload
       else frame_bytes p = sent ++ missing /\ missing <> []).
Proof.
  split; [|exact send_frame_wire].
  intros segs p segs' Hb H. destruct (recv_frame_sound _ _ _ Hb H) as [[_ Hn] Hs]. by split.
Qed.

(** ** The worker's loop *)

(** C28: A worker's loop ends on every finite stream of bytes, whatever they are:
    malformed and unknown messages are skipped, and every frame shortens the
    stream, so its fuel is enough. *)
Theorem worker_terminates w c :
  Forall is_byte (stream (inbound c)) -> exists exit c', worker_main w c = Some (exit, c').
Proof.
  intros Hb. unfold worker_main.
  destruct (worker_loop_ends (worker_fuel (send_msg (registration w) c).2) w
              (send_msg (registration w) c).2) as [[exit c'] H].
  - by rewrite send_msg_inbound.
  - unfold worker_fuel. lia.
  - by exists exit, c'.
Qed.

Lemma worker_terminates_witness :
  exists exit c', worker_main (MkWorker 1 2 3 "w") slow_receiver = Some (exit, c').
Proof.
  apply (worker_terminates (MkWorker 1 2 3 "w") slow_receiver).
  vm_compute. repeat constructor; discriminate.
Defined.

(** A worker spawned by the coordinator takes from its command line the identity it
    was given. *)
Lemma spawned_worker_identity port w :
  is_u 64 (wk_id w) -> is_u 64 (wk_boot w) -> is_u 64 (wk_engine w) ->
  worker_of_args (worker_argv port w) = Some w.
Proof.
  intros H1 H2 H3. cbn [worker_of_args worker_argv]. rewrite !strtoull_to_dec by done.
  by destruct w.
Qed.

(** ** The network executor *)

(** Whatever the network delivers, sending a plan over it acts on the planner
    only by its own events, so every invariant of histories survives a hostile or
    broken peer. *)
Theorem network_dispatch_is_history {sorter : StdSort} now now' pl t1 t2 c s n :
  Reachable n s ->
  exists es, (dispatch_plan (executor := make_network_executor now now') pl t1 t2 (c, s)).2.2 =
             run es s /\
             Reachable (n + length es) (run es s).
Proof.
  intros Hr.
  destruct (dispatch_plan_events (make_network_executor now now')
              (network_executor_lawful now now') pl t1 t2 c s) as [es He].
  exists es. split; [exact He|]. by apply reachable_from.
Qed.

Lemma network_dispatch_is_history_witness :
  exists es,
    (dispatch_plan (executor := make_network_executor (MkUnit 2) (MkUnit 3)) (handle 1) (MkUnit 2)
       (MkUnit 4) (slow_receiver, authorized_state)).2.2 = run es authorized_state /\
    Reachable (4 + length es) (run es authorized_state).
Proof.
  apply (network_dispatch_is_history (MkUnit 2) (MkUnit 3) (handle 1) (MkUnit 2) (MkUnit 4)
           slow_receiver authorized_state 4).
  exact authorized_reachable.
Defined.

(** The COMPLETE message is believed for the dispatch in progress, whatever plan,
    generation and reporter it names. *)
Definition same_report (r1 r2 : Msg) : Prop :=
  m_type r1 = MsgType.COMPLETE /\ m_type r2 = MsgType.COMPLETE /\
  m_d r1 = m_d r2 /\ m_s1 r1 = m_s1 r2 /\ m_s2 r1 = m_s2 r2.

Lemma completion_identity_ignored now now' d c s r1 r2 c1 i1 i2 :
  same_report r1 r2 -> msg_fits r1 -> msg_fits r2 ->
  conn_send (encode (dispatch_message d)) c = (true, c1) ->
  recv_frame (inbound c1) = (Ok (Some (encode r1)), i1) ->
  forall c2, conn_send (encode (dispatch_message d)) c2 = (true, MkConnection i2 (outbound c1)) ->
  recv_frame i2 = (Ok (Some (encode r2)), i1) ->
  network_dispatch now now' d (c, s) = network_dispatch now now' d (c2, s).
Proof.
  intros (T1 & T2 & Ed & Es1 & Es2) [H1 _] [H2 _] E1 R1 c2 E2 R2.
  unfold network_dispatch. rewrite E1, E2. unfold conn_recv. cbn [inbound outbound].
  rewrite R1, R2, !decode_encode by done.
  rewrite T1, T2, !bool_decide_eq_true_2 by done. cbn [negb]. by rewrite Ed, Es1, Es2.
Qed.
