(* ===== verification/Coordinator.v ===== *)
(** * The coordinator process

    Models [distributed/coordinator_main.cpp]: the candidates it builds and its two
    programs, the scenario run and the restart run, over the connections of two
    workers.  [Launch] has the [main] around them.  The printed lines are not
    modelled; what is printed is the value a program returns. *)

From stdpp Require Import base gmap strings list.
From S2P Require Import Prelude Types Evidence Feasibility StdSort Economics Plan Explain.
From S2P Require Import Planner Lifecycle Executor Program Protocol Transport Network.
#[local] Open Scope Z_scope.
#[local] Open Scope rp_scope.

Definition kWorkerA : Z := 1.
Definition kBootA : Z := 1000.
Definition kWorkerB : Z := 2.
Definition kBootB : Z := 2000.
Definition kBootC : Z := 3000.

(** ** Candidates *)

Definition net_meta (observer : WorkerBootId) (p : EvidenceProvenance.t) (conf : Confidence)
    : EvidenceMeta := MkMeta (MkId 1) observer (MkUnit 0) p Freshness.CURRENT conf false.

Definition net_state : StateEvidence :=
  {| st_meta := net_meta (MkId kBootB) EvidenceProvenance.MEASURED confidence_full;
     st_state_id := MkId 5000;
     st_state_generation := MkId 1;
     st_workload_generation := MkId 1;
     st_checkpoint_generation := MkId 1;
     st_integrity := StateIntegrity.VALID;
     st_size_bytes := MkUnit 4096;
     st_restore_bytes := MkUnit 4096;
     st_preserved_progress := MkUnit kProgress;
     st_durable_progress := MkUnit kProgress;
     st_location := StorageLocation.REMOTE;
     st_is_durable := true;
     st_identity := "workload:v1" |}.

(** The scenario-specific members of the cost evidence. *)
Record NetCost := MkNetCost {
  nc_expected : option Duration;
  nc_restore : option Duration;
  nc_restart : option Duration;
  nc_recompute : option Duration;
  nc_lost : ProgressUnits;
  nc_preserved : ProgressUnits }.

Definition net_cost (s : RecoveryStrategy.t) (scenario : string) : NetCost :=
  match s with
  | RecoveryStrategy.RESTORE =>
      let t := if String.eqb scenario "RECOMPUTE" then MkUnit 500000 else MkUnit 3000 in
      MkNetCost (Some t) (Some t) None None (MkUnit 0) (MkUnit kProgress)
  | RecoveryStrategy.RECOMPUTE =>
      let t := MkUnit 1000 in
      MkNetCost (Some t) None None (Some t) (MkUnit 0)
        (if String.eqb scenario "RESTORE" then MkUnit (kProgress - 10) else MkUnit kProgress)
  | RecoveryStrategy.SHADOW_PROMOTE =>
      MkNetCost (Some (MkUnit 50)) None None None (MkUnit 0) (MkUnit kProgress)
  | RecoveryStrategy.RESTART =>
      MkNetCost (Some (MkUnit 500)) None (Some (MkUnit 500)) None (MkUnit kProgress) (MkUnit 0)
  | _ => MkNetCost None None None None (MkUnit 0) (MkUnit kProgress)
  end.

Definition build_candidate (s : RecoveryStrategy.t) (id : Z) (scenario : string)
    (target_worker : WorkerId) (target_boot : WorkerBootId) (feasible : bool)
    : RecoveryCandidate :=
  let meta p := net_meta (MkId kBootB) p confidence_none in
  let cost := net_cost s scenario in
  {| c_candidate_id := MkId id;
     c_generation := MkId id;
     c_strategy := s;
     c_target_worker := target_worker;
     c_target_boot := target_boot;
     c_target_engine := MkId 1;
     c_target_engine_incarnation := MkId 1;
     c_source_worker := MkId kWorkerA;
     c_source_boot := MkId kBootA;
     c_state_source := MkId 5000;
     c_state_generation := MkId 1;
     c_checkpoint_source := MkId 9000;
     c_checkpoint_generation := MkId 1;
     c_state := Some net_state;
     c_compatibility := Some
       {| co_meta := meta EvidenceProvenance.REPORTED;
          co_compatibility_generation := MkId 1;
          co_result := CompatibilityResult.EXACT;
          co_subject_identity := "workload:v1";
          co_state_format := "workerB";
          co_reason := "" |};
     c_availability := Some
       {| av_meta := net_meta target_boot EvidenceProvenance.MEASURED confidence_none;
          av_worker := target_worker;
          av_boot := target_boot;
          av_engine_incarnation := MkId 1;
          av_is_alive := true;
          av_readiness := if feasible then CandidateReadiness.READY
                          else CandidateReadiness.NOT_READY |};
     c_resource := Some
       {| rs_meta := meta EvidenceProvenance.MEASURED;
          rs_snapshot := MkId 1;
          rs_generation := MkId 1;
          rs_resource_kind := "gpu_mem";
          rs_required := Some 512;
          rs_available := Some 100000;
          rs_status := ResourceStatus.AVAILABLE |};
     c_topology := Some
       {| tp_meta := meta EvidenceProvenance.MEASURED;
          tp_generation := MkId 1;
          tp_path_possible := true;
          tp_source := "workerA";
          tp_destination := "workerB";
          tp_path_latency := None |};
     c_transfer := None;
     c_checkpoint := None;
     c_shadow := Some
       {| sh_meta := meta EvidenceProvenance.MEASURED;
          sh_shadow_worker := MkId kWorkerB;
          sh_shadow_boot := MkId kBootB;
          sh_shadow_state_generation := MkId 1;
          sh_lag := MkUnit 25;
          sh_last_sync_point := MkUnit 0;
          sh_readiness := if String.eqb scenario "SHADOW" then CandidateReadiness.READY
                          else CandidateReadiness.NOT_READY;
          sh_compatibility := CompatibilityResult.EXACT |};
     c_progress := None;
     c_cost := Some
       {| cost_meta := meta EvidenceProvenance.ESTIMATED;
          cost_expected_time := nc_expected cost;
          cost_restore_time := nc_restore cost;
          cost_restart_time := nc_restart cost;
          cost_transfer_time := None;
          cost_recompute_time := nc_recompute cost;
          cost_bytes_transferred := Some (MkUnit 4096);
          cost_bytes_read := Some (MkUnit 4096);
          cost_bytes_materialized := Some (MkUnit 4096);
          cost_cost_units := None;
          cost_energy_cost := None;
          cost_expected_lost_progress := Some (nc_lost cost);
          cost_expected_preserved_progress := Some (nc_preserved cost);
          cost_checkpoint_age := None;
          cost_deadline_slack := None;
          cost_failover_domain_risk := 0 |};
     c_authority := Some
       {| auth_meta := net_meta (MkId kBootB) EvidenceProvenance.MEASURED confidence_full;
          auth_coordinator_epoch := MkId 1;
          auth_policy_generation := MkId 1;
          auth_coordinator_authority_valid := true;
          auth_policy_authority_valid := true;
          auth_candidate_authority_valid := true;
          auth_execution_authority_valid := true |};
     c_reason_for_existence := "";
     c_capabilities := [];
     c_required_capabilities := [] |}.

(** ** Programs *)

(** What a process holds: the connections of its two workers, and the planner. *)
Record World := MkWorld {
  conn_a : Connection;
  conn_b : Connection;
  planner : Planner }.

Definition Prog (A : Type) : Type := World -> Exit A * World.

#[local] Open Scope prog_scope.

(** The helper [recv] into a fresh message: a frame that does not decode leaves the
    members assigned before the failure. *)
Definition recv (c : Connection) : Result string (bool * Msg) * Connection :=
  match conn_recv c with
  | (Throw e, c) => (Throw e, c)
  | (Ok None, c) => (Ok (false, default_msg), c)
  | (Ok (Some p), c) => (Ok (decode_into p default_msg), c)
  end.

Definition recv_a : Prog (bool * Msg) := fun w =>
  let '(r, c) := recv (conn_a w) in
  (match r with Ok m => Go m | Throw e => Raise (Runtime e) end,
   MkWorld c (conn_b w) (planner w)).
Definition recv_b : Prog (bool * Msg) := fun w =>
  let '(r, c) := recv (conn_b w) in
  (match r with Ok m => Go m | Throw e => Raise (Runtime e) end,
   MkWorld (conn_a w) c (planner w)).
Definition send_a (m : Msg) : Prog bool := fun w =>
  let '(ok, c) := send_msg m (conn_a w) in (Go ok, MkWorld c (conn_b w) (planner w)).
Definition send_b (m : Msg) : Prog bool := fun w =>
  let '(ok, c) := send_msg m (conn_b w) in (Go ok, MkWorld (conn_a w) c (planner w)).

(** A call of the planner. *)
Definition on_planner {A} (f : Planner -> A * Planner) : Prog A := fun w =>
  let '(a, s) := f (planner w) in (Go a, MkWorld (conn_a w) (conn_b w) s).

(** [planner.dispatch_plan(auth, exec)] with the network executor on worker B's
    connection; the test clock stands at 0. *)
Definition dispatch_b (auth : RecoveryPlan) : Prog (Result Exception RecoveryPlan) := fun w =>
  let '(r, (c, s)) :=
    dispatch_plan (executor := make_network_executor (MkUnit 0) (MkUnit 0)) auth (MkUnit 0)
      (MkUnit 0) (conn_b w, planner w) in
  (Go r, MkWorld (conn_a w) c s).

Definition msg_run (work : Z) : Msg := MkMsg MsgType.RUN work kProgress 0 0 "" "" [].
Definition msg_stop : Msg := MkMsg MsgType.STOP 0 0 0 0 "" "" [].

Definition not_type (t : MsgType.t) (m : bool * Msg) : bool :=
  negb (bool_decide (m_type m.2 = t)).

(** [planner.plan], [authorize_plan] and [dispatch_plan] in sequence, with the exit
    codes for no plan, another strategy and no success. *)
Definition plan_and_dispatch {sorter : StdSort} (q : RecoveryRequest)
    (cs : list RecoveryCandidate) (expected : RecoveryStrategy.t) (no_plan other no_success : Z)
    : Prog (RecoveryPlan * RecoveryPlan) :=
  do! d := on_planner (plan q cs (MkUnit 0)) in
  match de_plan d with
  | None => fun w => (Return no_plan, w)
  | Some p =>
      do! _ := exit_if (negb (bool_decide (p_strategy p = expected))) other in
      do! r := on_planner (authorize_plan p (MkUnit 0)) in
      do! auth := or_raise (recovery_result r) in
      do! r := dispatch_b auth in
      do! dispatched := or_raise r in
      do! _ := exit_if (negb (bool_decide (p_state dispatched = PlanLifecycleState.SUCCEEDED)))
                 no_success in
      p_ret (auth, dispatched)
  end.

(** The loop over [planner.plans()]: no stored plan with that id left [SUCCEEDED]. *)
Definition still_succeeded (id : RecoveryPlanId) (s : Planner) : bool :=
  forallb (fun kp => negb (id_eqb (p_plan_id kp.2) id &&
                           negb (bool_decide (p_state kp.2 = PlanLifecycleState.SUCCEEDED))))
    (map_to_list (plans s)).

(** The stale report: identities of the plan, another boot, the other members at
    their defaults. *)
Definition report_for (p : RecoveryPlan) (boot : Z) (o : ExecutionOutcome.t) : ExecutionReport :=
  MkReport id_null (p_plan_id p) (p_generation p) (MkId boot) o unit_zero unit_zero "".

Definition report_and_look (p : RecoveryPlan) (r : ExecutionReport) : Prog bool :=
  on_planner (fun s =>
    let s := report_execution r (MkUnit 0) s in (still_succeeded (p_plan_id p) s, s)).

(** ** The scenario run: [main] *)

Definition net_request (reason : string) (deadline : option Timestamp) : RecoveryRequest :=
  {| q_request_id := MkId 1;
     q_workload := MkId 1;
     q_workload_generation := MkId 1;
     q_execution := MkId 1;
     q_execution_generation := MkId 1;
     q_failure := MkId 1;
     q_reason := reason;
     q_prior_progress := default_progress;
     q_recovery_deadline := deadline;
     q_max_recovery_duration := None;
     q_max_tolerated_progress_loss := None;
     q_preferred_strategies := [];
     q_forbidden_strategies := [];
     q_state_requirements := [];
     q_placement_constraints := [];
     q_compatibility_requirements := [];
     q_coordinator_epoch := MkId 1;
     q_policy_generation := MkId 1;
     q_topology_generation := MkId 1;
     q_requested_at := MkUnit 0;
     q_value_priorities := [] |}.

Definition scenario_request (scenario : string) : RecoveryRequest :=
  net_request "primary worker lost"
    (if String.eqb scenario "RECOMPUTE" then Some (MkUnit 10000) else None).

Definition scenario_candidates (scenario : string) : list RecoveryCandidate :=
  let build s id := build_candidate s id scenario (MkId kWorkerB) (MkId kBootB) true in
  [build RecoveryStrategy.RESTORE 11; build RecoveryStrategy.RECOMPUTE 12;
   build RecoveryStrategy.SHADOW_PROMOTE 13; build RecoveryStrategy.RESTART 14].

Definition scenario_expected (scenario : string) : RecoveryStrategy.t :=
  if String.eqb scenario "RESTORE" then RecoveryStrategy.RESTORE
  else if String.eqb scenario "RECOMPUTE" then RecoveryStrategy.RECOMPUTE
  else RecoveryStrategy.SHADOW_PROMOTE.

(** The planner the program constructs and describes the world to. *)
Definition scenario_planner : Planner :=
  (register_worker (MkId kWorkerB) (MkId kBootB) >>> set_resource "gpu_mem" 100000 >>>
   set_recompute_available (MkId 1) true) new_planner.

(** Registration and work of the primary, before it is killed. *)
Definition primary_phase (scenario : string) : Prog unit :=
  do! regA := recv_a in
  do! regB := recv_b in
  do! _ := exit_if (not_type MsgType.REGISTER regA || not_type MsgType.REGISTER regB) 6 in
  do! _ := send_a (msg_run 1) in
  do! doneA := recv_a in
  do! _ := exit_if (not_type MsgType.WORK_DONE doneA) 7 in
  if String.eqb scenario "SHADOW" then
    do! _ := send_b (msg_run 2) in
    do! _ := recv_b in
    p_ret tt
  else p_ret tt.

(** After the primary is killed: decision, dispatch, and the stale report; the
    value returned is [stale_rejected], and the process then exits with code 0. *)
Definition recovery_phase {sorter : StdSort} (scenario : string) : Prog bool :=
  do! _ := on_planner (fun _ => (tt, scenario_planner)) in
  do! r := plan_and_dispatch (scenario_request scenario) (scenario_candidates scenario)
             (scenario_expected scenario) 8 9 10 in
  do! stale_rejected :=
    report_and_look r.2 (report_for r.2 kBootA ExecutionOutcome.SUCCEEDED) in
  do! _ := send_b msg_stop in
  p_ret stale_rejected.

Definition scenario_main {sorter : StdSort} (scenario : string) : Prog bool :=
  do! _ := primary_phase scenario in recovery_phase scenario.

(** ** The restart run: [run_restart_proof] *)

Definition restart_candidates : list RecoveryCandidate :=
  let build s id := build_candidate s id "RESTART" (MkId kWorkerA) (MkId kBootA) false in
  [build RecoveryStrategy.RESTORE 11; build RecoveryStrategy.RECOMPUTE 12;
   build RecoveryStrategy.SHADOW_PROMOTE 13;
   build_candidate RecoveryStrategy.RESTART 14 "RESTART" (MkId kWorkerA) (MkId kBootC) true].

Definition restart_planner : Planner :=
  (register_worker (MkId kWorkerA) (MkId kBootC) >>> set_resource "gpu_mem" 100000) new_planner.

Definition restart_request : RecoveryRequest :=
  net_request "primary worker lost; no usable recovery state" None.

(** The registration of the fresh incarnation, on the second connection. *)
Definition fresh_incarnation (reg : bool * Msg) : bool :=
  negb (not_type MsgType.REGISTER reg || negb (m_a reg.2 =? kWorkerA) ||
        negb (m_b reg.2 =? kBootC)).

(** The second dispatch of the finished plan: true when the planner refused it. *)
Definition redispatch (auth : RecoveryPlan) : Prog bool :=
  do! r := dispatch_b auth in
  match r with
  | Ok _ => p_ret false
  | Throw (Recovery _) => p_ret true
  | Throw e => or_raise (Throw e)
  end.

(** The primary's registration and work, before it is killed. *)
Definition restart_primary : Prog unit :=
  do! regA := recv_a in
  do! _ := exit_if (not_type MsgType.REGISTER regA) 5 in
  do! _ := send_a (msg_run 1) in
  do! doneA := recv_a in
  exit_if (not_type MsgType.WORK_DONE doneA) 6.

(** With the fresh incarnation.  The value returned is whether the stale boot,
    attempt, dispatch and completion were rejected: unless all were, the process
    exits with code 13. *)
Definition restart_recovery {sorter : StdSort} : Prog (bool * bool * bool * bool) :=
  do! regC := recv_b in
  do! _ := exit_if (negb (fresh_incarnation regC)) 9 in
  do! _ := on_planner (fun _ => (tt, restart_planner)) in
  do! r := plan_and_dispatch restart_request restart_candidates RecoveryStrategy.RESTART 10 11 12 in
  let '(auth, dispatched) := r in
  do! boot := report_and_look dispatched
                (report_for dispatched kBootA ExecutionOutcome.SUCCEEDED) in
  do! attempt := on_planner (fun s =>
       let s := on_adapter_completion (MkId 999999) ExecutionOutcome.SUCCEEDED (MkUnit kProgress)
                  (MkUnit 0) "stale attempt" (MkUnit 0) s in
       (still_succeeded (p_plan_id dispatched) s, s)) in
  do! dispatch := redispatch auth in
  do! completion := report_and_look dispatched
                      (report_for dispatched kBootC ExecutionOutcome.FAILED) in
  do! _ := send_b msg_stop in
  p_ret (boot, attempt, dispatch, completion).

Definition restart_main {sorter : StdSort} : Prog (bool * bool * bool * bool) :=
  do! _ := restart_primary in restart_recovery.
