(* ===== verification/CoordinatorSpec.v ===== *)
(** * The steps of the coordinator's programs

    Each step of [Coordinator]'s programs on a world where the other end follows
    the protocol: what is received, when a dispatch succeeds, and what the stale
    reports and the second dispatch do to a finished plan. *)

From stdpp Require Import base gmap strings list.
From S2P Require Import Prelude Types Evidence Feasibility StdSort Economics Plan Explain.
From S2P Require Import Planner PlannerSpec Lifecycle LifecycleSpec Executor Program DecisionProps.
From S2P Require Import Codec Protocol Transport Network NetworkSpec Coordinator.
#[local] Open Scope Z_scope.
#[local] Open Scope prog_scope.

(** ** Finished plans *)

Lemma dispatch_begin_terminal pl now s p :
  plans s !! value (p_plan_id pl) = Some p -> terminal (p_state p) = true ->
  exists e, dispatch_begin pl now s = (Throw e, s).
Proof.
  intros Hp Ht. unfold dispatch_begin. rewrite Hp.
  destruct (negb (plan_authority_current p (ctx s))); [by eexists|].
  destruct (p_state p); try done; by eexists.
Qed.

Lemma still_succeeded_one id s k p :
  plans s = {[k := p]} -> p_state p = PlanLifecycleState.SUCCEEDED ->
  still_succeeded id s = true.
Proof.
  intros Hs Hp. unfold still_succeeded. rewrite Hs, map_to_list_singleton. cbn [forallb snd].
  rewrite Hp, bool_decide_eq_true_2 by done. by rewrite andb_false_r.
Qed.

(** ** Receiving and sending *)

Lemma decode_into_default data m : decode data = Some m -> decode_into data default_msg = (true, m).
Proof.
  unfold decode. destruct (decode_into data default_msg) as [[|] m']; [|done]. by intros [= ->].
Qed.

(** A connection on which the messages [ms] are about to arrive, then [rest]. *)
Definition arriving (ms : list Msg) (rest : list Z) (c : Connection) : Prop :=
  Forall msg_fits ms /\ stream (inbound c) = frames ms ++ rest.

Lemma recv_arriving m ms rest c :
  arriving (m :: ms) rest c ->
  exists c', recv c = (Ok (true, m), c') /\ arriving ms rest c' /\ outbound c' = outbound c.
Proof.
  intros [Hf Hs]. apply Forall_cons in Hf as [Hm Hms].
  rewrite frames_cons, <- app_assoc in Hs.
  destruct (recv_frame_complete _ _ _ (msg_frame_wf m Hm) Hs) as (i & E & Hi).
  exists (MkConnection i (outbound c)). unfold recv, conn_recv. rewrite E.
  split; [|by split].
  by rewrite (decode_into_default _ m) by by apply decode_encode, Hm.
Qed.

Lemma send_msg_result m c ok c' : send_msg m c = (ok, c') -> (conn_send (encode m) c).1 = ok.
Proof. intros H. exact (f_equal fst H). Qed.

Lemma send_msg_connection m c ok c' : send_msg m c = (ok, c') -> (conn_send (encode m) c).2 = c'.
Proof. intros H. exact (f_equal snd H). Qed.

(** ** Plan and dispatch *)

Section Dispatch.
Context {sorter : StdSort}.

Lemma refinements_agree q c now cs id gen d1 d2 ch1 ch2 p :
  DistinctIdentities cs ->
  DecisionSpec q c now cs (de_outcome d1) ch1 -> Refines q c now id gen d1 ch1 ->
  DecisionSpec q c now cs (de_outcome d2) ch2 -> Refines q c now id gen d2 ch2 ->
  de_plan d2 = Some p ->
  exists p', de_plan d1 = Some p' /\
             p_set_explanation default_explanation p' = p_set_explanation default_explanation p.
Proof.
  intros Hd D1 R1 D2 R2 Hp. destruct (decision_unique _ _ _ _ _ _ _ _ Hd D1 D2) as [_ ->].
  unfold Refines in R1, R2. rewrite Hp in R2. destruct ch2 as [c'|]; [|done].
  destruct (de_plan d1) as [p'|]; [|done]. exists p'. split; [reflexivity|].
  exact (eq_trans R1 (eq_sym R2)).
Qed.

(** The same plan, whichever sort ranked the candidates. *)
Lemma plan_sort_agree (S2 : StdSort) q cs now s p :
  DistinctIdentities cs -> de_plan (plan (sorter := S2) q cs now s).1 = Some p ->
  exists p', de_plan (plan (sorter := sorter) q cs now s).1 = Some p' /\
             p_set_explanation default_explanation p' = p_set_explanation default_explanation p.
Proof.
  intros Hd Hp.
  pose proof (@plan_decides S2 q cs now s) as H2. pose proof (@plan_decides sorter q cs now s) as H1.
  generalize dependent (@plan S2 q cs now s). generalize dependent (@plan sorter q cs now s).
  intros [d1 ?] (ch1 & D1 & R1) [d2 ?] Hp (ch2 & D2 & R2).
  exact (refinements_agree _ _ _ _ _ _ _ _ _ _ _ Hd D1 R1 D2 R2 Hp).
Qed.

Lemma planned_alone q cs now s p :
  plans s = ∅ -> de_plan (plan q cs now s).1 = Some p ->
  plans (plan q cs now s).2 = {[value (p_plan_id p) := p]} /\
  dispatch_meta (plan q cs now s).2 = dispatch_meta s /\ p_last_attempt p = MkId 0.
Proof.
  intros Hs Hd.
  assert (forall c d s0, PlanFor q (ctx s) now (next_plan_id s) (next_generation s) c p ->
    plans s0 = plans s -> plans (with_new_plan q now p d s0) = {[value (p_plan_id p) := p]} /\
      p_last_attempt p = MkId 0) as Hc.
  { intros c d s0 Hf Hs0. rewrite (with_new_plan_plans _ _ _ _ _ _ _ _ _ _ _ Hf Hs0).
    rewrite Hs, fmap_empty, (f_equal p_plan_id Hf : p_plan_id p = _).
    split; [done|exact (f_equal p_last_attempt Hf)]. }
  destruct (plan_result q cs now s)
    as [d Hn Ho Hp|d Hn Hx Ho Hp|d c p' Hb Hp Ho Hd'|d c p' Hn Hb Hp Ho Hd']; simplify_eq;
    destruct (Hc c d _ Hp eq_refl) as [H1 H2]; by split.
Qed.

Definition authorized (p : RecoveryPlan) : RecoveryPlan :=
  p_set_updated (MkUnit 0) (p_set_state PlanLifecycleState.AUTHORIZED p).

(** The message the dispatch of an authorised plan is sent as. *)
Definition auth_message (auth : RecoveryPlan) : Msg :=
  dispatch_message (dispatch_of (dispatched_plan (MkUnit 0) auth)).
Definition plan_message (p : RecoveryPlan) : Msg := auth_message (authorized p).

Lemma dispatch_b_ok auth ca cb s wk rest :
  plans s !! value (p_plan_id auth) = Some auth -> AuthorityCurrent auth (ctx s) ->
  p_state auth = PlanLifecycleState.AUTHORIZED -> worker_wf wk ->
  id_wf (p_plan_id auth) -> id_wf (p_generation auth) -> msg_fits (auth_message auth) ->
  (13 + length (encode (auth_message auth)) <= room cb)%nat ->
  arriving [complete_message wk (auth_message auth)] rest cb ->
  exists finished cb' s',
    dispatch_b auth (MkWorld ca cb s) = (Go (Ok finished), MkWorld ca cb' s') /\
    p_state finished = PlanLifecycleState.SUCCEEDED /\ p_plan_id finished = p_plan_id auth /\
    plans s' = <[value (p_plan_id auth) := finished]> (plans s) /\
    dispatch_meta s' = delete (u64 (value (p_last_attempt auth) + 1)) (dispatch_meta s) /\
    stream (inbound cb') = rest /\
    (room cb <= 13 + length (encode (auth_message auth)) + room cb')%nat /\
    sent [auth_message auth] cb cb'.
Proof.
  intros Hp Ha Hst Hwk Hid Hgen Hmsg Hroom [_ Hstream]. rewrite frames_one in Hstream.
  destruct (send_room _ cb Hmsg Hroom) as (cb1 & Hsend & _ & Hrm & Hw).
  pose proof (send_msg_result _ _ _ _ Hsend) as Hok.
  apply authority_current_spec in Ha.
  pose proof (network_dispatch_completes wk auth (MkUnit 0) (MkUnit 0) (MkUnit 0)
    (MkUnit 0) cb s auth rest Hp eq_refl Ha Hst Hwk Hid Hgen Hok Hstream) as Hc. cbn zeta in Hc.
  set (finished := p_set_updated (MkUnit 0) (apply_receipt DispatchStatus.DISPATCHED _)) in Hc.
  assert (p_state finished = PlanLifecycleState.SUCCEEDED) as Hfin by reflexivity.
  assert (p_plan_id finished = p_plan_id auth) as Hfid by reflexivity.
  clearbody finished. destruct Hc as (H1 & H2 & Ho & H3 & H4 & _).
  unfold dispatch_b. cbn [conn_a conn_b planner].
  destruct (dispatch_plan _ _ _ _) as [r [cb2 s3]]. cbn [fst snd] in H1, H2, H3, H4, Ho. subst r.
  pose proof (send_msg_connection _ _ _ _ Hsend) as Hc1. unfold auth_message in Hc1.
  rewrite Hc1 in Ho.
  exists finished, cb2, s3. split; [reflexivity|]. split; [exact Hfin|].
  unfold room, sent in *. rewrite Ho. by split_and!.
Qed.

(** The world described to a planner that holds nothing yet, for a plan. *)
Record Ready (q : RecoveryRequest) (s : Planner) (p : RecoveryPlan) : Prop := {
  rd_plans : plans s = ∅;
  rd_meta : dispatch_meta s = ∅;
  rd_workload : q_workload_generation q = ctx_workload_generation (ctx s);
  rd_alive : p_target_worker p ∈ ctx_alive_workers (ctx s);
  rd_boot : ctx_worker_boots (ctx s) !! p_target_worker p = Some (p_target_boot p);
  rd_id : id_wf (p_plan_id p);
  rd_gen : id_wf (p_generation p) }.

Lemma plan_and_dispatch_ok q cs expected c1 c2 c3 ca cb s p wk rest :
  de_plan (plan q cs (MkUnit 0) s).1 = Some p -> p_strategy p = expected -> Ready q s p ->
  worker_wf wk -> msg_fits (plan_message p) ->
  (13 + length (encode (plan_message p)) <= room cb)%nat ->
  arriving [complete_message wk (plan_message p)] rest cb ->
  exists dispatched cb' s',
    plan_and_dispatch q cs expected c1 c2 c3 (MkWorld ca cb s) =
      (Go (authorized p, dispatched), MkWorld ca cb' s') /\
    p_state dispatched = PlanLifecycleState.SUCCEEDED /\ p_plan_id dispatched = p_plan_id p /\
    plans s' = {[value (p_plan_id p) := dispatched]} /\ dispatch_meta s' = ∅ /\
    (room cb <= 13 + length (encode (plan_message p)) + room cb')%nat /\
    sent [plan_message p] cb cb'.
Proof.
  intros Hd Hst [Hs Hmeta Hw Halive Hboot Hid Hgen] Hwk Hmsg Hroom Harr.
  destruct (fresh_plan_ready q cs s p (MkUnit 0) (MkUnit 0) Hd Hw Halive Hboot)
    as (Ha & Hk & Hau).
  destruct (planned_alone q cs (MkUnit 0) s p Hs Hd) as (Hps & Hpm & Hat).
  destruct (plan q cs (MkUnit 0) s) as [d s1] eqn:Eplan. cbn [fst snd] in *.
  set (s2 := store_plan (value (p_plan_id p)) (authorized p) s1).
  assert (AuthorityCurrent (authorized p) (ctx s2)) as Ha2 by (destruct Ha; split; assumption).
  destruct (dispatch_b_ok (authorized p) ca cb s2 wk rest (lookup_insert_eq (plans s1) _ _) Ha2
              eq_refl Hwk Hid Hgen Hmsg Hroom Harr)
    as (finished & cb2 & s3 & Hdisp & Hfin & Hfid & H3 & H4 & _ & Hsent).
  exists finished, cb2, s3. split.
  { unfold plan_and_dispatch, p_bind, on_planner. cbn [planner conn_a conn_b]. rewrite Eplan, Hd.
    unfold exit_if. rewrite Hst, bool_decide_eq_true_2 by reflexivity.
    cbn [negb planner conn_a conn_b]. rewrite Hau. fold (authorized p). fold s2.
    cbn [recovery_result or_raise]. rewrite Hdisp. cbn [or_raise].
    rewrite Hfin, bool_decide_eq_true_2 by reflexivity. reflexivity. }
  split; [exact Hfin|]. split; [exact Hfid|].
  change (p_plan_id (authorized p)) with (p_plan_id p) in H3.
  split; [|split; [|exact Hsent]].
  - rewrite H3. unfold s2. cbn [plans store_plan set_plans]. rewrite Hps.
    by rewrite !insert_singleton_eq.
  - rewrite H4. unfold s2. cbn [dispatch_meta store_plan set_plans]. rewrite Hpm, Hmeta.
    apply delete_empty.
Qed.
End Dispatch.

(** ** The steps of a program *)

Lemma recv_a_arriving m ms rest ca cb s :
  arriving (m :: ms) rest ca ->
  exists ca', recv_a (MkWorld ca cb s) = (Go (true, m), MkWorld ca' cb s) /\
    arriving ms rest ca' /\ outbound ca' = outbound ca.
Proof.
  intros H. destruct (recv_arriving _ _ _ _ H) as (ca' & E & Ha & Ho).
  exists ca'. unfold recv_a. cbn [conn_a conn_b planner]. by rewrite E.
Qed.

Lemma recv_b_arriving m ms rest ca cb s :
  arriving (m :: ms) rest cb ->
  exists cb', recv_b (MkWorld ca cb s) = (Go (true, m), MkWorld ca cb' s) /\
    arriving ms rest cb' /\ outbound cb' = outbound cb.
Proof.
  intros H. destruct (recv_arriving _ _ _ _ H) as (cb' & E & Ha & Ho).
  exists cb'. unfold recv_b. cbn [conn_a conn_b planner]. by rewrite E, Ho.
Qed.

(** The primary's connection takes a message or not: the program goes on. *)
Lemma send_a_goes m ms rest ca cb s :
  arriving ms rest ca ->
  exists ok ca', send_a m (MkWorld ca cb s) = (Go ok, MkWorld ca' cb s) /\ arriving ms rest ca' /\
    (msg_fits m -> (13 + length (encode m) <= room ca)%nat -> sent [m] ca ca').
Proof.
  intros H. unfold send_a. cbn [conn_a conn_b planner].
  destruct (send_msg m ca) as [ok ca'] eqn:E. exists ok, ca'. split; [reflexivity|].
  unfold arriving in *. pose proof (send_msg_inbound m ca) as Hi. rewrite E in Hi. cbn [snd] in Hi.
  rewrite Hi. split; [exact H|]. intros Hm Hr.
  destruct (send_room m ca Hm Hr) as (ca1 & E1 & _ & _ & Hw). rewrite E1 in E. by injection E as _ <-.
Qed.

Lemma send_b_goes m ms rest ca cb s :
  arriving ms rest cb -> msg_fits m -> (13 + length (encode m) <= room cb)%nat ->
  exists cb', send_b m (MkWorld ca cb s) = (Go true, MkWorld ca cb' s) /\ arriving ms rest cb' /\
    (room cb <= 13 + length (encode m) + room cb')%nat /\ sent [m] cb cb'.
Proof.
  intros H Hm Hr. destruct (send_room m cb Hm Hr) as (cb' & E & Hi & Hc).
  exists cb'. unfold send_b, arriving in *. cbn [conn_a conn_b planner]. rewrite E.
  split; [reflexivity|]. split; [|exact Hc]. rewrite Hi. exact H.
Qed.

(** The final STOP, sent or not. *)
Lemma send_b_ends m ca cb s :
  exists ok cb', send_b m (MkWorld ca cb s) = (Go ok, MkWorld ca cb' s) /\
    (msg_fits m -> (13 + length (encode m) <= room cb)%nat -> sent [m] cb cb').
Proof.
  unfold send_b. cbn [conn_a conn_b planner].
  destruct (send_msg m cb) as [ok c] eqn:E. exists ok, c. split; [reflexivity|].
  intros Hm Hr. destruct (send_room m cb Hm Hr) as (c1 & E1 & _ & _ & Hw). rewrite E1 in E.
  by injection E as _ <-.
Qed.

Lemma not_type_false t b m : m_type m = t -> not_type t (b, m) = false.
Proof. intros H. unfold not_type. cbn [snd]. by rewrite bool_decide_eq_true_2. Qed.

(** The constant messages fit. *)
Lemma short_message_fits t x y :
  MsgType.code t < 256 -> is_u 64 x -> is_u 64 y ->
  let m := MkMsg t x y 0 0 "" "" [] in msg_fits m /\ length (encode m) = 45%nat.
Proof.
  intros Ht Hx Hy m. assert (MsgWf m) as Hwf.
  { split; cbn [m m_type m_a m_b m_c m_d m_s1 m_s2 m_blob String.length length];
      try done; unfold is_u, kStrMax, kBlobMax; lia. }
  pose proof (length_encode _ Hwf) as Hl. cbn [m m_s1 m_s2 m_blob String.length length] in Hl.
  split; [|lia]. split; [done|]. unfold kMaxFramePayload. fold m. lia.
Qed.

Lemma run_message_fits work : is_u 64 work -> msg_fits (msg_run work) /\ length (encode (msg_run work)) = 45%nat.
Proof.
  intros Hw. apply (short_message_fits MsgType.RUN); [done|done|]. unfold is_u, kProgress. lia.
Qed.

Lemma stop_message_fits : msg_fits msg_stop /\ length (encode msg_stop) = 45%nat.
Proof. apply (short_message_fits MsgType.STOP); [done|unfold is_u; lia..]. Qed.

(** The stale reports leave a finished plan alone. *)
Lemma report_and_look_finished r ca cb s k p :
  plans s = {[k := p]} -> p_state p = PlanLifecycleState.SUCCEEDED -> value (er_plan_id r) = k ->
  report_and_look p r (MkWorld ca cb s) = (Go true, MkWorld ca cb s).
Proof.
  intros Hs Hp Hk. unfold report_and_look, on_planner. cbn [conn_a conn_b planner].
  rewrite (report_terminal r _ s p).
  - by rewrite (still_succeeded_one _ s k p).
  - rewrite Hs, Hk. apply lookup_singleton_eq.
  - by rewrite Hp.
Qed.

(** ** Plans that agree up to their explanation *)

Definition same_plan (p p' : RecoveryPlan) : Prop :=
  p_set_explanation default_explanation p' = p_set_explanation default_explanation p.

Lemma same_plan_message p p' : same_plan p p' -> plan_message p' = plan_message p.
Proof. intros E. exact (f_equal plan_message E). Qed.

Lemma same_plan_strategy p p' : same_plan p p' -> p_strategy p' = p_strategy p.
Proof. intros E. exact (f_equal p_strategy E). Qed.

Lemma same_plan_id p p' : same_plan p p' -> p_plan_id p' = p_plan_id p.
Proof. intros E. exact (f_equal p_plan_id E). Qed.

Lemma same_plan_ready q s p p' : same_plan p p' -> Ready q s p -> Ready q s p'.
Proof.
  intros E [H1 H2 H3 H4 H5 H6 H7].
  pose proof (f_equal p_target_worker E : p_target_worker p' = p_target_worker p) as Ew.
  pose proof (f_equal p_target_boot E : p_target_boot p' = p_target_boot p) as Eb.
  pose proof (f_equal p_plan_id E : p_plan_id p' = p_plan_id p) as Ei.
  pose proof (f_equal p_generation E : p_generation p' = p_generation p) as Eg.
  by split; rewrite ?Ew, ?Eb, ?Ei, ?Eg.
Qed.

Lemma strategy_code_u64 s : RecoveryStrategy.code s < 256 -> is_u 64 (RecoveryStrategy.code s).
Proof. intros H. pose proof (RecoveryStrategy.code_nonneg s). unfold is_u. lia. Qed.

Lemma plan_message_fits p :
  id_wf (p_plan_id p) -> id_wf (p_generation p) -> RecoveryStrategy.code (p_strategy p) < 256 ->
  (String.length (p_dispatch_payload p) <= 200)%nat ->
  msg_fits (plan_message p) /\ (length (encode (plan_message p)) <= 245)%nat.
Proof.
  intros Hi Hg Hs Hp.
  assert (MsgWf (plan_message p)) as Hwf.
  { split;
      [reflexivity|exact Hi|exact Hg|by apply strategy_code_u64| | | |cbn; unfold kBlobMax; lia|constructor];
      unfold kStrMax, is_u.
    - change (m_d (plan_message p)) with kProgress. unfold kProgress. lia.
    - change (m_s1 (plan_message p)) with (p_dispatch_payload p). lia.
    - change (m_s2 (plan_message p)) with "". cbn. lia. }
  pose proof (length_encode _ Hwf) as Hl.
  change (m_s1 (plan_message p)) with (p_dispatch_payload p) in Hl.
  change (m_s2 (plan_message p)) with "" in Hl. change (m_blob (plan_message p)) with (@nil Z) in Hl.
  cbn [String.length length] in Hl.
  split; [|lia]. split; [exact Hwf|]. unfold kMaxFramePayload. lia.
Qed.

Lemma redispatch_refused auth ca cb s p :
  plans s !! value (p_plan_id auth) = Some p -> terminal (p_state p) = true ->
  redispatch auth (MkWorld ca cb s) = (Go true, MkWorld ca cb s).
Proof.
  intros Hp Ht. destruct (dispatch_begin_terminal auth (MkUnit 0) s p Hp Ht) as [e He].
  unfold redispatch, p_bind, dispatch_b, dispatch_plan. cbn [conn_a conn_b planner].
  by rewrite He.
Qed.

Lemma unknown_completion d o recovered elapsed detail now s :
  dispatch_meta s = ∅ -> on_adapter_completion d o recovered elapsed detail now s = s.
Proof.
  intros Hm. unfold on_adapter_completion, take_completion. by rewrite Hm, lookup_empty.
Qed.
