(* ===== verification/CoordinatorProps.v ===== *)
(** * Properties of the coordinator's programs

    Both programs, from the registration of the workers to the rejection of stale
    reports, over connections that deliver the workers' messages in any pieces. *)

From Stdlib Require Import String.
From stdpp Require Import base gmap strings list.
From S2P Require Import Prelude Types Evidence Feasibility StdSort Economics Plan Explain.
From S2P Require Import Planner PlannerSpec Lifecycle LifecycleSpec Executor Program DecisionProps.
From S2P Require Import Codec Protocol Transport Network NetworkSpec Coordinator CoordinatorSpec.
#[local] Open Scope Z_scope.
#[local] Open Scope prog_scope.
#[local] Open Scope string_scope.

(** ** The plans of the programs *)

Definition decided_plan (q : RecoveryRequest) (cs : list RecoveryCandidate) (s : Planner)
    : RecoveryPlan :=
  default default_plan
    (de_plan (plan (sorter := insertion_std_sort) q cs (MkUnit 0) s).1).

Definition scenario_plan (sc : string) : RecoveryPlan :=
  decided_plan (scenario_request sc) (scenario_candidates sc) scenario_planner.
Definition restart_plan : RecoveryPlan :=
  decided_plan restart_request restart_candidates restart_planner.

Definition known_scenario (sc : string) : bool :=
  String.eqb sc "RESTORE" || String.eqb sc "RECOMPUTE" || String.eqb sc "SHADOW".

Lemma known_cases sc : known_scenario sc = true -> sc = "RESTORE" \/ sc = "RECOMPUTE" \/ sc = "SHADOW".
Proof.
  unfold known_scenario. intros H. apply orb_true_iff in H as [H|H]; [apply orb_true_iff in H as [H|H]|];
    apply String.eqb_eq in H; auto.
Qed.

Lemma scenario_distinct sc : DistinctIdentities (scenario_candidates sc).
Proof.
  apply distinct_identities.
  assert (identity_of <$> scenario_candidates sc = [(11, 11, 0); (12, 12, 6); (13, 13, 4); (14, 14, 1)])
    as -> by reflexivity.
  apply (bool_decide_unpack _). vm_compute. exact I.
Qed.

Lemma restart_distinct : DistinctIdentities restart_candidates.
Proof.
  apply distinct_identities.
  assert (identity_of <$> restart_candidates = [(11, 11, 0); (12, 12, 6); (13, 13, 4); (14, 14, 1)])
    as -> by reflexivity.
  apply (bool_decide_unpack _). vm_compute. exact I.
Qed.

(** What the runs need of a computed plan. *)
Record PlanFacts (worker boot : Z) (st : RecoveryStrategy.t) (p : RecoveryPlan) : Prop := {
  pf_id : p_plan_id p = MkId 1;
  pf_generation : p_generation p = MkId 1;
  pf_worker : p_target_worker p = MkId worker;
  pf_boot : p_target_boot p = MkId boot;
  pf_strategy : p_strategy p = st;
  pf_payload : (String.length (p_dispatch_payload p) <=? 200)%nat = true }.

Lemma scenario_plan_facts sc :
  known_scenario sc = true ->
  de_plan (plan (sorter := insertion_std_sort) (scenario_request sc) (scenario_candidates sc)
             (MkUnit 0) scenario_planner).1 = Some (scenario_plan sc) /\
  PlanFacts kWorkerB kBootB (scenario_expected sc) (scenario_plan sc).
Proof.
  intros [->|[->| ->]]%known_cases; (split; [vm_compute; reflexivity|]);
    split; vm_compute; reflexivity.
Qed.

Lemma restart_plan_facts :
  de_plan (plan (sorter := insertion_std_sort) restart_request restart_candidates
             (MkUnit 0) restart_planner).1 = Some restart_plan /\
  PlanFacts kWorkerA kBootC RecoveryStrategy.RESTART restart_plan.
Proof. split; [vm_compute; reflexivity|]. split; vm_compute; reflexivity. Qed.

Lemma facts_fit w b st p :
  PlanFacts w b st p -> RecoveryStrategy.code st < 256 ->
  msg_fits (plan_message p) /\ (length (encode (plan_message p)) <= 245)%nat.
Proof.
  intros [Hi Hg _ _ Hs Hp%Nat.leb_le] Hc.
  apply plan_message_fits; [by rewrite Hi|by rewrite Hg|by rewrite Hs|exact Hp].
Qed.

(** A live target makes the plan of a fresh planner ready. *)
Lemma facts_ready q s w b st p :
  PlanFacts w b st p -> plans s = ∅ -> dispatch_meta s = ∅ ->
  q_workload_generation q = ctx_workload_generation (ctx s) ->
  (MkId w : WorkerId) ∈ ctx_alive_workers (ctx s) ->
  ctx_worker_boots (ctx s) !! (MkId w : WorkerId) = Some (MkId b) -> Ready q s p.
Proof.
  intros [Hi Hg Hw Hb _ _] Hp Hm Hq Ha Hbt.
  by split; rewrite ?Hi, ?Hg, ?Hw, ?Hb.
Qed.

Lemma scenario_ready sc :
  known_scenario sc = true -> Ready (scenario_request sc) scenario_planner (scenario_plan sc).
Proof.
  intros Hsc. destruct (scenario_plan_facts sc Hsc) as [_ Hf].
  apply (facts_ready _ _ _ _ _ _ Hf); reflexivity.
Qed.

Lemma restart_ready : Ready restart_request restart_planner restart_plan.
Proof.
  apply (facts_ready _ _ _ _ _ _ (proj2 restart_plan_facts)); reflexivity.
Qed.

(** The messages of one peer of the scenario run. *)
Definition target_script (sc : string) (regB sync answer : Msg) : list Msg :=
  regB :: (if String.eqb sc "SHADOW" then [sync] else []) ++ [answer].

(** The message that asks the shadow to synchronise. *)
Definition sync_messages (sc : string) : list Msg :=
  if String.eqb sc "SHADOW" then [msg_run 2] else [].

Lemma primary_phase_ok sc ca cb s regA doneA regB sync answer ra rb :
  m_type regA = MsgType.REGISTER -> m_type doneA = MsgType.WORK_DONE ->
  m_type regB = MsgType.REGISTER -> arriving [regA; doneA] ra ca ->
  arriving (target_script sc regB sync answer) rb cb -> (58 <= room cb)%nat ->
  exists ca' cb', primary_phase sc (MkWorld ca cb s) = (Go tt, MkWorld ca' cb' s) /\
    arriving [answer] rb cb' /\ (room cb <= 58 + room cb')%nat /\
    ((58 <= room ca)%nat -> sent [msg_run 1] ca ca') /\ sent (sync_messages sc) cb cb'.
Proof.
  intros Ta Td Tb Ha Hb Hr. unfold primary_phase, target_script, sync_messages in *.
  destruct (run_message_fits 1) as [Hfit1 Hlen1]; [unfold is_u; lia|].
  destruct (recv_a_arriving _ _ _ _ cb s Ha) as (ca1 & E1 & Ha1 & O1).
  destruct (recv_b_arriving _ _ _ ca1 _ s Hb) as (cb1 & E2 & Hb1 & O2).
  destruct (send_a_goes (msg_run 1) _ _ _ cb1 s Ha1) as (ok & ca2 & E3 & Ha2 & W2).
  destruct (recv_a_arriving _ _ _ _ cb1 s Ha2) as (ca3 & E4 & _ & O4).
  assert ((58 <= room ca)%nat -> sent [msg_run 1] ca ca3) as Wa.
  { intros H. unfold sent, room in *. rewrite O4, W2, O1; [done|exact Hfit1|].
    rewrite Hlen1, O1. lia. }
  rewrite (p_bind_go _ _ _ _ _ E1), (p_bind_go _ _ _ _ _ E2).
  rewrite (p_bind_go _ _ _ _ _ (exit_if_false _ _ _
    (f_equal2 orb (not_type_false _ true _ Ta) (not_type_false _ true _ Tb)))).
  rewrite (p_bind_go _ _ _ _ _ E3), (p_bind_go _ _ _ _ _ E4).
  rewrite (p_bind_go _ _ _ _ _ (exit_if_false _ _ _ (not_type_false _ true _ Td))).
  destruct (String.eqb sc "SHADOW"); cbn [app] in Hb1.
  - destruct (run_message_fits 2) as [Hfit Hlen]; [unfold is_u; lia|].
    destruct (send_b_goes (msg_run 2) _ _ ca3 _ s Hb1 Hfit) as (cb2 & E5 & Hb2 & Hr2 & W5);
      [rewrite Hlen; unfold room in *; rewrite O2; lia|].
    destruct (recv_b_arriving _ _ _ ca3 _ s Hb2) as (cb3 & E6 & Hb3 & O6).
    rewrite (p_bind_go _ _ _ _ _ E5), (p_bind_go _ _ _ _ _ E6).
    exists ca3, cb3. unfold sent, room in *. rewrite O6, W5, O2. rewrite O2, Hlen in Hr2.
    split; [reflexivity|]. split; [exact Hb3|]. split; [exact Hr2|]. by split.
  - exists ca3, cb1. split; [reflexivity|]. split; [exact Hb1|].
    unfold room. rewrite O2. split; [lia|]. split; [exact Wa|by apply sent_nothing].
Qed.

Lemma construct_planner s' ca cb s :
  on_planner (fun _ => (tt, s')) (MkWorld ca cb s) = (Go tt, MkWorld ca cb s').
Proof. reflexivity. Qed.

(** What the coordinator sends to the target. *)
Definition to_target (sc : string) : list Msg :=
  sync_messages sc ++ [plan_message (scenario_plan sc); msg_stop].

(** The scenario run, with what it sends when there is room to send it. *)
Lemma scenario_run {sorter : StdSort} sc ca cb s regA doneA regB sync wk ra rb :
  known_scenario sc = true ->
  m_type regA = MsgType.REGISTER -> m_type doneA = MsgType.WORK_DONE ->
  m_type regB = MsgType.REGISTER -> worker_wf wk ->
  arriving [regA; doneA] ra ca ->
  arriving (target_script sc regB sync (complete_message wk (plan_message (scenario_plan sc)))) rb cb ->
  (316 <= room cb)%nat ->
  exists ca' cb' s' p, scenario_main sc (MkWorld ca cb s) = (Go true, MkWorld ca' cb' s') /\
    plans s' = {[1 := p]} /\ p_state p = PlanLifecycleState.SUCCEEDED /\
    ((58 <= room ca)%nat -> sent [msg_run 1] ca ca') /\
    ((374 <= room cb)%nat -> sent (to_target sc) cb cb').
Proof.
  intros Hsc Ta Td Tb Hwk Ha Hb Hr.
  destruct (scenario_plan_facts sc Hsc) as [Hplan Hf].
  destruct (plan_sort_agree insertion_std_sort _ _ _ _ _ (scenario_distinct sc) Hplan)
    as (p & Hp & Hsame). fold (same_plan (scenario_plan sc) p) in Hsame.
  destruct (primary_phase_ok sc ca cb s _ _ _ _ _ _ _ Ta Td Tb Ha Hb)
    as (ca1 & cb1 & E1 & Hb1 & Hr1 & Wa & Wb1); [lia|].
  pose proof (facts_fit _ _ _ _ Hf) as Hfit. unfold to_target.
  rewrite <- (same_plan_message _ _ Hsame) in Hfit, Hb1 |- *.
  destruct Hfit as [Hfit Hlen]; [by apply known_cases in Hsc as [->|[->| ->]]|].
  destruct (plan_and_dispatch_ok (scenario_request sc) (scenario_candidates sc)
              (scenario_expected sc) 8 9 10 ca1 cb1 scenario_planner p wk rb Hp)
    as (fin & cb2 & s2 & E2 & Hfin & Hfid & Hps & _ & Hr2 & Wb2).
  { rewrite (same_plan_strategy _ _ Hsame). exact (pf_strategy _ _ _ _ Hf). }
  { exact (same_plan_ready _ _ _ _ Hsame (scenario_ready sc Hsc)). }
  { exact Hwk. } { exact Hfit. } { lia. } { exact Hb1. }
  assert (p_plan_id p = MkId 1) as Hid
    by (rewrite (same_plan_id _ _ Hsame); exact (pf_id _ _ _ _ Hf)).
  rewrite Hid in Hfid, Hps. cbn [value] in Hps.
  assert (report_and_look fin (report_for fin kBootA ExecutionOutcome.SUCCEEDED)
            (MkWorld ca1 cb2 s2) = (Go true, MkWorld ca1 cb2 s2)) as E3.
  { apply (report_and_look_finished _ _ _ _ 1); [exact Hps|exact Hfin|].
    change (value (p_plan_id fin) = 1). by rewrite Hfid. }
  destruct (send_b_ends msg_stop ca1 cb2 s2) as (ok & cb3 & E4 & Wb3).
  destruct stop_message_fits as [Hsf Hsl].
  exists ca1, cb3, s2, fin. split; [|split; [exact Hps|]; split; [exact Hfin|]; split; [exact Wa|]].
  - unfold scenario_main. rewrite (p_bind_go _ _ _ _ _ E1). unfold recovery_phase.
    rewrite (p_bind_go _ _ _ _ _ (construct_planner scenario_planner ca1 cb1 s)).
    rewrite (p_bind_go _ _ _ _ _ E2). cbn [snd].
    rewrite (p_bind_go _ _ _ _ _ E3), (p_bind_go _ _ _ _ _ E4). reflexivity.
  - intros H. apply (sent_trans _ _ cb cb1); [exact Wb1|].
    apply (sent_trans [plan_message p] [msg_stop] cb1 cb2); [exact Wb2|].
    apply Wb3; [exact Hsf|]. lia.
Qed.

(** C13: The scenario run recovers: for RESTORE, RECOMPUTE and SHADOW, whichever
    correct sort ranks the candidates and however the two byte streams are cut,
    interrupted or partially written, when the primary registers and reports its
    work, the target registers and answers its dispatch as a worker does, the run
    selects the expected strategy, ends with exit code 0, leaves the plan
    [SUCCEEDED], and the stale report of the killed primary is rejected. *)
Theorem scenario_recovers {sorter : StdSort} sc ca cb s regA doneA regB sync answer wk ra rb :
  known_scenario sc = true ->
  m_type regA = MsgType.REGISTER -> m_type doneA = MsgType.WORK_DONE ->
  m_type regB = MsgType.REGISTER -> worker_wf wk ->
  worker_on_message wk (plan_message (scenario_plan sc)) = Answer answer ->
  arriving [regA; doneA] ra ca -> arriving (target_script sc regB sync answer) rb cb ->
  (316 <= room cb)%nat ->
  exists w p, scenario_main sc (MkWorld ca cb s) = (Go true, w) /\
    plans (planner w) = {[1 := p]} /\ p_state p = PlanLifecycleState.SUCCEEDED.
Proof.
  intros Hsc Ta Td Tb Hwk Hans Ha Hb Hr. injection Hans as <-.
  destruct (scenario_run sc ca cb s _ _ _ _ _ _ _ Hsc Ta Td Tb Hwk Ha Hb Hr)
    as (ca' & cb' & s' & p & E & Hp & Hfin & _).
  by exists (MkWorld ca' cb' s'), p.
Qed.

(** ** The restart run *)

Lemma fresh_incarnation_reg b m :
  m_type m = MsgType.REGISTER -> m_a m = kWorkerA -> m_b m = kBootC ->
  fresh_incarnation (b, m) = true.
Proof.
  intros Ht Ha Hb. unfold fresh_incarnation. rewrite not_type_false by exact Ht.
  cbn [snd]. by rewrite Ha, Hb.
Qed.

(** The checks after the restart, on a finished plan. *)
Lemma stale_traffic_rejected ca cb s p fin :
  plans s = {[1 := fin]} -> p_state fin = PlanLifecycleState.SUCCEEDED ->
  p_plan_id fin = MkId 1 -> p_plan_id p = MkId 1 -> dispatch_meta s = ∅ ->
  (forall boot o, report_and_look fin (report_for fin boot o) (MkWorld ca cb s) =
                  (Go true, MkWorld ca cb s)) /\
  on_planner (fun s =>
    let s := on_adapter_completion (MkId 999999) ExecutionOutcome.SUCCEEDED (MkUnit kProgress)
               (MkUnit 0) "stale attempt" (MkUnit 0) s in
    (still_succeeded (p_plan_id fin) s, s)) (MkWorld ca cb s) = (Go true, MkWorld ca cb s) /\
  redispatch (authorized p) (MkWorld ca cb s) = (Go true, MkWorld ca cb s).
Proof.
  intros Hps Hfin Hid Hpid Hm. split_and!.
  - intros boot o. apply (report_and_look_finished _ _ _ _ 1); [exact Hps|exact Hfin|].
    change (value (p_plan_id fin) = 1). by rewrite Hid.
  - unfold on_planner. cbn [conn_a conn_b planner]. rewrite unknown_completion by exact Hm.
    by rewrite (still_succeeded_one _ s 1 fin).
  - apply (redispatch_refused _ _ _ _ fin); [|by rewrite Hfin].
    change (plans s !! value (p_plan_id p) = Some fin). rewrite Hpid, Hps. apply lookup_singleton_eq.
Qed.

(** What the coordinator sends to the fresh incarnation. *)
Definition to_fresh : list Msg := [plan_message restart_plan; msg_stop].

(** The restart run, with what it sends when there is room to send it. *)
Lemma restart_run {sorter : StdSort} ca cb s regA doneA regC wk ra rb :
  m_type regA = MsgType.REGISTER -> m_type doneA = MsgType.WORK_DONE ->
  m_type regC = MsgType.REGISTER -> m_a regC = kWorkerA -> m_b regC = kBootC -> worker_wf wk ->
  arriving [regA; doneA] ra ca ->
  arriving [regC; complete_message wk (plan_message restart_plan)] rb cb -> (258 <= room cb)%nat ->
  exists ca' cb' s' p,
    restart_main (MkWorld ca cb s) = (Go (true, true, true, true), MkWorld ca' cb' s') /\
    plans s' = {[1 := p]} /\ p_state p = PlanLifecycleState.SUCCEEDED /\
    ((58 <= room ca)%nat -> sent [msg_run 1] ca ca') /\
    ((316 <= room cb)%nat -> sent to_fresh cb cb').
Proof.
  intros Ta Td Tc Hca Hcb Hwk Ha Hb Hr.
  destruct restart_plan_facts as [Hplan Hf].
  destruct (plan_sort_agree insertion_std_sort _ _ _ _ _ restart_distinct Hplan)
    as (p & Hp & Hsame). fold (same_plan restart_plan p) in Hsame.
  destruct (run_message_fits 1) as [Hfit1 Hlen1]; [unfold is_u; lia|].
  destruct (recv_a_arriving _ _ _ _ cb s Ha) as (ca1 & E1 & Ha1 & O1).
  destruct (send_a_goes (msg_run 1) _ _ _ cb s Ha1) as (ok & ca2 & E2 & Ha2 & W2).
  destruct (recv_a_arriving _ _ _ _ cb s Ha2) as (ca3 & E3 & _ & O3).
  assert (restart_primary (MkWorld ca cb s) = (Go tt, MkWorld ca3 cb s)) as E0.
  { unfold restart_primary. rewrite (p_bind_go _ _ _ _ _ E1).
    rewrite (p_bind_go _ _ _ _ _ (exit_if_false _ _ _ (not_type_false _ true _ Ta))).
    rewrite (p_bind_go _ _ _ _ _ E2), (p_bind_go _ _ _ _ _ E3).
    exact (exit_if_false _ _ _ (not_type_false _ true _ Td)). }
  destruct (recv_b_arriving _ _ _ ca3 _ s Hb) as (cb1 & E4 & Hb1 & O4).
  assert (room cb1 = room cb) as Hr1 by (unfold room; by rewrite O4).
  destruct (facts_fit _ _ _ _ Hf) as [Hfit Hlen]; [done|]. unfold to_fresh.
  rewrite <- (same_plan_message _ _ Hsame) in Hfit, Hlen, Hb1 |- *.
  destruct (plan_and_dispatch_ok restart_request restart_candidates
              RecoveryStrategy.RESTART 10 11 12 ca3 cb1 restart_planner p wk rb Hp)
    as (fin & cb2 & s2 & E5 & Hfin & Hfid & Hps & Hm & Hr2 & W5).
  { rewrite (same_plan_strategy _ _ Hsame). exact (pf_strategy _ _ _ _ Hf). }
  { exact (same_plan_ready _ _ _ _ Hsame restart_ready). }
  { exact Hwk. } { exact Hfit. } { lia. } { exact Hb1. }
  assert (p_plan_id p = MkId 1) as Hid
    by (rewrite (same_plan_id _ _ Hsame); exact (pf_id _ _ _ _ Hf)).
  rewrite Hid in Hfid, Hps. cbn [value] in Hps.
  destruct (stale_traffic_rejected ca3 cb2 s2 p fin Hps Hfin Hfid Hid Hm) as (R1 & R2 & R3).
  destruct (send_b_ends msg_stop ca3 cb2 s2) as (ok' & cb3 & E6 & W6).
  destruct stop_message_fits as [Hsf Hsl].
  exists ca3, cb3, s2, fin. split; [|split; [exact Hps|]; split; [exact Hfin|]; split].
  - unfold restart_main. rewrite (p_bind_go _ _ _ _ _ E0). unfold restart_recovery.
    rewrite (p_bind_go _ _ _ _ _ E4).
    rewrite (p_bind_go _ _ _ _ _ (exit_if_false _ _ _
      (f_equal negb (fresh_incarnation_reg true _ Tc Hca Hcb)))).
    rewrite (p_bind_go _ _ _ _ _ (construct_planner restart_planner ca3 cb1 s)).
    rewrite (p_bind_go _ _ _ _ _ E5).
    rewrite (p_bind_go _ _ _ _ _ (R1 kBootA ExecutionOutcome.SUCCEEDED)).
    rewrite (p_bind_go _ _ _ _ _ R2), (p_bind_go _ _ _ _ _ R3).
    rewrite (p_bind_go _ _ _ _ _ (R1 kBootC ExecutionOutcome.FAILED)).
    rewrite (p_bind_go _ _ _ _ _ E6). reflexivity.
  - intros H. unfold sent, room in *. rewrite O3, W2, O1; [done|exact Hfit1|].
    rewrite Hlen1, O1. lia.
  - intros H. apply (sent_trans [plan_message p] [msg_stop] cb cb2).
    + unfold sent in *. by rewrite W5, O4.
    + apply W6; [exact Hsf|]. lia.
Qed.

(** The restart run recovers and fences: when the primary registers and reports
    its work, and a fresh incarnation of the same worker registers under the new
    boot and answers its dispatch, the run selects RESTART, the plan succeeds, and
    the stale boot, attempt, dispatch and completion are each rejected. *)
Theorem restart_recovers {sorter : StdSort} ca cb s regA doneA regC answer wk ra rb :
  m_type regA = MsgType.REGISTER -> m_type doneA = MsgType.WORK_DONE ->
  m_type regC = MsgType.REGISTER -> m_a regC = kWorkerA -> m_b regC = kBootC -> worker_wf wk ->
  worker_on_message wk (plan_message restart_plan) = Answer answer ->
  arriving [regA; doneA] ra ca -> arriving [regC; answer] rb cb -> (258 <= room cb)%nat ->
  exists w p, restart_main (MkWorld ca cb s) = (Go (true, true, true, true), w) /\
    plans (planner w) = {[1 := p]} /\ p_state p = PlanLifecycleState.SUCCEEDED.
Proof.
  intros Ta Td Tc Hca Hcb Hwk Hans Ha Hb Hr. injection Hans as <-.
  destruct (restart_run ca cb s _ _ _ _ _ _ Ta Td Tc Hca Hcb Hwk Ha Hb Hr)
    as (ca' & cb' & s' & p & E & Hp & Hfin & _).
  by exists (MkWorld ca' cb' s'), p.
Qed.

(** ** A concrete run: everything arrives in pieces of three bytes *)

(** The stream cut into pieces of at most [S n] bytes, an interruption before each. *)
Fixpoint cut (fuel n : nat) (bs : list Z) : list Segment :=
  match fuel, bs with
  | S fuel', _ :: _ => Interrupted :: Data (take (S n) bs) :: cut fuel' n (drop (S n) bs)
  | _, _ => []
  end.

Lemma stream_cut fuel n bs : (length bs <= fuel)%nat -> stream (cut fuel n bs) = bs.
Proof.
  revert bs. induction fuel as [|fuel IH]; intros [|b bs] H; try done; cbn in H; [lia|].
  cbn [cut stream take drop]. rewrite IH by (rewrite length_drop; lia).
  cbn [app]. by rewrite take_drop.
Qed.

Definition peer (ms : list Msg) : Connection :=
  MkConnection (cut (length (frames ms)) 2 (frames ms))
    (MkOutbound [] (replicate 400 (Sent 3))).

Lemma peer_arriving ms : Forall msg_fits ms -> arriving ms [] (peer ms).
Proof.
  intros Hms. split; [exact Hms|]. rewrite app_nil_r. cbn [peer inbound].
  apply stream_cut. lia.
Qed.

Definition worker_a : Worker := MkWorker kWorkerA kBootA 1 "primary".
Definition worker_b : Worker := MkWorker kWorkerB kBootB 1 "target".
Definition worker_c : Worker := MkWorker kWorkerA kBootC 1 "restart".

(** What worker [w] answers, or its registration when it answers nothing. *)
Definition answer_of (w : Worker) (m : Msg) : Msg :=
  match worker_on_message w m with Answer r => r | _ => registration w end.

Ltac msg_field :=
  lazymatch goal with
  | |- _ < _ => vm_compute; reflexivity
  | |- _ <= _ => vm_compute; discriminate
  | |- is_u _ _ => split; [vm_compute; discriminate|vm_compute; reflexivity]
  | |- Forall is_byte _ => vm_compute; repeat constructor; discriminate
  end.
Ltac fits := split; [split; msg_field|msg_field].
Ltac all_fit := repeat (apply Forall_cons_2; [fits|]); apply Forall_nil_2.

Definition primary_script : list Msg :=
  [registration worker_a; answer_of worker_a (msg_run 1)].
Definition shadow_script : list Msg :=
  target_script "SHADOW" (registration worker_b) (answer_of worker_b (msg_run 2))
    (complete_message worker_b (plan_message (scenario_plan "SHADOW"))).
Definition fresh_script : list Msg :=
  [registration worker_c; complete_message worker_c (plan_message restart_plan)].

Lemma scripts_fit :
  Forall msg_fits primary_script /\ Forall msg_fits shadow_script /\ Forall msg_fits fresh_script.
Proof. split_and!; all_fit. Qed.

Lemma scenario_recovers_witness :
  exists w p, scenario_main (sorter := insertion_std_sort) "SHADOW"
                (MkWorld (peer primary_script) (peer shadow_script) new_planner) = (Go true, w) /\
    plans (planner w) = {[1 := p]} /\ p_state p = PlanLifecycleState.SUCCEEDED.
Proof.
  apply (scenario_recovers "SHADOW" (peer primary_script) (peer shadow_script) new_planner
    (registration worker_a) (answer_of worker_a (msg_run 1)) (registration worker_b)
    (answer_of worker_b (msg_run 2))
    (complete_message worker_b (plan_message (scenario_plan "SHADOW"))) worker_b [] []).
  - reflexivity.
  - reflexivity.
  - reflexivity.
  - reflexivity.
  - split; (split; [discriminate|reflexivity]).
  - reflexivity.
  - exact (peer_arriving primary_script (proj1 scripts_fit)).
  - exact (peer_arriving shadow_script (proj1 (proj2 scripts_fit))).
  - apply Nat.leb_le. vm_compute. reflexivity.
Defined.

Lemma restart_recovers_witness :
  exists w p, restart_main (sorter := insertion_std_sort)
                (MkWorld (peer primary_script) (peer fresh_script) new_planner) =
                (Go (true, true, true, true), w) /\
    plans (planner w) = {[1 := p]} /\ p_state p = PlanLifecycleState.SUCCEEDED.
Proof.
  apply (restart_recovers (peer primary_script) (peer fresh_script) new_planner
    (registration worker_a) (answer_of worker_a (msg_run 1)) (registration worker_c)
    (complete_message worker_c (plan_message restart_plan)) worker_c [] []).
  - reflexivity.
  - reflexivity.
  - reflexivity.
  - reflexivity.
  - reflexivity.
  - split; (split; [discriminate|reflexivity]).
  - reflexivity.
  - exact (peer_arriving primary_script (proj1 scripts_fit)).
  - exact (peer_arriving fresh_script (proj2 (proj2 scripts_fit))).
  - apply Nat.leb_le. vm_compute. reflexivity.
Defined.

(** The registrations are looked at, but not the result of [recv]: a message cut
    after its integers does not decode and still registers its sender. *)
Definition cut_registration : list Z := take 33 (encode (registration worker_a)).

Lemma cut_registration_accepted c c' :
  decode cut_registration = None /\
  (conn_recv c = (Ok (Some cut_registration), c') ->
   exists m, recv c = (Ok (false, m), c') /\ not_type MsgType.REGISTER (false, m) = false).
Proof.
  split; [vm_compute; reflexivity|]. intros Hr. unfold recv. rewrite Hr.
  exists (decode_into cut_registration default_msg).2. split; [|vm_compute; reflexivity].
  assert (decode_into cut_registration default_msg =
          (false, (decode_into cut_registration default_msg).2)) as E by (vm_compute; reflexivity).
  by rewrite <- E.
Qed.
