(* ===== verification/Launch.v ===== *)
(** * The coordinator's [main], its workers started and killed

    Models the rest of [distributed/coordinator_main.cpp]: the command line, the
    listener, starting, accepting and killing the worker processes, and the exit
    codes.  On Windows the coordinator starts its workers; elsewhere
    [spawn_worker] and [kill_process] do nothing and the workers are started by
    hand. *)

From stdpp Require Import base gmap strings list relations.
From S2P Require Import Prelude Types Evidence StdSort Economics Plan Explain.
From S2P Require Import Planner PlannerSpec Lifecycle LifecycleSpec Executor Program LifecycleProps.
From S2P Require Import Protocol Transport Network Coordinator CoordinatorSpec CoordinatorProps.
#[local] Open Scope Z_scope.
#[local] Open Scope string_scope.
#[local] Open Scope prog_scope.

(** ** The command line *)

(** The loop over [argv] after the program's name: the value after the last
    [--scenario] that has one. *)
Fixpoint scenario_of_args (args : list string) (scenario : string) : string :=
  match args with
  | a :: ((b :: rest) as tl) =>
      if String.eqb a "--scenario" then scenario_of_args rest b else scenario_of_args tl scenario
  | _ => scenario
  end.

(** ** Processes *)

(** Results of the system's calls: whether the listener binds, a first and a second
    worker start, and a first and a second connection are accepted. *)
Record Startup := MkStartup {
  su_windows : bool;
  su_bind : bool;
  su_spawn_1 : bool;
  su_spawn_2 : bool;
  su_accept_1 : bool;
  su_accept_2 : bool }.

(** The coordinator and the boots of the workers it has started and not killed.
    The connections are those the accepted sockets give. *)
Record Job := MkJob { jb_world : World; jb_running : list Z }.

Definition JProg (A : Type) : Type := Job -> Exit A * Job.

Definition in_world {A} (m : Prog A) : JProg A := fun j =>
  let '(r, w) := m (jb_world j) in (r, MkJob w (jb_running j)).

Definition need (ok : bool) (code : Z) : JProg unit := fun j =>
  if ok then (Go tt, j) else (Return code, j).

Definition spawn_worker (windows ok : bool) (boot code : Z) : JProg unit := fun j =>
  if negb windows then (Go tt, j)
  else if ok then (Go tt, MkJob (jb_world j) (boot :: jb_running j)) else (Return code, j).

Definition kill_process (boot : Z) : JProg unit := fun j =>
  (Go tt, MkJob (jb_world j) (filter (fun b => b <> boot) (jb_running j))).

(** ** [main] *)

Section Main.
Context {sorter : StdSort} (su : Startup).

Definition scenario_process (scenario : string) : JProg Z :=
  do! _ := need (su_bind su) 2 in
  do! _ := spawn_worker (su_windows su) (su_spawn_1 su) kBootA 3 in
  do! _ := spawn_worker (su_windows su) (su_spawn_2 su) kBootB 4 in
  do! _ := need (su_accept_1 su && su_accept_2 su) 5 in
  do! _ := in_world (primary_phase scenario) in
  do! _ := kill_process kBootA in
  do! _ := in_world (recovery_phase scenario) in
  do! _ := kill_process kBootB in
  p_ret 0.

Definition run_restart_proof : JProg Z :=
  do! _ := need (su_bind su) 2 in
  do! _ := spawn_worker (su_windows su) (su_spawn_1 su) kBootA 3 in
  do! _ := need (su_accept_1 su) 4 in
  do! _ := in_world restart_primary in
  do! _ := kill_process kBootA in
  do! _ := spawn_worker (su_windows su) (su_spawn_2 su) kBootC 7 in
  do! _ := need (su_accept_2 su) 8 in
  do! r := in_world restart_recovery in
  do! _ := kill_process kBootC in
  let '(boot, attempt, dispatch, completion) := r in
  p_ret (if boot && attempt && dispatch && completion then 0 else 13).

(** [argv] begins with the program's name. *)
Definition coordinator_main (argv : list string) : JProg Z :=
  let scenario := scenario_of_args (tail argv) "RESTORE" in
  if String.eqb scenario "RESTART" then run_restart_proof else scenario_process scenario.
End Main.

(** ** The planner's plans along a program *)

Section Follow.
Context {sorter : StdSort}.

(** Plans are kept and only stepped. *)
Definition Follows (s s' : Planner) : Prop := rtc (fun s s' => plans_step (plans s) (plans s')) s s'.

#[export] Instance follows_preorder : PreOrder Follows.
Proof. split; [intros s; apply rtc_refl|intros s1 s2 s3; apply rtc_trans]. Qed.

Lemma follows_event e s : (forall q cs now, e <> EPlan q cs now) -> Follows s (exec e s).
Proof. intros He. by apply rtc_once, lifecycle_step. Qed.

Lemma follows_plan s s' k p :
  Follows s s' -> plans s !! k = Some p ->
  exists p', plans s' !! k = Some p' /\ rtc plan_step p p'.
Proof.
  intros H. revert p. induction H as [s|s s1 s' H1 _ IH]; intros p Hk; [by exists p|].
  destruct (plans_step_forward _ _ _ _ H1 Hk) as (p1 & Hk1 & Hs).
  destruct (IH p1 Hk1) as (p' & Hk' & Hr). exists p'. split; [done|]. by eapply rtc_l.
Qed.

(** A plan of the strategy is stored under [k] and has succeeded. *)
Definition Succeeded (k : Z) (st : RecoveryStrategy.t) (s : Planner) : Prop :=
  exists p, plans s !! k = Some p /\ p_state p = PlanLifecycleState.SUCCEEDED /\ p_strategy p = st.

Lemma succeeded_follows k st s s' : Follows s s' -> Succeeded k st s -> Succeeded k st s'.
Proof.
  intros Hf (p & Hk & Hs & Hst). destruct (follows_plan _ _ _ _ Hf Hk) as (p' & Hk' & Hr).
  exists p'. split; [done|]. pose proof (rtc_step_terminal _ _ Hr) as Ht. rewrite Hs in Ht.
  specialize (Ht eq_refl). split.
  - rewrite <- Hs. exact (f_equal p_state Ht).
  - rewrite <- Hst. exact (f_equal p_strategy Ht).
Qed.

Lemma follows_completion d o recovered elapsed detail now s :
  Follows s (on_adapter_completion d o recovered elapsed detail now s).
Proof.
  unfold on_adapter_completion.
  pose proof (follows_event (ETakeCompletion d o recovered elapsed detail) s) as H1.
  cbn [exec] in H1.
  destruct (take_completion d o recovered elapsed detail s) as [[r|] s']; cbn [snd] in H1;
    [|by apply H1].
  etransitivity; [by apply H1|]. by apply (follows_event (EReport r now)).
Qed.

Lemma follows_network now now' d c s : Follows s (network_dispatch now now' d (c, s)).2.2.
Proof.
  unfold network_dispatch.
  destruct (conn_send _ c) as [[|] c1]; [|reflexivity].
  destruct (conn_recv c1) as [[[resp|]|e] c2]; [|reflexivity..].
  destruct (decode resp) as [r|]; [|reflexivity].
  destruct (bool_decide (m_type r = MsgType.COMPLETE)); [|reflexivity].
  apply follows_completion.
Qed.

(** A dispatch over the network; a plan it returns is the stored one. *)
Lemma dispatch_b_ends auth w codes (post : Result Exception RecoveryPlan -> World -> Prop) :
  (forall r s' ca cb, Follows (planner w) s' ->
     (forall p, r = Ok p -> plans s' !! value (p_plan_id auth) = Some p) ->
     post r (MkWorld ca cb s')) ->
  ends (dispatch_b auth) w codes post.
Proof.
  intros H. unfold ends, dispatch_b, dispatch_plan.
  pose proof (follows_event (EDispatchBegin auth (MkUnit 0)) (planner w)) as H1. cbn [exec] in H1.
  destruct (dispatch_begin auth (MkUnit 0) (planner w)) as [[d|err] s1]; cbn [snd] in H1;
    [|apply H; [by apply H1|discriminate]].
  cbn [dispatch make_network_executor].
  pose proof (follows_network (MkUnit 0) (MkUnit 0) d (conn_b w) s1) as H2.
  destruct (network_dispatch _ _ d (conn_b w, s1)) as [[receipt|msg] [c2 s2]]; cbn [snd] in H2;
    [|apply H; [by etransitivity; [by apply H1|]|discriminate]].
  pose proof (follows_event (EDispatchFinish auth (rr_status receipt) (MkUnit 0)) s2) as H3.
  cbn [exec] in H3. unfold dispatch_finish in *.
  destruct (plans s2 !! value (p_plan_id auth)) as [stored|]; cbn [snd recovery_result] in *;
    (apply H; [etransitivity; [by apply H1|]; etransitivity; [exact H2|by apply H3]|]).
  - intros p [= <-]. apply lookup_insert_eq.
  - discriminate.
Qed.
End Follow.

(** ** The programs *)

Section Programs.
Context {sorter : StdSort}.

Lemma planned_stored q cs now s p :
  de_plan (plan q cs now s).1 = Some p ->
  plans (plan q cs now s).2 !! value (p_plan_id p) = Some p.
Proof.
  assert (forall c d s0, PlanFor q (ctx s) now (next_plan_id s) (next_generation s) c p ->
    plans s0 = plans s -> plans (with_new_plan q now p d s0) !! value (p_plan_id p) = Some p) as H.
  { intros c d s0 Hp Hs. rewrite (with_new_plan_plans _ _ _ _ _ _ _ _ _ _ _ Hp Hs).
    rewrite (f_equal p_plan_id Hp : p_plan_id p = _). apply lookup_insert_eq. }
  destruct (plan_result q cs now s)
    as [d Hn Ho Hp|d Hn Hx Ho Hp|d c p' Hb Hp Ho Hd|d c p' Hn Hb Hp Ho Hd];
    intros Hplan; simplify_eq; exact (H c d _ Hp eq_refl).
Qed.

(** What is returned has succeeded, with the expected strategy. *)
Lemma plan_and_dispatch_ends q cs expected c1 c2 c3 w :
  ends (plan_and_dispatch q cs expected c1 c2 c3) w (fun c => c = c1 \/ c = c2 \/ c = c3)
    (fun r w' => exists k, Succeeded k expected (planner w')).
Proof.
  unfold plan_and_dispatch. apply ends_bind.
  pose proof (planned_stored q cs (MkUnit 0) (planner w)) as Hst.
  unfold ends at 1, on_planner. destruct (plan q cs (MkUnit 0) (planner w)) as [d s1].
  cbn [fst snd] in Hst. destruct (de_plan d) as [p|]; [|cbn; auto].
  specialize (Hst p eq_refl). apply ends_bind, ends_exit_if; [auto|]. intros He.
  apply negb_false_iff, bool_decide_eq_true in He.
  apply ends_bind. unfold ends at 1, on_planner. cbn [planner conn_a conn_b].
  unfold authorize_plan. rewrite Hst.
  pose proof (follows_event (EAuthorize p (MkUnit 0)) s1) as Hf. cbn [exec] in Hf.
  unfold authorize_plan in Hf. rewrite Hst in Hf.
  destruct (negb (plan_authority_current p (ctx s1))).
  { apply ends_bind, ends_or_raise. discriminate. }
  destruct (negb (validate_plan_transition (p_state p) _)).
  { apply ends_bind, ends_or_raise. discriminate. }
  apply ends_bind, ends_or_raise. intros auth [= <-]. cbn [snd] in Hf.
  set (s2 := store_plan _ _ s1) in *. set (auth := p_set_updated _ _).
  apply ends_bind, dispatch_b_ends. intros r s3 ca cb Hf3 Hr.
  apply ends_bind, ends_or_raise. intros p3 ->. specialize (Hr p3 eq_refl).
  apply ends_bind, ends_exit_if; [auto|]. intros Hs%negb_false_iff%bool_decide_eq_true.
  cbn. exists (value (p_plan_id p)), p3. change (p_plan_id auth) with (p_plan_id p) in Hr.
  split; [exact Hr|]. split; [exact Hs|].
  destruct (follows_plan s1 s3 (value (p_plan_id p)) p) as (p' & Hp' & Hst'); [|exact Hst|].
  { etransitivity; [by apply Hf|exact Hf3]. }
  rewrite Hr in Hp'. injection Hp' as <-. rewrite <- He.
  exact (f_equal p_strategy (rtc_step_fixed _ _ Hst')).
Qed.

Lemma report_and_look_ends p r w codes (post : bool -> World -> Prop) :
  (forall b s' ca cb, Follows (planner w) s' -> post b (MkWorld ca cb s')) ->
  ends (report_and_look p r) w codes post.
Proof. intros H. apply H. by apply (follows_event (EReport r (MkUnit 0))). Qed.

Lemma send_b_follows m w codes (post : bool -> World -> Prop) :
  (forall b ca cb, post b (MkWorld ca cb (planner w))) -> ends (send_b m) w codes post.
Proof. intros H. unfold ends, send_b. destruct (send_msg m (conn_b w)) as [ok c]. apply H. Qed.

(** After the plan has succeeded, whatever is reported leaves it so. *)
Lemma recovery_phase_ends sc w :
  ends (recovery_phase sc) w (fun c => 8 <= c <= 10)
    (fun _ w' => exists k, Succeeded k (scenario_expected sc) (planner w')).
Proof.
  unfold recovery_phase. apply ends_bind. cbn. apply ends_bind.
  eapply ends_weaken; [apply plan_and_dispatch_ends|cbv beta; lia|].
  intros [auth p] w' [k Hk]. apply ends_bind, report_and_look_ends. intros b s' ca cb Hf.
  apply ends_bind, send_b_follows. intros b' ca' cb'. exists k. by eapply succeeded_follows.
Qed.

Lemma redispatch_ends auth w codes (post : bool -> World -> Prop) :
  (forall b s' ca cb, Follows (planner w) s' -> post b (MkWorld ca cb s')) ->
  ends (redispatch auth) w codes post.
Proof.
  intros H. unfold redispatch. apply ends_bind, dispatch_b_ends. intros r s' ca cb Hf _.
  destruct r as [p|[e|e]]; [by apply H|by apply H|]. by apply ends_or_raise.
Qed.

Lemma restart_recovery_ends w :
  ends restart_recovery w (fun c => 9 <= c <= 12)
    (fun _ w' => exists k, Succeeded k RecoveryStrategy.RESTART (planner w')).
Proof.
  unfold restart_recovery. apply ends_bind.
  unfold ends at 1, recv_b. destruct (recv (conn_b w)) as [[m|e] c]; [|exact I].
  apply ends_bind, ends_exit_if; [lia|]. intros _. apply ends_bind. cbn. apply ends_bind.
  eapply ends_weaken; [apply plan_and_dispatch_ends|cbv beta; lia|].
  intros [auth p] w' [k Hk]. apply ends_bind, report_and_look_ends. intros b1 s1 ca1 cb1 H1.
  apply ends_bind. cbn. set (s2 := on_adapter_completion _ _ _ _ _ _ s1).
  assert (Follows s1 s2) as H2 by apply follows_completion.
  apply ends_bind, redispatch_ends. intros b3 s3 ca3 cb3 H3.
  apply ends_bind, report_and_look_ends. intros b4 s4 ca4 cb4 H4.
  apply ends_bind, send_b_follows. intros b5 ca5 cb5. exists k.
  cbn [planner] in *. eapply succeeded_follows; [|exact Hk].
  etransitivity; [exact H1|]. etransitivity; [exact H2|]. by etransitivity.
Qed.

(** The two phases before: the codes only. *)
Lemma ends_recv_a w codes (post : bool * Msg -> World -> Prop) :
  (forall m w', post m w') -> ends recv_a w codes post.
Proof. intros H. unfold ends, recv_a. destruct (recv (conn_a w)) as [[m|e] c]; auto. Qed.

Lemma ends_recv_b w codes (post : bool * Msg -> World -> Prop) :
  (forall m w', post m w') -> ends recv_b w codes post.
Proof. intros H. unfold ends, recv_b. destruct (recv (conn_b w)) as [[m|e] c]; auto. Qed.

Lemma ends_send_a m w codes (post : bool -> World -> Prop) :
  (forall b w', post b w') -> ends (send_a m) w codes post.
Proof. intros H. unfold ends, send_a. destruct (send_msg m (conn_a w)). auto. Qed.

Lemma primary_phase_ends sc w : ends (primary_phase sc) w (fun c => c = 6 \/ c = 7) (fun _ _ => True).
Proof.
  unfold primary_phase. apply ends_bind, ends_recv_a. intros ra w1.
  apply ends_bind, ends_recv_b. intros rb w2. apply ends_bind, ends_exit_if; [auto|]. intros _.
  apply ends_bind, ends_send_a. intros b w3. apply ends_bind, ends_recv_a. intros d w4.
  apply ends_bind, ends_exit_if; [auto|]. intros _. destruct (String.eqb sc "SHADOW"); [|done].
  apply ends_bind, send_b_follows. intros b' ca cb. by apply ends_bind, ends_recv_b.
Qed.

Lemma restart_primary_ends w : ends restart_primary w (fun c => c = 5 \/ c = 6) (fun _ _ => True).
Proof.
  unfold restart_primary. apply ends_bind, ends_recv_a. intros ra w1.
  apply ends_bind, ends_exit_if; [auto|]. intros _.
  apply ends_bind, ends_send_a. intros b w3. apply ends_bind, ends_recv_a. intros d w4.
  apply ends_exit_if; auto.
Qed.
End Programs.

(** ** The process *)

Lemma ends_need ok code j codes (post : unit -> Job -> Prop) :
  codes code -> post tt j -> ends (need ok code) j codes post.
Proof. unfold ends, need. destruct ok; auto. Qed.

Lemma ends_in_world {A} (m : Prog A) j (codes : Z -> Prop) (post : A -> Job -> Prop) :
  ends m (jb_world j) codes (fun a w => post a (MkJob w (jb_running j))) ->
  ends (in_world m) j codes post.
Proof. unfold ends, in_world. by destruct (m (jb_world j)) as [[a|c|e] w]. Qed.

(** Running after a start: the boot, or nothing new. *)
Lemma ends_spawn windows ok boot code j codes (post : unit -> Job -> Prop) :
  codes code -> (forall r, r = [] \/ r = [boot] -> post tt (MkJob (jb_world j) (r ++ jb_running j))) ->
  ends (spawn_worker windows ok boot code) j codes post.
Proof.
  intros Hc Hp. unfold ends, spawn_worker. destruct j as [w rs].
  destruct windows; cbn [negb]; [destruct ok; [|exact Hc]|].
  - exact (Hp [boot] (or_intror eq_refl)).
  - exact (Hp [] (or_introl eq_refl)).
Qed.

Lemma ends_kill boot j codes (post : unit -> Job -> Prop) :
  post tt (MkJob (jb_world j) (filter (fun b => b <> boot) (jb_running j))) ->
  ends (kill_process boot) j codes post.
Proof. done. Qed.

Definition early_exit (c : Z) : Prop := 2 <= c <= 12.

Section Process.
Context {sorter : StdSort} (su : Startup) (w : World).

(** The workers are killed and a plan of the strategy has succeeded. *)
Definition Recovered (st : RecoveryStrategy.t) (j : Job) : Prop :=
  jb_running j = [] /\ exists k, Succeeded k st (planner (jb_world j)).

Lemma scenario_process_ends sc :
  ends (scenario_process su sc) (MkJob w []) early_exit
    (fun c j => c = 0 /\ Recovered (scenario_expected sc) j).
Proof.
  unfold scenario_process, early_exit. apply ends_bind, ends_need; [lia|].
  apply ends_bind, ends_spawn; [lia|]. intros ra Ha. apply ends_bind, ends_spawn; [lia|].
  intros rb Hb. apply ends_bind, ends_need; [lia|]. apply ends_bind, ends_in_world.
  eapply ends_weaken; [apply primary_phase_ends|cbv beta; lia|]. intros _ w1 _.
  apply ends_bind, ends_kill, ends_bind, ends_in_world.
  eapply ends_weaken; [apply recovery_phase_ends|cbv beta; lia|]. intros b w2 Hk.
  apply ends_bind, ends_kill. split; [done|]. split; [|exact Hk].
  destruct Ha as [->| ->], Hb as [->| ->]; vm_compute; reflexivity.
Qed.

Lemma restart_process_ends :
  ends (run_restart_proof su) (MkJob w []) early_exit
    (fun c j => (c = 0 \/ c = 13) /\ Recovered RecoveryStrategy.RESTART j).
Proof.
  unfold run_restart_proof, early_exit. apply ends_bind, ends_need; [lia|].
  apply ends_bind, ends_spawn; [lia|]. intros ra Ha. apply ends_bind, ends_need; [lia|].
  apply ends_bind, ends_in_world.
  eapply ends_weaken; [apply restart_primary_ends|cbv beta; lia|]. intros _ w1 _.
  apply ends_bind, ends_kill, ends_bind, ends_spawn; [lia|]. intros rc Hc.
  apply ends_bind, ends_need; [lia|]. apply ends_bind, ends_in_world.
  eapply ends_weaken; [apply restart_recovery_ends|cbv beta; lia|].
  intros [[[b a] d] c] w2 Hk. apply ends_bind, ends_kill.
  split; [by destruct (b && a && d && c); [left|right]|]. split; [|exact Hk].
  destruct Ha as [->| ->], Hc as [->| ->]; vm_compute; reflexivity.
Qed.
End Process.

(** C14: The coordinator's exit code tells the truth, whatever its workers and the
    network do: the process ends with code 0 or a code from 2 to 13 or by an
    exception; and code 0 means that a plan of the strategy the scenario asks for is
    stored and has succeeded, and that no worker it started is left running. *)
Theorem coordinator_exit {sorter : StdSort} su argv w e j c :
  coordinator_main su argv (MkJob w []) = (e, j) -> exit_code e = Some c ->
  let sc := scenario_of_args (tail argv) "RESTORE" in
  let st := if String.eqb sc "RESTART" then RecoveryStrategy.RESTART else scenario_expected sc in
  (c = 0 \/ 2 <= c <= 13) /\ (c = 0 -> Recovered st j).
Proof.
  unfold coordinator_main. intros He Hc. cbn zeta.
  destruct (String.eqb _ "RESTART").
  - pose proof (restart_process_ends su w) as H. unfold ends in H. rewrite He in H.
    destruct e as [a|a|x]; cbn [exit_code] in Hc; [| |discriminate]; injection Hc as ->.
    + destruct H as [[-> | ->] H]; (split; [lia|done]).
    + unfold early_exit in H. lia.
  - pose proof (scenario_process_ends su w (scenario_of_args (tail argv) "RESTORE")) as H.
    unfold ends in H. rewrite He in H.
    destruct e as [a|a|x]; cbn [exit_code] in Hc; [| |discriminate]; injection Hc as ->.
    + destruct H as [-> H]. split; [lia|done].
    + unfold early_exit in H. lia.
Qed.

(** With every start-up call succeeding, the process does what its run does. *)
Definition started_up (windows : bool) : Startup := MkStartup windows true true true true true.

Lemma in_world_go {A} (m : Prog A) w a w' rs :
  m w = (Go a, w') -> in_world m (MkJob w rs) = (Go a, MkJob w' rs).
Proof. unfold in_world. cbn. by intros ->. Qed.

Lemma spawn_go windows boot code w rs :
  spawn_worker windows true boot code (MkJob w rs) =
    (Go tt, MkJob w (if windows then boot :: rs else rs)).
Proof. by destruct windows. Qed.

Lemma kill_go boot w rs :
  kill_process boot (MkJob w rs) = (Go tt, MkJob w (filter (fun b => b <> boot) rs)).
Proof. done. Qed.

Lemma need_go code j : need true code j = (Go tt, j).
Proof. done. Qed.

Lemma scenario_process_go {sorter : StdSort} windows sc w b w' :
  scenario_main sc w = (Go b, w') ->
  scenario_process (started_up windows) sc (MkJob w []) = (Go 0, MkJob w' []).
Proof.
  unfold scenario_main. intros (a & w1 & E1 & E2)%p_bind_inv. unfold scenario_process.
  cbn [su_bind su_windows su_spawn_1 su_spawn_2 su_accept_1 su_accept_2 started_up andb].
  rewrite (p_bind_go _ _ _ _ _ (need_go 2 _)), (p_bind_go _ _ _ _ _ (spawn_go _ _ _ _ _)),
    (p_bind_go _ _ _ _ _ (spawn_go _ _ _ _ _)), (p_bind_go _ _ _ _ _ (need_go 5 _)),
    (p_bind_go _ _ _ _ _ (in_world_go _ _ _ _ _ E1)), (p_bind_go _ _ _ _ _ (kill_go _ _ _)),
    (p_bind_go _ _ _ _ _ (in_world_go _ _ _ _ _ E2)), (p_bind_go _ _ _ _ _ (kill_go _ _ _)).
  by destruct windows.
Qed.

Lemma restart_process_go {sorter : StdSort} windows w w' :
  restart_main w = (Go (true, true, true, true), w') ->
  run_restart_proof (started_up windows) (MkJob w []) = (Go 0, MkJob w' []).
Proof.
  unfold restart_main. intros (a & w1 & E1 & E2)%p_bind_inv. unfold run_restart_proof.
  cbn [su_bind su_windows su_spawn_1 su_spawn_2 su_accept_1 su_accept_2 started_up].
  rewrite (p_bind_go _ _ _ _ _ (need_go 2 _)), (p_bind_go _ _ _ _ _ (spawn_go _ _ _ _ _)),
    (p_bind_go _ _ _ _ _ (need_go 4 _)), (p_bind_go _ _ _ _ _ (in_world_go _ _ _ _ _ E1)),
    (p_bind_go _ _ _ _ _ (kill_go _ _ _)), (p_bind_go _ _ _ _ _ (spawn_go _ _ _ _ _)),
    (p_bind_go _ _ _ _ _ (need_go 8 _)), (p_bind_go _ _ _ _ _ (in_world_go _ _ _ _ _ E2)),
    (p_bind_go _ _ _ _ _ (kill_go _ _ _)).
  by destruct windows.
Qed.

(** The shadow scenario, its workers answering as they do. *)
Lemma shadow_process windows :
  exists w', coordinator_main (sorter := insertion_std_sort) (started_up windows)
    ["rp_coordinator"; "--scenario"; "SHADOW"]
    (MkJob (MkWorld (peer primary_script) (peer shadow_script) new_planner) []) = (Go 0, MkJob w' []).
Proof.
  destruct (scenario_run (sorter := insertion_std_sort) "SHADOW" (peer primary_script)
    (peer shadow_script) new_planner (registration worker_a) (answer_of worker_a (msg_run 1))
    (registration worker_b) (answer_of worker_b (msg_run 2)) worker_b [] [])
    as (ca & cb & s & p & E & _).
  1-4: reflexivity.
  - split; (split; [discriminate|reflexivity]).
  - exact (peer_arriving primary_script (proj1 scripts_fit)).
  - exact (peer_arriving shadow_script (proj1 (proj2 scripts_fit))).
  - apply Nat.leb_le. vm_compute. reflexivity.
  - exists (MkWorld ca cb s). exact (scenario_process_go windows "SHADOW" _ _ _ E).
Qed.

Lemma coordinator_exit_witness :
  exists j, coordinator_main (sorter := insertion_std_sort) (started_up true)
    ["rp_coordinator"; "--scenario"; "SHADOW"]
    (MkJob (MkWorld (peer primary_script) (peer shadow_script) new_planner) []) = (Go 0, j) /\
    Recovered RecoveryStrategy.SHADOW_PROMOTE j.
Proof.
  destruct (shadow_process true) as [w' E]. exists (MkJob w' []). split; [exact E|].
  exact (proj2 (coordinator_exit (started_up true) ["rp_coordinator"; "--scenario"; "SHADOW"] _
    _ _ 0 E eq_refl) eq_refl).
Defined.
