(* ===== verification/SystemProps.v ===== *)
(** * The processes together

    The coordinator and its workers as one system: what each process puts on the
    wire is what the process at the other end reads, in any pieces.  A run of the
    system is a run of each process in which these agree. *)

From Stdlib Require Import String.
From stdpp Require Import base gmap strings list.
From S2P Require Import Prelude Types Evidence Feasibility StdSort Economics Plan Explain.
From S2P Require Import Planner PlannerSpec Lifecycle LifecycleSpec Executor Program DecisionProps.
From S2P Require Import Codec Protocol Transport Network NetworkSpec Coordinator CoordinatorSpec.
From S2P Require Import CoordinatorProps.
#[local] Open Scope Z_scope.
#[local] Open Scope string_scope.

(** ** Two ends of a connection *)

(** An end at which nothing has been sent yet, whose calls take [n] bytes at
    least, and which reads exactly the bytes [bs], whatever the pieces. *)
Record FreshEnd (n : nat) (bs : list Z) (c : Connection) : Prop := {
  fe_stream : stream (inbound c) = bs;
  fe_wire : wire (outbound c) = [];
  fe_room : (n <= room c)%nat }.

(** The bytes a process has put on the wire. *)
Abbreviation sent_bytes c := (wire (outbound c)).

Lemma fresh_sent n bs ms c c' : FreshEnd n bs c -> sent ms c c' -> sent_bytes c' = frames ms.
Proof. intros [_ Hw _] ->. by rewrite Hw. Qed.

Lemma fresh_arriving n ms c : Forall msg_fits ms -> FreshEnd n (frames ms) c -> arriving ms [] c.
Proof. intros Hms [Hs _ _]. split; [done|]. by rewrite app_nil_r. Qed.

(** The messages a worker sends in a conversation. *)
Definition worker_script (w : Worker) (ms : list Msg) : list Msg :=
  registration w :: worker_answers w ms.

Lemma worker_serves w ms n c :
  Forall msg_fits ms -> Forall msg_fits (worker_script w ms) ->
  (length (frames (worker_script w ms)) <= n)%nat -> FreshEnd n (frames ms) c ->
  exists c', worker_main w c = Some (worker_exit ms, c') /\
    sent_bytes c' = frames (worker_script w ms).
Proof.
  intros Hms Ha Hn Hc. pose proof Hc as [Hs Hw Hr].
  destruct (worker_main_serves w ms c Hms Hs Ha) as (c' & E & Hsent);
    [unfold worker_script in Hn; lia|].
  exists c'. split; [exact E|]. exact (fresh_sent _ _ _ _ _ Hc Hsent).
Qed.

(** ** The conversations *)

Lemma dispatched_script w p :
  worker_script w [plan_message p; msg_stop] = [registration w; complete_message w (plan_message p)] /\
  worker_exit [plan_message p; msg_stop] = Stopped.
Proof. by split. Qed.

Lemma run_script w : worker_script w [msg_run 1] = [registration w; answer_of w (msg_run 1)].
Proof. reflexivity. Qed.

Lemma target_conversation sc :
  known_scenario sc = true ->
  worker_script worker_b (to_target sc) =
    target_script sc (registration worker_b) (answer_of worker_b (msg_run 2))
      (complete_message worker_b (plan_message (scenario_plan sc))) /\
  worker_exit (to_target sc) = Stopped.
Proof.
  intros Hsc. unfold to_target. generalize (scenario_plan sc). intros p.
  by apply known_cases in Hsc as [->|[->| ->]].
Qed.

(** A worker's answer is short. *)
Lemma complete_message_small w m :
  worker_wf w -> is_u 64 (m_a m) -> is_u 64 (m_b m) -> is_u 64 (m_d m) ->
  (length (encode (complete_message w m)) <= 250)%nat.
Proof.
  intros Hw Ha Hb Hd. destruct (complete_message_fits w m Hw Ha Hb Hd) as [Hwf _].
  rewrite length_encode by exact Hwf. unfold complete_message. cbn [m_s1 m_s2 m_blob length].
  rewrite !length_string_app. set (st := RecoveryStrategy.of_code _).
  pose proof (strategy_name_length st). pose proof (to_dec_length _ (proj1 Hw)).
  pose proof (to_dec_length _ Hd). cbn [String.length]. lia.
Qed.

Lemma facts_answer w b st p wk :
  PlanFacts w b st p -> worker_wf wk ->
  msg_fits (complete_message wk (plan_message p)) /\
  (length (encode (complete_message wk (plan_message p))) <= 250)%nat.
Proof.
  intros [Hi Hg _ _ _ _] Hwk.
  assert (is_u 64 (m_a (plan_message p))) as Ha.
  { change (is_u 64 (value (p_plan_id p))). rewrite Hi. unfold is_u. cbn. lia. }
  assert (is_u 64 (m_b (plan_message p))) as Hb.
  { change (is_u 64 (value (p_generation p))). rewrite Hg. unfold is_u. cbn. lia. }
  assert (is_u 64 (m_d (plan_message p))) as Hd.
  { change (is_u 64 kProgress). unfold is_u, kProgress. lia. }
  split; [by apply complete_message_fits|by apply complete_message_small].
Qed.

(** The fixed part of the conversations. *)
Lemma fixed_messages_fit :
  Forall msg_fits [registration worker_a; registration worker_b; registration worker_c;
                   answer_of worker_a (msg_run 1); answer_of worker_b (msg_run 2)] /\
  Forall (fun m => (length (encode m) <= 100)%nat)
    [registration worker_a; registration worker_b; registration worker_c;
     answer_of worker_a (msg_run 1); answer_of worker_b (msg_run 2)].
Proof.
  split; [all_fit|]. repeat (apply Forall_cons_2; [apply Nat.leb_le; vm_compute; reflexivity|]).
  apply Forall_nil_2.
Qed.

Lemma workers_wf : worker_wf worker_b /\ worker_wf worker_c.
Proof. split; (split; [split; [discriminate|reflexivity]|split; [discriminate|reflexivity]]). Qed.

(** What fits, in each direction. *)
Record Fits (n : nat) (ms : list Msg) : Prop := {
  fits_each : Forall msg_fits ms;
  fits_all : (length (frames ms) <= n)%nat }.

Lemma fits_nil : Fits 0 [].
Proof. by split. Qed.

Lemma fits_cons k n m ms :
  msg_fits m -> (length (encode m) <= k)%nat -> Fits n ms -> Fits (13 + k + n) (m :: ms).
Proof.
  intros Hm Hk [H1 H2]. split; [by constructor|]. rewrite length_frames_cons. lia.
Qed.

Lemma fits_weaken n n' ms : (n <= n')%nat -> Fits n ms -> Fits n' ms.
Proof. intros Hn [H1 H2]. split; [done|lia]. Qed.

Lemma to_primary_fits : Fits 58 [msg_run 1].
Proof.
  destruct (run_message_fits 1) as [H1 H2]; [unfold is_u; lia|].
  apply (fits_cons 45 0); [exact H1|lia|exact fits_nil].
Qed.

Lemma primary_script_fits : Fits 500 (worker_script worker_a [msg_run 1]).
Proof.
  rewrite run_script. destruct fixed_messages_fit as [F L].
  repeat (apply Forall_cons in F as [? F]; apply Forall_cons in L as [? L]).
  eapply fits_weaken; [|eapply (fits_cons 100), (fits_cons 100), fits_nil; eassumption]. lia.
Qed.

Lemma to_target_fits sc : known_scenario sc = true -> Fits 374 (to_target sc).
Proof.
  intros Hsc. destruct (scenario_plan_facts sc Hsc) as [_ Hf].
  destruct (facts_fit _ _ _ _ Hf) as [H1 H2]; [by apply known_cases in Hsc as [->|[->| ->]]|].
  destruct stop_message_fits as [S1 S2].
  destruct (run_message_fits 2) as [R1 R2]; [unfold is_u; lia|].
  unfold to_target, sync_messages. generalize dependent (plan_message (scenario_plan sc)). intros m H1 H2.
  assert (Fits 316 [m; msg_stop]) as H.
  { apply (fits_cons 245 58); [exact H1|exact H2|].
    apply (fits_cons 45 0); [exact S1|lia|exact fits_nil]. }
  destruct (String.eqb sc "SHADOW"); cbn [app].
  - apply (fits_cons 45 316); [exact R1|lia|exact H].
  - eapply fits_weaken; [|exact H]. lia.
Qed.

Lemma target_script_fits sc :
  known_scenario sc = true -> Fits 500 (worker_script worker_b (to_target sc)).
Proof.
  intros Hsc. rewrite (proj1 (target_conversation sc Hsc)). unfold target_script.
  destruct (scenario_plan_facts sc Hsc) as [_ Hf].
  destruct (facts_answer _ _ _ _ worker_b Hf (proj1 workers_wf)) as [A1 A2].
  destruct fixed_messages_fit as [F L].
  repeat (apply Forall_cons in F as [? F]; apply Forall_cons in L as [? L]).
  generalize dependent (complete_message worker_b (plan_message (scenario_plan sc))).
  intros answer A1 A2. destruct (String.eqb sc "SHADOW"); cbn [app];
    (eapply fits_weaken; [|eauto using fits_cons, fits_nil]; lia).
Qed.

Lemma to_fresh_fits : Fits 316 to_fresh.
Proof.
  destruct (facts_fit _ _ _ _ (proj2 restart_plan_facts)) as [H1 H2]; [done|].
  destruct stop_message_fits as [S1 S2]. unfold to_fresh.
  generalize dependent (plan_message restart_plan). intros m H1 H2.
  apply (fits_cons 245 58); [exact H1|exact H2|].
  apply (fits_cons 45 0); [exact S1|lia|exact fits_nil].
Qed.

Lemma fresh_script_fits : Fits 500 (worker_script worker_c to_fresh).
Proof.
  unfold to_fresh. rewrite (proj1 (dispatched_script worker_c restart_plan)).
  destruct (facts_answer _ _ _ _ worker_c (proj2 restart_plan_facts) (proj2 workers_wf)) as [A1 A2].
  destruct fixed_messages_fit as [F L].
  repeat (apply Forall_cons in F as [? F]; apply Forall_cons in L as [? L]).
  generalize dependent (complete_message worker_c (plan_message restart_plan)).
  intros answer A1 A2. eapply fits_weaken; [|eauto using fits_cons, fits_nil]. lia.
Qed.

Lemma worker_serves_fits w ms n c :
  Fits n ms -> Fits 500 (worker_script w ms) -> FreshEnd 500 (frames ms) c ->
  exists c', worker_main w c = Some (worker_exit ms, c') /\
    sent_bytes c' = frames (worker_script w ms).
Proof. intros [H _] [H1 H2]. by apply worker_serves. Qed.

(** An end that reads the bytes in pieces of three, with interruptions, and sends
    three at a time. *)
Definition end_of (bs : list Z) : Connection :=
  MkConnection (cut (length bs) 2 bs) (MkOutbound [] (replicate 500 (Sent 3))).

Lemma capacity_replicate k j : capacity (replicate k (Sent j)) = k.
Proof. induction k as [|k IH]; [done|]. cbn [replicate capacity]. by rewrite IH. Qed.

Lemma end_of_fresh n bs : (n <= 500)%nat -> FreshEnd n bs (end_of bs).
Proof.
  intros Hn. split; [apply stream_cut; lia|done|].
  unfold room, end_of. cbn [outbound sends]. rewrite capacity_replicate. exact Hn.
Qed.

(** ** The systems *)

(** C15: The system of the scenario run closes.  There are two conversations for
    which each of the three processes, over connections of any fragmentation, sends
    exactly what the others read: the primary answers and is left waiting, the
    target ends at the STOP, and the coordinator, reading the bytes the two workers
    wrote, dispatches the expected strategy, sees it succeed, refuses the stale
    report and has written the bytes the two workers read. *)
Theorem scenario_system {sorter : StdSort} sc wa wb :
  known_scenario sc = true ->
  FreshEnd 500 (frames [msg_run 1]) wa -> FreshEnd 500 (frames (to_target sc)) wb ->
  exists wa' wb',
    worker_main worker_a wa = Some (Disconnected, wa') /\
    worker_main worker_b wb = Some (Stopped, wb') /\
    forall ca cb s,
      FreshEnd 58 (sent_bytes wa') ca -> FreshEnd 374 (sent_bytes wb') cb ->
      exists ca' cb' s' p,
        scenario_main sc (MkWorld ca cb s) = (Go true, MkWorld ca' cb' s') /\
        plans s' = {[1 := p]} /\ p_state p = PlanLifecycleState.SUCCEEDED /\
        sent_bytes ca' = stream (inbound wa) /\ sent_bytes cb' = stream (inbound wb).
Proof.
  intros Hsc Ha Hb.
  destruct (worker_serves_fits worker_a _ _ wa to_primary_fits primary_script_fits Ha)
    as (wa' & EA & SA).
  destruct (worker_serves_fits worker_b _ _ wb (to_target_fits sc Hsc) (target_script_fits sc Hsc) Hb)
    as (wb' & EB & SB).
  exists wa', wb'. split; [exact EA|].
  split; [rewrite EB; by rewrite (proj2 (target_conversation sc Hsc))|].
  intros ca cb s Hca Hcb. rewrite SA in Hca. rewrite SB in Hcb.
  pose proof (fresh_arriving _ _ _ (fits_each _ _ primary_script_fits) Hca) as Aa.
  pose proof (fresh_arriving _ _ _ (fits_each _ _ (target_script_fits sc Hsc)) Hcb) as Ab.
  rewrite run_script in Aa. rewrite (proj1 (target_conversation sc Hsc)) in Ab.
  destruct (scenario_run sc ca cb s (registration worker_a) (answer_of worker_a (msg_run 1))
              (registration worker_b) (answer_of worker_b (msg_run 2)) worker_b [] [] Hsc eq_refl eq_refl eq_refl (proj1 workers_wf) Aa Ab)
    as (ca' & cb' & s' & p & E & Hp & Hfin & Wa & Wb).
  { pose proof (fe_room _ _ _ Hcb). lia. }
  exists ca', cb', s', p. split; [exact E|]. split; [exact Hp|]. split; [exact Hfin|].
  rewrite (fe_stream _ _ _ Ha), (fe_stream _ _ _ Hb). split.
  - exact (fresh_sent _ _ _ _ _ Hca (Wa (fe_room _ _ _ Hca))).
  - exact (fresh_sent _ _ _ _ _ Hcb (Wb (fe_room _ _ _ Hcb))).
Qed.

Lemma scenario_system_witness :
  exists wa wb ca cb s,
    worker_main worker_a (end_of (frames [msg_run 1])) = Some (Disconnected, wa) /\
    worker_main worker_b (end_of (frames (to_target "SHADOW"))) = Some (Stopped, wb) /\
    scenario_main (sorter := insertion_std_sort) "SHADOW"
      (MkWorld (end_of (sent_bytes wa)) (end_of (sent_bytes wb)) new_planner) =
      (Go true, MkWorld ca cb s) /\
    sent_bytes ca = frames [msg_run 1] /\ sent_bytes cb = frames (to_target "SHADOW").
Proof.
  pose proof (end_of_fresh 500 (frames [msg_run 1]) (le_n 500)) as Ha.
  pose proof (end_of_fresh 500 (frames (to_target "SHADOW")) (le_n 500)) as Hb.
  destruct (scenario_system (sorter := insertion_std_sort) "SHADOW" _ _ eq_refl Ha Hb)
    as (wa & wb & EA & EB & H).
  destruct (H (end_of (sent_bytes wa)) (end_of (sent_bytes wb)) new_planner)
    as (ca & cb & s & p & E & _ & _ & Wa & Wb); [apply end_of_fresh; lia..|].
  rewrite (fe_stream _ _ _ Ha) in Wa. rewrite (fe_stream _ _ _ Hb) in Wb.
  exists wa, wb, ca, cb, s. exact (conj EA (conj EB (conj E (conj Wa Wb)))).
Defined.

(** C16: The system of the restart run closes in the same way: the primary, the
    fresh incarnation and the coordinator agree on every byte, the RESTART plan
    succeeds, and the four stale actions are refused. *)
Theorem restart_system {sorter : StdSort} wa wc :
  FreshEnd 500 (frames [msg_run 1]) wa -> FreshEnd 500 (frames to_fresh) wc ->
  exists wa' wc',
    worker_main worker_a wa = Some (Disconnected, wa') /\
    worker_main worker_c wc = Some (Stopped, wc') /\
    forall ca cc s,
      FreshEnd 58 (sent_bytes wa') ca -> FreshEnd 316 (sent_bytes wc') cc ->
      exists ca' cc' s' p,
        restart_main (MkWorld ca cc s) = (Go (true, true, true, true), MkWorld ca' cc' s') /\
        plans s' = {[1 := p]} /\ p_state p = PlanLifecycleState.SUCCEEDED /\
        sent_bytes ca' = stream (inbound wa) /\ sent_bytes cc' = stream (inbound wc).
Proof.
  intros Ha Hc.
  destruct (worker_serves_fits worker_a _ _ wa to_primary_fits primary_script_fits Ha)
    as (wa' & EA & SA).
  destruct (worker_serves_fits worker_c _ _ wc to_fresh_fits fresh_script_fits Hc) as (wc' & EC & SC).
  exists wa', wc'. split; [exact EA|]. split; [exact EC|].
  intros ca cc s Hca Hcc. rewrite SA in Hca. rewrite SC in Hcc.
  pose proof (fresh_arriving _ _ _ (fits_each _ _ primary_script_fits) Hca) as Aa.
  pose proof (fresh_arriving _ _ _ (fits_each _ _ fresh_script_fits) Hcc) as Ac.
  rewrite run_script in Aa. unfold to_fresh in Ac.
  rewrite (proj1 (dispatched_script worker_c restart_plan)) in Ac.
  destruct (restart_run ca cc s (registration worker_a) (answer_of worker_a (msg_run 1))
              (registration worker_c) worker_c [] [] eq_refl eq_refl eq_refl eq_refl eq_refl
              (proj2 workers_wf) Aa Ac) as (ca' & cc' & s' & p & E & Hp & Hfin & Wa & Wc).
  { pose proof (fe_room _ _ _ Hcc). lia. }
  exists ca', cc', s', p. split; [exact E|]. split; [exact Hp|]. split; [exact Hfin|].
  rewrite (fe_stream _ _ _ Ha), (fe_stream _ _ _ Hc). split.
  - exact (fresh_sent _ _ _ _ _ Hca (Wa (fe_room _ _ _ Hca))).
  - exact (fresh_sent _ _ _ _ _ Hcc (Wc (fe_room _ _ _ Hcc))).
Qed.

Lemma restart_system_witness :
  exists wa wc ca cc s,
    worker_main worker_a (end_of (frames [msg_run 1])) = Some (Disconnected, wa) /\
    worker_main worker_c (end_of (frames to_fresh)) = Some (Stopped, wc) /\
    restart_main (sorter := insertion_std_sort)
      (MkWorld (end_of (sent_bytes wa)) (end_of (sent_bytes wc)) new_planner) =
      (Go (true, true, true, true), MkWorld ca cc s) /\
    sent_bytes ca = frames [msg_run 1] /\ sent_bytes cc = frames to_fresh.
Proof.
  pose proof (end_of_fresh 500 (frames [msg_run 1]) (le_n 500)) as Ha.
  pose proof (end_of_fresh 500 (frames to_fresh) (le_n 500)) as Hc.
  destruct (restart_system (sorter := insertion_std_sort) _ _ Ha Hc) as (wa & wc & EA & EC & H).
  destruct (H (end_of (sent_bytes wa)) (end_of (sent_bytes wc)) new_planner)
    as (ca & cc & s & p & E & _ & _ & Wa & Wc); [apply end_of_fresh; lia..|].
  rewrite (fe_stream _ _ _ Ha) in Wa. rewrite (fe_stream _ _ _ Hc) in Wc.
  exists wa, wc, ca, cc, s. exact (conj EA (conj EC (conj E (conj Wa Wc)))).
Defined.
