(* ===== verification/Cuda.v ===== *)
(** * The GPU demonstration

    Models [cuda/cuda_recovery_proof.cu].  What the CUDA library answers is a
    parameter, [Machine]: which of its calls fail, what fresh memory holds, the
    measured times, the memory it reports free, and the order in which the threads
    of a launch run (any permutation of the grid when the launch is carried out,
    since each thread makes at most one atomic addition).  Device memory is the
    list of the segment counters.  [cuda_check] ends the process with code 3 when
    its call fails.  The lines it prints are not modelled. *)

From stdpp Require Import base gmap strings list numbers.
From S2P Require Import Prelude Types Evidence Feasibility StdSort Economics Plan Explain.
From S2P Require Import Planner Lifecycle Program.
#[local] Open Scope Z_scope.
#[local] Open Scope rp_scope.
#[local] Open Scope prog_scope.

Definition kSegments : Z := 256.
Definition kSegLen : Z := 1024.
Definition kTotal : Z := kSegments * kSegLen.

(** ** The kernel *)

(** [(idx * 2654435761u) ^ (seed * 1103515245u)] in unsigned arithmetic, masked. *)
Definition kernel_value (seed idx : Z) : Z :=
  Z.land (Z.lxor (u32 (idx * 2654435761)) (u32 (seed * 1103515245))) 2147483647.

(** [atomicAdd(&out[i], v)] *)
Definition atomic_add (i v : Z) (out : list Z) : list Z :=
  alter (fun x => i32 (x + v)) (Z.to_nat i) out.

(** One thread. *)
Definition compute_segments (seed from_seg to_seg idx : Z) (out : list Z) : list Z :=
  if kTotal <=? idx then out else
  let seg := idx / kSegLen in
  if (seg <? from_seg) || (to_seg <=? seg) then out else
  atomic_add seg (Z.land (kernel_value seed idx) 65535) out.

(** The threads of the launch [<<<kTotal / kSegLen, kSegLen>>>]. *)
Definition grid : list Z :=
  block ← seqZ 0 (kTotal / kSegLen); (fun thread => block * kSegLen + thread) <$> seqZ 0 kSegLen.

Definition run_threads (seed from_seg to_seg : Z) (order : list Z) (out : list Z) : list Z :=
  foldl (fun out idx => compute_segments seed from_seg to_seg idx out) out order.

(** ** The reference on the host *)

Definition input_value (seed i : Z) : Z :=
  i32 (Z.land (Z.lxor (u32 (i * 2654435761)) (i64 (seed * 1103515245))) 2147483647).
Definition fill_input (seed : Z) : list Z := input_value seed <$> seqZ 0 kTotal.

(** Sums in [long long]. *)
Definition long_sum (l : list Z) : Z := foldl (fun r x => i64 (r + x)) 0 l.
Definition cpu_reference (input : list Z) : Z := long_sum ((fun x => Z.land x 65535) <$> input).

(** ** Device memory *)

(** [cudaMemset(dev + from, 0, ...)] and the two directions of [cudaMemcpy]. *)
Definition memset_zero (from_seg to_seg : nat) (d : list Z) : list Z :=
  take from_seg d ++ replicate (to_seg - from_seg) 0 ++ drop to_seg d.
Definition copy_out (from_seg to_seg : nat) (d : list Z) : list Z :=
  take (to_seg - from_seg) (drop from_seg d).
Definition copy_in (host d : list Z) : list Z := host ++ drop (length host) d.

(** ** The CUDA library and the process *)

(** The answers of the library, by the number of the question. *)
Record Machine := MkMachine {
  fails : nat -> bool;
  schedule : nat -> list Z;
  allocated : nat -> list Z;
  elapsed : nat -> Z;
  free_memory : nat -> Z }.

(** The device as the process has used it: its memory, and how many calls,
    launches, allocations, readings of a timer and of the free memory it made. *)
Record Gpu := MkGpu {
  dev : list Z; calls : nat; launched : nat; allocs : nat; timed : nat; queried : nat }.

Definition new_gpu : Gpu := MkGpu [] 0 0 0 0 0.

(** A part of the process. *)
Definition Cu (A : Type) : Type := Gpu -> Exit A * Gpu.

Section Process.
Context (m : Machine).

(** [CUDA_CHECK(call)]: a call that succeeds does [call]. *)
Definition cuda_check {A} (call : Gpu -> A * Gpu) : Cu A := fun g =>
  let g' := MkGpu (dev g) (S (calls g)) (launched g) (allocs g) (timed g) (queried g) in
  if fails m (calls g) then (Return 3, g')
  else let '(a, g') := call g' in (Go a, g').

Definition set_dev (d : list Z) (g : Gpu) : Gpu :=
  MkGpu d (calls g) (launched g) (allocs g) (timed g) (queried g).

Definition cuda_memset (from_seg to_seg : Z) : Cu unit :=
  cuda_check (fun g => (tt, set_dev (memset_zero (Z.to_nat from_seg) (Z.to_nat to_seg) (dev g)) g)).
Definition memcpy_device_to_host (from_seg to_seg : Z) : Cu (list Z) :=
  cuda_check (fun g => (copy_out (Z.to_nat from_seg) (Z.to_nat to_seg) (dev g), g)).
Definition memcpy_host_to_device (host : list Z) : Cu unit :=
  cuda_check (fun g => (tt, set_dev (copy_in host (dev g)) g)).
(** Calls with no effect the program sees but to fail: the synchronisations, and
    the creation, recording and destruction of events. *)
Definition cuda_call : Cu unit := cuda_check (fun g => (tt, g)).
Definition cuda_malloc : Cu unit :=
  cuda_check (fun g =>
    (tt, MkGpu (allocated m (allocs g)) (calls g) (launched g) (S (allocs g)) (timed g) (queried g))).
Definition cuda_free : Cu unit := cuda_check (fun g => (tt, set_dev [] g)).
(** The elapsed time, in nanoseconds: [(std::int64_t)(ms * 1e6)]. *)
Definition event_elapsed_time : Cu Z :=
  cuda_check (fun g =>
    (elapsed m (timed g),
     MkGpu (dev g) (calls g) (launched g) (allocs g) (S (timed g)) (queried g))).
Definition mem_get_info : Cu Z :=
  cuda_check (fun g =>
    (free_memory m (queried g),
     MkGpu (dev g) (calls g) (launched g) (allocs g) (timed g) (S (queried g)))).

(** [compute_segments<<<kTotal / kSegLen, kSegLen>>>]; a launch is not checked. *)
Definition launch_segments (seed from_seg to_seg : Z) : Cu unit := fun g =>
  (Go tt, MkGpu (run_threads seed from_seg to_seg (schedule m (launched g)) (dev g)) (calls g)
            (S (launched g)) (allocs g) (timed g) (queried g)).

Definition run_kernel (seed from_seg to_seg : Z) : Cu Z :=
  cuda_memset from_seg to_seg;;
  launch_segments seed from_seg to_seg;;
  cuda_call;;
  do! tmp := memcpy_device_to_host from_seg to_seg in
  p_ret (u64 (long_sum tmp)).

(** [measure]: three calls to warm up, then [reps] between two events. *)
Definition measure (fn : Cu unit) (reps : nat) : Cu Duration :=
  repeat_call 3 fn;;
  cuda_call;;
  repeat_call reps fn;;
  cuda_call;;
  cuda_call;;
  do! ns := event_elapsed_time in
  p_ret (MkUnit (Z.quot ns (Z.of_nat reps))).
End Process.

(** ** The planner's part *)

Definition cuda_meta (p : EvidenceProvenance.t) (conf : Confidence) : EvidenceMeta :=
  MkMeta (MkId 1) (MkId 2000) (MkUnit 0) p Freshness.CURRENT conf false.

Definition cuda_candidate (s : RecoveryStrategy.t) (id : Z) (time : Duration)
    (preserved lost : ProgressUnits) : RecoveryCandidate :=
  let measured := cuda_meta EvidenceProvenance.MEASURED confidence_none in
  let when_s s' := if bool_decide (s = s') then Some time else None in
  {| c_candidate_id := MkId id;
     c_generation := MkId id;
     c_strategy := s;
     c_target_worker := MkId 2;
     c_target_boot := MkId 2000;
     c_target_engine := MkId 1;
     c_target_engine_incarnation := MkId 1;
     c_source_worker := id_null;
     c_source_boot := id_null;
     c_state_source := MkId 7000;
     c_state_generation := MkId 1;
     c_checkpoint_source := MkId 8000;
     c_checkpoint_generation := MkId 1;
     c_state := Some
       {| st_meta := cuda_meta EvidenceProvenance.MEASURED confidence_full;
          st_state_id := MkId 7000;
          st_state_generation := MkId 1;
          st_workload_generation := MkId 1;
          st_checkpoint_generation := MkId 1;
          st_integrity := StateIntegrity.VALID;
          st_size_bytes := MkUnit (kTotal * 4);
          st_restore_bytes := MkUnit (kTotal * 4);
          st_preserved_progress := preserved;
          st_durable_progress := preserved;
          st_location := StorageLocation.REMOTE;
          st_is_durable := true;
          st_identity := "workload:v1" |};
     c_compatibility := Some
       {| co_meta := cuda_meta EvidenceProvenance.REPORTED confidence_none;
          co_compatibility_generation := MkId 1;
          co_result := CompatibilityResult.EXACT;
          co_subject_identity := "workload:v1";
          co_state_format := "gpu:sm120";
          co_reason := "" |};
     c_availability := Some
       {| av_meta := measured;
          av_worker := MkId 2;
          av_boot := MkId 2000;
          av_engine_incarnation := MkId 1;
          av_is_alive := true;
          av_readiness := CandidateReadiness.READY |};
     c_resource := Some
       {| rs_meta := measured;
          rs_snapshot := MkId 1;
          rs_generation := MkId 1;
          rs_resource_kind := "accelerator_memory";
          rs_required := Some (kTotal * 4);
          rs_available := Some (64 * 1024 * 1024);
          rs_status := ResourceStatus.AVAILABLE |};
     c_topology := None;
     c_transfer := None;
     c_checkpoint := None;
     c_shadow := None;
     c_progress := None;
     c_cost := Some
       {| cost_meta := measured;
          cost_expected_time := Some time;
          cost_restore_time := when_s RecoveryStrategy.RESTORE;
          cost_restart_time := None;
          cost_transfer_time := None;
          cost_recompute_time := when_s RecoveryStrategy.RECOMPUTE;
          cost_bytes_transferred := Some (MkUnit (kTotal * 4));
          cost_bytes_read := Some (MkUnit (kTotal * 4));
          cost_bytes_materialized := Some (MkUnit (kTotal * 4));
          cost_cost_units := None;
          cost_energy_cost := None;
          cost_expected_lost_progress := Some lost;
          cost_expected_preserved_progress := Some preserved;
          cost_checkpoint_age := None;
          cost_deadline_slack := None;
          cost_failover_domain_risk := 0 |};
     c_authority := Some
       {| auth_meta := cuda_meta EvidenceProvenance.MEASURED confidence_full;
          auth_coordinator_epoch := MkId 1;
          auth_policy_generation := MkId 1;
          auth_coordinator_authority_valid := true;
          auth_policy_authority_valid := true;
          auth_candidate_authority_valid := true;
          auth_execution_authority_valid := true |};
     c_reason_for_existence := "";
     c_capabilities := [];
     c_required_capabilities := [] |}.

Definition cuda_planner : Planner :=
  (register_worker (MkId 2) (MkId 2000) >>>
   set_resource "accelerator_memory" (64 * 1024 * 1024) >>>
   set_recompute_available (MkId 1) true) new_planner.

Definition cuda_request : RecoveryRequest :=
  {| q_request_id := MkId 1;
     q_workload := MkId 1;
     q_workload_generation := MkId 1;
     q_execution := MkId 1;
     q_execution_generation := MkId 1;
     q_failure := MkId 1;
     q_reason := "gpu worker lost";
     q_prior_progress := default_progress;
     q_recovery_deadline := None;
     q_max_recovery_duration := None;
     q_max_tolerated_progress_loss := None;
     q_preferred_strategies := [];
     q_forbidden_strategies := [];
     q_state_requirements := [];
     q_placement_constraints := [];
     q_compatibility_requirements := [];
     q_coordinator_epoch := MkId 1;
     q_policy_generation := MkId 1;
     q_topology_generation := MkId 1;
     q_requested_at := MkUnit 0;
     q_value_priorities := [] |}.

Definition cuda_candidates (fresh_checkpoint : bool) (restore_dur recompute_dur : Duration)
    : list RecoveryCandidate :=
  [cuda_candidate RecoveryStrategy.RESTORE 11 restore_dur
     (if fresh_checkpoint then MkUnit 100 else MkUnit 25) (MkUnit 0);
   cuda_candidate RecoveryStrategy.RECOMPUTE 12 recompute_dur (MkUnit 100) (MkUnit 0)].

(** ** One case *)

Section Run.
Context {sorter : StdSort} (m : Machine).

(** Executing the selected strategy: the sum it ends with. *)
Definition execute_strategy (s : RecoveryStrategy.t) (checkpoint : list Z) : Cu Z :=
  let checkpoint_at := Z.of_nat (length checkpoint) in
  if bool_decide (s = RecoveryStrategy.RESTORE) then
    memcpy_host_to_device m checkpoint;;
    if checkpoint_at <? kSegments then run_kernel m 7 checkpoint_at kSegments
    else
      do! tmp := memcpy_device_to_host m 0 checkpoint_at in
      p_ret (u64 (long_sum tmp))
  else run_kernel m 7 0 kSegments.

(** What is measured as the cost of restoring. *)
Definition restore_once (checkpoint : list Z) (checkpoint_at : Z) : Cu unit :=
  memcpy_host_to_device m checkpoint;;
  if checkpoint_at <? kSegments
  then do! _ := run_kernel m 7 checkpoint_at kSegments in p_ret tt
  else p_ret tt.

(** The strategy that was selected and executed. *)
Definition run_case (fresh_checkpoint : bool) (cpu_ref : Z) : Cu RecoveryStrategy.t :=
  cuda_malloc m;;
  cuda_call m;; cuda_call m;;
  do! rec := run_kernel m 7 0 kSegments in
  let checkpoint_at := if fresh_checkpoint then kSegments else kSegments / 4 in
  do! checkpoint := memcpy_device_to_host m 0 checkpoint_at in
  do! recompute_dur :=
    measure m (do! _ := run_kernel m 7 0 kSegments in p_ret tt) 20 in
  do! restore_dur := measure m (restore_once checkpoint checkpoint_at) 20 in
  do! rec_check := run_kernel m 7 0 kSegments in
  if negb (rec_check =? rec) then p_exit 4 else
  let d := (plan cuda_request (cuda_candidates fresh_checkpoint restore_dur recompute_dur)
              (MkUnit 0) cuda_planner).1 in
  match de_plan d with
  | None => p_exit 5
  | Some p =>
      cuda_memset m 0 kSegments;;
      do! final_seg := execute_strategy (p_strategy p) checkpoint in
      if negb (u64 cpu_ref =? final_seg) then p_exit 6 else
      cuda_call m;; cuda_call m;;
      cuda_free m;;
      p_ret (p_strategy p)
  end.

(** The two cases: the strategies executed, and whether the free memory is back
    within a megabyte of what it was, computed in [size_t]. *)
Definition cuda_cases : Cu (RecoveryStrategy.t * RecoveryStrategy.t * bool) :=
  do! free0 := mem_get_info m in
  let cpu_ref := cpu_reference (fill_input 7) in
  do! s1 := run_case true cpu_ref in
  do! s2 := run_case false cpu_ref in
  do! free1 := mem_get_info m in
  p_ret (s1, s2, u64 (free0 - Z.shiftl 1 20) <=? free1).

Definition cuda_main : Cu Z :=
  do! r := cuda_cases in p_ret (if r.2 then 0 else 7).
End Run.
