(* ===== verification/CudaProps.v ===== *)
(** * Properties of the GPU demonstration

    The result of a launch does not depend on the order of its threads, and the
    recovered sums agree with the host's reference whatever is measured.  With
    calls that fail the process does what it does without, up to the first of
    them. *)

From stdpp Require Import base gmap strings list numbers sorting.
From S2P Require Import Prelude Types Evidence Feasibility FeasibilitySpec StdSort Economics Plan.
From S2P Require Import Explain Planner PlannerSpec Lifecycle Program DecisionProps Cuda.
#[local] Open Scope Z_scope.

(** ** Sums *)

Fixpoint zsum (l : list Z) : Z :=
  match l with [] => 0 | x :: l' => x + zsum l' end.

Lemma zsum_app l1 l2 : zsum (l1 ++ l2) = zsum l1 + zsum l2.
Proof. induction l1 as [|x l1 IH]; [done|]. cbn. rewrite IH. lia. Qed.

Lemma zsum_perm l1 l2 : l1 ≡ₚ l2 -> zsum l1 = zsum l2.
Proof. induction 1; cbn; lia. Qed.

Lemma zsum_bind {A} (f : A -> list Z) (l : list A) : zsum (l ≫= f) = zsum (zsum ∘ f <$> l).
Proof. induction l as [|x l IH]; [done|]. cbn. rewrite zsum_app. by rewrite IH. Qed.

Lemma zsum_bounds l m : Forall (fun x => 0 <= x <= m) l -> 0 <= zsum l <= Z.of_nat (length l) * m.
Proof. induction 1 as [|x l Hx _ IH]; cbn [zsum length] in *; lia. Qed.

(** The one nonzero term of a sum. *)
Lemma zsum_single k v l :
  NoDup l -> k ∈ l -> zsum ((fun b => if b =? k then v else 0) <$> l) = v.
Proof.
  induction 1 as [|b l Hb Hl IH]; intros Hk; [by apply elem_of_nil in Hk|].
  rewrite fmap_cons. cbn [zsum].
  apply elem_of_cons in Hk as [<-|Hk].
  - rewrite Z.eqb_refl.
    assert (zsum ((fun b => if b =? k then v else 0) <$> l) = 0) as ->; [|lia].
    clear IH Hl. induction l as [|c l IHl]; [done|]. rewrite not_elem_of_cons in Hb.
    destruct Hb as [Hc Hb]. rewrite fmap_cons. cbn [zsum].
    rewrite (proj2 (Z.eqb_neq c k)) by congruence. exact (IHl Hb).
  - destruct (Z.eqb_spec b k) as [->|_]; [done|]. rewrite IH by done. lia.
Qed.

Lemma i32_add a b : i32 (i32 a + b) = i32 (a + b).
Proof.
  unfold i32. f_equal.
  replace ((a + 2 ^ 31) mod 2 ^ 32 - 2 ^ 31 + b + 2 ^ 31) with ((a + 2 ^ 31) mod 2 ^ 32 + b) by lia.
  rewrite Zplus_mod_idemp_l. f_equal. lia.
Qed.

Lemma i32_idem a : i32 (i32 a) = i32 a.
Proof. pose proof (i32_add a 0) as H. by rewrite !Z.add_0_r in H. Qed.

Lemma i64_add a b : i64 (i64 a + b) = i64 (a + b).
Proof.
  unfold i64. f_equal.
  replace ((a + 2 ^ 63) mod 2 ^ 64 - 2 ^ 63 + b + 2 ^ 63) with ((a + 2 ^ 63) mod 2 ^ 64 + b) by lia.
  rewrite Zplus_mod_idemp_l. f_equal. lia.
Qed.

Lemma long_sum_zsum l : long_sum l = i64 (zsum l).
Proof.
  unfold long_sum.
  assert (forall r, i64 r = r -> foldl (fun r x => i64 (r + x)) r l = i64 (r + zsum l)) as H.
  { induction l as [|x l IH]; intros r Hr; cbn [foldl zsum].
    - by rewrite Z.add_0_r.
    - rewrite IH by apply i64_id, i64_range.
      rewrite i64_add. f_equal. lia. }
  exact (H 0 eq_refl).
Qed.

(** ** The grid *)

Lemma seqZ_blocks n m :
  0 <= n -> 0 <= m ->
  (b ← seqZ 0 n; (fun t => b * m + t) <$> seqZ 0 m) = seqZ 0 (n * m).
Proof.
  intros Hn Hm. pattern n. apply natlike_ind; [done| |done]. clear n Hn. intros n Hn IH.
  rewrite <- Z.add_1_r, seqZ_app, bind_app, IH by lia. cbn [mbind list_bind seqZ].
  assert (seqZ (0 + n) 1 = [n]) as -> by done. cbn. rewrite app_nil_r.
  rewrite Z.mul_add_distr_r, Z.mul_1_l, seqZ_app by nia. f_equal.
  rewrite fmap_add_seqZ. f_equal. lia.
Qed.

Lemma grid_seq : grid = seqZ 0 kTotal.
Proof. exact (seqZ_blocks 256 1024 ltac:(lia) ltac:(lia)). Qed.

(** ** A launch, in any order of its threads *)

Definition weight (idx : Z) : Z := Z.land (kernel_value 7 idx) 65535.

Lemma weight_range idx : 0 <= weight idx <= 65535.
Proof.
  unfold weight. generalize (kernel_value 7 idx). intros v.
  assert (Z.land v 65535 = v mod 2 ^ 16) as -> by (apply (Z.land_ones v 16); lia).
  pose proof (Z.mod_pos_bound v (2 ^ 16)). lia.
Qed.

(** What the threads of [order] add to segment [k] in a launch over all segments. *)
Definition contribution (k : Z) (order : list Z) : Z :=
  zsum ((fun idx => if idx / kSegLen =? k then weight idx else 0) <$> order).

Lemma thread_segment idx : 0 <= idx < kTotal -> 0 <= idx / kSegLen < kSegments.
Proof.
  unfold kTotal, kSegments, kSegLen. intros [H1 H2].
  split; [by apply Z.div_pos|apply Z.div_lt_upper_bound; lia].
Qed.

Lemma full_thread idx out :
  0 <= idx < kTotal ->
  compute_segments 7 0 kSegments idx out = atomic_add (idx / kSegLen) (weight idx) out.
Proof.
  intros Hi. pose proof (thread_segment idx Hi) as Hs. unfold compute_segments.
  destruct (Z.leb_spec kTotal idx); [lia|].
  destruct (Z.ltb_spec (idx / kSegLen) 0); [lia|]. by destruct (Z.leb_spec kSegments (idx / kSegLen)); [lia|].
Qed.

Lemma full_launch order out k x :
  Forall (fun idx => 0 <= idx < kTotal) order -> out !! k = Some x -> i32 x = x ->
  run_threads 7 0 kSegments order out !! k = Some (i32 (x + contribution (Z.of_nat k) order)).
Proof.
  unfold run_threads, contribution. intros Ho. revert out x.
  induction Ho as [|idx order Hi Ho IH]; intros out x Hk Hx; cbn [foldl fmap list_fmap zsum].
  - by rewrite Z.add_0_r, Hx.
  - rewrite full_thread by done. pose proof (thread_segment idx Hi) as Hs. unfold atomic_add.
    destruct (Z.eqb_spec (idx / kSegLen) (Z.of_nat k)) as [Hd|Hd].
    + rewrite (IH _ (i32 (x + weight idx))).
      * rewrite i32_add. f_equal. f_equal. lia.
      * rewrite Hd, Nat2Z.id, list_lookup_alter_eq, Hk. done.
      * apply i32_idem.
    + rewrite (IH _ x); [done| |done]. rewrite list_lookup_alter_ne by lia. exact Hk.
Qed.

Lemma run_threads_length seed from to order out :
  length (run_threads seed from to order out) = length out.
Proof.
  unfold run_threads. revert out. induction order as [|idx order IH]; intros out; [done|].
  cbn [foldl]. rewrite IH. unfold compute_segments, atomic_add. repeat case_match; try done.
  apply length_alter.
Qed.

Lemma contribution_perm k order order' : order ≡ₚ order' -> contribution k order = contribution k order'.
Proof. intros Hp. apply zsum_perm. by rewrite Hp. Qed.

(** The sum of one segment. *)
Definition segment_sum (k : Z) : Z := zsum ((fun t => weight (k * kSegLen + t)) <$> seqZ 0 kSegLen).

Lemma segment_sum_bounds k : 0 <= segment_sum k < 2 ^ 31.
Proof.
  unfold segment_sum.
  pose proof (zsum_bounds ((fun t => weight (k * kSegLen + t)) <$> seqZ 0 kSegLen) 65535) as H.
  rewrite length_fmap, length_seqZ in H. unfold kSegLen in *. rewrite Z2Nat.id in H by lia.
  assert (0 <= zsum ((fun t => weight (k * 1024 + t)) <$> seqZ 0 1024) <= 1024 * 65535); [|lia].
  apply H, Forall_fmap, Forall_forall. intros t _. apply weight_range.
Qed.

Lemma block_sum k b :
  zsum ((fun t => if (b * kSegLen + t) / kSegLen =? k then weight (b * kSegLen + t) else 0) <$>
          seqZ 0 kSegLen) = if b =? k then segment_sum k else 0.
Proof.
  assert (forall t, t ∈ seqZ 0 kSegLen -> (b * kSegLen + t) / kSegLen = b) as Hd.
  { intros t Ht%elem_of_seqZ. rewrite Z.div_add_l by done. rewrite Z.div_small by lia. lia. }
  assert ((fun t => if (b * kSegLen + t) / kSegLen =? k then weight (b * kSegLen + t) else 0) <$>
            seqZ 0 kSegLen =
          (fun t => if b =? k then weight (b * kSegLen + t) else 0) <$> seqZ 0 kSegLen) as ->.
  { apply list_fmap_ext. intros i t Ht. by rewrite Hd by by eapply list_elem_of_lookup_2. }
  destruct (Z.eqb_spec b k) as [->|_]; [done|].
  induction (seqZ 0 kSegLen) as [|t l IH]; [done|]. cbn [fmap list_fmap zsum].
  rewrite IH; [done|]. intros t' Ht'. apply Hd. by right.
Qed.

(** A sum over the threads, block by block. *)
Lemma grid_zsum f :
  zsum (f <$> grid) =
  zsum ((fun b => zsum ((fun t => f (b * kSegLen + t)) <$> seqZ 0 kSegLen)) <$>
          seqZ 0 (kTotal / kSegLen)).
Proof.
  unfold grid. generalize (seqZ 0 (kTotal / kSegLen)). intros l.
  induction l as [|b l IH]; [done|]. cbn [mbind list_bind fmap list_fmap zsum].
  rewrite fmap_app, zsum_app, IH, <- list_fmap_compose. done.
Qed.

Lemma grid_contribution k : 0 <= k < kSegments -> contribution k grid = segment_sum k.
Proof.
  intros Hk. unfold contribution. rewrite grid_zsum.
  rewrite <- (zsum_single k (segment_sum k) (seqZ 0 (kTotal / kSegLen))).
  - f_equal. apply list_fmap_ext. intros i b Hb. apply block_sum.
  - apply NoDup_seqZ.
  - apply elem_of_seqZ. unfold kTotal. rewrite Z.div_mul by done. lia.
Qed.

(** ** A launch over all segments *)

Definition segments : list Z := segment_sum <$> seqZ 0 kSegments.

Lemma length_segments : length segments = Z.to_nat kSegments.
Proof. unfold segments. by rewrite length_fmap, length_seqZ. Qed.

Lemma i32_id z : 0 <= z < 2 ^ 31 -> i32 z = z.
Proof. intros Hz. unfold i32. rewrite Z.mod_small; lia. Qed.

#[local] Opaque grid kTotal.

Lemma launch_result order :
  order ≡ₚ grid -> run_threads 7 0 kSegments order (replicate (Z.to_nat kSegments) 0) = segments.
Proof.
  intros Hp. apply list_eq. intros k.
  destruct (decide (Z.of_nat k < kSegments)) as [Hk|Hk].
  - rewrite (full_launch order _ k 0).
    + rewrite Z.add_0_l, (contribution_perm _ _ _ Hp), grid_contribution by lia.
      rewrite i32_id by apply segment_sum_bounds.
      unfold segments. by rewrite list_lookup_fmap, lookup_seqZ_lt.
    + rewrite Hp, grid_seq. apply Forall_forall. intros i Hi%elem_of_seqZ. lia.
    + apply lookup_replicate_2. lia.
    + reflexivity.
  - rewrite !lookup_ge_None_2; [done|rewrite length_segments; lia|].
    rewrite run_threads_length, length_replicate. lia.
Qed.

Lemma total_sum : zsum segments = zsum (weight <$> seqZ 0 kTotal).
Proof.
  rewrite <- grid_seq, grid_zsum. unfold segments.
  assert (kTotal / kSegLen = kSegments) as -> by (by vm_compute). done.
Qed.

(** ** The reference on the host *)

Lemma masked_seed v s : Z.land (Z.lxor v s) 2147483647 = Z.land (Z.lxor v (u32 s)) 2147483647.
Proof.
  change 2147483647 with (Z.ones 31). rewrite !Z.land_ones by lia.
  apply Z.bits_inj'. intros n Hn. destruct (Z.lt_ge_cases n 31) as [Hl|Hl].
  - rewrite !Z.mod_pow2_bits_low, !Z.lxor_spec by lia.
    unfold u32, wrap_u. by rewrite Z.mod_pow2_bits_low by lia.
  - by rewrite !Z.mod_pow2_bits_high by lia.
Qed.

Lemma input_weight i : Z.land (input_value 7 i) 65535 = weight i.
Proof.
  unfold input_value, weight, kernel_value.
  change (i64 (7 * 1103515245)) with 7724606715. change (7 * 1103515245) with 7724606715.
  rewrite masked_seed. rewrite i32_id; [done|].
  change 2147483647 with (Z.ones 31). rewrite Z.land_ones by lia.
  by apply Z.mod_pos_bound.
Qed.

Lemma inputs_weights (l : list Z) : (fun x => Z.land x 65535) <$> (input_value 7 <$> l) = weight <$> l.
Proof.
  induction l as [|i l IH]; [done|]. cbn [fmap list_fmap]. by rewrite input_weight, IH.
Qed.

Lemma reference_total : cpu_reference (fill_input 7) = long_sum segments.
Proof.
  unfold cpu_reference, fill_input. by rewrite inputs_weights, !long_sum_zsum, total_sum.
Qed.

#[local] Opaque segments.

(** ** The process *)

(** What holds of the library on a working device. *)
Record LawfulMachine (m : Machine) : Prop := {
  lm_schedule n : schedule m n ≡ₚ grid;
  lm_allocated n : length (allocated m n) = Z.to_nat kSegments }.

(** A part of the process goes on to a state with [Q], unless a call fails. *)
Definition goes {A} (m : Machine) (c : Cu A) (g : Gpu) (Q : A -> Gpu -> Prop) : Prop :=
  match c g with
  | (Go a, g') => Q a g'
  | (Return code, _) => code = 3 /\ exists n, fails m n = true
  | (Raise _, _) => False
  end.

Definition sized (g : Gpu) : Prop := length (dev g) = Z.to_nat kSegments.
Definition counts (g : Gpu) : nat * nat * nat := (allocs g, timed g, queried g).

Section Process.
Context (m : Machine) (Hm : LawfulMachine m).

Lemma goes_ret {A} (a : A) g (Q : A -> Gpu -> Prop) : Q a g -> goes m (p_ret a) g Q.
Proof. done. Qed.

Lemma goes_bind {A B} (c : Cu A) (k : A -> Cu B) g Q :
  goes m c g (fun a g' => goes m (k a) g' Q) -> goes m (p_bind c k) g Q.
Proof. unfold goes, p_bind. by destruct (c g) as [[a|code|e] g']. Qed.

Lemma goes_check {A} (call : Gpu -> A * Gpu) g (Q : A -> Gpu -> Prop) :
  (let r := call (MkGpu (dev g) (S (calls g)) (launched g) (allocs g) (timed g) (queried g)) in
   Q r.1 r.2) -> goes m (cuda_check m call) g Q.
Proof.
  unfold goes, cuda_check. destruct (fails m (calls g)) eqn:E; [by eauto|].
  destruct (call _) as [a g']. done.
Qed.

Lemma goes_launch seed from to g (Q : unit -> Gpu -> Prop) :
  (forall g', dev g' = run_threads seed from to (schedule m (launched g)) (dev g) ->
     counts g' = counts g -> Q tt g') -> goes m (launch_segments m seed from to) g Q.
Proof. intros H. by apply H. Qed.

Definition total : Z := u64 (long_sum segments).

Lemma copy_out_all d n : length d = n -> copy_out 0 n d = d.
Proof. intros <-. unfold copy_out. by rewrite drop_0, Nat.sub_0_r, firstn_all. Qed.

Lemma memset_all d n : length d = n -> memset_zero 0 n d = replicate n 0.
Proof.
  intros Hd. unfold memset_zero. rewrite (drop_ge d n) by lia.
  by rewrite app_nil_r, Nat.sub_0_r.
Qed.

(** The calls, with what they leave. *)
Lemma goes_memset from to g (Q : unit -> Gpu -> Prop) :
  (forall g', dev g' = memset_zero (Z.to_nat from) (Z.to_nat to) (dev g) ->
     counts g' = counts g -> Q tt g') -> goes m (cuda_memset m from to) g Q.
Proof. intros H. apply goes_check. by apply H. Qed.

Lemma goes_copy_out from to g (Q : list Z -> Gpu -> Prop) :
  (forall g', dev g' = dev g -> counts g' = counts g ->
     Q (copy_out (Z.to_nat from) (Z.to_nat to) (dev g)) g') ->
  goes m (memcpy_device_to_host m from to) g Q.
Proof. intros H. apply goes_check. by apply H. Qed.

Lemma goes_copy_in host g (Q : unit -> Gpu -> Prop) :
  (forall g', dev g' = copy_in host (dev g) -> counts g' = counts g -> Q tt g') ->
  goes m (memcpy_host_to_device m host) g Q.
Proof. intros H. apply goes_check. by apply H. Qed.

Lemma goes_call g (Q : unit -> Gpu -> Prop) :
  (forall g', dev g' = dev g -> counts g' = counts g -> Q tt g') -> goes m (cuda_call m) g Q.
Proof. intros H. apply goes_check. by apply H. Qed.

(** A launch with the copies around it, whatever it computes. *)
Lemma goes_kernel from to g (Q : Z -> Gpu -> Prop) :
  (forall g', dev g' = run_threads 7 from to (schedule m (launched g))
                         (memset_zero (Z.to_nat from) (Z.to_nat to) (dev g)) ->
     counts g' = counts g ->
     Q (u64 (long_sum (copy_out (Z.to_nat from) (Z.to_nat to) (dev g')))) g') ->
  goes m (run_kernel m 7 from to) g Q.
Proof.
  intros H. unfold run_kernel.
  apply goes_bind, goes_check. cbn [fst snd]. apply goes_bind. cbn [goes launch_segments].
  unfold goes at 1, launch_segments. apply goes_bind, goes_call. intros g1 D1 C1.
  apply goes_bind, goes_copy_out. intros g2 D2 C2. apply goes_ret.
  rewrite <- D2. apply H; [by rewrite D2, D1|by rewrite C2, C1].
Qed.

(** Whatever was in memory and whatever the order, the same sums. *)
Lemma goes_full g (Q : Z -> Gpu -> Prop) :
  sized g -> (forall g', dev g' = segments -> counts g' = counts g -> Q total g') ->
  goes m (run_kernel m 7 0 kSegments) g Q.
Proof.
  intros Hg H. apply goes_kernel. intros g' D C.
  change (Z.to_nat 0) with 0%nat in *. rewrite memset_all in D by exact Hg.
  rewrite launch_result in D by apply Hm.
  rewrite D, copy_out_all by apply length_segments. by apply H.
Qed.

Lemma goes_part from g (Q : Z -> Gpu -> Prop) :
  (Z.to_nat from <= Z.to_nat kSegments)%nat -> sized g ->
  (forall z g', sized g' -> counts g' = counts g -> Q z g') ->
  goes m (run_kernel m 7 from kSegments) g Q.
Proof.
  unfold sized. intros Hf Hg H. apply goes_kernel. intros g' D C. apply H; [|done].
  rewrite D, run_threads_length. unfold memset_zero.
  rewrite !length_app, length_take, length_replicate, length_drop. lia.
Qed.

(** What is measured keeps the size of the memory and reads no timer. *)
Definition quiet (fn : Cu unit) : Prop :=
  forall g (Q : unit -> Gpu -> Prop), sized g ->
  (forall g', sized g' -> counts g' = counts g -> Q tt g') -> goes m fn g Q.

Lemma goes_repeat n fn : quiet fn -> quiet (repeat_call n fn).
Proof.
  intros Hfn. induction n as [|n IH]; intros g Q Hg H; cbn [repeat_call].
  - apply goes_ret. by apply H.
  - apply goes_bind, Hfn; [done|]. intros g1 H1 C1. apply IH; [done|].
    intros g2 H2 C2. apply H; [done|congruence].
Qed.

Lemma goes_measure fn reps g (Q : Duration -> Gpu -> Prop) :
  quiet fn -> sized g ->
  (forall g', sized g' -> counts g' = (allocs g, S (timed g), queried g) ->
     Q (MkUnit (Z.quot (elapsed m (timed g)) (Z.of_nat reps))) g') ->
  goes m (measure m fn reps) g Q.
Proof.
  intros Hfn Hg H. unfold measure.
  apply goes_bind, goes_repeat; [done..|]. intros g1 H1 C1.
  apply goes_bind, goes_call. intros g2 D2 C2.
  apply goes_bind, goes_repeat; [done|unfold sized in *; congruence|]. intros g3 H3 C3.
  apply goes_bind, goes_call. intros g4 D4 C4. apply goes_bind, goes_call. intros g5 D5 C5.
  assert (counts g5 = counts g) as C by congruence.
  assert (timed g5 = timed g) as Ht by (unfold counts in C; congruence).
  apply goes_bind, goes_check. cbn [fst snd]. apply goes_ret. cbn [timed]. rewrite Ht. apply H.
  - unfold sized in *. cbn [dev]. congruence.
  - unfold counts in *. cbn [allocs timed queried]. congruence.
Qed.

Lemma copy_in_length c d : (length c <= length d)%nat -> length (copy_in c d) = length d.
Proof. intros H. unfold copy_in. rewrite length_app, length_drop. lia. Qed.
End Process.

(** ** The planner's choice between measured durations *)

Section Choice.
Context (fresh : bool) (dr dc : Duration).

Definition restore_candidate : RecoveryCandidate :=
  cuda_candidate RecoveryStrategy.RESTORE 11 dr (if fresh then MkUnit 100 else MkUnit 25) (MkUnit 0).
Definition recompute_candidate : RecoveryCandidate :=
  cuda_candidate RecoveryStrategy.RECOMPUTE 12 dc (MkUnit 100) (MkUnit 0).

#[local] Abbreviation key c := (candidate_key cuda_request (ctx cuda_planner) (MkUnit 0) c).
#[local] Abbreviation eligible c := (Eligible cuda_request (ctx cuda_planner) (MkUnit 0) c).

Lemma both_eligible : eligible restore_candidate /\ eligible recompute_candidate.
Proof.
  split; (split; [apply feasible_true; vm_compute; reflexivity|vm_compute; reflexivity]).
Qed.

(** With a fresh checkpoint the shorter duration wins, and RESTORE a tie; with a
    stale one RECOMPUTE preserves more. *)
Lemma keys_compared :
  lex_ltb (key restore_candidate) (key recompute_candidate) =
    (if fresh then if count dr <? count dc then true
                   else if count dc <? count dr then false else true else false) /\
  lex_ltb (key recompute_candidate) (key restore_candidate) =
    (if fresh then if count dc <? count dr then true
                   else if count dr <? count dc then false else false else true).
Proof.
  unfold restore_candidate, recompute_candidate.
  destruct dr, dc, fresh; split; vm_compute; reflexivity.
Qed.

Definition restore_wins : bool := fresh && (count dr <=? count dc).

Lemma best_candidate :
  BestOf cuda_request (ctx cuda_planner) (MkUnit 0)
    (Eligible cuda_request (ctx cuda_planner) (MkUnit 0)) (cuda_candidates fresh dr dc)
    (if restore_wins then restore_candidate else recompute_candidate).
Proof.
  destruct both_eligible as [Er Ec], keys_compared as [K1 K2].
  change (cuda_candidates fresh dr dc) with [restore_candidate; recompute_candidate].
  assert (lex_ltb (key restore_candidate) (key restore_candidate) = false /\
          lex_ltb (key recompute_candidate) (key recompute_candidate) = false) as [K3 K4].
  { split; apply lex_ltb_irrefl. }
  unfold restore_wins. destruct fresh; cbn [andb] in *.
  - destruct (Z.leb_spec (count dr) (count dc)) as [Hle|Hlt].
    + split; [by left|]. split; [done|]. intros c Hc _.
      apply elem_of_cons in Hc as [->|Hc]; [exact K3|]. apply list_elem_of_singleton in Hc as ->.
      rewrite K2. destruct (Z.ltb_spec (count dc) (count dr)); [lia|]. by destruct (_ <? _).
    + split; [by right; left|]. split; [done|]. intros c Hc _.
      apply elem_of_cons in Hc as [->|Hc]; [|by apply list_elem_of_singleton in Hc as ->].
      rewrite K1. destruct (Z.ltb_spec (count dr) (count dc)); [lia|].
      by destruct (Z.ltb_spec (count dc) (count dr)); [|lia].
  - split; [by right; left|]. split; [done|]. intros c Hc _.
    apply elem_of_cons in Hc as [->|Hc]; [exact K1|]. by apply list_elem_of_singleton in Hc as ->.
Qed.

Lemma cuda_distinct : DistinctIdentities (cuda_candidates fresh dr dc).
Proof.
  apply distinct_identities.
  change (identity_of <$> cuda_candidates fresh dr dc) with [(11, 11, 0); (12, 12, 6)].
  apply (bool_decide_unpack _). vm_compute. exact I.
Qed.

Lemma cuda_decision {sorter : StdSort} :
  exists p, de_plan (plan cuda_request (cuda_candidates fresh dr dc) (MkUnit 0) cuda_planner).1 = Some p /\
    p_strategy p = if restore_wins then RecoveryStrategy.RESTORE else RecoveryStrategy.RECOMPUTE.
Proof.
  destruct (plan_decides cuda_request (cuda_candidates fresh dr dc) (MkUnit 0) cuda_planner)
    as (choice & D & R).
  destruct (decision_unique _ _ _ _ _ _ _ _ cuda_distinct D
              (decide_found _ _ _ _ _ best_candidate)) as [_ ->].
  unfold Refines in R. destruct (de_plan _) as [p|]; [|done]. exists p. split; [done|].
  rewrite (plan_for_strategy _ _ _ _ _ _ _ R). by destruct restore_wins.
Qed.
End Choice.

(** ** A whole case *)

Section Case.
Context (m : Machine) (Hm : LawfulMachine m).

(** Restoring the whole checkpoint gives the whole sum, and so does recomputing. *)
Lemma execute_result (fresh : bool) s checkpoint g (Q : Z -> Gpu -> Prop) :
  s = RecoveryStrategy.RECOMPUTE \/ s = RecoveryStrategy.RESTORE /\ checkpoint = segments ->
  sized g -> (forall g', counts g' = counts g -> Q total g') ->
  goes m (execute_strategy m s checkpoint) g Q.
Proof.
  intros Hs Hg H. unfold execute_strategy. destruct Hs as [->|[-> ->]].
  - rewrite bool_decide_eq_false_2 by discriminate.
    apply goes_full; [done|done|]. intros g' _ C. by apply H.
  - rewrite bool_decide_eq_true_2 by done. rewrite length_segments, Z2Nat.id by done.
    rewrite Z.ltb_irrefl. apply goes_bind, goes_copy_in. intros g1 D1 C1.
    assert (dev g1 = segments) as E.
    { rewrite D1. unfold copy_in. rewrite length_segments, drop_ge by (rewrite Hg; done).
      apply app_nil_r. }
    apply goes_bind, goes_copy_out. intros g2 D2 C2. apply goes_ret.
    change (Z.to_nat 0) with 0%nat. rewrite E, copy_out_all by apply length_segments.
    apply H. congruence.
Qed.

(** The checkpoint taken from the segments. *)
Definition checkpoint_of (fresh : bool) : list Z :=
  copy_out 0 (Z.to_nat (if fresh then kSegments else kSegments / 4)) segments.

Lemma checkpoint_length (fresh : bool) :
  length (checkpoint_of fresh) = Z.to_nat (if fresh then kSegments else kSegments / 4).
Proof.
  unfold checkpoint_of, copy_out. rewrite drop_0, length_take, length_segments.
  destruct fresh; [lia|]. rewrite Nat.sub_0_r. apply Nat.min_l.
  apply Nat.leb_le. vm_compute. reflexivity.
Qed.

Lemma restore_quiet (fresh : bool) :
  quiet m (restore_once m (checkpoint_of fresh) (if fresh then kSegments else kSegments / 4)).
Proof.
  intros g Q Hg H. unfold restore_once. apply goes_bind, goes_copy_in. intros g1 D1 C1.
  assert (sized g1) as H1.
  { unfold sized in *. rewrite D1, copy_in_length; [done|]. rewrite checkpoint_length, Hg.
    destruct fresh; [done|]. apply Nat.leb_le. vm_compute. reflexivity. }
  destruct (_ <? kSegments); [|by apply goes_ret, H].
  apply goes_bind, goes_part; [|done|].
  - destruct fresh; [done|]. apply Nat.leb_le. vm_compute. reflexivity.
  - intros z g2 H2 C2. apply goes_ret, H; [done|congruence].
Qed.

Lemma recompute_quiet : quiet m (p_bind (run_kernel m 7 0 kSegments) (fun _ => p_ret tt)).
Proof.
  intros g Q Hg H. apply goes_bind, goes_full; [done|done|]. intros g1 D1 C1.
  apply goes_ret, H; [|done]. unfold sized. rewrite D1. apply length_segments.
Qed.

(** The duration a reading of the timer gives. *)
Definition measured (n : nat) : Duration := MkUnit (Z.quot (elapsed m n) 20).

Definition chosen (fresh : bool) (n : nat) : RecoveryStrategy.t :=
  if restore_wins fresh (measured (S n)) (measured n) then RecoveryStrategy.RESTORE
  else RecoveryStrategy.RECOMPUTE.

Lemma run_case_result {sorter : StdSort} fresh g (Q : RecoveryStrategy.t -> Gpu -> Prop) :
  (forall g', counts g' = (S (allocs g), S (S (timed g)), queried g) ->
     Q (chosen fresh (timed g)) g') ->
  goes m (run_case m fresh (cpu_reference (fill_input 7))) g Q.
Proof.
  intros H. unfold run_case. apply goes_bind, goes_check. cbn [fst snd].
  set (g0 := MkGpu _ _ _ _ _ _).
  assert (sized g0) as H0 by apply Hm.
  assert (counts g0 = (S (allocs g), timed g, queried g)) as C0 by done. clearbody g0.
  apply goes_bind, goes_call. intros g1 D1 C1. apply goes_bind, goes_call. intros g2 D2 C2.
  apply goes_bind, goes_full; [done|unfold sized in *; congruence|]. intros g3 D3 C3.
  apply goes_bind, goes_copy_out. intros g4 D4 C4. change (Z.to_nat 0) with 0%nat.
  rewrite D3. fold (checkpoint_of fresh).
  assert (sized g4) as H4 by (unfold sized; rewrite D4, D3; apply length_segments).
  assert (counts g4 = (S (allocs g), timed g, queried g)) as E4 by congruence.
  apply goes_bind, goes_measure; [exact recompute_quiet|done|]. intros g5 H5 C5.
  apply goes_bind, goes_measure; [apply restore_quiet|done|]. intros g6 H6 C6.
  apply goes_bind, goes_full; [done|done|]. intros g7 D7 C7.
  rewrite Z.eqb_refl. cbn [negb].
  injection E4 as Ea Et Eq. injection C5 as Ea5 Et5 Eq5.
  rewrite Et5, Et. fold (measured (timed g)) (measured (S (timed g))).
  change (Z.of_nat 20) with 20. fold (measured (timed g)) (measured (S (timed g))).
  destruct (cuda_decision fresh (measured (S (timed g))) (measured (timed g))) as (p & -> & ->).
  fold (chosen fresh (timed g)).
  apply goes_bind, goes_memset. intros g8 D8 C8.
  assert (sized g8) as H8.
  { unfold sized. change (Z.to_nat 0) with 0%nat in D8.
    rewrite D8, memset_all by (rewrite D7; apply length_segments). apply length_replicate. }
  apply goes_bind, (execute_result fresh); [|done|].
  { unfold chosen. destruct (restore_wins fresh _ _) eqn:Ew; [right|by left].
    unfold restore_wins in Ew. apply andb_true_iff in Ew as [-> _].
    split; [done|]. apply copy_out_all, length_segments. }
  intros g9 C9. rewrite reference_total. fold total. rewrite Z.eqb_refl. cbn [negb].
  apply goes_bind, goes_call. intros g10 D10 C10. apply goes_bind, goes_call. intros g11 D11 C11.
  apply goes_bind, goes_check. cbn [fst snd]. apply goes_ret, H.
  change (counts g11 = (S (allocs g), S (S (timed g)), queried g)).
  rewrite C11, C10, C9, C8, C7, C6. congruence.
Qed.
End Case.

(** ** Failing calls

    The same machine with a library whose calls succeed; what the program does on
    [m] is what it does there until the first call that fails. *)

Definition faultless (m : Machine) : Machine :=
  MkMachine (fun _ => false) (schedule m) (allocated m) (elapsed m) (free_memory m).

(** A call numbered from [a] up to [b] fails. *)
Definition fails_in (m : Machine) (a b : nat) : bool := existsb (fails m) (seq a (b - a)).

Lemma fails_in_split m a b c :
  (a <= b <= c)%nat -> fails_in m a c = fails_in m a b || fails_in m b c.
Proof.
  intros H. unfold fails_in. replace (c - a)%nat with ((b - a) + (c - b))%nat by lia.
  rewrite seq_app, existsb_app. by replace (a + (b - a))%nat with b by lia.
Qed.

Lemma fails_in_true m b : fails_in m 0 b = true <-> exists n, (n < b)%nat /\ fails m n = true.
Proof.
  unfold fails_in. rewrite Nat.sub_0_r, existsb_exists.
  split; intros (n & Hn & Hf); exists n; (split; [|exact Hf]); apply in_seq in Hn || apply in_seq; lia.
Qed.

(** [p] is [p0] stopped with code 3 at the first failing call, if there is one. *)
Definition tracks {A} (m : Machine) (p0 p : Cu A) : Prop :=
  forall g, (calls g <= calls (p0 g).2)%nat /\
    if fails_in m (calls g) (calls (p0 g).2) then (p g).1 = Return 3 else p g = p0 g.

Section Tracks.
Context (m : Machine).

(** Parts that make no call. *)
Lemma tracks_same {A} (p : Cu A) : (forall g, calls (p g).2 = calls g) -> tracks m p p.
Proof.
  intros Hp g. rewrite Hp. unfold fails_in. rewrite Nat.sub_diag. by split; [lia|].
Qed.

Lemma tracks_ret {A} (a : A) : tracks m (p_ret a) (p_ret a).
Proof. by apply tracks_same. Qed.

Lemma tracks_exit {A} code : tracks m (p_exit code : Cu A) (p_exit code).
Proof. by apply tracks_same. Qed.

Lemma tracks_launch seed from to :
  tracks m (launch_segments (faultless m) seed from to) (launch_segments m seed from to).
Proof. by apply tracks_same. Qed.

Lemma tracks_bind {A B} (p0 p : Cu A) (k0 k : A -> Cu B) :
  tracks m p0 p -> (forall a, tracks m (k0 a) (k a)) -> tracks m (p_bind p0 k0) (p_bind p k).
Proof.
  intros Hp Hk g. destruct (Hp g) as [Hle Hf]. unfold p_bind.
  destruct (p0 g) as [[a|code|e] g1]; cbn [snd] in *.
  - destruct (Hk a g1) as [Hle2 Hf2]. split; [lia|].
    rewrite (fails_in_split m (calls g) (calls g1)) by lia.
    destruct (fails_in m (calls g) (calls g1)); cbn [orb].
    + destruct (p g) as [r g']. cbn [fst] in Hf. by rewrite Hf.
    + by rewrite Hf.
  - split; [exact Hle|]. destruct (fails_in _ _ _); [|by rewrite Hf].
    destruct (p g) as [r g']. cbn [fst] in Hf. by rewrite Hf.
  - split; [exact Hle|]. destruct (fails_in _ _ _); [|by rewrite Hf].
    destruct (p g) as [r g']. cbn [fst] in Hf. by rewrite Hf.
Qed.

Lemma tracks_check {A} (call : Gpu -> A * Gpu) :
  (forall g, calls (call g).2 = calls g) ->
  tracks m (cuda_check (faultless m) call) (cuda_check m call).
Proof.
  intros Hc g. unfold cuda_check. cbn [fails faultless].
  set (g' := MkGpu _ _ _ _ _ _). specialize (Hc g').
  destruct (call g') as [a g2]. cbn [snd] in *. rewrite Hc. cbn [calls g']. split; [lia|].
  unfold fails_in. replace (S (calls g) - calls g)%nat with 1%nat by lia. cbn [seq existsb].
  rewrite orb_false_r. by destruct (fails m (calls g)).
Qed.

Lemma tracks_repeat n (p0 p : Cu unit) : tracks m p0 p -> tracks m (repeat_call n p0) (repeat_call n p).
Proof.
  intros Hp. induction n as [|n IH]; cbn [repeat_call]; [apply tracks_ret|].
  by apply tracks_bind.
Qed.
End Tracks.

Create HintDb tracking.
#[local] Hint Resolve tracks_ret tracks_exit tracks_launch tracks_repeat : tracking.
#[local] Hint Extern 1 (tracks _ (cuda_check _ _) _) => apply tracks_check; done : tracking.
#[local] Hint Extern 2 (tracks _ (p_bind _ _) _) => apply tracks_bind; [|intros ?] : tracking.
#[local] Hint Extern 3 (tracks _ (if ?b then _ else _) _) => destruct b : tracking.
#[local] Hint Extern 3 (tracks _ (match ?o with Some _ => _ | None => _ end) _) => destruct o : tracking.
Ltac tracking := eauto 30 with tracking.

Lemma tracks_kernel m seed from to :
  tracks m (run_kernel (faultless m) seed from to) (run_kernel m seed from to).
Proof. unfold run_kernel, cuda_memset, cuda_call, memcpy_device_to_host. tracking. Qed.

Lemma tracks_measure m (fn0 fn : Cu unit) reps :
  tracks m fn0 fn -> tracks m (measure (faultless m) fn0 reps) (measure m fn reps).
Proof. intros Hfn. unfold measure, cuda_call, event_elapsed_time. tracking. Qed.

#[local] Hint Resolve tracks_kernel tracks_measure : tracking.

Lemma tracks_restore_once m cp at_ :
  tracks m (restore_once (faultless m) cp at_) (restore_once m cp at_).
Proof. unfold restore_once, memcpy_host_to_device. tracking. Qed.

Lemma tracks_execute m st cp :
  tracks m (execute_strategy (faultless m) st cp) (execute_strategy m st cp).
Proof. unfold execute_strategy, memcpy_host_to_device, memcpy_device_to_host. cbv zeta. tracking. Qed.

#[local] Hint Resolve tracks_restore_once tracks_execute : tracking.

Lemma tracks_case {sorter : StdSort} m fresh ref :
  tracks m (run_case (faultless m) fresh ref) (run_case m fresh ref).
Proof.
  unfold run_case, cuda_malloc, cuda_call, cuda_free, cuda_memset, memcpy_device_to_host.
  cbv zeta. tracking.
Qed.
#[local] Hint Resolve tracks_case : tracking.

Lemma tracks_cases {sorter : StdSort} m : tracks m (cuda_cases (faultless m)) (cuda_cases m).
Proof. unfold cuda_cases, mem_get_info. cbv zeta. tracking. Qed.

(** The first call of the program, the reading of the free memory. *)
Lemma first_call {sorter : StdSort} m : (0 < calls (cuda_cases (faultless m) new_gpu).2)%nat.
Proof.
  assert (forall p0 p : Cu (RecoveryStrategy.t * RecoveryStrategy.t * bool), tracks m p0 p ->
    forall g, calls g = 1%nat -> (0 < calls (p0 g).2)%nat) as H.
  { intros p0 p Hp g Hg. destruct (Hp g) as [Hle _]. lia. }
  unfold cuda_cases, p_bind at 1. cbn [mem_get_info cuda_check fails faultless]. cbv zeta.
  apply H with (p := p_bind (run_case m true (cpu_reference (fill_input 7))) (fun s1 =>
    p_bind (run_case m false (cpu_reference (fill_input 7))) (fun s2 =>
    p_bind (mem_get_info m) (fun free1 =>
    p_ret (s1, s2, u64 (free_memory m 0 - Z.shiftl 1 20) <=? free1))))); [|reflexivity].
  unfold mem_get_info. tracking.
Qed.

Lemma main_calls {sorter : StdSort} m : (cuda_main m new_gpu).2 = (cuda_cases m new_gpu).2.
Proof. unfold cuda_main, p_bind. by destruct (cuda_cases m new_gpu) as [[]]. Qed.

Lemma cases_result {sorter : StdSort} m :
  LawfulMachine m ->
  goes m (cuda_cases m) new_gpu (fun r _ =>
    r = (chosen m true 0, RecoveryStrategy.RECOMPUTE,
         u64 (free_memory m 0 - 2 ^ 20) <=? free_memory m 1)).
Proof.
  intros Hm. unfold cuda_cases. apply goes_bind, goes_check. cbn [fst snd].
  apply goes_bind, run_case_result; [done|]. intros g1 C1.
  apply goes_bind, run_case_result; [done|]. intros g2 C2.
  cbn [allocs timed queried] in C1. injection C1 as Ea Et Eq.
  rewrite Ea, Et, Eq in C2. injection C2 as Ea2 Et2 Eq2.
  apply goes_bind, goes_check. cbn [fst snd queried]. rewrite Eq2. apply goes_ret. done.
Qed.

Lemma goes_faultless {A} m (p : Cu A) g (Q : A -> Gpu -> Prop) :
  (forall n, fails m n = false) -> goes m p g Q -> exists a, (p g).1 = Go a /\ Q a (p g).2.
Proof.
  intros Hn. unfold goes. destruct (p g) as [[a|code|e] g']; [by exists a| |done].
  intros (_ & n & Hf). by rewrite Hn in Hf.
Qed.

(** The run in which no call fails. *)
Lemma faultless_cases {sorter : StdSort} m :
  LawfulMachine m ->
  (cuda_cases (faultless m) new_gpu).1 =
    Go (chosen m true 0, RecoveryStrategy.RECOMPUTE,
        u64 (free_memory m 0 - 2 ^ 20) <=? free_memory m 1).
Proof.
  intros [Hs Ha]. assert (LawfulMachine (faultless m)) as Hm by by split.
  destruct (goes_faultless (faultless m) _ _ _ (fun _ => eq_refl) (cases_result _ Hm))
    as (r & -> & ->). reflexivity.
Qed.

(** C32: The GPU demonstration ends well or for a reason outside the program,
    exactly.  Let [made] be the calls of the library it makes when none fails.  If
    one of these fails, the process exits with code 3.  If none does, then in
    whatever order the threads of each launch run, whatever is measured and
    whatever fresh memory holds, no check of the program fails (the recomputed
    sums agree, a plan is found and the executed recovery gives the host's
    reference sum): with a fresh checkpoint RESTORE was executed exactly when it
    measured no longer than RECOMPUTE, with a stale one RECOMPUTE was however slow
    it measured, and the exit code is 0 exactly when the device reports as much
    free memory as at the start, less a megabyte, and else 7. *)
Theorem cuda_recovers {sorter : StdSort} m :
  LawfulMachine m ->
  let made := calls (cuda_main (faultless m) new_gpu).2 in
  ((exists n, (n < made)%nat /\ fails m n = true) -> exit_code (cuda_main m new_gpu).1 = Some 3) /\
  ((forall n, (n < made)%nat -> fails m n = false) ->
   let baseline := u64 (free_memory m 0 - 2 ^ 20) <=? free_memory m 1 in
   (cuda_cases m new_gpu).1 =
     Go (if count (measured m 1) <=? count (measured m 0) then RecoveryStrategy.RESTORE
         else RecoveryStrategy.RECOMPUTE, RecoveryStrategy.RECOMPUTE, baseline) /\
   exit_code (cuda_main m new_gpu).1 = Some (if baseline then 0 else 7)).
Proof.
  intros Hm. cbv zeta. rewrite main_calls. pose proof (faultless_cases m Hm) as Hr.
  destruct (tracks_cases m new_gpu) as [_ Ht]. change (calls new_gpu) with 0%nat in Ht.
  rewrite <- fails_in_true. unfold cuda_main, p_bind. split.
  - intros Hf. rewrite Hf in Ht. destruct (cuda_cases m new_gpu) as [r g]. cbn [fst] in Ht.
    by subst r.
  - intros Hn. destruct (fails_in m 0 _) eqn:Hf.
    { apply fails_in_true in Hf as (n & Hlt & Hn'). by rewrite Hn in Hn'. }
    rewrite Ht. destruct (cuda_cases (faultless m) new_gpu) as [r g]. cbn [fst] in *. subst r.
    by split.
Qed.

(** A device that counts: the threads in opposite orders in alternate launches,
    and no failing call. *)
Definition demo_machine : Machine :=
  MkMachine (fun _ => false) (fun n => if Nat.even n then grid else reverse grid)
    (fun n => replicate (Z.to_nat kSegments) (Z.of_nat n)) (fun n => 100 * Z.of_nat n)
    (fun _ => 2 ^ 30).

(** The same, when its first call fails. *)
Definition dead_machine : Machine :=
  MkMachine (fun n => Nat.eqb n 0) (schedule demo_machine) (allocated demo_machine)
    (elapsed demo_machine) (free_memory demo_machine).

Lemma demo_lawful : LawfulMachine demo_machine.
Proof.
  split; intros n; cbn [schedule allocated demo_machine].
  - destruct (Nat.even n); [reflexivity|apply reverse_Permutation].
  - apply length_replicate.
Qed.

Lemma cuda_recovers_witness :
  exit_code (cuda_main (sorter := insertion_std_sort) demo_machine new_gpu).1 = Some 0 /\
  exit_code (cuda_main (sorter := insertion_std_sort) dead_machine new_gpu).1 = Some 3.
Proof.
  split.
  - destruct (cuda_recovers (sorter := insertion_std_sort) demo_machine demo_lawful) as [_ H].
    destruct H as [_ Hc]; [done|]. exact Hc.
  - assert (LawfulMachine dead_machine) as Hm by (split; apply demo_lawful).
    apply (cuda_recovers (sorter := insertion_std_sort) dead_machine Hm).
    exists 0%nat. split; [|reflexivity]. rewrite main_calls. apply first_call.
Defined.
